(* ===== verification/_CoqProject ===== *)
-Q . S2P
Prelude.v
RustStd.v
RustStr.v
Trace.v
CType.v
EbAbi.v
EbNet.v
EbTask.v
PmAbi.v
PmNet.v
PmTask.v
Mem.v
Bpf.v
Io.v
PortMirror.v
PortMirrorSpec.v
PortMirrorUser.v
PortMirrorUserSpec.v
PortMirrorTheorems.v
XdpDump.v
XdpDumpTheorems.v
Erspan.v
ErspanTheorems.v
FuncProbe.v
FuncProbeTheorems.v
FuncProbeShow.v
FuncProbeShowTheorems.v
Ffi.v
Headers.v
Proxy.v
ProxyTheorems.v
P2p.v
CsvMerge.v
CsvMergeTheorems.v
Todo.v
TodoTheorems.v
Lldp.v
LldpTheorems.v
LldpDaemon.v
LldpDaemonTheorems.v
Sockets.v
AsyncSocket.v
AsyncSocketTheorems.v
Topo.v
TopoTheorems.v
TopoPacket.v
TopoPacketTheorems.v
TopoSystem.v
TopoSystemTheorems.v
TopoNetwork.v
TopoSockets.v
TopoSocketsTheorems.v
ForwarderRun.v
ForwarderRunTheorems.v
Forwarder.v
ForwarderTheorems.v
ForwarderLog.v
Echo.v
EchoTheorems.v
