(* ===== verification/Prelude.v ===== *)
(** * A verification library for the C programs of the repository

    The repository collects small systems programs.  Its C code is of two kinds: four eBPF tools
    under [ebpf/] -- C programs that run in the kernel, each with a Rust loader -- and two
    foreign-function examples under [ffi/].  This library models all of it, with the loaders and the
    sample decoder the C code works with, and proves what makes the pieces correct, alone and
    together; of the Rust programs without C code it models the LLDP daemon, the topology prober, the
    command forwarder, the echo server, the TCP proxy, the asynchronous sockets, the CSV merger and
    the list of the web application, and the arguments of the peer-to-peer example.

    ** The parts of the program and where they are modelled

    - The memory the programs share with the kernel and with user space.  An eBPF program is
      written against [vmlinux.h], a dump of the types of one kernel; every access is a path into
      one of them.  [CType] describes C types deeply (integers, pointers, enumerations, arrays,
      structs, unions, bit-fields, packed and anonymous members) and computes the layout the
      x86-64 ABI gives them; [Mem] gives typed loads and stores on bytes by those layouts.
      [EbAbi], [EbNet] and [EbTask] hold the declarations of the header shared by [erspan],
      [funcprobe] and [xdpdump]; [PmAbi], [PmNet] and [PmTask] those of the older kernel that
      [portmirror] is built for.  Each contains what the programs name, the kernel objects behind
      their contexts, and everything these contain by value.  [Headers] has their theorems.
    - The environment of an eBPF program.  [Bpf]: a run is a value of [prog], a log of effects
      (messages, cloned packets, samples) with a result that is absent when the run faults.  Maps
      and byte order are classes ([bpf_map], [bpf_endian]) with the documented laws of the
      helpers; instances at the end of the file satisfy them.
    - The environment of a loader.  [Io]: a computation of calls that may fail, with the error
      propagation of [?]; an oracle decides each outcome, so that theorems about every oracle hold
      for every pattern of failures.
    - [portmirror]: [PortMirror] is [portmirror.bpf.c], one definition per stretch of the C
      function ([parse_l3], [parse_ports], [print_packet], [build_key], [print_key],
      [apply_filter], [clone_to_mirror]) composed by [port_mirror]; its state is the record
      [globals], the configuration byte and the two maps.  [PortMirrorSpec] states what it
      promises: a reference parser over byte offsets, the lookup key of a flow, and the decision
      to mirror as a function; the C function refines it.  [PortMirrorUser] is [main.rs], from the
      options to the attached hooks; [PortMirrorUserSpec] relates the options to the keys of the
      specification and describes the hooks after a run; [PortMirrorTheorems] has the properties.
    - [xdpdump]: [XdpDump] (program, address parser, loader), [XdpDumpTheorems].
    - [erspan]: [Erspan] (program, map of ports, loader), [ErspanTheorems].
    - [funcprobe]: [FuncProbe] (the event of [funcprobe.h], the four programs, the decoder and the
      loader of [main.rs]), [FuncProbeTheorems]; [FuncProbeShow] (the lines printed for a stack,
      the loop over the ring buffer, the search for a symbol), [FuncProbeShowTheorems].
    - [ffi/rustcc], [ffi/ccrust] and [py3/string_sum]: [Ffi], a module for each.
    - Programs of tasks.  [Trace]: runs as lists of turns of a partial step function, and the
      inductions over them; the programs below that have tasks define a type [label] of turns and
      [step], the code a task runs from one suspension point to the next.
    - [network/lldp]: [Lldp] (the decoder of [pdu.rs], with a module for each file of [tlv/], and
      what the daemon prints for a frame), [LldpTheorems]; [LldpDaemon] ([main.rs]: the search for
      interfaces; main and the tasks of the interfaces, on the threads of the runtime),
      [LldpDaemonTheorems].
    - [network/topology]: [Topo] (interfaces and sysfs, addresses, the notation of VLANs, from
      [lib.rs]) with [TopoTheorems]; [TopoPacket] ([packet.rs], against a class of accessors of
      the packet library) with [TopoPacketTheorems], which also has an implementation of the
      class; [TopoSystem] ([main.rs]: the record [host_state] has the two channels, the topology
      and what each task is at; [step] is a turn of a task; [net_step] a network of hosts) with
      [TopoSystemTheorems] for one host and [TopoNetwork] for the network; [TopoSockets] (the
      receivers with their sockets, from their start: [node_step] contains the turns of [step]) with
      [TopoSocketsTheorems].
    - [Sockets]: the packet sockets that [network/topology] and [async/async-socket] share, call by
      call, with their queue and the readiness kept by [AsyncFd].  [AsyncSocket]: the tasks of
      [async/async-socket], with [AsyncSocketTheorems].
    - [network/forwarder]: [ForwarderRun] ([run_cmd]: [step] is a turn of the forwarder or of the
      command, which are connected by three pipes; the process library takes any of the turns its
      documentation allows) with [ForwarderRunTheorems]; [Forwarder] ([handle_stream] and [main])
      with [ForwarderTheorems]; [ForwarderLog] ([log.rs], with its theorems).
    - [network/echoserver]: [Echo] (the workers of the UDP server, the channel to the task that
      prints; the TCP server; both clients), [EchoTheorems].
    - [network/proxy]: [Proxy] (the loop over [accept] and [connect], and the tasks of the clients, of
      whose copying only the return is seen), [ProxyTheorems].
    - [network/p2p]: [P2p] (the addresses and keys of the command line, with their theorems).
    - [file/csvmerge]: [CsvMerge], [CsvMergeTheorems].
    - [wasm/nas/frontend]: [Todo] (the state of the page, the handlers of its events, the page as a
      function of the state), [TodoTheorems], which has the reference it is compared with: a list
      of entries in the order they were made.
    - [RustStd]: the functions of the Rust standard library that the loaders and decoders use --
      slices that panic, UTF-8 and its lossy conversion, the parser of IPv4 addresses -- and
      [RustStr]: trimming, splitting, numbers and their notation, sorted vectors.

    ** What the theorems show

    - Safety: no run of [port_mirror] or [xdp_dump] reads outside its packet, whatever the packet,
      and each returns the pass verdict; the only variable read before it is assigned is one that
      the debug output prints ([port_mirror_total]); the decoder of samples panics exactly on events
      whose sizes overrun their arrays, and never on an event a probe sent.
    - Refinement and functional behaviour: [port_mirror] refines its specification up to debug
      output; [xdp_dump], [erspan_get_tunnel], [get_stack] and [event_handler] equal reference
      definitions over byte offsets, on every branch.
    - End to end: the packets a port mirror clones are those that match the options its loader was
      given, when the addresses are of one family and no IPv6 destination is asked for; the messages
      of the tracer are those for the address on its command line; the stacks the decoder shows are
      the words the kernel wrote, and their addresses can be read back from the lines printed.
    - Invariants of the loaders under every pattern of failures: what is attached is the program of
      its interface; other interfaces are left alone; a rejected argument attaches nothing.
    - The LLDP decoder: it terminates on every frame; a frame made of TLVs of at most 255 bytes
      decodes to what its TLVs decode to one by one, which are the values they carry.
    - The topology prober: what one host builds another parses, and the buffers suffice. In any run
      in which the kernel does its part (the calls whose results are unwrapped succeed, a socket
      receives the packets of its own interface) no task panics, the topology of a host is exactly
      what it received, and its screen is not stale; every message is recorded and, when no send
      fails, every probe is sent and every request answered, within a number of turns; in every
      state a network of hosts can reach, every connection shown exists. The list of VLANs shown is
      the list kept. With its sockets, under the same conditions, a host receives the frames that
      arrive on its interfaces, in order, and its topology is what they say ([frames_are_received],
      [topology_of_frames]); frames of other interfaces that arrive before a socket is bound can
      leave the screen stale ([unbound_socket_stale_screen]).
    - The asynchronous sockets print every frame of their protocol ([frames_printed]) and sleep when
      there is nothing to read; a task that awaits the other future wakes itself all the time
      ([reads_sleep]).
    - The command forwarder: on an input that fits the pipe every schedule of forwarder and command
      ends, with the output of the command on its own, and a request whose reads but the last are
      multiples of 4096 bytes is answered with it; an input longer than both pipes, and what the
      command holds back, hangs a command that answers as it reads ([large_echo_hangs]), a command
      that does not read its input is sometimes reported as failed ([unread_input_races]), and a
      request in several segments is cut ([forwarder_cuts_segments]).
    - The LLDP daemon: under every schedule the lines of an interface are those of its frames
      ([neighbours_shown]); a frame can end the capture of its interface ([bad_frame_ends_capture]),
      interfaces beyond the number of threads are never heard ([lldp_interfaces_starve]), and the
      lines of two neighbours can mix ([neighbours_mixed]).
    - The echo server: under every schedule only failed sends lose a datagram ([echo_conserves]),
      and when no call fails each is answered once, with its own bytes and to its sender
      ([echo_answers_all]); a line comes back to the client ([udp_round_trip], [tcp_round_trip]).
      The proxy: every client accepted has a task of its own, but the one that could not be
      connected, with whom the proxy stops ([clients_have_tasks]).
    - The web application shows what a list of entries in order of creation would ([page_of_run]),
      and no event panics ([events_handled]). The CSV merger writes the rows of the files, and
      running it again changes nothing ([merged_rows]).
    - Layout: distinct members of a header type are disjoint, stores are read back; the layouts that
      C and Rust each declare for keys and events agree; the two kernels agree on the types and
      helper numbers that are an interface.
    - Where the code does something else than it means to, the theorem states what it does: the
      destination of an IPv6 packet is never compared ([ipv6_destination_ignored] and its two
      consequences for users), an unassigned variable is printed ([port_mirror_total]), the tracer
      compares the target address ([xdp_dump_ignores_sender]) and skips the smallest frame (the 43
      bytes [xdp_dump_trace] asks for), a probed kernel function sends two samples per call
      ([samples_per_call]), LLDP frames with a TLV of 256 bytes or more are rejected
      ([lldp_long_tlv_rejected]), an empty identifier makes the LLDP decoder panic
      ([lldp_empty_id_panics]) and a chassis address is shifted by a byte ([lldp_chassis_mac]), and
      a physical device that is neither up nor down makes the topology prober panic ([nics_scan]).

    ** Conventions

    Integers are [Z]; a value read from memory has the range of its width by construction, and
    conversions are written out ([wrap], [signed]).  A pointer into a packet is an address, and a
    load outside the packet's region is a fault.  Addresses are not wrapped at 64 bits: a packet
    lies well inside the address space.

    Four kinds of loops have fuel.  The two of [print_key] make eight iterations, and nine tests
    are allowed.  [from_bytes] of the LLDP decoder advances by two bytes at least and is given one
    iteration per byte and one more; that this is enough is [lldp_parser_total].  The loops over
    the characters of a text consume a byte at least ([utf8_step_progress]) and are given one
    iteration per byte; trimming a text likewise.  The runs of [Trace] need no fuel: a run is a
    list, and where a program comes to an end a measure bounds its length.  The digits of a number
    are computed with one iteration per binary digit ([radix_digits]).

    ** What is not modelled

    The kernel, libbpf, the symboliser and the generated skeletons: they are parameters with the
    laws the code relies on. What the loaders print, except the decoder of samples. The declarations
    of [vmlinux.h] that the programs do not reach. What [topology] and [forwarder] write to their
    logs, and commands of [forwarder] that leave processes behind when they end. In [echoserver] and
    [proxy], making the sockets; in [proxy], how the library copies between two sockets. In
    [csvmerge], the parser of the files. In [p2p], the behaviour of the network library. The load
    balancer, and the server of the web application: they only configure libraries, whose behaviour
    is not in the sources. *)

From Stdlib Require Export ZArith Lia.
From stdpp Require Export base decidable countable option list numbers strings gmap sorting.
From coqutil Require Export Byte Word.LittleEndianList.

#[global] Open Scope Z_scope.

Declare Scope ebpf_scope.
Delimit Scope ebpf_scope with ebpf.
#[global] Open Scope ebpf_scope.

(** ** Bytes

    [byte] is the Standard Library's type of 256 constructors; [byte.unsigned] and [byte.of_Z]
    (coqutil) convert it to and from its value, [le_combine] and [le_split] read and write
    little-endian integers. *)

#[export] Instance byte_eq_dec : EqDecision byte.
Proof. intros a b. destruct (Byte.byte_eq_dec a b); [left|right]; assumption. Defined.

#[export] Instance byte_countable : Countable byte.
Proof. exact (inj_countable' Byte.to_N (fun n => byte.of_Z (Z.of_N n)) ltac:(intros []; reflexivity)). Defined.

Abbreviation len l := (Z.of_nat (length l)).

(** [sub_bytes off n bs]: the [n] bytes of [bs] from offset [off], fewer when [bs] ends. *)
Definition sub_bytes (off n : Z) (bs : list byte) : list byte :=
  take (Z.to_nat n) (drop (Z.to_nat off) bs).

Definition zeros (n : Z) : list byte := repeat Byte.x00 (Z.to_nat n).

(** Fixed-width integers. *)
Definition wrap (w z : Z) : Z := z mod 2 ^ w.

(** The value of the [w]-bit pattern [z] read as a signed integer. *)
Definition signed (w z : Z) : Z :=
  if z mod 2 ^ w <? 2 ^ (w - 1) then z mod 2 ^ w else z mod 2 ^ w - 2 ^ w.

(** [z] rounded up to a multiple of [a]. *)
Definition round_up (z a : Z) : Z := (z + a - 1) / a * a.

(** The [n]-byte integer with its bytes in the opposite order. *)
Definition bswap (n : nat) (x : Z) : Z := le_combine (reverse (le_split n x)).

(** ** Generic lemmas *)

Lemma len_nonneg {A} (l : list A) : 0 <= len l.
Proof. lia. Qed.

Lemma round_up_ge z a : 0 < a -> z <= round_up z a.
Proof. unfold round_up. intros. pose proof (Z.mod_pos_bound (z + a - 1) a). 
  pose proof (Z.div_mod (z + a - 1) a). nia. Qed.

Lemma round_up_divide z a : (a | round_up z a).
Proof. exists ((z + a - 1) / a). reflexivity. Qed.

Lemma round_up_id z a : 0 < a -> (a | z) -> round_up z a = z.
Proof.
  intros Ha [k ->]. unfold round_up.
  replace (k * a + a - 1) with (a - 1 + k * a) by lia.
  rewrite Z.div_add, Z.div_small by lia. lia.
Qed.

Lemma signed_range w z : 0 < w -> - 2 ^ (w - 1) <= signed w z < 2 ^ (w - 1).
Proof.
  intros Hw. unfold signed.
  assert (2 ^ w = 2 * 2 ^ (w - 1)) by (rewrite <- Z.pow_succ_r by lia; f_equal; lia).
  assert (0 < 2 ^ (w - 1)) by (apply Z.pow_pos_nonneg; lia).
  pose proof (Z.mod_pos_bound z (2 ^ w)). destruct (Z.ltb_spec (z mod 2 ^ w) (2 ^ (w - 1))); lia.
Qed.

(** A signed value survives being stored as an unsigned word of the same width. *)
Lemma signed_wrap w z : 0 < w -> - 2 ^ (w - 1) <= z < 2 ^ (w - 1) -> signed w (wrap w z) = z.
Proof.
  intros Hw Hz. unfold signed, wrap.
  assert (E : 2 ^ w = 2 * 2 ^ (w - 1)) by (rewrite <- Z.pow_succ_r by lia; f_equal; lia).
  rewrite Z.mod_mod by lia.
  destruct (Z.le_gt_cases 0 z).
  - rewrite Z.mod_small by lia. destruct (Z.ltb_spec z (2 ^ (w - 1))); lia.
  - replace (z mod 2 ^ w) with (z + 2 ^ w).
    + destruct (Z.ltb_spec (z + 2 ^ w) (2 ^ (w - 1))); lia.
    + apply Z.mod_unique with (-1); lia.
Qed.

Lemma wrap_small w z : 0 <= z < 2 ^ w -> wrap w z = z.
Proof. apply Z.mod_small. Qed.

Lemma length_zeros n : 0 <= n -> len (zeros n) = n.
Proof. unfold zeros. intros. rewrite repeat_length. lia. Qed.

Lemma length_sub_bytes off n bs :
  0 <= off -> 0 <= n -> off + n <= len bs -> len (sub_bytes off n bs) = n.
Proof. intros. unfold sub_bytes. rewrite length_take, length_drop. lia. Qed.

Lemma sub_bytes_length off n bs :
  0 <= off -> 0 <= n -> off + n <= len bs -> length (sub_bytes off n bs) = Z.to_nat n.
Proof. intros. pose proof (length_sub_bytes off n bs). lia. Qed.

Lemma le_combine_cons b bs :
  le_combine (b :: bs) = Z.lor (byte.unsigned b) (Z.shiftl (le_combine bs) 8).
Proof. reflexivity. Qed.

Lemma le_combine_drop n bs : le_combine (drop n bs) = Z.shiftr (le_combine bs) (8 * Z.of_nat n).
Proof.
  revert bs. induction n as [|n IH]; intros bs.
  - rewrite drop_0. symmetry. apply Z.shiftr_0_r.
  - destruct bs as [|b bs].
    + rewrite drop_nil. rewrite le_combine_nil. symmetry. apply Z.shiftr_0_l.
    + cbn [drop]. rewrite IH, le_combine_cons.
      replace (8 * Z.of_nat (S n)) with (8 + 8 * Z.of_nat n) by lia.
      rewrite <- Z.shiftr_shiftr by lia.
      rewrite Z.shiftr_lor, Z.shiftr_shiftl_l, Z.sub_diag, Z.shiftl_0_r by lia.
      pose proof (byte.unsigned_range b).
      rewrite (Z.shiftr_eq_0 (byte.unsigned b)), Z.lor_0_l; [done|lia|].
      destruct (decide (byte.unsigned b = 0)) as [->|]; [done|]. apply Z.log2_lt_pow2; lia.
Qed.

(** Reading [n] bytes at offset [k] is shifting and masking the whole little-endian integer. *)
Lemma le_combine_sub_bytes k n bs :
  0 <= k -> 0 <= n ->
  le_combine (sub_bytes k n bs) = Z.shiftr (le_combine bs) (8 * k) mod 2 ^ (8 * n).
Proof.
  intros. unfold sub_bytes. rewrite le_combine_firstn, le_combine_drop.
  rewrite !Z2Nat.id by lia. done.
Qed.

(** Reading past, and exactly, the first part of a concatenation. *)
Lemma sub_bytes_app_r k n l1 l2 :
  len l1 <= k -> sub_bytes k n (l1 ++ l2) = sub_bytes (k - len l1) n l2.
Proof.
  intros. unfold sub_bytes. rewrite drop_app_ge by lia. do 2 f_equal. lia.
Qed.

Lemma sub_bytes_app_0 n l1 l2 : n = len l1 -> sub_bytes 0 n (l1 ++ l2) = l1.
Proof. intros ->. unfold sub_bytes. by rewrite drop_0, Nat2Z.id, take_app_length. Qed.

Lemma sub_bytes_0 n l : n = len l -> sub_bytes 0 n l = l.
Proof. intros ->. unfold sub_bytes. by rewrite drop_0, Nat2Z.id, take_ge. Qed.

Lemma sub_bytes_sub off m k n bs :
  0 <= off -> 0 <= k -> 0 <= n -> k + n <= m ->
  sub_bytes k n (sub_bytes off m bs) = sub_bytes (off + k) n bs.
Proof.
  intros. unfold sub_bytes. rewrite skipn_firstn_comm, take_take, drop_drop.
  f_equal; [lia|]. f_equal. lia.
Qed.

Lemma le_combine_split_small n z :
  0 <= z < 2 ^ (8 * Z.of_nat n) -> le_combine (le_split n z) = z.
Proof. intros. rewrite le_combine_split, (Z.mul_comm _ 8). by apply Z.mod_small. Qed.

Lemma bswap_range n x : 0 <= bswap n x < 2 ^ (8 * Z.of_nat n).
Proof.
  unfold bswap. pose proof (le_combine_bound (reverse (le_split n x))) as H.
  by rewrite length_reverse, length_le_split in H.
Qed.

Lemma bswap_split n x : le_split n (bswap n x) = reverse (le_split n x).
Proof. unfold bswap. apply split_le_combine'. by rewrite length_reverse, length_le_split. Qed.

Lemma bswap_0_iff n x : 0 <= x < 2 ^ (8 * Z.of_nat n) -> bswap n x = 0 <-> x = 0.
Proof.
  intros Hx. assert (H0 : forall y, 0 <= y < 2 ^ (8 * Z.of_nat n) -> le_combine (le_split n y) = y).
  { intros y Hy. rewrite le_combine_split, (Z.mul_comm _ 8). by apply Z.mod_small. }
  assert (Hz : reverse (repeat Byte.x00 n) = repeat Byte.x00 n).
  { clear. induction n as [|n IH]; [done|]. cbn [repeat]. rewrite reverse_cons, IH.
    symmetry. apply repeat_cons. }
  assert (Hs : le_split n 0 = repeat Byte.x00 n).
  { apply le_combine_inj; [by rewrite length_le_split, repeat_length|].
    rewrite le_combine_0. apply H0. split; [lia|]. apply Z.pow_pos_nonneg; lia. }
  split; intros E.
  - apply (f_equal (le_split n)) in E. rewrite bswap_split, Hs in E.
    apply (f_equal reverse) in E. rewrite reverse_involutive, Hz in E.
    rewrite <- (H0 x Hx), E. apply le_combine_0.
  - subst. unfold bswap. rewrite Hs, Hz. apply le_combine_0.
Qed.

(** An integer below [n] is one of finitely many. *)
Lemma small_cases i n : 0 <= i < Z.of_nat n -> i ∈ (Z.of_nat <$> seq 0 n).
Proof.
  intros. apply list_elem_of_fmap. exists (Z.to_nat i). split; [lia|]. apply elem_of_seq. lia.
Qed.

(** ** Tactics *)

(** Case analysis on every boolean integer comparison of the goal and the hypotheses. *)
Ltac zbool :=
  repeat match goal with
    | |- context [?a <? ?b] => destruct (Z.ltb_spec a b)
    | |- context [?a <=? ?b] => destruct (Z.leb_spec a b)
    | |- context [?a =? ?b] => destruct (Z.eqb_spec a b)
    | H : context [?a <? ?b] |- _ => destruct (Z.ltb_spec a b)
    | H : context [?a <=? ?b] |- _ => destruct (Z.leb_spec a b)
    | H : context [?a =? ?b] |- _ => destruct (Z.eqb_spec a b)
    end.
