(* ===== verification/RustStd.v ===== *)
(** * Functions of the Rust standard library

    What the loaders and decoders use of [std]: UTF-8 validation and lossy conversion, the parser of
    IPv4 addresses, and runs that may panic or return an error. *)

From Stdlib Require Import Ascii String.
From S2P Require Import Prelude.

(** ** Outcomes: a value, an error value ([Err]), or a panic *)

Inductive outcome (E A : Type) := Ok (a : A) | Err (e : E) | Panic.
Arguments Ok {_ _}.
Arguments Err {_ _}.
Arguments Panic {_ _}.

#[export] Instance outcome_ret {E} : MRet (outcome E) := @Ok E.
#[export] Instance outcome_bind {E} : MBind (outcome E) := fun A B f m =>
  match m with Ok a => f a | Err e => Err e | Panic => Panic end.

#[export] Instance outcome_fmap {E} : FMap (outcome E) := fun A B f m =>
  match m with Ok a => Ok (f a) | Err e => Err e | Panic => Panic end.

(** Code that returns no error but may panic. *)
Abbreviation run := (outcome Empty_set).

Definition unwrap {E A} (o : option A) : outcome E A := match o with Some a => Ok a | None => Panic end.

(** [expect] of a result. *)
Definition unwrap_result {E E' A} (r : outcome E A) : outcome E' A :=
  match r with Ok a => Ok a | Err _ | Panic => Panic end.

(** The elements of a list converted one by one, [collect]. *)
Fixpoint collect {E A B} (f : A -> outcome E B) (l : list A) : outcome E (list B) :=
  match l with
  | [] => mret []
  | a :: l => b ← f a; bs ← collect f l; mret (b :: bs)
  end.

(** [&bs[from..to]] and [bs[i]]. *)
Definition slice {E} (from to : Z) (bs : list byte) : outcome E (list byte) :=
  if (from <=? to) && (to <=? len bs) then Ok (sub_bytes from (to - from) bs) else Panic.
Definition index {E} (i : Z) (bs : list byte) : outcome E Z :=
  match bs !! Z.to_nat i with Some b => Ok (byte.unsigned b) | None => Panic end.

(** [u16::from_be_bytes]. *)
Definition be_value (bs : list byte) : Z := le_combine (reverse bs).

(** ** UTF-8 *)

Definition between (lo hi : Z) (b : byte) : bool :=
  (lo <=? byte.unsigned b) && (byte.unsigned b <=? hi).
Definition continues (b : byte) : bool := between 0x80 0xbf b.

(** The first character of [bs], or the longest invalid prefix that could have begun one: whether
    it is valid, and its length. *)
Definition utf8_step (bs : list byte) : bool * nat :=
  match bs with
  | [] => (true, 0)%nat
  | a :: bs1 =>
      let lo := if byte.unsigned a =? 0xe0 then 0xa0 else if byte.unsigned a =? 0xf0 then 0x90 else 0x80 in
      let hi := if byte.unsigned a =? 0xed then 0x9f else if byte.unsigned a =? 0xf4 then 0x8f else 0xbf in
      let nth_ok i ok := match bs1 !! i with Some b => ok b | None => false end in
      if between 0 0x7f a then (true, 1)%nat
      else if between 0xc2 0xdf a then
        if nth_ok 0%nat continues then (true, 2)%nat else (false, 1)%nat
      else if between 0xe0 0xef a then
        if negb (nth_ok 0%nat (between lo hi)) then (false, 1)%nat
        else if nth_ok 1%nat continues then (true, 3)%nat else (false, 2)%nat
      else if between 0xf0 0xf4 a then
        if negb (nth_ok 0%nat (between lo hi)) then (false, 1)%nat
        else if negb (nth_ok 1%nat continues) then (false, 2)%nat
        else if nth_ok 2%nat continues then (true, 4)%nat else (false, 3)%nat
      else (false, 1)%nat
  end.

(** [std::str::from_utf8]: whether all characters are valid; [String::from_utf8_lossy]: each
    invalid prefix becomes a replacement character (EF BF BD).  The fuel is the number of bytes. *)
Fixpoint utf8_loop (fuel : nat) (bs : list byte) : bool :=
  match fuel, bs with
  | S fuel, _ :: _ => let '(ok, n) := utf8_step bs in ok && utf8_loop fuel (drop n bs)
  | _, _ => true
  end.
Definition utf8 (bs : list byte) : bool := utf8_loop (length bs) bs.

Definition replacement : list byte := [Byte.xef; Byte.xbf; Byte.xbd].

Fixpoint lossy_loop (fuel : nat) (bs : list byte) : list byte :=
  match fuel, bs with
  | S fuel, _ :: _ =>
      let '(ok, n) := utf8_step bs in
      (if ok then take n bs else replacement) ++ lossy_loop fuel (drop n bs)
  | _, _ => []
  end.
Definition from_utf8_lossy (bs : list byte) : list byte := lossy_loop (length bs) bs.

(** ** [std::net::Ipv4Addr::from_str]

    Four decimal numbers below 256, of one to three digits and without leading zeros, separated
    by dots. *)

Definition digit (c : ascii) : option Z :=
  let d := Z.of_N (N_of_ascii c) - 48 in if (0 <=? d) && (d <=? 9) then Some d else None.

(** The digits at the front of [cs], at most three: the value, their number, and what follows. *)
Fixpoint read_digits (cs : list ascii) (acc : Z) (count : nat) : option (Z * nat * list ascii) :=
  match cs with
  | [] => Some (acc, count, [])
  | c :: cs' =>
      match digit c with
      | None => Some (acc, count, cs)
      | Some d =>
          if (10 * acc + d >? 255) || (2 <? count)%nat then None
          else read_digits cs' (10 * acc + d) (S count)
      end
  end.

Definition read_number (cs : list ascii) : option (Z * list ascii) :=
  '(n, count, rest) ← read_digits cs 0 0;
  let leading_zero := match cs with c :: _ => bool_decide (digit c = Some 0) | [] => false end in
  if (count =? 0)%nat || (leading_zero && (1 <? count)%nat) then None else Some (n, rest).

Definition read_char (c : ascii) (cs : list ascii) : option (list ascii) :=
  match cs with
  | c' :: rest => if bool_decide (c' = c) then Some rest else None
  | [] => None
  end.

Definition dot : ascii := ascii_of_nat 46.

Definition read_ipv4_addr (cs : list ascii) : option (list Z * list ascii) :=
  '(a, cs) ← read_number cs; cs ← read_char dot cs;
  '(b, cs) ← read_number cs; cs ← read_char dot cs;
  '(c, cs) ← read_number cs; cs ← read_char dot cs;
  '(d, cs) ← read_number cs;
  Some ([a; b; c; d], cs).

Definition from_str (s : string) : option (list Z) :=
  let cs := list_ascii_of_string s in
  if (15 <? length cs)%nat then None
  else '(octets, rest) ← read_ipv4_addr cs;
       match rest with [] => Some octets | _ :: _ => None end.

(** The decimal notation of an address. *)
Definition print_digit (d : Z) : ascii := ascii_of_N (Z.to_N (48 + d)).
Definition print_octet (n : Z) : list ascii :=
  if n <? 10 then [print_digit n]
  else if n <? 100 then [print_digit (n / 10); print_digit (n mod 10)]
  else [print_digit (n / 100); print_digit (n / 10 mod 10); print_digit (n mod 10)].
Definition print_ipv4 (a b c d : Z) : string :=
  string_of_list_ascii
    (print_octet a ++ dot :: print_octet b ++ dot :: print_octet c ++ dot :: print_octet d).

(** ** Properties *)

Lemma utf8_step_progress b bs : (1 <= (utf8_step (b :: bs)).2 <= S (length bs))%nat.
Proof.
  unfold utf8_step.
  destruct bs as [|b1 [|b2 [|b3 bs]]]; cbn [lookup list_lookup]; repeat case_match; cbn in *;
    try discriminate; lia.
Qed.

(** Valid text is converted to itself. *)
Lemma from_utf8_lossy_valid bs : utf8 bs = true -> from_utf8_lossy bs = bs.
Proof.
  unfold utf8, from_utf8_lossy. remember (length bs) as n eqn:Hn.
  assert (Hl : (length bs <= n)%nat) by lia. clear Hn. revert bs Hl.
  induction n as [|n IH]; intros bs Hl; cbn [utf8_loop lossy_loop]; [by destruct bs; cbn in *; [|lia]|].
  destruct bs as [|b bs]; [done|]. pose proof (utf8_step_progress b bs) as Hp.
  destruct (utf8_step (b :: bs)) as [ok k]. cbn [snd] in Hp.
  intros [-> Hok]%andb_true_iff. rewrite IH; [by rewrite take_drop| |done].
  rewrite length_drop. cbn in *. lia.
Qed.

Lemma utf8_ascii bs : forallb (between 0 0x7f) bs = true -> utf8 bs = true.
Proof.
  unfold utf8. induction bs as [|b bs IH]; [done|]. cbn [forallb]. intros [Hb Hbs]%andb_true_iff.
  cbn [length utf8_loop utf8_step]. rewrite Hb. cbn [andb drop]. rewrite drop_0. by apply IH.
Qed.

Lemma utf8_loop_fuel fuel bs : (length bs <= fuel)%nat -> utf8_loop fuel bs = utf8 bs.
Proof.
  unfold utf8. remember (length bs) as n eqn:Hn. assert (Hl : (length bs <= n)%nat) by lia. clear Hn.
  revert fuel bs Hl. induction n as [|n IH]; intros fuel bs Hl Hf.
  - destruct bs as [|b bs]; [by destruct fuel|cbn in Hl; lia].
  - destruct fuel as [|fuel]; [lia|]. destruct bs as [|b bs]; [done|]. cbn [utf8_loop].
    pose proof (utf8_step_progress b bs) as Hp. destruct (utf8_step (b :: bs)) as [ok k]. cbn [snd] in Hp.
    f_equal. apply IH; [rewrite length_drop; cbn in *; lia|lia].
Qed.

Lemma utf8_unfold b bs :
  utf8 (b :: bs) = let '(ok, n) := utf8_step (b :: bs) in ok && utf8 (drop n (b :: bs)).
Proof.
  unfold utf8 at 1. cbn [length utf8_loop]. pose proof (utf8_step_progress b bs) as Hp.
  destruct (utf8_step (b :: bs)) as [ok k]. cbn [snd] in Hp. f_equal. apply utf8_loop_fuel.
  rewrite length_drop. cbn. lia.
Qed.

(** A valid character is one whatever follows. *)
Lemma utf8_step_app b bs zs n :
  utf8_step (b :: bs) = (true, n) -> utf8_step ((b :: bs) ++ zs) = (true, n).
Proof.
  unfold utf8_step. cbn [app].
  destruct bs as [|b1 [|b2 [|b3 bs]]]; cbn [lookup list_lookup app]; intros H;
    repeat (case_match; try discriminate); simplify_eq; done.
Qed.

Lemma utf8_app bs zs : utf8 bs = true -> utf8 (bs ++ zs) = utf8 zs.
Proof.
  remember (length bs) as n eqn:Hn. assert (Hl : (length bs <= n)%nat) by lia. clear Hn.
  revert bs Hl. induction n as [|n IH]; intros bs Hl; [by destruct bs; [|cbn in Hl; lia]|].
  destruct bs as [|b bs]; [done|]. rewrite utf8_unfold. pose proof (utf8_step_progress b bs) as Hp.
  destruct (utf8_step (b :: bs)) as [ok k] eqn:E. cbn [snd] in Hp. intros [-> Hu]%andb_true_iff.
  change ((b :: bs) ++ zs) with (b :: (bs ++ zs)). rewrite utf8_unfold.
  change (b :: bs ++ zs) with ((b :: bs) ++ zs). rewrite (utf8_step_app b bs zs k E). cbn [andb].
  rewrite drop_app_le by (cbn; lia). apply IH; [rewrite length_drop; cbn in *; lia|done].
Qed.

Lemma read_number_octet n :
  0 <= n < 256 ->
  read_number (print_octet n) = Some (n, []) /\
  forall cs, read_number (print_octet n ++ dot :: cs) = Some (n, dot :: cs).
Proof.
  intros H%(small_cases n 256). cbn in H.
  repeat (apply elem_of_cons in H as [->|H]; [split; [|intros]; reflexivity|]).
  by apply not_elem_of_nil in H.
Qed.

Lemma length_print_octet n : (length (print_octet n) <= 3)%nat.
Proof. unfold print_octet. repeat case_match; cbn; lia. Qed.

Lemma from_str_print_aux a b c d :
  0 <= a < 256 -> 0 <= b < 256 -> 0 <= c < 256 -> 0 <= d < 256 ->
  from_str (print_ipv4 a b c d) = Some [a; b; c; d].
Proof.
  intros Ha Hb Hc Hd. unfold from_str, print_ipv4. rewrite list_ascii_of_string_of_list_ascii.
  destruct (Nat.ltb_spec 15 (length (print_octet a ++ dot :: print_octet b ++ dot ::
     print_octet c ++ dot :: print_octet d))) as [H|_].
  { rewrite !length_app, !length_cons, !length_app, !length_cons, !length_app, !length_cons in H.
    pose proof (length_print_octet a). pose proof (length_print_octet b).
    pose proof (length_print_octet c). pose proof (length_print_octet d). lia. }
  unfold read_ipv4_addr.
  rewrite (proj2 (read_number_octet a Ha)). cbn [mbind option_bind read_char].
  rewrite bool_decide_eq_true_2 by done. cbn [mbind option_bind].
  rewrite (proj2 (read_number_octet b Hb)). cbn [mbind option_bind read_char].
  rewrite bool_decide_eq_true_2 by done. cbn [mbind option_bind].
  rewrite (proj2 (read_number_octet c Hc)). cbn [mbind option_bind read_char].
  rewrite bool_decide_eq_true_2 by done. cbn [mbind option_bind].
  by rewrite (proj1 (read_number_octet d Hd)).
Qed.

(** A slice and an index of a list given in parts. *)
Lemma slice_app {E} a b pre s rest :
  a = len pre -> b = len pre + len s -> slice (E := E) a b (pre ++ s ++ rest) = Ok s.
Proof.
  intros -> ->. unfold slice, sub_bytes. rewrite !length_app.
  destruct (Z.leb_spec (len pre) (len pre + len s)); [|lia].
  destruct (Z.leb_spec (len pre + len s) (Z.of_nat (length pre + (length s + length rest)))); [|lia].
  cbn [andb]. rewrite drop_app_length' by lia. by rewrite take_app_length' by lia.
Qed.

Lemma index_app {E} i pre b rest : i = len pre -> index (E := E) i (pre ++ b :: rest) = Ok (byte.unsigned b).
Proof. intros ->. unfold index. rewrite Nat2Z.id. by rewrite list_lookup_middle. Qed.

Lemma be_value_range bs : 0 <= be_value bs < 2 ^ (8 * len bs).
Proof. unfold be_value. pose proof (le_combine_bound (reverse bs)) as H. rewrite length_reverse in H. lia. Qed.

(** What a run that ends with a value went through. *)
Lemma bind_Ok {E A B} (m : outcome E A) (f : A -> outcome E B) b :
  m ≫= f = Ok b -> exists a, m = Ok a /\ f a = Ok b.
Proof. destruct m as [a| |]; intros H; try discriminate. by exists a. Qed.

Lemma slice_length {E} a b bs s : 0 <= a -> slice (E := E) a b bs = Ok s -> len s = b - a.
Proof.
  intros Ha. unfold slice, sub_bytes. destruct (Z.leb_spec a b); [|done]. cbn [andb].
  destruct (Z.leb_spec b (len bs)); [|done]. intros [= <-]. rewrite length_take, length_drop. lia.
Qed.

Lemma index_range {E} i bs n : index (E := E) i bs = Ok n -> 0 <= n < 256.
Proof. unfold index. destruct (bs !! _) as [b|]; [|done]. intros [= <-]. apply byte.unsigned_range. Qed.
