(* ===== verification/RustStr.v ===== *)
(** * Text and lists of the Rust standard library

    What the topology prober uses of [str], of the integer parsers and formatters, and of [Vec].
    A [String] is the list of its bytes, which are UTF-8. *)

From Stdlib Require Import String.
From S2P Require Import Prelude RustStd.

Definition lit (s : string) : list byte := list_byte_of_string s.
Definition char (z : Z) : byte := byte.of_Z z.

(** ** [trim] and [to_lowercase] *)

(** The characters with the property White_Space, in UTF-8. *)
Definition white_space : list (list byte) :=
  ((fun z => [char z]) <$> [0x09; 0x0a; 0x0b; 0x0c; 0x0d; 0x20]) ++
  [char <$> [0xc2; 0x85]; char <$> [0xc2; 0xa0]; char <$> [0xe1; 0x9a; 0x80]] ++
  ((fun z => char <$> [0xe2; 0x80; z]) <$>
     [0x80; 0x81; 0x82; 0x83; 0x84; 0x85; 0x86; 0x87; 0x88; 0x89; 0x8a; 0xa8; 0xa9; 0xaf]) ++
  [char <$> [0xe2; 0x81; 0x9f]; char <$> [0xe3; 0x80; 0x80]].

(** [s] without [p] at its front. *)
Fixpoint strip_prefix (p s : list byte) : option (list byte) :=
  match p, s with
  | [], _ => Some s
  | a :: p', b :: s' => if bool_decide (a = b) then strip_prefix p' s' else None
  | _ :: _, [] => None
  end.

Fixpoint strip_any (ps : list (list byte)) (s : list byte) : option (list byte) :=
  match ps with
  | [] => None
  | p :: ps => match strip_prefix p s with Some r => Some r | None => strip_any ps s end
  end.

(** Every round removes a byte at least: the fuel is the number of bytes. *)
Fixpoint trim_loop (fuel : nat) (ps : list (list byte)) (s : list byte) : list byte :=
  match fuel with
  | O => s
  | S fuel => match strip_any ps s with Some r => trim_loop fuel ps r | None => s end
  end.
Definition trim_start (s : list byte) : list byte := trim_loop (length s) white_space s.
Definition trim_end (s : list byte) : list byte :=
  reverse (trim_loop (length s) (reverse <$> white_space) (reverse s)).
Definition trim (s : list byte) : list byte := trim_end (trim_start s).

(** [to_lowercase], on the ASCII letters.  The result is only compared with ASCII words none of
    whose letters is the lower case of a character outside ASCII. *)
Definition to_lowercase (s : list byte) : list byte :=
  (fun b => if between 65 90 b then char (byte.unsigned b + 32) else b) <$> s.

(** ** [split], [split_once] *)

Fixpoint split (sep : byte) (s : list byte) : list (list byte) :=
  match s with
  | [] => [[]]
  | b :: s' =>
      if bool_decide (b = sep) then [] :: split sep s'
      else match split sep s' with
           | p :: ps => (b :: p) :: ps
           | [] => [[b]]
           end
  end.

Fixpoint split_once (sep : byte) (s : list byte) : option (list byte * list byte) :=
  match s with
  | [] => None
  | b :: s' =>
      if bool_decide (b = sep) then Some ([], s')
      else '(p, r) ← split_once sep s'; Some (b :: p, r)
  end.

(** The pieces [ps] with [sep] between them. *)
Fixpoint join (sep : list byte) (ps : list (list byte)) : list byte :=
  match ps with
  | [] => []
  | [p] => p
  | p :: ps => p ++ sep ++ join sep ps
  end.

(** ** Paths *)

(** [Path::components], [Path::starts_with]. *)
Definition components (p : list byte) : list (list byte) :=
  let normal c := bool_decide (c <> [] /\ c <> lit ".") in
  match split (char 47) p with
  | [] => []
  | first :: rest =>
      (if bool_decide (first = []) then (if bool_decide (p = []) then [] else [lit "/"]) else [first]) ++
      base.filter normal rest
  end.
Definition path_starts_with (p base : list byte) : bool :=
  bool_decide (components base `prefix_of` components p).

(** ** Numbers *)

(** [char::to_digit], for a radix of at most 36. *)
Definition digit_value (c : byte) : Z :=
  if between 48 57 c then byte.unsigned c - 48
  else if between 97 122 c then byte.unsigned c - 87
  else if between 65 90 c then byte.unsigned c - 55
  else 36.
Definition to_digit (radix : Z) (c : byte) : option Z :=
  if digit_value c <? radix then Some (digit_value c) else None.

(** [from_str_radix] of an unsigned type whose values are at most [max]: an optional plus sign and
    at least one digit.  A value only grows with further digits, so whether one of them overflows
    is decided by the last. *)
Definition from_str_radix (radix max : Z) (s : list byte) : option Z :=
  let s := match s with c :: r => if bool_decide (c = char 43) then r else s | [] => [] end in
  ds ← mapM (to_digit radix) s;
  let n := foldl (fun acc d => radix * acc + d) 0 ds in
  if (length s =? 0)%nat || (max <? n) then None else Some n.

(** [str::parse] for [u16] and [u32]. *)
Definition parse_u16 : list byte -> option Z := from_str_radix 10 (2 ^ 16 - 1).
Definition parse_u32 : list byte -> option Z := from_str_radix 10 (2 ^ 32 - 1).

Definition digit_char (d : Z) : byte := char (if d <? 10 then 48 + d else 87 + d).

(** The digits of [n], most significant first; a number below [2 ^ fuel] has at most [fuel]. *)
Fixpoint digits (fuel : nat) (radix n : Z) : list Z :=
  match fuel with
  | O => []
  | S fuel => if n <? radix then [n] else digits fuel radix (n / radix) ++ [n mod radix]
  end.

(** [{}] and [{:x}] of an unsigned integer, [{:02x}] of a byte. *)
Definition decimal (n : Z) : list byte := digit_char <$> digits (S (Z.to_nat (Z.log2 n))) 10 n.
Definition hex (n : Z) : list byte := digit_char <$> digits (S (Z.to_nat (Z.log2 n))) 16 n.
Definition hex2 (b : byte) : list byte :=
  digit_char <$> [byte.unsigned b / 16; byte.unsigned b mod 16].

(** ** [Vec::sort] of integers, [Vec::dedup] *)

Definition sort (l : list Z) : list Z := merge_sort Z.le l.

Fixpoint dedup (l : list Z) : list Z :=
  match l with
  | a :: ((b :: _) as l') => if a =? b then dedup l' else a :: dedup l'
  | _ => l
  end.

(** ** Properties *)

Lemma between_spec lo hi b : between lo hi b = true <-> lo <= byte.unsigned b <= hi.
Proof. unfold between. rewrite andb_true_iff. lia. Qed.

Lemma unsigned_char z : 0 <= z < 256 -> byte.unsigned (char z) = z.
Proof. intros. unfold char. rewrite byte.unsigned_of_Z. by apply Z.mod_small. Qed.

Lemma split_none sep p : sep ∉ p -> split sep p = [p].
Proof.
  induction p as [|b p IH]; cbn [split]; [done|].
  rewrite not_elem_of_cons. intros [Hb Hp]. by rewrite bool_decide_eq_false_2, IH.
Qed.

Lemma split_nonempty sep s : split sep s <> [].
Proof. destruct s as [|c s]; [done|]. cbn [split]. by repeat case_match. Qed.

Lemma split_concat sep a b : split sep (a ++ sep :: b) = split sep a ++ split sep b.
Proof.
  induction a as [|c a IH]; cbn [app split]; [by rewrite bool_decide_eq_true_2|].
  rewrite IH. case_bool_decide; [done|]. destruct (split sep a) as [|p ps] eqn:E; [|done].
  by apply split_nonempty in E.
Qed.

Lemma split_app sep p s : sep ∉ p -> split sep (p ++ sep :: s) = p :: split sep s.
Proof. intros Hp. by rewrite split_concat, split_none. Qed.

(** Splitting undoes joining, for pieces without the separator. *)
Lemma split_join sep ps : ps <> [] -> Forall (fun p => sep ∉ p) ps -> split sep (join [sep] ps) = ps.
Proof.
  intros Hn H. induction H as [|p ps Hp Hps IH]; [done|]. destruct ps as [|q ps].
  - by apply split_none.
  - change (join [sep] (p :: q :: ps)) with (p ++ sep :: join [sep] (q :: ps)).
    rewrite split_app by done. by rewrite IH.
Qed.

Lemma forallb_join f sep ps :
  forallb f sep = true -> Forall (fun p => forallb f p = true) ps -> forallb f (join sep ps) = true.
Proof.
  intros Hs H. induction H as [|p ps Hp H IH]; [done|]. destruct ps as [|q ps]; [done|].
  change (join sep (p :: q :: ps)) with (p ++ sep ++ join sep (q :: ps)). by rewrite !forallb_app, Hp, Hs, IH.
Qed.

Lemma split_once_app sep p s : sep ∉ p -> split_once sep (p ++ sep :: s) = Some (p, s).
Proof.
  induction p as [|b p IH]; cbn [app split_once]; [by rewrite bool_decide_eq_true_2|].
  rewrite not_elem_of_cons. intros [Hb Hp]. by rewrite bool_decide_eq_false_2, IH.
Qed.

Lemma split_once_none sep p : sep ∉ p -> split_once sep p = None.
Proof.
  induction p as [|b p IH]; cbn [split_once]; [done|].
  rewrite not_elem_of_cons. intros [Hb Hp]. by rewrite bool_decide_eq_false_2, IH.
Qed.

(** Decimal notation: digits, at least one, and the parser reads the number back. *)

Lemma digits_length fuel radix n : (0 < fuel)%nat -> digits fuel radix n <> [].
Proof.
  destruct fuel; [lia|]. intros _. cbn [digits]. case_match; [done|]. by destruct (digits _ _ _).
Qed.

Lemma digits_range fuel radix n :
  2 <= radix -> 0 <= n -> Forall (fun d => 0 <= d < radix) (digits fuel radix n).
Proof.
  intros Hr. revert n. induction fuel as [|fuel IH]; intros n Hn; cbn [digits]; [done|].
  destruct (Z.ltb_spec n radix); [constructor; [lia|constructor]|].
  apply Forall_app. split; [apply IH, Z.div_pos; lia|].
  constructor; [|constructor]. apply Z.mod_pos_bound. lia.
Qed.

Lemma digits_value fuel radix n :
  2 <= radix -> 0 <= n < 2 ^ Z.of_nat fuel ->
  foldl (fun acc d => radix * acc + d) 0 (digits fuel radix n) = n.
Proof.
  intros Hr. revert n. induction fuel as [|fuel IH]; intros n Hn; cbn [digits foldl].
  - change (2 ^ Z.of_nat 0) with 1 in Hn. lia.
  - destruct (Z.ltb_spec n radix); [cbn [foldl]; lia|].
    rewrite foldl_app. cbn [foldl]. rewrite IH.
    + pose proof (Z.div_mod n radix). lia.
    + split; [apply Z.div_pos; lia|]. apply Z.div_lt_upper_bound; [lia|].
      rewrite Nat2Z.inj_succ, Z.pow_succ_r in Hn by lia.
      pose proof (Z.pow_pos_nonneg 2 (Z.of_nat fuel)). nia.
Qed.

Lemma digit_value_char d : 0 <= d < 16 -> digit_value (digit_char d) = d.
Proof.
  intros Hs%(small_cases d 16). cbn in Hs.
  repeat (apply elem_of_cons in Hs as [->|Hs]; [done|]). by apply not_elem_of_nil in Hs.
Qed.

Lemma to_digit_char radix d : radix <= 16 -> 0 <= d < radix -> to_digit radix (digit_char d) = Some d.
Proof.
  intros Hr Hd. unfold to_digit. rewrite digit_value_char by lia. by destruct (Z.ltb_spec d radix); [|lia].
Qed.

Lemma mapM_to_digit radix ds :
  2 <= radix <= 16 -> Forall (fun d => 0 <= d < radix) ds ->
  mapM (to_digit radix) (digit_char <$> ds) = Some ds.
Proof.
  intros Hr H. apply mapM_Some_2, Forall2_fmap_l, Forall_Forall2_diag.
  apply (Forall_impl _ _ _ H). intros. apply to_digit_char; lia.
Qed.

Lemma digit_char_range d : 0 <= d < 16 -> between 48 57 (digit_char d) || between 97 102 (digit_char d) = true.
Proof.
  intros Hs%(small_cases d 16). cbn in Hs.
  repeat (apply elem_of_cons in Hs as [->|Hs]; [done|]). by apply not_elem_of_nil in Hs.
Qed.

(** A byte that is no digit is not in the notation of a number. *)
Lemma not_in_digits c ds :
  between 48 57 c || between 97 102 c = false -> Forall (fun d => 0 <= d < 16) ds ->
  c ∉ digit_char <$> ds.
Proof.
  intros Hc H (d & -> & Hd)%list_elem_of_fmap. rewrite Forall_forall in H.
  by rewrite digit_char_range in Hc by (by apply H).
Qed.

Lemma from_str_radix_digits radix max ds :
  2 <= radix <= 16 -> Forall (fun d => 0 <= d < radix) ds -> ds <> [] ->
  foldl (fun acc d => radix * acc + d) 0 ds <= max ->
  from_str_radix radix max (digit_char <$> ds) = Some (foldl (fun acc d => radix * acc + d) 0 ds).
Proof.
  intros Hr H Hn Hm. unfold from_str_radix.
  assert (Hp : char 43 ∉ digit_char <$> ds).
  { apply not_in_digits; [done|]. apply (Forall_impl _ _ _ H). lia. }
  destruct ds as [|d ds]; [done|]. change (digit_char <$> d :: ds) with (digit_char d :: (digit_char <$> ds)) in *.
  apply not_elem_of_cons in Hp as [Hp _]. rewrite bool_decide_eq_false_2 by done.
  change (digit_char d :: (digit_char <$> ds)) with (digit_char <$> d :: ds).
  rewrite mapM_to_digit by done. cbn [mbind option_bind].
  destruct (Z.ltb_spec max (foldl (fun acc d => radix * acc + d) 0 (d :: ds))); [lia|]. done.
Qed.

Lemma radix_digits radix n :
  2 <= radix -> 0 <= n -> let ds := digits (S (Z.to_nat (Z.log2 n))) radix n in
  Forall (fun d => 0 <= d < radix) ds /\ ds <> [] /\ foldl (fun acc d => radix * acc + d) 0 ds = n.
Proof.
  intros Hr Hn ds. split; [apply digits_range; lia|]. split; [apply digits_length; lia|].
  apply digits_value; [lia|]. split; [done|]. pose proof (Z.log2_nonneg n).
  rewrite Nat2Z.inj_succ, Z2Nat.id by done.
  destruct (Z.eq_dec n 0) as [->|]; [done|]. apply Z.log2_spec. lia.
Qed.

Lemma parse_decimal max n : 0 <= n <= max -> from_str_radix 10 max (decimal n) = Some n.
Proof.
  intros Hn. destruct (radix_digits 10 n) as (Hr & Hd & Hv); [lia..|].
  unfold decimal. rewrite from_str_radix_digits by (done || lia). by rewrite Hv.
Qed.

Lemma not_in_decimal c n : between 48 57 c || between 97 102 c = false -> 0 <= n -> c ∉ decimal n.
Proof.
  intros Hc Hn. destruct (radix_digits 10 n ltac:(lia) Hn) as (Hr & _). apply not_in_digits; [done|].
  apply (Forall_impl _ _ _ Hr). lia.
Qed.

Lemma parse_hex2 b : from_str_radix 16 255 (hex2 b) = Some (byte.unsigned b).
Proof.
  pose proof (byte.unsigned_range b) as Hb. pose proof (Z.div_mod (byte.unsigned b) 16).
  pose proof (Z.mod_pos_bound (byte.unsigned b) 16). unfold hex2.
  rewrite from_str_radix_digits; cbn [foldl]; [f_equal; lia|lia| |done|lia].
  repeat constructor; lia.
Qed.

(** Sorting and removing repetitions gives the strictly increasing list of the elements. *)

Lemma elem_of_sort x l : x ∈ sort l <-> x ∈ l.
Proof. unfold sort. by rewrite merge_sort_Permutation. Qed.

Lemma sort_sorted l : StronglySorted Z.le (sort l).
Proof. apply StronglySorted_merge_sort; apply _. Qed.

Lemma elem_of_dedup x l : x ∈ dedup l <-> x ∈ l.
Proof.
  induction l as [|a [|b l] IH]; [done..|]. cbn [dedup]. destruct (Z.eqb_spec a b) as [->|].
  - rewrite IH. set_solver.
  - rewrite !elem_of_cons. cbn [dedup] in IH. rewrite IH. set_solver.
Qed.

Lemma dedup_sorted l : StronglySorted Z.le l -> StronglySorted Z.lt (dedup l).
Proof.
  induction 1 as [|a l Hl IH Ha]; [constructor|]. destruct l as [|b l]; [repeat constructor|].
  cbn [dedup]. destruct (Z.eqb_spec a b) as [|Hab]; [exact IH|]. constructor; [exact IH|].
  apply Forall_forall. intros x Hin. assert (Hx : x ∈ b :: l) by (apply elem_of_dedup; exact Hin).
  assert (a <= b) by (rewrite Forall_forall in Ha; apply Ha, elem_of_cons; by left).
  apply elem_of_cons in Hx as [->|Hx]; [lia|].
  inversion Hl as [|? ? _ Hb]; subst. rewrite Forall_forall in Hb. specialize (Hb x Hx). lia.
Qed.

Lemma sort_increasing l : NoDup l -> StronglySorted Z.lt (sort l).
Proof.
  intros Hd. assert (Hd' : NoDup (sort l)) by (unfold sort; by rewrite merge_sort_Permutation).
  revert Hd'. induction (sort_sorted l) as [|a k Hk IH Ha]; [constructor|]. intros [Hn Hd']%NoDup_cons.
  constructor; [by apply IH|]. apply Forall_forall. intros b Hb. rewrite Forall_forall in Ha.
  specialize (Ha b Hb). assert (a <> b) by (by intros ->). lia.
Qed.

Lemma increasing_NoDup l : StronglySorted Z.lt l -> NoDup l.
Proof.
  induction 1 as [|a l Hl IH Ha]; constructor; [|done]. intros Hin.
  rewrite Forall_forall in Ha. specialize (Ha a Hin). lia.
Qed.

(** A strictly increasing list is determined by its elements. *)
Lemma increasing_ext l k :
  StronglySorted Z.lt l -> StronglySorted Z.lt k -> (forall x, x ∈ l <-> x ∈ k) -> l = k.
Proof.
  intros Hl Hk H. apply (StronglySorted_unique_strong Z.lt); [intros; lia|done..|].
  apply NoDup_Permutation; [by apply increasing_NoDup..|done].
Qed.

Create HintDb rust.
#[export] Hint Resolve sort_sorted dedup_sorted : rust.

(** Trimming a word with the line feed that ends a file of sysfs. *)

Definition visible (b : byte) : bool := between 33 126 b.

Definition starts_unseen (p : list byte) : bool :=
  match p with b :: _ => negb (visible b) | [] => false end.

Lemma strip_any_visible ps s :
  forallb starts_unseen ps = true -> (forall c, head s = Some c -> visible c = true) ->
  strip_any ps s = None.
Proof.
  intros H Hs. induction ps as [|p ps IH]; cbn [strip_any]; [done|].
  cbn [forallb] in H. apply andb_true_iff in H as [Hp H]. destruct p as [|b p]; [done|].
  assert (strip_prefix (b :: p) s = None) as ->; [|by apply IH].
  destruct s as [|c s]; [done|]. cbn [strip_prefix starts_unseen] in *.
  rewrite bool_decide_eq_false_2; [done|]. intros ->. by rewrite (Hs c) in Hp.
Qed.

Lemma trim_loop_visible fuel ps s :
  forallb starts_unseen ps = true -> (forall c, head s = Some c -> visible c = true) ->
  trim_loop fuel ps s = s.
Proof. intros. destruct fuel; cbn [trim_loop]; [done|]. by rewrite strip_any_visible. Qed.

Lemma trim_line s : s <> [] -> forallb visible s = true -> trim (s ++ [char 10]) = s.
Proof.
  intros Hn Hv. unfold trim.
  assert (Hs : trim_start (s ++ [char 10]) = s ++ [char 10]).
  { apply trim_loop_visible; [done|]. destruct s as [|c s]; [done|]. intros ? [= <-].
    by apply andb_true_iff in Hv as [? _]. }
  rewrite Hs. unfold trim_end. rewrite reverse_app, length_app, Nat.add_1_r.
  change (trim_loop (S (length s)) (reverse <$> white_space) (reverse ([char 10]) ++ reverse s)) with (trim_loop (length s) (reverse <$> white_space) (reverse s)).
  rewrite trim_loop_visible; [apply reverse_involutive|done|].
  intros c Hc. assert (Hin : c ∈ s).
  { apply elem_of_reverse. destruct (reverse s); [done|]. injection Hc as ->. apply elem_of_cons. by left. }
  rewrite forallb_forall in Hv. by apply Hv, list_elem_of_In.
Qed.
