(* ===== verification/Trace.v ===== *)
(** * Runs of programs made of tasks

    A program whose tasks take turns is a function from a label, which names the task and what the
    environment gives it, and a state to the next state; it is partial, since not every turn can
    be taken.  A run is a list of labels. *)

From S2P Require Import Prelude.

Section Trace.
Context {L S : Type} (step : L -> S -> option S).

Fixpoint exec (ls : list L) (s : S) : option S :=
  match ls with
  | [] => Some s
  | l :: ls => s ← step l s; exec ls s
  end.

Lemma exec_app ls ls' s : exec (ls ++ ls') s = s ← exec ls s; exec ls' s.
Proof.
  revert s. induction ls as [|l ls IH]; intros s; [done|]. cbn. destruct (step l s); [apply IH|done].
Qed.

Lemma exec_cons_Some l ls s s1 s2 : step l s = Some s1 -> exec ls s1 = Some s2 -> exec (l :: ls) s = Some s2.
Proof. intros H1 H2. cbn. by rewrite H1. Qed.

Lemma exec_app_Some ls ls' s s1 s2 :
  exec ls s = Some s1 -> exec ls' s1 = Some s2 -> exec (ls ++ ls') s = Some s2.
Proof. intros H1 H2. by rewrite exec_app, H1. Qed.

Lemma exec_snoc ls l s s' :
  exec (ls ++ [l]) s = Some s' <-> exists s1, exec ls s = Some s1 /\ step l s1 = Some s'.
Proof.
  rewrite exec_app, bind_Some. apply exist_proper. intros s1. cbn. by destruct (step l s1).
Qed.

(** A property of the turns taken and the state reached, by induction on the run. *)
Lemma exec_ind (P : list L -> S -> Prop) s :
  P [] s ->
  (forall ls l s1 s2, exec ls s = Some s1 -> P ls s1 -> step l s1 = Some s2 -> P (ls ++ [l]) s2) ->
  forall ls s', exec ls s = Some s' -> P ls s'.
Proof.
  intros H0 Hstep ls. induction ls as [|l ls IH] using rev_ind; intros s' H.
  - by injection H as <-.
  - apply exec_snoc in H as (s1 & H1 & H2). eauto.
Qed.

Lemma exec_inv (I : S -> Prop) ls s s' :
  (forall l s1 s2, I s1 -> step l s1 = Some s2 -> I s2) -> I s -> exec ls s = Some s' -> I s'.
Proof. intros Hstep Hs. apply (exec_ind (fun _ => I)); eauto. Qed.

(** The same for turns that satisfy [ok]. *)
Lemma exec_inv_ok (ok : L -> Prop) (I : S -> Prop) ls s s' :
  (forall l s1 s2, ok l -> I s1 -> step l s1 = Some s2 -> I s2) ->
  Forall ok ls -> I s -> exec ls s = Some s' -> I s'.
Proof.
  intros Hstep Hok Hs. revert s Hs. induction Hok as [|l ls Hl _ IH]; intros s Hs H.
  - by injection H as <-.
  - apply bind_Some in H as (s1 & H1 & H2). exact (IH s1 (Hstep l s s1 Hl Hs H1) H2).
Qed.

(** A quantity that no turn increases. *)
Lemma exec_le (m : S -> nat) ls s s' :
  (forall l s1 s2, step l s1 = Some s2 -> (m s2 <= m s1)%nat) -> exec ls s = Some s' -> (m s' <= m s)%nat.
Proof. intros Hm. apply (exec_ind (fun _ s' => (m s' <= m s)%nat)); [done|]. intros ls' l s1 s2 _ IH H. apply Hm in H. lia. Qed.

(** A quantity that every turn decreases bounds the length of the run. *)
Lemma exec_length (m : S -> nat) ls s s' :
  (forall l s1 s2, step l s1 = Some s2 -> (m s2 < m s1)%nat) ->
  exec ls s = Some s' -> (length ls + m s' <= m s)%nat.
Proof.
  intros Hm. apply (exec_ind (fun ls s' => (length ls + m s' <= m s)%nat)); [cbn; lia|].
  intros ls' l s1 s2 _ IH H. apply Hm in H. rewrite length_app. cbn. lia.
Qed.

(** A turn that can be taken again and again. *)
Lemma exec_repeat (f : nat -> S) l n :
  (forall k, (k < n)%nat -> step l (f k) = Some (f (Datatypes.S k))) -> exec (repeat l n) (f 0%nat) = Some (f n).
Proof.
  intros H. induction n as [|n IH]; [done|]. cbn [repeat]. rewrite repeat_cons. apply exec_snoc. exists (f n).
  split; [apply IH; intros; apply H; lia|apply H; lia].
Qed.
End Trace.
