(* ===== verification/CType.v ===== *)
(** * C data types and their layout

    A deep description of the C types the eBPF programs and the kernel header [vmlinux.h] declare,
    with the layout the System V ABI gives them on a 64-bit little-endian target: sizes,
    alignments, padding, bit-fields, packed and anonymous members.  [resolve] turns a member
    access path into a bit range.  The theorems say that the ranges the layout hands out lie
    inside the object, do not overlap, and are naturally aligned when nothing is packed. *)

From S2P Require Import Prelude.

Create HintDb ctype.

(** ** Types *)

Inductive cty : Type :=
| CInt (size : Z) (is_signed : bool)
| CPtr (target : string)
| CEnum (enumerators : list (string * Z))
| CArr (n : Z) (elem : cty)
| CStruct (packed : bool) (fs : fields)
| CUnion (packed : bool) (fs : fields)
with fields : Type :=
| FNil
| FCons (name : string) (bits : option Z) (ty : cty) (rest : fields).

Scheme cty_mut := Induction for cty Sort Prop
  with fields_mut := Induction for fields Sort Prop.
Combined Scheme cty_fields_ind from cty_mut, fields_mut.

(** One member declaration; an anonymous member or a padding bit-field has the empty name. *)
Definition decl : Type := string * option Z * cty.
Definition fld (name : string) (t : cty) : decl := (name, None, t).
Definition bit (name : string) (t : cty) (w : Z) : decl := (name, Some w, t).
Definition anon (t : cty) : decl := (EmptyString, None, t).
Definition pad (t : cty) (w : Z) : decl := (EmptyString, Some w, t).

Fixpoint mk_fields (ds : list decl) : fields :=
  match ds with
  | [] => FNil
  | (name, bits, t) :: ds => FCons name bits t (mk_fields ds)
  end.

Definition cstruct (ds : list decl) : cty := CStruct false (mk_fields ds).
Definition cstruct_packed (ds : list decl) : cty := CStruct true (mk_fields ds).
Definition cunion (ds : list decl) : cty := CUnion false (mk_fields ds).
Definition cunion_packed (ds : list decl) : cty := CUnion true (mk_fields ds).

(** The basic types of the target. *)
Definition c_char : cty := CInt 1 true.
Definition c_uchar : cty := CInt 1 false.
Definition c_short : cty := CInt 2 true.
Definition c_ushort : cty := CInt 2 false.
Definition c_int : cty := CInt 4 true.
Definition c_uint : cty := CInt 4 false.
Definition c_long : cty := CInt 8 true.
Definition c_ulong : cty := CInt 8 false.
Definition c_llong : cty := CInt 8 true.
Definition c_ullong : cty := CInt 8 false.
Definition c_bool : cty := CInt 1 false.

(** ** Sizes and alignments *)

(** An enumeration is an [int] (or [unsigned int]) unless a value needs 64 bits. *)
Definition enum_size (es : list (string * Z)) : Z :=
  if forallb (fun e => (- 2 ^ 31 <=? e.2) && (e.2 <? 2 ^ 32)) es then 4 else 8.

(** A member's contribution to the alignment of its struct or union: packed members and
    unnamed bit-fields have none. *)
Definition member_align (packed : bool) (name : string) (bits : option Z) (al : Z) : Z :=
  if packed then 1
  else match bits with
       | Some _ => if bool_decide (name = EmptyString) then 1 else al
       | None => al
       end.

Fixpoint alignof (t : cty) : Z :=
  match t with
  | CInt s _ => s
  | CPtr _ => 8
  | CEnum es => enum_size es
  | CArr _ e => alignof e
  | CStruct packed fs | CUnion packed fs => fields_align packed fs
  end
with fields_align (packed : bool) (fs : fields) : Z :=
  match fs with
  | FNil => 1
  | FCons name bits t rest =>
      Z.max (member_align packed name bits (alignof t)) (fields_align packed rest)
  end.

(** [place packed pos bits sz al]: where a member of a type of [sz] bytes aligned to [al] goes
    when the next free bit is [pos], and the next free bit after it.  A bit-field stays in the
    storage unit of its type unless it would cross its end; a packed one takes the next bit. *)
Definition place (packed : bool) (pos : Z) (bits : option Z) (sz al : Z) : Z * Z :=
  match bits with
  | None =>
      let off := round_up pos (if packed then 8 else 8 * al) in (off, off + 8 * sz)
  | Some w =>
      if w =? 0 then let off := round_up pos (8 * al) in (off, off)
      else
        let off := if packed then pos
                   else if pos mod (8 * sz) + w >? 8 * sz then round_up pos (8 * al) else pos in
        (off, off + w)
  end.

Definition bits_width (bits : option Z) (sz : Z) : Z :=
  match bits with None => 8 * sz | Some w => w end.

Definition bytes_of_bits (n : Z) : Z := (n + 7) / 8.

Fixpoint sizeof (t : cty) : Z :=
  match t with
  | CInt s _ => s
  | CPtr _ => 8
  | CEnum es => enum_size es
  | CArr n e => n * sizeof e
  | CStruct packed fs =>
      round_up (bytes_of_bits (struct_end packed fs 0)) (fields_align packed fs)
  | CUnion packed fs =>
      round_up (bytes_of_bits (union_end fs)) (fields_align packed fs)
  end
with struct_end (packed : bool) (fs : fields) (pos : Z) : Z :=
  match fs with
  | FNil => pos
  | FCons _ bits t rest =>
      struct_end packed rest (place packed pos bits (sizeof t) (alignof t)).2
  end
with union_end (fs : fields) : Z :=
  match fs with
  | FNil => 0
  | FCons _ bits t rest => Z.max (bits_width bits (sizeof t)) (union_end rest)
  end.

(** ** Members and access paths *)

(** A named member: its bit offset in the object, its width in bits, whether it is a bit-field. *)
Record member := Member
  { m_name : string; m_off : Z; m_width : Z; m_bitfield : bool; m_ty : cty }.

Definition shift_member (d : Z) (m : member) : member :=
  Member (m_name m) (d + m_off m) (m_width m) (m_bitfield m) (m_ty m).

(** What one declaration placed at [off] adds to the members of its struct: the members of an
    anonymous struct or union are members of the enclosing one, padding adds nothing. *)
Definition expand (name : string) (bits : option Z) (off : Z) (t : cty) (inner : list member)
    : list member :=
  if bool_decide (name = EmptyString) then
    match bits with None => shift_member off <$> inner | Some _ => [] end
  else [Member name off (bits_width bits (sizeof t)) (bool_decide (is_Some bits)) t].

Fixpoint members (t : cty) : list member :=
  match t with
  | CStruct packed fs => struct_members packed fs 0
  | CUnion _ fs => union_members fs
  | _ => []
  end
with struct_members (packed : bool) (fs : fields) (pos : Z) : list member :=
  match fs with
  | FNil => []
  | FCons name bits t rest =>
      let '(off, next) := place packed pos bits (sizeof t) (alignof t) in
      expand name bits off t (members t) ++ struct_members packed rest next
  end
with union_members (fs : fields) : list member :=
  match fs with
  | FNil => []
  | FCons name bits t rest => expand name bits 0 t (members t) ++ union_members rest
  end.

Fixpoint find_member (f : string) (ms : list member) : option member :=
  match ms with
  | [] => None
  | m :: ms => if bool_decide (m_name m = f) then Some m else find_member f ms
  end.

(** One step of an access path: [.f] or [[i]]. *)
Inductive step := Fld (f : string) | Idx (i : Z).

(** A resolved access: the bit range it denotes and the type found there. *)
Record place_of := PlaceOf { p_off : Z; p_width : Z; p_bitfield : bool; p_ty : cty }.

Fixpoint resolve (t : cty) (p : list step) : option place_of :=
  match p with
  | [] => Some (PlaceOf 0 (8 * sizeof t) false t)
  | Fld f :: p =>
      m ← find_member f (members t);
      if m_bitfield m then
        match p with
        | [] => Some (PlaceOf (m_off m) (m_width m) true (m_ty m))
        | _ :: _ => None
        end
      else
        r ← resolve (m_ty m) p;
        Some (PlaceOf (m_off m + p_off r) (p_width r) (p_bitfield r) (p_ty r))
  | Idx i :: p =>
      match t with
      | CArr n e =>
          if (0 <=? i) && (i <? n) then
            r ← resolve e p;
            Some (PlaceOf (8 * (i * sizeof e) + p_off r) (p_width r) (p_bitfield r) (p_ty r))
          else None
      | _ => None
      end
  end.

(** The value of an enumerator, by name. *)
Definition enum_value (t : cty) (name : string) : option Z :=
  match t with
  | CEnum es => e ← list_find (fun e => e.1 = name) es; Some e.2.2
  | _ => None
  end.

Definition offsetof (t : cty) (p : list step) : option Z := p_off <$> resolve t p.

(** ** Well-formed types *)

Definition int_size (s : Z) : bool := (s =? 1) || (s =? 2) || (s =? 4) || (s =? 8) || (s =? 16).

Definition is_integral (t : cty) : bool :=
  match t with CInt _ _ | CEnum _ => true | _ => false end.

(** A bit-field has an integer type that is at least as wide; only padding has width zero. *)
Definition bits_wf (name : string) (bits : option Z) (t : cty) : bool :=
  match bits with
  | None => true
  | Some w => is_integral t && (0 <=? w) && (w <=? 8 * sizeof t)
              && ((0 <? w) || bool_decide (name = EmptyString))
  end.

Fixpoint wf (t : cty) : bool :=
  match t with
  | CInt s _ => int_size s
  | CPtr _ | CEnum _ => true
  | CArr n e => (0 <=? n) && wf e
  | CStruct _ fs | CUnion _ fs => wf_fields fs
  end
with wf_fields (fs : fields) : bool :=
  match fs with
  | FNil => true
  | FCons name bits t rest => bits_wf name bits t && wf t && wf_fields rest
  end.

(** No packed aggregate anywhere inside. *)
Fixpoint unpacked (t : cty) : bool :=
  match t with
  | CInt _ _ | CPtr _ | CEnum _ => true
  | CArr _ e => unpacked e
  | CStruct packed fs | CUnion packed fs => negb packed && unpacked_fields fs
  end
with unpacked_fields (fs : fields) : bool :=
  match fs with
  | FNil => true
  | FCons _ _ t rest => unpacked t && unpacked_fields rest
  end.

(** ** Alignments are powers of two *)

Definition pow2 (a : Z) : Prop := exists k, 0 <= k /\ a = 2 ^ k.

Lemma pow2_pos a : pow2 a -> 0 < a.
Proof. intros (k & ? & ->). apply Z.pow_pos_nonneg; lia. Qed.

Lemma pow2_1 : pow2 1.
Proof. exists 0. done. Qed.

Lemma pow2_divide a b : pow2 a -> pow2 b -> a <= b -> (a | b).
Proof.
  intros (j & Hj & ->) (k & Hk & ->) Hle.
  apply Z.pow_le_mono_r_iff in Hle; [|lia|lia].
  exists (2 ^ (k - j)). rewrite <- Z.pow_add_r by lia. f_equal. lia.
Qed.

Lemma pow2_max a b : pow2 a -> pow2 b -> pow2 (Z.max a b).
Proof. intros. destruct (Z.max_spec a b) as [[_ ->]|[_ ->]]; done. Qed.

Lemma pow2_int_size s : int_size s = true -> pow2 s.
Proof.
  unfold int_size. rewrite !orb_true_iff, !Z.eqb_eq. unfold pow2.
  intros [[[[->| ->]| ->]| ->]| ->]; [exists 0|exists 1|exists 2|exists 3|exists 4]; done.
Qed.

Lemma pow2_enum_size es : pow2 (enum_size es).
Proof. unfold enum_size. case_match; [exists 2|exists 3]; done. Qed.

#[export] Hint Resolve pow2_pos pow2_1 pow2_max pow2_int_size pow2_enum_size : ctype.

Lemma pow2_member_align packed name bits al :
  pow2 al -> pow2 (member_align packed name bits al).
Proof. unfold member_align. repeat case_match; auto with ctype. Qed.
#[export] Hint Resolve pow2_member_align : ctype.

Lemma align_pow2 :
  (forall t, wf t = true -> pow2 (alignof t)) /\
  (forall fs, wf_fields fs = true -> forall packed, pow2 (fields_align packed fs)).
Proof.
  apply cty_fields_ind; cbn; intros; rewrite ?andb_true_iff in *; destruct_and?; eauto 6 with ctype.
Qed.

Lemma alignof_pow2 t : wf t = true -> pow2 (alignof t).
Proof. apply align_pow2. Qed.
Lemma fields_align_pow2 packed fs : wf_fields fs = true -> pow2 (fields_align packed fs).
Proof. intros. by apply align_pow2. Qed.
#[export] Hint Resolve alignof_pow2 fields_align_pow2 : ctype.

Lemma alignof_pos t : wf t = true -> 0 < alignof t.
Proof. auto with ctype. Qed.

Lemma fields_align_pos packed fs : wf_fields fs = true -> 0 < fields_align packed fs.
Proof. auto with ctype. Qed.

(** ** Placement *)

Lemma place_off_ge packed pos bits sz al :
  0 <= pos -> 0 < al -> pos <= (place packed pos bits sz al).1.
Proof.
  intros. unfold place. assert (pos <= round_up pos (8 * al)) by (apply round_up_ge; lia).
  assert (pos <= round_up pos 8) by (apply round_up_ge; lia).
  repeat case_match; cbn; lia.
Qed.

Lemma place_next packed pos bits sz al :
  (place packed pos bits sz al).2 = (place packed pos bits sz al).1 + bits_width bits sz.
Proof. unfold place. destruct bits; cbn; [|done]. zbool; cbn; lia. Qed.

Lemma bits_width_nonneg name bits t :
  bits_wf name bits t = true -> 0 <= sizeof t -> 0 <= bits_width bits (sizeof t).
Proof. unfold bits_wf, bits_width. destruct bits; rewrite ?andb_true_iff; intros; lia. Qed.

Lemma bytes_of_bits_ge n : n <= 8 * bytes_of_bits n.
Proof. unfold bytes_of_bits. pose proof (Z.div_mod (n + 7) 8). pose proof (Z.mod_pos_bound (n+7) 8). lia. Qed.

Lemma round_up_bits n al : 0 < al -> n <= 8 * round_up (bytes_of_bits n) al.
Proof. intros. pose proof (bytes_of_bits_ge n). pose proof (round_up_ge (bytes_of_bits n) al). lia. Qed.

Lemma sizeof_nonneg_aux :
  (forall t, wf t = true -> 0 <= sizeof t) /\
  (forall fs, wf_fields fs = true ->
     (forall packed pos, 0 <= pos -> pos <= struct_end packed fs pos) /\ 0 <= union_end fs).
Proof.
  apply cty_fields_ind; cbn.
  - intros. apply pow2_int_size, pow2_pos in H. lia.
  - lia.
  - intros. pose proof (pow2_pos _ (pow2_enum_size enumerators)). lia.
  - intros. rewrite andb_true_iff in *. destruct_and?. apply Z.leb_le in H1. specialize (H H2). nia.
  - intros p fs IH Hwf. destruct (IH Hwf) as [Hs _]. specialize (Hs p 0).
    pose proof (round_up_bits (struct_end p fs 0) (fields_align p fs) (fields_align_pos _ _ Hwf)). lia.
  - intros p fs IH Hwf. destruct (IH Hwf) as [_ Hu].
    pose proof (round_up_bits (union_end fs) (fields_align p fs) (fields_align_pos _ _ Hwf)). lia.
  - intros. split; lia.
  - intros name bits t IHt fs IHfs Hwf. rewrite !andb_true_iff in Hwf. destruct_and!.
    pose proof (bits_width_nonneg name bits t ltac:(done) (IHt ltac:(done))).
    destruct IHfs as [Hs Hu]; [done|]. split; [|lia].
    intros packed pos Hpos.
    pose proof (place_off_ge packed pos bits (sizeof t) (alignof t) Hpos (alignof_pos t ltac:(done))).
    pose proof (place_next packed pos bits (sizeof t) (alignof t)).
    etrans; [|apply Hs]; lia.
Qed.

Lemma sizeof_nonneg t : wf t = true -> 0 <= sizeof t.
Proof. apply sizeof_nonneg_aux. Qed.

Lemma struct_end_ge packed fs pos :
  wf_fields fs = true -> 0 <= pos -> pos <= struct_end packed fs pos.
Proof. intros H. by apply sizeof_nonneg_aux. Qed.

(** ** Members lie inside their object *)

(** What the layout promises of a member of an object of [n] bits. *)
Record member_ok (n : Z) (m : member) : Prop := MemberOk
  { mo_lo : 0 <= m_off m;
    mo_width : 0 <= m_width m;
    mo_hi : m_off m + m_width m <= n;
    mo_wf : wf (m_ty m) = true;
    mo_full : m_bitfield m = false -> m_width m = 8 * sizeof (m_ty m) }.

Lemma member_ok_shift d n n' m :
  member_ok n m -> 0 <= d -> d + n <= n' -> member_ok n' (shift_member d m).
Proof. intros [] ??. split; cbn; try done; lia. Qed.

Lemma expand_ok name bits off t n :
  bits_wf name bits t = true -> wf t = true -> 0 <= off -> off + bits_width bits (sizeof t) <= n ->
  Forall (member_ok (8 * sizeof t)) (members t) ->
  Forall (fun m => member_ok n m /\ off <= m_off m) (expand name bits off t (members t)).
Proof.
  intros Hb Hwf Hoff Hn HF. unfold expand. case_bool_decide as Hname.
  - destruct bits as [w|]; cbn in Hn; [constructor|]. apply Forall_fmap.
    eapply Forall_impl; [exact HF|]. intros m Hm. cbn. split.
    + eapply member_ok_shift; [done|lia|lia].
    + destruct Hm. lia.
  - apply Forall_singleton. cbn. split; [|lia]. split; cbn; try done.
    + eapply bits_width_nonneg; [done|by apply sizeof_nonneg].
    + by destruct bits.
Qed.

Lemma Forall_member_ok_mono n n' l :
  n <= n' -> Forall (member_ok n) l -> Forall (member_ok n') l.
Proof. intros ? HF. eapply Forall_impl; [exact HF|]. intros m []. split; try done; lia. Qed.

Lemma struct_members_step packed pos name bits t rest :
  bits_wf name bits t = true -> wf t = true -> wf_fields rest = true -> 0 <= pos ->
  let o := (place packed pos bits (sizeof t) (alignof t)).1 in
  let nx := (place packed pos bits (sizeof t) (alignof t)).2 in
  struct_members packed (FCons name bits t rest) pos
    = expand name bits o t (members t) ++ struct_members packed rest nx
  /\ pos <= o /\ nx = o + bits_width bits (sizeof t) /\ o <= nx
  /\ nx <= struct_end packed rest nx.
Proof.
  intros Hb Ht Hr Hpos o nx.
  assert (pos <= o) by (apply place_off_ge; [done|by apply alignof_pos]).
  assert (nx = o + bits_width bits (sizeof t)) by apply place_next.
  pose proof (bits_width_nonneg name bits t Hb (sizeof_nonneg t Ht)).
  assert (nx <= struct_end packed rest nx) by (apply struct_end_ge; [done|lia]).
  split; [|lia]. cbn. subst o nx. by destruct (place packed pos bits (sizeof t) (alignof t)).
Qed.

Lemma Forall_lower_ok n n' p l :
  n <= n' -> Forall (fun m => member_ok n m /\ p <= m_off m) l -> Forall (member_ok n') l.
Proof. intros ? HF. eapply Forall_impl; [exact HF|]. intros m [[] ?]. split; try done; lia. Qed.

Lemma members_ok_aux :
  (forall t, wf t = true -> Forall (member_ok (8 * sizeof t)) (members t)) /\
  (forall fs, wf_fields fs = true ->
     (forall packed pos, 0 <= pos ->
        Forall (fun m => member_ok (struct_end packed fs pos) m /\ pos <= m_off m)
               (struct_members packed fs pos)) /\
     Forall (member_ok (union_end fs)) (union_members fs)).
Proof.
  apply cty_fields_ind; try solve [cbn; intros; repeat (split || intros || constructor)].
  - intros p fs IH Hwf. cbn. destruct (IH Hwf) as [Hs _].
    eapply Forall_lower_ok; [|by apply Hs]. by apply round_up_bits, fields_align_pos.
  - intros p fs IH Hwf. cbn. destruct (IH Hwf) as [_ Hu].
    eapply Forall_member_ok_mono; [|done]. by apply round_up_bits, fields_align_pos.
  - intros name bits t IHt rest IHr Hwf. cbn in Hwf. rewrite !andb_true_iff in Hwf.
    destruct Hwf as [[Hb Ht] Hr]. destruct (IHr Hr) as [Hs Hu]. split.
    + intros packed pos Hpos.
      destruct (struct_members_step packed pos name bits t rest Hb Ht Hr Hpos)
        as (-> & Hge & Hnx & Hle & Hend).
      cbn [struct_end]. apply Forall_app. split.
      * set (o := (place _ _ _ _ _).1) in *. set (nx := (place _ _ _ _ _).2) in *.
        pose proof (expand_ok name bits o t (struct_end packed rest nx) Hb Ht
                      ltac:(lia) ltac:(lia) (IHt Ht)) as HF.
        eapply Forall_impl; [exact HF|]. intros m [? ?]. split; [done|lia].
      * eapply Forall_impl; [apply Hs; lia|]. intros m [? ?]. split; [done|lia].
    + cbn. apply Forall_app. split.
      * pose proof (expand_ok name bits 0 t (bits_width bits (sizeof t)) Hb Ht
                      ltac:(lia) ltac:(lia) (IHt Ht)) as HF.
        eapply Forall_lower_ok; [|exact HF]. lia.
      * eapply Forall_member_ok_mono; [|done]. lia.
Qed.

Lemma members_ok t : wf t = true -> Forall (member_ok (8 * sizeof t)) (members t).
Proof. apply members_ok_aux. Qed.

Lemma find_member_elem f ms m : find_member f ms = Some m -> m ∈ ms /\ m_name m = f.
Proof.
  induction ms as [|m' ms IH]; cbn; [done|]. case_bool_decide; intros [=]; subst.
  - split; [constructor|done].
  - destruct IH; [done|]. split; [by constructor|done].
Qed.

Lemma find_member_ok t f m :
  wf t = true -> find_member f (members t) = Some m -> member_ok (8 * sizeof t) m.
Proof.
  intros Hwf [Hin _]%find_member_elem. pose proof (members_ok t Hwf) as HF.
  rewrite Forall_forall in HF. by apply HF.
Qed.

Lemma resolve_wf t p r : wf t = true -> resolve t p = Some r -> wf (p_ty r) = true.
Proof.
  revert t r. induction p as [|[f|i] p IH]; intros t r Hwf; cbn.
  - intros [= <-]. done.
  - destruct (find_member f (members t)) as [m|] eqn:Hf; [cbn|done].
    pose proof (mo_wf _ _ (find_member_ok t f m Hwf Hf)) as Hm.
    case_match; [destruct p; intros [= <-]; done|].
    destruct (resolve (m_ty m) p) as [r'|] eqn:Hr; cbn; [|done]. intros [= <-]. cbn. eauto.
  - destruct t; try done. cbn in Hwf. apply andb_true_iff in Hwf as [_ Hwf].
    case_match; [|done]. destruct (resolve t p) eqn:Hr; cbn; [|done]. intros [= <-]. cbn. eauto.
Qed.

(** A resolved access lies inside the object it starts from. *)
Lemma resolve_bounds t p r :
  wf t = true -> resolve t p = Some r ->
  0 <= p_off r /\ 0 <= p_width r /\ p_off r + p_width r <= 8 * sizeof t.
Proof.
  revert t r. induction p as [|[f|i] p IH]; intros t r Hwf; cbn.
  - intros [= <-]; cbn. pose proof (sizeof_nonneg t Hwf). lia.
  - destruct (find_member f (members t)) as [m|] eqn:Hf; [cbn|done].
    destruct (find_member_ok t f m Hwf Hf) as [Hlo Hw Hhi Hm Hfull].
    destruct (m_bitfield m); [destruct p; intros [= <-]; cbn; lia|].
    destruct (resolve (m_ty m) p) as [r'|] eqn:Hr; cbn; [|done]. intros [= <-]; cbn.
    pose proof (IH _ _ Hm Hr). pose proof (Hfull eq_refl). lia.
  - destruct t as [| | |n e| |]; try done. cbn in Hwf. apply andb_true_iff in Hwf as [Hn Hwf].
    destruct ((0 <=? i) && (i <? n)) eqn:Hi; [|done].
    destruct (resolve e p) as [r'|] eqn:Hr; cbn; [|done]. intros [= <-]; cbn.
    pose proof (IH _ _ Hwf Hr). pose proof (sizeof_nonneg e Hwf).
    apply andb_true_iff in Hi as [?%Z.leb_le ?%Z.ltb_lt]. nia.
Qed.

(** ** Sizes are multiples of alignments, unpacked members are aligned *)

Lemma member_align_le packed name bits t rest :
  member_align packed name bits (alignof t) <= fields_align packed (FCons name bits t rest).
Proof. cbn. lia. Qed.

Lemma sizeof_align_divide t : wf t = true -> (alignof t | sizeof t).
Proof.
  induction t; cbn; intros Hwf; try done.
  - apply andb_true_iff in Hwf as [_ Hwf]. by apply Z.divide_mul_r, IHt.
  - apply round_up_divide.
  - apply round_up_divide.
Qed.

(** What natural alignment means for a member of an object aligned to [al] bytes. *)
Definition member_aligned (al : Z) (m : member) : Prop :=
  unpacked (m_ty m) = true /\
  (m_bitfield m = false -> (8 * alignof (m_ty m) | m_off m) /\ (alignof (m_ty m) | al)).

Lemma expand_aligned name bits off t al :
  bits_wf name bits t = true -> unpacked t = true ->
  (bits = None -> (8 * alignof t | off) /\ (alignof t | al)) ->
  Forall (member_aligned (alignof t)) (members t) ->
  Forall (member_aligned al) (expand name bits off t (members t)).
Proof.
  intros Hb Hu Hoff HF. unfold expand. case_bool_decide.
  - destruct bits; [constructor|]. destruct (Hoff eq_refl) as [Ho Hal]. apply Forall_fmap.
    eapply Forall_impl; [exact HF|]. intros m [Hum Hm]. split; [done|]. cbn. intros Hbf.
    destruct (Hm Hbf) as [H1 H2]. split.
    + apply Z.divide_add_r; [|done]. etrans; [|exact Ho]. by apply Z.mul_divide_mono_l.
    + by etrans.
  - apply Forall_singleton. split; [done|]. cbn. destruct bits; [done|auto].
Qed.

Lemma member_aligned_mono al al' l :
  (al | al') -> Forall (member_aligned al) l -> Forall (member_aligned al') l.
Proof.
  intros ? HF. eapply Forall_impl; [exact HF|]. intros m [Hu Hm]. split; [done|]. intros Hb.
  destruct (Hm Hb). split; [done|by etrans].
Qed.

Lemma fields_align_divide name bits t rest :
  wf t = true -> wf_fields rest = true ->
  (bits = None -> (alignof t | fields_align false (FCons name bits t rest))) /\
  (fields_align false rest | fields_align false (FCons name bits t rest)).
Proof.
  intros Ht Hr. assert (Hp : pow2 (fields_align false (FCons name bits t rest))).
  { cbn [fields_align]. auto with ctype. }
  split; [intros ->|]; apply pow2_divide; auto with ctype; cbn [fields_align];
    unfold member_align; lia.
Qed.

Lemma members_aligned_aux :
  (forall t, wf t = true -> unpacked t = true -> Forall (member_aligned (alignof t)) (members t)) /\
  (forall fs, wf_fields fs = true -> unpacked_fields fs = true ->
     (forall pos, 0 <= pos ->
        Forall (member_aligned (fields_align false fs)) (struct_members false fs pos)) /\
     Forall (member_aligned (fields_align false fs)) (union_members fs)).
Proof.
  apply cty_fields_ind; try solve [cbn; intros; repeat (split || intros || constructor)].
  - intros p fs IH Hwf Hu. cbn in *. apply andb_true_iff in Hu as [Hp Hu]. destruct p; [done|].
    by apply IH.
  - intros p fs IH Hwf Hu. cbn in *. apply andb_true_iff in Hu as [Hp Hu]. destruct p; [done|].
    by apply IH.
  - intros name bits t IHt rest IHr Hwf Hu. cbn in Hwf, Hu. rewrite !andb_true_iff in Hwf.
    apply andb_true_iff in Hu as [Hut Hur]. destruct Hwf as [[Hb Ht] Hr].
    destruct (IHr Hr Hur) as [Hs Hun]. specialize (IHt Ht Hut).
    destruct (fields_align_divide name bits t rest Ht Hr) as [Hal Hrest]. split.
    + intros pos Hpos.
      destruct (struct_members_step false pos name bits t rest Hb Ht Hr Hpos)
        as (-> & Hge & Hnx & Hle & Hend).
      apply Forall_app. split.
      * apply expand_aligned; auto. intros ->. split; [apply round_up_divide|auto].
      * eapply member_aligned_mono; [exact Hrest|]. apply Hs. lia.
    + cbn [union_members]. apply Forall_app. split.
      * apply expand_aligned; auto. intros ->. split; [apply Z.divide_0_r|auto].
      * by eapply member_aligned_mono.
Qed.

Lemma find_member_aligned t f m :
  wf t = true -> unpacked t = true -> find_member f (members t) = Some m ->
  member_aligned (alignof t) m.
Proof.
  intros Hwf Hu [Hin _]%find_member_elem.
  pose proof (proj1 members_aligned_aux t Hwf Hu) as HF.
  rewrite Forall_forall in HF. by apply HF.
Qed.

(** Every addressable part of an object without packed aggregates is naturally aligned. *)
Lemma resolve_aligned_aux t p r :
  wf t = true -> unpacked t = true -> resolve t p = Some r -> p_bitfield r = false ->
  (8 * alignof (p_ty r) | p_off r) /\ (alignof (p_ty r) | alignof t).
Proof.
  revert t r. induction p as [|[f|i] p IH]; intros t r Hwf Hu; cbn.
  - intros [= <-] _; cbn. split; [apply Z.divide_0_r|done].
  - destruct (find_member f (members t)) as [m|] eqn:Hf; [cbn|done].
    pose proof (find_member_ok t f m Hwf Hf) as [_ _ _ Hm _].
    destruct (find_member_aligned t f m Hwf Hu Hf) as [Hum Hal].
    destruct (m_bitfield m); [destruct p; intros [= <-]; done|].
    destruct (resolve (m_ty m) p) as [r'|] eqn:Hr; cbn; [|done]. intros [= <-] Hbf; cbn in *.
    destruct (IH _ _ Hm Hum Hr Hbf) as [H1 H2]. destruct (Hal eq_refl) as [H3 H4]. split.
    + apply Z.divide_add_r; [|done]. etrans; [|exact H3]. by apply Z.mul_divide_mono_l.
    + by etrans.
  - destruct t as [| | |n e| |]; try done. cbn in Hwf, Hu. apply andb_true_iff in Hwf as [_ Hwf].
    case_match; [|done].
    destruct (resolve e p) as [r'|] eqn:Hr; cbn; [|done]. intros [= <-] Hbf; cbn in *.
    destruct (IH _ _ Hwf Hu Hr Hbf) as [H1 H2]. split; [|done].
    apply Z.divide_add_r; [|done]. apply Z.mul_divide_mono_l. apply Z.divide_mul_r.
    etrans; [exact H2|]. by apply sizeof_align_divide.
Qed.

(** ** Distinct members of a struct do not overlap *)

(** No union among the anonymous members: every member of the struct has bits of its own. *)
Fixpoint flat (t : cty) : bool :=
  match t with
  | CStruct _ fs => flat_fields fs
  | CUnion _ _ => false
  | _ => true
  end
with flat_fields (fs : fields) : bool :=
  match fs with
  | FNil => true
  | FCons name bits t rest => (negb (bool_decide (name = EmptyString)) || flat t) && flat_fields rest
  end.

Definition before (m1 m2 : member) : Prop := m_off m1 + m_width m1 <= m_off m2.

Lemma expand_sorted name bits off t :
  negb (bool_decide (name = EmptyString)) || flat t = true ->
  (flat t = true -> StronglySorted before (members t)) ->
  StronglySorted before (expand name bits off t (members t)).
Proof.
  intros Hf Hs. unfold expand. case_bool_decide; [|repeat constructor].
  destruct bits; [constructor|]. eapply StronglySorted_fmap; [|by apply Hs].
  unfold before. cbn. lia.
Qed.

Lemma members_sorted_aux :
  (forall t, wf t = true -> flat t = true -> StronglySorted before (members t)) /\
  (forall fs, wf_fields fs = true -> flat_fields fs = true ->
     forall packed pos, 0 <= pos -> StronglySorted before (struct_members packed fs pos)).
Proof.
  apply cty_fields_ind; try solve [cbn; intros; constructor || done].
  - intros p fs IH Hwf Hf. cbn in *. by apply IH.
  - intros name bits t IHt rest IHr Hwf Hf packed pos Hpos. cbn in Hwf, Hf.
    rewrite !andb_true_iff in Hwf. apply andb_true_iff in Hf as [Hft Hfr].
    destruct Hwf as [[Hb Ht] Hr].
    destruct (struct_members_step packed pos name bits t rest Hb Ht Hr Hpos)
      as (-> & Hge & Hnx & Hle & Hend).
    set (o := (place _ _ _ _ _).1) in *. set (nx := (place _ _ _ _ _).2) in *.
    apply StronglySorted_app_2; [|by apply expand_sorted; auto|apply IHr; auto; lia].
    pose proof (expand_ok name bits o t nx Hb Ht ltac:(lia) ltac:(lia) (members_ok t Ht)) as HF1.
    pose proof (proj1 (proj2 members_ok_aux rest Hr) packed nx ltac:(lia)) as HF2.
    rewrite Forall_forall in HF1, HF2. intros m1 m2 [[] ?]%HF1 [[] ?]%HF2. unfold before. lia.
Qed.

Lemma StronglySorted_pair {A} (R : relation A) l x y :
  StronglySorted R l -> x ∈ l -> y ∈ l -> x = y \/ R x y \/ R y x.
Proof.
  induction 1 as [|a l Hs IH HF]; [by intros ?%not_elem_of_nil|].
  rewrite Forall_forall in HF. rewrite !elem_of_cons. naive_solver.
Qed.

(** Two distinct members of such a struct, and all their parts, have disjoint bit ranges. *)
Lemma resolve_disjoint_aux t f g p q r1 r2 :
  wf t = true -> flat t = true -> f <> g ->
  resolve t (Fld f :: p) = Some r1 -> resolve t (Fld g :: q) = Some r2 ->
  p_off r1 + p_width r1 <= p_off r2 \/ p_off r2 + p_width r2 <= p_off r1.
Proof.
  intros Hwf Hfl Hne.
  assert (Hin : forall f p r, resolve t (Fld f :: p) = Some r -> exists m,
            m ∈ members t /\ m_name m = f /\
            m_off m <= p_off r /\ p_off r + p_width r <= m_off m + m_width m).
  { clear f g p q r1 r2 Hne. intros f p r. cbn.
    destruct (find_member f (members t)) as [m|] eqn:Hf; cbn; [|done].
    destruct (find_member_elem _ _ _ Hf) as [Hel Hn].
    destruct (find_member_ok t f m Hwf Hf) as [Hlo Hw Hhi Hm Hfull]. intros Hr.
    exists m. split; [done|]. split; [done|].
    destruct (m_bitfield m); [destruct p; simplify_eq/=; lia|].
    destruct (resolve (m_ty m) p) as [r'|] eqn:Hr'; simplify_eq/=.
    pose proof (resolve_bounds _ _ _ Hm Hr'). pose proof (Hfull eq_refl). lia. }
  intros (m1 & Hm1 & Hn1 & ? & ?)%Hin (m2 & Hm2 & Hn2 & ? & ?)%Hin.
  destruct (StronglySorted_pair before (members t) m1 m2) as [->|[H'|H']]; try done.
  - by apply members_sorted_aux.
  - congruence.
  - unfold before in H'. lia.
  - unfold before in H'. lia.
Qed.
