(* ===== verification/EbAbi.v ===== *)
(** * Kernel header types: EbAbi

    From the [vmlinux.h] shared by [erspan], [funcprobe] and [xdpdump] (byte-identical copies under [ebpf/*/src/bpf/vmlinux.h]):
    the types the programs name: program contexts, packet headers, tunnel metadata, registers, helper numbers and map types.
    Every definition is one declaration of the header, in dependency order: [struct_x], [union_x]
    and [enum_x] for tagged types, the bare name for a typedef. *)

From S2P Require Import Prelude CType.

Definition __u32 : cty := c_uint.

Definition __u64 : cty := c_ullong.

Definition __u8 : cty := c_uchar.

Definition struct___sk_buff : cty := cstruct
  [ fld "len" __u32;
    fld "pkt_type" __u32;
    fld "mark" __u32;
    fld "queue_mapping" __u32;
    fld "protocol" __u32;
    fld "vlan_present" __u32;
    fld "vlan_tci" __u32;
    fld "vlan_proto" __u32;
    fld "priority" __u32;
    fld "ingress_ifindex" __u32;
    fld "ifindex" __u32;
    fld "tc_index" __u32;
    fld "cb" (CArr 5 __u32);
    fld "hash" __u32;
    fld "tc_classid" __u32;
    fld "data" __u32;
    fld "data_end" __u32;
    fld "napi_id" __u32;
    fld "family" __u32;
    fld "remote_ip4" __u32;
    fld "local_ip4" __u32;
    fld "remote_ip6" (CArr 4 __u32);
    fld "local_ip6" (CArr 4 __u32);
    fld "remote_port" __u32;
    fld "local_port" __u32;
    fld "data_meta" __u32;
    anon (cunion
    [ fld "flow_keys" (CPtr "struct bpf_flow_keys") ]);
    fld "tstamp" __u64;
    fld "wire_len" __u32;
    fld "gso_segs" __u32;
    anon (cunion
    [ fld "sk" (CPtr "struct bpf_sock") ]);
    fld "gso_size" __u32;
    fld "tstamp_type" __u8;
    fld "hwtstamp" __u64 ].

Definition __u16 : cty := c_ushort.

Definition __be16 : cty := __u16.

Definition struct_bpf_tunnel_key : cty := cstruct
  [ fld "tunnel_id" __u32;
    anon (cunion
    [ fld "remote_ipv4" __u32;
      fld "remote_ipv6" (CArr 4 __u32) ]);
    fld "tunnel_tos" __u8;
    fld "tunnel_ttl" __u8;
    anon (cunion
    [ fld "tunnel_ext" __u16;
      fld "tunnel_flags" __be16 ]);
    fld "tunnel_label" __u32;
    anon (cunion
    [ fld "local_ipv4" __u32;
      fld "local_ipv6" (CArr 4 __u32) ]) ].

Definition __be32 : cty := __u32.

Definition struct_erspan_md2 : cty := cstruct
  [ fld "timestamp" __be32;
    fld "sgt" __be16;
    bit "hwid_upper" __u8 2;
    bit "ft" __u8 5;
    bit "p" __u8 1;
    bit "o" __u8 1;
    bit "gra" __u8 2;
    bit "dir" __u8 1;
    bit "hwid" __u8 4 ].

Definition struct_erspan_metadata : cty := cstruct
  [ fld "version" c_int;
    fld "u" (cunion
    [ fld "index" __be32;
      fld "md2" struct_erspan_md2 ]) ].

Definition u16 : cty := __u16.

Definition struct_xdp_md : cty := cstruct
  [ fld "data" __u32;
    fld "data_end" __u32;
    fld "data_meta" __u32;
    fld "ingress_ifindex" __u32;
    fld "rx_queue_index" __u32;
    fld "egress_ifindex" __u32 ].

Definition enum_xdp_action : cty := CEnum
  [ ("XDP_ABORTED", 0);
    ("XDP_DROP", 1);
    ("XDP_PASS", 2);
    ("XDP_TX", 3);
    ("XDP_REDIRECT", 4) ].

Definition struct_ethhdr : cty := cstruct
  [ fld "h_dest" (CArr 6 c_uchar);
    fld "h_source" (CArr 6 c_uchar);
    fld "h_proto" __be16 ].

Definition u32 : cty := __u32.

Definition u64 : cty := __u64.

Definition struct_pt_regs : cty := cstruct
  [ fld "r15" c_ulong;
    fld "r14" c_ulong;
    fld "r13" c_ulong;
    fld "r12" c_ulong;
    fld "bp" c_ulong;
    fld "bx" c_ulong;
    fld "r11" c_ulong;
    fld "r10" c_ulong;
    fld "r9" c_ulong;
    fld "r8" c_ulong;
    fld "ax" c_ulong;
    fld "cx" c_ulong;
    fld "dx" c_ulong;
    fld "si" c_ulong;
    fld "di" c_ulong;
    fld "orig_ax" c_ulong;
    fld "ip" c_ulong;
    fld "cs" c_ulong;
    fld "flags" c_ulong;
    fld "sp" c_ulong;
    fld "ss" c_ulong ].

Definition enum_BPF_F_stack : cty := CEnum
  [ ("BPF_F_SKIP_FIELD_MASK", 255);
    ("BPF_F_USER_STACK", 256);
    ("BPF_F_FAST_STACK_CMP", 512);
    ("BPF_F_REUSE_STACKID", 1024);
    ("BPF_F_USER_BUILD_ID", 2048) ].

Definition enum_bpf_map_type : cty := CEnum
  [ ("BPF_MAP_TYPE_UNSPEC", 0);
    ("BPF_MAP_TYPE_HASH", 1);
    ("BPF_MAP_TYPE_ARRAY", 2);
    ("BPF_MAP_TYPE_PROG_ARRAY", 3);
    ("BPF_MAP_TYPE_PERF_EVENT_ARRAY", 4);
    ("BPF_MAP_TYPE_PERCPU_HASH", 5);
    ("BPF_MAP_TYPE_PERCPU_ARRAY", 6);
    ("BPF_MAP_TYPE_STACK_TRACE", 7);
    ("BPF_MAP_TYPE_CGROUP_ARRAY", 8);
    ("BPF_MAP_TYPE_LRU_HASH", 9);
    ("BPF_MAP_TYPE_LRU_PERCPU_HASH", 10);
    ("BPF_MAP_TYPE_LPM_TRIE", 11);
    ("BPF_MAP_TYPE_ARRAY_OF_MAPS", 12);
    ("BPF_MAP_TYPE_HASH_OF_MAPS", 13);
    ("BPF_MAP_TYPE_DEVMAP", 14);
    ("BPF_MAP_TYPE_SOCKMAP", 15);
    ("BPF_MAP_TYPE_CPUMAP", 16);
    ("BPF_MAP_TYPE_XSKMAP", 17);
    ("BPF_MAP_TYPE_SOCKHASH", 18);
    ("BPF_MAP_TYPE_CGROUP_STORAGE_DEPRECATED", 19);
    ("BPF_MAP_TYPE_CGROUP_STORAGE", 19);
    ("BPF_MAP_TYPE_REUSEPORT_SOCKARRAY", 20);
    ("BPF_MAP_TYPE_PERCPU_CGROUP_STORAGE", 21);
    ("BPF_MAP_TYPE_QUEUE", 22);
    ("BPF_MAP_TYPE_STACK", 23);
    ("BPF_MAP_TYPE_SK_STORAGE", 24);
    ("BPF_MAP_TYPE_DEVMAP_HASH", 25);
    ("BPF_MAP_TYPE_STRUCT_OPS", 26);
    ("BPF_MAP_TYPE_RINGBUF", 27);
    ("BPF_MAP_TYPE_INODE_STORAGE", 28);
    ("BPF_MAP_TYPE_TASK_STORAGE", 29);
    ("BPF_MAP_TYPE_BLOOM_FILTER", 30);
    ("BPF_MAP_TYPE_USER_RINGBUF", 31);
    ("BPF_MAP_TYPE_CGRP_STORAGE", 32) ].

Definition enum_bpf_func_id : cty := CEnum
  [ ("BPF_FUNC_unspec", 0);
    ("BPF_FUNC_map_lookup_elem", 1);
    ("BPF_FUNC_map_update_elem", 2);
    ("BPF_FUNC_map_delete_elem", 3);
    ("BPF_FUNC_probe_read", 4);
    ("BPF_FUNC_ktime_get_ns", 5);
    ("BPF_FUNC_trace_printk", 6);
    ("BPF_FUNC_get_prandom_u32", 7);
    ("BPF_FUNC_get_smp_processor_id", 8);
    ("BPF_FUNC_skb_store_bytes", 9);
    ("BPF_FUNC_l3_csum_replace", 10);
    ("BPF_FUNC_l4_csum_replace", 11);
    ("BPF_FUNC_tail_call", 12);
    ("BPF_FUNC_clone_redirect", 13);
    ("BPF_FUNC_get_current_pid_tgid", 14);
    ("BPF_FUNC_get_current_uid_gid", 15);
    ("BPF_FUNC_get_current_comm", 16);
    ("BPF_FUNC_get_cgroup_classid", 17);
    ("BPF_FUNC_skb_vlan_push", 18);
    ("BPF_FUNC_skb_vlan_pop", 19);
    ("BPF_FUNC_skb_get_tunnel_key", 20);
    ("BPF_FUNC_skb_set_tunnel_key", 21);
    ("BPF_FUNC_perf_event_read", 22);
    ("BPF_FUNC_redirect", 23);
    ("BPF_FUNC_get_route_realm", 24);
    ("BPF_FUNC_perf_event_output", 25);
    ("BPF_FUNC_skb_load_bytes", 26);
    ("BPF_FUNC_get_stackid", 27);
    ("BPF_FUNC_csum_diff", 28);
    ("BPF_FUNC_skb_get_tunnel_opt", 29);
    ("BPF_FUNC_skb_set_tunnel_opt", 30);
    ("BPF_FUNC_skb_change_proto", 31);
    ("BPF_FUNC_skb_change_type", 32);
    ("BPF_FUNC_skb_under_cgroup", 33);
    ("BPF_FUNC_get_hash_recalc", 34);
    ("BPF_FUNC_get_current_task", 35);
    ("BPF_FUNC_probe_write_user", 36);
    ("BPF_FUNC_current_task_under_cgroup", 37);
    ("BPF_FUNC_skb_change_tail", 38);
    ("BPF_FUNC_skb_pull_data", 39);
    ("BPF_FUNC_csum_update", 40);
    ("BPF_FUNC_set_hash_invalid", 41);
    ("BPF_FUNC_get_numa_node_id", 42);
    ("BPF_FUNC_skb_change_head", 43);
    ("BPF_FUNC_xdp_adjust_head", 44);
    ("BPF_FUNC_probe_read_str", 45);
    ("BPF_FUNC_get_socket_cookie", 46);
    ("BPF_FUNC_get_socket_uid", 47);
    ("BPF_FUNC_set_hash", 48);
    ("BPF_FUNC_setsockopt", 49);
    ("BPF_FUNC_skb_adjust_room", 50);
    ("BPF_FUNC_redirect_map", 51);
    ("BPF_FUNC_sk_redirect_map", 52);
    ("BPF_FUNC_sock_map_update", 53);
    ("BPF_FUNC_xdp_adjust_meta", 54);
    ("BPF_FUNC_perf_event_read_value", 55);
    ("BPF_FUNC_perf_prog_read_value", 56);
    ("BPF_FUNC_getsockopt", 57);
    ("BPF_FUNC_override_return", 58);
    ("BPF_FUNC_sock_ops_cb_flags_set", 59);
    ("BPF_FUNC_msg_redirect_map", 60);
    ("BPF_FUNC_msg_apply_bytes", 61);
    ("BPF_FUNC_msg_cork_bytes", 62);
    ("BPF_FUNC_msg_pull_data", 63);
    ("BPF_FUNC_bind", 64);
    ("BPF_FUNC_xdp_adjust_tail", 65);
    ("BPF_FUNC_skb_get_xfrm_state", 66);
    ("BPF_FUNC_get_stack", 67);
    ("BPF_FUNC_skb_load_bytes_relative", 68);
    ("BPF_FUNC_fib_lookup", 69);
    ("BPF_FUNC_sock_hash_update", 70);
    ("BPF_FUNC_msg_redirect_hash", 71);
    ("BPF_FUNC_sk_redirect_hash", 72);
    ("BPF_FUNC_lwt_push_encap", 73);
    ("BPF_FUNC_lwt_seg6_store_bytes", 74);
    ("BPF_FUNC_lwt_seg6_adjust_srh", 75);
    ("BPF_FUNC_lwt_seg6_action", 76);
    ("BPF_FUNC_rc_repeat", 77);
    ("BPF_FUNC_rc_keydown", 78);
    ("BPF_FUNC_skb_cgroup_id", 79);
    ("BPF_FUNC_get_current_cgroup_id", 80);
    ("BPF_FUNC_get_local_storage", 81);
    ("BPF_FUNC_sk_select_reuseport", 82);
    ("BPF_FUNC_skb_ancestor_cgroup_id", 83);
    ("BPF_FUNC_sk_lookup_tcp", 84);
    ("BPF_FUNC_sk_lookup_udp", 85);
    ("BPF_FUNC_sk_release", 86);
    ("BPF_FUNC_map_push_elem", 87);
    ("BPF_FUNC_map_pop_elem", 88);
    ("BPF_FUNC_map_peek_elem", 89);
    ("BPF_FUNC_msg_push_data", 90);
    ("BPF_FUNC_msg_pop_data", 91);
    ("BPF_FUNC_rc_pointer_rel", 92);
    ("BPF_FUNC_spin_lock", 93);
    ("BPF_FUNC_spin_unlock", 94);
    ("BPF_FUNC_sk_fullsock", 95);
    ("BPF_FUNC_tcp_sock", 96);
    ("BPF_FUNC_skb_ecn_set_ce", 97);
    ("BPF_FUNC_get_listener_sock", 98);
    ("BPF_FUNC_skc_lookup_tcp", 99);
    ("BPF_FUNC_tcp_check_syncookie", 100);
    ("BPF_FUNC_sysctl_get_name", 101);
    ("BPF_FUNC_sysctl_get_current_value", 102);
    ("BPF_FUNC_sysctl_get_new_value", 103);
    ("BPF_FUNC_sysctl_set_new_value", 104);
    ("BPF_FUNC_strtol", 105);
    ("BPF_FUNC_strtoul", 106);
    ("BPF_FUNC_sk_storage_get", 107);
    ("BPF_FUNC_sk_storage_delete", 108);
    ("BPF_FUNC_send_signal", 109);
    ("BPF_FUNC_tcp_gen_syncookie", 110);
    ("BPF_FUNC_skb_output", 111);
    ("BPF_FUNC_probe_read_user", 112);
    ("BPF_FUNC_probe_read_kernel", 113);
    ("BPF_FUNC_probe_read_user_str", 114);
    ("BPF_FUNC_probe_read_kernel_str", 115);
    ("BPF_FUNC_tcp_send_ack", 116);
    ("BPF_FUNC_send_signal_thread", 117);
    ("BPF_FUNC_jiffies64", 118);
    ("BPF_FUNC_read_branch_records", 119);
    ("BPF_FUNC_get_ns_current_pid_tgid", 120);
    ("BPF_FUNC_xdp_output", 121);
    ("BPF_FUNC_get_netns_cookie", 122);
    ("BPF_FUNC_get_current_ancestor_cgroup_id", 123);
    ("BPF_FUNC_sk_assign", 124);
    ("BPF_FUNC_ktime_get_boot_ns", 125);
    ("BPF_FUNC_seq_printf", 126);
    ("BPF_FUNC_seq_write", 127);
    ("BPF_FUNC_sk_cgroup_id", 128);
    ("BPF_FUNC_sk_ancestor_cgroup_id", 129);
    ("BPF_FUNC_ringbuf_output", 130);
    ("BPF_FUNC_ringbuf_reserve", 131);
    ("BPF_FUNC_ringbuf_submit", 132);
    ("BPF_FUNC_ringbuf_discard", 133);
    ("BPF_FUNC_ringbuf_query", 134);
    ("BPF_FUNC_csum_level", 135);
    ("BPF_FUNC_skc_to_tcp6_sock", 136);
    ("BPF_FUNC_skc_to_tcp_sock", 137);
    ("BPF_FUNC_skc_to_tcp_timewait_sock", 138);
    ("BPF_FUNC_skc_to_tcp_request_sock", 139);
    ("BPF_FUNC_skc_to_udp6_sock", 140);
    ("BPF_FUNC_get_task_stack", 141);
    ("BPF_FUNC_load_hdr_opt", 142);
    ("BPF_FUNC_store_hdr_opt", 143);
    ("BPF_FUNC_reserve_hdr_opt", 144);
    ("BPF_FUNC_inode_storage_get", 145);
    ("BPF_FUNC_inode_storage_delete", 146);
    ("BPF_FUNC_d_path", 147);
    ("BPF_FUNC_copy_from_user", 148);
    ("BPF_FUNC_snprintf_btf", 149);
    ("BPF_FUNC_seq_printf_btf", 150);
    ("BPF_FUNC_skb_cgroup_classid", 151);
    ("BPF_FUNC_redirect_neigh", 152);
    ("BPF_FUNC_per_cpu_ptr", 153);
    ("BPF_FUNC_this_cpu_ptr", 154);
    ("BPF_FUNC_redirect_peer", 155);
    ("BPF_FUNC_task_storage_get", 156);
    ("BPF_FUNC_task_storage_delete", 157);
    ("BPF_FUNC_get_current_task_btf", 158);
    ("BPF_FUNC_bprm_opts_set", 159);
    ("BPF_FUNC_ktime_get_coarse_ns", 160);
    ("BPF_FUNC_ima_inode_hash", 161);
    ("BPF_FUNC_sock_from_file", 162);
    ("BPF_FUNC_check_mtu", 163);
    ("BPF_FUNC_for_each_map_elem", 164);
    ("BPF_FUNC_snprintf", 165);
    ("BPF_FUNC_sys_bpf", 166);
    ("BPF_FUNC_btf_find_by_name_kind", 167);
    ("BPF_FUNC_sys_close", 168);
    ("BPF_FUNC_timer_init", 169);
    ("BPF_FUNC_timer_set_callback", 170);
    ("BPF_FUNC_timer_start", 171);
    ("BPF_FUNC_timer_cancel", 172);
    ("BPF_FUNC_get_func_ip", 173);
    ("BPF_FUNC_get_attach_cookie", 174);
    ("BPF_FUNC_task_pt_regs", 175);
    ("BPF_FUNC_get_branch_snapshot", 176);
    ("BPF_FUNC_trace_vprintk", 177);
    ("BPF_FUNC_skc_to_unix_sock", 178);
    ("BPF_FUNC_kallsyms_lookup_name", 179);
    ("BPF_FUNC_find_vma", 180);
    ("BPF_FUNC_loop", 181);
    ("BPF_FUNC_strncmp", 182);
    ("BPF_FUNC_get_func_arg", 183);
    ("BPF_FUNC_get_func_ret", 184);
    ("BPF_FUNC_get_func_arg_cnt", 185);
    ("BPF_FUNC_get_retval", 186);
    ("BPF_FUNC_set_retval", 187);
    ("BPF_FUNC_xdp_get_buff_len", 188);
    ("BPF_FUNC_xdp_load_bytes", 189);
    ("BPF_FUNC_xdp_store_bytes", 190);
    ("BPF_FUNC_copy_from_user_task", 191);
    ("BPF_FUNC_skb_set_tstamp", 192);
    ("BPF_FUNC_ima_file_hash", 193);
    ("BPF_FUNC_kptr_xchg", 194);
    ("BPF_FUNC_map_lookup_percpu_elem", 195);
    ("BPF_FUNC_skc_to_mptcp_sock", 196);
    ("BPF_FUNC_dynptr_from_mem", 197);
    ("BPF_FUNC_ringbuf_reserve_dynptr", 198);
    ("BPF_FUNC_ringbuf_submit_dynptr", 199);
    ("BPF_FUNC_ringbuf_discard_dynptr", 200);
    ("BPF_FUNC_dynptr_read", 201);
    ("BPF_FUNC_dynptr_write", 202);
    ("BPF_FUNC_dynptr_data", 203);
    ("BPF_FUNC_tcp_raw_gen_syncookie_ipv4", 204);
    ("BPF_FUNC_tcp_raw_gen_syncookie_ipv6", 205);
    ("BPF_FUNC_tcp_raw_check_syncookie_ipv4", 206);
    ("BPF_FUNC_tcp_raw_check_syncookie_ipv6", 207);
    ("BPF_FUNC_ktime_get_tai_ns", 208);
    ("BPF_FUNC_user_ringbuf_drain", 209);
    ("BPF_FUNC_cgrp_storage_get", 210);
    ("BPF_FUNC_cgrp_storage_delete", 211);
    ("__BPF_FUNC_MAX_ID", 212) ].

(** Every type of this file, by name. *)
Definition all_types : list (string * cty) :=
  [ ("__u32", __u32);
    ("__u64", __u64);
    ("__u8", __u8);
    ("struct___sk_buff", struct___sk_buff);
    ("__u16", __u16);
    ("__be16", __be16);
    ("struct_bpf_tunnel_key", struct_bpf_tunnel_key);
    ("__be32", __be32);
    ("struct_erspan_md2", struct_erspan_md2);
    ("struct_erspan_metadata", struct_erspan_metadata);
    ("u16", u16);
    ("struct_xdp_md", struct_xdp_md);
    ("enum_xdp_action", enum_xdp_action);
    ("struct_ethhdr", struct_ethhdr);
    ("u32", u32);
    ("u64", u64);
    ("struct_pt_regs", struct_pt_regs);
    ("enum_BPF_F_stack", enum_BPF_F_stack);
    ("enum_bpf_map_type", enum_bpf_map_type);
    ("enum_bpf_func_id", enum_bpf_func_id) ].
