(* ===== verification/EbNet.v ===== *)
(** * Kernel header types: EbNet

    From the [vmlinux.h] shared by [erspan], [funcprobe] and [xdpdump] (byte-identical copies under [ebpf/*/src/bpf/vmlinux.h]):
    the kernel objects behind the packet contexts: [sk_buff], [xdp_buff], [net_device] and the types they embed.
    Every definition is one declaration of the header, in dependency order: [struct_x], [union_x]
    and [enum_x] for tagged types, the bare name for a typedef. *)

From S2P Require Import Prelude CType EbAbi.

Definition struct_rb_node : cty := cstruct
  [ fld "__rb_parent_color" c_ulong;
    fld "rb_right" (CPtr "struct rb_node");
    fld "rb_left" (CPtr "struct rb_node") ].

Definition struct_list_head : cty := cstruct
  [ fld "next" (CPtr "struct list_head");
    fld "prev" (CPtr "struct list_head") ].

Definition struct_llist_node : cty := cstruct
  [ fld "next" (CPtr "struct llist_node") ].

Definition __s64 : cty := c_llong.

Definition s64 : cty := __s64.

Definition ktime_t : cty := s64.

Definition __wsum : cty := __u32.

Definition sk_buff_data_t : cty := c_uint.

Definition atomic_t : cty := cstruct
  [ fld "counter" c_int ].

Definition struct_refcount_struct : cty := cstruct
  [ fld "refs" atomic_t ].

Definition refcount_t : cty := struct_refcount_struct.

Definition struct_sk_buff : cty := cstruct
  [ anon (cunion
    [ anon (cstruct
      [ fld "next" (CPtr "struct sk_buff");
        fld "prev" (CPtr "struct sk_buff");
        anon (cunion
        [ fld "dev" (CPtr "struct net_device");
          fld "dev_scratch" c_ulong ]) ]);
      fld "rbnode" struct_rb_node;
      fld "list" struct_list_head;
      fld "ll_node" struct_llist_node ]);
    anon (cunion
    [ fld "sk" (CPtr "struct sock");
      fld "ip_defrag_offset" c_int ]);
    anon (cunion
    [ fld "tstamp" ktime_t;
      fld "skb_mstamp_ns" u64 ]);
    fld "cb" (CArr 48 c_char);
    anon (cunion
    [ anon (cstruct
      [ fld "_skb_refdst" c_ulong;
        fld "destructor" (CPtr "void (struct sk_buff *)") ]);
      fld "tcp_tsorted_anchor" struct_list_head;
      fld "_sk_redir" c_ulong ]);
    fld "_nfct" c_ulong;
    fld "len" c_uint;
    fld "data_len" c_uint;
    fld "mac_len" __u16;
    fld "hdr_len" __u16;
    fld "queue_mapping" __u16;
    fld "__cloned_offset" (CArr 0 __u8);
    bit "cloned" __u8 1;
    bit "nohdr" __u8 1;
    bit "fclone" __u8 2;
    bit "peeked" __u8 1;
    bit "head_frag" __u8 1;
    bit "pfmemalloc" __u8 1;
    bit "pp_recycle" __u8 1;
    fld "active_extensions" __u8;
    anon (cunion
    [ anon (cstruct
      [ fld "__pkt_type_offset" (CArr 0 __u8);
        bit "pkt_type" __u8 3;
        bit "ignore_df" __u8 1;
        bit "nf_trace" __u8 1;
        bit "ip_summed" __u8 2;
        bit "ooo_okay" __u8 1;
        bit "l4_hash" __u8 1;
        bit "sw_hash" __u8 1;
        bit "wifi_acked_valid" __u8 1;
        bit "wifi_acked" __u8 1;
        bit "no_fcs" __u8 1;
        bit "encapsulation" __u8 1;
        bit "encap_hdr_csum" __u8 1;
        bit "csum_valid" __u8 1;
        fld "__pkt_vlan_present_offset" (CArr 0 __u8);
        bit "remcsum_offload" __u8 1;
        bit "csum_complete_sw" __u8 1;
        bit "csum_level" __u8 2;
        bit "dst_pending_confirm" __u8 1;
        bit "mono_delivery_time" __u8 1;
        bit "tc_skip_classify" __u8 1;
        bit "tc_at_ingress" __u8 1;
        bit "ndisc_nodetype" __u8 2;
        bit "ipvs_property" __u8 1;
        bit "inner_protocol_type" __u8 1;
        bit "redirected" __u8 1;
        bit "nf_skip_egress" __u8 1;
        bit "slow_gro" __u8 1;
        bit "csum_not_inet" __u8 1;
        bit "scm_io_uring" __u8 1;
        fld "tc_index" __u16;
        anon (cunion
        [ fld "csum" __wsum;
          anon (cstruct
          [ fld "csum_start" __u16;
            fld "csum_offset" __u16 ]) ]);
        fld "priority" __u32;
        fld "skb_iif" c_int;
        fld "hash" __u32;
        anon (cunion
        [ fld "vlan_all" u32;
          anon (cstruct
          [ fld "vlan_proto" __be16;
            fld "vlan_tci" __u16 ]) ]);
        anon (cunion
        [ fld "napi_id" c_uint;
          fld "sender_cpu" c_uint ]);
        fld "alloc_cpu" u16;
        fld "secmark" __u32;
        anon (cunion
        [ fld "mark" __u32;
          fld "reserved_tailroom" __u32 ]);
        anon (cunion
        [ fld "inner_protocol" __be16;
          fld "inner_ipproto" __u8 ]);
        fld "inner_transport_header" __u16;
        fld "inner_network_header" __u16;
        fld "inner_mac_header" __u16;
        fld "protocol" __be16;
        fld "transport_header" __u16;
        fld "network_header" __u16;
        fld "mac_header" __u16 ]);
      fld "headers" (cstruct
      [ fld "__pkt_type_offset" (CArr 0 __u8);
        bit "pkt_type" __u8 3;
        bit "ignore_df" __u8 1;
        bit "nf_trace" __u8 1;
        bit "ip_summed" __u8 2;
        bit "ooo_okay" __u8 1;
        bit "l4_hash" __u8 1;
        bit "sw_hash" __u8 1;
        bit "wifi_acked_valid" __u8 1;
        bit "wifi_acked" __u8 1;
        bit "no_fcs" __u8 1;
        bit "encapsulation" __u8 1;
        bit "encap_hdr_csum" __u8 1;
        bit "csum_valid" __u8 1;
        fld "__pkt_vlan_present_offset" (CArr 0 __u8);
        bit "remcsum_offload" __u8 1;
        bit "csum_complete_sw" __u8 1;
        bit "csum_level" __u8 2;
        bit "dst_pending_confirm" __u8 1;
        bit "mono_delivery_time" __u8 1;
        bit "tc_skip_classify" __u8 1;
        bit "tc_at_ingress" __u8 1;
        bit "ndisc_nodetype" __u8 2;
        bit "ipvs_property" __u8 1;
        bit "inner_protocol_type" __u8 1;
        bit "redirected" __u8 1;
        bit "nf_skip_egress" __u8 1;
        bit "slow_gro" __u8 1;
        bit "csum_not_inet" __u8 1;
        bit "scm_io_uring" __u8 1;
        fld "tc_index" __u16;
        anon (cunion
        [ fld "csum" __wsum;
          anon (cstruct
          [ fld "csum_start" __u16;
            fld "csum_offset" __u16 ]) ]);
        fld "priority" __u32;
        fld "skb_iif" c_int;
        fld "hash" __u32;
        anon (cunion
        [ fld "vlan_all" u32;
          anon (cstruct
          [ fld "vlan_proto" __be16;
            fld "vlan_tci" __u16 ]) ]);
        anon (cunion
        [ fld "napi_id" c_uint;
          fld "sender_cpu" c_uint ]);
        fld "alloc_cpu" u16;
        fld "secmark" __u32;
        anon (cunion
        [ fld "mark" __u32;
          fld "reserved_tailroom" __u32 ]);
        anon (cunion
        [ fld "inner_protocol" __be16;
          fld "inner_ipproto" __u8 ]);
        fld "inner_transport_header" __u16;
        fld "inner_network_header" __u16;
        fld "inner_mac_header" __u16;
        fld "protocol" __be16;
        fld "transport_header" __u16;
        fld "network_header" __u16;
        fld "mac_header" __u16 ]) ]);
    fld "tail" sk_buff_data_t;
    fld "end" sk_buff_data_t;
    fld "head" (CPtr "unsigned char");
    fld "data" (CPtr "unsigned char");
    fld "truesize" c_uint;
    fld "users" refcount_t;
    fld "extensions" (CPtr "struct skb_ext") ].

Definition struct_xdp_buff : cty := cstruct
  [ fld "data" (CPtr "void");
    fld "data_end" (CPtr "void");
    fld "data_meta" (CPtr "void");
    fld "data_hard_start" (CPtr "void");
    fld "rxq" (CPtr "struct xdp_rxq_info");
    fld "txq" (CPtr "struct xdp_txq_info");
    fld "frame_sz" u32;
    fld "flags" u32 ].

Definition netdev_features_t : cty := u64.

Definition atomic64_t : cty := cstruct
  [ fld "counter" s64 ].

Definition atomic_long_t : cty := atomic64_t.

Definition struct_net_device_stats : cty := cstruct
  [ anon (cunion
    [ fld "rx_packets" c_ulong;
      fld "__rx_packets" atomic_long_t ]);
    anon (cunion
    [ fld "tx_packets" c_ulong;
      fld "__tx_packets" atomic_long_t ]);
    anon (cunion
    [ fld "rx_bytes" c_ulong;
      fld "__rx_bytes" atomic_long_t ]);
    anon (cunion
    [ fld "tx_bytes" c_ulong;
      fld "__tx_bytes" atomic_long_t ]);
    anon (cunion
    [ fld "rx_errors" c_ulong;
      fld "__rx_errors" atomic_long_t ]);
    anon (cunion
    [ fld "tx_errors" c_ulong;
      fld "__tx_errors" atomic_long_t ]);
    anon (cunion
    [ fld "rx_dropped" c_ulong;
      fld "__rx_dropped" atomic_long_t ]);
    anon (cunion
    [ fld "tx_dropped" c_ulong;
      fld "__tx_dropped" atomic_long_t ]);
    anon (cunion
    [ fld "multicast" c_ulong;
      fld "__multicast" atomic_long_t ]);
    anon (cunion
    [ fld "collisions" c_ulong;
      fld "__collisions" atomic_long_t ]);
    anon (cunion
    [ fld "rx_length_errors" c_ulong;
      fld "__rx_length_errors" atomic_long_t ]);
    anon (cunion
    [ fld "rx_over_errors" c_ulong;
      fld "__rx_over_errors" atomic_long_t ]);
    anon (cunion
    [ fld "rx_crc_errors" c_ulong;
      fld "__rx_crc_errors" atomic_long_t ]);
    anon (cunion
    [ fld "rx_frame_errors" c_ulong;
      fld "__rx_frame_errors" atomic_long_t ]);
    anon (cunion
    [ fld "rx_fifo_errors" c_ulong;
      fld "__rx_fifo_errors" atomic_long_t ]);
    anon (cunion
    [ fld "rx_missed_errors" c_ulong;
      fld "__rx_missed_errors" atomic_long_t ]);
    anon (cunion
    [ fld "tx_aborted_errors" c_ulong;
      fld "__tx_aborted_errors" atomic_long_t ]);
    anon (cunion
    [ fld "tx_carrier_errors" c_ulong;
      fld "__tx_carrier_errors" atomic_long_t ]);
    anon (cunion
    [ fld "tx_fifo_errors" c_ulong;
      fld "__tx_fifo_errors" atomic_long_t ]);
    anon (cunion
    [ fld "tx_heartbeat_errors" c_ulong;
      fld "__tx_heartbeat_errors" atomic_long_t ]);
    anon (cunion
    [ fld "tx_window_errors" c_ulong;
      fld "__tx_window_errors" atomic_long_t ]);
    anon (cunion
    [ fld "rx_compressed" c_ulong;
      fld "__rx_compressed" atomic_long_t ]);
    anon (cunion
    [ fld "tx_compressed" c_ulong;
      fld "__tx_compressed" atomic_long_t ]) ].

Definition u8 : cty := __u8.

Definition struct_qspinlock : cty := cstruct
  [ anon (cunion
    [ fld "val" atomic_t;
      anon (cstruct
      [ fld "locked" u8;
        fld "pending" u8 ]);
      anon (cstruct
      [ fld "locked_pending" u16;
        fld "tail" u16 ]) ]) ].

Definition arch_spinlock_t : cty := struct_qspinlock.

Definition struct_lockdep_map : cty := cstruct
  [ fld "key" (CPtr "struct lock_class_key");
    fld "class_cache" (CArr 2 (CPtr "struct lock_class"));
    fld "name" (CPtr "const char");
    fld "wait_type_outer" u8;
    fld "wait_type_inner" u8;
    fld "lock_type" u8 ].

Definition struct_raw_spinlock : cty := cstruct
  [ fld "raw_lock" arch_spinlock_t;
    fld "magic" c_uint;
    fld "owner_cpu" c_uint;
    fld "owner" (CPtr "void");
    fld "dep_map" struct_lockdep_map ].

Definition struct_spinlock : cty := cstruct
  [ anon (cunion
    [ fld "rlock" struct_raw_spinlock;
      anon (cstruct
      [ fld "__padding" (CArr 24 u8);
        fld "dep_map" struct_lockdep_map ]) ]) ].

Definition spinlock_t : cty := struct_spinlock.

Definition struct_rb_root : cty := cstruct
  [ fld "rb_node" (CPtr "struct rb_node") ].

Definition struct_netdev_hw_addr_list : cty := cstruct
  [ fld "list" struct_list_head;
    fld "count" c_int;
    fld "tree" struct_rb_root ].

Definition bool_t : cty := c_bool.

Definition struct_hlist_node : cty := cstruct
  [ fld "next" (CPtr "struct hlist_node");
    fld "pprev" (CPtr "struct hlist_node *") ].

Definition struct_hlist_head : cty := cstruct
  [ fld "first" (CPtr "struct hlist_node") ].

Definition struct_timer_list : cty := cstruct
  [ fld "entry" struct_hlist_node;
    fld "expires" c_ulong;
    fld "function" (CPtr "void (struct timer_list *)");
    fld "flags" u32;
    fld "lockdep_map" struct_lockdep_map ].

Definition struct_ref_tracker_dir : cty := cstruct [].

Definition possible_net_t : cty := cstruct
  [ fld "net" (CPtr "struct net") ].

Definition enum_netdev_ml_priv_type : cty := CEnum
  [ ("ML_PRIV_NONE", 0);
    ("ML_PRIV_CAN", 1) ].

Definition struct_kref : cty := cstruct
  [ fld "refcount" refcount_t ].

Definition struct_kobject : cty := cstruct
  [ fld "name" (CPtr "const char");
    fld "entry" struct_list_head;
    fld "parent" (CPtr "struct kobject");
    fld "kset" (CPtr "struct kset");
    fld "ktype" (CPtr "const struct kobj_type");
    fld "sd" (CPtr "struct kernfs_node");
    fld "kref" struct_kref;
    bit "state_initialized" c_uint 1;
    bit "state_in_sysfs" c_uint 1;
    bit "state_add_uevent_sent" c_uint 1;
    bit "state_remove_uevent_sent" c_uint 1;
    bit "uevent_suppress" c_uint 1 ].

Definition raw_spinlock_t : cty := struct_raw_spinlock.

Definition struct_optimistic_spin_queue : cty := cstruct
  [ fld "tail" atomic_t ].

Definition struct_mutex : cty := cstruct
  [ fld "owner" atomic_long_t;
    fld "wait_lock" raw_spinlock_t;
    fld "osq" struct_optimistic_spin_queue;
    fld "wait_list" struct_list_head;
    fld "magic" (CPtr "void");
    fld "dep_map" struct_lockdep_map ].

Definition enum_dl_dev_state : cty := CEnum
  [ ("DL_DEV_NO_DRIVER", 0);
    ("DL_DEV_PROBING", 1);
    ("DL_DEV_DRIVER_BOUND", 2);
    ("DL_DEV_UNBINDING", 3) ].

Definition struct_dev_links_info : cty := cstruct
  [ fld "suppliers" struct_list_head;
    fld "consumers" struct_list_head;
    fld "defer_sync" struct_list_head;
    fld "status" enum_dl_dev_state ].

Definition struct_pm_message : cty := cstruct
  [ fld "event" c_int ].

Definition pm_message_t : cty := struct_pm_message.

Definition struct_swait_queue_head : cty := cstruct
  [ fld "lock" raw_spinlock_t;
    fld "task_list" struct_list_head ].

Definition struct_completion : cty := cstruct
  [ fld "done" c_uint;
    fld "wait" struct_swait_queue_head ].

Definition struct_timerqueue_node : cty := cstruct
  [ fld "node" struct_rb_node;
    fld "expires" ktime_t ].

Definition struct_hrtimer : cty := cstruct
  [ fld "node" struct_timerqueue_node;
    fld "_softexpires" ktime_t;
    fld "function" (CPtr "enum hrtimer_restart (struct hrtimer *)");
    fld "base" (CPtr "struct hrtimer_clock_base");
    fld "state" u8;
    fld "is_rel" u8;
    fld "is_soft" u8;
    fld "is_hard" u8 ].

Definition work_func_t : cty := CPtr "void (struct work_struct *)".

Definition struct_work_struct : cty := cstruct
  [ fld "data" atomic_long_t;
    fld "entry" struct_list_head;
    fld "func" work_func_t;
    fld "lockdep_map" struct_lockdep_map ].

Definition struct_wait_queue_head : cty := cstruct
  [ fld "lock" spinlock_t;
    fld "head" struct_list_head ].

Definition wait_queue_head_t : cty := struct_wait_queue_head.

Definition enum_rpm_request : cty := CEnum
  [ ("RPM_REQ_NONE", 0);
    ("RPM_REQ_IDLE", 1);
    ("RPM_REQ_SUSPEND", 2);
    ("RPM_REQ_AUTOSUSPEND", 3);
    ("RPM_REQ_RESUME", 4) ].

Definition enum_rpm_status : cty := CEnum
  [ ("RPM_INVALID", -1);
    ("RPM_ACTIVE", 0);
    ("RPM_RESUMING", 1);
    ("RPM_SUSPENDED", 2);
    ("RPM_SUSPENDING", 3) ].

Definition struct_dev_pm_info : cty := cstruct
  [ fld "power_state" pm_message_t;
    bit "can_wakeup" c_uint 1;
    bit "async_suspend" c_uint 1;
    bit "in_dpm_list" bool_t 1;
    bit "is_prepared" bool_t 1;
    bit "is_suspended" bool_t 1;
    bit "is_noirq_suspended" bool_t 1;
    bit "is_late_suspended" bool_t 1;
    bit "no_pm" bool_t 1;
    bit "early_init" bool_t 1;
    bit "direct_complete" bool_t 1;
    fld "driver_flags" u32;
    fld "lock" spinlock_t;
    fld "entry" struct_list_head;
    fld "completion" struct_completion;
    fld "wakeup" (CPtr "struct wakeup_source");
    bit "wakeup_path" bool_t 1;
    bit "syscore" bool_t 1;
    bit "no_pm_callbacks" bool_t 1;
    bit "must_resume" c_uint 1;
    bit "may_skip_resume" c_uint 1;
    fld "suspend_timer" struct_hrtimer;
    fld "timer_expires" u64;
    fld "work" struct_work_struct;
    fld "wait_queue" wait_queue_head_t;
    fld "wakeirq" (CPtr "struct wake_irq");
    fld "usage_count" atomic_t;
    fld "child_count" atomic_t;
    bit "disable_depth" c_uint 3;
    bit "idle_notification" c_uint 1;
    bit "request_pending" c_uint 1;
    bit "deferred_resume" c_uint 1;
    bit "needs_force_resume" c_uint 1;
    bit "runtime_auto" c_uint 1;
    bit "ignore_children" bool_t 1;
    bit "no_callbacks" c_uint 1;
    bit "irq_safe" c_uint 1;
    bit "use_autosuspend" c_uint 1;
    bit "timer_autosuspends" c_uint 1;
    bit "memalloc_noio" c_uint 1;
    fld "links_count" c_uint;
    fld "request" enum_rpm_request;
    fld "runtime_status" enum_rpm_status;
    fld "last_status" enum_rpm_status;
    fld "runtime_error" c_int;
    fld "autosuspend_delay" c_int;
    fld "last_busy" u64;
    fld "active_time" u64;
    fld "suspended_time" u64;
    fld "accounting_timestamp" u64;
    fld "subsys_data" (CPtr "struct pm_subsys_data");
    fld "set_latency_tolerance" (CPtr "void (struct device *, s32)");
    fld "qos" (CPtr "struct dev_pm_qos") ].

Definition struct_dev_msi_info : cty := cstruct
  [ fld "domain" (CPtr "struct irq_domain");
    fld "data" (CPtr "struct msi_device_data") ].

Definition struct_dev_archdata : cty := cstruct [].

Definition __kernel_dev_t : cty := u32.

Definition dev_t : cty := __kernel_dev_t.

Definition enum_device_removable : cty := CEnum
  [ ("DEVICE_REMOVABLE_NOT_SUPPORTED", 0);
    ("DEVICE_REMOVABLE_UNKNOWN", 1);
    ("DEVICE_FIXED", 2);
    ("DEVICE_REMOVABLE", 3) ].

Definition struct_device : cty := cstruct
  [ fld "kobj" struct_kobject;
    fld "parent" (CPtr "struct device");
    fld "p" (CPtr "struct device_private");
    fld "init_name" (CPtr "const char");
    fld "type" (CPtr "const struct device_type");
    fld "bus" (CPtr "struct bus_type");
    fld "driver" (CPtr "struct device_driver");
    fld "platform_data" (CPtr "void");
    fld "driver_data" (CPtr "void");
    fld "mutex" struct_mutex;
    fld "links" struct_dev_links_info;
    fld "power" struct_dev_pm_info;
    fld "pm_domain" (CPtr "struct dev_pm_domain");
    fld "msi" struct_dev_msi_info;
    fld "dma_ops" (CPtr "const struct dma_map_ops");
    fld "dma_mask" (CPtr "u64");
    fld "coherent_dma_mask" u64;
    fld "bus_dma_limit" u64;
    fld "dma_range_map" (CPtr "const struct bus_dma_region");
    fld "dma_parms" (CPtr "struct device_dma_parameters");
    fld "dma_pools" struct_list_head;
    fld "cma_area" (CPtr "struct cma");
    fld "dma_io_tlb_mem" (CPtr "struct io_tlb_mem");
    fld "archdata" struct_dev_archdata;
    fld "of_node" (CPtr "struct device_node");
    fld "fwnode" (CPtr "struct fwnode_handle");
    fld "numa_node" c_int;
    fld "devt" dev_t;
    fld "id" u32;
    fld "devres_lock" spinlock_t;
    fld "devres_head" struct_list_head;
    fld "class" (CPtr "struct class");
    fld "groups" (CPtr "const struct attribute_group *");
    fld "release" (CPtr "void (struct device *)");
    fld "iommu_group" (CPtr "struct iommu_group");
    fld "iommu" (CPtr "struct dev_iommu");
    fld "physical_location" (CPtr "struct device_physical_location");
    fld "removable" enum_device_removable;
    bit "offline_disabled" bool_t 1;
    bit "offline" bool_t 1;
    bit "of_node_reused" bool_t 1;
    bit "state_synced" bool_t 1;
    bit "can_match" bool_t 1 ].

Definition __s16 : cty := c_short.

Definition s16 : cty := __s16.

Definition struct_netdev_tc_txq : cty := cstruct
  [ fld "count" u16;
    fld "offset" u16 ].

Definition struct_bpf_xdp_entity : cty := cstruct
  [ fld "prog" (CPtr "struct bpf_prog");
    fld "link" (CPtr "struct bpf_xdp_link") ].

Definition netdevice_tracker : cty := cstruct [].

Definition struct_net_device : cty := cstruct
  [ fld "name" (CArr 16 c_char);
    fld "name_node" (CPtr "struct netdev_name_node");
    fld "ifalias" (CPtr "struct dev_ifalias");
    fld "mem_end" c_ulong;
    fld "mem_start" c_ulong;
    fld "base_addr" c_ulong;
    fld "state" c_ulong;
    fld "dev_list" struct_list_head;
    fld "napi_list" struct_list_head;
    fld "unreg_list" struct_list_head;
    fld "close_list" struct_list_head;
    fld "ptype_all" struct_list_head;
    fld "ptype_specific" struct_list_head;
    fld "adj_list" (cstruct
    [ fld "upper" struct_list_head;
      fld "lower" struct_list_head ]);
    fld "flags" c_uint;
    fld "priv_flags" c_ullong;
    fld "netdev_ops" (CPtr "const struct net_device_ops");
    fld "ifindex" c_int;
    fld "gflags" c_ushort;
    fld "hard_header_len" c_ushort;
    fld "mtu" c_uint;
    fld "needed_headroom" c_ushort;
    fld "needed_tailroom" c_ushort;
    fld "features" netdev_features_t;
    fld "hw_features" netdev_features_t;
    fld "wanted_features" netdev_features_t;
    fld "vlan_features" netdev_features_t;
    fld "hw_enc_features" netdev_features_t;
    fld "mpls_features" netdev_features_t;
    fld "gso_partial_features" netdev_features_t;
    fld "min_mtu" c_uint;
    fld "max_mtu" c_uint;
    fld "type" c_ushort;
    fld "min_header_len" c_uchar;
    fld "name_assign_type" c_uchar;
    fld "group" c_int;
    fld "stats" struct_net_device_stats;
    fld "core_stats" (CPtr "struct net_device_core_stats");
    fld "carrier_up_count" atomic_t;
    fld "carrier_down_count" atomic_t;
    fld "ethtool_ops" (CPtr "const struct ethtool_ops");
    fld "l3mdev_ops" (CPtr "const struct l3mdev_ops");
    fld "ndisc_ops" (CPtr "const struct ndisc_ops");
    fld "header_ops" (CPtr "const struct header_ops");
    fld "operstate" c_uchar;
    fld "link_mode" c_uchar;
    fld "if_port" c_uchar;
    fld "dma" c_uchar;
    fld "perm_addr" (CArr 32 c_uchar);
    fld "addr_assign_type" c_uchar;
    fld "addr_len" c_uchar;
    fld "upper_level" c_uchar;
    fld "lower_level" c_uchar;
    fld "neigh_priv_len" c_ushort;
    fld "dev_id" c_ushort;
    fld "dev_port" c_ushort;
    fld "padded" c_ushort;
    fld "addr_list_lock" spinlock_t;
    fld "irq" c_int;
    fld "uc" struct_netdev_hw_addr_list;
    fld "mc" struct_netdev_hw_addr_list;
    fld "dev_addrs" struct_netdev_hw_addr_list;
    fld "queues_kset" (CPtr "struct kset");
    fld "unlink_list" struct_list_head;
    fld "promiscuity" c_uint;
    fld "allmulti" c_uint;
    fld "uc_promisc" bool_t;
    fld "nested_level" c_uchar;
    fld "ip_ptr" (CPtr "struct in_device");
    fld "ip6_ptr" (CPtr "struct inet6_dev");
    fld "vlan_info" (CPtr "struct vlan_info");
    fld "mpls_ptr" (CPtr "struct mpls_dev");
    fld "dev_addr" (CPtr "const unsigned char");
    fld "_rx" (CPtr "struct netdev_rx_queue");
    fld "num_rx_queues" c_uint;
    fld "real_num_rx_queues" c_uint;
    fld "xdp_prog" (CPtr "struct bpf_prog");
    fld "gro_flush_timeout" c_ulong;
    fld "napi_defer_hard_irqs" c_int;
    fld "gro_max_size" c_uint;
    fld "rx_handler" (CPtr "rx_handler_func_t");
    fld "rx_handler_data" (CPtr "void");
    fld "miniq_ingress" (CPtr "struct mini_Qdisc");
    fld "ingress_queue" (CPtr "struct netdev_queue");
    fld "nf_hooks_ingress" (CPtr "struct nf_hook_entries");
    fld "broadcast" (CArr 32 c_uchar);
    fld "rx_cpu_rmap" (CPtr "struct cpu_rmap");
    fld "index_hlist" struct_hlist_node;
    pad c_long 64;
    pad c_long 64;
    pad c_long 64;
    pad c_long 64;
    pad c_long 64;
    pad c_long 64;
    pad c_long 64;
    fld "_tx" (CPtr "struct netdev_queue");
    fld "num_tx_queues" c_uint;
    fld "real_num_tx_queues" c_uint;
    fld "qdisc" (CPtr "struct Qdisc");
    fld "tx_queue_len" c_uint;
    fld "tx_global_lock" spinlock_t;
    fld "xdp_bulkq" (CPtr "struct xdp_dev_bulk_queue");
    fld "xps_maps" (CArr 2 (CPtr "struct xps_dev_maps"));
    fld "miniq_egress" (CPtr "struct mini_Qdisc");
    fld "nf_hooks_egress" (CPtr "struct nf_hook_entries");
    fld "qdisc_hash" (CArr 16 struct_hlist_head);
    fld "watchdog_timer" struct_timer_list;
    fld "watchdog_timeo" c_int;
    fld "proto_down_reason" u32;
    fld "todo_list" struct_list_head;
    fld "pcpu_refcnt" (CPtr "int");
    fld "refcnt_tracker" struct_ref_tracker_dir;
    fld "link_watch_list" struct_list_head;
    bit "reg_state" (CEnum [ ("NETREG_UNINITIALIZED", 0); ("NETREG_REGISTERED", 1); ("NETREG_UNREGISTERING", 2); ("NETREG_UNREGISTERED", 3); ("NETREG_RELEASED", 4); ("NETREG_DUMMY", 5) ]) 8;
    fld "dismantle" bool_t;
    bit "rtnl_link_state" (CEnum [ ("RTNL_LINK_INITIALIZED", 0); ("RTNL_LINK_INITIALIZING", 1) ]) 16;
    fld "needs_free_netdev" bool_t;
    fld "priv_destructor" (CPtr "void (struct net_device *)");
    fld "nd_net" possible_net_t;
    fld "ml_priv" (CPtr "void");
    fld "ml_priv_type" enum_netdev_ml_priv_type;
    anon (cunion
    [ fld "lstats" (CPtr "struct pcpu_lstats");
      fld "tstats" (CPtr "struct pcpu_sw_netstats");
      fld "dstats" (CPtr "struct pcpu_dstats") ]);
    fld "dev" struct_device;
    fld "sysfs_groups" (CArr 4 (CPtr "const struct attribute_group"));
    fld "sysfs_rx_queue_group" (CPtr "const struct attribute_group");
    fld "rtnl_link_ops" (CPtr "const struct rtnl_link_ops");
    fld "gso_max_size" c_uint;
    fld "tso_max_size" c_uint;
    fld "gso_max_segs" u16;
    fld "tso_max_segs" u16;
    fld "dcbnl_ops" (CPtr "const struct dcbnl_rtnl_ops");
    fld "num_tc" s16;
    fld "tc_to_txq" (CArr 16 struct_netdev_tc_txq);
    fld "prio_tc_map" (CArr 16 u8);
    fld "phydev" (CPtr "struct phy_device");
    fld "sfp_bus" (CPtr "struct sfp_bus");
    fld "qdisc_tx_busylock" (CPtr "struct lock_class_key");
    fld "proto_down" bool_t;
    bit "wol_enabled" c_uint 1;
    bit "threaded" c_uint 1;
    fld "net_notifier_list" struct_list_head;
    fld "udp_tunnel_nic_info" (CPtr "const struct udp_tunnel_nic_info");
    fld "udp_tunnel_nic" (CPtr "struct udp_tunnel_nic");
    fld "xdp_state" (CArr 3 struct_bpf_xdp_entity);
    fld "dev_addr_shadow" (CArr 32 u8);
    fld "linkwatch_dev_tracker" netdevice_tracker;
    fld "watchdog_dev_tracker" netdevice_tracker;
    fld "dev_registered_tracker" netdevice_tracker;
    fld "offload_xstats_l3" (CPtr "struct rtnl_hw_stats64");
    fld "devlink_port" (CPtr "struct devlink_port");
    pad c_long 64;
    pad c_long 64;
    pad c_long 64;
    pad c_long 64 ].

(** Every type of this file, by name. *)
Definition all_types : list (string * cty) :=
  [ ("struct_rb_node", struct_rb_node);
    ("struct_list_head", struct_list_head);
    ("struct_llist_node", struct_llist_node);
    ("__s64", __s64);
    ("s64", s64);
    ("ktime_t", ktime_t);
    ("__wsum", __wsum);
    ("sk_buff_data_t", sk_buff_data_t);
    ("atomic_t", atomic_t);
    ("struct_refcount_struct", struct_refcount_struct);
    ("refcount_t", refcount_t);
    ("struct_sk_buff", struct_sk_buff);
    ("struct_xdp_buff", struct_xdp_buff);
    ("netdev_features_t", netdev_features_t);
    ("atomic64_t", atomic64_t);
    ("atomic_long_t", atomic_long_t);
    ("struct_net_device_stats", struct_net_device_stats);
    ("u8", u8);
    ("struct_qspinlock", struct_qspinlock);
    ("arch_spinlock_t", arch_spinlock_t);
    ("struct_lockdep_map", struct_lockdep_map);
    ("struct_raw_spinlock", struct_raw_spinlock);
    ("struct_spinlock", struct_spinlock);
    ("spinlock_t", spinlock_t);
    ("struct_rb_root", struct_rb_root);
    ("struct_netdev_hw_addr_list", struct_netdev_hw_addr_list);
    ("bool_t", bool_t);
    ("struct_hlist_node", struct_hlist_node);
    ("struct_hlist_head", struct_hlist_head);
    ("struct_timer_list", struct_timer_list);
    ("struct_ref_tracker_dir", struct_ref_tracker_dir);
    ("possible_net_t", possible_net_t);
    ("enum_netdev_ml_priv_type", enum_netdev_ml_priv_type);
    ("struct_kref", struct_kref);
    ("struct_kobject", struct_kobject);
    ("raw_spinlock_t", raw_spinlock_t);
    ("struct_optimistic_spin_queue", struct_optimistic_spin_queue);
    ("struct_mutex", struct_mutex);
    ("enum_dl_dev_state", enum_dl_dev_state);
    ("struct_dev_links_info", struct_dev_links_info);
    ("struct_pm_message", struct_pm_message);
    ("pm_message_t", pm_message_t);
    ("struct_swait_queue_head", struct_swait_queue_head);
    ("struct_completion", struct_completion);
    ("struct_timerqueue_node", struct_timerqueue_node);
    ("struct_hrtimer", struct_hrtimer);
    ("work_func_t", work_func_t);
    ("struct_work_struct", struct_work_struct);
    ("struct_wait_queue_head", struct_wait_queue_head);
    ("wait_queue_head_t", wait_queue_head_t);
    ("enum_rpm_request", enum_rpm_request);
    ("enum_rpm_status", enum_rpm_status);
    ("struct_dev_pm_info", struct_dev_pm_info);
    ("struct_dev_msi_info", struct_dev_msi_info);
    ("struct_dev_archdata", struct_dev_archdata);
    ("__kernel_dev_t", __kernel_dev_t);
    ("dev_t", dev_t);
    ("enum_device_removable", enum_device_removable);
    ("struct_device", struct_device);
    ("__s16", __s16);
    ("s16", s16);
    ("struct_netdev_tc_txq", struct_netdev_tc_txq);
    ("struct_bpf_xdp_entity", struct_bpf_xdp_entity);
    ("netdevice_tracker", netdevice_tracker);
    ("struct_net_device", struct_net_device) ].
