(* ===== verification/PmAbi.v ===== *)
(** * Kernel header types: PmAbi

    From the [vmlinux.h] of [portmirror] ([ebpf/portmirror/src/bpf/vmlinux.h]):
    the types the programs name: program contexts, packet headers, tunnel metadata, registers, helper numbers and map types.
    Every definition is one declaration of the header, in dependency order: [struct_x], [union_x]
    and [enum_x] for tagged types, the bare name for a typedef. *)

From S2P Require Import Prelude CType.

Definition __u32 : cty := c_uint.

Definition __u64 : cty := c_ullong.

Definition struct___sk_buff : cty := cstruct
  [ fld "len" __u32;
    fld "pkt_type" __u32;
    fld "mark" __u32;
    fld "queue_mapping" __u32;
    fld "protocol" __u32;
    fld "vlan_present" __u32;
    fld "vlan_tci" __u32;
    fld "vlan_proto" __u32;
    fld "priority" __u32;
    fld "ingress_ifindex" __u32;
    fld "ifindex" __u32;
    fld "tc_index" __u32;
    fld "cb" (CArr 5 __u32);
    fld "hash" __u32;
    fld "tc_classid" __u32;
    fld "data" __u32;
    fld "data_end" __u32;
    fld "napi_id" __u32;
    fld "family" __u32;
    fld "remote_ip4" __u32;
    fld "local_ip4" __u32;
    fld "remote_ip6" (CArr 4 __u32);
    fld "local_ip6" (CArr 4 __u32);
    fld "remote_port" __u32;
    fld "local_port" __u32;
    fld "data_meta" __u32;
    anon (cunion
    [ fld "flow_keys" (CPtr "struct bpf_flow_keys") ]);
    fld "tstamp" __u64;
    fld "wire_len" __u32;
    fld "gso_segs" __u32;
    anon (cunion
    [ fld "sk" (CPtr "struct bpf_sock") ]);
    fld "gso_size" __u32 ].

Definition __u16 : cty := c_ushort.

Definition __be16 : cty := __u16.

Definition struct_ethhdr : cty := cstruct
  [ fld "h_dest" (CArr 6 c_uchar);
    fld "h_source" (CArr 6 c_uchar);
    fld "h_proto" __be16 ].

Definition __u8 : cty := c_uchar.

Definition __sum16 : cty := __u16.

Definition __be32 : cty := __u32.

Definition struct_iphdr : cty := cstruct
  [ bit "ihl" __u8 4;
    bit "version" __u8 4;
    fld "tos" __u8;
    fld "tot_len" __be16;
    fld "id" __be16;
    fld "frag_off" __be16;
    fld "ttl" __u8;
    fld "protocol" __u8;
    fld "check" __sum16;
    fld "saddr" __be32;
    fld "daddr" __be32 ].

Definition struct_in6_addr : cty := cstruct
  [ fld "in6_u" (cunion
    [ fld "u6_addr8" (CArr 16 __u8);
      fld "u6_addr16" (CArr 8 __be16);
      fld "u6_addr32" (CArr 4 __be32) ]) ].

Definition struct_ipv6hdr : cty := cstruct
  [ bit "priority" __u8 4;
    bit "version" __u8 4;
    fld "flow_lbl" (CArr 3 __u8);
    fld "payload_len" __be16;
    fld "nexthdr" __u8;
    fld "hop_limit" __u8;
    fld "saddr" struct_in6_addr;
    fld "daddr" struct_in6_addr ].

Definition struct_tcphdr : cty := cstruct
  [ fld "source" __be16;
    fld "dest" __be16;
    fld "seq" __be32;
    fld "ack_seq" __be32;
    bit "res1" __u16 4;
    bit "doff" __u16 4;
    bit "fin" __u16 1;
    bit "syn" __u16 1;
    bit "rst" __u16 1;
    bit "psh" __u16 1;
    bit "ack" __u16 1;
    bit "urg" __u16 1;
    bit "ece" __u16 1;
    bit "cwr" __u16 1;
    fld "window" __be16;
    fld "check" __sum16;
    fld "urg_ptr" __be16 ].

Definition struct_udphdr : cty := cstruct
  [ fld "source" __be16;
    fld "dest" __be16;
    fld "len" __be16;
    fld "check" __sum16 ].

Definition struct_xdp_md : cty := cstruct
  [ fld "data" __u32;
    fld "data_end" __u32;
    fld "data_meta" __u32;
    fld "ingress_ifindex" __u32;
    fld "rx_queue_index" __u32;
    fld "egress_ifindex" __u32 ].

Definition enum_xdp_action : cty := CEnum
  [ ("XDP_ABORTED", 0);
    ("XDP_DROP", 1);
    ("XDP_PASS", 2);
    ("XDP_TX", 3);
    ("XDP_REDIRECT", 4) ].

Definition struct_pt_regs : cty := cstruct
  [ fld "r15" c_ulong;
    fld "r14" c_ulong;
    fld "r13" c_ulong;
    fld "r12" c_ulong;
    fld "bp" c_ulong;
    fld "bx" c_ulong;
    fld "r11" c_ulong;
    fld "r10" c_ulong;
    fld "r9" c_ulong;
    fld "r8" c_ulong;
    fld "ax" c_ulong;
    fld "cx" c_ulong;
    fld "dx" c_ulong;
    fld "si" c_ulong;
    fld "di" c_ulong;
    fld "orig_ax" c_ulong;
    fld "ip" c_ulong;
    fld "cs" c_ulong;
    fld "flags" c_ulong;
    fld "sp" c_ulong;
    fld "ss" c_ulong ].

Definition struct_bpf_tunnel_key : cty := cstruct
  [ fld "tunnel_id" __u32;
    anon (cunion
    [ fld "remote_ipv4" __u32;
      fld "remote_ipv6" (CArr 4 __u32) ]);
    fld "tunnel_tos" __u8;
    fld "tunnel_ttl" __u8;
    fld "tunnel_ext" __u16;
    fld "tunnel_label" __u32 ].

Definition struct_erspan_md2 : cty := cstruct
  [ fld "timestamp" __be32;
    fld "sgt" __be16;
    bit "hwid_upper" __u8 2;
    bit "ft" __u8 5;
    bit "p" __u8 1;
    bit "o" __u8 1;
    bit "gra" __u8 2;
    bit "dir" __u8 1;
    bit "hwid" __u8 4 ].

Definition struct_erspan_metadata : cty := cstruct
  [ fld "version" c_int;
    fld "u" (cunion
    [ fld "index" __be32;
      fld "md2" struct_erspan_md2 ]) ].

Definition enum_IPPROTO : cty := CEnum
  [ ("IPPROTO_IP", 0);
    ("IPPROTO_ICMP", 1);
    ("IPPROTO_IGMP", 2);
    ("IPPROTO_IPIP", 4);
    ("IPPROTO_TCP", 6);
    ("IPPROTO_EGP", 8);
    ("IPPROTO_PUP", 12);
    ("IPPROTO_UDP", 17);
    ("IPPROTO_IDP", 22);
    ("IPPROTO_TP", 29);
    ("IPPROTO_DCCP", 33);
    ("IPPROTO_IPV6", 41);
    ("IPPROTO_RSVP", 46);
    ("IPPROTO_GRE", 47);
    ("IPPROTO_ESP", 50);
    ("IPPROTO_AH", 51);
    ("IPPROTO_MTP", 92);
    ("IPPROTO_BEETPH", 94);
    ("IPPROTO_ENCAP", 98);
    ("IPPROTO_PIM", 103);
    ("IPPROTO_COMP", 108);
    ("IPPROTO_SCTP", 132);
    ("IPPROTO_UDPLITE", 136);
    ("IPPROTO_MPLS", 137);
    ("IPPROTO_ETHERNET", 143);
    ("IPPROTO_RAW", 255);
    ("IPPROTO_MPTCP", 262);
    ("IPPROTO_MAX", 263) ].

Definition enum_BPF_F_stack : cty := CEnum
  [ ("BPF_F_SKIP_FIELD_MASK", 255);
    ("BPF_F_USER_STACK", 256);
    ("BPF_F_FAST_STACK_CMP", 512);
    ("BPF_F_REUSE_STACKID", 1024);
    ("BPF_F_USER_BUILD_ID", 2048) ].

Definition enum_bpf_map_type : cty := CEnum
  [ ("BPF_MAP_TYPE_UNSPEC", 0);
    ("BPF_MAP_TYPE_HASH", 1);
    ("BPF_MAP_TYPE_ARRAY", 2);
    ("BPF_MAP_TYPE_PROG_ARRAY", 3);
    ("BPF_MAP_TYPE_PERF_EVENT_ARRAY", 4);
    ("BPF_MAP_TYPE_PERCPU_HASH", 5);
    ("BPF_MAP_TYPE_PERCPU_ARRAY", 6);
    ("BPF_MAP_TYPE_STACK_TRACE", 7);
    ("BPF_MAP_TYPE_CGROUP_ARRAY", 8);
    ("BPF_MAP_TYPE_LRU_HASH", 9);
    ("BPF_MAP_TYPE_LRU_PERCPU_HASH", 10);
    ("BPF_MAP_TYPE_LPM_TRIE", 11);
    ("BPF_MAP_TYPE_ARRAY_OF_MAPS", 12);
    ("BPF_MAP_TYPE_HASH_OF_MAPS", 13);
    ("BPF_MAP_TYPE_DEVMAP", 14);
    ("BPF_MAP_TYPE_SOCKMAP", 15);
    ("BPF_MAP_TYPE_CPUMAP", 16);
    ("BPF_MAP_TYPE_XSKMAP", 17);
    ("BPF_MAP_TYPE_SOCKHASH", 18);
    ("BPF_MAP_TYPE_CGROUP_STORAGE", 19);
    ("BPF_MAP_TYPE_REUSEPORT_SOCKARRAY", 20);
    ("BPF_MAP_TYPE_PERCPU_CGROUP_STORAGE", 21);
    ("BPF_MAP_TYPE_QUEUE", 22);
    ("BPF_MAP_TYPE_STACK", 23);
    ("BPF_MAP_TYPE_SK_STORAGE", 24);
    ("BPF_MAP_TYPE_DEVMAP_HASH", 25);
    ("BPF_MAP_TYPE_STRUCT_OPS", 26);
    ("BPF_MAP_TYPE_RINGBUF", 27);
    ("BPF_MAP_TYPE_INODE_STORAGE", 28) ].

Definition enum_bpf_func_id : cty := CEnum
  [ ("BPF_FUNC_unspec", 0);
    ("BPF_FUNC_map_lookup_elem", 1);
    ("BPF_FUNC_map_update_elem", 2);
    ("BPF_FUNC_map_delete_elem", 3);
    ("BPF_FUNC_probe_read", 4);
    ("BPF_FUNC_ktime_get_ns", 5);
    ("BPF_FUNC_trace_printk", 6);
    ("BPF_FUNC_get_prandom_u32", 7);
    ("BPF_FUNC_get_smp_processor_id", 8);
    ("BPF_FUNC_skb_store_bytes", 9);
    ("BPF_FUNC_l3_csum_replace", 10);
    ("BPF_FUNC_l4_csum_replace", 11);
    ("BPF_FUNC_tail_call", 12);
    ("BPF_FUNC_clone_redirect", 13);
    ("BPF_FUNC_get_current_pid_tgid", 14);
    ("BPF_FUNC_get_current_uid_gid", 15);
    ("BPF_FUNC_get_current_comm", 16);
    ("BPF_FUNC_get_cgroup_classid", 17);
    ("BPF_FUNC_skb_vlan_push", 18);
    ("BPF_FUNC_skb_vlan_pop", 19);
    ("BPF_FUNC_skb_get_tunnel_key", 20);
    ("BPF_FUNC_skb_set_tunnel_key", 21);
    ("BPF_FUNC_perf_event_read", 22);
    ("BPF_FUNC_redirect", 23);
    ("BPF_FUNC_get_route_realm", 24);
    ("BPF_FUNC_perf_event_output", 25);
    ("BPF_FUNC_skb_load_bytes", 26);
    ("BPF_FUNC_get_stackid", 27);
    ("BPF_FUNC_csum_diff", 28);
    ("BPF_FUNC_skb_get_tunnel_opt", 29);
    ("BPF_FUNC_skb_set_tunnel_opt", 30);
    ("BPF_FUNC_skb_change_proto", 31);
    ("BPF_FUNC_skb_change_type", 32);
    ("BPF_FUNC_skb_under_cgroup", 33);
    ("BPF_FUNC_get_hash_recalc", 34);
    ("BPF_FUNC_get_current_task", 35);
    ("BPF_FUNC_probe_write_user", 36);
    ("BPF_FUNC_current_task_under_cgroup", 37);
    ("BPF_FUNC_skb_change_tail", 38);
    ("BPF_FUNC_skb_pull_data", 39);
    ("BPF_FUNC_csum_update", 40);
    ("BPF_FUNC_set_hash_invalid", 41);
    ("BPF_FUNC_get_numa_node_id", 42);
    ("BPF_FUNC_skb_change_head", 43);
    ("BPF_FUNC_xdp_adjust_head", 44);
    ("BPF_FUNC_probe_read_str", 45);
    ("BPF_FUNC_get_socket_cookie", 46);
    ("BPF_FUNC_get_socket_uid", 47);
    ("BPF_FUNC_set_hash", 48);
    ("BPF_FUNC_setsockopt", 49);
    ("BPF_FUNC_skb_adjust_room", 50);
    ("BPF_FUNC_redirect_map", 51);
    ("BPF_FUNC_sk_redirect_map", 52);
    ("BPF_FUNC_sock_map_update", 53);
    ("BPF_FUNC_xdp_adjust_meta", 54);
    ("BPF_FUNC_perf_event_read_value", 55);
    ("BPF_FUNC_perf_prog_read_value", 56);
    ("BPF_FUNC_getsockopt", 57);
    ("BPF_FUNC_override_return", 58);
    ("BPF_FUNC_sock_ops_cb_flags_set", 59);
    ("BPF_FUNC_msg_redirect_map", 60);
    ("BPF_FUNC_msg_apply_bytes", 61);
    ("BPF_FUNC_msg_cork_bytes", 62);
    ("BPF_FUNC_msg_pull_data", 63);
    ("BPF_FUNC_bind", 64);
    ("BPF_FUNC_xdp_adjust_tail", 65);
    ("BPF_FUNC_skb_get_xfrm_state", 66);
    ("BPF_FUNC_get_stack", 67);
    ("BPF_FUNC_skb_load_bytes_relative", 68);
    ("BPF_FUNC_fib_lookup", 69);
    ("BPF_FUNC_sock_hash_update", 70);
    ("BPF_FUNC_msg_redirect_hash", 71);
    ("BPF_FUNC_sk_redirect_hash", 72);
    ("BPF_FUNC_lwt_push_encap", 73);
    ("BPF_FUNC_lwt_seg6_store_bytes", 74);
    ("BPF_FUNC_lwt_seg6_adjust_srh", 75);
    ("BPF_FUNC_lwt_seg6_action", 76);
    ("BPF_FUNC_rc_repeat", 77);
    ("BPF_FUNC_rc_keydown", 78);
    ("BPF_FUNC_skb_cgroup_id", 79);
    ("BPF_FUNC_get_current_cgroup_id", 80);
    ("BPF_FUNC_get_local_storage", 81);
    ("BPF_FUNC_sk_select_reuseport", 82);
    ("BPF_FUNC_skb_ancestor_cgroup_id", 83);
    ("BPF_FUNC_sk_lookup_tcp", 84);
    ("BPF_FUNC_sk_lookup_udp", 85);
    ("BPF_FUNC_sk_release", 86);
    ("BPF_FUNC_map_push_elem", 87);
    ("BPF_FUNC_map_pop_elem", 88);
    ("BPF_FUNC_map_peek_elem", 89);
    ("BPF_FUNC_msg_push_data", 90);
    ("BPF_FUNC_msg_pop_data", 91);
    ("BPF_FUNC_rc_pointer_rel", 92);
    ("BPF_FUNC_spin_lock", 93);
    ("BPF_FUNC_spin_unlock", 94);
    ("BPF_FUNC_sk_fullsock", 95);
    ("BPF_FUNC_tcp_sock", 96);
    ("BPF_FUNC_skb_ecn_set_ce", 97);
    ("BPF_FUNC_get_listener_sock", 98);
    ("BPF_FUNC_skc_lookup_tcp", 99);
    ("BPF_FUNC_tcp_check_syncookie", 100);
    ("BPF_FUNC_sysctl_get_name", 101);
    ("BPF_FUNC_sysctl_get_current_value", 102);
    ("BPF_FUNC_sysctl_get_new_value", 103);
    ("BPF_FUNC_sysctl_set_new_value", 104);
    ("BPF_FUNC_strtol", 105);
    ("BPF_FUNC_strtoul", 106);
    ("BPF_FUNC_sk_storage_get", 107);
    ("BPF_FUNC_sk_storage_delete", 108);
    ("BPF_FUNC_send_signal", 109);
    ("BPF_FUNC_tcp_gen_syncookie", 110);
    ("BPF_FUNC_skb_output", 111);
    ("BPF_FUNC_probe_read_user", 112);
    ("BPF_FUNC_probe_read_kernel", 113);
    ("BPF_FUNC_probe_read_user_str", 114);
    ("BPF_FUNC_probe_read_kernel_str", 115);
    ("BPF_FUNC_tcp_send_ack", 116);
    ("BPF_FUNC_send_signal_thread", 117);
    ("BPF_FUNC_jiffies64", 118);
    ("BPF_FUNC_read_branch_records", 119);
    ("BPF_FUNC_get_ns_current_pid_tgid", 120);
    ("BPF_FUNC_xdp_output", 121);
    ("BPF_FUNC_get_netns_cookie", 122);
    ("BPF_FUNC_get_current_ancestor_cgroup_id", 123);
    ("BPF_FUNC_sk_assign", 124);
    ("BPF_FUNC_ktime_get_boot_ns", 125);
    ("BPF_FUNC_seq_printf", 126);
    ("BPF_FUNC_seq_write", 127);
    ("BPF_FUNC_sk_cgroup_id", 128);
    ("BPF_FUNC_sk_ancestor_cgroup_id", 129);
    ("BPF_FUNC_ringbuf_output", 130);
    ("BPF_FUNC_ringbuf_reserve", 131);
    ("BPF_FUNC_ringbuf_submit", 132);
    ("BPF_FUNC_ringbuf_discard", 133);
    ("BPF_FUNC_ringbuf_query", 134);
    ("BPF_FUNC_csum_level", 135);
    ("BPF_FUNC_skc_to_tcp6_sock", 136);
    ("BPF_FUNC_skc_to_tcp_sock", 137);
    ("BPF_FUNC_skc_to_tcp_timewait_sock", 138);
    ("BPF_FUNC_skc_to_tcp_request_sock", 139);
    ("BPF_FUNC_skc_to_udp6_sock", 140);
    ("BPF_FUNC_get_task_stack", 141);
    ("BPF_FUNC_load_hdr_opt", 142);
    ("BPF_FUNC_store_hdr_opt", 143);
    ("BPF_FUNC_reserve_hdr_opt", 144);
    ("BPF_FUNC_inode_storage_get", 145);
    ("BPF_FUNC_inode_storage_delete", 146);
    ("BPF_FUNC_d_path", 147);
    ("BPF_FUNC_copy_from_user", 148);
    ("BPF_FUNC_snprintf_btf", 149);
    ("BPF_FUNC_seq_printf_btf", 150);
    ("BPF_FUNC_skb_cgroup_classid", 151);
    ("BPF_FUNC_redirect_neigh", 152);
    ("BPF_FUNC_per_cpu_ptr", 153);
    ("BPF_FUNC_this_cpu_ptr", 154);
    ("BPF_FUNC_redirect_peer", 155);
    ("BPF_FUNC_get_sockops_uid_gid", 156);
    ("BPF_FUNC_sk_original_addr", 157);
    ("BPF_FUNC_sched_tg_tag_of", 158);
    ("BPF_FUNC_sched_task_tag_of", 159);
    ("BPF_FUNC_sched_set_tg_tag", 160);
    ("BPF_FUNC_sched_set_task_tag", 161);
    ("BPF_FUNC_sched_cpu_stats_of", 162);
    ("BPF_FUNC_init_cpu_topology", 163);
    ("BPF_FUNC_get_cpumask_info", 164);
    ("BPF_FUNC_sched_entity_is_task", 165);
    ("BPF_FUNC_sched_entity_to_task", 166);
    ("BPF_FUNC_sched_entity_to_tg", 167);
    ("BPF_FUNC_cpumask_op", 168);
    ("BPF_FUNC_cpus_share_cache", 169);
    ("BPF_FUNC_nodemask_op", 170);
    ("BPF_FUNC_get_task_relationship_stats", 171);
    ("BPF_FUNC_sched_set_curr_preferred_node", 172);
    ("BPF_FUNC_get_node_stats", 173);
    ("BPF_FUNC_sched_net_rship_submit", 174);
    ("__BPF_FUNC_MAX_ID", 175) ].

(** Every type of this file, by name. *)
Definition all_types : list (string * cty) :=
  [ ("__u32", __u32);
    ("__u64", __u64);
    ("struct___sk_buff", struct___sk_buff);
    ("__u16", __u16);
    ("__be16", __be16);
    ("struct_ethhdr", struct_ethhdr);
    ("__u8", __u8);
    ("__sum16", __sum16);
    ("__be32", __be32);
    ("struct_iphdr", struct_iphdr);
    ("struct_in6_addr", struct_in6_addr);
    ("struct_ipv6hdr", struct_ipv6hdr);
    ("struct_tcphdr", struct_tcphdr);
    ("struct_udphdr", struct_udphdr);
    ("struct_xdp_md", struct_xdp_md);
    ("enum_xdp_action", enum_xdp_action);
    ("struct_pt_regs", struct_pt_regs);
    ("struct_bpf_tunnel_key", struct_bpf_tunnel_key);
    ("struct_erspan_md2", struct_erspan_md2);
    ("struct_erspan_metadata", struct_erspan_metadata);
    ("enum_IPPROTO", enum_IPPROTO);
    ("enum_BPF_F_stack", enum_BPF_F_stack);
    ("enum_bpf_map_type", enum_bpf_map_type);
    ("enum_bpf_func_id", enum_bpf_func_id) ].
