(* ===== verification/PmTask.v ===== *)
(** * Kernel header types: PmTask

    From the [vmlinux.h] of [portmirror] ([ebpf/portmirror/src/bpf/vmlinux.h]):
    the kernel objects behind the probe context and the BPF objects: [task_struct], [mm_struct], [signal_struct], [bpf_map], [bpf_prog] and the types they embed.
    Every definition is one declaration of the header, in dependency order: [struct_x], [union_x]
    and [enum_x] for tagged types, the bare name for a typedef. *)

From S2P Require Import Prelude CType PmAbi PmNet.

Definition struct_bpf_map_memory : cty := cstruct
  [ fld "pages" u32;
    fld "user" (CPtr "struct user_struct") ].

Definition struct_callback_head : cty := cstruct
  [ fld "next" (CPtr "struct callback_head");
    fld "func" (CPtr "void (struct callback_head *)") ].

Definition struct_bpf_map : cty := cstruct
  [ fld "ops" (CPtr "const struct bpf_map_ops");
    fld "inner_map_meta" (CPtr "struct bpf_map");
    fld "security" (CPtr "void");
    fld "map_type" enum_bpf_map_type;
    fld "key_size" u32;
    fld "value_size" u32;
    fld "max_entries" u32;
    fld "map_flags" u32;
    fld "spin_lock_off" c_int;
    fld "id" u32;
    fld "numa_node" c_int;
    fld "btf_key_type_id" u32;
    fld "btf_value_type_id" u32;
    fld "btf" (CPtr "struct btf");
    fld "memory" struct_bpf_map_memory;
    fld "name" (CArr 16 c_char);
    fld "btf_vmlinux_value_type_id" u32;
    fld "bypass_spec_v1" bool_t;
    fld "frozen" bool_t;
    fld "free_after_mult_rcu_gp" bool_t;
    pad c_long 8;
    pad c_long 64;
    pad c_long 64;
    fld "refcnt" atomic64_t;
    fld "usercnt" atomic64_t;
    anon (cunion
    [ fld "work" struct_work_struct;
      fld "rcu" struct_callback_head ]);
    fld "freeze_mutex" struct_mutex;
    fld "writecnt" atomic64_t;
    pad c_long 64 ].

Definition enum_bpf_prog_type : cty := CEnum
  [ ("BPF_PROG_TYPE_UNSPEC", 0);
    ("BPF_PROG_TYPE_SOCKET_FILTER", 1);
    ("BPF_PROG_TYPE_KPROBE", 2);
    ("BPF_PROG_TYPE_SCHED_CLS", 3);
    ("BPF_PROG_TYPE_SCHED_ACT", 4);
    ("BPF_PROG_TYPE_TRACEPOINT", 5);
    ("BPF_PROG_TYPE_XDP", 6);
    ("BPF_PROG_TYPE_PERF_EVENT", 7);
    ("BPF_PROG_TYPE_CGROUP_SKB", 8);
    ("BPF_PROG_TYPE_CGROUP_SOCK", 9);
    ("BPF_PROG_TYPE_LWT_IN", 10);
    ("BPF_PROG_TYPE_LWT_OUT", 11);
    ("BPF_PROG_TYPE_LWT_XMIT", 12);
    ("BPF_PROG_TYPE_SOCK_OPS", 13);
    ("BPF_PROG_TYPE_SK_SKB", 14);
    ("BPF_PROG_TYPE_CGROUP_DEVICE", 15);
    ("BPF_PROG_TYPE_SK_MSG", 16);
    ("BPF_PROG_TYPE_RAW_TRACEPOINT", 17);
    ("BPF_PROG_TYPE_CGROUP_SOCK_ADDR", 18);
    ("BPF_PROG_TYPE_LWT_SEG6LOCAL", 19);
    ("BPF_PROG_TYPE_LIRC_MODE2", 20);
    ("BPF_PROG_TYPE_SK_REUSEPORT", 21);
    ("BPF_PROG_TYPE_FLOW_DISSECTOR", 22);
    ("BPF_PROG_TYPE_CGROUP_SYSCTL", 23);
    ("BPF_PROG_TYPE_RAW_TRACEPOINT_WRITABLE", 24);
    ("BPF_PROG_TYPE_CGROUP_SOCKOPT", 25);
    ("BPF_PROG_TYPE_TRACING", 26);
    ("BPF_PROG_TYPE_STRUCT_OPS", 27);
    ("BPF_PROG_TYPE_EXT", 28);
    ("BPF_PROG_TYPE_LSM", 29);
    ("BPF_PROG_TYPE_SK_LOOKUP", 30);
    ("BPF_PROG_TYPE_SCHED", 31);
    ("BPF_PROG_TYPE_NET_GLOBAL", 32) ].

Definition enum_bpf_attach_type : cty := CEnum
  [ ("BPF_CGROUP_INET_INGRESS", 0);
    ("BPF_CGROUP_INET_EGRESS", 1);
    ("BPF_CGROUP_INET_SOCK_CREATE", 2);
    ("BPF_CGROUP_SOCK_OPS", 3);
    ("BPF_SK_SKB_STREAM_PARSER", 4);
    ("BPF_SK_SKB_STREAM_VERDICT", 5);
    ("BPF_CGROUP_DEVICE", 6);
    ("BPF_SK_MSG_VERDICT", 7);
    ("BPF_CGROUP_INET4_BIND", 8);
    ("BPF_CGROUP_INET6_BIND", 9);
    ("BPF_CGROUP_INET4_CONNECT", 10);
    ("BPF_CGROUP_INET6_CONNECT", 11);
    ("BPF_CGROUP_INET4_POST_BIND", 12);
    ("BPF_CGROUP_INET6_POST_BIND", 13);
    ("BPF_CGROUP_UDP4_SENDMSG", 14);
    ("BPF_CGROUP_UDP6_SENDMSG", 15);
    ("BPF_LIRC_MODE2", 16);
    ("BPF_FLOW_DISSECTOR", 17);
    ("BPF_CGROUP_SYSCTL", 18);
    ("BPF_CGROUP_UDP4_RECVMSG", 19);
    ("BPF_CGROUP_UDP6_RECVMSG", 20);
    ("BPF_CGROUP_GETSOCKOPT", 21);
    ("BPF_CGROUP_SETSOCKOPT", 22);
    ("BPF_TRACE_RAW_TP", 23);
    ("BPF_TRACE_FENTRY", 24);
    ("BPF_TRACE_FEXIT", 25);
    ("BPF_MODIFY_RETURN", 26);
    ("BPF_LSM_MAC", 27);
    ("BPF_TRACE_ITER", 28);
    ("BPF_CGROUP_INET4_GETPEERNAME", 29);
    ("BPF_CGROUP_INET6_GETPEERNAME", 30);
    ("BPF_CGROUP_INET4_GETSOCKNAME", 31);
    ("BPF_CGROUP_INET6_GETSOCKNAME", 32);
    ("BPF_XDP_DEVMAP", 33);
    ("BPF_CGROUP_INET_SOCK_RELEASE", 34);
    ("BPF_XDP_CPUMAP", 35);
    ("BPF_SK_LOOKUP", 36);
    ("BPF_XDP", 37);
    ("BPF_SCHED", 38);
    ("BPF_GNET_TCP_RECVMSG", 39);
    ("BPF_GNET_SK_DST_SET", 40);
    ("BPF_GNET_RCV_NIC_NODE", 41);
    ("BPF_GNET_SEND_NIC_NODE", 42);
    ("__MAX_BPF_ATTACH_TYPE", 43) ].

Definition struct_sock_filter : cty := cstruct
  [ fld "code" __u16;
    fld "jt" __u8;
    fld "jf" __u8;
    fld "k" __u32 ].

Definition __s32 : cty := c_int.

Definition struct_bpf_insn : cty := cstruct
  [ fld "code" __u8;
    bit "dst_reg" __u8 4;
    bit "src_reg" __u8 4;
    fld "off" __s16;
    fld "imm" __s32 ].

Definition struct_bpf_prog : cty := cstruct
  [ fld "pages" u16;
    bit "jited" u16 1;
    bit "jit_requested" u16 1;
    bit "gpl_compatible" u16 1;
    bit "cb_access" u16 1;
    bit "dst_needed" u16 1;
    bit "blinded" u16 1;
    bit "is_func" u16 1;
    bit "kprobe_override" u16 1;
    bit "has_callchain_buf" u16 1;
    bit "enforce_expected_attach_type" u16 1;
    bit "call_get_stack" u16 1;
    fld "type" enum_bpf_prog_type;
    fld "expected_attach_type" enum_bpf_attach_type;
    fld "len" u32;
    fld "jited_len" u32;
    fld "tag" (CArr 8 u8);
    fld "aux" (CPtr "struct bpf_prog_aux");
    fld "orig_prog" (CPtr "struct sock_fprog_kern");
    fld "bpf_func" (CPtr "unsigned int (const void *, const struct bpf_insn *)");
    fld "insns" (CArr 0 struct_sock_filter);
    fld "insnsi" (CArr 0 struct_bpf_insn) ].

Definition struct_thread_info : cty := cstruct
  [ fld "flags" c_ulong;
    fld "status" u32;
    fld "cpu" u32;
    fld "kabi_reserved1" u64;
    fld "kabi_reserved2" u64 ].

Definition struct___call_single_node : cty := cstruct
  [ fld "llist" struct_llist_node;
    anon (cunion
    [ fld "u_flags" c_uint;
      fld "a_flags" atomic_t ]);
    fld "src" u16;
    fld "dst" u16 ].

Definition struct_load_weight : cty := cstruct
  [ fld "weight" c_ulong;
    fld "inv_weight" u32 ].

Definition struct_sched_statistics : cty := cstruct
  [ fld "wait_start" u64;
    fld "wait_max" u64;
    fld "wait_count" u64;
    fld "wait_sum" u64;
    fld "iowait_count" u64;
    fld "iowait_sum" u64;
    fld "sleep_start" u64;
    fld "sleep_max" u64;
    fld "sum_sleep_runtime" s64;
    fld "block_start" u64;
    fld "block_max" u64;
    fld "exec_max" u64;
    fld "slice_max" u64;
    fld "nr_migrations_cold" u64;
    fld "nr_failed_migrations_affine" u64;
    fld "nr_failed_migrations_running" u64;
    fld "nr_failed_migrations_hot" u64;
    fld "nr_forced_migrations" u64;
    fld "nr_wakeups" u64;
    fld "nr_wakeups_sync" u64;
    fld "nr_wakeups_migrate" u64;
    fld "nr_wakeups_local" u64;
    fld "nr_wakeups_remote" u64;
    fld "nr_wakeups_affine" u64;
    fld "nr_wakeups_affine_attempts" u64;
    fld "nr_wakeups_passive" u64;
    fld "nr_wakeups_idle" u64;
    fld "nr_qos_smt_send_ipi" u64;
    fld "nr_qos_smt_expelled" u64;
    fld "nr_wakeups_preferred_cpus" u64;
    fld "nr_wakeups_force_preferred_cpus" u64 ].

Definition struct_util_est : cty := cstruct
  [ fld "enqueued" c_uint;
    fld "ewma" c_uint ].

Definition struct_sched_avg : cty := cstruct
  [ fld "last_update_time" u64;
    fld "load_sum" u64;
    fld "runnable_sum" u64;
    fld "util_sum" u32;
    fld "period_contrib" u32;
    fld "load_avg" c_ulong;
    fld "runnable_avg" c_ulong;
    fld "util_avg" c_ulong;
    fld "util_est" struct_util_est ].

Definition struct_sched_entity : cty := cstruct
  [ fld "load" struct_load_weight;
    fld "run_node" struct_rb_node;
    fld "group_node" struct_list_head;
    fld "on_rq" c_uint;
    fld "exec_start" u64;
    fld "sum_exec_runtime" u64;
    fld "vruntime" u64;
    fld "prev_sum_exec_runtime" u64;
    fld "nr_migrations" u64;
    fld "statistics" struct_sched_statistics;
    fld "depth" c_int;
    fld "parent" (CPtr "struct sched_entity");
    fld "cfs_rq" (CPtr "struct cfs_rq");
    fld "my_q" (CPtr "struct cfs_rq");
    fld "runnable_weight" c_ulong;
    pad c_long 64;
    pad c_long 64;
    pad c_long 64;
    pad c_long 64;
    pad c_long 64;
    pad c_long 64;
    pad c_long 64;
    fld "avg" struct_sched_avg;
    anon (cunion
    [ fld "qos_idle" c_long;
      fld "kabi_hidden_520" (cstruct
      [ fld "kabi_reserved1" u64 ]);
      anon (cunion []) ]);
    anon (cunion
    [ fld "steal_task" c_int;
      fld "kabi_hidden_525" (cstruct
      [ fld "kabi_reserved2" u64 ]);
      anon (cunion []) ]);
    fld "kabi_reserved3" u64;
    fld "kabi_reserved4" u64;
    pad c_long 64;
    pad c_long 64;
    pad c_long 64;
    pad c_long 64 ].

Definition struct_sched_rt_entity : cty := cstruct
  [ fld "run_list" struct_list_head;
    fld "timeout" c_ulong;
    fld "watchdog_stamp" c_ulong;
    fld "time_slice" c_uint;
    fld "on_rq" c_ushort;
    fld "on_list" c_ushort;
    fld "back" (CPtr "struct sched_rt_entity");
    fld "parent" (CPtr "struct sched_rt_entity");
    fld "rt_rq" (CPtr "struct rt_rq");
    fld "my_q" (CPtr "struct rt_rq");
    fld "kabi_reserved1" u64;
    fld "kabi_reserved2" u64 ].

Definition struct_sched_dl_entity : cty := cstruct
  [ fld "rb_node" struct_rb_node;
    fld "dl_runtime" u64;
    fld "dl_deadline" u64;
    fld "dl_period" u64;
    fld "dl_bw" u64;
    fld "dl_density" u64;
    fld "runtime" s64;
    fld "deadline" u64;
    fld "flags" c_uint;
    bit "dl_throttled" c_uint 1;
    bit "dl_yielded" c_uint 1;
    bit "dl_non_contending" c_uint 1;
    bit "dl_overrun" c_uint 1;
    fld "dl_timer" struct_hrtimer;
    fld "inactive_timer" struct_hrtimer;
    fld "pi_se" (CPtr "struct sched_dl_entity");
    fld "kabi_reserved1" u64;
    fld "kabi_reserved2" u64 ].

Definition struct_cpumask : cty := cstruct
  [ fld "bits" (CArr 128 c_ulong) ].

Definition cpumask_t : cty := struct_cpumask.

Definition union_rcu_special : cty := cunion
  [ fld "b" (cstruct
    [ fld "blocked" u8;
      fld "need_qs" u8;
      fld "exp_hint" u8;
      fld "need_mb" u8 ]);
    fld "s" u32 ].

Definition struct_sched_info : cty := cstruct
  [ fld "pcount" c_ulong;
    fld "run_delay" c_ullong;
    fld "last_arrival" c_ullong;
    fld "last_queued" c_ullong;
    fld "kabi_reserved1" u64;
    fld "kabi_reserved2" u64;
    fld "kabi_reserved3" u64;
    fld "kabi_reserved4" u64 ].

Definition struct_plist_node : cty := cstruct
  [ fld "prio" c_int;
    fld "prio_list" struct_list_head;
    fld "node_list" struct_list_head ].

Definition struct_vmacache : cty := cstruct
  [ fld "seqnum" u64;
    fld "vmas" (CArr 4 (CPtr "struct vm_area_struct")) ].

Definition struct_task_rss_stat : cty := cstruct
  [ fld "events" c_int;
    fld "count" (CArr 4 c_int) ].

Definition __kernel_clockid_t : cty := c_int.

Definition clockid_t : cty := __kernel_clockid_t.

Definition enum_timespec_type : cty := CEnum
  [ ("TT_NONE", 0);
    ("TT_NATIVE", 1);
    ("TT_COMPAT", 2) ].

Definition struct_restart_block : cty := cstruct
  [ fld "fn" (CPtr "long int (struct restart_block *)");
    anon (cunion
    [ fld "futex" (cstruct
      [ fld "uaddr" (CPtr "u32");
        fld "val" u32;
        fld "flags" u32;
        fld "bitset" u32;
        fld "time" u64;
        fld "uaddr2" (CPtr "u32") ]);
      fld "nanosleep" (cstruct
      [ fld "clockid" clockid_t;
        fld "type" enum_timespec_type;
        anon (cunion
        [ fld "rmtp" (CPtr "struct __kernel_timespec");
          fld "compat_rmtp" (CPtr "struct old_timespec32") ]);
        fld "expires" u64 ]);
      fld "poll" (cstruct
      [ fld "ufds" (CPtr "struct pollfd");
        fld "nfds" c_int;
        fld "has_timeout" c_int;
        fld "tv_sec" c_ulong;
        fld "tv_nsec" c_ulong ]) ]) ].

Definition __kernel_pid_t : cty := c_int.

Definition pid_t : cty := __kernel_pid_t.

Definition struct_prev_cputime : cty := cstruct
  [ fld "utime" u64;
    fld "stime" u64;
    fld "lock" raw_spinlock_t ].

Definition struct_seqcount : cty := cstruct
  [ fld "sequence" c_uint ].

Definition seqcount_t : cty := struct_seqcount.

Definition enum_vtime_state : cty := CEnum
  [ ("VTIME_INACTIVE", 0);
    ("VTIME_IDLE", 1);
    ("VTIME_SYS", 2);
    ("VTIME_USER", 3);
    ("VTIME_GUEST", 4) ].

Definition struct_vtime : cty := cstruct
  [ fld "seqcount" seqcount_t;
    fld "starttime" c_ullong;
    fld "state" enum_vtime_state;
    fld "cpu" c_uint;
    fld "utime" u64;
    fld "stime" u64;
    fld "gtime" u64 ].

Definition struct_rb_root : cty := cstruct
  [ fld "rb_node" (CPtr "struct rb_node") ].

Definition struct_rb_root_cached : cty := cstruct
  [ fld "rb_root" struct_rb_root;
    fld "rb_leftmost" (CPtr "struct rb_node") ].

Definition struct_timerqueue_head : cty := cstruct
  [ fld "rb_root" struct_rb_root_cached ].

Definition struct_posix_cputimer_base : cty := cstruct
  [ fld "nextevt" u64;
    fld "tqhead" struct_timerqueue_head ].

Definition struct_posix_cputimers : cty := cstruct
  [ fld "bases" (CArr 3 struct_posix_cputimer_base);
    fld "timers_active" c_uint;
    fld "expiry_active" c_uint ].

Definition struct_posix_cputimers_work : cty := cstruct
  [ fld "work" struct_callback_head;
    fld "scheduled" c_uint ].

Definition struct_sysv_sem : cty := cstruct
  [ fld "undo_list" (CPtr "struct sem_undo_list") ].

Definition struct_sysv_shm : cty := cstruct
  [ fld "shm_clist" struct_list_head ].

Definition sigset_t : cty := cstruct
  [ fld "sig" (CArr 1 c_ulong) ].

Definition struct_sigpending : cty := cstruct
  [ fld "list" struct_list_head;
    fld "signal" sigset_t ].

Definition __kernel_uid32_t : cty := c_uint.

Definition uid_t : cty := __kernel_uid32_t.

Definition kuid_t : cty := cstruct
  [ fld "val" uid_t ].

Definition struct_seccomp : cty := cstruct
  [ fld "mode" c_int;
    fld "filter_count" atomic_t;
    fld "filter" (CPtr "struct seccomp_filter") ].

Definition struct_wake_q_node : cty := cstruct
  [ fld "next" (CPtr "struct wake_q_node") ].

Definition struct_task_io_accounting : cty := cstruct
  [ fld "rchar" u64;
    fld "wchar" u64;
    fld "syscr" u64;
    fld "syscw" u64;
    fld "read_bytes" u64;
    fld "write_bytes" u64;
    fld "cancelled_write_bytes" u64 ].

Definition nodemask_t : cty := cstruct
  [ fld "bits" (CArr 16 c_ulong) ].

Definition struct_seqcount_spinlock : cty := cstruct
  [ fld "seqcount" seqcount_t ].

Definition seqcount_spinlock_t : cty := struct_seqcount_spinlock.

Definition struct_arch_tlbflush_unmap_batch : cty := cstruct
  [ fld "cpumask" struct_cpumask ].

Definition struct_tlbflush_unmap_batch : cty := cstruct
  [ fld "arch" struct_arch_tlbflush_unmap_batch;
    fld "flush_required" bool_t;
    fld "writable" bool_t ].

Definition struct_page_frag : cty := cstruct
  [ fld "page" (CPtr "struct page");
    fld "offset" __u32;
    fld "size" __u32 ].

Definition gfp_t : cty := c_uint.

Definition struct_desc_struct : cty := cstruct
  [ fld "limit0" u16;
    fld "base0" u16;
    bit "base1" u16 8;
    bit "type" u16 4;
    bit "s" u16 1;
    bit "dpl" u16 2;
    bit "p" u16 1;
    bit "limit1" u16 4;
    bit "avl" u16 1;
    bit "l" u16 1;
    bit "d" u16 1;
    bit "g" u16 1;
    bit "base2" u16 8 ].

Definition struct_fpu_state_perm : cty := cstruct
  [ fld "__state_perm" u64;
    fld "__state_size" c_uint;
    fld "__user_state_size" c_uint ].

Definition struct_fregs_state : cty := cstruct
  [ fld "cwd" u32;
    fld "swd" u32;
    fld "twd" u32;
    fld "fip" u32;
    fld "fcs" u32;
    fld "foo" u32;
    fld "fos" u32;
    fld "st_space" (CArr 20 u32);
    fld "status" u32 ].

Definition struct_fxregs_state : cty := cstruct
  [ fld "cwd" u16;
    fld "swd" u16;
    fld "twd" u16;
    fld "fop" u16;
    anon (cunion
    [ anon (cstruct
      [ fld "rip" u64;
        fld "rdp" u64 ]);
      anon (cstruct
      [ fld "fip" u32;
        fld "fcs" u32;
        fld "foo" u32;
        fld "fos" u32 ]) ]);
    fld "mxcsr" u32;
    fld "mxcsr_mask" u32;
    fld "st_space" (CArr 32 u32);
    fld "xmm_space" (CArr 64 u32);
    fld "padding" (CArr 12 u32);
    anon (cunion
    [ fld "padding1" (CArr 12 u32);
      fld "sw_reserved" (CArr 12 u32) ]) ].

Definition struct_swregs_state : cty := cstruct
  [ fld "cwd" u32;
    fld "swd" u32;
    fld "twd" u32;
    fld "fip" u32;
    fld "fcs" u32;
    fld "foo" u32;
    fld "fos" u32;
    fld "st_space" (CArr 20 u32);
    fld "ftop" u8;
    fld "changed" u8;
    fld "lookahead" u8;
    fld "no_update" u8;
    fld "rm" u8;
    fld "alimit" u8;
    fld "info" (CPtr "struct math_emu_info");
    fld "entry_eip" u32 ].

Definition struct_xstate_header : cty := cstruct
  [ fld "xfeatures" u64;
    fld "xcomp_bv" u64;
    fld "reserved" (CArr 6 u64) ].

Definition struct_xregs_state : cty := cstruct
  [ fld "i387" struct_fxregs_state;
    fld "header" struct_xstate_header;
    fld "extended_state_area" (CArr 0 u8) ].

Definition union_fpregs_state : cty := cunion
  [ fld "fsave" struct_fregs_state;
    fld "fxsave" struct_fxregs_state;
    fld "soft" struct_swregs_state;
    fld "xsave" struct_xregs_state;
    fld "__padding" (CArr 4096 u8) ].

Definition struct_fpstate : cty := cstruct
  [ fld "size" c_uint;
    fld "user_size" c_uint;
    fld "xfeatures" u64;
    fld "user_xfeatures" u64;
    fld "xfd" u64;
    bit "is_valloc" c_uint 1;
    bit "is_guest" c_uint 1;
    bit "is_confidential" c_uint 1;
    bit "in_use" c_uint 1;
    pad c_long 60;
    pad c_long 64;
    pad c_long 64;
    pad c_long 64;
    fld "regs" union_fpregs_state ].

Definition struct_fpu : cty := cstruct
  [ fld "last_cpu" c_uint;
    fld "avx512_timestamp" c_ulong;
    fld "fpstate" (CPtr "struct fpstate");
    fld "__task_fpstate" (CPtr "struct fpstate");
    fld "perm" struct_fpu_state_perm;
    fld "guest_perm" struct_fpu_state_perm;
    fld "__fpstate" struct_fpstate ].

Definition struct_thread_struct : cty := cstruct
  [ fld "tls_array" (CArr 3 struct_desc_struct);
    fld "sp" c_ulong;
    fld "es" c_ushort;
    fld "ds" c_ushort;
    fld "fsindex" c_ushort;
    fld "gsindex" c_ushort;
    fld "fsbase" c_ulong;
    fld "gsbase" c_ulong;
    fld "ptrace_bps" (CArr 4 (CPtr "struct perf_event"));
    fld "virtual_dr6" c_ulong;
    fld "ptrace_dr7" c_ulong;
    fld "cr2" c_ulong;
    fld "trap_nr" c_ulong;
    fld "error_code" c_ulong;
    fld "io_bitmap" (CPtr "struct io_bitmap");
    fld "iopl_emul" c_ulong;
    bit "iopl_warn" c_uint 1;
    bit "sig_on_uaccess_err" c_uint 1;
    fld "pkru" u32;
    pad c_long 64;
    pad c_long 64;
    pad c_long 64;
    pad c_long 64;
    pad c_long 64;
    fld "fpu" struct_fpu ].

Definition struct_task_struct : cty := cstruct
  [ fld "thread_info" struct_thread_info;
    fld "state" c_long;
    fld "stack" (CPtr "void");
    fld "usage" refcount_t;
    fld "flags" c_uint;
    fld "ptrace" c_uint;
    fld "on_cpu" c_int;
    fld "wake_entry" struct___call_single_node;
    fld "wakee_flips" c_uint;
    fld "wakee_flip_decay_ts" c_ulong;
    fld "last_wakee" (CPtr "struct task_struct");
    fld "recent_used_cpu" c_int;
    fld "wake_cpu" c_int;
    fld "on_rq" c_int;
    fld "prio" c_int;
    fld "static_prio" c_int;
    fld "normal_prio" c_int;
    fld "rt_priority" c_uint;
    fld "sched_class" (CPtr "const struct sched_class");
    pad c_long 64;
    pad c_long 64;
    pad c_long 64;
    pad c_long 64;
    pad c_long 64;
    pad c_long 64;
    fld "se" struct_sched_entity;
    fld "rt" struct_sched_rt_entity;
    fld "sched_task_group" (CPtr "struct task_group");
    fld "dl" struct_sched_dl_entity;
    fld "preempt_notifiers" struct_hlist_head;
    fld "btrace_seq" c_uint;
    fld "policy" c_uint;
    fld "nr_cpus_allowed" c_int;
    fld "cpus_ptr" (CPtr "const cpumask_t");
    fld "cpus_mask" cpumask_t;
    fld "trc_reader_nesting" c_int;
    fld "trc_ipi_to_cpu" c_int;
    fld "trc_reader_special" union_rcu_special;
    fld "trc_reader_checked" bool_t;
    fld "trc_holdout_list" struct_list_head;
    fld "sched_info" struct_sched_info;
    fld "tasks" struct_list_head;
    fld "pushable_tasks" struct_plist_node;
    fld "pushable_dl_tasks" struct_rb_node;
    fld "mm" (CPtr "struct mm_struct");
    fld "active_mm" (CPtr "struct mm_struct");
    fld "vmacache" struct_vmacache;
    fld "rss_stat" struct_task_rss_stat;
    fld "exit_state" c_int;
    fld "exit_code" c_int;
    fld "exit_signal" c_int;
    fld "pdeath_signal" c_int;
    fld "jobctl" c_ulong;
    fld "personality" c_uint;
    bit "sched_reset_on_fork" c_uint 1;
    bit "sched_contributes_to_load" c_uint 1;
    bit "sched_migrated" c_uint 1;
    bit "sched_psi_wake_requeue" c_uint 1;
    pad c_int 28;
    bit "sched_remote_wakeup" c_uint 1;
    bit "in_execve" c_uint 1;
    bit "in_iowait" c_uint 1;
    bit "restore_sigmask" c_uint 1;
    bit "in_user_fault" c_uint 1;
    bit "no_cgroup_migration" c_uint 1;
    bit "frozen" c_uint 1;
    bit "use_memdelay" c_uint 1;
    bit "in_memstall" c_uint 1;
    bit "pasid_activated" c_uint 1;
    fld "atomic_flags" c_ulong;
    fld "restart_block" struct_restart_block;
    fld "pid" pid_t;
    fld "tgid" pid_t;
    fld "stack_canary" c_ulong;
    fld "real_parent" (CPtr "struct task_struct");
    fld "parent" (CPtr "struct task_struct");
    fld "children" struct_list_head;
    fld "sibling" struct_list_head;
    fld "group_leader" (CPtr "struct task_struct");
    fld "ptraced" struct_list_head;
    fld "ptrace_entry" struct_list_head;
    fld "thread_pid" (CPtr "struct pid");
    fld "pid_links" (CArr 4 struct_hlist_node);
    fld "thread_group" struct_list_head;
    fld "thread_node" struct_list_head;
    fld "vfork_done" (CPtr "struct completion");
    fld "set_child_tid" (CPtr "int");
    fld "clear_child_tid" (CPtr "int");
    fld "utime" u64;
    fld "stime" u64;
    fld "gtime" u64;
    fld "prev_cputime" struct_prev_cputime;
    fld "vtime" struct_vtime;
    fld "tick_dep_mask" atomic_t;
    fld "nvcsw" c_ulong;
    fld "nivcsw" c_ulong;
    fld "start_time" u64;
    fld "start_boottime" u64;
    fld "min_flt" c_ulong;
    fld "maj_flt" c_ulong;
    fld "posix_cputimers" struct_posix_cputimers;
    fld "posix_cputimers_work" struct_posix_cputimers_work;
    fld "ptracer_cred" (CPtr "const struct cred");
    fld "real_cred" (CPtr "const struct cred");
    fld "cred" (CPtr "const struct cred");
    fld "cached_requested_key" (CPtr "struct key");
    fld "comm" (CArr 16 c_char);
    fld "nameidata" (CPtr "struct nameidata");
    fld "sysvsem" struct_sysv_sem;
    fld "sysvshm" struct_sysv_shm;
    fld "last_switch_count" c_ulong;
    fld "last_switch_time" c_ulong;
    fld "fs" (CPtr "struct fs_struct");
    fld "files" (CPtr "struct files_struct");
    fld "io_uring" (CPtr "struct io_uring_task");
    fld "nsproxy" (CPtr "struct nsproxy");
    fld "signal" (CPtr "struct signal_struct");
    fld "sighand" (CPtr "struct sighand_struct");
    fld "blocked" sigset_t;
    fld "real_blocked" sigset_t;
    fld "saved_sigmask" sigset_t;
    fld "pending" struct_sigpending;
    fld "sas_ss_sp" c_ulong;
    fld "sas_ss_size" size_t;
    fld "sas_ss_flags" c_uint;
    fld "task_works" (CPtr "struct callback_head");
    fld "audit_context" (CPtr "struct audit_context");
    fld "loginuid" kuid_t;
    fld "sessionid" c_uint;
    fld "seccomp" struct_seccomp;
    fld "parent_exec_id" u64;
    fld "self_exec_id" u64;
    fld "alloc_lock" spinlock_t;
    fld "pi_lock" raw_spinlock_t;
    fld "wake_q" struct_wake_q_node;
    fld "pi_waiters" struct_rb_root_cached;
    fld "pi_top_task" (CPtr "struct task_struct");
    fld "pi_blocked_on" (CPtr "struct rt_mutex_waiter");
    fld "journal_info" (CPtr "void");
    fld "bio_list" (CPtr "struct bio_list");
    fld "plug" (CPtr "struct blk_plug");
    fld "reclaim_state" (CPtr "struct reclaim_state");
    fld "backing_dev_info" (CPtr "struct backing_dev_info");
    fld "io_context" (CPtr "struct io_context");
    fld "capture_control" (CPtr "struct capture_control");
    fld "ptrace_message" c_ulong;
    fld "last_siginfo" (CPtr "kernel_siginfo_t");
    fld "ioac" struct_task_io_accounting;
    fld "psi_flags" c_uint;
    fld "acct_rss_mem1" u64;
    fld "acct_vm_mem1" u64;
    fld "acct_timexpd" u64;
    fld "mems_allowed" nodemask_t;
    fld "mems_allowed_seq" seqcount_spinlock_t;
    fld "cpuset_mem_spread_rotor" c_int;
    fld "cpuset_slab_spread_rotor" c_int;
    fld "cgroups" (CPtr "struct css_set");
    fld "cg_list" struct_list_head;
    fld "closid" u32;
    fld "rmid" u32;
    fld "robust_list" (CPtr "struct robust_list_head");
    fld "compat_robust_list" (CPtr "struct compat_robust_list_head");
    fld "pi_state_list" struct_list_head;
    fld "pi_state_cache" (CPtr "struct futex_pi_state");
    fld "futex_exit_mutex" struct_mutex;
    fld "futex_state" c_uint;
    fld "perf_event_ctxp" (CArr 2 (CPtr "struct perf_event_context"));
    fld "perf_event_mutex" struct_mutex;
    fld "perf_event_list" struct_list_head;
    fld "mempolicy" (CPtr "struct mempolicy");
    fld "il_prev" c_short;
    fld "pref_node_fork" c_short;
    fld "numa_scan_seq" c_int;
    fld "numa_scan_period" c_uint;
    fld "numa_scan_period_max" c_uint;
    fld "numa_preferred_nid" c_int;
    fld "numa_migrate_retry" c_ulong;
    fld "node_stamp" u64;
    fld "last_task_numa_placement" u64;
    fld "last_sum_exec_runtime" u64;
    fld "numa_work" struct_callback_head;
    fld "numa_group" (CPtr "struct numa_group");
    fld "numa_faults" (CPtr "long unsigned int");
    fld "total_numa_faults" c_ulong;
    fld "numa_faults_locality" (CArr 3 c_ulong);
    fld "numa_pages_migrated" c_ulong;
    fld "rseq" (CPtr "struct rseq");
    fld "rseq_sig" u32;
    fld "rseq_event_mask" c_ulong;
    fld "tlb_ubc" struct_tlbflush_unmap_batch;
    anon (cunion
    [ fld "rcu_users" refcount_t;
      fld "rcu" struct_callback_head ]);
    fld "splice_pipe" (CPtr "struct pipe_inode_info");
    fld "task_frag" struct_page_frag;
    fld "delays" (CPtr "struct task_delay_info");
    fld "nr_dirtied" c_int;
    fld "nr_dirtied_pause" c_int;
    fld "dirty_paused_when" c_ulong;
    fld "timer_slack_ns" u64;
    fld "default_timer_slack_ns" u64;
    fld "curr_ret_stack" c_int;
    fld "curr_ret_depth" c_int;
    fld "ret_stack" (CPtr "struct ftrace_ret_stack");
    fld "ftrace_timestamp" c_ullong;
    fld "trace_overrun" atomic_t;
    fld "tracing_graph_pause" atomic_t;
    fld "trace" c_ulong;
    fld "trace_recursion" c_ulong;
    fld "memcg_in_oom" (CPtr "struct mem_cgroup");
    fld "memcg_oom_gfp_mask" gfp_t;
    fld "memcg_oom_order" c_int;
    fld "memcg_nr_pages_over_high" c_uint;
    fld "active_memcg" (CPtr "struct mem_cgroup");
    fld "throttle_queue" (CPtr "struct request_queue");
    fld "utask" (CPtr "struct uprobe_task");
    fld "pagefault_disabled" c_int;
    fld "oom_reaper_list" (CPtr "struct task_struct");
    fld "stack_vm_area" (CPtr "struct vm_struct");
    fld "stack_refcount" refcount_t;
    fld "patch_state" c_int;
    fld "security" (CPtr "void");
    fld "bpf_ctx" (CPtr "struct bpf_run_ctx");
    fld "mce_vaddr" (CPtr "void");
    fld "mce_kflags" __u64;
    fld "mce_addr" u64;
    bit "mce_ripv" __u64 1;
    bit "mce_whole_page" __u64 1;
    bit "__mce_reserved" __u64 62;
    fld "mce_kill_me" struct_callback_head;
    fld "mce_count" c_int;
    fld "kabi_reserved1" u64;
    fld "kabi_reserved2" u64;
    fld "kabi_reserved3" u64;
    fld "kabi_reserved4" u64;
    fld "kabi_reserved5" u64;
    anon (cunion
    [ fld "tag" c_long;
      fld "kabi_hidden_1437" (cstruct
      [ fld "kabi_reserved6" u64 ]);
      anon (cunion []) ]);
    anon (cunion
    [ fld "pf_io_worker" (CPtr "void");
      fld "kabi_hidden_1441" (cstruct
      [ fld "kabi_reserved7" u64 ]);
      anon (cunion []) ]);
    anon (cunion
    [ fld "prefer_cpus" (CPtr "cpumask_t");
      fld "kabi_hidden_1443" (cstruct
      [ fld "kabi_reserved8" u64 ]);
      anon (cunion []) ]);
    anon (cunion
    [ fld "select_cpus" (CPtr "const cpumask_t");
      fld "kabi_hidden_1448" (cstruct
      [ fld "kabi_reserved9" u64 ]);
      anon (cunion []) ]);
    anon (cunion
    [ fld "sequential_io" c_uint;
      fld "kabi_hidden_1454" (cstruct
      [ fld "kabi_reserved10" u64 ]);
      anon (cunion []) ]);
    anon (cunion
    [ fld "sequential_io_avg" c_uint;
      fld "kabi_hidden_1455" (cstruct
      [ fld "kabi_reserved11" u64 ]);
      anon (cunion []) ]);
    fld "kabi_reserved12" u64;
    anon (cunion
    [ fld "memstall_type" c_int;
      fld "kabi_hidden_1471" (cstruct
      [ fld "kabi_reserved13" u64 ]);
      anon (cunion []) ]);
    fld "kabi_reserved14" u64;
    fld "kabi_reserved15" u64;
    fld "kabi_reserved16" u64;
    fld "task_struct_size_resvd" size_t;
    fld "_resvd" (CPtr "struct task_struct_resvd");
    pad c_long 64;
    pad c_long 64;
    pad c_long 64;
    fld "thread" struct_thread_struct ].

Definition struct_rw_semaphore : cty := cstruct
  [ fld "count" atomic_long_t;
    fld "owner" atomic_long_t;
    fld "osq" struct_optimistic_spin_queue;
    fld "wait_lock" raw_spinlock_t;
    fld "wait_list" struct_list_head ].

Definition struct_mm_rss_stat : cty := cstruct
  [ fld "count" (CArr 4 atomic_long_t) ].

Definition mm_context_t : cty := cstruct
  [ fld "ctx_id" u64;
    fld "tlb_gen" atomic64_t;
    fld "ldt_usr_sem" struct_rw_semaphore;
    fld "ldt" (CPtr "struct ldt_struct");
    fld "ia32_compat" c_ushort;
    fld "lock" struct_mutex;
    fld "vdso" (CPtr "void");
    fld "vdso_image" (CPtr "const struct vdso_image");
    fld "perf_rdpmc_allowed" atomic_t;
    fld "pkey_allocation_map" u16;
    fld "execute_only_pkey" s16 ].

Definition struct_uprobes_state : cty := cstruct
  [ fld "xol_area" (CPtr "struct xol_area") ].

Definition struct_mm_struct : cty := cstruct
  [ anon (cstruct
    [ fld "mmap" (CPtr "struct vm_area_struct");
      fld "mm_rb" struct_rb_root;
      fld "vmacache_seqnum" u64;
      fld "get_unmapped_area" (CPtr "long unsigned int (struct file *, long unsigned int, long unsigned int, long unsigned int, long unsigned int)");
      fld "mmap_base" c_ulong;
      fld "mmap_legacy_base" c_ulong;
      fld "mmap_compat_base" c_ulong;
      fld "mmap_compat_legacy_base" c_ulong;
      fld "task_size" c_ulong;
      fld "highest_vm_end" c_ulong;
      fld "pgd" (CPtr "pgd_t");
      fld "membarrier_state" atomic_t;
      fld "mm_users" atomic_t;
      fld "mm_count" atomic_t;
      fld "has_pinned" atomic_t;
      fld "pgtables_bytes" atomic_long_t;
      fld "map_count" c_int;
      fld "page_table_lock" spinlock_t;
      fld "mmap_lock" struct_rw_semaphore;
      fld "mmlist" struct_list_head;
      fld "hiwater_rss" c_ulong;
      fld "hiwater_vm" c_ulong;
      fld "total_vm" c_ulong;
      fld "locked_vm" c_ulong;
      fld "pinned_vm" atomic64_t;
      fld "data_vm" c_ulong;
      fld "exec_vm" c_ulong;
      fld "stack_vm" c_ulong;
      fld "def_flags" c_ulong;
      fld "write_protect_seq" seqcount_t;
      fld "arg_lock" spinlock_t;
      fld "start_code" c_ulong;
      fld "end_code" c_ulong;
      fld "start_data" c_ulong;
      fld "end_data" c_ulong;
      fld "start_brk" c_ulong;
      fld "brk" c_ulong;
      fld "start_stack" c_ulong;
      fld "arg_start" c_ulong;
      fld "arg_end" c_ulong;
      fld "env_start" c_ulong;
      fld "env_end" c_ulong;
      fld "kabi_reserved_saved_auxv" (CArr 46 c_ulong);
      fld "rss_stat" struct_mm_rss_stat;
      fld "binfmt" (CPtr "struct linux_binfmt");
      fld "context" mm_context_t;
      fld "flags" c_ulong;
      fld "core_state" (CPtr "struct core_state");
      fld "ioctx_lock" spinlock_t;
      fld "ioctx_table" (CPtr "struct kioctx_table");
      fld "owner" (CPtr "struct task_struct");
      fld "user_ns" (CPtr "struct user_namespace");
      fld "exe_file" (CPtr "struct file");
      fld "notifier_subscriptions" (CPtr "struct mmu_notifier_subscriptions");
      fld "numa_next_scan" c_ulong;
      fld "numa_scan_offset" c_ulong;
      fld "numa_scan_seq" c_int;
      fld "tlb_flush_pending" atomic_t;
      fld "tlb_flush_batched" bool_t;
      fld "uprobes_state" struct_uprobes_state;
      fld "hugetlb_usage" atomic_long_t;
      fld "async_put_work" struct_work_struct;
      fld "pasid" u32 ]);
    anon (cunion
    [ fld "mm_extend" (CPtr "struct mm_struct_extend");
      fld "kabi_hidden_622" (cstruct
      [ fld "kabi_reserved1" u64 ]);
      anon (cunion []) ]);
    anon (cunion
    [ fld "ksm_merging_pages" c_ulong;
      fld "kabi_hidden_633" (cstruct
      [ fld "kabi_reserved2" u64 ]);
      anon (cunion []) ]);
    anon (cunion
    [ fld "ksm_rmap_items" c_ulong;
      fld "kabi_hidden_638" (cstruct
      [ fld "kabi_reserved3" u64 ]);
      anon (cunion []) ]);
    anon (cunion
    [ fld "reliable_nr_page" atomic_long_t;
      fld "kabi_hidden_644" (cstruct
      [ fld "kabi_reserved4" u64 ]);
      anon (cunion []) ]);
    fld "kabi_reserved5" u64;
    fld "kabi_reserved6" u64;
    fld "kabi_reserved7" u64;
    fld "kabi_reserved8" u64;
    fld "kvm" (CPtr "struct kvm");
    fld "cpu_bitmap" (CArr 0 c_ulong) ].

Definition struct_cpu_itimer : cty := cstruct
  [ fld "expires" u64;
    fld "incr" u64 ].

Definition struct_task_cputime_atomic : cty := cstruct
  [ fld "utime" atomic64_t;
    fld "stime" atomic64_t;
    fld "sum_exec_runtime" atomic64_t ].

Definition struct_thread_group_cputimer : cty := cstruct
  [ fld "cputime_atomic" struct_task_cputime_atomic ].

Definition seqlock_t : cty := cstruct
  [ fld "seqcount" seqcount_spinlock_t;
    fld "lock" spinlock_t ].

Definition struct_rlimit : cty := cstruct
  [ fld "rlim_cur" __kernel_ulong_t;
    fld "rlim_max" __kernel_ulong_t ].

Definition struct_pacct_struct : cty := cstruct
  [ fld "ac_flag" c_int;
    fld "ac_exitcode" c_long;
    fld "ac_mem" c_ulong;
    fld "ac_utime" u64;
    fld "ac_stime" u64;
    fld "ac_minflt" c_ulong;
    fld "ac_majflt" c_ulong ].

Definition struct_signal_struct : cty := cstruct
  [ fld "sigcnt" refcount_t;
    fld "live" atomic_t;
    fld "nr_threads" c_int;
    fld "thread_head" struct_list_head;
    fld "wait_chldexit" wait_queue_head_t;
    fld "curr_target" (CPtr "struct task_struct");
    fld "shared_pending" struct_sigpending;
    fld "multiprocess" struct_hlist_head;
    fld "group_exit_code" c_int;
    fld "notify_count" c_int;
    fld "group_exit_task" (CPtr "struct task_struct");
    fld "group_stop_count" c_int;
    fld "flags" c_uint;
    bit "is_child_subreaper" c_uint 1;
    bit "has_child_subreaper" c_uint 1;
    fld "posix_timer_id" c_int;
    fld "posix_timers" struct_list_head;
    fld "real_timer" struct_hrtimer;
    fld "it_real_incr" ktime_t;
    fld "it" (CArr 2 struct_cpu_itimer);
    fld "cputimer" struct_thread_group_cputimer;
    fld "posix_cputimers" struct_posix_cputimers;
    fld "pids" (CArr 4 (CPtr "struct pid"));
    fld "tick_dep_mask" atomic_t;
    fld "tty_old_pgrp" (CPtr "struct pid");
    fld "leader" c_int;
    fld "tty" (CPtr "struct tty_struct");
    fld "autogroup" (CPtr "struct autogroup");
    fld "stats_lock" seqlock_t;
    fld "utime" u64;
    fld "stime" u64;
    fld "cutime" u64;
    fld "cstime" u64;
    fld "gtime" u64;
    fld "cgtime" u64;
    fld "prev_cputime" struct_prev_cputime;
    fld "nvcsw" c_ulong;
    fld "nivcsw" c_ulong;
    fld "cnvcsw" c_ulong;
    fld "cnivcsw" c_ulong;
    fld "min_flt" c_ulong;
    fld "maj_flt" c_ulong;
    fld "cmin_flt" c_ulong;
    fld "cmaj_flt" c_ulong;
    fld "inblock" c_ulong;
    fld "oublock" c_ulong;
    fld "cinblock" c_ulong;
    fld "coublock" c_ulong;
    fld "maxrss" c_ulong;
    fld "cmaxrss" c_ulong;
    fld "ioac" struct_task_io_accounting;
    fld "sum_sched_runtime" c_ullong;
    fld "rlim" (CArr 16 struct_rlimit);
    fld "pacct" struct_pacct_struct;
    fld "stats" (CPtr "struct taskstats");
    fld "audit_tty" c_uint;
    fld "tty_audit_buf" (CPtr "struct tty_audit_buf");
    fld "oom_flag_origin" bool_t;
    fld "oom_score_adj" c_short;
    fld "oom_score_adj_min" c_short;
    fld "oom_mm" (CPtr "struct mm_struct");
    fld "cred_guard_mutex" struct_mutex;
    fld "exec_update_lock" struct_rw_semaphore;
    fld "kabi_reserved1" u64;
    fld "kabi_reserved2" u64;
    fld "kabi_reserved3" u64;
    fld "kabi_reserved4" u64 ].

(** Every type of this file, by name. *)
Definition all_types : list (string * cty) :=
  [ ("struct_bpf_map_memory", struct_bpf_map_memory);
    ("struct_callback_head", struct_callback_head);
    ("struct_bpf_map", struct_bpf_map);
    ("enum_bpf_prog_type", enum_bpf_prog_type);
    ("enum_bpf_attach_type", enum_bpf_attach_type);
    ("struct_sock_filter", struct_sock_filter);
    ("__s32", __s32);
    ("struct_bpf_insn", struct_bpf_insn);
    ("struct_bpf_prog", struct_bpf_prog);
    ("struct_thread_info", struct_thread_info);
    ("struct___call_single_node", struct___call_single_node);
    ("struct_load_weight", struct_load_weight);
    ("struct_sched_statistics", struct_sched_statistics);
    ("struct_util_est", struct_util_est);
    ("struct_sched_avg", struct_sched_avg);
    ("struct_sched_entity", struct_sched_entity);
    ("struct_sched_rt_entity", struct_sched_rt_entity);
    ("struct_sched_dl_entity", struct_sched_dl_entity);
    ("struct_cpumask", struct_cpumask);
    ("cpumask_t", cpumask_t);
    ("union_rcu_special", union_rcu_special);
    ("struct_sched_info", struct_sched_info);
    ("struct_plist_node", struct_plist_node);
    ("struct_vmacache", struct_vmacache);
    ("struct_task_rss_stat", struct_task_rss_stat);
    ("__kernel_clockid_t", __kernel_clockid_t);
    ("clockid_t", clockid_t);
    ("enum_timespec_type", enum_timespec_type);
    ("struct_restart_block", struct_restart_block);
    ("__kernel_pid_t", __kernel_pid_t);
    ("pid_t", pid_t);
    ("struct_prev_cputime", struct_prev_cputime);
    ("struct_seqcount", struct_seqcount);
    ("seqcount_t", seqcount_t);
    ("enum_vtime_state", enum_vtime_state);
    ("struct_vtime", struct_vtime);
    ("struct_rb_root", struct_rb_root);
    ("struct_rb_root_cached", struct_rb_root_cached);
    ("struct_timerqueue_head", struct_timerqueue_head);
    ("struct_posix_cputimer_base", struct_posix_cputimer_base);
    ("struct_posix_cputimers", struct_posix_cputimers);
    ("struct_posix_cputimers_work", struct_posix_cputimers_work);
    ("struct_sysv_sem", struct_sysv_sem);
    ("struct_sysv_shm", struct_sysv_shm);
    ("sigset_t", sigset_t);
    ("struct_sigpending", struct_sigpending);
    ("__kernel_uid32_t", __kernel_uid32_t);
    ("uid_t", uid_t);
    ("kuid_t", kuid_t);
    ("struct_seccomp", struct_seccomp);
    ("struct_wake_q_node", struct_wake_q_node);
    ("struct_task_io_accounting", struct_task_io_accounting);
    ("nodemask_t", nodemask_t);
    ("struct_seqcount_spinlock", struct_seqcount_spinlock);
    ("seqcount_spinlock_t", seqcount_spinlock_t);
    ("struct_arch_tlbflush_unmap_batch", struct_arch_tlbflush_unmap_batch);
    ("struct_tlbflush_unmap_batch", struct_tlbflush_unmap_batch);
    ("struct_page_frag", struct_page_frag);
    ("gfp_t", gfp_t);
    ("struct_desc_struct", struct_desc_struct);
    ("struct_fpu_state_perm", struct_fpu_state_perm);
    ("struct_fregs_state", struct_fregs_state);
    ("struct_fxregs_state", struct_fxregs_state);
    ("struct_swregs_state", struct_swregs_state);
    ("struct_xstate_header", struct_xstate_header);
    ("struct_xregs_state", struct_xregs_state);
    ("union_fpregs_state", union_fpregs_state);
    ("struct_fpstate", struct_fpstate);
    ("struct_fpu", struct_fpu);
    ("struct_thread_struct", struct_thread_struct);
    ("struct_task_struct", struct_task_struct);
    ("struct_rw_semaphore", struct_rw_semaphore);
    ("struct_mm_rss_stat", struct_mm_rss_stat);
    ("mm_context_t", mm_context_t);
    ("struct_uprobes_state", struct_uprobes_state);
    ("struct_mm_struct", struct_mm_struct);
    ("struct_cpu_itimer", struct_cpu_itimer);
    ("struct_task_cputime_atomic", struct_task_cputime_atomic);
    ("struct_thread_group_cputimer", struct_thread_group_cputimer);
    ("seqlock_t", seqlock_t);
    ("struct_rlimit", struct_rlimit);
    ("struct_pacct_struct", struct_pacct_struct);
    ("struct_signal_struct", struct_signal_struct) ].
