(* ===== verification/Mem.v ===== *)
(** * Typed access to bytes

    Objects in memory are lists of bytes on a little-endian target.  [load_bits] and [store_bits]
    read and write a bit range of such an object, [get_field] and [set_field] the range a member
    access path of a C type denotes ([CType.resolve]).  An access outside the object has no value:
    that is the fault the verifier and the bounds checks of the programs must exclude.  The lens
    laws say that a store is read back by the same path and leaves every disjoint path alone. *)

From S2P Require Import Prelude CType.

Create HintDb mem.

Definition in_range (off w : Z) (bs : list byte) : bool :=
  (0 <=? off) && (0 <=? w) && (off + w <=? 8 * len bs).

Definition load_bits (off w : Z) (bs : list byte) : option Z :=
  if in_range off w bs then Some (Z.shiftr (le_combine bs) off mod 2 ^ w) else None.

Definition store_bits (off w v : Z) (bs : list byte) : option (list byte) :=
  if in_range off w bs then
    let mask := Z.shiftl (Z.ones w) off in
    Some (le_split (length bs)
            (Z.lor (Z.ldiff (le_combine bs) mask) (Z.shiftl (v mod 2 ^ w) off)))
  else None.

(** The value of a [w]-bit pattern read at type [t]. *)
Definition int_value (t : cty) (w z : Z) : Z :=
  match t with CInt _ true => signed w z | _ => z end.

Definition get_field (t : cty) (p : list step) (bs : list byte) : option Z :=
  r ← resolve t p; z ← load_bits (p_off r) (p_width r) bs;
  Some (int_value (p_ty r) (p_width r) z).

Definition set_field (t : cty) (p : list step) (v : Z) (bs : list byte) : option (list byte) :=
  r ← resolve t p; store_bits (p_off r) (p_width r) v bs.

(** Raw copies to and from an object ([__builtin_memcpy], struct assignment). *)
Definition get_bytes (t : cty) (p : list step) (bs : list byte) : option (list byte) :=
  r ← resolve t p;
  if in_range (p_off r) (p_width r) bs
  then Some (sub_bytes (p_off r / 8) (p_width r / 8) bs) else None.

Definition splice (off : Z) (src bs : list byte) : list byte :=
  take (Z.to_nat off) bs ++ src ++ drop (Z.to_nat (off + len src)) bs.

Definition set_bytes (t : cty) (p : list step) (src bs : list byte) : option (list byte) :=
  r ← resolve t p;
  if in_range (p_off r) (8 * len src) bs then Some (splice (p_off r / 8) src bs) else None.

(** A region of memory: consecutive bytes from an address. *)
Record region := Region { rg_base : Z; rg_bytes : list byte }.

Definition rg_end (rg : region) : Z := rg_base rg + len (rg_bytes rg).

(** [((t * )addr)->p] as an rvalue, and as the source of a struct copy. *)
Definition load_at (rg : region) (addr : Z) (t : cty) (p : list step) : option Z :=
  r ← resolve t p;
  z ← load_bits (8 * (addr - rg_base rg) + p_off r) (p_width r) (rg_bytes rg);
  Some (int_value (p_ty r) (p_width r) z).

Definition copy_at (rg : region) (addr : Z) (t : cty) (p : list step) : option (list byte) :=
  r ← resolve t p;
  if in_range (8 * (addr - rg_base rg) + p_off r) (p_width r) (rg_bytes rg)
  then Some (sub_bytes (addr - rg_base rg + p_off r / 8) (p_width r / 8) (rg_bytes rg)) else None.

(** ** Bit ranges *)

Lemma in_range_spec off w bs :
  in_range off w bs = true <-> 0 <= off /\ 0 <= w /\ off + w <= 8 * len bs.
Proof. unfold in_range. rewrite !andb_true_iff, !Z.leb_le. tauto. Qed.

Lemma store_bits_length off w v bs bs' :
  store_bits off w v bs = Some bs' -> length bs' = length bs.
Proof.
  unfold store_bits. case_match; [|done]. intros [= <-]. apply length_le_split.
Qed.

Lemma le_combine_testbit_high bs i : 8 * len bs <= i -> Z.testbit (le_combine bs) i = false.
Proof.
  intros Hi. pose proof (le_combine_bound bs) as Hb.
  destruct (decide (le_combine bs = 0)) as [->|]; [apply Z.testbit_0_l|].
  apply Z.bits_above_log2; [lia|]. apply Z.log2_lt_pow2; [lia|].
  eapply Z.lt_le_trans; [apply Hb|]. apply Z.pow_le_mono_r; lia.
Qed.

(** The stored object, bit by bit. *)
Lemma store_bits_testbit off w v bs bs' i :
  store_bits off w v bs = Some bs' -> 0 <= i ->
  Z.testbit (le_combine bs') i =
    if (off <=? i) && (i <? off + w) then Z.testbit v (i - off) else Z.testbit (le_combine bs) i.
Proof.
  unfold store_bits. destruct (in_range off w bs) eqn:Hr; [|done]. intros [= <-] Hi.
  apply in_range_spec in Hr as (Ho & Hw & Hb).
  rewrite le_combine_split.
  destruct (Z.lt_ge_cases i (Z.of_nat (length bs) * 8)).
  - rewrite Z.mod_pow2_bits_low, Z.lor_spec, Z.ldiff_spec, !Z.shiftl_spec by lia.
    destruct (Z.leb_spec off i); cbn [andb].
    + rewrite Z.testbit_ones_nonneg by lia. rewrite Z.testbit_mod_pow2 by lia.
      destruct (Z.ltb_spec (i - off) w), (Z.ltb_spec i (off + w)); try lia; cbn.
      * by rewrite andb_false_r.
      * by rewrite andb_true_r, orb_false_r.
    + rewrite !(Z.testbit_neg_r _ (i - off)) by lia. by rewrite andb_true_r, orb_false_r.
  - rewrite Z.mod_pow2_bits_high by lia.
    destruct (Z.leb_spec off i), (Z.ltb_spec i (off + w)); cbn; try lia;
      symmetry; apply le_combine_testbit_high; lia.
Qed.

Lemma load_store_same off w v bs bs' :
  store_bits off w v bs = Some bs' -> load_bits off w bs' = Some (v mod 2 ^ w).
Proof.
  intros Hs. pose proof (store_bits_length _ _ _ _ _ Hs) as Hl. unfold load_bits.
  assert (Hr : in_range off w bs' = true).
  { unfold store_bits in Hs. unfold in_range in *. rewrite Hl. by case_match. }
  rewrite Hr. apply in_range_spec in Hr as (Ho & Hw & _). f_equal.
  apply Z.bits_inj'. intros i Hi. rewrite !Z.testbit_mod_pow2 by lia.
  destruct (Z.ltb_spec i w); [cbn|done]. rewrite Z.shiftr_spec by lia.
  rewrite (store_bits_testbit _ _ _ _ _ _ Hs) by lia.
  destruct (Z.leb_spec off (i + off)), (Z.ltb_spec (i + off) (off + w)); try lia. cbn.
  f_equal. lia.
Qed.

Lemma load_store_other off w v off' w' bs bs' :
  store_bits off w v bs = Some bs' -> off + w <= off' \/ off' + w' <= off ->
  load_bits off' w' bs' = load_bits off' w' bs.
Proof.
  intros Hs Hd. pose proof (store_bits_length _ _ _ _ _ Hs) as Hl. unfold load_bits.
  unfold in_range at 1. rewrite Hl. fold (in_range off' w' bs).
  destruct (in_range off' w' bs) eqn:Hr; [|done]. apply in_range_spec in Hr as (Ho & Hw & _).
  f_equal. apply Z.bits_inj'. intros i Hi. rewrite !Z.testbit_mod_pow2 by lia.
  destruct (Z.ltb_spec i w'); [cbn|done]. rewrite !Z.shiftr_spec by lia.
  rewrite (store_bits_testbit _ _ _ _ _ _ Hs) by lia.
  destruct (Z.leb_spec off (i + off')), (Z.ltb_spec (i + off') (off + w)); cbn; try done. lia.
Qed.

Lemma store_bits_total off w v bs :
  in_range off w bs = true -> exists bs', store_bits off w v bs = Some bs'.
Proof. intros H. unfold store_bits. rewrite H. eauto. Qed.

(** ** Byte ranges *)

Lemma in_range_bytes k n bs :
  0 <= k -> 0 <= n -> k + n <= len bs -> in_range (8 * k) (8 * n) bs = true.
Proof. intros. apply in_range_spec. lia. Qed.

Lemma load_bits_bytes k n bs :
  0 <= k -> 0 <= n -> k + n <= len bs ->
  load_bits (8 * k) (8 * n) bs = Some (le_combine (sub_bytes k n bs)).
Proof.
  intros. unfold load_bits. rewrite in_range_bytes by done. by rewrite le_combine_sub_bytes.
Qed.

Lemma length_splice off src bs :
  0 <= off -> off + len src <= len bs -> length (splice off src bs) = length bs.
Proof. intros. unfold splice. rewrite !length_app, length_take, length_drop. lia. Qed.

Lemma le_combine_app_testbit l1 l2 i :
  Z.testbit (le_combine (l1 ++ l2)) i =
    if i <? 8 * len l1 then Z.testbit (le_combine l1) i
    else Z.testbit (le_combine l2) (i - 8 * len l1).
Proof.
  destruct (Z.lt_ge_cases i 0).
  { rewrite !(Z.testbit_neg_r _ i) by lia. destruct (Z.ltb_spec i (8 * len l1)); [done|lia]. }
  rewrite le_combine_app, Z.lor_spec, Z.shiftl_spec by lia.
  rewrite (Z.mul_comm (len l1)).
  destruct (Z.ltb_spec i (8 * len l1)).
  - rewrite (Z.testbit_neg_r (le_combine l2)) by lia. apply orb_false_r.
  - by rewrite (le_combine_testbit_high l1) by lia.
Qed.

(** Storing whole bytes replaces those bytes. *)
Lemma store_bits_bytes k n v bs :
  0 <= k -> 0 <= n -> k + n <= len bs ->
  store_bits (8 * k) (8 * n) v bs = Some (splice k (le_split (Z.to_nat n) v) bs).
Proof.
  intros Hk Hn Hkn.
  destruct (store_bits_total (8 * k) (8 * n) v bs) as [bs' Hs]; [by apply in_range_bytes|].
  rewrite Hs. f_equal. pose proof (store_bits_length _ _ _ _ _ Hs) as Hl.
  assert (len (le_split (Z.to_nat n) v) = n) as Hsp by (rewrite length_le_split; lia).
  apply le_combine_inj; [rewrite length_splice; lia|].
  apply Z.bits_inj'. intros i Hi. rewrite (store_bits_testbit _ _ _ _ _ _ Hs Hi).
  unfold splice. rewrite !le_combine_app_testbit.
  rewrite length_take, Hsp. replace (Z.of_nat (Z.to_nat k `min` length bs)) with k by lia.
  rewrite le_combine_firstn, le_combine_drop, le_combine_split.
  rewrite !Z2Nat.id by lia.
  destruct (Z.leb_spec (8 * k) i), (Z.ltb_spec i (8 * k)), (Z.ltb_spec i (8 * k + 8 * n));
    cbn; try lia.
  - destruct (Z.ltb_spec (i - 8 * k) (8 * n)); [|lia]. by rewrite Z.mod_pow2_bits_low by lia.
  - destruct (Z.ltb_spec (i - 8 * k) (8 * n)); [lia|]. rewrite Z.shiftr_spec by lia. f_equal. lia.
  - by rewrite Z.mod_pow2_bits_low by lia.
Qed.

(** ** Lens laws of the typed accesses *)

Lemma set_field_length t p v bs bs' : set_field t p v bs = Some bs' -> length bs' = length bs.
Proof.
  unfold set_field. destruct (resolve t p); cbn; [|done]. apply store_bits_length.
Qed.

(** An access path that resolves is never out of range in an object of the type. *)
Lemma resolve_in_range t p r bs :
  wf t = true -> resolve t p = Some r -> len bs = sizeof t ->
  in_range (p_off r) (p_width r) bs = true.
Proof.
  intros Hwf Hr Hl. apply in_range_spec. rewrite Hl. by apply resolve_bounds with (p := p).
Qed.

Lemma set_field_total t p r v bs :
  wf t = true -> resolve t p = Some r -> len bs = sizeof t ->
  exists bs', set_field t p v bs = Some bs'.
Proof.
  intros Hwf Hr Hl. unfold set_field. rewrite Hr. cbn.
  apply store_bits_total. by eapply resolve_in_range.
Qed.

Lemma get_set_same t p r v bs bs' :
  resolve t p = Some r -> set_field t p v bs = Some bs' ->
  get_field t p bs' = Some (int_value (p_ty r) (p_width r) (v mod 2 ^ p_width r)).
Proof.
  unfold set_field, get_field. intros ->. cbn. intros Hs. by rewrite (load_store_same _ _ _ _ _ Hs).
Qed.

Lemma get_set_other t p q r1 r2 v bs bs' :
  resolve t p = Some r1 -> resolve t q = Some r2 ->
  p_off r1 + p_width r1 <= p_off r2 \/ p_off r2 + p_width r2 <= p_off r1 ->
  set_field t p v bs = Some bs' -> get_field t q bs' = get_field t q bs.
Proof.
  unfold set_field, get_field. intros -> -> Hd. cbn. intros Hs.
  by rewrite (load_store_other _ _ _ _ _ _ _ Hs Hd).
Qed.

(** ** Reading a region *)

Lemma load_at_bytes rg addr t p r :
  resolve t p = Some r -> p_bitfield r = false ->
  forall k n, p_off r = 8 * k -> p_width r = 8 * n -> 0 <= n ->
  rg_base rg <= addr + k -> addr + k + n <= rg_end rg ->
  load_at rg addr t p =
    Some (int_value (p_ty r) (8 * n) (le_combine (sub_bytes (addr + k - rg_base rg) n (rg_bytes rg)))).
Proof.
  intros Hr _ k n Hk Hn Hn0 Hlo Hhi. unfold load_at, rg_end in *. rewrite Hr. cbn. rewrite Hk, Hn.
  replace (8 * (addr - rg_base rg) + 8 * k) with (8 * (addr + k - rg_base rg)) by lia.
  rewrite load_bits_bytes by lia. done.
Qed.

(** A load succeeds exactly when the bits it touches are in the region. *)
Lemma load_at_total rg addr t p r :
  wf t = true -> resolve t p = Some r ->
  rg_base rg <= addr -> addr + sizeof t <= rg_end rg ->
  exists z, load_at rg addr t p = Some z.
Proof.
  intros Hwf Hr Hlo Hhi. unfold load_at, load_bits, rg_end in *. rewrite Hr. cbn.
  pose proof (resolve_bounds _ _ _ Hwf Hr).
  replace (in_range _ _ _) with true; [cbn; eauto|].
  symmetry. apply in_range_spec. lia.
Qed.

Lemma copy_at_total rg addr t p r :
  wf t = true -> resolve t p = Some r ->
  rg_base rg <= addr -> addr + sizeof t <= rg_end rg ->
  exists bs, copy_at rg addr t p = Some bs.
Proof.
  intros Hwf Hr Hlo Hhi. unfold copy_at, rg_end in *. rewrite Hr. cbn.
  pose proof (resolve_bounds _ _ _ Hwf Hr).
  replace (in_range _ _ _) with true; [eauto|].
  symmetry. apply in_range_spec. lia.
Qed.

(** The common case of both: an unsigned member of whole bytes, [n] of them at byte [k]. *)
Lemma load_at_unsigned a bs addr t p o s k n :
  addr = a + o -> resolve t p = Some (PlaceOf (8 * k) (8 * n) false (CInt s false)) ->
  0 <= k -> 0 <= n -> 0 <= o -> o + k + n <= len bs ->
  load_at (Region a bs) addr t p = Some (le_combine (sub_bytes (o + k) n bs)).
Proof.
  intros -> Hr ????. unfold load_at. rewrite Hr. cbn.
  replace (8 * (a + o - a) + 8 * k) with (8 * (o + k)) by lia.
  by rewrite load_bits_bytes by lia.
Qed.

(** A bit-field of the low [w] bits of byte [k]. *)
Lemma load_at_bitfield a bs addr t p o s k w :
  addr = a + o -> resolve t p = Some (PlaceOf (8 * k) w true (CInt s false)) ->
  0 <= k -> 0 <= w <= 8 -> 0 <= o -> o + k + 1 <= len bs ->
  load_at (Region a bs) addr t p = Some (le_combine (sub_bytes (o + k) 1 bs) mod 2 ^ w).
Proof.
  intros -> Hr ????. unfold load_at, load_bits. rewrite Hr. cbn.
  replace (8 * (a + o - a) + 8 * k) with (8 * (o + k)) by lia.
  assert (in_range (8 * (o + k)) w bs = true) as -> by (apply in_range_spec; lia).
  rewrite le_combine_sub_bytes by lia. cbn. f_equal.
  apply Z.bits_inj'. intros i Hi. rewrite !Z.testbit_mod_pow2 by lia.
  destruct (Z.ltb_spec i w); [cbn|done]. destruct (Z.ltb_spec i (8 * 1)); [done|lia].
Qed.

(** The object that fills a region. *)
Lemma load_at_object a bs t p : load_at (Region a bs) a t p = get_field t p bs.
Proof.
  unfold load_at, get_field. destruct (resolve t p); [|done]. cbn. by rewrite Z.sub_diag.
Qed.

Lemma copy_at_bytes a bs addr t p o k n ty :
  addr = a + o -> resolve t p = Some (PlaceOf (8 * k) (8 * n) false ty) ->
  0 <= k -> 0 <= n -> 0 <= o -> o + k + n <= len bs ->
  copy_at (Region a bs) addr t p = Some (sub_bytes (o + k) n bs).
Proof.
  intros -> Hr ????. unfold copy_at. rewrite Hr. cbn.
  replace (8 * (a + o - a) + 8 * k) with (8 * (o + k)) by lia.
  rewrite in_range_bytes by lia. do 2 f_equal; rewrite Z.mul_comm, Z.div_mul by lia; lia.
Qed.

Lemma get_field_total t p r bs :
  wf t = true -> resolve t p = Some r -> len bs = sizeof t -> is_Some (get_field t p bs).
Proof.
  intros Hwf Hr Hl. unfold get_field, load_bits. rewrite Hr. cbn.
  rewrite (resolve_in_range _ _ _ _ Hwf Hr Hl). cbn. eauto.
Qed.

Lemma get_field_bytes t p bs s k n :
  resolve t p = Some (PlaceOf (8 * k) (8 * n) false (CInt s false)) ->
  0 <= k -> 0 <= n -> k + n <= len bs ->
  get_field t p bs = Some (le_combine (sub_bytes k n bs)).
Proof. intros Hr ???. unfold get_field. rewrite Hr. cbn. by rewrite load_bits_bytes. Qed.

Lemma get_int_field t p bs k n :
  resolve t p = Some (PlaceOf (8 * k) (8 * n) false (CInt n true)) ->
  0 <= k -> 0 <= n -> k + n <= len bs ->
  get_field t p bs = Some (signed (8 * n) (le_combine (sub_bytes k n bs))).
Proof. intros Hr ???. unfold get_field. rewrite Hr. cbn. by rewrite load_bits_bytes. Qed.

Lemma get_bytes_sub t p bs ty k n :
  resolve t p = Some (PlaceOf (8 * k) (8 * n) false ty) ->
  0 <= k -> 0 <= n -> k + n <= len bs -> get_bytes t p bs = Some (sub_bytes k n bs).
Proof.
  intros Hr ???. unfold get_bytes. rewrite Hr. cbn. rewrite in_range_bytes by lia.
  by rewrite !(Z.mul_comm 8), !Z.div_mul by lia.
Qed.

Lemma set_field_bytes t p v bs ty k n :
  resolve t p = Some (PlaceOf (8 * k) (8 * n) false ty) ->
  0 <= k -> 0 <= n -> k + n <= len bs ->
  set_field t p v bs = Some (splice k (le_split (Z.to_nat n) v) bs).
Proof. intros Hr ???. unfold set_field. rewrite Hr. cbn. by rewrite store_bits_bytes. Qed.

Lemma set_bytes_splice t p src bs ty k n :
  resolve t p = Some (PlaceOf (8 * k) n false ty) ->
  0 <= k -> k + len src <= len bs -> set_bytes t p src bs = Some (splice k src bs).
Proof.
  intros Hr ??. unfold set_bytes. rewrite Hr. cbn. rewrite in_range_bytes by lia.
  by rewrite Z.mul_comm, Z.div_mul by lia.
Qed.

(** Reading a whole unsigned integer object. *)
Lemma get_field_uint s v :
  0 <= s -> len v = s -> get_field (CInt s false) [] v = Some (le_combine (take (Z.to_nat s) v)).
Proof.
  intros Hs Hl. unfold get_field. cbn.
  change 0 with (8 * 0). rewrite load_bits_bytes by lia. cbn.
  unfold sub_bytes. by rewrite drop_0.
Qed.

(** Replacing bytes of one part of a concatenation. *)
Lemma splice_app_r k src pre l :
  len pre <= k -> splice k src (pre ++ l) = pre ++ splice (k - len pre) src l.
Proof.
  intros Hk. unfold splice. rewrite take_app_ge, drop_app_ge by lia.
  rewrite <- (assoc_L (++)).
  replace (Z.to_nat k - length pre)%nat with (Z.to_nat (k - len pre)) by lia.
  by replace (Z.to_nat (k + len src) - length pre)%nat
    with (Z.to_nat (k - len pre + len src)) by lia.
Qed.

Lemma splice_app_0 src l post :
  (length src <= length l)%nat ->
  splice 0 src (l ++ post) = (src ++ drop (length src) l) ++ post.
Proof.
  intros Hl. unfold splice. rewrite take_0, Z.add_0_l, Nat2Z.id, drop_app_le by lia.
  by rewrite <- (assoc_L (++)).
Qed.

Lemma splice_0 src l :
  (length src <= length l)%nat -> splice 0 src l = src ++ drop (length src) l.
Proof. intros. unfold splice. by rewrite take_0, Z.add_0_l, Nat2Z.id. Qed.

(** ** Objects as concatenations of parts

    An object whose members are byte ranges is the concatenation of their bytes: storing to a
    member replaces its part, loading returns it. *)

Definition sized (sizes : list nat) (parts : list (list byte)) : Prop := length <$> parts = sizes.

Fixpoint cut (sizes : list nat) (bs : list byte) : list (list byte) :=
  match sizes with
  | [] => []
  | n :: sizes => take n bs :: cut sizes (drop n bs)
  end.

Lemma cut_spec sizes bs :
  length bs = sum_list sizes -> sized sizes (cut sizes bs) /\ concat (cut sizes bs) = bs.
Proof.
  revert bs. induction sizes as [|n sizes IH]; intros bs Hl; cbn in *.
  { by destruct bs. }
  destruct (IH (drop n bs)) as [Hs Hc]; [rewrite length_drop; lia|]. split.
  - unfold sized in *. cbn. rewrite Hs, length_take. f_equal. lia.
  - rewrite Hc. apply take_drop.
Qed.

Lemma sized_length sizes parts : sized sizes parts -> length (concat parts) = sum_list sizes.
Proof.
  intros <-. induction parts as [|p parts IH]; [done|]. cbn. by rewrite length_app, IH.
Qed.

Lemma sized_insert sizes parts i new :
  sized sizes parts -> sizes !! i = Some (length new) -> sized sizes (<[i := new]> parts).
Proof.
  unfold sized. intros Hp Hi. rewrite list_fmap_insert, Hp. by apply list_insert_id.
Qed.

Lemma sized_split sizes parts i old :
  sized sizes parts -> parts !! i = Some old ->
  concat parts = concat (take i parts) ++ old ++ concat (drop (S i) parts) /\
  length (concat (take i parts)) = sum_list (take i sizes) /\ sizes !! i = Some (length old).
Proof.
  intros Hp Hi. split; [|split].
  - rewrite <- (take_drop_middle parts i old Hi) at 1. by rewrite concat_app.
  - apply sized_length. unfold sized in *. by rewrite fmap_take, Hp.
  - unfold sized in Hp. by rewrite <- Hp, list_lookup_fmap, Hi.
Qed.

Lemma splice_concat sizes parts i old src k :
  sized sizes parts -> parts !! i = Some old -> (length src <= length old)%nat ->
  k = Z.of_nat (sum_list (take i sizes)) ->
  splice k src (concat parts) = concat (<[i := src ++ drop (length src) old]> parts).
Proof.
  intros Hp Hi Hl ->. destruct (sized_split _ _ _ _ Hp Hi) as (-> & Hn & _).
  rewrite splice_app_r, Hn, Z.sub_diag, splice_app_0 by lia.
  rewrite insert_take_drop by (by eapply lookup_lt_Some). by rewrite concat_app.
Qed.

Lemma sub_bytes_concat sizes parts i part k n :
  sized sizes parts -> parts !! i = Some part ->
  k = Z.of_nat (sum_list (take i sizes)) -> n = len part ->
  sub_bytes k n (concat parts) = part.
Proof.
  intros Hp Hi -> ->. destruct (sized_split _ _ _ _ Hp Hi) as (-> & Hn & _).
  rewrite sub_bytes_app_r, Hn, Z.sub_diag by lia. by apply sub_bytes_app_0.
Qed.

(** Storing to, and copying from, the member that occupies the part [i]. *)
Section Parts.
Context (t : cty) (p : list step) (sizes : list nat) (parts : list (list byte)) (i : nat).
Context (old : list byte) (SIZED : sized sizes parts) (PART : parts !! i = Some old).
Context (ty : cty) (k n : Z).
Context (PLACE : resolve t p = Some (PlaceOf (8 * k) (8 * n) false ty)).
Context (AT : k = Z.of_nat (sum_list (take i sizes))).

Lemma part_end : k + len old <= len (concat parts).
Proof.
  destruct (sized_split _ _ _ _ SIZED PART) as (-> & Hn & _). rewrite !length_app. lia.
Qed.

Lemma set_field_part v :
  0 <= n <= len old ->
  set_field t p v (concat parts) =
    Some (concat (<[i := le_split (Z.to_nat n) v ++ drop (Z.to_nat n) old]> parts)).
Proof.
  intros Hn. pose proof part_end.
  rewrite (set_field_bytes _ _ _ _ _ k n) by (done || lia).
  erewrite splice_concat; [|done..|rewrite length_le_split; lia|done].
  by rewrite length_le_split.
Qed.

Lemma set_bytes_part src :
  length src = length old ->
  set_bytes t p src (concat parts) = Some (concat (<[i := src]> parts)).
Proof.
  intros Hs. pose proof part_end.
  erewrite set_bytes_splice; [|done|lia|lia].
  erewrite splice_concat; [|done..|lia|done]. by rewrite Hs, drop_all, app_nil_r.
Qed.

Lemma get_bytes_part : n = len old -> get_bytes t p (concat parts) = Some old.
Proof.
  intros Hn. pose proof part_end. rewrite (get_bytes_sub _ _ _ _ k n) by (done || lia).
  f_equal. by eapply sub_bytes_concat.
Qed.
End Parts.
