(* ===== verification/Bpf.v ===== *)
(** * The environment of an eBPF program

    A program run is a value of [prog A]: the helper calls with an effect, in order, and the
    result, absent when the run faults (an access outside the packet, a use of an uninitialised
    variable, a loop that exceeds its bound).  The helpers themselves are not part of the
    repository: BPF maps and byte-order conversions are type classes whose laws state their
    documented behaviour; instances that satisfy the laws are given at the end. *)

From S2P Require Import Prelude CType Mem.

(** ** Programs *)

(** An argument of [bpf_printk]: an integer, an indeterminate value (an uninitialised variable),
    a string, or a pointer, shown as the bytes it points to. *)
Inductive arg := AInt (z : Z) | AUndef | AStr (s : string) | APtr (pointee : list byte).

Inductive event :=
| Printk (fmt : string) (args : list arg)
| CloneRedirect (ifindex flags : Z)
| RingSubmit (sample : list byte) (flags : Z).

Definition prog (A : Type) : Type := list event * option A.

#[export] Instance prog_ret : MRet prog := fun A a => ([], Some a).
#[export] Instance prog_bind : MBind prog := fun A B f m =>
  match m with
  | (es, Some a) => let '(es', r) := f a in (es ++ es', r)
  | (es, None) => (es, None)
  end.

Definition fault {A} : prog A := ([], None).
Definition emit (e : event) : prog () := ([e], Some ()).
Definition lift {A} (o : option A) : prog A := ([], o).
Definition when (b : bool) (m : prog ()) : prog () := if b then m else mret ().

Definition bpf_printk (fmt : string) (args : list arg) : prog () := emit (Printk fmt args).
Definition bpf_clone_redirect (ifindex flags : Z) : prog () := emit (CloneRedirect ifindex flags).

(** The newline and the tab of C string literals. *)
Definition nl : string := String (Ascii.ascii_of_nat 10) EmptyString.
Definition tab : string := String (Ascii.ascii_of_nat 9) EmptyString.

(** [for (int i = from; i < bound; i += step) body], with the number of tests as fuel. *)
Fixpoint for_lt (fuel : nat) (i bound stp : Z) (body : Z -> prog ()) : prog () :=
  match fuel with
  | O => fault
  | S fuel => if i <? bound then body i ;; for_lt fuel (i + stp) bound stp body else mret ()
  end.

(** [forM_ l f]: the calls of a straight-line sequence, one per element. *)
Fixpoint forM_ {A} (l : list A) (f : A -> prog ()) : prog () :=
  match l with
  | [] => mret ()
  | x :: l => f x ;; forM_ l f
  end.

(** The result of a run and what it did. *)
Definition result {A} (m : prog A) : option A := m.2.
Definition events {A} (m : prog A) : list event := m.1.

(** The packets cloned to an interface, with their flags. *)
Definition clones (es : list event) : list (Z * Z) :=
  omap (fun e => match e with CloneRedirect i f => Some (i, f) | _ => None end) es.

(** ** Byte order ([bpf_endian.h])

    The conversions exchange the little-endian representation of the host with the network's. *)

Class bpf_endian := BpfEndian
  { bpf_htons : Z -> Z;
    bpf_ntohs : Z -> Z;
    bpf_ntohl : Z -> Z;
    bpf_htons_spec x : 0 <= bpf_htons x < 2 ^ 16 /\ le_split 2 (bpf_htons x) = reverse (le_split 2 x);
    bpf_ntohs_spec x : 0 <= bpf_ntohs x < 2 ^ 16 /\ le_split 2 (bpf_ntohs x) = reverse (le_split 2 x);
    bpf_ntohl_spec x : 0 <= bpf_ntohl x < 2 ^ 32 /\ le_split 4 (bpf_ntohl x) = reverse (le_split 4 x) }.

(** ** Maps *)

(** A map definition in the [.maps] section. *)
Record map_def := MapDef
  { md_type : string; md_max_entries : Z; md_key : cty; md_value : cty }.

(** What a map of type [M] promises.  [map_ok d m]: [m] was created from the definition [d]. *)
Class bpf_map (M : Type) := BpfMap
  { map_create : map_def -> M;
    map_lookup : M -> list byte -> option (list byte);
    map_update : M -> list byte -> list byte -> M + Z;
    map_ok : map_def -> M -> Prop;
    map_create_ok d : wf (md_value d) = true -> map_ok d (map_create d);
    map_create_empty d k :
      md_type d = "BPF_MAP_TYPE_HASH"%string -> map_lookup (map_create d) k = None;
    map_lookup_size d m k v : map_ok d m -> map_lookup m k = Some v -> len v = sizeof (md_value d);
    map_update_ok d m k v m' :
      map_ok d m -> len v = sizeof (md_value d) -> map_update m k v = inl m' -> map_ok d m';
    map_update_eq m k v m' : map_update m k v = inl m' -> map_lookup m' k = Some v;
    map_update_ne m k k' v m' :
      map_update m k v = inl m' -> k <> k' -> map_lookup m' k' = map_lookup m k' }.

(** Dereferencing the pointer a lookup returned, at an integer type. *)
Definition deref (t : cty) (v : list byte) : prog Z := lift (get_field t [] v).

(** ** Reasoning about runs *)

(** A 16-bit field equals a converted constant when its bytes are the constant's, big end first. *)
Lemma htons_eqb {ENDIAN : bpf_endian} bs x hi lo :
  length bs = 2%nat -> reverse (le_split 2 x) = [hi; lo] ->
  (le_combine bs =? bpf_htons x) = bool_decide (bs = [hi; lo]).
Proof.
  intros Hl Hx. destruct (bpf_htons_spec x) as [Hr Hs]. rewrite Hx in Hs.
  assert (bpf_htons x = le_combine [hi; lo]) as ->.
  { rewrite <- Hs, le_combine_split. rewrite Z.mod_small; lia. }
  case_bool_decide as H; [by rewrite H, Z.eqb_refl|].
  apply Z.eqb_neq. intros Heq. apply H. by apply le_combine_inj.
Qed.

Lemma bind_ret {A B} (a : A) (f : A -> prog B) : mret a ≫= f = f a.
Proof. cbn. by destruct (f a). Qed.

Lemma bind_lift_Some {A B} (a : A) (f : A -> prog B) : lift (Some a) ≫= f = f a.
Proof. apply bind_ret. Qed.

Lemma bind_assoc {A B C} (m : prog A) (f : A -> prog B) (g : B -> prog C) :
  (m ≫= f) ≫= g = m ≫= (fun a => f a ≫= g).
Proof.
  destruct m as [es [a|]]; [|done]. cbn. destruct (f a) as [es' [b|]]; [|done].
  cbn. destruct (g b). by rewrite (assoc_L (++)).
Qed.

Lemma result_bind {A B} (m : prog A) (f : A -> prog B) :
  result (m ≫= f) = a ← result m; result (f a).
Proof. destruct m as [es [a|]]; [|done]. cbn. by destruct (f a). Qed.

Lemma events_bind {A B} (m : prog A) (f : A -> prog B) :
  events (m ≫= f) = events m ++ match result m with Some a => events (f a) | None => [] end.
Proof. destruct m as [es [a|]]; cbn; [by destruct (f a)|by rewrite app_nil_r]. Qed.

Lemma clones_app es1 es2 : clones (es1 ++ es2) = clones es1 ++ clones es2.
Proof. unfold clones. apply omap_app. Qed.

(** ** Runs up to their debug output

    Two runs are equivalent when they have the same result and clone the same packets: what
    [bpf_printk] writes to the trace pipe is forgotten. *)

#[export] Instance prog_equiv {A} : Equiv (prog A) := fun m m' =>
  result m = result m' /\ clones (events m) = clones (events m').

#[export] Instance prog_equivalence {A} : Equivalence (≡@{prog A}).
Proof.
  split.
  - intros m. done.
  - intros m m' [? ?]. done.
  - intros m m' m'' [? ?] [? ?]. split; congruence.
Qed.

#[export] Instance bind_proper {A B} :
  Proper (pointwise_relation A (≡) ==> (≡) ==> (≡)) (@mbind prog _ A B).
Proof.
  intros f f' Hf m m' [Hr Hc]. split.
  - rewrite !result_bind, Hr. destruct (result m') as [a|]; [|done]. apply Hf.
  - rewrite !events_bind, !clones_app, Hr, Hc. destruct (result m') as [a|]; [|done].
    f_equal. apply Hf.
Qed.

Lemma printk_quiet fmt args : bpf_printk fmt args ≡ mret ().
Proof. done. Qed.

(** A run that only prints before it returns [a] can be dropped from a sequence. *)
Lemma bind_quiet {A B} (m : prog A) (a : A) (f : A -> prog B) : m ≡ mret a -> m ≫= f ≡ f a.
Proof. intros ->. by rewrite bind_ret. Qed.

Lemma seq_quiet {A} (m : prog ()) (f : () -> prog A) p :
  m ≡ mret () -> f () ≡ p -> m ≫= f ≡ p.
Proof. intros Hm Hf. by rewrite (bind_quiet m () f Hm). Qed.

(** Drops the first statement of a sequence, which only prints. *)
Ltac skip_stmt := apply seq_quiet; [try done|cbv beta].

Lemma when_quiet b m : m ≡ mret () -> when b m ≡ mret ().
Proof. by destruct b. Qed.

Lemma forM_quiet {A} (l : list A) f : (forall x, x ∈ l -> f x ≡ mret ()) -> forM_ l f ≡ mret ().
Proof.
  induction l as [|x l IH]; intros H; cbn [forM_]; [done|].
  rewrite (H x), bind_ret by constructor. apply IH. intros y Hy. apply H. by constructor.
Qed.

(** A loop over bodies that only print terminates within its fuel. *)
Lemma for_lt_quiet fuel i bound stp body :
  0 < stp -> (0 < fuel)%nat -> bound - i <= stp * (Z.of_nat fuel - 1) ->
  (forall k, 0 <= k -> i + stp * k < bound -> body (i + stp * k) ≡ mret ()) ->
  for_lt fuel i bound stp body ≡ mret ().
Proof.
  intros Hs. revert i. induction fuel as [|fuel IH]; intros i H0 Hf Hb; [lia|]. cbn [for_lt].
  destruct (Z.ltb_spec i bound); [|done].
  pose proof (Hb 0 ltac:(lia) ltac:(lia)) as H1. rewrite Z.mul_0_r, Z.add_0_r in H1.
  rewrite H1, bind_ret.
  apply IH; [nia|nia|]. intros k Hk Hlt. replace (i + stp + stp * k) with (i + stp * (k + 1)) by lia.
  apply Hb; lia.
Qed.

(** ** Instances *)

(** Byte-order conversion by swapping bytes, as on the little-endian target. *)
#[export] Program Instance bswap_endian : bpf_endian :=
  {| bpf_htons := bswap 2; bpf_ntohs := bswap 2; bpf_ntohl := bswap 4 |}.
Next Obligation. intros. split; [apply (bswap_range 2)|apply bswap_split]. Qed.
Next Obligation. intros. split; [apply (bswap_range 2)|apply bswap_split]. Qed.
Next Obligation. intros. split; [apply (bswap_range 4)|apply bswap_split]. Qed.

(** Maps as finite maps from key bytes to value bytes; an array holds a zero value at every
    index from the start.  An update checks the sizes and the capacity. *)
Record fmap_state := FMapState { fm_def : map_def; fm_data : gmap (list byte) (list byte) }.

Definition E2BIG : Z := 7.
Definition EINVAL : Z := 22.

Definition array_keys (n : Z) : list (list byte) :=
  (fun i => le_split 4 (Z.of_nat i)) <$> seq 0 (Z.to_nat n).

Definition fm_create (d : map_def) : fmap_state :=
  FMapState d
    (if bool_decide (md_type d = "BPF_MAP_TYPE_ARRAY"%string)
     then list_to_map ((fun k => (k, zeros (sizeof (md_value d)))) <$> array_keys (md_max_entries d))
     else ∅).

Definition fm_update (m : fmap_state) (k v : list byte) : fmap_state + Z :=
  if negb (len k =? sizeof (md_key (fm_def m))) then inr EINVAL
  else if bool_decide (is_Some (fm_data m !! k))
          || (bool_decide (md_type (fm_def m) = "BPF_MAP_TYPE_HASH"%string)
              && (Z.of_nat (size (fm_data m)) <? md_max_entries (fm_def m)))
  then inl (FMapState (fm_def m) (<[k := v]> (fm_data m)))
  else inr E2BIG.

Definition fm_ok (d : map_def) (m : fmap_state) : Prop :=
  fm_def m = d /\ map_Forall (fun _ v => len v = sizeof (md_value d)) (fm_data m).

#[export] Program Instance fmap_bpf_map : bpf_map fmap_state :=
  {| map_create := fm_create;
     map_lookup m k := fm_data m !! k;
     map_update := fm_update;
     map_ok := fm_ok |}.
Next Obligation.
  intros d Hwf. split; [done|]. cbn. case_bool_decide; [|apply map_Forall_empty].
  intros k v Hk%elem_of_list_to_map_2. apply list_elem_of_fmap in Hk as (k' & [= -> ->] & _).
  by apply length_zeros, sizeof_nonneg.
Qed.
Next Obligation. intros d k Hd. cbn. rewrite Hd. case_bool_decide; [done|]. apply lookup_empty. Qed.
Next Obligation. intros d m k v [_ Hm] Hk. by apply Hm in Hk. Qed.
Next Obligation.
  intros d m k v m' [<- Hm] Hv. unfold fm_update. repeat case_match; intros [=]; subst.
  split; [done|]. cbn. by apply map_Forall_insert_2.
Qed.
Next Obligation.
  intros m k v m'. unfold fm_update. repeat case_match; intros [=]; subst. apply lookup_insert_eq.
Qed.
Next Obligation.
  intros m k k' v m'. unfold fm_update. repeat case_match; intros [=]; subst. cbn.
  intros. by apply lookup_insert_ne.
Qed.
