(* ===== verification/Io.v ===== *)
(** * Loaders: sequences of system calls that may fail

    A user-space loader is a computation of [io C S A]: it makes calls of the type [C], in order,
    and ends with a value or with the error code that [?] propagates.  Whether a call succeeds is
    not up to the program: it is asked of an [outcome] oracle, which sees the calls made so far.
    [S] is the kernel state the calls act on. *)

From S2P Require Import Prelude.

Record process (C S : Type) := Process { p_log : list C; p_state : S }.
Arguments Process {_ _}.
Arguments p_log {_ _}.
Arguments p_state {_ _}.

Definition io (C S A : Type) : Type := process C S -> process C S * (A + Z).

Section Io.
Context {C S : Type}.

Definition io_ret {A} (a : A) : io C S A := fun p => (p, inl a).
Definition io_bind {A B} (m : io C S A) (f : A -> io C S B) : io C S B := fun p =>
  match m p with
  | (p, inl a) => f a p
  | (p, inr e) => (p, inr e)
  end.

(** A result that needs no call. *)
Definition io_lift {A} (r : A + Z) : io C S A := fun p => (p, r).

(** [let _ = ...], or [if let Err(e) = ... { println!(...) }]: the error is dropped. *)
Definition ignore (m : io C S ()) : io C S () := fun p => let '(p, _) := m p in (p, inl ()).

Definition when_io (b : bool) (m : io C S ()) : io C S () := if b then m else io_ret ().

Section Calls.
Context (outcome : list C -> C -> option Z).

(** A call whose success has an effect on the state. *)
Definition do_call (c : C) (effect : S -> S) : io C S () := fun p =>
  match outcome (p_log p) c with
  | None => (Process (p_log p ++ [c]) (effect (p_state p)), inl ())
  | Some e => (Process (p_log p ++ [c]) (p_state p), inr e)
  end.

(** ** Invariants: kept by a computation, whether it succeeds or fails *)

Definition keeps {A} (I : S -> Prop) (m : io C S A) : Prop :=
  forall p, I (p_state p) -> I (p_state (m p).1).

Lemma keeps_ret {A} I (a : A) : keeps I (io_ret a).
Proof. by intros p. Qed.

Lemma keeps_lift {A} I (r : A + Z) : keeps I (io_lift r).
Proof. by intros p. Qed.

Lemma keeps_bind {A B} I (m : io C S A) (f : A -> io C S B) :
  keeps I m -> (forall a, keeps I (f a)) -> keeps I (io_bind m f).
Proof.
  intros Hm Hf p Hp. specialize (Hm p Hp). unfold io_bind.
  destruct (m p) as [p1 [a|e]]; cbn in *; [by apply Hf|done].
Qed.

Lemma keeps_bind_lift {A B} I (r : A + Z) (f : A -> io C S B) :
  (forall a, r = inl a -> keeps I (f a)) -> keeps I (io_bind (io_lift r) f).
Proof. intros Hf p Hp. unfold io_bind, io_lift. destruct r; [by apply Hf|done]. Qed.

Lemma keeps_ignore I m : keeps I m -> keeps I (ignore m).
Proof. intros Hm p Hp. specialize (Hm p Hp). unfold ignore. by destruct (m p). Qed.

Lemma keeps_when I b m : keeps I m -> keeps I (when_io b m).
Proof. destruct b; [done|]. intros _. apply keeps_ret. Qed.

Lemma keeps_call I c e : (forall s, I s -> I (e s)) -> keeps I (do_call c e).
Proof. intros He p Hp. unfold do_call. destruct (outcome (p_log p) c); cbn; auto. Qed.

Lemma keeps_idle I c : keeps I (do_call c id).
Proof. by apply keeps_call. Qed.

(** ** Computations that always fail *)

Definition fails {A} (m : io C S A) : Prop := forall p, exists e, (m p).2 = inr e.

Lemma fails_bind {A B} (m : io C S A) (f : A -> io C S B) :
  (forall a, fails (f a)) -> fails (io_bind m f).
Proof. intros Hf p. unfold io_bind. destruct (m p) as [p' [a|e]]; [apply Hf|by exists e]. Qed.

Lemma fails_first {A B} (m : io C S A) (f : A -> io C S B) : fails m -> fails (io_bind m f).
Proof.
  intros Hm p. destruct (Hm p) as [e He]. unfold io_bind.
  destruct (m p) as [p' [a|e']]; cbn in *; [done|by exists e'].
Qed.

Lemma fails_lift {A} e : fails (io_lift (A := A) (inr e)).
Proof. intros p. by exists e. Qed.

(** ** Sequences, and runs whose calls succeed *)

Lemma io_bind_assoc {A B D} (m : io C S A) (f : A -> io C S B) (g : B -> io C S D) p :
  io_bind (io_bind m f) g p = io_bind m (fun a => io_bind (f a) g) p.
Proof. unfold io_bind. by destruct (m p) as [? [?|?]]. Qed.

Lemma bind_io_ret {A B} (a : A) (f : A -> io C S B) p : io_bind (io_ret a) f p = f a p.
Proof. done. Qed.

Lemma bind_run {A B} (m : io C S A) (f : A -> io C S B) p p' a :
  m p = (p', inl a) -> io_bind m f p = f a p'.
Proof. unfold io_bind. by intros ->. Qed.

Lemma bind_when {A} b m (f : () -> io C S A) p :
  io_bind (when_io b m) f p = if b then io_bind m f p else f () p.
Proof. by destruct b. Qed.

Lemma bind_lift_ok {A B} (r : A + Z) a (f : A -> io C S B) p :
  r = inl a -> io_bind (io_lift r) f p = f a p.
Proof. by intros ->. Qed.

Lemma bind_lift_err {A B} (r : A + Z) e (f : A -> io C S B) p :
  r = inr e -> io_bind (io_lift r) f p = (p, inr e).
Proof. by intros ->. Qed.

Context (NOFAIL : forall log c, outcome log c = None).

Lemma bind_call {A} c e (f : () -> io C S A) p :
  io_bind (do_call c e) f p = f () (Process (p_log p ++ [c]) (e (p_state p))).
Proof. unfold io_bind, do_call. by rewrite NOFAIL. Qed.

Lemma bind_ignore_call {A} c e (f : () -> io C S A) p :
  io_bind (ignore (do_call c e)) f p = f () (Process (p_log p ++ [c]) (e (p_state p))).
Proof. unfold io_bind, ignore, do_call. by rewrite NOFAIL. Qed.

(** Three calls whose errors are dropped. *)
Definition after_three (b : bool) (c1 c2 c3 : C) (e1 e2 e3 : S -> S) (p : process C S)
    : process C S :=
  if b then Process (((p_log p ++ [c1]) ++ [c2]) ++ [c3]) (e3 (e2 (e1 (p_state p)))) else p.

Lemma bind_three {A} b c1 c2 c3 e1 e2 e3 (f : () -> io C S A) p :
  io_bind (when_io b (io_bind (ignore (do_call c1 e1)) (fun _ =>
             io_bind (ignore (do_call c2 e2)) (fun _ => ignore (do_call c3 e3))))) f p =
  f () (after_three b c1 c2 c3 e1 e2 e3 p).
Proof.
  destruct b; [|done]. cbn [when_io]. rewrite !io_bind_assoc, !bind_ignore_call.
  rewrite io_bind_assoc. by rewrite !bind_ignore_call.
Qed.
End Calls.
End Io.

Create HintDb keeps.
#[export] Hint Resolve keeps_ret keeps_lift keeps_bind keeps_ignore keeps_when keeps_idle : keeps.

Create Rewrite HintDb io.
#[export] Hint Rewrite @io_bind_assoc @bind_io_ret @bind_when : io.
#[export] Hint Rewrite @bind_call @bind_ignore_call using done : io.

Declare Scope io_scope.
Delimit Scope io_scope with io.
Notation "x <- m ;; k" := (io_bind m%io (fun x => k%io))
  (at level 100, m at next level, right associativity) : io_scope.
Notation "m ;;; k" := (io_bind m%io (fun _ => k%io)) (at level 100, right associativity) : io_scope.
