(* ===== verification/PortMirror.v ===== *)
(** * The port mirror program

    [ebpf/portmirror/src/bpf/portmirror.bpf.c]: a traffic-control classifier that clones packets
    to a mirror interface, all of them or those whose flow key is in a filter map.  One definition
    per stretch of the C function, composed by [port_mirror] in the order of the code; every
    access to the packet, the context and the key goes through the layouts of the kernel header
    the program includes ([PmAbi]). *)

From S2P Require Import Prelude CType Mem Bpf.
From S2P Require Import PmAbi.

Definition TC_ACT_OK : Z := 0.
Definition TC_ACT_REDIRECT : Z := 7.
Definition MIRROR : Z := 1.
Definition ETH_P_IP : Z := 0x0800.
Definition ETH_P_IPV6 : Z := 0x86DD.
Definition HASH_TYPE_NONE : Z := 0x00.
Definition HASH_TYPE_SRC : Z := 0x01.
Definition HASH_TYPE_DST : Z := 0x02.
Definition HASH_TYPE_PROTO : Z := 0x04.
Definition HASH_TYPE_SPORT : Z := 0x08.
Definition HASH_TYPE_DPORT : Z := 0x10.

Definition flow_key : cty := cstruct_packed
  [ anon (cunion
      [ fld "saddr" __u32;
        fld "saddr6" (CArr 16 __u8) ]);
    anon (cunion
      [ fld "daddr" __u32;
        fld "daddr6" (CArr 16 __u8) ]);
    fld "sport" __u16;
    fld "dport" __u16;
    fld "proto" __u8;
    fld "ip_version" __u8 ].

Definition filter_map_def : map_def :=
  MapDef "BPF_MAP_TYPE_HASH" 1024 flow_key __u8.

Definition mirror_map_def : map_def :=
  MapDef "BPF_MAP_TYPE_HASH" 1024 __u32 __u32.

(** [IPPROTO_TCP] of the kernel header. *)
Definition IPPROTO_TCP : Z := default 0 (enum_value enum_IPPROTO "IPPROTO_TCP").

(** The packet the hook is called on: the bytes of its [struct __sk_buff] context and the linear
    packet data mapped at [skb->data]. *)
Record skbuff := SkBuff { sk_ctx : list byte; sk_packet : list byte }.

Section PortMirror.
Context {ENDIAN : bpf_endian} {M : Type} {MAP : bpf_map M}.

(** The program's global state: the read-only configuration byte and the two maps. *)
Record globals := Globals { hash_type : Z; filter_map : M; mirror_map : M }.

Definition log_err (line ret : Z) (msg : string) : prog () :=
  bpf_printk ("ERROR line:%d ret:%d error: %s" +:+ nl) [AInt line; AInt ret; AStr msg].

(** The address, protocol and transport-header variables after the network header was read.
    [sip6] and [dip6] are not initialised on the IPv4 path. *)
Record l3 := L3
  { l3_proto : Z; l3_trans : Z; l3_sip : Z; l3_dip : Z;
    l3_sip6 : option (list byte); l3_dip6 : option (list byte); l3_version : Z }.

Definition parse_l3 (pkt : region) (data data_end : Z) : prog (option l3) :=
  if data + sizeof struct_ethhdr >? data_end then mret None else
  h_proto ← lift (load_at pkt data struct_ethhdr [Fld "h_proto"]);
  if h_proto =? bpf_htons ETH_P_IP then
    let iph := data + sizeof struct_ethhdr in
    if iph + sizeof struct_iphdr >? data_end then mret None else
    proto ← lift (load_at pkt iph struct_iphdr [Fld "protocol"]);
    ihl ← lift (load_at pkt iph struct_iphdr [Fld "ihl"]);
    sip ← lift (load_at pkt iph struct_iphdr [Fld "saddr"]);
    dip ← lift (load_at pkt iph struct_iphdr [Fld "daddr"]);
    mret (Some (L3 proto (iph + ihl * 4) sip dip None None 4))
  else if h_proto =? bpf_htons ETH_P_IPV6 then
    let ip6h := data + sizeof struct_ethhdr in
    if ip6h + sizeof struct_ipv6hdr >? data_end then mret None else
    proto ← lift (load_at pkt ip6h struct_ipv6hdr [Fld "nexthdr"]);
    sip6 ← lift (copy_at pkt ip6h struct_ipv6hdr [Fld "saddr"]);
    dip6 ← lift (copy_at pkt ip6h struct_ipv6hdr [Fld "daddr"]);
    mret (Some (L3 proto (ip6h + sizeof struct_ipv6hdr) 0 0 (Some sip6) (Some dip6) 6))
  else mret None.

(** The ports: of the TCP header, or of what would be a UDP header for any other protocol. *)
Definition parse_ports (pkt : region) (data_end : Z) (l : l3) : prog (option (Z * Z)) :=
  if l3_proto l =? IPPROTO_TCP then
    if l3_trans l + sizeof struct_tcphdr >? data_end then mret None else
    sport ← lift (load_at pkt (l3_trans l) struct_tcphdr [Fld "source"]);
    dport ← lift (load_at pkt (l3_trans l) struct_tcphdr [Fld "dest"]);
    mret (Some (sport, dport))
  else
    if l3_trans l + sizeof struct_udphdr >? data_end then mret None else
    sport ← lift (load_at pkt (l3_trans l) struct_udphdr [Fld "source"]);
    dport ← lift (load_at pkt (l3_trans l) struct_udphdr [Fld "dest"]);
    mret (Some (sport, dport)).

(** One byte of an address variable as a [bpf_printk] argument.  The program reads [sip6] here also
    when it has never been assigned: what is printed is then an indeterminate value. *)
Definition addr6_arg (v : option (list byte)) (i : Z) : prog arg :=
  match v with
  | None => mret AUndef
  | Some bs => b ← lift (get_field struct_in6_addr [Fld "in6_u"; Fld "u6_addr8"; Idx i] bs);
               mret (AInt b)
  end.

Definition print_packet (l : l3) (sport dport : Z) : prog () :=
  bpf_printk "IP: saddr=%u, daddr=%u, proto=%u" [AInt (l3_sip l); AInt (l3_dip l); AInt (l3_proto l)] ;;
  forM_ [0; 2; 4; 6; 8; 10; 12; 14] (fun i =>
    a ← addr6_arg (l3_sip6 l) i; b ← addr6_arg (l3_sip6 l) (i + 1);
    bpf_printk "IP6: saddr=%x %x" [a; b]) ;;
  bpf_printk "IP: sport=%u, dport=%u" [AInt (bpf_ntohs sport); AInt (bpf_ntohs dport)].

(** A conditional assignment to the key under construction. *)
Definition assign_if (c : bool) (f : list byte -> option (list byte)) (key : list byte)
    : prog (list byte) :=
  if c then lift (f key) else mret key.

(** The key a packet is looked up under, from the fields [hash_type] selects.  The initialiser
    zeroes the whole object; the IPv6 destination is copied from [sip6], as in the source. *)
Definition build_key (ht : Z) (l : l3) (sport dport : Z) : prog (list byte) :=
  key ← lift (set_field flow_key [Fld "ip_version"] (l3_version l) (zeros (sizeof flow_key)));
  key ← assign_if (negb (Z.land ht HASH_TYPE_SRC =? 0))
    (fun key => if l3_version l =? 4 then set_field flow_key [Fld "saddr"] (l3_sip l) key
                else s ← l3_sip6 l; set_bytes flow_key [Fld "saddr6"] (take 16 s) key) key;
  key ← assign_if (negb (Z.land ht HASH_TYPE_DST =? 0))
    (fun key => if l3_version l =? 4 then set_field flow_key [Fld "daddr"] (l3_dip l) key
                else s ← l3_sip6 l; set_bytes flow_key [Fld "daddr6"] (take 16 s) key) key;
  key ← assign_if (negb (Z.land ht HASH_TYPE_PROTO =? 0))
    (set_field flow_key [Fld "proto"] (l3_proto l)) key;
  key ← assign_if (negb (Z.land ht HASH_TYPE_SPORT =? 0))
    (set_field flow_key [Fld "sport"] sport) key;
  assign_if (negb (Z.land ht HASH_TYPE_DPORT =? 0))
    (set_field flow_key [Fld "dport"] dport) key.

Definition print_key (ht : Z) (key : list byte) : prog () :=
  let g p := lift (get_field flow_key p key) in
  bpf_printk "SPORT flag = %u" [AInt (Z.land ht HASH_TYPE_SPORT)] ;;
  s ← g [Fld "saddr"]; d ← g [Fld "daddr"]; p ← g [Fld "proto"];
  bpf_printk "KEY: saddr=%lu, daddr=%lu, proto=%u" [AInt s; AInt d; AInt p] ;;
  bpf_printk "KEY6: sip6" [] ;;
  for_lt 9 0 16 2 (fun i =>
    a ← g [Fld "saddr6"; Idx i]; b ← g [Fld "saddr6"; Idx (i + 1)];
    bpf_printk "%x %x" [AInt a; AInt b]) ;;
  bpf_printk "KEY6: dip6" [] ;;
  for_lt 9 0 16 2 (fun i =>
    a ← g [Fld "daddr6"; Idx i]; b ← g [Fld "daddr6"; Idx (i + 1)];
    bpf_printk "%x %x" [AInt a; AInt b]) ;;
  sp ← g [Fld "sport"]; dp ← g [Fld "dport"];
  bpf_printk "KEY: sport=%u, dport=%u" [AInt sp; AInt dp].

(** Looking up the mirror interface of the packet's own interface and cloning to it. *)
Definition clone_to_mirror (st : globals) (skb : skbuff) (missing : prog ()) : prog () :=
  tap ← lift (get_field struct___sk_buff [Fld "ifindex"] (sk_ctx skb));
  match map_lookup (mirror_map st) (le_split 4 tap) with
  | Some v => mirror_ifindex ← deref __u32 v; bpf_clone_redirect mirror_ifindex 0
  | None => missing
  end.

Definition apply_filter (st : globals) (skb : skbuff) (key : list byte) : prog () :=
  action ← match map_lookup (filter_map st) key with
           | Some v => a ← deref __u8 v; mret (a =? MIRROR)
           | None => mret false
           end;
  if (action : bool) then
    clone_to_mirror st skb (log_err 188 0 "No mirror port for this pkt")
  else log_err 191 0 "No mirror action for this pkt".

Definition port_mirror (st : globals) (skb : skbuff) : prog Z :=
  data ← lift (get_field struct___sk_buff [Fld "data"] (sk_ctx skb));
  data_end ← lift (get_field struct___sk_buff [Fld "data_end"] (sk_ctx skb));
  let pkt := Region data (sk_packet skb) in
  if hash_type st =? HASH_TYPE_NONE then
    clone_to_mirror st skb (mret ()) ;; mret TC_ACT_OK
  else
    l ← parse_l3 pkt data data_end;
    match l with
    | None => mret TC_ACT_OK
    | Some l =>
        bpf_printk "HASH TYPE: %u" [AInt (hash_type st)] ;;
        ports ← parse_ports pkt data_end l;
        match ports with
        | None => mret TC_ACT_OK
        | Some (sport, dport) =>
            print_packet l sport dport ;;
            key ← build_key (hash_type st) l sport dport;
            print_key (hash_type st) key ;;
            apply_filter st skb key ;;
            mret TC_ACT_OK
        end
    end.

End PortMirror.
