(* ===== verification/PortMirrorSpec.v ===== *)
(** * What the port mirror program promises

    An abstract specification of [port_mirror]: a reference parser of Ethernet/IP/TCP-UDP headers
    written over byte offsets of the protocols, the lookup key of a flow as a concatenation of
    fields, and the decision to mirror as a function.  The C function refines it: it never
    faults, always passes the packet on, and clones it exactly to the interface the specification
    names -- provided the specification looks at the flow [as_seen] by the code, which for IPv6
    has the source in place of the destination. *)

From S2P Require Import Prelude CType Mem Bpf PmAbi PortMirror.

(** ** The reference parser *)

(** A flow: addresses and ports as they are on the wire. *)
Record flow := Flow
  { fl_version : Z; fl_src : list byte; fl_dst : list byte;
    fl_proto : Z; fl_sport : list byte; fl_dport : list byte }.

Definition u8_at (k : Z) (bs : list byte) : Z := le_combine (sub_bytes k 1 bs).

(** The transport header starts at byte [l4]; 20 bytes are required for TCP (6), 8 otherwise. *)
Definition parse_l4 (bs : list byte) (l4 version : Z) (src dst : list byte) (proto : Z)
    : option flow :=
  if l4 + (if proto =? 6 then 20 else 8) <=? len bs
  then Some (Flow version src dst proto (sub_bytes l4 2 bs) (sub_bytes (l4 + 2) 2 bs))
  else None.

Definition parse_flow (bs : list byte) : option flow :=
  if len bs <? 14 then None
  else if bool_decide (sub_bytes 12 2 bs = [Byte.x08; Byte.x00]) then
    if len bs <? 34 then None
    else parse_l4 bs (14 + 4 * (u8_at 14 bs mod 16)) 4
           (sub_bytes 26 4 bs) (sub_bytes 30 4 bs) (u8_at 23 bs)
  else if bool_decide (sub_bytes 12 2 bs = [Byte.x86; Byte.xdd]) then
    if len bs <? 54 then None
    else parse_l4 bs 54 6 (sub_bytes 22 16 bs) (sub_bytes 38 16 bs) (u8_at 20 bs)
  else None.

(** ** Keys and the decision *)

(** The six fields of a key, in order. *)
Definition key_bytes (src dst sport dport proto version : list byte) : list byte :=
  src ++ dst ++ sport ++ dport ++ proto ++ version.

(** A selected field, or zeros. *)
Definition select (b : bool) (n : Z) (bs : list byte) : list byte := if b then bs else zeros n.

(** An address in a 16-byte field. *)
Definition pad16 (a : list byte) : list byte := a ++ zeros (16 - len a).

Definition flow_key_of (ht : Z) (fl : flow) : list byte :=
  key_bytes (select (Z.testbit ht 0) 16 (pad16 (fl_src fl)))
            (select (Z.testbit ht 1) 16 (pad16 (fl_dst fl)))
            (select (Z.testbit ht 3) 2 (fl_sport fl))
            (select (Z.testbit ht 4) 2 (fl_dport fl))
            (select (Z.testbit ht 2) 1 (le_split 1 (fl_proto fl)))
            (le_split 1 (fl_version fl)).

(** The flow as the C code sees it when it builds the key. *)
Definition as_seen (fl : flow) : flow :=
  if fl_version fl =? 6
  then Flow (fl_version fl) (fl_src fl) (fl_src fl) (fl_proto fl) (fl_sport fl) (fl_dport fl)
  else fl.

Section Spec.
Context {ENDIAN : bpf_endian} {M : Type} {MAP : bpf_map M}.

(** The filter map has the value 1 under the key. *)
Definition selected (filter : M) (key : list byte) : bool :=
  match map_lookup filter key with
  | Some v => le_combine (take 1 v) =? 1
  | None => false
  end.

Definition mirror_of (mirror : M) (tap : Z) : option Z :=
  v ← map_lookup mirror (le_split 4 tap); Some (le_combine (take 4 v)).

(** Where a packet is mirrored: nowhere, or to one interface.  [seen] is the view of the flow
    the key is built from: the identity in the intended specification. *)
Definition mirror_target (seen : flow -> flow) (st : globals) (tap : Z) (bs : list byte)
    : option Z :=
  if hash_type st =? 0 then mirror_of (mirror_map st) tap
  else fl ← parse_flow bs;
       if selected (filter_map st) (flow_key_of (hash_type st) (seen fl))
       then mirror_of (mirror_map st) tap else None.

(** The abstract program: clone to the target, if any, and pass the packet on. *)
Definition mirror_spec (seen : flow -> flow) (st : globals) (tap : Z) (bs : list byte) : prog Z :=
  match mirror_target seen st tap bs with
  | Some i => bpf_clone_redirect i 0
  | None => mret ()
  end ;; mret TC_ACT_OK.

(** What the kernel guarantees of a packet it calls the hook on, and of the program's maps. *)
Record skb_ok (skb : skbuff) (data tap : Z) : Prop := SkbOk
  { so_data : get_field struct___sk_buff [Fld "data"] (sk_ctx skb) = Some data;
    so_data_end : get_field struct___sk_buff [Fld "data_end"] (sk_ctx skb)
                  = Some (data + len (sk_packet skb));
    so_ifindex : get_field struct___sk_buff [Fld "ifindex"] (sk_ctx skb) = Some tap }.

Record globals_ok (st : globals) : Prop := GlobalsOk
  { go_filter : map_ok filter_map_def (filter_map st);
    go_mirror : map_ok mirror_map_def (mirror_map st) }.

(** ** Headers *)

Lemma size_ethhdr : sizeof struct_ethhdr = 14. Proof. reflexivity. Qed.
Lemma size_iphdr : sizeof struct_iphdr = 20. Proof. reflexivity. Qed.
Lemma size_ipv6hdr : sizeof struct_ipv6hdr = 40. Proof. reflexivity. Qed.
Lemma size_tcphdr : sizeof struct_tcphdr = 20. Proof. reflexivity. Qed.
Lemma size_udphdr : sizeof struct_udphdr = 8. Proof. reflexivity. Qed.
Lemma tcp_proto : IPPROTO_TCP = 6. Proof. reflexivity. Qed.

(** The variables after the network header, from the bytes. *)
Definition l3_of (data : Z) (bs : list byte) : option l3 :=
  if len bs <? 14 then None
  else if bool_decide (sub_bytes 12 2 bs = [Byte.x08; Byte.x00]) then
    if len bs <? 34 then None
    else Some (L3 (u8_at 23 bs) (data + (14 + 4 * (u8_at 14 bs mod 16)))
                  (le_combine (sub_bytes 26 4 bs)) (le_combine (sub_bytes 30 4 bs)) None None 4)
  else if bool_decide (sub_bytes 12 2 bs = [Byte.x86; Byte.xdd]) then
    if len bs <? 54 then None
    else Some (L3 (u8_at 20 bs) (data + 54) 0 0
                  (Some (sub_bytes 22 16 bs)) (Some (sub_bytes 38 16 bs)) 6)
  else None.

Lemma parse_l3_correct data bs :
  parse_l3 (Region data bs) data (data + len bs) = mret (l3_of data bs).
Proof.
  unfold parse_l3, l3_of. rewrite size_ethhdr, size_iphdr, size_ipv6hdr, !Z.gtb_ltb.
  destruct (Z.ltb_spec (data + len bs) (data + 14)), (Z.ltb_spec (len bs) 14); try lia; [done|].
  rewrite (load_at_unsigned _ _ _ struct_ethhdr [Fld "h_proto"] 0 2 12 2) by first [reflexivity | lia].
  rewrite bind_lift_Some.
  assert (Hl : length (sub_bytes (0 + 12) 2 bs) = 2%nat)
    by (apply Nat2Z.inj; rewrite length_sub_bytes; lia).
  rewrite (htons_eqb _ ETH_P_IP Byte.x08 Byte.x00), (htons_eqb _ ETH_P_IPV6 Byte.x86 Byte.xdd)
    by (done || reflexivity).
  replace (0 + 12) with 12 by lia.
  case_bool_decide; [|case_bool_decide; [|done]].
  - destruct (Z.ltb_spec (data + len bs) (data + 14 + 20)), (Z.ltb_spec (len bs) 34);
      try lia; [done|].
    rewrite (load_at_unsigned _ _ _ struct_iphdr [Fld "protocol"] 14 1 9 1) by first [reflexivity | lia].
    rewrite bind_lift_Some.
    rewrite (load_at_bitfield _ _ _ struct_iphdr [Fld "ihl"] 14 1 0 4) by first [reflexivity | lia].
    rewrite bind_lift_Some.
    rewrite (load_at_unsigned _ _ _ struct_iphdr [Fld "saddr"] 14 4 12 4) by first [reflexivity | lia].
    rewrite bind_lift_Some.
    rewrite (load_at_unsigned _ _ _ struct_iphdr [Fld "daddr"] 14 4 16 4) by first [reflexivity | lia].
    rewrite bind_lift_Some. unfold u8_at. do 3 f_equal.
    change (2 ^ 4) with 16. change (14 + 0) with 14. lia.
  - destruct (Z.ltb_spec (data + len bs) (data + 14 + 40)), (Z.ltb_spec (len bs) 54);
      try lia; [done|].
    rewrite (load_at_unsigned _ _ _ struct_ipv6hdr [Fld "nexthdr"] 14 1 6 1) by first [reflexivity | lia].
    rewrite bind_lift_Some.
    rewrite (copy_at_bytes _ _ _ struct_ipv6hdr [Fld "saddr"] 14 8 16 struct_in6_addr) by first [reflexivity | lia].
    rewrite bind_lift_Some.
    rewrite (copy_at_bytes _ _ _ struct_ipv6hdr [Fld "daddr"] 14 24 16 struct_in6_addr) by first [reflexivity | lia].
    rewrite bind_lift_Some. unfold u8_at. do 3 f_equal. lia.
Qed.

Lemma parse_ports_correct data bs l o :
  l3_trans l = data + o -> 0 <= o ->
  parse_ports (Region data bs) (data + len bs) l =
    mret (if o + (if l3_proto l =? 6 then 20 else 8) <=? len bs
          then Some (le_combine (sub_bytes o 2 bs), le_combine (sub_bytes (o + 2) 2 bs)) else None).
Proof.
  intros Ho Hpos. unfold parse_ports. rewrite size_tcphdr, size_udphdr, tcp_proto, !Z.gtb_ltb, Ho.
  destruct (l3_proto l =? 6).
  - destruct (Z.ltb_spec (data + len bs) (data + o + 20)), (Z.leb_spec (o + 20) (len bs));
      try lia; [done|].
    rewrite (load_at_unsigned _ _ _ struct_tcphdr [Fld "source"] o 2 0 2) by first [reflexivity | lia].
    rewrite (load_at_unsigned _ _ _ struct_tcphdr [Fld "dest"] o 2 2 2) by first [reflexivity | lia].
    rewrite !bind_lift_Some. by rewrite Z.add_0_r.
  - destruct (Z.ltb_spec (data + len bs) (data + o + 8)), (Z.leb_spec (o + 8) (len bs));
      try lia; [done|].
    rewrite (load_at_unsigned _ _ _ struct_udphdr [Fld "source"] o 2 0 2) by first [reflexivity | lia].
    rewrite (load_at_unsigned _ _ _ struct_udphdr [Fld "dest"] o 2 2 2) by first [reflexivity | lia].
    rewrite !bind_lift_Some. by rewrite Z.add_0_r.
Qed.

(** How the address variables hold the addresses of the packet. *)
Inductive addrs_match (l : l3) (src dst : list byte) : Prop :=
| Addrs4 : l3_version l = 4 -> length src = 4%nat -> length dst = 4%nat ->
           l3_sip l = le_combine src -> l3_dip l = le_combine dst -> l3_sip6 l = None ->
           addrs_match l src dst
| Addrs6 : l3_version l = 6 -> length src = 16%nat -> length dst = 16%nat ->
           l3_sip6 l = Some src -> l3_dip6 l = Some dst -> addrs_match l src dst.

(** The C variables after the network header and the reference parser agree. *)
Lemma l3_of_flow data bs :
  match l3_of data bs with
  | None => parse_flow bs = None
  | Some l => exists o src dst,
      l3_trans l = data + o /\ 0 <= o /\ addrs_match l src dst /\
      parse_flow bs = parse_l4 bs o (l3_version l) src dst (l3_proto l)
  end.
Proof.
  unfold l3_of, parse_flow. destruct (Z.ltb_spec (len bs) 14); [done|].
  case_bool_decide; [|case_bool_decide; [|done]].
  - destruct (Z.ltb_spec (len bs) 34); [done|]. do 3 eexists. split; [done|].
    pose proof (Z.mod_pos_bound (u8_at 14 bs) 16 ltac:(lia)). split; [lia|].
    split; [|done]. by apply Addrs4; [| rewrite sub_bytes_length by lia ..| | |].
  - destruct (Z.ltb_spec (len bs) 54); [done|]. do 3 eexists. split; [done|]. split; [lia|].
    split; [|done]. by apply Addrs6; [| rewrite sub_bytes_length by lia ..| |].
Qed.

(** ** The key *)

Lemma land_bit ht k : 0 <= k -> negb (Z.land ht (2 ^ k) =? 0) = Z.testbit ht k.
Proof.
  intros Hk. destruct (Z.testbit ht k) eqn:Hb.
  - apply negb_true_iff, Z.eqb_neq. intros H. apply (f_equal (fun z => Z.testbit z k)) in H.
    rewrite Z.land_spec, Z.pow2_bits_true, Hb, Z.testbit_0_l in H by lia. done.
  - apply negb_false_iff, Z.eqb_eq. apply Z.bits_inj'. intros i Hi.
    rewrite Z.land_spec, Z.pow2_bits_eqb, Z.testbit_0_l by lia.
    destruct (Z.eqb_spec k i) as [<-|]; [by rewrite Hb|apply andb_false_r].
Qed.

(** The sizes of the six fields of a key. *)
Definition key_shape (src dst sport dport proto version : list byte) : Prop :=
  length src = 16%nat /\ length dst = 16%nat /\ length sport = 2%nat /\ length dport = 2%nat /\
  length proto = 1%nat /\ length version = 1%nat.

Lemma key_bytes_length src dst sport dport proto version :
  key_shape src dst sport dport proto version ->
  len (key_bytes src dst sport dport proto version) = 38.
Proof. intros (?&?&?&?&?&?). unfold key_bytes. rewrite !length_app. lia. Qed.

(** Walks down to the field at offset [k] of a key and replaces its bytes. *)
Ltac key_splice :=
  unfold key_bytes;
  repeat (rewrite splice_app_r by lia);
  match goal with |- context [splice ?k _ _] => replace k with 0 by lia end;
  first [rewrite splice_app_0 by (rewrite ?length_le_split; lia)
        |rewrite splice_0 by (rewrite ?length_le_split; lia)];
  rewrite ?length_le_split.

Section Key.
Context (s d sp dp p v : list byte) (SHAPE : key_shape s d sp dp p v).

Ltac key_field k n :=
  pose proof (key_bytes_length _ _ _ _ _ _ SHAPE) as Hlen; destruct SHAPE as (?&?&?&?&?&?);
  erewrite (set_field_bytes _ _ _ _ _ k n) by first [reflexivity | lia];
  f_equal; key_splice.

Lemma set_saddr z :
  set_field flow_key [Fld "saddr"] z (key_bytes s d sp dp p v)
  = Some (key_bytes (le_split 4 z ++ drop 4 s) d sp dp p v).
Proof. by key_field 0 4. Qed.

Lemma set_daddr z :
  set_field flow_key [Fld "daddr"] z (key_bytes s d sp dp p v)
  = Some (key_bytes s (le_split 4 z ++ drop 4 d) sp dp p v).
Proof. by key_field 16 4. Qed.

Lemma set_sport z :
  set_field flow_key [Fld "sport"] z (key_bytes s d sp dp p v)
  = Some (key_bytes s d (le_split 2 z) dp p v).
Proof. key_field 32 2. by rewrite drop_ge, app_nil_r by lia. Qed.

Lemma set_dport z :
  set_field flow_key [Fld "dport"] z (key_bytes s d sp dp p v)
  = Some (key_bytes s d sp (le_split 2 z) p v).
Proof. key_field 34 2. by rewrite drop_ge, app_nil_r by lia. Qed.

Lemma set_proto z :
  set_field flow_key [Fld "proto"] z (key_bytes s d sp dp p v)
  = Some (key_bytes s d sp dp (le_split 1 z) v).
Proof. key_field 36 1. by rewrite drop_ge, app_nil_r by lia. Qed.

Lemma set_version z :
  set_field flow_key [Fld "ip_version"] z (key_bytes s d sp dp p v)
  = Some (key_bytes s d sp dp p (le_split 1 z)).
Proof. key_field 37 1. by rewrite drop_ge, app_nil_r by lia. Qed.

Lemma set_saddr6 a :
  length a = 16%nat ->
  set_bytes flow_key [Fld "saddr6"] a (key_bytes s d sp dp p v) = Some (key_bytes a d sp dp p v).
Proof.
  intros Ha. pose proof (key_bytes_length _ _ _ _ _ _ SHAPE). destruct SHAPE as (?&?&?&?&?&?).
  erewrite (set_bytes_splice _ _ _ _ _ 0) by first [reflexivity | lia].
  f_equal. key_splice. by rewrite drop_ge, app_nil_r by lia.
Qed.

Lemma set_daddr6 a :
  length a = 16%nat ->
  set_bytes flow_key [Fld "daddr6"] a (key_bytes s d sp dp p v) = Some (key_bytes s a sp dp p v).
Proof.
  intros Ha. pose proof (key_bytes_length _ _ _ _ _ _ SHAPE). destruct SHAPE as (?&?&?&?&?&?).
  erewrite (set_bytes_splice _ _ _ _ _ 16) by first [reflexivity | lia].
  f_equal. key_splice. by rewrite drop_ge, app_nil_r by lia.
Qed.
End Key.

Lemma assign_if_select c f key key' :
  f key = Some key' -> assign_if c f key = mret (if c then key' else key).
Proof. intros H. unfold assign_if. destruct c; [|done]. by rewrite H. Qed.

Lemma length_zeros_nat n : length (zeros n) = Z.to_nat n.
Proof. apply repeat_length. Qed.

Lemma length_select b n bs :
  length bs = Z.to_nat n -> length (select b n bs) = Z.to_nat n.
Proof. intros. unfold select. destruct b; [done|apply length_zeros_nat]. Qed.

Lemma pad16_split src : length src = 4%nat -> le_split 4 (le_combine src) ++ drop 4 (zeros 16) = pad16 src.
Proof. intros H. rewrite split_le_combine' by done. unfold pad16. by rewrite H. Qed.

Lemma pad16_full a : length a = 16%nat -> pad16 a = a.
Proof. intros H. unfold pad16. rewrite H. apply app_nil_r. Qed.

Lemma length_pad16 a : (length a <= 16)%nat -> length (pad16 a) = 16%nat.
Proof. intros. unfold pad16. rewrite length_app, length_zeros_nat. lia. Qed.

(** One conditional assignment per field: the selected field, or the zeros of the initialiser. *)
Lemma assign_saddr c l src dst d sp dp p v :
  addrs_match l src dst -> key_shape (zeros 16) d sp dp p v ->
  assign_if c (fun key => if l3_version l =? 4 then set_field flow_key [Fld "saddr"] (l3_sip l) key
                else a ← l3_sip6 l; set_bytes flow_key [Fld "saddr6"] (take 16 a) key)
            (key_bytes (zeros 16) d sp dp p v)
  = mret (key_bytes (select c 16 (pad16 src)) d sp dp p v).
Proof.
  intros Ha Hk. rewrite (assign_if_select _ _ _ (key_bytes (pad16 src) d sp dp p v)); [by destruct c|].
  destruct Ha as [Hv Hs Hd Hsip Hdip _|Hv Hs Hd Hs6 Hd6]; rewrite Hv.
  - rewrite Z.eqb_refl, set_saddr by done. by rewrite Hsip, pad16_split.
  - change (6 =? 4) with false. rewrite Hs6. cbv iota. unfold mbind, option_bind.
    rewrite take_ge, set_saddr6 by (done || lia). by rewrite pad16_full.
Qed.

Lemma assign_daddr c l src dst s sp dp p v :
  addrs_match l src dst -> key_shape s (zeros 16) sp dp p v ->
  assign_if c (fun key => if l3_version l =? 4 then set_field flow_key [Fld "daddr"] (l3_dip l) key
                else a ← l3_sip6 l; set_bytes flow_key [Fld "daddr6"] (take 16 a) key)
            (key_bytes s (zeros 16) sp dp p v)
  = mret (key_bytes s (select c 16 (pad16 (if l3_version l =? 6 then src else dst))) sp dp p v).
Proof.
  intros Ha Hk.
  rewrite (assign_if_select _ _ _
    (key_bytes s (pad16 (if l3_version l =? 6 then src else dst)) sp dp p v)); [by destruct c|].
  destruct Ha as [Hv Hs Hd Hsip Hdip _|Hv Hs Hd Hs6 Hd6]; rewrite Hv.
  - rewrite Z.eqb_refl, set_daddr by done. change (4 =? 6) with false. by rewrite Hdip, pad16_split.
  - change (6 =? 4) with false. rewrite Hs6. cbv iota. unfold mbind, option_bind.
    rewrite take_ge, set_daddr6 by (done || lia). by rewrite pad16_full.
Qed.

Lemma assign_proto c z s d sp dp v :
  key_shape s d sp dp (zeros 1) v ->
  assign_if c (set_field flow_key [Fld "proto"] z) (key_bytes s d sp dp (zeros 1) v)
  = mret (key_bytes s d sp dp (select c 1 (le_split 1 z)) v).
Proof. intros. erewrite assign_if_select by (by apply set_proto). by destruct c. Qed.

Lemma assign_sport c bs s d dp p v :
  length bs = 2%nat -> key_shape s d (zeros 2) dp p v ->
  assign_if c (set_field flow_key [Fld "sport"] (le_combine bs)) (key_bytes s d (zeros 2) dp p v)
  = mret (key_bytes s d (select c 2 bs) dp p v).
Proof.
  intros. erewrite assign_if_select by (by apply set_sport).
  rewrite split_le_combine' by done. by destruct c.
Qed.

Lemma assign_dport c bs s d sp p v :
  length bs = 2%nat -> key_shape s d sp (zeros 2) p v ->
  assign_if c (set_field flow_key [Fld "dport"] (le_combine bs)) (key_bytes s d sp (zeros 2) p v)
  = mret (key_bytes s d sp (select c 2 bs) p v).
Proof.
  intros. erewrite assign_if_select by (by apply set_dport).
  rewrite split_le_combine' by done. by destruct c.
Qed.

(** Closes [key_shape] goals over selected fields. *)
Ltac shape :=
  repeat split;
  first [ done
        | apply (length_select _ 16); first [done | apply length_pad16; lia]
        | by apply (length_select _ 2)
        | by apply (length_select _ 1) ].

(** The key the C code builds is the key of the flow it saw. *)
Lemma build_key_correct ht l src dst sport dport :
  addrs_match l src dst -> length sport = 2%nat -> length dport = 2%nat ->
  build_key ht l (le_combine sport) (le_combine dport) =
    mret (flow_key_of ht (as_seen (Flow (l3_version l) src dst (l3_proto l) sport dport))).
Proof.
  intros Ha Hsp Hdp.
  assert (Hsrc : (length src <= 16)%nat /\ (length dst <= 16)%nat) by (destruct Ha; lia).
  assert (Hdst : length (pad16 (if l3_version l =? 6 then src else dst)) = 16%nat)
    by (apply length_pad16; case_match; lia).
  unfold build_key.
  change HASH_TYPE_SRC with (2 ^ 0). change HASH_TYPE_DST with (2 ^ 1).
  change HASH_TYPE_PROTO with (2 ^ 2). change HASH_TYPE_SPORT with (2 ^ 3).
  change HASH_TYPE_DPORT with (2 ^ 4). rewrite !land_bit by lia.
  change (zeros (sizeof flow_key))
    with (key_bytes (zeros 16) (zeros 16) (zeros 2) (zeros 2) (zeros 1) (zeros 1)).
  rewrite set_version, bind_lift_Some by done.
  erewrite assign_saddr, bind_ret by first [eassumption | shape].
  erewrite assign_daddr, bind_ret by first [eassumption | shape].
  rewrite assign_proto, bind_ret by shape.
  rewrite assign_sport, bind_ret by first [assumption | shape].
  rewrite assign_dport by first [assumption | shape].
  f_equal. unfold flow_key_of, as_seen. cbn [fl_version fl_src fl_dst fl_proto fl_sport fl_dport].
  by case_match.
Qed.
(** A flow with addresses and ports of the right sizes, as the parser returns it. *)
Record flow_wf (fl : flow) : Prop := FlowWf
  { fw_src : (length (fl_src fl) <= 16)%nat;
    fw_dst : (length (fl_dst fl) <= 16)%nat;
    fw_sport : length (fl_sport fl) = 2%nat;
    fw_dport : length (fl_dport fl) = 2%nat }.

Lemma flow_key_shape ht fl :
  flow_wf fl ->
  key_shape (select (Z.testbit ht 0) 16 (pad16 (fl_src fl)))
            (select (Z.testbit ht 1) 16 (pad16 (fl_dst fl)))
            (select (Z.testbit ht 3) 2 (fl_sport fl))
            (select (Z.testbit ht 4) 2 (fl_dport fl))
            (select (Z.testbit ht 2) 1 (le_split 1 (fl_proto fl)))
            (le_split 1 (fl_version fl)).
Proof. intros []. shape. Qed.

Lemma flow_key_of_length ht fl : flow_wf fl -> len (flow_key_of ht fl) = 38.
Proof. intros H. by apply key_bytes_length, flow_key_shape. Qed.

Lemma as_seen_wf fl : flow_wf fl -> flow_wf (as_seen fl).
Proof. intros []. unfold as_seen. case_match; by split. Qed.

Lemma addrs_match_wf l src dst version proto sport dport :
  addrs_match l src dst -> length sport = 2%nat -> length dport = 2%nat ->
  flow_wf (Flow version src dst proto sport dport).
Proof. intros [] ??; split; cbn; lia. Qed.

(** ** Debug output never fails *)

Lemma resolve_in6_byte i :
  0 <= i < 16 -> is_Some (resolve struct_in6_addr [Fld "in6_u"; Fld "u6_addr8"; Idx i]).
Proof.
  intros H%(small_cases i 16). cbn in H.
  repeat (apply elem_of_cons in H as [->|H]; [eexists; reflexivity|]). by apply not_elem_of_nil in H.
Qed.

Lemma resolve_key6_byte f i :
  f ∈ ["saddr6"%string; "daddr6"%string] -> 0 <= i < 16 ->
  is_Some (resolve flow_key [Fld f; Idx i]).
Proof.
  intros Hf H%(small_cases i 16). cbn in H.
  apply elem_of_cons in Hf as [->|Hf%list_elem_of_singleton]; [|subst];
    repeat (apply elem_of_cons in H as [->|H]; [eexists; reflexivity|]); by apply not_elem_of_nil in H.
Qed.

Lemma addr6_arg_quiet l src dst i :
  addrs_match l src dst -> 0 <= i < 16 -> exists a, addr6_arg (l3_sip6 l) i = mret a.
Proof.
  intros Ha Hi. destruct Ha as [_ _ _ _ _ ->|_ Hs _ -> _]; [by eexists|]. cbn [addr6_arg].
  destruct (resolve_in6_byte i Hi) as [r Hr].
  destruct (get_field_total struct_in6_addr _ r src eq_refl Hr) as [z Hz]; [by rewrite Hs|].
  exists (AInt z). by rewrite Hz.
Qed.

Lemma print_packet_quiet l src dst sport dport :
  addrs_match l src dst -> print_packet l sport dport ≡ mret ().
Proof.
  intros Ha. unfold print_packet. skip_stmt.
  skip_stmt; [apply forM_quiet|done]. intros i Hi. assert (0 <= i < 15).
  { repeat (apply elem_of_cons in Hi as [->|Hi]; [lia|]). by apply not_elem_of_nil in Hi. }
  destruct (addr6_arg_quiet _ _ _ i Ha ltac:(lia)) as [a ->].
  destruct (addr6_arg_quiet _ _ _ (i + 1) Ha ltac:(lia)) as [b ->]. by rewrite !bind_ret.
Qed.

Lemma print_key_quiet ht key : len key = 38 -> print_key ht key ≡ mret ().
Proof.
  intros Hl. unfold print_key. cbv zeta beta.
  assert (Hget : forall p r, resolve flow_key p = Some r -> exists z, get_field flow_key p key = Some z).
  { intros p r Hr. destruct (get_field_total flow_key p r key) as [z Hz]; try done. eauto. }
  assert (Hloop : forall f, f ∈ ["saddr6"%string; "daddr6"%string] ->
    for_lt 9 0 16 2 (fun i => a ← lift (get_field flow_key [Fld f; Idx i] key);
      b ← lift (get_field flow_key [Fld f; Idx (i + 1)] key);
      bpf_printk "%x %x" [AInt a; AInt b]) ≡ mret ()).
  { intros f Hf. apply for_lt_quiet; [lia|lia|lia|]. intros k Hk Hlt.
    destruct (resolve_key6_byte f (0 + 2 * k) Hf ltac:(lia)) as [r1 Hr1].
    destruct (resolve_key6_byte f (0 + 2 * k + 1) Hf ltac:(lia)) as [r2 Hr2].
    destruct (Hget _ _ Hr1) as [z1 ->], (Hget _ _ Hr2) as [z2 ->]. by rewrite !bind_lift_Some. }
  destruct (Hget [Fld "saddr"] _ eq_refl) as [? ->], (Hget [Fld "daddr"] _ eq_refl) as [? ->],
    (Hget [Fld "proto"] _ eq_refl) as [? ->], (Hget [Fld "sport"] _ eq_refl) as [? ->],
    (Hget [Fld "dport"] _ eq_refl) as [? ->].
  skip_stmt. rewrite !bind_lift_Some. do 2 skip_stmt.
  skip_stmt; [apply (Hloop "saddr6"%string); constructor|]. skip_stmt.
  by skip_stmt; [apply (Hloop "daddr6"%string); repeat constructor|].
Qed.

(** ** The maps *)

Lemma clone_to_mirror_correct st skb data tap missing :
  skb_ok skb data tap -> globals_ok st -> missing ≡ mret () ->
  clone_to_mirror st skb missing ≡
    match mirror_of (mirror_map st) tap with
    | Some i => bpf_clone_redirect i 0
    | None => mret ()
    end.
Proof.
  intros Hs Hg Hm. unfold clone_to_mirror, mirror_of. rewrite (so_ifindex _ _ _ Hs), bind_lift_Some.
  destruct (map_lookup (mirror_map st) (le_split 4 tap)) as [v|] eqn:Hv; [|done]. cbn [mbind option_bind].
  unfold deref. change __u32 with (CInt 4 false).
  rewrite get_field_uint, bind_lift_Some; [done|lia|].
  by apply (map_lookup_size _ _ _ _ (go_mirror _ Hg)) in Hv.
Qed.

Lemma apply_filter_correct st skb data tap key :
  skb_ok skb data tap -> globals_ok st ->
  apply_filter st skb key ≡
    match (if selected (filter_map st) key then mirror_of (mirror_map st) tap else None) with
    | Some i => bpf_clone_redirect i 0
    | None => mret ()
    end.
Proof.
  intros Hs Hg. unfold apply_filter, selected.
  destruct (map_lookup (filter_map st) key) as [v|] eqn:Hv; [|done].
  unfold deref. change __u8 with (CInt 1 false).
  rewrite get_field_uint, bind_lift_Some, bind_ret;
    [|lia|by apply (map_lookup_size _ _ _ _ (go_filter _ Hg)) in Hv].
  change (Z.to_nat 1) with 1%nat. change MIRROR with 1.
  destruct (le_combine (take 1 v) =? 1); [|done]. by eapply clone_to_mirror_correct.
Qed.

(** ** Refinement *)

Lemma port_mirror_refines_aux st skb data tap :
  skb_ok skb data tap -> globals_ok st ->
  port_mirror st skb ≡ mirror_spec as_seen st tap (sk_packet skb).
Proof.
  intros Hs Hg. unfold port_mirror, mirror_spec, mirror_target.
  rewrite (so_data _ _ _ Hs), (so_data_end _ _ _ Hs), !bind_lift_Some.
  change HASH_TYPE_NONE with 0. destruct (hash_type st =? 0).
  { by rewrite (clone_to_mirror_correct _ _ _ _ _ Hs Hg). }
  rewrite parse_l3_correct, bind_ret. pose proof (l3_of_flow data (sk_packet skb)) as Hl.
  destruct (l3_of data (sk_packet skb)) as [l|]; [|by rewrite Hl].
  destruct Hl as (o & src & dst & Ho & Hpos & Ha & ->). skip_stmt.
  rewrite (parse_ports_correct _ _ _ o), bind_ret by done. unfold parse_l4.
  destruct (Z.leb_spec (o + (if l3_proto l =? 6 then 20 else 8)) (len (sk_packet skb)));
    [|done]. cbn [mbind option_bind].
  assert (length (sub_bytes o 2 (sk_packet skb)) = 2%nat)
    by (rewrite sub_bytes_length; destruct (l3_proto l =? 6); lia).
  assert (length (sub_bytes (o + 2) 2 (sk_packet skb)) = 2%nat)
    by (rewrite sub_bytes_length; destruct (l3_proto l =? 6); lia).
  skip_stmt; [by eapply print_packet_quiet|].
  rewrite (build_key_correct _ _ _ _ _ _ Ha), bind_ret by done.
  skip_stmt; [by apply print_key_quiet, flow_key_of_length, as_seen_wf; eapply addrs_match_wf|].
  by rewrite (apply_filter_correct _ _ _ _ _ Hs Hg).
Qed.

End Spec.
