(* ===== verification/PortMirrorUser.v ===== *)
(** * The port mirror loader

    [ebpf/portmirror/src/main.rs]: for every tap interface the loader opens the program, sets its
    configuration byte, installs one filter key, and attaches the program to the traffic-control
    hooks.  The libbpf calls are not part of the repository: whether each succeeds is a
    parameter; the map updates act on the maps of the interface [bpf_map]. *)

From S2P Require Import Prelude CType Mem Bpf Io PmAbi PortMirror PortMirrorSpec.

(** ** Options and keys *)

(** [std::net::IpAddr], by the integer [to_bits] returns. *)
Inductive ip_addr := V4 (bits : Z) | V6 (bits : Z).

Record Opts := MkOpts
  { src : list Z; mirror : Z;
    attach : bool; ingress : bool; egress : bool; detach : bool;
    saddr : option ip_addr; daddr : option ip_addr;
    sport : option Z; dport : option Z; proto : option Z }.

(** [#[repr(C, packed)] struct FlowKey]: its layout, and its value. *)
Definition FlowKey_ty : cty := cstruct_packed
  [ fld "saddr" (CInt 16 false);
    fld "daddr" (CInt 16 false);
    fld "sport" (CInt 2 false);
    fld "dport" (CInt 2 false);
    fld "proto" (CInt 1 false);
    fld "ip_version" (CInt 1 false) ].

Record FlowKey := MkFlowKey
  { fk_saddr : Z; fk_daddr : Z; fk_sport : Z; fk_dport : Z; fk_proto : Z; fk_ip_version : Z }.

(** [plain::as_bytes] of a key: the members in memory order, each little-endian. *)
Definition as_bytes (k : FlowKey) : list byte :=
  key_bytes (le_split 16 (fk_saddr k)) (le_split 16 (fk_daddr k)) (le_split 2 (fk_sport k))
            (le_split 2 (fk_dport k)) (le_split 1 (fk_proto k)) (le_split 1 (fk_ip_version k)).

Definition is_ipv4 (ip : ip_addr) : bool := match ip with V4 _ => true | V6 _ => false end.

(** [to_be] swaps the bytes of an integer on the little-endian host. *)
Definition ip_to_bytes (ip : ip_addr) : Z :=
  match ip with
  | V4 bits => bswap 4 bits
  | V6 bits => bswap 16 bits
  end.

(** The values computed from the options before the program is loaded (lines 117 to 145). *)
Definition sip (o : Opts) : ip_addr := default (V4 0) (saddr o).
Definition dip (o : Opts) : ip_addr := default (V4 0) (daddr o).

Definition opts_key (o : Opts) : FlowKey :=
  {| fk_saddr := ip_to_bytes (sip o);
     fk_daddr := ip_to_bytes (dip o);
     fk_sport := bswap 2 (default 0 (sport o));
     fk_dport := bswap 2 (default 0 (dport o));
     fk_proto := bswap 1 (default 0 (proto o));
     fk_ip_version := if is_ipv4 (sip o) then 4 else 6 |}.

Definition or_if (c : bool) (flag ht : Z) : Z := if c then Z.lor ht flag else ht.

(** The configuration byte, from its initial value 0 in the object file. *)
Definition opts_hash_type (o : Opts) : Z :=
  let k := opts_key o in
  or_if (negb (fk_proto k =? 0)) HASH_TYPE_PROTO
  (or_if (negb (fk_dport k =? 0)) HASH_TYPE_DPORT
  (or_if (negb (fk_sport k =? 0)) HASH_TYPE_SPORT
  (or_if (negb (fk_daddr k =? 0)) HASH_TYPE_DST
  (or_if (negb (fk_saddr k =? 0)) HASH_TYPE_SRC HASH_TYPE_NONE)))).

(** ** The setup of one tap *)

Inductive hook := Ingress | Egress | Custom.
#[export] Instance hook_eq_dec : EqDecision hook.
Proof. solve_decision. Defined.
#[export] Instance hook_countable : Countable hook.
Proof.
  exact (inj_countable'
    (fun h => match h with Ingress => 0%nat | Egress => 1%nat | Custom => 2%nat end)
    (fun n => match n with 0%nat => Ingress | 1%nat => Egress | _ => Custom end)
    ltac:(intros []; reflexivity)).
Defined.
#[export] Instance hook_of_countable : Countable (Z * hook) := prod_countable.

(** The libbpf calls whose outcome is up to the system. *)
Inductive call :=
| SetRlimit
| OpenSkel (tap : Z)
| LoadSkel (tap ht : Z)
| DetachHook (tap : Z) (h : hook)
| CreateHook (tap : Z) (h : hook)
| AttachHook (tap : Z) (h : hook).

(** For each hook of an interface that has a program attached, the state of that program. *)
Abbreviation hooks M := (gmap (Z * hook) (globals (M := M))).

Section Main.
Context {M : Type} {MAP : bpf_map M}.

(** [outcome log c]: the error of the call [c] after the calls of [log], if it fails. *)
Variable outcome : list call -> call -> option Z.

Definition detach_hook (tap : Z) (h : hook) : io call (hooks M) () :=
  do_call outcome (DetachHook tap h) (delete (tap, h)).
Definition create_hook (tap : Z) (h : hook) : io call (hooks M) () :=
  do_call outcome (CreateHook tap h) id.

(** Attaching replaces what the same hook ran before ([replace(true)]). *)
Definition attach_hook (tap : Z) (h : hook) (g : globals) : io call (hooks M) () :=
  do_call outcome (AttachHook tap h) <[(tap, h) := g]>.

Local Open Scope io_scope.

(** The body of the loop over the tap interfaces (lines 107 to 222). *)
Definition setup_tap (o : Opts) (tap : Z) : io call (hooks M) globals :=
  do_call outcome (OpenSkel tap) id ;;;
  do_call outcome (LoadSkel tap (opts_hash_type o)) id ;;;
  filter <- io_lift (map_update (map_create filter_map_def) (as_bytes (opts_key o)) [Byte.x01]) ;;
  when_io (detach o)
    (ignore (detach_hook tap Ingress) ;;;
     ignore (detach_hook tap Egress) ;;;
     ignore (detach_hook tap Custom)) ;;;
  let g := Globals (opts_hash_type o) filter (map_create mirror_map_def) in
  if attach o then
    mirrors <- io_lift (map_update (map_create mirror_map_def) (le_split 4 tap) (le_split 4 (mirror o))) ;;
    let g := Globals (opts_hash_type o) filter mirrors in
    create_hook tap Ingress ;;;
    when_io (ingress o) (ignore (attach_hook tap Ingress g)) ;;;
    when_io (egress o) (ignore (attach_hook tap Egress g)) ;;;
    when_io (negb (ingress o) && negb (egress o))
      (ignore (attach_hook tap Egress g) ;;;
       ignore (attach_hook tap Ingress g) ;;;
       ignore (attach_hook tap Custom g)) ;;;
    io_ret g
  else io_ret g.

Fixpoint for_taps (o : Opts) (taps : list Z) : io call (hooks M) () :=
  match taps with
  | [] => io_ret ()
  | tap :: taps => setup_tap o tap ;;; for_taps o taps
  end.

Definition main (o : Opts) : io call (hooks M) () :=
  do_call outcome SetRlimit id ;;; for_taps o (src o).

End Main.
