(* ===== verification/PortMirrorUserSpec.v ===== *)
(** * What the port mirror loader promises

    The key the loader installs and the configuration byte it sets select, in the C program, the
    packets that match the options.  The helper lemmas relate the two key representations; the
    end-to-end theorems are in [PortMirrorTheorems]. *)

From S2P Require Import Prelude CType Mem Bpf Io PmAbi PortMirror PortMirrorSpec PortMirrorUser.

(** ** What the user asks for *)

Definition ip_bits (ip : ip_addr) : Z := match ip with V4 b | V6 b => b end.

(** The octets of an address and of a port, in network order. *)
Definition addr_octets (ip : ip_addr) : list byte :=
  match ip with V4 b => reverse (le_split 4 b) | V6 b => reverse (le_split 16 b) end.
Definition num_octets (n : nat) (z : Z) : list byte := reverse (le_split n z).

(** An option that is absent, or zero, constrains nothing. *)
Definition addr_matches (a : option ip_addr) (field : list byte) : bool :=
  match a with
  | None => true
  | Some ip => (ip_bits ip =? 0) || bool_decide (field = addr_octets ip)
  end.

Definition num_matches (n : nat) (a : option Z) (field : list byte) : bool :=
  match a with
  | None => true
  | Some z => (z =? 0) || bool_decide (field = num_octets n z)
  end.

Definition user_matches (o : Opts) (fl : flow) : bool :=
  addr_matches (saddr o) (fl_src fl) && addr_matches (daddr o) (fl_dst fl) &&
  num_matches 2 (sport o) (fl_sport fl) && num_matches 2 (dport o) (fl_dport fl) &&
  num_matches 1 (proto o) (le_split 1 (fl_proto fl)).

(** The IP version of the flows a set of options can select: that of the source address, 4 when
    there is none. *)
Definition user_version (o : Opts) : Z := if is_ipv4 (sip o) then 4 else 6.

Definition ip_ok (ip : ip_addr) : Prop :=
  match ip with V4 b => 0 <= b < 2 ^ 32 | V6 b => 0 <= b < 2 ^ 128 end.

Definition opt_below (n : Z) (a : option Z) : Prop :=
  match a with None => True | Some z => 0 <= z < n end.

(** The options hold values of their Rust types. *)
Record opts_ok (o : Opts) : Prop := OptsOk
  { oo_saddr : ip_ok (sip o); oo_daddr : ip_ok (dip o);
    oo_sport : opt_below (2 ^ 16) (sport o); oo_dport : opt_below (2 ^ 16) (dport o);
    oo_proto : opt_below (2 ^ 8) (proto o); oo_mirror : 0 <= mirror o < 2 ^ 32 }.

(** The destination, when one is given, has the family of the source. *)
Definition same_family (o : Opts) : Prop :=
  ip_bits (dip o) = 0 \/ is_ipv4 (dip o) = is_ipv4 (sip o).

(** A flow as the parser returns it. *)
Definition flow_shape (fl : flow) : Prop :=
  (fl_version fl = 4 /\ length (fl_src fl) = 4%nat /\ length (fl_dst fl) = 4%nat \/
   fl_version fl = 6 /\ length (fl_src fl) = 16%nat /\ length (fl_dst fl) = 16%nat) /\
  length (fl_sport fl) = 2%nat /\ length (fl_dport fl) = 2%nat /\ 0 <= fl_proto fl < 256.

(** ** Fields of keys *)

Lemma flow_shape_wf fl : flow_shape fl -> flow_wf fl.
Proof. intros ([(_&?&?)|(_&?&?)]&?&?&_); split; lia. Qed.

Lemma parse_l4_shape bs l4 version s d p fl :
  0 <= l4 ->
  (version = 4 /\ length s = 4%nat /\ length d = 4%nat \/
   version = 6 /\ length s = 16%nat /\ length d = 16%nat) -> 0 <= p < 256 ->
  parse_l4 bs l4 version s d p = Some fl -> flow_shape fl /\ fl_version fl = version.
Proof.
  intros Hl Hv Hp. unfold parse_l4.
  destruct (Z.leb_spec (l4 + (if p =? 6 then 20 else 8)) (len bs)) as [Hlen|]; [|done].
  intros [= <-]. split; [|done]. split; [done|]. cbn.
  rewrite !sub_bytes_length by (destruct (p =? 6); lia). done.
Qed.

Lemma u8_at_range k bs : 0 <= u8_at k bs < 256.
Proof.
  unfold u8_at. pose proof (le_combine_bound (sub_bytes k 1 bs)) as H.
  assert (length (sub_bytes k 1 bs) <= 1)%nat by (unfold sub_bytes; rewrite length_take; lia).
  assert (2 ^ (8 * len (sub_bytes k 1 bs)) <= 2 ^ 8) by (apply Z.pow_le_mono_r; lia).
  change 256 with (2 ^ 8). lia.
Qed.

Lemma parse_flow_shape bs fl : parse_flow bs = Some fl -> flow_shape fl.
Proof.
  unfold parse_flow. destruct (Z.ltb_spec (len bs) 14); [done|].
  pose proof (Z.mod_pos_bound (u8_at 14 bs) 16 ltac:(lia)).
  case_bool_decide; [|case_bool_decide; [|done]].
  - destruct (Z.ltb_spec (len bs) 34); [done|].
    intros Hp%parse_l4_shape; [by destruct Hp|lia| |apply u8_at_range].
    left. by rewrite !sub_bytes_length by lia.
  - destruct (Z.ltb_spec (len bs) 54); [done|].
    intros Hp%parse_l4_shape; [by destruct Hp|lia| |apply u8_at_range].
    right. by rewrite !sub_bytes_length by lia.
Qed.

Lemma key_bytes_inj s d sp dp p v s' d' sp' dp' p' v' :
  key_shape s d sp dp p v -> key_shape s' d' sp' dp' p' v' ->
  key_bytes s d sp dp p v = key_bytes s' d' sp' dp' p' v' <->
  s = s' /\ d = d' /\ sp = sp' /\ dp = dp' /\ p = p' /\ v = v'.
Proof.
  intros (?&?&?&?&?&?) (?&?&?&?&?&?). split; [|by intros (->&->&->&->&->&->)].
  unfold key_bytes. intros E.
  do 5 (apply app_inj_1 in E; [destruct E as [? E]|congruence]). done.
Qed.

Lemma le_split_zero n : le_split n 0 = repeat Byte.x00 n.
Proof.
  apply le_combine_inj; [by rewrite length_le_split, repeat_length|].
  by rewrite le_combine_split, le_combine_0, Z.mod_0_l by (apply Z.pow_nonzero; lia).
Qed.

Lemma pad16_inj a b : length a = length b -> pad16 a = pad16 b <-> a = b.
Proof.
  intros Hl. split; [|by intros ->]. unfold pad16. intros H. by apply app_inj_1 in H as [-> _].
Qed.

(** A 4-byte value in a 16-byte little-endian integer. *)
Lemma le_split_16_4 x : 0 <= x < 2 ^ 32 -> le_split 16 x = pad16 (le_split 4 x).
Proof.
  intros Hx. apply le_combine_inj.
  - unfold pad16. by rewrite length_app, !length_le_split, length_zeros_nat.
  - unfold pad16, zeros. rewrite length_le_split, le_combine_app_0, !le_combine_split.
    rewrite (Z.mod_small x (2 ^ (Z.of_nat 16 * 8))); [by rewrite Z.mod_small|].
    split; [lia|]. eapply Z.lt_le_trans; [apply Hx|]. by apply Z.pow_le_mono_r.
Qed.

Lemma ip_to_bytes_octets ip : le_split 16 (ip_to_bytes ip) = pad16 (addr_octets ip).
Proof.
  destruct ip as [b|b]; cbn [ip_to_bytes addr_octets].
  - rewrite le_split_16_4, bswap_split by apply (bswap_range 4). done.
  - rewrite bswap_split, pad16_full; [done|]. by rewrite length_reverse, length_le_split.
Qed.

Lemma ip_to_bytes_0 ip : ip_ok ip -> (ip_to_bytes ip =? 0) = (ip_bits ip =? 0).
Proof.
  intros H. destruct ip as [b|b]; cbn in *.
  - pose proof (bswap_0_iff 4 b). destruct (Z.eqb_spec b 0), (Z.eqb_spec (bswap 4 b) 0); tauto.
  - pose proof (bswap_0_iff 16 b). destruct (Z.eqb_spec b 0), (Z.eqb_spec (bswap 16 b) 0); tauto.
Qed.

(** One address field of the installed key against the field of a flow of the same family. *)
Lemma addr_field a ip field :
  ip = default (V4 0) a -> ip_ok ip -> (ip_bits ip <> 0 -> length field = length (addr_octets ip)) ->
  le_split 16 (ip_to_bytes ip) = select (negb (ip_to_bytes ip =? 0)) 16 (pad16 field) <->
  addr_matches a field = true.
Proof.
  intros Hip Hok Hlen. rewrite ip_to_bytes_0 by done.
  assert (Ha : addr_matches a field = (ip_bits ip =? 0) || bool_decide (field = addr_octets ip)).
  { destruct a; subst; done. }
  rewrite Ha. unfold select. destruct (Z.eqb_spec (ip_bits ip) 0) as [E|E]; cbn [negb orb].
  - split; [done|]. intros _.
    assert (ip_to_bytes ip = 0) as ->.
    { apply Z.eqb_eq. rewrite ip_to_bytes_0, E by done. done. }
    apply le_split_zero.
  - rewrite ip_to_bytes_octets, pad16_inj by (symmetry; by apply Hlen).
    rewrite bool_decide_eq_true. split; congruence.
Qed.

(** One numeric field of [n] bytes. *)
Lemma num_field n a field :
  opt_below (2 ^ (8 * Z.of_nat n)) a ->
  le_split n (bswap n (default 0 a)) =
    select (negb (bswap n (default 0 a) =? 0)) (Z.of_nat n) field <->
  num_matches n a field = true.
Proof.
  intros Ha.
  assert (Hr : 0 <= default 0 a < 2 ^ (8 * Z.of_nat n)).
  { destruct a; cbn in *; [done|]. split; [lia|]. apply Z.pow_pos_nonneg; lia. }
  assert (Hm : num_matches n a field
               = (default 0 a =? 0) || bool_decide (field = num_octets n (default 0 a))).
  { by destruct a. }
  rewrite Hm. pose proof (bswap_0_iff n (default 0 a) Hr) as H0. unfold select, num_octets.
  destruct (Z.eqb_spec (default 0 a) 0) as [E|E], (Z.eqb_spec (bswap n (default 0 a)) 0) as [E'|E'];
    try tauto; cbn [negb orb].
  - split; [done|]. intros _. rewrite E', le_split_zero. unfold zeros. by rewrite Nat2Z.id.
  - rewrite bswap_split, bool_decide_eq_true. split; congruence.
Qed.

(** ** The configuration byte *)

Lemma opts_hash_bits o :
  Z.testbit (opts_hash_type o) 0 = negb (ip_to_bytes (sip o) =? 0) /\
  Z.testbit (opts_hash_type o) 1 = negb (ip_to_bytes (dip o) =? 0) /\
  Z.testbit (opts_hash_type o) 2 = negb (bswap 1 (default 0 (proto o)) =? 0) /\
  Z.testbit (opts_hash_type o) 3 = negb (bswap 2 (default 0 (sport o)) =? 0) /\
  Z.testbit (opts_hash_type o) 4 = negb (bswap 2 (default 0 (dport o)) =? 0).
Proof.
  unfold opts_hash_type, opts_key. cbn [fk_saddr fk_daddr fk_sport fk_dport fk_proto].
  destruct (ip_to_bytes (sip o) =? 0), (ip_to_bytes (dip o) =? 0),
    (bswap 1 (default 0 (proto o)) =? 0), (bswap 2 (default 0 (sport o)) =? 0),
    (bswap 2 (default 0 (dport o)) =? 0); done.
Qed.

Lemma opts_key_shape o :
  key_shape (le_split 16 (ip_to_bytes (sip o))) (le_split 16 (ip_to_bytes (dip o)))
    (le_split 2 (bswap 2 (default 0 (sport o)))) (le_split 2 (bswap 2 (default 0 (dport o))))
    (le_split 1 (bswap 1 (default 0 (proto o)))) (le_split 1 (if is_ipv4 (sip o) then 4 else 6)).
Proof. repeat split; apply length_le_split. Qed.

(** ** The installed key selects the flows that match *)

Lemma version_byte v w : v = 4 \/ v = 6 -> w = 4 \/ w = 6 -> le_split 1 v = le_split 1 w <-> v = w.
Proof. intros [->| ->] [->| ->]; split; done. Qed.

Lemma opts_key_match o fl :
  opts_ok o -> same_family o -> flow_shape fl ->
  as_bytes (opts_key o) = flow_key_of (opts_hash_type o) fl <->
  fl_version fl = user_version o /\ user_matches o fl = true.
Proof.
  intros [Hs Hd Hsp Hdp Hp _] Hfam Hfl. pose proof (flow_shape_wf _ Hfl) as Hwf.
  unfold as_bytes, flow_key_of, opts_key.
  cbn [fk_saddr fk_daddr fk_sport fk_dport fk_proto fk_ip_version].
  rewrite key_bytes_inj by (apply opts_key_shape || by apply flow_key_shape).
  destruct (opts_hash_bits o) as (-> & -> & -> & -> & ->).
  destruct Hfl as (Hver & Hlsp & Hldp & _).
  rewrite version_byte by (destruct (is_ipv4 (sip o)); tauto).
  fold (user_version o). unfold user_matches. rewrite !andb_true_iff.
  pose proof (num_field 2 (sport o) (fl_sport fl) Hsp) as E1.
  pose proof (num_field 2 (dport o) (fl_dport fl) Hdp) as E2.
  pose proof (num_field 1 (proto o) (le_split 1 (fl_proto fl)) Hp) as E3.
  change (Z.of_nat 2) with 2 in E1, E2. change (Z.of_nat 1) with 1 in E3.
  rewrite E1, E2, E3.
  destruct (decide (fl_version fl = user_version o)) as [Hv|Hv];
    [|split; intros; destruct_and?; congruence].
  assert (Hl : length (addr_octets (sip o)) = (if is_ipv4 (sip o) then 4 else 16)%nat)
    by (destruct (sip o); cbn; by rewrite length_reverse, length_le_split).
  assert (Hl' : ip_bits (dip o) <> 0 -> length (addr_octets (dip o)) = length (addr_octets (sip o))).
  { intros Hnz. destruct Hfam as [?|Hf]; [done|]. rewrite Hl.
    destruct (dip o), (sip o); cbn in *; try done; by rewrite length_reverse, length_le_split. }
  assert (Hf : length (fl_src fl) = length (addr_octets (sip o)) /\
               length (fl_dst fl) = length (addr_octets (sip o))).
  { rewrite Hl. unfold user_version in Hv. destruct (is_ipv4 (sip o)); lia. }
  pose proof (addr_field (saddr o) (sip o) (fl_src fl) eq_refl Hs ltac:(tauto)) as A1.
  pose proof (addr_field (daddr o) (dip o) (fl_dst fl) eq_refl Hd
                ltac:(intros Hnz; rewrite Hl' by done; tauto)) as A2.
  rewrite A1, A2. split; intros; destruct_and!; repeat split; done.
Qed.

(** ** The state of an attached program *)

Section LoaderSpec.
Context {M : Type} {MAP : bpf_map M} (outcome : list call -> call -> option Z).

(** What the loader gives the program of a tap: the configuration byte, a filter map with the
    one key of the options, a mirror map with the one entry of the tap. *)
Record program_for (o : Opts) (tap : Z) (g : globals (M := M)) : Prop := ProgramFor
  { pf_hash : hash_type g = opts_hash_type o;
    pf_filter : map_update (map_create filter_map_def) (as_bytes (opts_key o)) [Byte.x01]
                = inl (filter_map g);
    pf_mirror : map_update (map_create mirror_map_def) (le_split 4 tap) (le_split 4 (mirror o))
                = inl (mirror_map g) }.

(** Every hook that has a program runs the one for its interface. *)
Definition hooks_ok (o : Opts) (s : hooks M) : Prop :=
  map_Forall (fun k g => k.1 ∈ src o /\ program_for o k.1 g) s.

Lemma keeps_detach o tap h : keeps (hooks_ok o) (detach_hook outcome tap h).
Proof. apply keeps_call. intros m Hm. by apply map_Forall_delete. Qed.

Lemma keeps_attach o tap h g :
  tap ∈ src o -> program_for o tap g -> keeps (hooks_ok o) (attach_hook outcome tap h g).
Proof. intros. apply keeps_call. intros m Hm. by apply map_Forall_insert_2. Qed.

#[local] Hint Resolve keeps_detach keeps_attach : keeps.

Lemma keeps_setup o tap : tap ∈ src o -> keeps (hooks_ok o) (setup_tap outcome o tap).
Proof.
  intros Ht. unfold setup_tap. apply keeps_bind; [auto with keeps|intros []].
  apply keeps_bind; [auto with keeps|intros []]. apply keeps_bind_lift. intros filter Hf.
  apply keeps_bind; [auto 10 with keeps|intros []].
  destruct (attach o); [|apply keeps_ret]. apply keeps_bind_lift. intros mirrors Hm.
  assert (program_for o tap (Globals (opts_hash_type o) filter mirrors)) by by split.
  unfold create_hook. auto 20 with keeps.
Qed.

Lemma keeps_for_taps o taps :
  (forall tap, tap ∈ taps -> tap ∈ src o) -> keeps (hooks_ok o) (for_taps outcome o taps).
Proof.
  induction taps as [|tap taps IH]; intros Hin; cbn; [apply keeps_ret|].
  apply keeps_bind; [apply keeps_setup, Hin; constructor|]. intros _. apply IH.
  intros t Ht. apply Hin. by constructor.
Qed.

Lemma keeps_main o : keeps (hooks_ok o) (main outcome o).
Proof.
  unfold main. apply keeps_bind; [apply keeps_idle|]. intros _. by apply keeps_for_taps.
Qed.

(** ** The hooks after a run without failures *)

(** The hooks the options ask for. *)
Definition wanted (o : Opts) (h : hook) : bool :=
  if negb (ingress o) && negb (egress o) then true
  else match h with Ingress => ingress o | Egress => egress o | Custom => false end.

(** What runs on a hook of a tap when it ran [prev] before. *)
Definition hook_after (o : Opts) (g : globals (M := M)) (h : hook) (prev : option (globals (M := M)))
    : option (globals (M := M)) :=
  if attach o && wanted o h then Some g else if detach o then None else prev.

Context (NOFAIL : forall log c, outcome log c = None).

(** Looks up a hook after updates of the three hooks of a tap. *)
Ltac hook_lookup :=
  intros t h;
  match goal with |- context [?x =? ?y] => destruct (Z.eqb_spec x y) as [->|] end; try destruct h;
  repeat first
    [ rewrite lookup_insert_eq | rewrite lookup_delete_eq
    | rewrite lookup_insert_ne by congruence | rewrite lookup_delete_ne by congruence ]; done.

Lemma detach_phase (o : Opts) (tap : Z) (p : process call (hooks M)) :
  exists p', when_io (detach o)
    (ignore (detach_hook outcome tap Ingress) ;;;
     ignore (detach_hook outcome tap Egress) ;;;
     ignore (detach_hook outcome tap Custom))%io p = (p', inl ()) /\
  forall t h, p_state p' !! (t, h) =
    if t =? tap then if detach o then None else p_state p !! (t, h) else p_state p !! (t, h).
Proof.
  unfold when_io. destruct (detach o).
  - eexists. split; [unfold detach_hook, ignore, io_bind, do_call; rewrite !NOFAIL; reflexivity|].
    cbn. hook_lookup.
  - eexists. split; [reflexivity|]. intros t h. by case_match.
Qed.

Lemma attach_phase (o : Opts) (tap : Z) (g : globals (M := M)) (p : process call (hooks M)) :
  exists p', (create_hook outcome tap Ingress ;;;
     when_io (ingress o) (ignore (attach_hook outcome tap Ingress g)) ;;;
     when_io (egress o) (ignore (attach_hook outcome tap Egress g)) ;;;
     when_io (negb (ingress o) && negb (egress o))
      (ignore (attach_hook outcome tap Egress g) ;;;
       ignore (attach_hook outcome tap Ingress g) ;;;
       ignore (attach_hook outcome tap Custom g)) ;;;
     io_ret g)%io p = (p', inl g) /\
  forall t h, p_state p' !! (t, h) =
    if t =? tap then if wanted o h then Some g else p_state p !! (t, h) else p_state p !! (t, h).
Proof.
  unfold create_hook, attach_hook, wanted.
  destruct (ingress o), (egress o); eexists;
    (split; [unfold when_io, ignore, io_bind, io_ret, do_call; cbn [negb andb];
             rewrite !NOFAIL; reflexivity|]); cbn; hook_lookup.
Qed.

Lemma setup_hooks o tap g p :
  program_for o tap g ->
  exists r, (setup_tap outcome o tap p).2 = inl r /\ (attach o = true -> r = g) /\
    forall t h, p_state (setup_tap outcome o tap p).1 !! (t, h) =
      if t =? tap then hook_after o g h (p_state p !! (t, h)) else p_state p !! (t, h).
Proof.
  intros [Hh Hf Hm]. assert (Globals (opts_hash_type o) (filter_map g) (mirror_map g) = g) as Hg
    by (destruct g; cbn in *; congruence).
  unfold setup_tap. rewrite !bind_call, (bind_lift_ok _ _ _ _ Hf) by done.
  edestruct (detach_phase o tap) as (p1 & E1 & H1). rewrite (bind_run _ _ _ _ _ E1). clear E1.
  unfold hook_after. destruct (attach o).
  - rewrite (bind_lift_ok _ _ _ _ Hm), Hg.
    destruct (attach_phase o tap g p1) as (p2 & -> & H2). eexists. split_and!; [done..|].
    intros t h. cbn [fst]. rewrite H2, H1. cbn. by destruct (t =? tap), (wanted o h).
  - eexists. split_and!; [reflexivity|done|]. intros t h. cbn [io_ret fst andb]. by rewrite H1.
Qed.

Lemma hook_after_idem o g h prev : hook_after o g h (hook_after o g h prev) = hook_after o g h prev.
Proof. unfold hook_after. by destruct (attach o && wanted o h), (detach o). Qed.

Lemma for_taps_hooks o g taps p :
  Forall (fun tap => program_for o tap (g tap)) taps ->
  (for_taps outcome o taps p).2 = inl () /\
  forall tap h, p_state (for_taps outcome o taps p).1 !! (tap, h) =
    if bool_decide (tap ∈ taps) then hook_after o (g tap) h (p_state p !! (tap, h))
    else p_state p !! (tap, h).
Proof.
  revert p. induction taps as [|t taps IH]; intros p Hall; cbn [for_taps].
  { split; [done|]. intros tap h. by rewrite bool_decide_eq_false_2 by apply not_elem_of_nil. }
  inversion Hall as [|? ? Ht Hts]; subst.
  destruct (setup_hooks o t (g t) p Ht) as (r & Hr & _ & Hh).
  unfold io_bind at 1 2. destruct (setup_tap outcome o t p) as [p1 r1]. cbn in Hr, Hh. subst.
  destruct (IH p1 Hts) as [E1 E2]. split; [done|]. intros tap h. rewrite E2, Hh.
  destruct (Z.eqb_spec tap t) as [->|Hne].
  - rewrite (bool_decide_eq_true_2 (t ∈ t :: taps)) by constructor.
    case_bool_decide; [apply hook_after_idem|done].
  - rewrite (bool_decide_ext (tap ∈ t :: taps) (tap ∈ taps)); [done|]. rewrite elem_of_cons. tauto.
Qed.

Lemma main_hooks o g p :
  Forall (fun tap => program_for o tap (g tap)) (src o) ->
  (main outcome o p).2 = inl () /\
  forall tap h, p_state (main outcome o p).1 !! (tap, h) =
    if bool_decide (tap ∈ src o) then hook_after o (g tap) h (p_state p !! (tap, h))
    else p_state p !! (tap, h).
Proof. intros Hall. unfold main. rewrite bind_call by done. exact (for_taps_hooks o g _ (Process _ (p_state p)) Hall). Qed.
End LoaderSpec.
