(* ===== verification/PortMirrorTheorems.v ===== *)
(** * The port mirror: properties

    The properties of the C program and of its loader, with an instance of each at a concrete
    packet and configuration. *)

From S2P Require Import Prelude CType Mem Bpf Io PmAbi PortMirror PortMirrorSpec PortMirrorUser PortMirrorUserSpec.

(** ** Concrete packets and states for the instances *)

Definition bytes (l : list Z) : list byte := byte.of_Z <$> l.

(** A context object with the fields the program reads. *)
Definition mk_skb (tap data : Z) (pkt : list byte) : skbuff :=
  SkBuff (default [] (c ← set_field struct___sk_buff [Fld "ifindex"] tap (zeros (sizeof struct___sk_buff));
                      c ← set_field struct___sk_buff [Fld "data"] data c;
                      set_field struct___sk_buff [Fld "data_end"] (data + len pkt) c)) pkt.

Definition eth (proto : list Z) : list Z := [2; 0; 0; 0; 0; 1] ++ [2; 0; 0; 0; 0; 2] ++ proto.

(** A UDP datagram from 10.0.0.1:53 to 10.0.0.2:1024, and one between two IPv6 addresses. *)
Definition udp4 : list byte :=
  bytes (eth [8; 0] ++ [0x45; 0; 0; 28; 0; 0; 0; 0; 64; 17; 0; 0; 10; 0; 0; 1; 10; 0; 0; 2]
         ++ [0; 53; 4; 0; 0; 8; 0; 0]).
Definition udp6 (s d : Z) : list byte :=
  bytes (eth [0x86; 0xdd] ++ [0x60; 0; 0; 0; 0; 8; 17; 64]) ++
  addr_octets (V6 s) ++ addr_octets (V6 d) ++ bytes [0; 53; 4; 0; 0; 8; 0; 0].

Definition empty_opts : Opts := MkOpts [3] 9 true false false false None None None None None.
Definition opts4 : Opts :=
  MkOpts [3] 9 true false false false (Some (V4 0x0a000001)) None None (Some 1024) (Some 17).
Definition opts6_daddr : Opts :=
  MkOpts [3] 9 true false false false None (Some (V6 7)) None None None.
Definition opts6_saddr : Opts :=
  MkOpts [3] 9 true false false false (Some (V6 5)) None None None None.
Definition opts6_both : Opts :=
  MkOpts [3] 9 true false false false (Some (V6 5)) (Some (V6 7)) None None None.

(** The program state the loader installs when the updates succeed. *)
Definition ok_or {A} (d : A) (r : A + Z) : A := match r with inl a => a | inr _ => d end.
Definition is_ok {A} (r : A + Z) : bool := match r with inl _ => true | inr _ => false end.
Definition filter_update (o : Opts) : fmap_state + Z :=
  map_update (map_create filter_map_def) (as_bytes (opts_key o)) [Byte.x01].
Definition mirror_update (o : Opts) (tap : Z) : fmap_state + Z :=
  map_update (map_create mirror_map_def) (le_split 4 tap) (le_split 4 (mirror o)).
Definition loaded (o : Opts) (tap : Z) : globals (M := fmap_state) :=
  Globals (opts_hash_type o) (ok_or (map_create filter_map_def) (filter_update o))
          (ok_or (map_create mirror_map_def) (mirror_update o tap)).

Lemma ok_or_ok {A} (d : A) r : is_ok r = true -> r = inl (ok_or d r).
Proof. by destruct r. Qed.

Lemma loaded_program o tap :
  is_ok (filter_update o) && is_ok (mirror_update o tap) = true -> program_for o tap (loaded o tap).
Proof. intros [??]%andb_true_iff. by split; [done|apply ok_or_ok..]. Qed.

Lemma mk_skb_ok_udp4 : skb_ok (mk_skb 3 0x10000 udp4) 0x10000 3.
Proof. by split; vm_compute. Qed.

Lemma program_for_globals_ok {M} {MAP : bpf_map M} o tap g :
  program_for o tap g -> globals_ok g.
Proof.
  intros [_ Hf Hm]. split.
  - eapply (map_update_ok filter_map_def _ _ [Byte.x01]); [by apply map_create_ok|done|exact Hf].
  - eapply (map_update_ok mirror_map_def _ _ (le_split 4 (mirror o)));
      [by apply map_create_ok|by rewrite length_le_split|exact Hm].
Qed.

(** ** The C program *)

Section Program.
Context {ENDIAN : bpf_endian} {M : Type} {MAP : bpf_map M}.

(** The effect of the abstract program. *)
Lemma mirror_spec_effect seen st tap bs :
  result (mirror_spec seen st tap bs) = Some TC_ACT_OK /\
  clones (events (mirror_spec seen st tap bs)) =
    match mirror_target seen st tap bs with Some i => [(i, 0)] | None => [] end.
Proof. unfold mirror_spec. by destruct (mirror_target seen st tap bs). Qed.

Lemma port_mirror_clones st skb data tap :
  skb_ok skb data tap -> globals_ok st ->
  clones (events (port_mirror st skb)) =
    match mirror_target as_seen st tap (sk_packet skb) with Some i => [(i, 0)] | None => [] end.
Proof.
  intros Hs Hg. destruct (port_mirror_refines_aux _ _ _ _ Hs Hg) as [_ ->].
  apply mirror_spec_effect.
Qed.

(** C1: the C function refines its specification: for every packet, it has the result and clones
    the packets of the abstract program, whose decision is a function of the parsed flow. *)
Theorem port_mirror_refines st skb data tap :
  skb_ok skb data tap -> globals_ok st ->
  port_mirror st skb ≡ mirror_spec as_seen st tap (sk_packet skb).
Proof. apply port_mirror_refines_aux. Qed.

(** For a packet that is not IPv6, or when no destination address is filtered, the decision
    is the intended one: the lookup key is built from the packet's own source and destination. *)
Theorem port_mirror_intended st skb data tap :
  skb_ok skb data tap -> globals_ok st ->
  Z.testbit (hash_type st) 1 = false \/
    (forall fl, parse_flow (sk_packet skb) = Some fl -> fl_version fl = 4) ->
  port_mirror st skb ≡ mirror_spec id st tap (sk_packet skb).
Proof.
  intros Hs Hg Hd. rewrite (port_mirror_refines_aux _ _ _ _ Hs Hg).
  unfold mirror_spec, mirror_target. destruct (hash_type st =? 0); [done|].
  destruct (parse_flow (sk_packet skb)) as [fl|]; [|done]. cbn [mbind option_bind].
  replace (flow_key_of (hash_type st) (as_seen fl)) with (flow_key_of (hash_type st) (id fl)); [done|].
  unfold as_seen. case_match eqn:H6; [|done]. apply Z.eqb_eq in H6.
  destruct Hd as [Hd|Hd]; [|specialize (Hd fl eq_refl); lia].
  unfold flow_key_of, id. by rewrite Hd.
Qed.

(** Two IPv6 packets that differ only in their destination address are treated alike, even
    when the destination is filtered: the key holds the source address in its place. *)
Theorem ipv6_destination_ignored st skb1 skb2 data1 data2 tap fl d :
  skb_ok skb1 data1 tap -> skb_ok skb2 data2 tap -> globals_ok st -> hash_type st <> 0 ->
  parse_flow (sk_packet skb1) = Some fl -> fl_version fl = 6 ->
  parse_flow (sk_packet skb2)
    = Some (Flow 6 (fl_src fl) d (fl_proto fl) (fl_sport fl) (fl_dport fl)) ->
  clones (events (port_mirror st skb1)) = clones (events (port_mirror st skb2)).
Proof.
  intros H1 H2 Hg Hh Hp1 Hv Hp2.
  rewrite (port_mirror_clones _ _ _ _ H1 Hg), (port_mirror_clones _ _ _ _ H2 Hg).
  unfold mirror_target. rewrite Hp1, Hp2. cbn [mbind option_bind].
  unfold as_seen. cbn. by rewrite Hv.
Qed.

(** Without a filter every packet is cloned to the mirror interface of its own interface;
    with one, a packet that is not a complete IP packet is never cloned. *)
Theorem port_mirror_branches st skb data tap :
  skb_ok skb data tap -> globals_ok st ->
  (hash_type st = 0 ->
     clones (events (port_mirror st skb)) =
       match mirror_of (mirror_map st) tap with Some i => [(i, 0)] | None => [] end) /\
  (hash_type st <> 0 -> parse_flow (sk_packet skb) = None ->
     clones (events (port_mirror st skb)) = []).
Proof.
  intros Hs Hg. rewrite (port_mirror_clones _ _ _ _ Hs Hg). unfold mirror_target. split.
  - by intros ->.
  - intros Hh ->. by destruct (Z.eqb_spec (hash_type st) 0).
Qed.

Lemma select_inj b n x y : select b n x = select b n y <-> (b = true -> x = y).
Proof. destruct b; cbn; split; intros; try done; auto. Qed.

Lemma byte_inj x y : 0 <= x < 256 -> 0 <= y < 256 -> le_split 1 x = le_split 1 y <-> x = y.
Proof.
  intros. split; [|by intros ->]. intros E%(f_equal le_combine).
  rewrite !le_combine_split, !Z.mod_small in E by done. done.
Qed.

Lemma addr_length fl1 fl2 :
  flow_shape fl1 -> flow_shape fl2 -> fl_version fl1 = fl_version fl2 ->
  length (fl_src fl1) = length (fl_src fl2) /\ length (fl_dst fl1) = length (fl_dst fl2).
Proof. intros (?&_) (?&_) ?. lia. Qed.

Lemma flow_key_selects_aux ht f1 f2 :
  flow_shape f1 -> flow_shape f2 ->
  flow_key_of ht f1 = flow_key_of ht f2 <->
  fl_version f1 = fl_version f2 /\
  (Z.testbit ht 0 = true -> fl_src f1 = fl_src f2) /\
  (Z.testbit ht 1 = true -> fl_dst f1 = fl_dst f2) /\
  (Z.testbit ht 2 = true -> fl_proto f1 = fl_proto f2) /\
  (Z.testbit ht 3 = true -> fl_sport f1 = fl_sport f2) /\
  (Z.testbit ht 4 = true -> fl_dport f1 = fl_dport f2).
Proof.
  intros H1 H2. pose proof (addr_length _ _ H1 H2) as Hl. unfold flow_key_of.
  rewrite key_bytes_inj by (apply flow_key_shape; by apply flow_shape_wf).
  destruct H1 as (V1 & ? & ? & P1), H2 as (V2 & ? & ? & P2).
  rewrite version_byte, !select_inj, (byte_inj (fl_proto f1)) by (done || lia).
  destruct (decide (fl_version f1 = fl_version f2)) as [Hv|]; [|tauto].
  destruct (Hl Hv). rewrite !pad16_inj by done. tauto.
Qed.

(** The flow of the variables the C code holds after parsing, as it sees it. *)
Definition vars_flow (l : l3) (src dst sport dport : list byte) : flow :=
  as_seen (Flow (l3_version l) src dst (l3_proto l) sport dport).

(** Variables that hold a flow. *)
Definition vars_ok (l : l3) (src dst sport dport : list byte) : Prop :=
  addrs_match l src dst /\ 0 <= l3_proto l < 256 /\
  length sport = 2%nat /\ length dport = 2%nat.

Lemma vars_flow_shape l src dst sport dport :
  vars_ok l src dst sport dport -> flow_shape (vars_flow l src dst sport dport).
Proof.
  intros (Ha & Hp & Hsp & Hdp). unfold vars_flow, as_seen. cbn.
  destruct Ha as [Hv ? ? _ _ _|Hv ? ? _ _]; rewrite Hv; cbn; (split; [cbn|done]);
    rewrite ?Hv; [left|right]; done.
Qed.

(** The keys the C code builds separate flows exactly by the version and the selected fields:
    unselected fields do not influence the lookup, every selected one does -- except that the
    destination of an IPv6 packet is its source. *)
Theorem build_key_selects ht l1 l2 src1 src2 dst1 dst2 sport1 sport2 dport1 dport2 :
  vars_ok l1 src1 dst1 sport1 dport1 -> vars_ok l2 src2 dst2 sport2 dport2 ->
  let f1 := vars_flow l1 src1 dst1 sport1 dport1 in
  let f2 := vars_flow l2 src2 dst2 sport2 dport2 in
  build_key ht l1 (le_combine sport1) (le_combine dport1) =
    build_key ht l2 (le_combine sport2) (le_combine dport2) <->
  fl_version f1 = fl_version f2 /\
  (Z.testbit ht 0 = true -> fl_src f1 = fl_src f2) /\
  (Z.testbit ht 1 = true -> fl_dst f1 = fl_dst f2) /\
  (Z.testbit ht 2 = true -> fl_proto f1 = fl_proto f2) /\
  (Z.testbit ht 3 = true -> fl_sport f1 = fl_sport f2) /\
  (Z.testbit ht 4 = true -> fl_dport f1 = fl_dport f2).
Proof.
  intros H1 H2 f1 f2. rewrite <- (flow_key_selects_aux ht) by (by apply vars_flow_shape).
  destruct H1 as (A1 & _ & S1 & D1), H2 as (A2 & _ & S2 & D2).
  rewrite (build_key_correct ht l1 _ _ _ _ A1 S1 D1), (build_key_correct ht l2 _ _ _ _ A2 S2 D2).
  unfold f1, f2, vars_flow. split; [by intros [= ->]|by intros ->].
Qed.

(** A packet is cloned at most once, with no flags, and only to the interface the mirror map
    holds for the interface it arrived on. *)
Theorem port_mirror_clones_at_most_once st skb data tap c :
  skb_ok skb data tap -> globals_ok st ->
  c ∈ clones (events (port_mirror st skb)) ->
  clones (events (port_mirror st skb)) = [c] /\ c.2 = 0 /\ mirror_of (mirror_map st) tap = Some c.1.
Proof.
  intros Hs Hg. rewrite (port_mirror_clones _ _ _ _ Hs Hg).
  destruct (mirror_target as_seen st tap (sk_packet skb)) as [i|] eqn:Ht;
    [|by intros ?%not_elem_of_nil].
  intros ->%list_elem_of_singleton. split; [done|]. split; [done|]. cbn.
  revert Ht. unfold mirror_target. destruct (hash_type st =? 0); [done|].
  destruct (parse_flow (sk_packet skb)); [|done]. cbn. by case_match.
Qed.

(** *** Debug output of an IPv4 packet *)

Lemma elem_events_l {A B} (m : prog A) (f : A -> prog B) e :
  e ∈ events m -> e ∈ events (m ≫= f).
Proof. rewrite events_bind. intros. apply elem_of_app. by left. Qed.

Lemma elem_events_r {A B} (m : prog A) (f : A -> prog B) a e :
  result m = Some a -> e ∈ events (f a) -> e ∈ events (m ≫= f).
Proof. rewrite events_bind. intros -> ?. apply elem_of_app. by right. Qed.

Lemma print_packet_undef l sport dport :
  l3_sip6 l = None ->
  Printk "IP6: saddr=%x %x" [AUndef; AUndef] ∈ events (print_packet l sport dport).
Proof.
  intros Hl. unfold print_packet. eapply elem_events_r; [done|]. apply elem_events_l.
  rewrite Hl. apply list_elem_of_here.
Qed.

Lemma ipv4_prints_undef st skb data tap fl :
  skb_ok skb data tap -> hash_type st <> 0 ->
  parse_flow (sk_packet skb) = Some fl -> fl_version fl = 4 ->
  Printk "IP6: saddr=%x %x" [AUndef; AUndef] ∈ events (port_mirror st skb).
Proof.
  intros Hs Hh Hp Hv. unfold port_mirror.
  rewrite (so_data _ _ _ Hs), (so_data_end _ _ _ Hs), !bind_lift_Some.
  change HASH_TYPE_NONE with 0. destruct (Z.eqb_spec (hash_type st) 0); [done|].
  rewrite parse_l3_correct, bind_ret. pose proof (l3_of_flow data (sk_packet skb)) as Hl.
  destruct (l3_of data (sk_packet skb)) as [l|]; [|congruence].
  destruct Hl as (o & s & d & Ho & Hpos & Ha & Hf). eapply elem_events_r; [done|].
  rewrite (parse_ports_correct _ _ _ o), bind_ret by done.
  rewrite Hf in Hp. unfold parse_l4 in Hp. case_match; [|done].
  apply elem_events_l, print_packet_undef.
  destruct Ha as [? _ _ _ _ ?|Hv' _ _ _ _]; [done|]. injection Hp as <-. cbn in Hv. lia.
Qed.

(** An event that shows the value of a variable that was never assigned. *)
Definition shows_undef (e : event) : bool :=
  match e with
  | Printk _ args => existsb (fun a => match a with AUndef => true | _ => false end) args
  | _ => false
  end.

(** A run in which no event shows one, but for bytes of [sip6] where [P] holds. *)
Definition shows_only (P : Prop) {A} (m : prog A) : Prop :=
  forall e, e ∈ events m -> shows_undef e = true -> e = Printk "IP6: saddr=%x %x" [AUndef; AUndef] /\ P.

Lemma shows_bind P {A B} (m : prog A) (f : A -> prog B) :
  shows_only P m -> (forall a, result m = Some a -> shows_only P (f a)) -> shows_only P (m ≫= f).
Proof.
  intros Hm Hf e. rewrite events_bind. intros [He|He]%elem_of_app Hu; [by apply Hm|].
  destruct (result m) as [a|] eqn:E; [by eapply (Hf a)|by apply not_elem_of_nil in He].
Qed.

Lemma shows_emit P e : shows_undef e = false -> shows_only P (emit e).
Proof. intros He e' ->%list_elem_of_singleton. congruence. Qed.

Lemma shows_nothing P {A} (m : prog A) : events m = [] -> shows_only P m.
Proof. intros Hm e. rewrite Hm. by intros ?%not_elem_of_nil. Qed.

Lemma shows_forM P {A} (l : list A) f : (forall a, shows_only P (f a)) -> shows_only P (forM_ l f).
Proof. intros Hf. induction l as [|a l IH]; [by apply shows_nothing|]. by apply shows_bind. Qed.

Lemma shows_for_lt P fuel i bound stp f : (forall a, shows_only P (f a)) -> shows_only P (for_lt fuel i bound stp f).
Proof.
  intros Hf. revert i. induction fuel as [|fuel IH]; intros i; [by apply shows_nothing|]. cbn.
  case_match; [by apply shows_bind|by apply shows_nothing].
Qed.

(** One statement of a program. *)
Ltac shows :=
  repeat first
    [ apply shows_nothing; reflexivity
    | apply shows_emit; reflexivity
    | apply shows_for_lt; intros
    | apply shows_bind; [|intros ? _]
    | case_match ].

Lemma shows_clone P st skb missing : shows_only P missing -> shows_only P (clone_to_mirror st skb missing).
Proof. intros Hm. unfold clone_to_mirror. shows. exact Hm. Qed.

Lemma shows_print_packet (P : Prop) l sport dport :
  (l3_sip6 l = None -> P) -> shows_only P (print_packet l sport dport).
Proof.
  intros HP. unfold print_packet. apply shows_bind; [by apply shows_emit|intros _ _].
  apply shows_bind; [|intros _ _; by apply shows_emit]. apply shows_forM. intros i.
  destruct (l3_sip6 l) as [bs|]; cbn [addr6_arg].
  - destruct (get_field struct_in6_addr [Fld "in6_u"; Fld "u6_addr8"; Idx i] bs) as [a|]; [|by apply shows_nothing].
    destruct (get_field struct_in6_addr [Fld "in6_u"; Fld "u6_addr8"; Idx (i + 1)] bs) as [b|]; [|by apply shows_nothing].
    exact (shows_emit P (Printk "IP6: saddr=%x %x" [AInt a; AInt b]) eq_refl).
  - intros e ->%list_elem_of_singleton _. split; [done|by apply HP].
Qed.

Lemma shows_print_key P ht key : shows_only P (print_key ht key).
Proof. unfold print_key. cbv zeta beta. shows. Qed.

Lemma shows_rest P st skb l sport dport ht :
  (l3_sip6 l = None -> P) ->
  shows_only P (print_packet l sport dport ;;
    key ← build_key ht l sport dport; print_key ht key ;; apply_filter st skb key ;; mret TC_ACT_OK).
Proof.
  intros HP. apply shows_bind; [by apply shows_print_packet|intros _ _].
  apply shows_bind; [unfold build_key, assign_if; shows|intros key _].
  apply shows_bind; [apply shows_print_key|intros _ _].
  apply shows_bind; [|intros; by apply shows_nothing].
  unfold apply_filter, log_err. shows; apply shows_clone; shows.
Qed.

(** A complete packet of IPv4, with a filter. *)
Definition filtered_ipv4 (st : globals (M := M)) (bs : list byte) : Prop :=
  hash_type st <> 0 /\ exists fl, parse_flow bs = Some fl /\ fl_version fl = 4.

Lemma port_mirror_shows st skb data tap :
  skb_ok skb data tap -> shows_only (filtered_ipv4 st (sk_packet skb)) (port_mirror st skb).
Proof.
  intros Hs. unfold port_mirror. rewrite (so_data _ _ _ Hs), (so_data_end _ _ _ Hs), !bind_lift_Some.
  change HASH_TYPE_NONE with 0. destruct (Z.eqb_spec (hash_type st) 0) as [|Hh].
  { apply shows_bind; [apply shows_clone|intros]; by apply shows_nothing. }
  rewrite parse_l3_correct, bind_ret. pose proof (l3_of_flow data (sk_packet skb)) as Hl.
  destruct (l3_of data (sk_packet skb)) as [l|]; [|by apply shows_nothing].
  destruct Hl as (o & s & d & Ho & Hpos & Ha & Hf). apply shows_bind; [by apply shows_emit|intros _ _].
  rewrite (parse_ports_correct _ _ _ o), bind_ret by done. unfold parse_l4 in Hf.
  case_match; [|by apply shows_nothing]. apply shows_rest. intros H6. split; [done|].
  rewrite Hf. eexists. split; [reflexivity|]. cbn. destruct Ha as [Hv|? ? ? H6']; congruence.
Qed.

(** C22: on every packet, however short or malformed, the function terminates without an access
    outside the packet, and passes the packet on. The one variable that it reads without having
    assigned it is [sip6]: its debug output prints the indeterminate bytes, exactly when there is a
    filter and the packet is a complete one of IPv4; any other use of an unassigned variable would
    be a fault of the run. *)
Theorem port_mirror_total st skb data tap :
  skb_ok skb data tap -> globals_ok st ->
  result (port_mirror st skb) = Some TC_ACT_OK /\
  (forall e, e ∈ events (port_mirror st skb) -> shows_undef e = true ->
     e = Printk "IP6: saddr=%x %x" [AUndef; AUndef]) /\
  ((exists e, e ∈ events (port_mirror st skb) /\ shows_undef e = true) <->
   filtered_ipv4 st (sk_packet skb)).
Proof.
  intros Hs Hg. split; [|split; [|split]].
  - destruct (port_mirror_refines_aux _ _ _ _ Hs Hg) as [-> _]. apply mirror_spec_effect.
  - intros e He Hu. by apply (port_mirror_shows st skb data tap Hs e He Hu).
  - intros (e & He & Hu). by apply (port_mirror_shows st skb data tap Hs e He Hu).
  - intros (Hh & fl & Hp & Hv). eexists. split; [by eapply ipv4_prints_undef|done].
Qed.
End Program.

(** ** The loader *)

Section Loader.
Context {ENDIAN : bpf_endian} {M : Type} {MAP : bpf_map M}.

(** The filter map the loader installs selects one key. *)
Lemma loaded_selected o tap g k :
  program_for o tap g -> selected (filter_map g) k = bool_decide (as_bytes (opts_key o) = k).
Proof.
  intros [_ Hf _]. unfold selected. case_bool_decide as Hk; [subst|].
  - by rewrite (map_update_eq _ _ _ _ Hf).
  - by rewrite (map_update_ne _ _ _ _ _ Hf Hk), map_create_empty.
Qed.

Lemma loaded_mirror o tap g :
  opts_ok o -> program_for o tap g -> mirror_of (mirror_map g) tap = Some (mirror o).
Proof.
  intros Ho [_ _ Hm]. unfold mirror_of. rewrite (map_update_eq _ _ _ _ Hm). cbn [mbind option_bind].
  rewrite take_ge by (by rewrite length_le_split).
  rewrite le_combine_split, Z.mod_small; [done|apply Ho].
Qed.

(** The packets a loaded program clones. *)
Lemma loaded_clones o tap g skb data :
  opts_ok o -> same_family o -> program_for o tap g -> skb_ok skb data tap ->
  clones (events (port_mirror g skb)) =
    if opts_hash_type o =? 0 then [(mirror o, 0)]
    else match parse_flow (sk_packet skb) with
         | Some fl => if (fl_version fl =? user_version o) && user_matches o (as_seen fl)
                      then [(mirror o, 0)] else []
         | None => []
         end.
Proof.
  intros Ho Hfam Hg Hs.
  rewrite (port_mirror_clones _ _ _ _ Hs (program_for_globals_ok _ _ _ Hg)).
  unfold mirror_target. rewrite (pf_hash _ _ _ Hg), (loaded_mirror _ _ _ Ho Hg).
  destruct (opts_hash_type o =? 0); [done|].
  destruct (parse_flow (sk_packet skb)) as [fl|] eqn:Hfl; [|done]. cbn [mbind option_bind].
  apply parse_flow_shape in Hfl. rewrite (loaded_selected _ _ _ _ Hg).
  pose proof (opts_key_match o (as_seen fl) Ho Hfam) as Hm.
  assert (Hv : fl_version (as_seen fl) = fl_version fl) by (unfold as_seen; by case_match).
  assert (flow_shape (as_seen fl)) as Hsh.
  { unfold as_seen. case_match eqn:H6; [|done]. apply Z.eqb_eq in H6.
    destruct Hfl as (?&?&?&?). split; [|done]. cbn. lia. }
  specialize (Hm Hsh). rewrite Hv in Hm.
  case_bool_decide; destruct (Z.eqb_spec (fl_version fl) (user_version o)), (user_matches o (as_seen fl));
    cbn; try done; naive_solver.
Qed.

(** Filters the program applies as meant: on IPv4 packets, or without a destination address. *)
Definition supported (o : Opts) : Prop := same_family o /\ (user_version o = 4 \/ daddr o = None).

(** The packets a filter is meant to clone. *)
Definition intended_clones (o : Opts) (bs : list byte) : list (Z * Z) :=
  match parse_flow bs with
  | Some fl => if (fl_version fl =? user_version o) && user_matches o fl then [(mirror o, 0)] else []
  | None => []
  end.

Lemma supported_clones o tap g skb data :
  opts_ok o -> supported o -> opts_hash_type o <> 0 -> program_for o tap g -> skb_ok skb data tap ->
  clones (events (port_mirror g skb)) = intended_clones o (sk_packet skb).
Proof.
  intros Ho [Hfam Hd] Hh Hg Hs. rewrite (loaded_clones _ _ _ _ _ Ho Hfam Hg Hs).
  destruct (Z.eqb_spec (opts_hash_type o) 0); [done|]. unfold intended_clones.
  destruct (parse_flow (sk_packet skb)) as [fl|]; [|done].
  destruct (Z.eqb_spec (fl_version fl) (user_version o)) as [Hv|]; [|done]. cbn [andb].
  unfold as_seen. destruct (Z.eqb_spec (fl_version fl) 6) as [H6|]; [|done].
  destruct Hd as [Hd|Hd]; [lia|]. unfold user_matches. by rewrite Hd.
Qed.

(** A filter works end to end, on IPv4 packets and on the source address, ports and protocol
    of IPv6 packets: what the loader derives from the options and what the C program does with it
    clone exactly the complete packets of the version of the source address -- 4 if none is
    given -- that match the options. *)
Theorem filter_selects o tap g skb data :
  opts_ok o -> supported o -> opts_hash_type o <> 0 ->
  program_for o tap g -> skb_ok skb data tap ->
  clones (events (port_mirror g skb)) = intended_clones o (sk_packet skb).
Proof. apply supported_clones. Qed.

Lemma addr_matches_octets ip field :
  ip_bits ip <> 0 -> addr_matches (Some ip) field = bool_decide (field = addr_octets ip).
Proof. intros. cbn. by destruct (Z.eqb_spec (ip_bits ip) 0). Qed.

Lemma opts_hash_dst o : opts_ok o -> ip_bits (dip o) <> 0 -> opts_hash_type o <> 0.
Proof.
  intros Ho Hd E. pose proof (opts_hash_bits o) as (_ & Hb & _).
  rewrite E, ip_to_bytes_0 in Hb by apply Ho. cbn in Hb.
  destruct (Z.eqb_spec (ip_bits (dip o)) 0); done.
Qed.

(** C33: a filter on source and destination IPv6 addresses clones the packets whose source is
    both: with two different addresses it clones nothing. *)
Theorem ipv6_pair_never_mirrors o tap g skb data s d :
  opts_ok o -> saddr o = Some (V6 s) -> daddr o = Some (V6 d) -> s <> 0 -> d <> 0 -> s <> d ->
  program_for o tap g -> skb_ok skb data tap ->
  clones (events (port_mirror g skb)) = [].
Proof.
  intros Ho Hs Hd Hs0 Hd0 Hne Hg Hskb.
  assert (Hsip : sip o = V6 s) by (unfold sip; by rewrite Hs).
  assert (Hdip : dip o = V6 d) by (unfold dip; by rewrite Hd).
  assert (Hr : ip_ok (V6 s) /\ ip_ok (V6 d)) by (rewrite <- Hsip, <- Hdip; split; apply Ho).
  rewrite (loaded_clones _ _ _ _ _ Ho) by
    first [eassumption | right; by rewrite Hsip, Hdip].
  pose proof (opts_hash_dst o Ho) as Hh. rewrite Hdip in Hh. specialize (Hh Hd0).
  destruct (Z.eqb_spec (opts_hash_type o) 0); [done|].
  destruct (parse_flow (sk_packet skb)) as [fl|]; [|done].
  unfold user_version, user_matches. rewrite Hsip, Hs, Hd. cbn [is_ipv4].
  destruct (Z.eqb_spec (fl_version fl) 6) as [Hv|]; [|done]. unfold as_seen. rewrite Hv. cbn -[addr_matches].
  rewrite !addr_matches_octets by done.
  do 2 case_bool_decide; try done. exfalso. apply Hne.
  assert (E : addr_octets (V6 s) = addr_octets (V6 d)) by congruence.
  cbn in E. apply (f_equal reverse) in E. rewrite !reverse_involutive in E.
  apply (f_equal le_combine) in E. rewrite !le_combine_split in E. cbn in Hr.
  rewrite !Z.mod_small in E; lia.
Qed.

(** A filter on an IPv6 destination alone never clones an IPv6 packet: the loader takes the
    version of the key from the absent source address. *)
Theorem ipv6_destination_never_mirrors o tap g skb data d fl :
  opts_ok o -> saddr o = None -> daddr o = Some (V6 d) -> d <> 0 ->
  program_for o tap g -> skb_ok skb data tap ->
  parse_flow (sk_packet skb) = Some fl -> fl_version fl = 6 ->
  clones (events (port_mirror g skb)) = [].
Proof.
  intros Ho Hs Hd Hd0 Hg Hskb Hfl Hv.
  rewrite (port_mirror_clones _ _ _ _ Hskb (program_for_globals_ok _ _ _ Hg)).
  unfold mirror_target. rewrite (pf_hash _ _ _ Hg), Hfl. cbn [mbind option_bind].
  assert (Hdip : dip o = V6 d) by (unfold dip; by rewrite Hd).
  destruct (Z.eqb_spec (opts_hash_type o) 0) as [E|_].
  { exfalso. revert E. apply opts_hash_dst; [done|]. by rewrite Hdip. }
  rewrite (loaded_selected _ _ _ _ Hg). case_bool_decide as Hk; [exfalso|done].
  unfold as_bytes, flow_key_of, opts_key in Hk.
  cbn [fk_saddr fk_daddr fk_sport fk_dport fk_proto fk_ip_version] in Hk.
  apply key_bytes_inj in Hk as (_&_&_&_&_&Hk);
    [|apply opts_key_shape|by apply flow_key_shape, as_seen_wf, flow_shape_wf, (parse_flow_shape (sk_packet skb))].
  revert Hk. unfold sip, as_seen. rewrite Hs, Hv. cbn. intros Hk%(f_equal le_combine). vm_compute in Hk. done.
Qed.

(** C21: however the calls of the loader fail, a program it leaves attached to a hook is the one for
    its interface. With a filter on addresses of one family, and on no IPv6 destination, it clones
    exactly the complete packets of the version of the source address (4 if none is given) that
    match the options. (For the filters excluded here it does not: [ipv6_pair_never_mirrors].) *)
Theorem attached_programs_select outcome o tap h g skb data :
  opts_ok o -> supported o -> opts_hash_type o <> 0 ->
  p_state (main outcome o (Process [] ∅)).1 !! (tap, h) = Some g -> skb_ok skb data tap ->
  tap ∈ src o /\ clones (events (port_mirror g skb)) = intended_clones o (sk_packet skb).
Proof.
  intros Ho Hsup Hh Hg Hs.
  assert (H0 : hooks_ok o (∅ : hooks M)) by apply map_Forall_empty.
  destruct (keeps_main outcome o (Process [] ∅) H0 _ _ Hg) as [Hin Hp]. split; [done|].
  by apply (supported_clones o tap g skb data).
Qed.

(** C39: when no call and no update of a map fails, the loader does what its flags ask for, on every
    tap and on no other interface: with [attach], it attaches the program of the tap, made from the
    options, to the hooks the flags name, or to all three when they name none; with [detach] it
    first removes what ran on the three hooks; the other hooks keep what they run. *)
Theorem loader_hooks outcome o g p :
  (forall log c, outcome log c = None) ->
  Forall (fun tap => program_for o tap (g tap)) (src o) ->
  (main outcome o p).2 = inl () /\
  forall tap h, p_state (main outcome o p).1 !! (tap, h) =
    if bool_decide (tap ∈ src o) then hook_after o (g tap) h (p_state p !! (tap, h))
    else p_state p !! (tap, h).
Proof. intros Hn. by apply main_hooks. Qed.
End Loader.

Lemma as_bytes_length k : len (as_bytes k) = 38.
Proof. apply key_bytes_length. repeat split; apply length_le_split. Qed.

(** Reads one part of the bytes of a key. *)
Ltac key_read k n :=
  erewrite (get_field_bytes _ _ _ _ k n) || erewrite (get_bytes_sub _ _ _ _ k n);
  [unfold as_bytes, key_bytes;
   repeat (rewrite sub_bytes_app_r by (rewrite length_le_split; lia); rewrite length_le_split);
   match goal with |- context [sub_bytes ?k _ _] => change k with 0 end;
   first [rewrite sub_bytes_app_0 by (by rewrite length_le_split)
         |rewrite sub_bytes_0 by (by rewrite length_le_split)];
   rewrite ?le_combine_split_small by done; reflexivity
  |reflexivity|lia|lia|rewrite as_bytes_length; lia].

(** C31: the Rust key type and the C key type have one layout: their members have the same
    places, and every member of a Rust key, read from its bytes where the C type has it, is the
    member's value. *)
Theorem flow_key_layouts_agree k :
  0 <= fk_sport k < 2 ^ 16 -> 0 <= fk_dport k < 2 ^ 16 ->
  0 <= fk_proto k < 2 ^ 8 -> 0 <= fk_ip_version k < 2 ^ 8 ->
  sizeof FlowKey_ty = sizeof flow_key /\ len (as_bytes k) = sizeof flow_key /\
  Forall (fun f => offsetof FlowKey_ty [Fld f] = offsetof flow_key [Fld f])
    ["saddr"; "daddr"; "sport"; "dport"; "proto"; "ip_version"]%string /\
  get_bytes flow_key [Fld "saddr6"] (as_bytes k) = Some (le_split 16 (fk_saddr k)) /\
  get_bytes flow_key [Fld "daddr6"] (as_bytes k) = Some (le_split 16 (fk_daddr k)) /\
  get_field flow_key [Fld "sport"] (as_bytes k) = Some (fk_sport k) /\
  get_field flow_key [Fld "dport"] (as_bytes k) = Some (fk_dport k) /\
  get_field flow_key [Fld "proto"] (as_bytes k) = Some (fk_proto k) /\
  get_field flow_key [Fld "ip_version"] (as_bytes k) = Some (fk_ip_version k).
Proof.
  intros. split; [done|]. split; [apply as_bytes_length|].
  split; [repeat constructor|]. split_and!.
  - key_read 0 16.
  - key_read 16 16.
  - key_read 32 2.
  - key_read 34 2.
  - key_read 36 1.
  - key_read 37 1.
Qed.

(** ** Instances

    The options, packets and programs of the beginning of the file. *)

Lemma mk_skb_ok_udp6 s d :
  len (udp6 s d) = 62 -> skb_ok (mk_skb 3 0x10000 (udp6 s d)) 0x10000 3.
Proof.
  intros Hl. unfold mk_skb. rewrite Hl. split; cbn [sk_packet sk_ctx]; rewrite ?Hl; by vm_compute.
Qed.

Lemma length_udp6 s d : len (udp6 s d) = 62.
Proof. unfold udp6. rewrite !length_app. cbn [addr_octets]. by rewrite !length_reverse, !length_le_split. Qed.

Lemma loaded_program4 : program_for opts4 3 (loaded opts4 3).
Proof. apply loaded_program. by vm_compute. Qed.
Lemma loaded_program6_daddr : program_for opts6_daddr 3 (loaded opts6_daddr 3).
Proof. apply loaded_program. by vm_compute. Qed.
Lemma loaded_program6_both : program_for opts6_both 3 (loaded opts6_both 3).
Proof. apply loaded_program. by vm_compute. Qed.

Lemma loaded_program6_saddr : program_for opts6_saddr 3 (loaded opts6_saddr 3).
Proof. apply loaded_program. by vm_compute. Qed.

Lemma loaded_program_empty : program_for empty_opts 3 (loaded empty_opts 3).
Proof. apply loaded_program. by vm_compute. Qed.

Lemma opts4_ok : opts_ok opts4.
Proof. by split; vm_compute. Qed.
Lemma opts6_daddr_ok : opts_ok opts6_daddr.
Proof. by split; vm_compute. Qed.
Lemma opts6_saddr_ok : opts_ok opts6_saddr.
Proof. by split; vm_compute. Qed.
Lemma opts6_both_ok : opts_ok opts6_both.
Proof. by split; vm_compute. Qed.

Create HintDb instances.
#[local] Hint Resolve mk_skb_ok_udp4 mk_skb_ok_udp6 length_udp6 loaded_program4 loaded_program6_daddr
  loaded_program6_saddr opts6_saddr_ok loaded_program6_both loaded_program_empty opts4_ok opts6_daddr_ok opts6_both_ok program_for_globals_ok : instances.

(** The program of [opts4] clones the datagram to port 1024 it selects. *)
Lemma port_mirror_refines_witness :
  port_mirror (loaded opts4 3) (mk_skb 3 0x10000 udp4) ≡ mirror_spec as_seen (loaded opts4 3) 3 udp4 /\
  clones (events (port_mirror (loaded opts4 3) (mk_skb 3 0x10000 udp4))) = [(9, 0)].
Proof.
  split; [|by vm_compute].
  apply (port_mirror_refines (loaded opts4 3) (mk_skb 3 0x10000 udp4) 0x10000); eauto with instances.
Defined.

Definition flow_a : flow := default (Flow 0 [] [] 0 [] []) (parse_flow udp4).

Lemma port_mirror_total_witness :
  result (port_mirror (loaded opts4 3) (mk_skb 3 0x10000 (take 33 udp4))) = Some TC_ACT_OK /\
  (exists e, e ∈ events (port_mirror (loaded opts4 3) (mk_skb 3 0x10000 udp4)) /\ shows_undef e = true).
Proof.
  split.
  - apply (port_mirror_total _ _ 0x10000 3); [by split; vm_compute|eauto with instances].
  - apply (port_mirror_total (loaded opts4 3) (mk_skb 3 0x10000 udp4) 0x10000 3); [eauto with instances..|].
    split; [by vm_compute|]. exists flow_a. by vm_compute.
Defined.

Lemma port_mirror_intended_witness :
  port_mirror (loaded opts4 3) (mk_skb 3 0x10000 udp4) ≡ mirror_spec id (loaded opts4 3) 3 udp4.
Proof.
  apply (port_mirror_intended (loaded opts4 3) (mk_skb 3 0x10000 udp4) 0x10000);
     [eauto with instances..|left; by vm_compute].
Defined.

Lemma ipv6_destination_ignored_witness :
  clones (events (port_mirror (loaded opts6_both 3) (mk_skb 3 0x10000 (udp6 5 7)))) =
  clones (events (port_mirror (loaded opts6_both 3) (mk_skb 3 0x10000 (udp6 5 8)))).
Proof.
  apply (ipv6_destination_ignored _ _ _ 0x10000 0x10000 3
    (default (Flow 0 [] [] 0 [] []) (parse_flow (udp6 5 7))) (addr_octets (V6 8)));
    [eauto with instances..|by vm_compute|by vm_compute|by vm_compute|by vm_compute].
Defined.

Lemma port_mirror_branches_witness :
  (hash_type (loaded empty_opts 3) = 0 ->
   clones (events (port_mirror (loaded empty_opts 3) (mk_skb 3 0x10000 udp4))) = [(9, 0)]) /\
  clones (events (port_mirror (loaded opts4 3) (mk_skb 3 0x10000 (take 13 udp4)))) = [].
Proof.
  split.
  - intros H. destruct (port_mirror_branches (loaded empty_opts 3) (mk_skb 3 0x10000 udp4) 0x10000 3) as [E _];
      [eauto with instances..|]. rewrite (E H). by vm_compute.
  - apply (port_mirror_branches _ _ 0x10000 3); [by split; vm_compute|eauto with instances|by vm_compute..].
Defined.

(** Two packets of UDP to port 1024, between other hosts. *)
Definition vars4 (sip dip : list Z) : l3 :=
  L3 17 34 (le_combine (bytes sip)) (le_combine (bytes dip)) None None 4.

Lemma vars4_ok sip dip sport dport :
  length sip = 4%nat -> length dip = 4%nat -> length sport = 2%nat -> length dport = 2%nat ->
  vars_ok (vars4 sip dip) (bytes sip) (bytes dip) (bytes sport) (bytes dport).
Proof.
  intros. split; [|by split_and!; try (unfold bytes; rewrite length_fmap)].
  by apply Addrs4; try (unfold bytes; rewrite length_fmap).
Qed.

Lemma build_key_selects_witness :
  build_key 0x14 (vars4 [10; 0; 0; 1] [10; 0; 0; 2]) (le_combine (bytes [0; 53])) (le_combine (bytes [4; 0])) =
  build_key 0x14 (vars4 [10; 0; 0; 3] [10; 0; 0; 4]) (le_combine (bytes [0; 99])) (le_combine (bytes [4; 0])).
Proof.
  apply (build_key_selects 0x14 _ _ (bytes [10; 0; 0; 1]) (bytes [10; 0; 0; 3])
           (bytes [10; 0; 0; 2]) (bytes [10; 0; 0; 4])); [by apply vars4_ok..|].
  split_and!; by vm_compute.
Defined.

Lemma port_mirror_clones_at_most_once_witness :
  mirror_of (mirror_map (loaded opts4 3)) 3 = Some 9.
Proof.
  apply (port_mirror_clones_at_most_once (loaded opts4 3) (mk_skb 3 0x10000 udp4) 0x10000 3 (9, 0));
    [eauto with instances..|].
  assert (clones (events (port_mirror (loaded opts4 3) (mk_skb 3 0x10000 udp4))) = [(9, 0)]) as ->
    by (by vm_compute).
  apply list_elem_of_here.
Defined.


Lemma filter_selects_witness :
  clones (events (port_mirror (loaded opts4 3) (mk_skb 3 0x10000 udp4))) = [(9, 0)] /\
  clones (events (port_mirror (loaded opts6_saddr 3) (mk_skb 3 0x10000 (udp6 5 7)))) = [(9, 0)].
Proof.
  split.
  - rewrite (filter_selects opts4 3 (loaded opts4 3) (mk_skb 3 0x10000 udp4) 0x10000);
      [by vm_compute|eauto with instances|split; by left|by vm_compute|eauto with instances..].
  - rewrite (filter_selects opts6_saddr 3 (loaded opts6_saddr 3) (mk_skb 3 0x10000 (udp6 5 7)) 0x10000);
      [by vm_compute|eauto with instances|split; [by left|by right]|by vm_compute|eauto with instances..].
Defined.

Lemma ipv6_pair_never_mirrors_witness :
  clones (events (port_mirror (loaded opts6_both 3) (mk_skb 3 0x10000 (udp6 5 7)))) = [].
Proof.
  apply (ipv6_pair_never_mirrors opts6_both 3 _ _ 0x10000 5 7); [eauto with instances|done..| |];
    eauto with instances.
Defined.

Lemma ipv6_destination_never_mirrors_witness :
  clones (events (port_mirror (loaded opts6_daddr 3) (mk_skb 3 0x10000 (udp6 5 7)))) = [].
Proof.
  apply (ipv6_destination_never_mirrors opts6_daddr 3 _ _ 0x10000 7
           (default (Flow 0 [] [] 0 [] []) (parse_flow (udp6 5 7))));
    [eauto with instances|done..|eauto with instances|eauto with instances|by vm_compute|by vm_compute].
Defined.

(** The egress hook fails to attach; the ingress hook runs the program. *)
Definition egress_fails (log : list call) (c : call) : option Z :=
  match c with AttachHook _ Egress => Some 16 | _ => None end.

Definition ingress_program : option (globals (M := fmap_state)) :=
  p_state (main egress_fails opts4 (Process [] ∅)).1 !! (3, Ingress).

Lemma attached_programs_select_witness :
  bool_decide (is_Some ingress_program) = true /\
  forall g, ingress_program = Some g ->
    clones (events (port_mirror g (mk_skb 3 0x10000 udp4))) = [(9, 0)].
Proof.
  split; [by vm_compute|]. intros g Hg.
  destruct (attached_programs_select egress_fails opts4 3 Ingress g
              (mk_skb 3 0x10000 udp4) 0x10000) as [_ E];
    [eauto with instances|split; by left|by vm_compute|exact Hg|eauto with instances|].
  rewrite E. by vm_compute.
Defined.

Lemma loader_hooks_witness :
  p_state (main (M := fmap_state) (fun _ _ => None) opts4 (Process [] ∅)).1 !! (3, Custom)
  = Some (loaded opts4 3).
Proof.
  destruct (loader_hooks (fun _ _ => None) opts4 (loaded opts4) (Process [] ∅)) as [_ E];
    [done|constructor; [eauto with instances|constructor]|].
  rewrite (E 3 Custom). reflexivity.
Defined.

Lemma flow_key_layouts_agree_witness :
  get_field flow_key [Fld "dport"] (as_bytes (opts_key opts4)) = Some 4.
Proof. apply (flow_key_layouts_agree (opts_key opts4)); by vm_compute. Defined.
