(* ===== verification/XdpDump.v ===== *)
(** * The ARP tracer

    [ebpf/xdpdump/src/bpf/xdpdump.bpf.c], an XDP program that prints ARP packets whose address is
    in a hash map, and its loader [ebpf/xdpdump/src/main.rs], which installs the address given on
    the command line. *)

From S2P Require Import Prelude RustStd CType Mem Bpf Io EbAbi.

(** ** The C program *)

Definition filterlist_def : map_def := MapDef "BPF_MAP_TYPE_HASH" 100000 u32 u32.

Definition arp_t : cty := cstruct_packed
  [ fld "htype" c_ushort;
    fld "ptype" c_ushort;
    fld "hlen" c_uchar;
    fld "plen" c_uchar;
    fld "oper" c_ushort;
    bit "sha" c_ullong 48;
    bit "spa" c_ullong 32;
    bit "tha" c_ullong 48;
    fld "tpa" c_uint ].

Definition XDP_PASS : Z := default 0 (enum_value enum_xdp_action "XDP_PASS").

(** The packet the hook is called on: the bytes of its [struct xdp_md] context and the packet
    data mapped at [ctx->data]. *)
Record xdp_buff := XdpBuff { xb_ctx : list byte; xb_packet : list byte }.

Section XdpDump.
Context {ENDIAN : bpf_endian} {M : Type} {MAP : bpf_map M}.

(** [pkt_sz] is an [int]; the comparison with a [size_t] converts it to an unsigned 64-bit
    integer.  The last argument of the message is the pointer the lookup returned. *)
Definition xdp_dump (filterlist : M) (ctx : xdp_buff) : prog Z :=
  data ← lift (get_field struct_xdp_md [Fld "data"] (xb_ctx ctx));
  data_end ← lift (get_field struct_xdp_md [Fld "data_end"] (xb_ctx ctx));
  let pkt := Region data (xb_packet ctx) in
  let pkt_sz := signed 32 (data_end - data) in
  if wrap 64 pkt_sz <=? sizeof struct_ethhdr + sizeof arp_t then mret XDP_PASS else
  if data_end <? data + sizeof struct_ethhdr then mret XDP_PASS else
  h_proto ← lift (load_at pkt data struct_ethhdr [Fld "h_proto"]);
  if negb (h_proto =? bpf_htons 0x0806) then mret XDP_PASS else
  let arp := data + sizeof struct_ethhdr in
  if data_end <? data + sizeof struct_ethhdr + sizeof arp_t then mret XDP_PASS else
  ip_src ← lift (load_at pkt arp arp_t [Fld "tpa"]);
  match map_lookup filterlist (le_split 4 ip_src) with
  | Some value =>
      bpf_printk "ARP packet from %d, size %d, value %d" [AInt ip_src; AInt pkt_sz; APtr value]
  | None => mret ()
  end ;;
  mret XDP_PASS.

End XdpDump.

(** ** The loader *)

Record Opts := MkOpts { ifindex : Z; arp : option string }.

Inductive call :=
| SetRlimit
| OpenSkel
| LoadSkel
| AttachXdp (ifindex : Z).

(** The error of an address that does not parse. *)
Definition ADDR_PARSE : Z := 1.

Section Loader.
Context {M : Type} {MAP : bpf_map M} (outcome : list call -> call -> option Z).

Local Open Scope io_scope.

(** The state: the filter list of the program attached to each interface.  Once attached the
    process sleeps for ever; the result here is that point. *)
Definition main (opts : Opts) : io call (gmap Z M) () :=
  do_call outcome SetRlimit id ;;;
  do_call outcome OpenSkel id ;;;
  do_call outcome LoadSkel id ;;;
  filterlist <- match arp opts with
    | Some arp =>
        ip_src <- io_lift (match from_str arp with
                           | Some o => inl (byte.of_Z <$> o) | None => inr ADDR_PARSE end) ;;
        io_lift (map_update (map_create filterlist_def) ip_src ip_src)
    | None => io_ret (map_create filterlist_def)
    end ;;
  do_call outcome (AttachXdp (ifindex opts)) <[ifindex opts := filterlist]>.

End Loader.
