(* ===== verification/XdpDumpTheorems.v ===== *)
(** * The ARP tracer: properties

    What the program prints as a function of the packet bytes, and which packets the address on the
    command line selects. *)

From S2P Require Import Prelude RustStd CType Mem Bpf Io EbAbi XdpDump.

(** The wire format the messages are about: an Ethernet header of 14 bytes, then an ARP packet with
    the sender's protocol address at byte 14 and the target's at byte 24. *)
Definition arp_sender (bs : list byte) : list byte := sub_bytes 28 4 bs.
Definition arp_target (bs : list byte) : list byte := sub_bytes 38 4 bs.
Definition is_arp (bs : list byte) : bool := bool_decide (sub_bytes 12 2 bs = [Byte.x08; Byte.x06]).

Section Xdp.
Context {ENDIAN : bpf_endian} {M : Type} {MAP : bpf_map M}.

(** The message of a packet, if it has one. *)
Definition traced (filterlist : M) (bs : list byte) : option event :=
  if (42 <? len bs) && is_arp bs then
    v ← map_lookup filterlist (arp_target bs);
    Some (Printk "ARP packet from %d, size %d, value %d"
            [AInt (le_combine (arp_target bs)); AInt (len bs); APtr v])
  else None.

(** What the kernel guarantees of the context of a packet. *)
Record xdp_ok (ctx : xdp_buff) (data : Z) : Prop := XdpOk
  { xo_data : get_field struct_xdp_md [Fld "data"] (xb_ctx ctx) = Some data;
    xo_data_end : get_field struct_xdp_md [Fld "data_end"] (xb_ctx ctx)
                  = Some (data + len (xb_packet ctx));
    xo_len : len (xb_packet ctx) < 2 ^ 31 }.

Lemma size_arp : sizeof struct_ethhdr = 14 /\ sizeof arp_t = 28.
Proof. split; reflexivity. Qed.

Lemma signed_small z : 0 <= z < 2 ^ 31 -> signed 32 z = z.
Proof. intros. rewrite <- (signed_wrap 32 z) at 2 by lia. unfold signed, wrap. by rewrite Zmod_mod. Qed.

Lemma xdp_dump_trace_aux filterlist ctx data :
  xdp_ok ctx data ->
  xdp_dump filterlist ctx = (option_list (traced filterlist (xb_packet ctx)), Some XDP_PASS).
Proof.
  intros [Hd He Hl]. unfold xdp_dump. rewrite Hd, He, !bind_lift_Some.
  destruct size_arp as [-> ->]. cbv zeta.
  replace (data + len (xb_packet ctx) - data) with (len (xb_packet ctx)) by lia.
  rewrite signed_small, wrap_small by lia. unfold traced. change (14 + 28) with 42.
  rewrite Z.leb_antisym. destruct (Z.ltb_spec 42 (len (xb_packet ctx))); cbn [negb andb]; [|done].
  destruct (Z.ltb_spec (data + len (xb_packet ctx)) (data + 14)); [lia|].
  rewrite (load_at_unsigned _ _ _ struct_ethhdr [Fld "h_proto"] 0 2 12 2) by first [reflexivity | lia].
  rewrite bind_lift_Some.
  rewrite (htons_eqb _ 0x0806 Byte.x08 Byte.x06) by (done || by rewrite sub_bytes_length by lia).
  change (0 + 12) with 12. fold (is_arp (xb_packet ctx)).
  destruct (is_arp (xb_packet ctx)); cbn [negb]; [|done].
  destruct (Z.ltb_spec (data + len (xb_packet ctx)) (data + 14 + 28)); [lia|].
  rewrite (load_at_unsigned _ _ _ arp_t [Fld "tpa"] 14 4 24 4) by first [reflexivity | lia].
  rewrite bind_lift_Some. change (14 + 24) with 38. fold (arp_target (xb_packet ctx)).
  rewrite split_le_combine' by (unfold arp_target; by rewrite sub_bytes_length by lia).
  by destruct (map_lookup filterlist (arp_target (xb_packet ctx))).
Qed.

(** C3: the tracer, completely: whatever the packet, the program passes it on and never faults,
    and prints one message exactly for an ARP packet of more than 42 bytes whose target address is
    a key of the list.  The message shows that address, the size, and the pointer to the value. *)
Theorem xdp_dump_trace filterlist ctx data :
  xdp_ok ctx data ->
  xdp_dump filterlist ctx = (option_list (traced filterlist (xb_packet ctx)), Some XDP_PASS).
Proof. apply xdp_dump_trace_aux. Qed.

(** The address of the sender plays no part: two packets that agree on their length, their
    type and the target address are treated alike, whoever sent them. *)
Theorem xdp_dump_ignores_sender filterlist ctx1 ctx2 data1 data2 :
  xdp_ok ctx1 data1 -> xdp_ok ctx2 data2 ->
  len (xb_packet ctx1) = len (xb_packet ctx2) ->
  sub_bytes 12 2 (xb_packet ctx1) = sub_bytes 12 2 (xb_packet ctx2) ->
  arp_target (xb_packet ctx1) = arp_target (xb_packet ctx2) ->
  xdp_dump filterlist ctx1 = xdp_dump filterlist ctx2.
Proof.
  intros H1 H2 Hl Ht Ha. rewrite (xdp_dump_trace_aux _ _ _ H1), (xdp_dump_trace_aux _ _ _ H2).
  unfold traced, is_arp. by rewrite Hl, Ht, Ha.
Qed.

(** ** The loader *)

Lemma bytes_octets a b c d :
  length (byte.of_Z <$> [a; b; c; d]) = 4%nat.
Proof. reflexivity. Qed.

(** The list an address on the command line makes. *)
Definition list_of (octets : list Z) : M + Z :=
  map_update (map_create filterlist_def) (byte.of_Z <$> octets) (byte.of_Z <$> octets).

Lemma list_of_lookup octets l k :
  list_of octets = inl l ->
  map_lookup l k = if bool_decide (byte.of_Z <$> octets = k) then Some k else None.
Proof.
  intros Hl. case_bool_decide as Hk; [rewrite <- Hk|].
  - exact (map_update_eq _ _ _ _ Hl).
  - rewrite (map_update_ne _ _ _ _ _ Hl Hk). by apply map_create_empty.
Qed.

(** C25: when no call fails, loading with an address in decimal notation attaches a program that
    prints a message exactly for the ARP packets of more than 42 bytes whose target address is
    the one given; other interfaces keep their programs. *)
Theorem loaded_traces_target a b c d outcome opts l p :
  0 <= a < 256 -> 0 <= b < 256 -> 0 <= c < 256 -> 0 <= d < 256 ->
  (forall log call, outcome log call = None) ->
  arp opts = Some (print_ipv4 a b c d) -> list_of [a; b; c; d] = inl l ->
  (main outcome opts p).2 = inl () /\
  p_state (main outcome opts p).1 = <[ifindex opts := l]> (p_state p) /\
  forall ctx data, xdp_ok ctx data ->
    bool_decide (events (xdp_dump l ctx) <> []) =
      (42 <? len (xb_packet ctx)) && is_arp (xb_packet ctx) &&
      bool_decide (arp_target (xb_packet ctx) = byte.of_Z <$> [a; b; c; d]).
Proof.
  intros Ha Hb Hc Hd Hn Harp Hl. unfold main. rewrite !bind_call, Harp by done.
  rewrite from_str_print_aux, io_bind_assoc by done.
  rewrite (bind_lift_ok _ (byte.of_Z <$> [a; b; c; d])) by done. rewrite (bind_lift_ok _ _ _ _ Hl).
  unfold do_call. rewrite Hn. split; [done|]. split; [done|].
  intros ctx data Hx. rewrite (xdp_dump_trace_aux _ _ _ Hx). unfold traced.
  destruct ((42 <? len (xb_packet ctx)) && is_arp (xb_packet ctx)); [|done]. cbn [andb].
  rewrite (list_of_lookup _ _ _ Hl). repeat case_bool_decide; try done; cbn in *; congruence.
Qed.

(** An address that does not parse stops the loader with an error before anything is
    attached. *)
Theorem loader_rejects_address outcome opts p s :
  arp opts = Some s -> from_str s = None ->
  (exists e, (main (M := M) outcome opts p).2 = inr e) /\
  p_state (main (M := M) outcome opts p).1 = p_state p.
Proof.
  intros Ha Hs. unfold main, io_bind, do_call, io_lift. rewrite Ha, Hs.
  repeat case_match; simplify_eq/=; eauto.
Qed.
End Xdp.

(** ** Instances *)

Definition mk_xdp (data : Z) (pkt : list byte) : xdp_buff :=
  XdpBuff (default [] (c ← set_field struct_xdp_md [Fld "data"] data (zeros (sizeof struct_xdp_md));
                       set_field struct_xdp_md [Fld "data_end"] (data + len pkt) c)) pkt.

(** An ARP request from 10.0.0.[s] for 10.0.0.[t], followed by [n] bytes of padding. *)
Definition arp_request (s t n : Z) : list byte :=
  byte.of_Z <$> [255; 255; 255; 255; 255; 255; 2; 0; 0; 0; 0; 1; 8; 6;
                 0; 1; 8; 0; 6; 4; 0; 1; 2; 0; 0; 0; 0; 1; 10; 0; 0; s;
                 0; 0; 0; 0; 0; 0; 10; 0; 0; t] ++ repeat 0 (Z.to_nat n).

(** The list of 10.0.0.[t]. *)
Definition list_of_7 : fmap_state :=
  match list_of [10; 0; 0; 7] with inl l => l | inr _ => map_create filterlist_def end.

Lemma arp_ok_18 : xdp_ok (mk_xdp 0x10000 (arp_request 1 7 18)) 0x10000.
Proof. by split; vm_compute. Qed.
Lemma arp_ok_18' : xdp_ok (mk_xdp 0x20000 (arp_request 2 7 18)) 0x20000.
Proof. by split; vm_compute. Qed.
Lemma list_of_7_ok : list_of [10; 0; 0; 7] = inl list_of_7.
Proof.
  unfold list_of_7. assert (match list_of (M := fmap_state) [10; 0; 0; 7] with inl _ => true | inr _ => false end = true)
    by (by vm_compute). by destruct (list_of [10; 0; 0; 7]).
Qed.

Lemma xdp_dump_trace_witness :
  xdp_dump list_of_7 (mk_xdp 0x10000 (arp_request 1 7 18)) =
    ([Printk "ARP packet from %d, size %d, value %d"
        [AInt 0x0700000a; AInt 60; APtr [Byte.x0a; Byte.x00; Byte.x00; Byte.x07]]], Some 2).
Proof. rewrite (xdp_dump_trace _ _ _ arp_ok_18). by vm_compute. Defined.

Lemma xdp_dump_ignores_sender_witness :
  xdp_dump list_of_7 (mk_xdp 0x10000 (arp_request 1 7 18)) =
  xdp_dump list_of_7 (mk_xdp 0x20000 (arp_request 2 7 18)) /\
  arp_sender (arp_request 1 7 18) <> arp_sender (arp_request 2 7 18).
Proof.
  split; [|by vm_compute].
  apply (xdp_dump_ignores_sender _ _ _ _ _ arp_ok_18 arp_ok_18'); by vm_compute.
Defined.

Lemma loaded_traces_target_witness :
  bool_decide (events (xdp_dump list_of_7 (mk_xdp 0x10000 (arp_request 1 7 18))) <> []) = true.
Proof.
  destruct (loaded_traces_target 10 0 0 7 (fun _ _ => None) (MkOpts 2 (Some "10.0.0.7"%string))
              list_of_7 (Process [] ∅)) as (_ & _ & E);
    [lia..|done|done|exact list_of_7_ok|]. rewrite (E _ _ arp_ok_18). by vm_compute.
Defined.

Lemma loader_rejects_address_witness :
  p_state (main (M := fmap_state) (fun _ _ => None) (MkOpts 2 (Some "10.0.0.256"%string))
             (Process [] ∅)).1 = ∅.
Proof.
  apply (loader_rejects_address (fun _ _ => None) (MkOpts 2 (Some "10.0.0.256"%string))
           (Process [] ∅) "10.0.0.256"); by vm_compute.
Defined.
