(* ===== verification/Erspan.v ===== *)
(** * The ERSPAN tunnel reader

    [ebpf/erspan/src/bpf/erspan.bpf.c], a traffic-control program that prints the tunnel key and
    the ERSPAN index of a packet and drops packets without them, and its loader
    [ebpf/erspan/src/main.rs].  The kernel helpers that fill the tunnel key and options are not
    part of the repository: they are parameters of the program, given by the class [tunnel]. *)

From S2P Require Import Prelude CType Mem Bpf Io EbAbi.

(** ** The C program *)

Definition TC_ACT_UNSPEC : Z := -1.
Definition TC_ACT_OK : Z := 0.
Definition TC_ACT_SHOT : Z := 2.

Definition ports_def : map_def := MapDef "BPF_MAP_TYPE_ARRAY" 10 u32 u16.

(** The helpers of [bpf_helpers.h] the program calls, on packets of type [P]: the value returned,
    and the contents of the buffer of [size] bytes when that is not negative. *)
Class tunnel (P : Type) := Tunnel
  { bpf_skb_get_tunnel_key : P -> Z -> Z -> Z * list byte;
    bpf_skb_get_tunnel_opt : P -> Z -> Z * list byte;
    tunnel_key_size skb size flags :
      0 <= (bpf_skb_get_tunnel_key skb size flags).1 -> 0 <= size ->
      len (bpf_skb_get_tunnel_key skb size flags).2 = size;
    tunnel_opt_size skb size :
      0 <= (bpf_skb_get_tunnel_opt skb size).1 -> 0 <= size ->
      len (bpf_skb_get_tunnel_opt skb size).2 = size }.

Definition log_err (line ret : Z) : prog () :=
  bpf_printk ("ERROR line:%d ret:%d" +:+ nl) [AInt line; AInt ret].

Section Erspan.
Context {ENDIAN : bpf_endian} {P : Type} {TUNNEL : tunnel P}.

(** The branch of [#ifdef ERSPAN_V1], which the file defines. *)
Definition erspan_get_tunnel (skb : P) : prog Z :=
  let '(ret, key) := bpf_skb_get_tunnel_key skb (sizeof struct_bpf_tunnel_key) 0 in
  if ret <? 0 then log_err 33 ret ;; mret TC_ACT_SHOT else
  let '(ret, md) := bpf_skb_get_tunnel_opt skb (sizeof struct_erspan_metadata) in
  if ret <? 0 then log_err 39 ret ;; mret TC_ACT_SHOT else
  tunnel_id ← lift (get_field struct_bpf_tunnel_key [Fld "tunnel_id"] key);
  remote_ipv4 ← lift (get_field struct_bpf_tunnel_key [Fld "remote_ipv4"] key);
  version ← lift (get_field struct_erspan_metadata [Fld "version"] md);
  bpf_printk ("key %d remote ip 0x%x erspan version %d" +:+ nl)
    [AInt tunnel_id; AInt remote_ipv4; AInt version] ;;
  index_be ← lift (get_field struct_erspan_metadata [Fld "u"; Fld "index"] md);
  let index := bpf_ntohl index_be in
  bpf_printk (tab +:+ " index %x" +:+ nl) [AInt index] ;;
  mret TC_ACT_OK.

End Erspan.

(** ** The loader *)

Record Command := MkCommand
  { iface : string; ports : list Z; attach : bool; detach : bool; destroy : bool; query : bool }.

Inductive hook := Ingress | Egress | Custom.
#[export] Instance hook_eq_dec : EqDecision hook.
Proof. solve_decision. Defined.
#[export] Instance hook_countable : Countable hook.
Proof.
  exact (inj_countable'
    (fun h => match h with Ingress => 0%nat | Egress => 1%nat | Custom => 2%nat end)
    (fun n => match n with 0%nat => Ingress | 1%nat => Egress | _ => Custom end)
    ltac:(intros []; reflexivity)).
Defined.
#[export] Instance hook_of_countable : Countable (Z * hook) := prod_countable.

Inductive call :=
| SetRlimit
| OpenSkel
| LoadSkel
| NameToIndex (iface : string)
| QueryHook (ifidx : Z) (h : hook)
| DetachHook (ifidx : Z) (h : hook)
| CreateHook (ifidx : Z) (h : hook)
| AttachHook (ifidx : Z) (h : hook)
| DestroyAll (ifidx : Z).

Section Loader.
Context {M : Type} {MAP : bpf_map M}.

(** [if_nametoindex] is a parameter; [outcome] says whether it, and the other calls, succeed. *)
Context (if_nametoindex : string -> Z) (outcome : list call -> call -> option Z).

(** For each hook of an interface that has the program attached, its map of ports. *)
Abbreviation hooks := (gmap (Z * hook) M).

Local Open Scope io_scope.

(** The loop over the ports of the command line, [i] counting from 0. *)
Fixpoint update_ports (m : M) (i : Z) (ps : list Z) : M + Z :=
  match ps with
  | [] => inl m
  | port :: ps =>
      match map_update m (le_split 4 i) (le_split 2 port) with
      | inl m => update_ports m (i + 1) ps
      | inr e => inr e
      end
  end.

(** Destroying the qdisc removes every hook of the interface. *)
Definition destroy_hooks (ifidx : Z) (s : hooks) : hooks :=
  filter (fun kv => kv.1.1 <> ifidx) s.

Definition main (opts : Command) : io call hooks () :=
  do_call outcome SetRlimit id ;;;
  do_call outcome OpenSkel id ;;;
  do_call outcome LoadSkel id ;;;
  do_call outcome (NameToIndex (iface opts)) id ;;;
  let ifidx := signed 32 (if_nametoindex (iface opts)) in
  when_io (query opts)
    (ignore (do_call outcome (QueryHook ifidx Custom) id) ;;;
     ignore (do_call outcome (QueryHook ifidx Egress) id) ;;;
     ignore (do_call outcome (QueryHook ifidx Ingress) id)) ;;;
  when_io (detach opts)
    (ignore (do_call outcome (DetachHook ifidx Ingress) (delete (ifidx, Ingress))) ;;;
     ignore (do_call outcome (DetachHook ifidx Egress) (delete (ifidx, Egress))) ;;;
     ignore (do_call outcome (DetachHook ifidx Custom) (delete (ifidx, Custom)))) ;;;
  when_io (attach opts)
    (m <- io_lift (update_ports (map_create ports_def) 0 (ports opts)) ;;
     do_call outcome (CreateHook ifidx Ingress) id ;;;
     ignore (do_call outcome (AttachHook ifidx Egress) <[(ifidx, Egress) := m]>) ;;;
     ignore (do_call outcome (AttachHook ifidx Ingress) <[(ifidx, Ingress) := m]>) ;;;
     ignore (do_call outcome (AttachHook ifidx Custom) <[(ifidx, Custom) := m]>)) ;;;
  when_io (destroy opts)
    (ignore (do_call outcome (DestroyAll ifidx) (destroy_hooks ifidx))).

End Loader.
