(* ===== verification/ErspanTheorems.v ===== *)
(** * The ERSPAN tunnel reader: properties

    What the program returns and prints on every path, what the loader stores in the map of ports,
    and which hooks it touches. *)

From S2P Require Import Prelude RustStd CType Mem Bpf Io EbAbi Erspan.

(** ** The C program *)

Section Program.
Context {ENDIAN : bpf_endian} {P : Type} {TUNNEL : tunnel P}.

(** The messages of a packet with the tunnel key [key] and the metadata [md], by byte offsets. *)
Definition tunnel_messages (key md : list byte) : list event :=
  [ Printk ("key %d remote ip 0x%x erspan version %d" +:+ nl)
      [AInt (le_combine (sub_bytes 0 4 key)); AInt (le_combine (sub_bytes 4 4 key));
       AInt (signed 32 (le_combine (sub_bytes 0 4 md)))];
    Printk (tab +:+ " index %x" +:+ nl) [AInt (be_value (sub_bytes 4 4 md))] ].

Definition error_message (line ret : Z) : list event :=
  [Printk ("ERROR line:%d ret:%d" +:+ nl) [AInt line; AInt ret]].

Definition erspan_spec (skb : P) : prog Z :=
  let '(ret, key) := bpf_skb_get_tunnel_key skb 44 0 in
  if ret <? 0 then (error_message 33 ret, Some TC_ACT_SHOT) else
  let '(ret, md) := bpf_skb_get_tunnel_opt skb 12 in
  if ret <? 0 then (error_message 39 ret, Some TC_ACT_SHOT)
  else (tunnel_messages key md, Some TC_ACT_OK).

Lemma ntohl_value bs : length bs = 4%nat -> bpf_ntohl (le_combine bs) = be_value bs.
Proof.
  intros Hl. destruct (bpf_ntohl_spec (le_combine bs)) as [Hr Hs].
  rewrite split_le_combine' in Hs by done. unfold be_value. rewrite <- Hs.
  by rewrite le_combine_split_small.
Qed.

(** C4: the program, completely: a packet without a tunnel key, or without tunnel options, is
    dropped with one error message; any other is passed on, and the messages show its tunnel key,
    remote address and version, and the index of its ERSPAN header in host byte order. *)
Theorem erspan_get_tunnel_spec skb : erspan_get_tunnel skb = erspan_spec skb.
Proof.
  unfold erspan_get_tunnel, erspan_spec.
  change (sizeof struct_bpf_tunnel_key) with 44. change (sizeof struct_erspan_metadata) with 12.
  pose proof (tunnel_key_size skb 44 0) as Hk. pose proof (tunnel_opt_size skb 12) as Hm.
  destruct (bpf_skb_get_tunnel_key skb 44 0) as [r1 key], (bpf_skb_get_tunnel_opt skb 12) as [r2 md].
  cbn in Hk, Hm. destruct (Z.ltb_spec r1 0); [done|]. destruct (Z.ltb_spec r2 0); [done|].
  specialize (Hk ltac:(lia) ltac:(lia)). specialize (Hm ltac:(lia) ltac:(lia)).
  rewrite (get_field_bytes _ [Fld "tunnel_id"] key 4 0 4) by first [reflexivity | lia].
  rewrite (get_field_bytes _ [Fld "remote_ipv4"] key 4 4 4) by first [reflexivity | lia].
  rewrite (get_int_field _ [Fld "version"] md 0 4) by first [reflexivity | lia].
  rewrite (get_field_bytes _ [Fld "u"; Fld "index"] md 4 4 4) by first [reflexivity | lia].
  rewrite !bind_lift_Some, ntohl_value by (by rewrite sub_bytes_length by lia). done.
Qed.
End Program.

(** ** The map of ports *)

(** The bytes at an index of the map. *)
Definition port_at (m : fmap_state) (i : Z) : option (list byte) := map_lookup m (le_split 4 i).

Lemma array_key_inj i j :
  0 <= i < 2 ^ 32 -> 0 <= j < 2 ^ 32 -> le_split 4 i = le_split 4 j -> i = j.
Proof.
  intros Hi Hj E%(f_equal le_combine). by rewrite !le_combine_split_small in E by done.
Qed.

(** An array that has an entry at every index below 10. *)
Definition ports_full (m : fmap_state) : Prop :=
  fm_def m = ports_def /\ forall i, 0 <= i < 2 ^ 32 -> is_Some (port_at m i) <-> i < 10.

Lemma create_full :
  ports_full (map_create ports_def) /\
  forall i, 0 <= i < 10 -> port_at (map_create ports_def) i = Some (zeros 2).
Proof.
  assert (H : forall i, 0 <= i < 10 -> port_at (map_create ports_def) i = Some (zeros 2)).
  { intros i Hi%(small_cases i 10). cbn in Hi.
    repeat (apply elem_of_cons in Hi as [->|Hi]; [reflexivity|]). by apply not_elem_of_nil in Hi. }
  split; [|done]. split; [done|]. intros i Hi. split; [|intros; rewrite H by lia; eauto].
  intros [v Hv]. unfold port_at in Hv. cbn in Hv.
  assert (Hkey : exists j, 0 <= j < 10 /\ le_split 4 i = le_split 4 j).
  { apply elem_of_list_to_map_2, list_elem_of_fmap in Hv as (k & [= Hk _] & Hin).
    apply list_elem_of_fmap in Hin as (j & -> & Hj%elem_of_seq). exists (Z.of_nat j).
    change (Z.to_nat (md_max_entries ports_def)) with 10%nat in Hj. split; [lia|done]. }
  destruct Hkey as (j & Hj & E). apply array_key_inj in E; lia.
Qed.

(** One update of a full array. *)
Lemma full_update m i v :
  ports_full m -> 0 <= i < 2 ^ 32 ->
  if i <? 10 then exists m', map_update m (le_split 4 i) v = inl m' /\ ports_full m' /\
    forall j, 0 <= j < 2 ^ 32 -> port_at m' j = if j =? i then Some v else port_at m j
  else map_update m (le_split 4 i) v = inr E2BIG.
Proof.
  intros [Hd Hf] Hi. specialize (Hf i Hi) as Hfi. unfold port_at in Hfi. cbn in *. unfold fm_update.
  rewrite Hd, length_le_split. cbn [ports_def md_key md_type]. change (sizeof u32) with 4.
  rewrite (bool_decide_eq_false_2 (_ = _)) by done. cbn [Z.of_nat negb].
  change (negb (4 =? 4)) with false. cbv iota. rewrite andb_false_l, orb_false_r.
  destruct (Z.ltb_spec i 10); case_bool_decide as Hs; try tauto.
  - eexists. split; [done|].
    assert (Hl : forall j, 0 <= j < 2 ^ 32 ->
      port_at (FMapState ports_def (<[le_split 4 i := v]> (fm_data m))) j =
        if j =? i then Some v else port_at m j).
    { intros j Hj. unfold port_at. cbn. destruct (Z.eqb_spec j i) as [->|].
      - apply lookup_insert_eq.
      - apply lookup_insert_ne. intros E%array_key_inj; congruence. }
    split; [|done]. split; [done|]. intros j Hj. rewrite Hl by done.
    destruct (Z.eqb_spec j i) as [->|]; [|by apply Hf]. split; [done|eauto].
  - apply Hfi in Hs. lia.
Qed.

Lemma update_ports_spec m i ps :
  ports_full m -> 0 <= i <= 10 -> i + len ps < 2 ^ 32 ->
  if i + len ps <=? 10 then exists m', update_ports m i ps = inl m' /\ ports_full m' /\
    forall j, 0 <= j < 10 ->
      port_at m' j = if (i <=? j) && (j <? i + len ps)
                     then le_split 2 <$> (ps !! Z.to_nat (j - i)) else port_at m j
  else update_ports m i ps = inr E2BIG.
Proof.
  revert m i. induction ps as [|p ps IH]; intros m i Hm Hi Hl; cbn [update_ports length].
  - rewrite Z.add_0_r. destruct (Z.leb_spec i 10); [|lia]. exists m. split_and!; [done..|].
    intros j Hj. by destruct (Z.leb_spec i j), (Z.ltb_spec j i); try lia.
  - rewrite length_cons in Hl. pose proof (full_update m i (le_split 2 p) Hm ltac:(lia)) as Hu.
    destruct (Z.ltb_spec i 10).
    + destruct Hu as (m1 & -> & H1 & Hp1).
      specialize (IH m1 (i + 1) H1 ltac:(lia) ltac:(lia)).
      replace (i + Z.of_nat (S (length ps))) with (i + 1 + len ps) by lia.
      destruct (Z.leb_spec (i + 1 + len ps) 10); [|done].
      destruct IH as (m2 & -> & H2 & Hp2). exists m2. split_and!; [done..|]. intros j Hj.
      rewrite Hp2, Hp1 by lia.
      destruct (Z.leb_spec (i + 1) j), (Z.leb_spec i j), (Z.ltb_spec j (i + 1 + len ps)),
        (Z.eqb_spec j i); try lia; cbn [andb]; try done.
      * replace (Z.to_nat (j - i)) with (S (Z.to_nat (j - (i + 1)))) by lia. done.
      * subst. by rewrite Z.sub_diag.
    + rewrite Hu. destruct (Z.leb_spec (i + Z.of_nat (S (length ps))) 10); [lia|done].
Qed.

(** The loader stores up to ten ports: the one at position [i] of the command line at index
    [i], zero at the indices left over; an eleventh is an error. *)
Theorem update_ports_stores ps :
  len ps < 2 ^ 32 ->
  if len ps <=? 10 then exists m, update_ports (map_create ports_def) 0 ps = inl m /\
    forall j, 0 <= j < 10 ->
      port_at m j = Some (le_split 2 (default 0 (ps !! Z.to_nat j)))
  else update_ports (map_create ports_def) 0 ps = inr E2BIG.
Proof.
  intros Hl. destruct create_full as [Hf Hz].
  pose proof (update_ports_spec _ 0 ps Hf ltac:(lia) ltac:(lia)) as Hu. rewrite Z.add_0_l in Hu.
  destruct (Z.leb_spec (len ps) 10); [|done]. destruct Hu as (m & -> & _ & Hp).
  exists m. split; [done|]. intros j Hj. rewrite Hp by done.
  destruct (Z.leb_spec 0 j), (Z.ltb_spec j (len ps)); try lia; cbn [andb].
  - rewrite Z.sub_0_r. destruct (lookup_lt_is_Some_2 ps (Z.to_nat j)) as [p ->]; [lia|done].
  - rewrite Hz, lookup_ge_None_2 by lia. done.
Qed.

(** ** The loader *)

Section Loader.
Context {M : Type} {MAP : bpf_map M} (if_nametoindex : string -> Z).
Context (outcome : list call -> call -> option Z).

Abbreviation hooks := (gmap (Z * hook) M).

Definition ifidx_of (o : Command) : Z := signed 32 (if_nametoindex (iface o)).

(** The hooks of other interfaces are those of [s0]. *)
Definition others_kept (i : Z) (s0 s : hooks) : Prop :=
  forall j h, j <> i -> s !! (j, h) = s0 !! (j, h).

Lemma others_insert i s0 s h m : others_kept i s0 s -> others_kept i s0 (<[(i, h) := m]> s).
Proof. intros H j h' Hj. rewrite lookup_insert_ne by congruence. by apply H. Qed.

Lemma others_delete i s0 s h : others_kept i s0 s -> others_kept i s0 (delete (i, h) s).
Proof. intros H j h' Hj. rewrite lookup_delete_ne by congruence. by apply H. Qed.

Lemma destroy_lookup i s j h :
  destroy_hooks (M := M) i s !! (j, h) = if j =? i then None else s !! (j, h).
Proof.
  unfold destroy_hooks. rewrite map_lookup_filter. destruct (s !! (j, h)) as [m|]; [|by case_match].
  cbn. destruct (Z.eqb_spec j i).
  - by rewrite option_guard_False by (cbn; tauto).
  - by rewrite option_guard_True by done.
Qed.

Lemma others_destroy i s0 s : others_kept i s0 s -> others_kept i s0 (destroy_hooks i s).
Proof. intros H j h Hj. rewrite destroy_lookup. destruct (Z.eqb_spec j i); [done|by apply H]. Qed.

Lemma keeps_effect (I : hooks -> Prop) c e :
  (forall s, I s -> I (e s)) -> keeps I (do_call outcome c e).
Proof. apply keeps_call. Qed.
#[local] Hint Resolve keeps_effect others_insert others_delete others_destroy : keeps.

(** However its calls fail, the loader never touches the hooks of another interface. *)
Theorem erspan_other_interfaces o p j h :
  j <> ifidx_of o ->
  p_state (main if_nametoindex outcome o p).1 !! (j, h) = p_state p !! (j, h).
Proof.
  intros Hj.
  assert (K : keeps (others_kept (ifidx_of o) (p_state p)) (main if_nametoindex outcome o)).
  { unfold main. fold (ifidx_of o).
    do 4 (apply keeps_bind; [auto with keeps|intros []]).
    do 3 (apply keeps_bind; [auto 15 with keeps|intros []]). auto with keeps. }
  by apply (K p).
Qed.

(** The hook [h] of the interface after a run without failures, with the map [m]. *)
Definition final_hook (o : Command) (m : M) (prev : option M) : option M :=
  if destroy o then None else if attach o then Some m else if detach o then None else prev.

Context (NOFAIL : forall log c, outcome log c = None).

Lemma attach_three (m : M) (i : Z) (p : process call hooks) :
  exists log, io_bind (do_call outcome (CreateHook i Ingress) id) (fun _ : () =>
     io_bind (ignore (do_call outcome (AttachHook i Egress) <[(i, Egress) := m]>)) (fun _ =>
     io_bind (ignore (do_call outcome (AttachHook i Ingress) <[(i, Ingress) := m]>)) (fun _ =>
     ignore (do_call outcome (AttachHook i Custom) <[(i, Custom) := m]>)))) p =
    (Process log (<[(i, Custom) := m]> (<[(i, Ingress) := m]> (<[(i, Egress) := m]> (p_state p)))),
     inl () : () + Z).
Proof.
  rewrite !bind_call, !bind_ignore_call by done. unfold ignore, do_call. rewrite NOFAIL.
  eexists. reflexivity.
Qed.

Lemma insert_three (m : M) i (s : hooks) h :
  <[(i, Custom) := m]> (<[(i, Ingress) := m]> (<[(i, Egress) := m]> s)) !! (i, h) = Some m.
Proof.
  destruct h; repeat first [apply lookup_insert_eq | rewrite lookup_insert_ne by congruence].
Qed.

Lemma delete_three i (s : hooks) h :
  delete (i, Custom) (delete (i, Egress) (delete (i, Ingress) s)) !! (i, h) = None.
Proof.
  destruct h; repeat first [apply lookup_delete_eq | rewrite lookup_delete_ne by congruence].
Qed.

(** When no call fails, the last of destroy, attach and detach that was asked for decides what
    runs on each hook of the interface; attaching installs the program with the ports given. *)
Theorem erspan_hooks o p m :
  update_ports (map_create ports_def) 0 (ports o) = inl m ->
  (main if_nametoindex outcome o p).2 = inl () /\
  forall h, p_state (main if_nametoindex outcome o p).1 !! (ifidx_of o, h) =
    final_hook o m (p_state p !! (ifidx_of o, h)).
Proof.
  intros Hm. unfold main, final_hook. fold (ifidx_of o). rewrite !bind_call by done.
  rewrite !bind_three by done. set (p1 := after_three _ _ _ _ _ _ _ _).
  assert (Hs : forall h, p_state p1 !! (ifidx_of o, h) =
                         if detach o then None else p_state p !! (ifidx_of o, h)).
  { intros h. subst p1. unfold after_three. destruct (detach o), (query o);
      try apply delete_three; done. }
  clearbody p1. destruct (attach o); cbn [when_io].
  - destruct (attach_three m (ifidx_of o) p1) as [log Ha].
    erewrite bind_run; [|rewrite (bind_lift_ok _ _ _ _ Hm); exact Ha].
    unfold when_io, ignore, do_call. destruct (destroy o).
    all: rewrite ?NOFAIL; split; [done|]; intros h; cbn [fst snd p_state io_ret].
    + by rewrite destroy_lookup, Z.eqb_refl.
    + apply insert_three.
  - rewrite bind_io_ret. unfold when_io, ignore, do_call. destruct (destroy o).
    all: rewrite ?NOFAIL; split; [done|]; intros h; cbn [fst snd p_state io_ret].
    + by rewrite destroy_lookup, Z.eqb_refl.
    + apply Hs.
Qed.
End Loader.

(** With more than ten ports the loader fails and attaches nothing: whatever runs on a hook
    afterwards ran there before. *)
Theorem erspan_too_many_ports if_nametoindex outcome o p :
  10 < len (ports o) < 2 ^ 32 -> attach o = true ->
  (exists e, (main (M := fmap_state) if_nametoindex outcome o p).2 = inr e) /\
  p_state (main (M := fmap_state) if_nametoindex outcome o p).1 ⊆ p_state p.
Proof.
  intros Hl Ha.
  assert (Hu : update_ports (M := fmap_state) (map_create ports_def) 0 (ports o) = inr E2BIG).
  { pose proof (update_ports_spec _ 0 (ports o) (proj1 create_full) ltac:(lia) ltac:(lia)) as H.
    destruct (Z.leb_spec (0 + len (ports o)) 10); [lia|done]. }
  split.
  - unfold main. rewrite Ha, Hu. do 6 (apply fails_bind; intros []).
    apply fails_first, fails_first, fails_lift.
  - assert (K : keeps (fun s => s ⊆ p_state p) (main (M := fmap_state) if_nametoindex outcome o));
      [|by apply (K p)].
    assert (Hdel : forall k s, s ⊆ p_state p -> delete k s ⊆ p_state p).
    { intros k s Hs. etrans; [apply delete_subseteq|done]. }
    unfold main. rewrite Ha, Hu. do 4 (apply keeps_bind; [auto with keeps|intros []]).
    do 2 (apply keeps_bind; [auto 15 using keeps_call with keeps|intros []]).
    intros q Hq. cbn [when_io]. by rewrite io_bind_assoc, (bind_lift_err _ E2BIG).
Qed.

(** ** Instances *)

(** Packets by the tunnel key and options they carry, if any; [ENOENT] is the error without. *)
Definition ENOENT : Z := 2.
Definition fit (size : Z) (bs : list byte) : list byte :=
  take (Z.to_nat size) (bs ++ zeros size).
Definition give (size : Z) (o : option (list byte)) : Z * list byte :=
  match o with Some bs => (0, fit size bs) | None => (- ENOENT, []) end.

Lemma fit_length size bs : 0 <= size -> len (fit size bs) = size.
Proof.
  intros. unfold fit. rewrite length_take, length_app. pose proof (length_zeros size). lia.
Qed.

#[export] Program Instance bytes_tunnel : tunnel (option (list byte) * option (list byte)) :=
  {| bpf_skb_get_tunnel_key skb size flags := give size skb.1;
     bpf_skb_get_tunnel_opt skb size := give size skb.2 |}.
Next Obligation. intros [[k|] o] size flags H Hs; [by apply fit_length|done]. Qed.
Next Obligation. intros [k [o|]] size H Hs; [by apply fit_length|done]. Qed.

(** Key 7 from 10.0.0.1, ERSPAN version 1 with index 0x1234. *)
Definition tunnel_packet : option (list byte) * option (list byte) :=
  (Some (byte.of_Z <$> [7; 0; 0; 0; 1; 0; 0; 10]), Some (byte.of_Z <$> [1; 0; 0; 0; 0; 0; 0x12; 0x34])).

Lemma erspan_get_tunnel_spec_witness :
  erspan_get_tunnel tunnel_packet =
    ([ Printk ("key %d remote ip 0x%x erspan version %d" +:+ nl) [AInt 7; AInt 0x0a000001; AInt 1];
       Printk (tab +:+ " index %x" +:+ nl) [AInt 0x1234] ], Some TC_ACT_OK) /\
  erspan_get_tunnel (Some [], None) = (error_message 39 (- ENOENT), Some TC_ACT_SHOT).
Proof. split; rewrite erspan_get_tunnel_spec; by vm_compute. Defined.

Definition two_ports (b : bool) : Command := MkCommand "eth0" [80; 443] true true b false.
Definition eleven_ports : Command := MkCommand "eth0" (repeat 80 11) true false false false.
Definition index_2 (_ : string) : Z := 2.

Lemma update_ports_stores_witness :
  exists m, update_ports (map_create ports_def) 0 [80; 443] = inl m /\
    port_at m 1 = Some (le_split 2 443) /\ port_at m 2 = Some (le_split 2 0).
Proof.
  destruct (update_ports_stores [80; 443]) as (m & Hm & E); [by vm_compute|].
  exists m. split; [done|]. split; [by apply (E 1)|by apply (E 2)].
Defined.

Lemma erspan_other_interfaces_witness :
  p_state (main index_2 (fun _ _ => Some 1) (two_ports true)
             (Process [] {[ (3, Custom) := map_create (M := fmap_state) ports_def ]})).1 !! (3, Custom)
  = Some (map_create ports_def).
Proof. rewrite erspan_other_interfaces; [|by vm_compute]. apply lookup_singleton_eq. Defined.

Definition ports_of (o : Command) : fmap_state :=
  match update_ports (map_create ports_def) 0 (ports o) with
  | inl m => m | inr _ => map_create ports_def
  end.

Lemma erspan_hooks_witness :
  p_state (main index_2 (fun _ _ => None) (two_ports false) (Process [] ∅)).1 !! (2, Ingress)
  = Some (ports_of (two_ports false)).
Proof.
  assert (H : match update_ports (M := fmap_state) (map_create ports_def) 0 [80; 443] with
              | inl _ => true | inr _ => false end = true) by (by vm_compute).
  destruct (erspan_hooks index_2 (fun _ _ => None) ltac:(done) (two_ports false) (Process [] ∅)
              (ports_of (two_ports false))) as [_ E];
    [|exact (E Ingress)].
  unfold ports_of. cbn [two_ports ports]. by destruct (update_ports (map_create ports_def) 0 [80; 443]).
Defined.

Lemma erspan_too_many_ports_witness :
  p_state (main (M := fmap_state) index_2 (fun _ _ => None) eleven_ports (Process [] ∅)).1 ⊆ ∅.
Proof.
  apply (erspan_too_many_ports index_2 (fun _ _ => None) eleven_ports (Process [] ∅));
    [by vm_compute|done].
Defined.
