(* ===== verification/FuncProbe.v ===== *)
(** * The function probe

    [ebpf/funcprobe/src/bpf/funcprobe.bpf.c] and [funcprobe.h]: programs that send the kernel and
    user stacks of a probed function call to user space through a ring buffer; and
    [ebpf/funcprobe/src/main.rs], which attaches them and decodes the samples.  The kernel helpers
    are parameters, given by the class [probe_env]; so is the symboliser the decoder calls. *)

From S2P Require Import Prelude RustStd CType Mem Bpf Io EbAbi.

(** ** The event *)

Definition TASK_COMM_LEN : Z := 16.
Definition MAX_STACK_DEPTH : Z := 128.

Definition stack_strace_t : cty := CArr MAX_STACK_DEPTH __u64.

Definition stacktrace_event : cty := cstruct
  [ fld "pid" __u32;
    fld "cpu_id" __u32;
    fld "comm" (CArr TASK_COMM_LEN c_char);
    fld "kstack_sz" __u32;
    fld "ustack_sz" __u32;
    fld "kstack" stack_strace_t;
    fld "ustack" stack_strace_t ].

(** The ring buffer, which has neither keys nor values. *)
Definition events_def : map_def :=
  MapDef "BPF_MAP_TYPE_RINGBUF" (256 * 1024) (cstruct []) (cstruct []).

Definition BPF_F_USER_STACK : Z := default 0 (enum_value enum_BPF_F_stack "BPF_F_USER_STACK").

(** ** The C programs *)

(** The helpers of [bpf_helpers.h] the programs call in a probe context of type [C].  Reserved
    memory has arbitrary contents; the helpers that fill a buffer return its new contents, and
    [bpf_get_stack] the number of bytes written or a negative error. *)
Class probe_env (C : Type) := ProbeEnv
  { regs : C -> list byte;
    bpf_get_current_pid_tgid : C -> Z;
    bpf_get_smp_processor_id : C -> Z;
    bpf_ringbuf_reserve : C -> Z -> option (list byte);
    bpf_get_current_comm : C -> list byte -> Z * list byte;
    bpf_get_stack : C -> list byte -> Z -> Z * list byte;
    pid_tgid_range ctx : 0 <= bpf_get_current_pid_tgid ctx < 2 ^ 64;
    processor_id_range ctx : 0 <= bpf_get_smp_processor_id ctx < 2 ^ 32;
    reserve_size ctx n bs : bpf_ringbuf_reserve ctx n = Some bs -> len bs = n;
    comm_size ctx buf : length (bpf_get_current_comm ctx buf).2 = length buf;
    stack_size ctx buf flags : length (bpf_get_stack ctx buf flags).2 = length buf;
    stack_result ctx buf flags : -4095 <= (bpf_get_stack ctx buf flags).1 <= len buf }.

Definition bpf_ringbuf_submit (sample : list byte) (flags : Z) : prog () :=
  emit (RingSubmit sample flags).

Section Programs.
Context {C : Type} {ENV : probe_env C}.

(** One call of a helper that fills the member [f] of the event. *)
Definition fill (f : string) (helper : list byte -> Z * list byte) (event : list byte)
    : prog (Z * list byte) :=
  buf ← lift (get_bytes stacktrace_event [Fld f] event);
  let '(ret, buf) := helper buf in
  event ← lift (set_bytes stacktrace_event [Fld f] buf event);
  mret (ret, event).

Definition set (p : list step) (v : Z) (event : list byte) : prog (list byte) :=
  lift (set_field stacktrace_event p v event).

(** The first argument of the probed function, [p], is read and not used. *)
Definition get_stack (ctx : C) : prog Z :=
  let p := get_field struct_pt_regs [Fld "di"] (regs ctx) in
  let pid := wrap 32 (Z.shiftr (bpf_get_current_pid_tgid ctx) 32) in
  let cpu_id := signed 32 (bpf_get_smp_processor_id ctx) in
  match bpf_ringbuf_reserve ctx (sizeof stacktrace_event) with
  | None => bpf_printk ("no ringbuf found!" +:+ nl) [] ;; mret 1
  | Some event =>
      event ← set [Fld "pid"] pid event;
      event ← set [Fld "cpu_id"] cpu_id event;
      '(ret, event) ← fill "comm" (bpf_get_current_comm ctx) event;
      event ← (if negb (ret =? 0) then set [Fld "comm"; Idx 0] 0 event else mret event);
      '(ret, event) ← fill "kstack" (fun buf => bpf_get_stack ctx buf 0) event;
      event ← set [Fld "kstack_sz"] ret event;
      '(ret, event) ← fill "ustack" (fun buf => bpf_get_stack ctx buf BPF_F_USER_STACK) event;
      event ← set [Fld "ustack_sz"] ret event;
      bpf_ringbuf_submit event 0 ;;
      mret 0
  end.

(** The four programs; the exit programs also receive the value returned, and ignore it. *)
Definition kfunc_enter (ctx : C) : prog Z := get_stack ctx.
Definition kfunc_exit (ctx : C) (ret : Z) : prog Z := mret 0.
Definition ufunc_enter (ctx : C) : prog Z := get_stack ctx.
Definition ufunc_exit (ctx : C) (ret : Z) : prog Z := mret 0.

End Programs.

(** ** The decoder of samples *)

(** [#[repr(C)] struct stacktrace_event] of [main.rs]. *)
Definition stacktrace_event_rs : cty := cstruct
  [ fld "pid" (CInt 4 false);
    fld "cpu_id" (CInt 4 false);
    fld "comm" (CArr TASK_COMM_LEN (CInt 1 false));
    fld "kstack_size" (CInt 4 true);
    fld "ustack_size" (CInt 4 true);
    fld "kstack" (CArr MAX_STACK_DEPTH (CInt 8 false));
    fld "ustack" (CArr MAX_STACK_DEPTH (CInt 8 false)) ].

(** What the handler prints, and what it asks the symboliser: the addresses of a stack, in the
    kernel or in a process. *)
Inductive source := Kernel | Process (pid : Z).
Inductive line :=
| GotEvent
| InvalidSize (got want : Z)
| CommLine (comm : list byte) (pid cpu : Z)
| KernelLine | NoKernelStack
| UserLine | NoUserStack
| Symbolize (src : source) (stack : list Z)
| BlankLine.

(** A run of the handler: the lines, and the value returned unless it panics. *)
Definition handler (A : Type) : Type := list line * option A.
#[export] Instance handler_ret : MRet handler := fun A a => ([], Some a).
#[export] Instance handler_bind : MBind handler := fun A B f m =>
  match m with
  | (ls, Some a) => let '(ls', r) := f a in (ls ++ ls', r)
  | (ls, None) => (ls, None)
  end.
Definition println (l : line) : handler () := ([l], Some ()).
Definition or_panic {A} (o : option A) : handler A := ([], o).

(** The bytes of the literal <unknown>. *)
Definition unknown : list byte :=
  byte.of_Z <$> [0x3c; 0x75; 0x6e; 0x6b; 0x6e; 0x6f; 0x77; 0x6e; 0x3e].
Definition comm_str (comm : list byte) : list byte := if utf8 comm then comm else unknown.

(** [&event.f[0..size / 8]]: panics when the end is beyond the array. *)
Definition stack_slice (f : string) (size : Z) (data : list byte) : option (list Z) :=
  let n := size / 8 in
  if n <=? MAX_STACK_DEPTH
  then mapM (fun i => get_field stacktrace_event_rs [Fld f; Idx i] data) (seqZ 0 n)
  else None.

(** [show_stack_trace]: a pid of 0 stands for the kernel. *)
Definition show_stack_trace (stack : list Z) (pid : Z) : handler () :=
  println (Symbolize (if pid =? 0 then Kernel else Process pid) stack).

Definition event_handler (data : list byte) : handler Z :=
  let size := sizeof stacktrace_event_rs in
  let get f := or_panic (get_field stacktrace_event_rs [Fld f] data) in
  println GotEvent ;;
  if negb (len data =? size) then println (InvalidSize (len data) size) ;; mret 1 else
  kstack_size ← get "kstack_size"%string;
  ustack_size ← get "ustack_size"%string;
  if (kstack_size <=? 0) && (ustack_size <=? 0) then mret 1 else
  comm ← or_panic (get_bytes stacktrace_event_rs [Fld "comm"] data);
  pid ← get "pid"%string;
  cpu_id ← get "cpu_id"%string;
  println (CommLine (comm_str comm) pid cpu_id) ;;
  (if kstack_size >? 0 then
     println KernelLine ;;
     stack ← or_panic (stack_slice "kstack" kstack_size data);
     show_stack_trace stack 0
   else println NoKernelStack) ;;
  (if ustack_size >? 0 then
     println UserLine ;;
     stack ← or_panic (stack_slice "ustack" ustack_size data);
     show_stack_trace stack pid
   else println NoUserStack) ;;
  println BlankLine ;;
  mret 0.

(** ** Attaching the programs *)

Record Opts := MkOpts { verbose : bool; uprobe : option string; name : string }.

Inductive program := KfuncEnter | KfuncExit | UfuncEnter | UfuncExit.

(** An attached probe: its program, and whether it fires when the function returns. *)
Record attachment := Attachment { a_program : program; a_ret : bool }.

Inductive call :=
| SetRlimit
| OpenSkel
| LoadSkel
| ReadSymbol (path fn : string)
| AttachUprobe (a : attachment) (path : string) (address : Z)
| AttachKprobe (a : attachment) (fn : string)
| BuildRingBuffer.

Section Main.
(** The address of a dynamic symbol of an object file, and the outcomes of the calls. *)
Context (symbol_address : string -> string -> Z) (outcome : list call -> call -> option Z).

Local Open Scope io_scope.

Definition attach (c : attachment -> call) (a : attachment) : io call (list attachment) () :=
  do_call outcome (c a) (fun s => s ++ [a]).

(** [main] up to its polling loop.  A failure, or the panic of [unwrap] when the ring buffer cannot
    be built, ends the process, and its probes with it. *)
Definition main (opts : Opts) : io call (list attachment) () :=
  do_call outcome SetRlimit id ;;;
  do_call outcome OpenSkel id ;;;
  do_call outcome LoadSkel id ;;;
  match uprobe opts with
  | Some module =>
      do_call outcome (ReadSymbol module (name opts)) id ;;;
      let address := symbol_address module (name opts) in
      attach (fun a => AttachUprobe a module address) (Attachment UfuncEnter false) ;;;
      attach (fun a => AttachUprobe a module address) (Attachment UfuncExit true)
  | None =>
      attach (fun a => AttachKprobe a (name opts)) (Attachment KfuncEnter false) ;;;
      attach (fun a => AttachKprobe a (name opts)) (Attachment KfuncEnter true)
  end ;;;
  do_call outcome BuildRingBuffer id.

End Main.

(** One call of the probed function: the probes of its entry run in the context [entry], those of
    its return in the context [exit]; the exit programs get the register of the value returned. *)
Section Calls.
Context {C : Type} {ENV : probe_env C}.

Definition return_value (ctx : C) : Z :=
  default 0 (signed 32 <$> get_field struct_pt_regs [Fld "ax"] (regs ctx)).

Definition run_program (p : program) (ctx : C) : prog Z :=
  match p with
  | KfuncEnter => kfunc_enter ctx
  | KfuncExit => kfunc_exit ctx (return_value ctx)
  | UfuncEnter => ufunc_enter ctx
  | UfuncExit => ufunc_exit ctx (return_value ctx)
  end.

Definition fire (ret : bool) (ctx : C) (s : list attachment) : list event :=
  s ≫= fun a => if Bool.eqb (a_ret a) ret then events (run_program (a_program a) ctx) else [].

Definition function_call (s : list attachment) (entry exit : C) : list event :=
  fire false entry s ++ fire true exit s.

End Calls.

Definition samples (es : list event) : list (list byte) :=
  omap (fun e => match e with RingSubmit s _ => Some s | _ => None end) es.
