(* ===== verification/FuncProbeTheorems.v ===== *)
(** * The function probe: properties

    The sample a probe sends is a function of what the helpers return; the decoder never reads
    outside a sample of the probe and shows exactly the stack words the kernel wrote; the layouts
    of the event on both sides agree; and how many samples one function call sends. *)

From S2P Require Import Prelude RustStd CType Mem Bpf Io EbAbi FuncProbe.

(** ** The sample *)

(** The sizes of the members: pid, cpu, comm, the two stack sizes, the two stacks. *)
Definition event_sizes : list nat := [4; 4; 16; 4; 4; 1024; 1024]%nat.

Definition event_bytes (pid cpu : Z) (comm : list byte) (ks us : Z) (kst ust : list byte)
    : list byte :=
  concat [le_split 4 pid; le_split 4 cpu; comm; le_split 4 ks; le_split 4 us; kst; ust].

Section Sample.
Context {C : Type} {ENV : probe_env C}.

Definition sample_pid (ctx : C) : Z := Z.shiftr (bpf_get_current_pid_tgid ctx) 32.

(** The name: what the helper wrote, or the empty string if it failed. *)
Definition sample_comm (ctx : C) (stale : list byte) : list byte :=
  let '(ret, comm) := bpf_get_current_comm ctx (sub_bytes 8 16 stale) in
  if ret =? 0 then comm else Byte.x00 :: drop 1 comm.

Definition sample_kstack (ctx : C) (stale : list byte) : Z * list byte :=
  bpf_get_stack ctx (sub_bytes 32 1024 stale) 0.
Definition sample_ustack (ctx : C) (stale : list byte) : Z * list byte :=
  bpf_get_stack ctx (sub_bytes 1056 1024 stale) BPF_F_USER_STACK.

(** The sample sent when the memory reserved held [stale]. *)
Definition sample (ctx : C) (stale : list byte) : list byte :=
  event_bytes (sample_pid ctx) (bpf_get_smp_processor_id ctx) (sample_comm ctx stale)
    (sample_kstack ctx stale).1 (sample_ustack ctx stale).1
    (sample_kstack ctx stale).2 (sample_ustack ctx stale).2.

Lemma sample_pid_range ctx : 0 <= sample_pid ctx < 2 ^ 32.
Proof.
  unfold sample_pid. pose proof (pid_tgid_range ctx) as H. rewrite Z.shiftr_div_pow2 by lia.
  split; [apply Z.div_pos; lia|]. apply Z.div_lt_upper_bound; lia.
Qed.

Lemma le_split_mod n z : le_split n z = le_split n (z mod 2 ^ (8 * Z.of_nat n)).
Proof.
  apply le_combine_inj; [by rewrite !length_le_split|].
  rewrite !le_combine_split, (Z.mul_comm _ 8), Z.mod_mod; [done|]. apply Z.pow_nonzero; lia.
Qed.

(** A signed value is stored like its unsigned one. *)
Lemma le_split_signed z : le_split 4 (signed 32 z) = le_split 4 z.
Proof.
  rewrite (le_split_mod 4 (signed 32 z)), (le_split_mod 4 z). f_equal. unfold signed.
  change (8 * Z.of_nat 4) with 32. case_match; [by rewrite Z.mod_mod|].
  rewrite <- Zminus_mod_idemp_r, Z_mod_same_full, Z.sub_0_r. by rewrite Z.mod_mod.
Qed.

(** Steps of [get_stack] on an event made of the parts of [event_sizes]. *)
Lemma set_part parts f v i k :
  sized event_sizes parts -> event_sizes !! i = Some 4%nat ->
  resolve stacktrace_event [Fld f] = Some (PlaceOf (8 * k) (8 * 4) false __u32) ->
  k = Z.of_nat (sum_list (take i event_sizes)) ->
  set [Fld f] v (concat parts) = mret (concat (<[i := le_split 4 v]> parts)).
Proof.
  intros Hs Hi Hr Hk. unfold set.
  destruct (lookup_lt_is_Some_2 parts i) as [old Ho].
  { apply lookup_lt_Some in Hi. unfold sized in Hs. by rewrite <- Hs, length_fmap in Hi. }
  destruct (sized_split _ _ _ _ Hs Ho) as (_ & _ & Hl). rewrite Hl in Hi. injection Hi as Hi.
  rewrite (set_field_part _ _ _ _ i old Hs Ho _ k 4 Hr Hk) by lia.
  rewrite drop_ge, app_nil_r by lia. done.
Qed.

Lemma fill_part parts f helper i k n ty old :
  sized event_sizes parts -> parts !! i = Some old ->
  resolve stacktrace_event [Fld f] = Some (PlaceOf (8 * k) (8 * n) false ty) ->
  k = Z.of_nat (sum_list (take i event_sizes)) -> n = len old ->
  length (helper old).2 = length old ->
  fill f helper (concat parts) = mret ((helper old).1, concat (<[i := (helper old).2]> parts)).
Proof.
  intros Hs Ho Hr Hk Hn Hl. unfold fill.
  rewrite (get_bytes_part _ _ _ _ i old Hs Ho _ k n Hr Hk Hn), bind_lift_Some.
  destruct (helper old) as [ret buf]. cbn [fst snd] in *.
  by rewrite (set_bytes_part _ _ _ _ i old Hs Ho _ k n Hr Hk _ Hl), bind_lift_Some.
Qed.

Lemma set_comm0 parts comm :
  sized event_sizes parts -> parts !! 2%nat = Some comm ->
  set [Fld "comm"; Idx 0] 0 (concat parts) = mret (concat (<[2%nat := Byte.x00 :: drop 1 comm]> parts)).
Proof.
  intros Hs Hc. unfold set. destruct (sized_split _ _ _ _ Hs Hc) as (_ & _ & [= Hl]).
  by rewrite (set_field_part stacktrace_event [Fld "comm"; Idx 0] event_sizes parts 2 comm Hs Hc
                c_char 8 1 eq_refl eq_refl) by lia.
Qed.

Lemma sized_insert4 parts i v :
  sized event_sizes parts -> event_sizes !! i = Some 4%nat ->
  sized event_sizes (<[i := le_split 4 v]> parts).
Proof. intros Hs Hi. apply sized_insert; [done|]. by rewrite length_le_split. Qed.

(** The parts of reserved memory. *)
Lemma stale_parts stale :
  len stale = 2080 -> exists a b c d e f g,
    stale = concat [a; b; c; d; e; f; g] /\ sized event_sizes [a; b; c; d; e; f; g] /\
    c = sub_bytes 8 16 stale /\ f = sub_bytes 32 1024 stale /\ g = sub_bytes 1056 1024 stale.
Proof.
  intros Hl. destruct (cut_spec event_sizes stale) as [Hs Hc]; [cbn; lia|].
  destruct (cut event_sizes stale) as [|a [|b [|c [|d [|e [|f [|g [|]]]]]]]]; try done.
  exists a, b, c, d, e, f, g. rewrite <- Hc at 1. split; [done|]. split; [done|].
  rewrite <- Hc. pose proof Hs as Hs'. unfold sized in Hs'.
  injection Hs' as Ha Hb Hcc Hd He Hf Hg.
  split_and!; symmetry.
  - apply (sub_bytes_concat _ _ 2 _ _ _ Hs); [done|done|lia].
  - apply (sub_bytes_concat _ _ 5 _ _ _ Hs); [done|done|lia].
  - apply (sub_bytes_concat _ _ 6 _ _ _ Hs); [done|done|lia].
Qed.

(** Goals [sized event_sizes _] about updated parts. *)
Ltac sizes := unfold sized, event_sizes; cbn [fmap list_fmap]; rewrite ?length_le_split; cbn [length]; congruence.

Lemma get_stack_sample_aux ctx stale :
  bpf_ringbuf_reserve ctx 2080 = Some stale ->
  get_stack ctx = ([RingSubmit (sample ctx stale) 0], Some 0).
Proof.
  intros Hr. destruct (stale_parts stale) as (a & b & c & d & e & f & g & Es & Hs & Ec & Ef & Eg).
  { by eapply reserve_size. }
  unfold get_stack. change (sizeof stacktrace_event) with 2080. rewrite Hr. cbv zeta.
  unfold sample, event_bytes, sample_comm, sample_kstack, sample_ustack.
  rewrite <- Ec, <- Ef, <- Eg, Es.
  pose proof (comm_size ctx c) as Hcl. pose proof (stack_size ctx f 0) as Hfl.
  pose proof (stack_size ctx g BPF_F_USER_STACK) as Hgl.
  pose proof Hs as Hs'. unfold sized in Hs'. injection Hs' as Ha Hb Hc Hd He Hf Hg.
  fold (sample_pid ctx).
  rewrite (wrap_small 32 (sample_pid ctx)) by apply sample_pid_range.
  rewrite (set_part _ _ _ 0 0 Hs), bind_ret by reflexivity. cbn [insert list_insert].
  rewrite (set_part _ _ _ 1 4), bind_ret by first [sizes | reflexivity]. cbn [insert list_insert].
  rewrite le_split_signed.
  rewrite (fill_part _ "comm" _ 2 8 16 (CArr 16 c_char) c), bind_ret
    by first [sizes | reflexivity | lia | assumption]. cbn [insert list_insert].
  destruct (bpf_get_current_comm ctx c) as [r comm]. cbn [fst snd] in *.
  set (comm' := if r =? 0 then comm else Byte.x00 :: drop 1 comm).
  assert (Hcomm : length comm' = 16%nat).
  { subst comm'. case_match; [congruence|]. cbn [length]. rewrite length_drop. lia. }
  match goal with |- context [if negb (r =? 0) then ?m else ?m'] =>
    replace (if negb (r =? 0) then m else m') with
      (mret (concat [le_split 4 (sample_pid ctx); le_split 4 (bpf_get_smp_processor_id ctx);
                     comm'; d; e; f; g]) : prog (list byte)) end.
  2: { subst comm'. destruct (r =? 0); [done|]. cbn [negb].
       by rewrite (set_comm0 _ comm) by first [sizes | reflexivity]. }
  rewrite bind_ret.
  rewrite (fill_part _ "kstack" _ 5 32 1024 stack_strace_t f), bind_ret
    by first [sizes | reflexivity | lia | assumption]. cbn [insert list_insert].
  destruct (bpf_get_stack ctx f 0) as [ks kst]. cbn [fst snd] in *.
  rewrite (set_part _ _ _ 3 24), bind_ret by first [sizes | reflexivity]. cbn [insert list_insert].
  rewrite (fill_part _ "ustack" _ 6 1056 1024 stack_strace_t g), bind_ret
    by first [sizes | reflexivity | lia | assumption]. cbn [insert list_insert].
  destruct (bpf_get_stack ctx g BPF_F_USER_STACK) as [us ust]. cbn [fst snd] in *.
  rewrite (set_part _ _ _ 4 28), bind_ret by first [sizes | reflexivity]. done.
Qed.
End Sample.

(** ** The decoder *)

(** The first [n] 64-bit words of [bs]. *)
Definition words (n : Z) (bs : list byte) : list Z :=
  (fun i => le_combine (sub_bytes (8 * i) 8 bs)) <$> seqZ 0 n.

Definition field_pid (data : list byte) : Z := le_combine (sub_bytes 0 4 data).
Definition field_cpu (data : list byte) : Z := le_combine (sub_bytes 4 4 data).
Definition field_ksize (data : list byte) : Z := signed 32 (le_combine (sub_bytes 24 4 data)).
Definition field_usize (data : list byte) : Z := signed 32 (le_combine (sub_bytes 28 4 data)).

(** One stack of [size] bytes at offset [off] of a sample: its first [size / 8] words, a panic
    when there are not that many, a message when there is none. *)
Definition show_stack (size off pid : Z) (some none : line) (data : list byte) : handler () :=
  if size >? 0 then
    if size / 8 <=? 128 then
      ([some; Symbolize (if pid =? 0 then Kernel else Process pid)
                        (words (size / 8) (sub_bytes off 1024 data))], Some ())
    else ([some], None)
  else ([none], Some ()).

Definition handler_spec (data : list byte) : handler Z :=
  if negb (len data =? 2080) then ([GotEvent; InvalidSize (len data) 2080], Some 1)
  else if (field_ksize data <=? 0) && (field_usize data <=? 0) then ([GotEvent], Some 1)
  else
    println GotEvent ;;
    println (CommLine (comm_str (sub_bytes 8 16 data)) (field_pid data) (field_cpu data)) ;;
    show_stack (field_ksize data) 32 0 KernelLine NoKernelStack data ;;
    show_stack (field_usize data) 1056 (field_pid data) UserLine NoUserStack data ;;
    println BlankLine ;;
    mret 0.

Lemma hbind_panic {A B} (a : A) (f : A -> handler B) : or_panic (Some a) ≫= f = f a.
Proof. cbn. by destruct (f a). Qed.

Lemma hbind_assoc {A B D} (m : handler A) (f : A -> handler B) (g : B -> handler D) :
  (m ≫= f) ≫= g = m ≫= (fun a => f a ≫= g).
Proof.
  destruct m as [es [a|]]; [|done]. cbn. destruct (f a) as [es' [b|]]; [|done].
  cbn. destruct (g b). by rewrite (assoc_L (++)).
Qed.

Lemma mapM_total {A B} (f : A -> option B) g (l : list A) :
  (forall x, x ∈ l -> f x = Some (g x)) -> mapM f l = Some (g <$> l).
Proof.
  induction l as [|x l IH]; intros H; [done|]. cbn. rewrite (H x) by constructor. cbn.
  rewrite IH; [done|]. intros y Hy. apply H. by constructor.
Qed.

Lemma resolve_stack_word f off i :
  (f = "kstack"%string /\ off = 32 \/ f = "ustack"%string /\ off = 1056) -> 0 <= i < 128 ->
  resolve stacktrace_event_rs [Fld f; Idx i]
  = Some (PlaceOf (8 * (off + 8 * i)) (8 * 8) false (CInt 8 false)).
Proof.
  intros Hf Hi. unfold resolve; fold resolve.
  destruct Hf as [[-> ->]|[-> ->]];
    (match goal with |- context [find_member ?f ?ms] =>
       let m := eval vm_compute in (find_member f ms) in change (find_member f ms) with m end);
    cbn [mbind option_bind m_bitfield m_ty m_off p_off p_width p_bitfield p_ty];
    destruct (Z.leb_spec 0 i), (Z.ltb_spec i 128); try lia; cbn -[Z.mul Z.add];
    do 2 f_equal; lia.
Qed.

Lemma stack_slice_words f off size data :
  (f = "kstack"%string /\ off = 32 \/ f = "ustack"%string /\ off = 1056) -> 0 < size ->
  len data = 2080 ->
  stack_slice f size data =
    if size / 8 <=? 128 then Some (words (size / 8) (sub_bytes off 1024 data)) else None.
Proof.
  intros Hf Hs Hl. unfold stack_slice. change MAX_STACK_DEPTH with 128.
  destruct (Z.leb_spec (size / 8) 128); [|done]. apply mapM_total.
  intros i Hi%elem_of_seqZ.
  assert (0 <= off <= 1056) by (destruct Hf as [[_ ->]|[_ ->]]; lia).
  rewrite (get_field_bytes _ _ _ 8 (off + 8 * i) 8 (resolve_stack_word f off i Hf ltac:(lia))) by lia.
  by rewrite sub_bytes_sub by lia.
Qed.

(** One branch of the decoder. *)
Lemma decode_stack {B} f off size pid some none data (k : () -> handler B) :
  (f = "kstack"%string /\ off = 32 \/ f = "ustack"%string /\ off = 1056) -> len data = 2080 ->
  (if size >? 0 then
     println some ;; stack ← or_panic (stack_slice f size data); show_stack_trace stack pid
   else println none) ≫= k
  = show_stack size off pid some none data ≫= k.
Proof.
  intros Hf Hl. unfold show_stack, show_stack_trace. rewrite Z.gtb_ltb.
  destruct (Z.ltb_spec 0 size); [|done].
  rewrite (stack_slice_words f off) by done. by destruct (size / 8 <=? 128).
Qed.

Lemma event_handler_spec_aux data : event_handler data = handler_spec data.
Proof.
  unfold event_handler, handler_spec. change (sizeof stacktrace_event_rs) with 2080.
  destruct (Z.eqb_spec (len data) 2080) as [Hl|]; cbn [negb]; [|done].
  cbv zeta.
  assert (Hk : get_field stacktrace_event_rs [Fld "kstack_size"] data = Some (field_ksize data)).
  { apply (get_int_field _ _ _ 24 4); [reflexivity|lia..]. }
  assert (Hu : get_field stacktrace_event_rs [Fld "ustack_size"] data = Some (field_usize data)).
  { apply (get_int_field _ _ _ 28 4); [reflexivity|lia..]. }
  assert (Hp : get_field stacktrace_event_rs [Fld "pid"] data = Some (field_pid data)).
  { apply (get_field_bytes _ _ _ 4 0 4); [reflexivity|lia..]. }
  assert (Hc : get_field stacktrace_event_rs [Fld "cpu_id"] data = Some (field_cpu data)).
  { apply (get_field_bytes _ _ _ 4 4 4); [reflexivity|lia..]. }
  rewrite Hk, Hu, Hp, Hc, !hbind_panic.
  destruct ((field_ksize data <=? 0) && (field_usize data <=? 0)); [done|].
  rewrite (get_bytes_sub _ [Fld "comm"] data (CArr 16 (CInt 1 false)) 8 16), !hbind_panic
    by first [reflexivity | lia].
  do 2 f_equal. rewrite (decode_stack "kstack" 32) by (done || by left).
  f_equal. by rewrite (decode_stack "ustack" 1056) by (done || by right).
Qed.

(** ** From the probe to the decoder *)

Section EndToEnd.
Context {C : Type} {ENV : probe_env C}.

Lemma sample_parts ctx stale :
  len stale = 2080 ->
  len (sample ctx stale) = 2080 /\
  sub_bytes 8 16 (sample ctx stale) = sample_comm ctx stale /\
  field_pid (sample ctx stale) = sample_pid ctx /\
  field_cpu (sample ctx stale) = bpf_get_smp_processor_id ctx /\
  field_ksize (sample ctx stale) = (sample_kstack ctx stale).1 /\
  field_usize (sample ctx stale) = (sample_ustack ctx stale).1 /\
  sub_bytes 32 1024 (sample ctx stale) = (sample_kstack ctx stale).2 /\
  sub_bytes 1056 1024 (sample ctx stale) = (sample_ustack ctx stale).2.
Proof.
  intros Hl.
  assert (Hsub : length (sub_bytes 8 16 stale) = 16%nat /\ length (sub_bytes 32 1024 stale) = 1024%nat /\
                 length (sub_bytes 1056 1024 stale) = 1024%nat)
    by (rewrite !sub_bytes_length by lia; lia).
  assert (Hc : length (sample_comm ctx stale) = 16%nat).
  { unfold sample_comm. pose proof (comm_size ctx (sub_bytes 8 16 stale)) as H.
    destruct (bpf_get_current_comm ctx (sub_bytes 8 16 stale)) as [r comm]. cbn in H.
    case_match; [lia|]. cbn [length]. rewrite length_drop. lia. }
  assert (Hk : length (sample_kstack ctx stale).2 = 1024%nat) by (unfold sample_kstack; rewrite stack_size; lia).
  assert (Hu : length (sample_ustack ctx stale).2 = 1024%nat) by (unfold sample_ustack; rewrite stack_size; lia).
  assert (Hkr : -4095 <= (sample_kstack ctx stale).1 <= 1024).
  { pose proof (stack_result ctx (sub_bytes 32 1024 stale) 0). unfold sample_kstack. lia. }
  assert (Hur : -4095 <= (sample_ustack ctx stale).1 <= 1024).
  { pose proof (stack_result ctx (sub_bytes 1056 1024 stale) BPF_F_USER_STACK). unfold sample_ustack. lia. }
  unfold sample, event_bytes.
  match goal with |- context [concat ?l] => set (parts := l) end.
  assert (Hs : sized event_sizes parts).
  { subst parts. unfold sized, event_sizes. cbn [fmap list_fmap]. rewrite !length_le_split. congruence. }
  assert (Hp : forall i part k n, parts !! i = Some part ->
    k = Z.of_nat (sum_list (take i event_sizes)) -> n = len part -> sub_bytes k n (concat parts) = part).
  { intros. by eapply sub_bytes_concat. }
  unfold field_pid, field_cpu, field_ksize, field_usize.
  rewrite (Hp 0%nat (le_split 4 (sample_pid ctx)) 0 4) by done.
  rewrite (Hp 1%nat (le_split 4 (bpf_get_smp_processor_id ctx)) 4 4) by done.
  rewrite (Hp 3%nat (le_split 4 (sample_kstack ctx stale).1) 24 4) by done.
  rewrite (Hp 4%nat (le_split 4 (sample_ustack ctx stale).1) 28 4) by done.
  rewrite !le_combine_split. change (2 ^ (Z.of_nat 4 * 8)) with (2 ^ 32).
  fold (wrap 32 (sample_kstack ctx stale).1) (wrap 32 (sample_ustack ctx stale).1).
  rewrite !signed_wrap by lia.
  rewrite !Z.mod_small by (apply sample_pid_range || apply processor_id_range).
  split_and!; try done.
  - rewrite (sized_length _ _ Hs). done.
  - apply (Hp 2%nat); [done|done|lia].
  - apply (Hp 5%nat); [done|done|lia].
  - apply (Hp 6%nat); [done|done|lia].
Qed.

Lemma sample_sizes ctx stale :
  len stale = 2080 ->
  (sample_kstack ctx stale).1 <= 1024 /\ (sample_ustack ctx stale).1 <= 1024.
Proof.
  intros Hl. pose proof (stack_result ctx (sub_bytes 32 1024 stale) 0).
  pose proof (stack_result ctx (sub_bytes 1056 1024 stale) BPF_F_USER_STACK).
  rewrite !sub_bytes_length in * by lia. unfold sample_kstack, sample_ustack. lia.
Qed.

(** What is shown of a stack of [size] bytes. *)
Definition stack_lines (stack : Z * list byte) (src : source) (some none : line) : list line :=
  if 0 <? stack.1 then [some; Symbolize src (words (stack.1 / 8) stack.2)] else [none].

Definition process_source (pid : Z) : source := if pid =? 0 then Kernel else Process pid.

Lemma show_stack_lines size off pid some none data stack :
  size = stack.1 -> size <= 1024 -> sub_bytes off 1024 data = stack.2 ->
  show_stack size off pid some none data =
    (stack_lines stack (process_source pid) some none, Some ()).
Proof.
  intros -> Hs Hd. unfold show_stack, stack_lines. rewrite Z.gtb_ltb, Hd.
  destruct (0 <? stack.1); [|done].
  destruct (Z.leb_spec (stack.1 / 8) 128); [done|].
  pose proof (Z.div_mod stack.1 8 ltac:(lia)). pose proof (Z.mod_pos_bound stack.1 8). lia.
Qed.

(** C23: what a probe sends, completely: one sample of 2080 bytes, made of the process, the
    processor, the name and the two stacks as the helpers returned them; nothing but a message
    when no memory can be reserved. *)
Theorem get_stack_sends ctx :
  match bpf_ringbuf_reserve ctx 2080 with
  | Some stale => get_stack ctx = ([RingSubmit (sample ctx stale) 0], Some 0)
  | None => get_stack ctx = ([Printk ("no ringbuf found!" +:+ nl) []], Some 1)
  end.
Proof.
  destruct (bpf_ringbuf_reserve ctx 2080) as [stale|] eqn:Hr; [by apply get_stack_sample_aux|].
  unfold get_stack. change (sizeof stacktrace_event) with 2080. by rewrite Hr.
Qed.

Lemma decoder_shows_sample_aux ctx stale :
  bpf_ringbuf_reserve ctx 2080 = Some stale ->
  event_handler (sample ctx stale) =
    if ((sample_kstack ctx stale).1 <=? 0) && ((sample_ustack ctx stale).1 <=? 0)
    then ([GotEvent], Some 1)
    else ([GotEvent; CommLine (comm_str (sample_comm ctx stale)) (sample_pid ctx)
                       (bpf_get_smp_processor_id ctx)] ++
          stack_lines (sample_kstack ctx stale) Kernel KernelLine NoKernelStack ++
          stack_lines (sample_ustack ctx stale) (process_source (sample_pid ctx)) UserLine NoUserStack ++
          [BlankLine], Some 0).
Proof.
  intros Hl%reserve_size.
  destruct (sample_parts ctx stale Hl) as (Hlen & Hc & Hp & Hcpu & Hk & Hu & Hks & Hus).
  destruct (sample_sizes ctx stale Hl).
  rewrite event_handler_spec_aux. unfold handler_spec. rewrite Hlen, Hc, Hp, Hcpu, Hk, Hu.
  cbn [negb Z.eqb Pos.eqb]. destruct (_ && _); [done|].
  rewrite (show_stack_lines _ 32 _ _ _ _ (sample_kstack ctx stale)) by done.
  rewrite (show_stack_lines _ 1056 _ _ _ _ (sample_ustack ctx stale)) by done. done.
Qed.

(** C2: from the probe to the screen. When memory can be reserved, [get_stack] sends one sample, and
    the handler decodes it without a panic, through the memory of the event and the layouts of both
    sides. When neither stack has a positive size, the handler only says that it has got an event.
    Otherwise it shows the process, the name and the processor, and for each stack exactly the whole
    words of the size the kernel reported, as the kernel wrote them, or that there is none. *)
Theorem decoder_shows_sample ctx stale :
  bpf_ringbuf_reserve ctx 2080 = Some stale ->
  exists data, get_stack ctx = ([RingSubmit data 0], Some 0) /\
  event_handler data =
    if ((sample_kstack ctx stale).1 <=? 0) && ((sample_ustack ctx stale).1 <=? 0)
    then ([GotEvent], Some 1)
    else ([GotEvent; CommLine (comm_str (sample_comm ctx stale)) (sample_pid ctx)
                       (bpf_get_smp_processor_id ctx)] ++
          stack_lines (sample_kstack ctx stale) Kernel KernelLine NoKernelStack ++
          stack_lines (sample_ustack ctx stale) (process_source (sample_pid ctx)) UserLine NoUserStack ++
          [BlankLine], Some 0).
Proof.
  intros Hr. exists (sample ctx stale). split; [by apply get_stack_sample_aux|by apply decoder_shows_sample_aux].
Qed.
End EndToEnd.

(** C24: on arbitrary bytes the decoder panics exactly when they have the size of an event and one
    of the two stack sizes claims more than the 128 words of its array. *)
Theorem decoder_panics_iff data :
  (event_handler data).2 = None <->
  len data = 2080 /\ (1032 <= field_ksize data \/ 1032 <= field_usize data).
Proof.
  rewrite event_handler_spec_aux. unfold handler_spec, show_stack.
  destruct (Z.eqb_spec (len data) 2080); cbn [negb]; [|split; [done|lia]].
  destruct ((field_ksize data <=? 0) && (field_usize data <=? 0)) eqn:E.
  { split; [done|]. apply andb_true_iff in E as [?%Z.leb_le ?%Z.leb_le]. lia. }
  rewrite !Z.gtb_ltb.
  assert (D : forall z, 128 < z / 8 <-> 1032 <= z).
  { intros z. pose proof (Z.div_mod z 8). pose proof (Z.mod_pos_bound z 8). lia. }
  pose proof (D (field_ksize data)). pose proof (D (field_usize data)).
  destruct (Z.ltb_spec 0 (field_ksize data)), (Z.leb_spec (field_ksize data / 8) 128),
    (Z.ltb_spec 0 (field_usize data)), (Z.leb_spec (field_usize data / 8) 128);
    cbn; split; intros; try done; lia.
Qed.

(** The event has one layout in C and in Rust: the same size, and every member at the same
    place with the same width.  With the header of 8 bytes the ring buffer puts before it, an event
    fits the buffer more than a hundred times. *)
Theorem event_layouts_agree :
  sizeof stacktrace_event = sizeof stacktrace_event_rs /\ wf stacktrace_event = true /\
  Forall (fun fg =>
    (fun r => (p_off r, p_width r)) <$> resolve stacktrace_event [Fld fg.1] =
    (fun r => (p_off r, p_width r)) <$> resolve stacktrace_event_rs [Fld fg.2] /\
    is_Some (resolve stacktrace_event [Fld fg.1]))
    [ ("pid", "pid"); ("cpu_id", "cpu_id"); ("comm", "comm"); ("kstack_sz", "kstack_size");
      ("ustack_sz", "ustack_size"); ("kstack", "kstack"); ("ustack", "ustack") ]%string /\
  100 * (sizeof stacktrace_event + 8) < md_max_entries events_def.
Proof.
  split; [done|]. split; [done|]. split; [|done].
  repeat constructor; eexists; reflexivity.
Qed.

(** ** Samples of one function call *)

Section Calls.
Context {C : Type} {ENV : probe_env C}.
Context (symbol_address : string -> string -> Z) (outcome : list call -> call -> option Z).
Context (NOFAIL : forall log c, outcome log c = None).

(** The probes attached when no call fails. *)
Definition attached (opts : Opts) : list attachment :=
  match uprobe opts with
  | Some _ => [Attachment UfuncEnter false; Attachment UfuncExit true]
  | None => [Attachment KfuncEnter false; Attachment KfuncEnter true]
  end.

Lemma main_attaches opts p :
  (main symbol_address outcome opts p).2 = inl () /\
  p_state (main symbol_address outcome opts p).1 = p_state p ++ attached opts.
Proof.
  unfold main, attach, attached, do_call, io_bind.
  destruct (uprobe opts); repeat (rewrite NOFAIL; cbn);
    (split; [done|]); by rewrite <- !(assoc_L (++)).
Qed.

(** C34: when no call of the loader fails and memory for the samples can be reserved,
    probing a function of a user-space module sends one sample per call, from its entry;
    probing a kernel function sends two, one from its entry and one from its return: the loader
    attaches the entry program to both. *)
Theorem samples_per_call opts entry exit s1 s2 :
  bpf_ringbuf_reserve entry 2080 = Some s1 -> bpf_ringbuf_reserve exit 2080 = Some s2 ->
  samples (function_call (p_state (main symbol_address outcome opts (Io.Process [] [])).1) entry exit)
  = match uprobe opts with
    | Some _ => [sample entry s1]
    | None => [sample entry s1; sample exit s2]
    end.
Proof.
  intros H1 H2. rewrite (proj2 (main_attaches opts (Io.Process [] []))). unfold attached.
  destruct (uprobe opts); cbn; unfold kfunc_enter, ufunc_enter;
    rewrite (get_stack_sample_aux _ _ H1); [done|]. by rewrite (get_stack_sample_aux _ _ H2).
Qed.
End Calls.

(** ** Instances *)

(** Contexts by process number: zeroed memory, the name AAAAAAAAAAAAAAAA, a kernel stack of two
    words and no user stack. *)
#[export] Program Instance plain_env : probe_env N :=
  {| regs ctx := zeros (sizeof struct_pt_regs);
     bpf_get_current_pid_tgid ctx := Z.shiftl (Z.of_N ctx mod 2 ^ 32) 32;
     bpf_get_smp_processor_id ctx := 3;
     bpf_ringbuf_reserve ctx n := if 0 <=? n then Some (zeros n) else None;
     bpf_get_current_comm ctx buf := (0, (fun _ => Byte.x41) <$> buf);
     bpf_get_stack ctx buf flags := (if flags =? 0 then Z.min 16 (len buf) else -14, buf) |}.
Next Obligation.
  intros ctx. cbn. rewrite Z.shiftl_mul_pow2 by lia.
  pose proof (Z.mod_pos_bound (Z.of_N ctx) (2 ^ 32)). lia.
Qed.
Next Obligation. intros ctx. cbn. lia. Qed.
Next Obligation.
  intros ctx n bs. cbn. destruct (Z.leb_spec 0 n); [|done]. intros [= <-]. by apply length_zeros.
Qed.
Next Obligation. intros ctx buf. apply length_fmap. Qed.
Next Obligation. done. Qed.
Next Obligation. intros ctx buf flags. cbn. destruct (flags =? 0); cbn; lia. Qed.

Lemma get_stack_sends_witness :
  samples (events (get_stack 7%N)) = [sample 7%N (zeros 2080)].
Proof.
  pose proof (get_stack_sends 7%N) as H.
  change (bpf_ringbuf_reserve 7%N 2080) with (Some (zeros 2080)) in H. cbv iota in H. by rewrite H.
Defined.

Lemma decoder_shows_sample_witness :
  exists data, get_stack 7%N = ([RingSubmit data 0], Some 0) /\
  event_handler data =
    ([GotEvent; CommLine (repeat Byte.x41 16) 7 3; KernelLine; Symbolize Kernel [0; 0];
      NoUserStack; BlankLine], Some 0).
Proof.
  destruct (decoder_shows_sample 7%N (zeros 2080) ltac:(done)) as (data & H1 & H2).
  exists data. split; [exact H1|]. rewrite H2. by vm_compute.
Defined.

(** An event that claims a kernel stack of 1032 bytes. *)
Definition long_event : list byte := zeros 24 ++ le_split 4 1032 ++ zeros 2052.

Lemma decoder_panics_iff_witness : (event_handler long_event).2 = None.
Proof. apply decoder_panics_iff. split; [by vm_compute|]. left. by vm_compute. Defined.

(** Probing malloc of a module, and do_exit of the kernel. *)
Definition uprobe_opts : Opts := MkOpts false (Some "libc.so"%string) "malloc".
Definition kprobe_opts : Opts := MkOpts false None "do_exit".
Definition attached_by (opts : Opts) : list attachment :=
  p_state (main (fun _ _ => 0) (fun _ _ => None) opts (Io.Process [] [])).1.

Lemma samples_per_call_witness :
  length (samples (function_call (attached_by uprobe_opts) 7%N 8%N)) = 1%nat /\
  length (samples (function_call (attached_by kprobe_opts) 7%N 8%N)) = 2%nat.
Proof.
  split.
  - unfold attached_by. by rewrite (samples_per_call (fun _ _ => 0) (fun _ _ => None) ltac:(done) uprobe_opts
                7%N 8%N (zeros 2080) (zeros 2080)).
  - unfold attached_by. by rewrite (samples_per_call (fun _ _ => 0) (fun _ _ => None) ltac:(done) kprobe_opts
                7%N 8%N (zeros 2080) (zeros 2080)).
Defined.
