(* ===== verification/FuncProbeShow.v ===== *)
(** * The function probe: what is shown of a stack

    The second half of src/ebpf/funcprobe/src/main.rs: the names of the addresses of a stack, the
    lines printed for them, the search for a symbol, and the loop over the ring buffer.  The
    symboliser and the parser of object files are parameters. *)

From Stdlib Require Import String.
From S2P Require Import Prelude RustStd RustStr CType Mem Bpf Io EbAbi FuncProbe FuncProbeTheorems.

(** ** The symboliser *)

Record CodeInfo := MkCodeInfo { to_path : list byte; line_number : option Z; column : option Z }.
Record InlinedFn := MkInlinedFn { inlined_name : list byte; inlined_code_info : option CodeInfo }.
Record Sym := MkSym
  { sym_name : list byte; addr : Z; offset : Z; sym_code_info : option CodeInfo;
    inlined : list InlinedFn }.
Inductive Symbolized := Symbolized_Sym (s : Sym) | Symbolized_Unknown.

(** It gives one result for each address, or an error with its text. *)
Class symbolizer := Symbolizer
  { symbolize : source -> list Z -> list Symbolized + list byte;
    symbolize_length src stack syms : symbolize src stack = inl syms -> length syms = length stack }.

(** ** Printing *)

(** A line of [println] or [eprintln]. *)
Inductive printed := Stdout (text : list byte) | Stderr (text : list byte).

Definition ADDR_WITH : nat := 16.

(** [{:#x}], and [{:#0width$x}], whose width counts the prefix. *)
Definition prefixed_hex (n : Z) : list byte := lit "0x" ++ hex n.
Definition padded_hex (width : nat) (n : Z) : list byte :=
  lit "0x" ++ repeat (char 48) (width - 2 - length (hex n)) ++ hex n.

Definition show_code_info (c : CodeInfo) : list byte :=
  match line_number c, column c with
  | Some line, Some col => lit " " ++ to_path c ++ lit ":" ++ decimal line ++ lit ":" ++ decimal col
  | Some line, None => lit " " ++ to_path c ++ lit ":" ++ decimal line
  | None, _ => lit " " ++ to_path c
  end.

Definition print_frame (name : list byte) (addr_info : option (Z * Z * Z)) (code_info : option CodeInfo)
    : printed :=
  let code_info := show_code_info <$> code_info in
  match addr_info with
  | Some (input_addr, addr, offset) =>
      Stdout (padded_hex ADDR_WITH input_addr ++ lit ": " ++ name ++ lit " @ " ++ prefixed_hex addr ++
              lit "+" ++ prefixed_hex offset ++ default [] code_info)
  | None =>
      Stdout (repeat (char 32) ADDR_WITH ++ lit "  " ++ name ++
              default [] ((fun info => lit " @" ++ info) <$> code_info) ++ lit " [inlined]")
  end.

(** One address: its symbol with the functions inlined there. *)
Definition print_symbol (input_addr : Z) (sym : Symbolized) : list printed :=
  match sym with
  | Symbolized_Sym s =>
      print_frame (sym_name s) (Some (input_addr, addr s, offset s)) (sym_code_info s) ::
      ((fun frame => print_frame (inlined_name frame) None (inlined_code_info frame)) <$> inlined s)
  | Symbolized_Unknown => [Stdout (padded_hex ADDR_WITH input_addr ++ lit ": <no-symbol>")]
  end.

Section Show.
Context {SYMBOLIZER : symbolizer}.

Definition print_stack (src : source) (stack : list Z) : list printed :=
  match symbolize src stack with
  | inl syms => concat (zip_with print_symbol stack syms)
  | inr e => [Stderr (lit "  failed to symbolize addresses: " ++ e)]
  end.

Definition print_line (l : line) : list printed :=
  match l with
  | GotEvent => [Stdout (lit "got event ...")]
  | InvalidSize got want =>
      [Stderr (lit "Invalid size " ++ decimal got ++ lit " != " ++ decimal want)]
  | CommLine comm pid cpu =>
      [Stdout (lit "COMM: " ++ comm ++ lit " (pid=" ++ decimal pid ++ lit ") @ CPU " ++ decimal cpu)]
  | KernelLine => [Stdout (lit "Kernel:")]
  | NoKernelStack => [Stdout (lit "No Kernel Stack")]
  | UserLine => [Stdout (lit "Userspace:")]
  | NoUserStack => [Stdout (lit "No Userspace Stack")]
  | Symbolize src stack => print_stack src stack
  | BlankLine => [Stdout []]
  end.

Definition print_event (data : list byte) : list printed := (event_handler data).1 ≫= print_line.

(** ** The loop *)

(** One [poll]: the samples it hands to the handler, and whether it succeeds. *)
Record poll := MkPoll { delivered : list (list byte); poll_ok : bool }.

(** How [main] goes on: it polls for more, it has returned, or a panic of the handler has ended
    the process. *)
Inductive progress := Polling | Returned | Aborted.

Fixpoint handle_samples (samples : list (list byte)) : list printed * bool :=
  match samples with
  | [] => ([], true)
  | data :: samples =>
      match (event_handler data).2 with
      | None => (print_event data, false)
      | Some _ => let '(ls, ok) := handle_samples samples in (print_event data ++ ls, ok)
      end
  end.

Fixpoint poll_loop (polls : list poll) : list printed * progress :=
  match polls with
  | [] => ([], Polling)
  | p :: polls =>
      let '(ls, ok) := handle_samples (delivered p) in
      if negb ok then (ls, Aborted)
      else if poll_ok p then let '(ls', r) := poll_loop polls in (ls ++ ls', r)
      else (ls, Returned)
  end.

End Show.

(** ** The address of a symbol *)

Class object_files := ObjectFiles
  { fs_read : string -> option (list byte);
    object_file : Type;
    parse_object : list byte -> option object_file;
    dynamic_symbols : object_file -> list (option string * Z) }.

Inductive symbol_error := Unreadable | NotAnObject | SymbolNotFound.

Definition get_symbol_address {FILES : object_files} (so_path fn_name : string) : Z + symbol_error :=
  match fs_read so_path with
  | None => inr Unreadable
  | Some buffer =>
      match parse_object buffer with
      | None => inr NotAnObject
      | Some file =>
          let is_fn (symbol : option string * Z) :=
            match symbol.1 with Some name => String.eqb name fn_name | None => false end in
          match find is_fn (dynamic_symbols file) with
          | Some symbol => inl symbol.2
          | None => inr SymbolNotFound
          end
      end
  end.
