(* ===== verification/FuncProbeShowTheorems.v ===== *)
(** * The function probe: what is shown can be read back

    From the lines printed for a sample, the addresses of its two stacks can be read again; the
    loop never aborts on samples of the probes; a symbol is found when the file has it. *)

From Stdlib Require Import String.
From S2P Require Import Prelude RustStd RustStr CType Mem Bpf Io EbAbi FuncProbe FuncProbeTheorems FuncProbeShow.

(** ** A reader of the lines *)

(** A line that begins with a number in hexadecimal and a colon shows an address. *)
Definition read_address (l : printed) : option Z :=
  match l with
  | Stdout text =>
      '(front, _) ← split_once (char 58) text;
      ds ← strip_prefix (lit "0x") front;
      from_str_radix 16 (2 ^ 64 - 1) ds
  | Stderr _ => None
  end.
Definition read_addresses (ls : list printed) : list Z := omap read_address ls.

Lemma split_once_front sep s p r : split_once sep s = Some (p, r) -> exists t, s = p ++ t.
Proof.
  revert p. induction s as [|b s IH]; intros p H; cbn in H; [done|]. case_bool_decide; [injection H as <- _; by eexists|].
  destruct (split_once sep s) as [[p' r']|] eqn:E; [|done]. injection H as <- <-.
  destruct (IH p' eq_refl) as [t ->]. by exists t.
Qed.

(** A line that does not begin with the digit 0 shows none. *)
Lemma read_other text : (forall t, text <> char 48 :: t) -> read_address (Stdout text) = None.
Proof.
  intros Ht. cbn. destruct (split_once (char 58) text) as [[p r]|] eqn:E; [|done]. cbn.
  apply split_once_front in E as [t ->]. destruct p as [|b p]; [done|]. cbn.
  destruct (bool_decide_reflect (Byte.x30 = b)) as [<-|]; [|done]. by destruct (Ht (p ++ t)).
Qed.

Lemma read_padded_hex n rest :
  0 <= n < 2 ^ 64 -> read_address (Stdout (padded_hex ADDR_WITH n ++ char 58 :: rest)) = Some n.
Proof.
  intros Hn. destruct (radix_digits 16 n) as (Hr & Hd & Hv); [lia..|].
  unfold padded_hex, hex. set (ds := digits _ 16 n) in *. set (k := (_ - _ - _)%nat).
  assert (Hpad : repeat (char 48) k ++ (digit_char <$> ds) = digit_char <$> (repeat 0 k ++ ds)).
  { rewrite fmap_app. f_equal. clear. induction k as [|k IH]; [done|]. cbn. by rewrite IH. }
  assert (Hall : Forall (fun d => 0 <= d < 16) (repeat 0 k ++ ds)).
  { apply Forall_app. split; [|done]. apply Forall_forall. intros d Hd'.
    apply list_elem_of_In, repeat_spec in Hd'. lia. }
  rewrite Hpad. unfold read_address. rewrite <- (assoc_L (++)).
  change (lit "0x" ++ (digit_char <$> (repeat 0 k ++ ds)) ++ char 58 :: rest)
    with ((lit "0x" ++ (digit_char <$> (repeat 0 k ++ ds))) ++ char 58 :: rest).
  rewrite split_once_app.
  - cbn [mbind option_bind].
    change (strip_prefix (lit "0x") (lit "0x" ++ (digit_char <$> (repeat 0 k ++ ds))))
      with (Some (digit_char <$> (repeat 0 k ++ ds))). cbn [mbind option_bind].
    assert (Hz : foldl (fun acc d => 16 * acc + d) 0 (repeat 0 k ++ ds) = n).
    { rewrite foldl_app. rewrite <- Hv. f_equal. clear. by induction k. }
    rewrite from_str_radix_digits; rewrite ?Hz; try done; try lia. by destruct k, ds.
  - apply not_elem_of_app. split; [|by apply not_in_digits].
    intros H. cbn in H. rewrite !elem_of_cons in H. destruct H as [H|[H|H]]; [done..|by apply not_elem_of_nil in H].
Qed.

(** ** Stacks *)

Section Show.
Context {SYMBOLIZER : symbolizer}.

Lemma read_inlined fs :
  read_addresses ((fun f => print_frame (inlined_name f) None (inlined_code_info f)) <$> fs) = [].
Proof.
  induction fs as [|f fs IH]; [done|].
  change (match read_address (print_frame (inlined_name f) None (inlined_code_info f)) with
          | Some a => a :: read_addresses ((fun f => print_frame (inlined_name f) None (inlined_code_info f)) <$> fs)
          | None => read_addresses ((fun f => print_frame (inlined_name f) None (inlined_code_info f)) <$> fs)
          end = []).
  unfold print_frame at 1. by rewrite read_other.
Qed.

Lemma read_symbol a sym : 0 <= a < 2 ^ 64 -> read_addresses (print_symbol a sym) = [a].
Proof.
  intros Ha. destruct sym as [s|]; unfold read_addresses; cbn [print_symbol omap list_omap].
  - change (print_frame (sym_name s) (Some (a, addr s, offset s)) (sym_code_info s))
      with (Stdout (padded_hex ADDR_WITH a ++ char 58 :: lit " " ++ sym_name s ++ lit " @ " ++ prefixed_hex (addr s) ++
              lit "+" ++ prefixed_hex (offset s) ++ default [] (show_code_info <$> sym_code_info s))).
    rewrite read_padded_hex by done. f_equal. apply read_inlined.
  - change (lit ": <no-symbol>") with (char 58 :: lit " <no-symbol>"). by rewrite read_padded_hex.
Qed.

Lemma read_app ls ls' : read_addresses (ls ++ ls') = read_addresses ls ++ read_addresses ls'.
Proof. apply omap_app. Qed.

Lemma read_stack src stack :
  Forall (fun a => 0 <= a < 2 ^ 64) stack ->
  read_addresses (print_stack src stack) = if symbolize src stack is inl _ then stack else [].
Proof.
  intros Ha. unfold print_stack. destruct (symbolize src stack) as [syms|e] eqn:E; [|done].
  apply symbolize_length in E. revert syms E. induction Ha as [|a stack Ha Hs IH]; intros [|sym syms] E; try done.
  cbn [zip_with concat]. rewrite read_app, read_symbol, IH by (done || by injection E). done.
Qed.
End Show.

(** ** Samples *)

Lemma words_range n bs : Forall (fun a => 0 <= a < 2 ^ 64) (words n bs).
Proof.
  apply Forall_fmap, Forall_forall. intros i _. cbn.
  pose proof (le_combine_bound (sub_bytes (8 * i) 8 bs)) as H. split; [lia|].
  eapply Z.lt_le_trans; [apply H|]. apply Z.pow_le_mono_r; [lia|].
  unfold sub_bytes. rewrite length_take. lia.
Qed.

(** The addresses of a stack of which a helper returned the size and the memory. *)
Definition stack_words (stack : Z * list byte) : list Z :=
  if 0 <? stack.1 then words (stack.1 / 8) stack.2 else [].

Section Samples.
Context {C : Type} {ENV : probe_env C} {SYMBOLIZER : symbolizer}.

(** What a probe sends. *)
Definition is_sample (data : list byte) : Prop :=
  exists ctx stale, bpf_ringbuf_reserve (C := C) ctx 2080 = Some stale /\ data = sample ctx stale.

Lemma read_stack_lines stack src some none :
  (forall src st, exists syms, symbolize src st = inl syms) ->
  read_addresses (print_line some) = [] -> read_addresses (print_line none) = [] ->
  read_addresses (stack_lines stack src some none ≫= print_line) = stack_words stack.
Proof.
  intros Hs H1 H2. unfold stack_lines, stack_words. destruct (0 <? stack.1).
  - cbn [mbind list_bind]. rewrite !read_app, H1. cbn [print_line].
    rewrite read_stack by apply words_range.
    destruct (Hs src (words (stack.1 / 8) stack.2)) as [syms ->]. cbn. by rewrite (right_id_L [] (++)).
  - cbn [mbind list_bind]. by rewrite read_app, H2.
Qed.

(** C30: what is printed for a sample of a probe, for which memory could be reserved, shows its stacks,
    when the symboliser does not fail: the addresses that can be read
    back from the lines are, in order, the words the kernel wrote to the two stacks, whatever the
    names the symboliser finds. *)
Theorem printed_stacks ctx stale :
  bpf_ringbuf_reserve ctx 2080 = Some stale ->
  (forall src st, exists syms, symbolize src st = inl syms) ->
  read_addresses (print_event (sample ctx stale)) =
    stack_words (sample_kstack ctx stale) ++ stack_words (sample_ustack ctx stale).
Proof.
  intros Hr Hs. unfold print_event. rewrite (decoder_shows_sample_aux ctx stale Hr).
  destruct (_ && _) eqn:E.
  - apply andb_true_iff in E as [Hk%Z.leb_le Hu%Z.leb_le]. unfold stack_words.
    by rewrite !(proj2 (Z.ltb_ge _ _)).
  - cbn [fst]. rewrite !bind_app, !read_app, !read_stack_lines by done.
    cbn [mbind list_bind print_line app].
    change (read_addresses [Stdout []]) with (@nil Z). rewrite (right_id_L [] (++)).
    unfold read_addresses at 1. cbn [omap list_omap]. by rewrite !read_other.
Qed.

Lemma sample_returns data : is_sample data -> is_Some (event_handler data).2.
Proof. intros (ctx & stale & Hr & ->). rewrite (decoder_shows_sample_aux ctx stale Hr). by case_match. Qed.

Lemma handle_samples_shows datas :
  Forall is_sample datas -> handle_samples datas = (datas ≫= print_event, true).
Proof.
  induction 1 as [|data datas [r Hr]%sample_returns Hds IH]; [done|].
  cbn [handle_samples]. rewrite Hr, IH. done.
Qed.

(** The polls up to the first that fails. *)
Fixpoint served_polls (polls : list poll) : list poll :=
  match polls with
  | [] => []
  | p :: polls => p :: if poll_ok p then served_polls polls else []
  end.

(** On samples of the probes the loop is never aborted: it shows all of them, in the order the
    ring buffer delivers them, until a poll fails, and only then the program returns. *)
Theorem poll_loop_shows polls :
  Forall (fun p => Forall is_sample (delivered p)) polls ->
  poll_loop polls = (served_polls polls ≫= (fun p => delivered p ≫= print_event),
                     if forallb poll_ok polls then Polling else Returned).
Proof.
  induction 1 as [|p polls Hp _ IH]; [done|]. cbn [poll_loop served_polls forallb].
  rewrite (handle_samples_shows _ Hp), IH. cbn [negb]. destruct (poll_ok p); cbn [mbind list_bind andb].
  - done.
  - by rewrite (right_id_L [] (++)).
Qed.
End Samples.

(** ** Symbols *)

(** The address returned is that of the first dynamic symbol with the name. *)
Lemma symbol_address_first {FILES : object_files} so_path fn_name buffer file before a after :
  fs_read so_path = Some buffer -> parse_object buffer = Some file ->
  dynamic_symbols file = before ++ (Some fn_name, a) :: after ->
  Forall (fun s => s.1 <> Some fn_name) before ->
  get_symbol_address so_path fn_name = inl a.
Proof.
  intros Hr Hp Hs Hb. unfold get_symbol_address. rewrite Hr, Hp, Hs. clear Hs.
  induction Hb as [|[[n|] x] before Hx Hb IH]; cbn.
  - by rewrite String.eqb_refl.
  - destruct (String.eqb_spec n fn_name) as [->|]; [by destruct Hx|done].
  - done.
Qed.

(** ** Instances *)

(** Every address is the function f at 1, with g inlined at even ones. *)
#[export] Program Instance plain_symbolizer : symbolizer :=
  {| symbolize src stack :=
       inl ((fun a => if Z.even a
                      then Symbolized_Sym (MkSym (lit "f") 1 a (Some (MkCodeInfo (lit "f.c") (Some 3) None))
                             [MkInlinedFn (lit "g") None])
                      else Symbolized_Unknown) <$> stack) |}.
Next Obligation. intros src stack syms [= <-]. apply length_fmap. Qed.

(** The lines for an address of the kernel, which are wider than [ADDR_WITH], and for an inlined
    function. *)
Example kernel_frame :
  print_stack Kernel [0xffffffff81000000] =
    [Stdout (lit "0xffffffff81000000: f @ 0x1+0xffffffff81000000 f.c:3");
     Stdout (lit "                  g [inlined]")].
Proof. reflexivity. Qed.

Lemma printed_stacks_witness :
  read_addresses (print_event (sample 7%N (zeros 2080))) = [0; 0].
Proof.
  rewrite (printed_stacks 7%N (zeros 2080)); [by vm_compute|done|]. intros src st. by eexists.
Defined.

Lemma poll_loop_shows_witness :
  (poll_loop [MkPoll [sample 7%N (zeros 2080); sample 8%N (zeros 2080)] true; MkPoll [] false]).2
  = Returned.
Proof.
  assert (H : Forall (fun p => Forall (is_sample (C := N)) (delivered p))
    [MkPoll [sample 7%N (zeros 2080); sample 8%N (zeros 2080)] true; MkPoll [] false]).
  { repeat constructor; by eexists _, (zeros 2080). }
  by rewrite (poll_loop_shows (C := N) _ H).
Defined.
