(* ===== verification/Ffi.v ===== *)
(** * The foreign-function examples

    [ffi/rustcc]: a C function adding two points of [int]s, called from Rust through generated
    bindings; [ffi/ccrust]: a Rust function adding two points of [i64]s, called from C;
    [py3/string_sum]: a Rust function adding two [usize]s, called from Python.  Each has its own
    overflow behaviour. *)

From S2P Require Import Prelude RustStd RustStr CType Mem.

(** The range of a [w]-bit signed integer. *)
Definition in_signed (w z : Z) : bool := (- 2 ^ (w - 1) <=? z) && (z <? 2 ^ (w - 1)).

(** ** C called from Rust *)

Module RustCC.

Definition Point : cty := cstruct [ fld "x" c_int; fld "y" c_int ].

(** Addition of [int]s; overflow is undefined behaviour. *)
Definition int_add (a b : Z) : option Z := if in_signed 32 (a + b) then Some (a + b) else None.

(** The object [{ x, y }]. *)
Definition point (x y : Z) : option (list byte) :=
  p ← set_field Point [Fld "x"] x (zeros (sizeof Point)); set_field Point [Fld "y"] y p.

(** [a] and [b] are addresses in [mem], possibly the same. *)
Definition sum (mem : region) (a b : Z) : option (list byte) :=
  ax ← load_at mem a Point [Fld "x"]; bx ← load_at mem b Point [Fld "x"];
  x ← int_add ax bx;
  ay ← load_at mem a Point [Fld "y"]; by_ ← load_at mem b Point [Fld "y"];
  y ← int_add ay by_;
  point x y.

(** The bindings' [struct Point], derived [Debug] output as the two values. *)
Definition point_value (bs : list byte) : option (Z * Z) :=
  x ← get_field Point [Fld "x"] bs; y ← get_field Point [Fld "y"] bs; Some (x, y).

(** [main]: the three points printed; [a] and [b] are locals next to each other. *)
Definition main : option (list (Z * Z)) :=
  a ← point 10 20; b ← point 30 40;
  let mem := Region 0x7000 (a ++ b) in
  result ← sum mem 0x7000 (0x7000 + sizeof Point);
  mapM point_value [a; b; result].

End RustCC.

(** ** Rust called from C *)

Module CCRust.

(** [#[repr(C)] struct Point], and the type of the C bindings generated from it. *)
Definition Point : cty := cstruct [ fld "x" (CInt 8 true); fld "y" (CInt 8 true) ].

Record point := MkPoint { x : Z; y : Z }.

(** [+] on [i64]: with overflow checks an overflow panics, without them it wraps. *)
Definition i64_add (checks : bool) (a b : Z) : option Z :=
  if in_signed 64 (a + b) then Some (a + b)
  else if checks then None else Some (signed 64 (a + b)).

Definition add (checks : bool) (left right : point) : option point :=
  px ← i64_add checks (x left) (x right);
  py ← i64_add checks (y left) (y right);
  Some (MkPoint px py).

(** [main] of [sum.c]: the arguments of its message. *)
Definition main (checks : bool) : option (string * list Z) :=
  let a := MkPoint 2 2 in
  let b := MkPoint 2 2 in
  c ← add checks a b;
  Some ("result: x=%ld, y=%ld"%string, [x c; y c]).

End CCRust.

(** ** Rust called from Python *)

Module StringSum.

(** [+] on [usize], and its notation. *)
Definition usize_add (checks : bool) (a b : Z) : run Z :=
  if a + b <? 2 ^ 64 then Ok (a + b) else if checks then Panic else Ok (wrap 64 (a + b)).
Definition sum_as_string (checks : bool) (a b : Z) : run (list byte) :=
  n ← usize_add checks a b; mret (decimal n).

End StringSum.

(** ** Properties *)

Lemma in_signed_spec w z : in_signed w z = true <-> - 2 ^ (w - 1) <= z < 2 ^ (w - 1).
Proof. unfold in_signed. rewrite andb_true_iff, Z.leb_le, Z.ltb_lt. tauto. Qed.

Section PointBytes.
Import RustCC.

Lemma point_bytes x y : point x y = Some (le_split 4 x ++ le_split 4 y).
Proof.
  unfold point. change (sizeof Point) with 8.
  change (zeros 8) with (concat [zeros 4; zeros 4]).
  assert (Hs : sized [4; 4]%nat [zeros 4; zeros 4]) by done.
  rewrite (set_field_part Point [Fld "x"] _ _ 0 (zeros 4) Hs eq_refl c_int 0 4 eq_refl eq_refl) by done.
  cbn [mbind option_bind insert list_insert]. change (drop (Z.to_nat 4) (zeros 4)) with (@nil byte).
  rewrite app_nil_r. change (Z.to_nat 4) with 4%nat.
  assert (Hs' : sized [4; 4]%nat [le_split 4 x; zeros 4]) by (unfold sized; cbn; by rewrite length_le_split).
  rewrite (set_field_part Point [Fld "y"] _ _ 1 (zeros 4) Hs' eq_refl c_int 4 4 eq_refl eq_refl) by done.
  cbn. by rewrite !app_nil_r.
Qed.

(** A point of two [int]s in memory at an address. *)
Definition point_at (mem : region) (a px py : Z) : Prop :=
  rg_base mem <= a /\ a + 8 <= rg_end mem /\
  sub_bytes (a - rg_base mem) 8 (rg_bytes mem) = le_split 4 px ++ le_split 4 py.

Lemma point_at_load mem a px py :
  point_at mem a px py -> in_signed 32 px = true -> in_signed 32 py = true ->
  load_at mem a Point [Fld "x"] = Some px /\ load_at mem a Point [Fld "y"] = Some py.
Proof.
  intros (Hlo & Hhi & Hb) Hx%in_signed_spec Hy%in_signed_spec. unfold rg_end in Hhi.
  assert (Hw : forall z, - 2 ^ (32 - 1) <= z < 2 ^ (32 - 1) -> signed (8 * 4) (le_combine (le_split 4 z)) = z).
  { intros z Hz. rewrite le_combine_split. by apply (signed_wrap 32). }
  split.
  - rewrite (load_at_bytes mem a Point [Fld "x"] _ eq_refl eq_refl 0 4)
      by (done || unfold rg_end; lia).
    replace (sub_bytes (a + 0 - rg_base mem) 4 (rg_bytes mem)) with (le_split 4 px); [f_equal; by apply Hw|].
    replace (a + 0 - rg_base mem) with (a - rg_base mem + 0) by lia.
    rewrite <- (sub_bytes_sub (a - rg_base mem) 8) by lia. rewrite Hb.
    by rewrite sub_bytes_app_0 by (by rewrite length_le_split).
  - rewrite (load_at_bytes mem a Point [Fld "y"] _ eq_refl eq_refl 4 4)
      by (done || unfold rg_end; lia).
    replace (sub_bytes (a + 4 - rg_base mem) 4 (rg_bytes mem)) with (le_split 4 py); [f_equal; by apply Hw|].
    replace (a + 4 - rg_base mem) with (a - rg_base mem + 4) by lia.
    rewrite <- (sub_bytes_sub (a - rg_base mem) 8) by lia. rewrite Hb.
    rewrite sub_bytes_app_r by (rewrite length_le_split; lia).
    by rewrite sub_bytes_0 by (by rewrite length_le_split).
Qed.
End PointBytes.

(** C35: the C function adds two points, which may be the same object, exactly; it has undefined
    behaviour when, and only when, a coordinate of the sum does not fit an [int]. *)
Theorem sum_adds mem a b ax ay bx by_ :
  point_at mem a ax ay -> point_at mem b bx by_ ->
  Forall (fun z => in_signed 32 z = true) [ax; ay; bx; by_] ->
  if in_signed 32 (ax + bx) && in_signed 32 (ay + by_) then
    exists p, RustCC.sum mem a b = Some p /\ RustCC.point_value p = Some (ax + bx, ay + by_)
  else RustCC.sum mem a b = None.
Proof.
  intros Ha Hb Hr. rewrite !Forall_cons in Hr. destruct Hr as (H1 & H2 & H3 & H4 & _).
  destruct (point_at_load _ _ _ _ Ha H1 H2) as [Eax Eay].
  destruct (point_at_load _ _ _ _ Hb H3 H4) as [Ebx Eby].
  unfold RustCC.sum. rewrite Eax, Ebx, Eay, Eby. cbn [mbind option_bind]. unfold RustCC.int_add.
  destruct (in_signed 32 (ax + bx)) eqn:Hx; cbn [andb mbind option_bind]; [|done].
  destruct (in_signed 32 (ay + by_)) eqn:Hy; cbn [mbind option_bind]; [|done].
  rewrite point_bytes. eexists. split; [done|]. unfold RustCC.point_value.
  set (p := le_split 4 (ax + bx) ++ le_split 4 (ay + by_)).
  assert (Hp : point_at (Region 0 p) 0 (ax + bx) (ay + by_)).
  { assert (len p = 8) by (subst p; by rewrite length_app, !length_le_split).
    split; [done|]. split; [unfold rg_end; cbn [rg_base rg_bytes]; lia|]. by apply sub_bytes_0. }
  destruct (point_at_load _ _ _ _ Hp Hx Hy) as [Ex Ey].
  rewrite load_at_object in Ex, Ey. by rewrite Ex, Ey.
Qed.

(** The Rust function adds two points exactly when no coordinate overflows; otherwise it
    panics with overflow checks, and wraps modulo 2^64 without, where it always returns. *)
Theorem add_adds checks a b :
  let sx := CCRust.x a + CCRust.x b in
  let sy := CCRust.y a + CCRust.y b in
  CCRust.add checks a b =
    if in_signed 64 sx && in_signed 64 sy then Some (CCRust.MkPoint sx sy)
    else if checks then None else Some (CCRust.MkPoint (signed 64 sx) (signed 64 sy)).
Proof.
  assert (Hs : forall z, in_signed 64 z = true -> signed 64 z = z).
  { intros z Hz%in_signed_spec. rewrite <- (signed_wrap 64 z) at 2 by lia.
    unfold signed, wrap. by rewrite Zmod_mod. }
  unfold CCRust.add, CCRust.i64_add.
  destruct (in_signed 64 (CCRust.x a + CCRust.x b)) eqn:Hx, (in_signed 64 (CCRust.y a + CCRust.y b)) eqn:Hy,
    checks; cbn; rewrite ?Hx, ?Hy; cbn; rewrite ?(Hs _ Hx), ?(Hs _ Hy); done.
Qed.

(** The text the Rust function gives Python is the sum, read back as a number, unless that needs
    more than 64 bits: then it panics with overflow checks, and is the sum modulo 2^64 without. *)
Theorem string_sum_reads checks a b :
  0 <= a < 2 ^ 64 -> 0 <= b < 2 ^ 64 ->
  match StringSum.sum_as_string checks a b with
  | Ok text => from_str_radix 10 (2 ^ 64 - 1) text = Some (wrap 64 (a + b)) /\ (checks = true -> wrap 64 (a + b) = a + b)
  | _ => checks = true /\ 2 ^ 64 <= a + b
  end.
Proof.
  intros Ha Hb. unfold StringSum.sum_as_string, StringSum.usize_add.
  assert (Hw : 0 <= wrap 64 (a + b) <= 2 ^ 64 - 1) by (unfold wrap; pose proof (Z.mod_pos_bound (a + b) (2 ^ 64)); lia).
  destruct (Z.ltb_spec (a + b) (2 ^ 64)) as [Hlt|Hge].
  - assert (wrap 64 (a + b) = a + b) as -> by (apply Z.mod_small; lia). cbn. split; [apply parse_decimal; lia|done].
  - destruct checks; [done|]. cbn. split; [by apply parse_decimal|done].
Qed.

(** What the two example programs print: the points 10,20 and 30,40 add to 40,60 through the
    C function, and 2,2 and 2,2 to 4,4 through the Rust one. *)
Theorem examples_print :
  RustCC.main = Some [(10, 20); (30, 40); (40, 60)] /\
  (forall checks, CCRust.main checks = Some ("result: x=%ld, y=%ld"%string, [4; 4])) /\
  sizeof RustCC.Point = 8 /\ sizeof CCRust.Point = 16.
Proof. split; [by vm_compute|]. split; [by intros []|]. done. Qed.

(** ** Instances *)

(** One point at the address both arguments hold. *)
Definition one_point (px py : Z) : region := Region 16 (le_split 4 px ++ le_split 4 py).

Lemma one_point_at px py : point_at (one_point px py) 16 px py.
Proof.
  assert (len (rg_bytes (one_point px py)) = 8) as Hl by (cbn; by rewrite length_app, !length_le_split).
  split; [done|]. split; [unfold rg_end; rewrite Hl; cbn; lia|].
  by apply (sub_bytes_0 8).
Qed.

Lemma sum_adds_witness :
  (exists p, RustCC.sum (one_point 3 (-4)) 16 16 = Some p /\ RustCC.point_value p = Some (6, -8)) /\
  RustCC.sum (one_point 0x40000000 0) 16 16 = None.
Proof.
  split.
  - apply (sum_adds (one_point 3 (-4)) 16 16 3 (-4) 3 (-4));
      [apply one_point_at..|repeat constructor].
  - apply (sum_adds (one_point 0x40000000 0) 16 16 0x40000000 0 0x40000000 0);
      [apply one_point_at..|repeat constructor].
Defined.
