(* ===== verification/Headers.v ===== *)
(** * The kernel headers: properties

    Typed accesses to objects of the types transcribed from the two kernel headers obey the laws of
    memory; and the two headers, of different kernels, agree on the types that are an interface
    between kernel and program. *)

From S2P Require Import Prelude CType Mem.
From S2P Require EbAbi EbNet EbTask PmAbi PmNet PmTask.

Definition eb_types : list (string * cty) := EbAbi.all_types ++ EbNet.all_types ++ EbTask.all_types.
Definition pm_types : list (string * cty) := PmAbi.all_types ++ PmNet.all_types ++ PmTask.all_types.
Definition header_types : list (string * cty) := eb_types ++ pm_types.

(** ** Compatibility of two versions of a type *)

(** Every member of [t] is in [t'], at the same place with the same width. *)
Definition extends (t t' : cty) : bool :=
  forallb (fun m => match find_member (m_name m) (members t') with
                    | Some m' => (m_off m =? m_off m') && (m_width m =? m_width m')
                    | None => false
                    end) (members t).

(** The helpers the programs call, and their numbers in the kernel's interface. *)
Definition helpers_called : list (string * Z) :=
  [("BPF_FUNC_map_lookup_elem", 1); ("BPF_FUNC_trace_printk", 6);
   ("BPF_FUNC_get_smp_processor_id", 8); ("BPF_FUNC_clone_redirect", 13);
   ("BPF_FUNC_get_current_pid_tgid", 14); ("BPF_FUNC_get_current_comm", 16);
   ("BPF_FUNC_skb_get_tunnel_key", 20); ("BPF_FUNC_skb_get_tunnel_opt", 29);
   ("BPF_FUNC_get_stack", 67); ("BPF_FUNC_ringbuf_reserve", 131);
   ("BPF_FUNC_ringbuf_submit", 132)]%string.

(** The types that are an interface: contexts of programs, tunnel metadata, registers, and the
    Ethernet header, in the header of the port mirror and in that of the other programs. *)
Definition interface_types : list (cty * cty) :=
  [(PmAbi.struct___sk_buff, EbAbi.struct___sk_buff);
   (PmAbi.struct_xdp_md, EbAbi.struct_xdp_md);
   (PmAbi.struct_bpf_tunnel_key, EbAbi.struct_bpf_tunnel_key);
   (PmAbi.struct_erspan_metadata, EbAbi.struct_erspan_metadata);
   (PmAbi.struct_pt_regs, EbAbi.struct_pt_regs);
   (PmAbi.struct_ethhdr, EbAbi.struct_ethhdr)].

(** ** Soundness of every type *)

Lemma header_types_wf : forallb (fun nt => wf nt.2) header_types = true.
Proof. by vm_compute. Qed.

Lemma header_wf name t : (name, t) ∈ header_types -> wf t = true.
Proof.
  intros H. pose proof header_types_wf as Hwf. rewrite forallb_forall in Hwf.
  apply (Hwf (name, t)). by apply list_elem_of_In.
Qed.

(** Two paths into a struct of the headers that start at different members denote disjoint
    bits, unless the members belong to an anonymous union. *)
Theorem header_members_disjoint name t f g p q r1 r2 :
  (name, t) ∈ header_types -> flat t = true -> f <> g ->
  resolve t (Fld f :: p) = Some r1 -> resolve t (Fld g :: q) = Some r2 ->
  p_off r1 + p_width r1 <= p_off r2 \/ p_off r2 + p_width r2 <= p_off r1.
Proof. intros Hin%header_wf. by apply resolve_disjoint_aux. Qed.

(** An assignment to a member of an object of a header type succeeds, keeps the object's
    size, is what is read back, truncated to the width of the member and with its sign, and leaves
    every disjoint member unchanged. *)
Theorem header_store_load name t p r v bs :
  (name, t) ∈ header_types -> resolve t p = Some r -> len bs = sizeof t ->
  exists bs', set_field t p v bs = Some bs' /\ length bs' = length bs /\
    get_field t p bs' = Some (int_value (p_ty r) (p_width r) (v mod 2 ^ p_width r)) /\
    forall q r', resolve t q = Some r' ->
      p_off r + p_width r <= p_off r' \/ p_off r' + p_width r' <= p_off r ->
      get_field t q bs' = get_field t q bs.
Proof.
  intros Hin%header_wf Hr Hl. destruct (set_field_total t p r v bs Hin Hr Hl) as [bs' Hs].
  exists bs'. split; [done|]. split; [by eapply set_field_length|].
  split; [by eapply get_set_same|]. intros q r' Hq Hd. exact (get_set_other t p q r r' v bs bs' Hr Hq Hd Hs).
Qed.

Lemma interface_extends : forallb (fun tt => extends tt.1 tt.2) interface_types = true.
Proof. by vm_compute. Qed.

(** C40: the two headers are of different kernels, and agree on the interface: every member of an
    interface type of the one is a member of the other with the same name, place and width.  They
    do not agree on the kernel's own types: the process number has another place in a task. *)
Theorem interface_types_agree :
  (forall t t' f m, (t, t') ∈ interface_types -> find_member f (members t) = Some m ->
     exists m', find_member f (members t') = Some m' /\ m_off m' = m_off m /\ m_width m' = m_width m) /\
  offsetof PmTask.struct_task_struct [Fld "pid"] <> offsetof EbTask.struct_task_struct [Fld "pid"].
Proof.
  split; [|by vm_compute]. intros t t' f m Hin Hf. pose proof interface_extends as H.
  rewrite forallb_forall in H. specialize (H (t, t') (proj1 (list_elem_of_In _ _) Hin)).
  unfold extends in H. rewrite forallb_forall in H.
  destruct (find_member_elem _ _ _ Hf) as [Hel <-].
  specialize (H m (proj1 (list_elem_of_In _ _) Hel)). cbn [fst snd] in H.
  destruct (find_member (m_name m) (members t')) as [m'|]; [|done].
  apply andb_true_iff in H as [?%Z.eqb_eq ?%Z.eqb_eq]. by exists m'.
Qed.

(** Both headers give the helpers that the programs call the numbers of the kernel's
    interface. *)
Theorem helper_numbers_agree :
  Forall (fun h => enum_value EbAbi.enum_bpf_func_id h.1 = Some h.2 /\
                   enum_value PmAbi.enum_bpf_func_id h.1 = Some h.2) helpers_called.
Proof. repeat constructor. Qed.

(** ** Instances *)

(** Looking a type up by its name, in the header of the port mirror. *)
Definition find_type (name : string) (l : list (string * cty)) : option cty :=
  e ← list_find (fun e => e.1 = name) l; Some e.2.2.

Lemma find_type_elem name l t : find_type name l = Some t -> (name, t) ∈ l.
Proof.
  unfold find_type. destruct (list_find _ l) as [[i [n t']]|] eqn:E; [|done].
  apply list_find_Some in E as (E & Hn & _). cbn in *. intros [= ->]. subst.
  by eapply list_elem_of_lookup_2.
Qed.

Lemma find_type_in name t : find_type name pm_types = Some t -> (name, t) ∈ header_types.
Proof. intros H%find_type_elem. unfold header_types. apply elem_of_app. by right. Qed.

Ltac in_headers := apply find_type_in; by vm_compute.

Lemma header_members_disjoint_witness : 100 + 4 <= 104 \/ 104 + 1 <= 100.
Proof.
  apply (header_members_disjoint "struct_tcphdr" PmAbi.struct_tcphdr "doff" "fin" [] []
           (PlaceOf 100 4 true PmAbi.__u16) (PlaceOf 104 1 true PmAbi.__u16));
    [in_headers|by vm_compute..].
Defined.

(** Storing 21 in the four bits of the header length leaves 5 there. *)
Lemma header_store_load_witness :
  exists bs', set_field PmAbi.struct_iphdr [Fld "ihl"] 21 (zeros 20) = Some bs' /\
    get_field PmAbi.struct_iphdr [Fld "ihl"] bs' = Some 5.
Proof.
  destruct (header_store_load "struct_iphdr" PmAbi.struct_iphdr [Fld "ihl"] (PlaceOf 0 4 true PmAbi.__u8)
              21 (zeros 20)) as (bs' & Hs & _ & Hg & _); [in_headers|by vm_compute..|].
  exists bs'. split; [exact Hs|exact Hg].
Defined.

Lemma interface_types_agree_witness :
  exists m', find_member "ifindex" (members EbAbi.struct___sk_buff) = Some m' /\ m_off m' = 320.
Proof.
  destruct (proj1 interface_types_agree PmAbi.struct___sk_buff EbAbi.struct___sk_buff "ifindex"
              (Member "ifindex" 320 32 false PmAbi.__u32)) as (m' & Hm & Ho & _);
    [constructor|by vm_compute|]. exists m'. by split.
Defined.
