(* ===== verification/Proxy.v ===== *)
(** * The TCP proxy

    src/network/proxy/src/main.rs: [main] accepts connections one at a time, connects each to the
    destination and leaves it to a task that copies in both directions.  A label is what one call
    that [main] or such a task waits for gives.  How the task copies is the library's
    [copy_bidirectional], of which only the return is seen here. *)

From Stdlib Require Import String.
From S2P Require Import Prelude RustStd RustStr Trace.

Record Opts := MkOpts { port : Z; dest : list byte }.

Definition CONNECTION_TIME : Z := 1.

(** The address the listener is bound to. *)
Definition address (opts : Opts) : list byte := lit "0.0.0.0:" ++ decimal (port opts).

Section Proxy.
Context {SocketAddr : Type}.

(** What [timeout] makes of [connect]. *)
Inductive connect := Connected | ConnectFailed (e : Z) | Elapsed.

(** A line: the proxy has started, a client has connected, it has been disconnected, the destination
    cannot be reached. *)
Inductive line := Started | ConnectedFrom (source : SocketAddr) | Disconnected (source : SocketAddr)
  | Unreachable.

(** Where [main] is: at [accept], at [connect] for a client, or it has returned. *)
Inductive phase := Accepting | Connecting (source : SocketAddr) | Returned (result : () + Z).

(** The tasks: the client of each, and whether [copy_bidirectional] has still to return. *)
Record state := State
  { s_phase : phase; s_tasks : list (SocketAddr * bool); s_screen : list line }.

Definition start : state := State Accepting [] [Started].

Inductive label :=
| Accept (result : SocketAddr + Z)
| Connect (result : connect)
| Copied (i : nat).

(** The loop of [main]. *)
Definition accept (result : SocketAddr + Z) (s : state) : state :=
  match result with
  | inl source => State (Connecting source) (s_tasks s) (s_screen s ++ [ConnectedFrom source])
  | inr e => State (Returned (inr e)) (s_tasks s) (s_screen s)
  end.

Definition connected (source : SocketAddr) (result : connect) (s : state) : state :=
  match result with
  | Connected => State Accepting (s_tasks s ++ [(source, true)]) (s_screen s)
  | _ => State (Returned (inl ())) (s_tasks s) (s_screen s ++ [Unreachable])
  end.

(** The task of a client, whose copying has returned, with an error or without. *)
Definition copied (i : nat) (s : state) : option state :=
  match s_tasks s !! i with
  | Some (source, true) =>
      Some (State (s_phase s) (<[i := (source, false)]> (s_tasks s)) (s_screen s ++ [Disconnected source]))
  | _ => None
  end.

(** When [main] has returned, a task may still run until it next waits; whether it does is up to the
    runtime. *)
Definition step (l : label) (s : state) : option state :=
  match l with
  | Accept result => match s_phase s with Accepting => Some (accept result s) | _ => None end
  | Connect result =>
      match s_phase s with Connecting source => Some (connected source result s) | _ => None end
  | Copied i => copied i s
  end.

End Proxy.
Arguments label : clear implicits.
Arguments state : clear implicits.
Arguments phase : clear implicits.
Arguments line : clear implicits.
