(* ===== verification/ProxyTheorems.v ===== *)
(** * The TCP proxy: properties

    Every client that is accepted is handed to a task of its own, but the one for whom the
    destination cannot be reached: with it the proxy stops accepting. *)

From Stdlib Require Import String.
From S2P Require Import Prelude RustStd RustStr Trace Proxy.

Section Theorems.
Context {A : Type}.
Implicit Types (s : state A) (ls : list (label A)).

(** The clients accepted in a run, in order. *)
Definition accepted ls : list A :=
  omap (fun l => match l with Accept (inl source) => Some source | _ => None end) ls.

(** The client that has no task: [main] is still connecting for it, or could not. *)
Definition waiting s : list A := match s_phase s with Connecting source => [source] | _ => [] end.

Definition proxy_inv ls s : Prop :=
  match s_phase s with
  | Returned (inl _) => exists source, accepted ls = (s_tasks s).*1 ++ [source]
  | _ => accepted ls = (s_tasks s).*1 ++ waiting s
  end.

Lemma accepted_snoc ls l : accepted (ls ++ [l]) = accepted ls ++ accepted [l].
Proof. unfold accepted. by rewrite omap_app. Qed.

Lemma copied_tasks i s s' :
  copied i s = Some s' -> (s_tasks s').*1 = (s_tasks s).*1 /\ s_phase s' = s_phase s.
Proof.
  unfold copied. intros H. destruct (s_tasks s !! i) as [[source []]|] eqn:E; try done. injection H as <-.
  split; [|done]. cbn. rewrite list_fmap_insert. apply list_insert_id. by rewrite list_lookup_fmap, E.
Qed.

Lemma proxy_step_inv ls l s s' : proxy_inv ls s -> step l s = Some s' -> proxy_inv (ls ++ [l]) s'.
Proof.
  intros Hinv H. unfold proxy_inv in *. rewrite accepted_snoc. destruct l as [[source|e]|result|i]; cbn in H |- *.
  - destruct s as [[] tasks screen]; try done. injection H as <-. cbn in *.
    by rewrite Hinv, (right_id_L [] (++)).
  - destruct s as [[] tasks screen]; try done. injection H as <-. cbn in *.
    by rewrite Hinv, !(right_id_L [] (++)).
  - destruct s as [[|source|] tasks screen]; try done. injection H as <-. rewrite (right_id_L [] (++)), Hinv.
    destruct result; cbn; [by rewrite fmap_app, (right_id_L [] (++))|by exists source..].
  - apply copied_tasks in H as [Ht Hp]. unfold waiting in *. by rewrite Ht, Hp, (right_id_L [] (++)).
Qed.

(** In every run the clients accepted, in order, are those that have a task, and after them at most
    one: the one [main] is connecting for, or the one that could not be connected, with whom
    [main] has returned as if all were well. *)
Theorem clients_have_tasks ls s : exec step ls start = Some s -> proxy_inv ls s.
Proof.
  revert s. apply (exec_ind step proxy_inv); [done|]. intros ls' l s1 s2 _ IH Hst. by eapply proxy_step_inv.
Qed.
End Theorems.

(** ** Instances *)

(** A connection in use; a second client comes when the destination no longer answers. *)
Definition in_use : list (label nat) :=
  [Accept (inl 1%nat); Connect Connected; Accept (inl 2%nat); Connect Elapsed; Copied 0].

Lemma clients_have_tasks_witness :
  exists s, exec step in_use start = Some s /\ proxy_inv in_use s /\ s_tasks s = [(1%nat, false)] /\
    s_screen s = [Started; ConnectedFrom 1%nat; ConnectedFrom 2%nat; Unreachable; Disconnected 1%nat].
Proof.
  eexists. split; [vm_compute; reflexivity|]. split; [by apply (clients_have_tasks in_use)|done].
Defined.
