(* ===== verification/P2p.v ===== *)
(** * The peer-to-peer example: its arguments

    The addresses of peers that src/network/p2p/src/main.rs reads from its command line, the keys it
    makes, and the peers it adds.  Addresses and identifiers of peers are those of the network
    library: their parsers are parameters, and an address is a stack of protocols.  After the
    arguments come theorems on what is read. *)

From Stdlib Require Import String.
From S2P Require Import Prelude RustStd RustStr.

(** [str::rsplitn], with two pieces: the one behind the last separator comes first. *)
Definition rsplitn2 (sep : byte) (s : list byte) : list (list byte) :=
  match split_once sep (reverse s) with
  | Some (last, front) => [reverse last; reverse front]
  | None => [s]
  end.

Definition rotate_left {A} (k : nat) (l : list A) : list A := drop k l ++ take k l.

Definition SLASH : byte := char 47.

Inductive p2p_error := BadAddress | BadPeerId | BadKey.

Definition or_err {E A} (e : E) (o : option A) : outcome E A := match o with Some a => Ok a | None => Err e end.

Section P2p.
Context {Multiaddr PeerId Protocol : Type}.
Context (multiaddr_from_str : list byte -> option Multiaddr) (peer_id_from_str : list byte -> option PeerId).
Context (pop : Multiaddr -> option Protocol * Multiaddr) (push : Protocol -> Multiaddr -> Multiaddr).
Context (is_p2p : Protocol -> bool).

(** ** Addresses *)

Definition strip_peer_id (addr : Multiaddr) : Multiaddr :=
  match pop addr with
  | (Some last, addr) => if is_p2p last then addr else push last addr
  | (None, addr) => addr
  end.

Definition legacy_part (part : list byte) : list byte :=
  if bool_decide (part = lit "ipfs") then lit "p2p" else part.

Definition parse_legacy_multiaddr (text : list byte) : outcome p2p_error Multiaddr :=
  let sanitized := join (lit "/") (map legacy_part (split SLASH text)) in
  res ← or_err BadAddress (multiaddr_from_str sanitized);
  mret (strip_peer_id res).

Definition parse_peer_addr (text : list byte) : outcome p2p_error (Multiaddr * PeerId) :=
  let sanitized := rotate_left 1 (rsplitn2 SLASH text) in
  addr ← or_err BadAddress (multiaddr_from_str (join (lit "/") sanitized));
  second ← unwrap (sanitized !! 1%nat);
  peer_id ← or_err BadPeerId (peer_id_from_str second);
  mret (addr, peer_id).

(** ** [main], up to the listener *)

Definition PSK : list byte := lit "172.118.59.180".

(** An array of 32 bytes that starts with [data]. *)
Definition psk_key (data : list byte) : list byte :=
  let n := Nat.min (length data) 32 in take n data ++ zeros (32 - Z.of_nat n).
Definition id_key (my_key : Z) : list byte := char my_key :: zeros 31.

Record setup := Setup { ip : list byte; secret : list byte; swarm_key : list byte; peers : list (Multiaddr * PeerId) }.

Definition main (args : list (list byte)) : outcome p2p_error setup :=
  ip ← unwrap (args !! 1%nat);
  key ← unwrap (args !! 2%nat);
  my_key ← or_err BadKey (from_str_radix 10 255 key);
  peers ← collect parse_peer_addr (drop 3 args);
  mret (Setup ip (id_key my_key) (psk_key PSK) peers).

(** ** What is read *)

Lemma join_cons sep p q ps : join sep (p :: q :: ps) = p ++ sep ++ join sep (q :: ps).
Proof. done. Qed.

Lemma join_split sep s : join [sep] (split sep s) = s.
Proof.
  induction s as [|b s IH]; [done|]. cbn [split]. destruct (split sep s) as [|p ps] eqn:E.
  { by apply split_nonempty in E. }
  case_bool_decide as Hb.
  - subst b. by rewrite join_cons, IH.
  - destruct ps as [|q ps]; [cbn in *; by rewrite IH|]. rewrite join_cons in *. cbn. by rewrite <- IH.
Qed.

Lemma split_once_rejoin sep s a b : split_once sep s = Some (a, b) -> s = a ++ sep :: b.
Proof.
  revert a. induction s as [|c s IH]; intros a H; [done|]. cbn in H. case_bool_decide as Hc.
  - by simplify_eq.
  - apply bind_Some in H as ([p r] & Hp & H). simplify_eq. cbn. by rewrite (IH p Hp).
Qed.

Lemma rejoin_rsplitn text : join [SLASH] (rotate_left 1 (rsplitn2 SLASH text)) = text.
Proof.
  unfold rsplitn2, rotate_left. destruct (split_once _ _) as [[last front]|] eqn:E; [|done]. cbn.
  apply split_once_rejoin in E. rewrite <- (reverse_involutive text), E, reverse_app, reverse_cons.
  by rewrite <- (assoc_L (++)).
Qed.

(** The part of a text behind its last slash. *)
Definition last_part (text : list byte) : option (list byte) :=
  '(last, _) ← split_once SLASH (reverse text); Some (reverse last).

(** The address of a peer is read from the whole argument, with the part behind the last slash, from which its
    identifier is read: splitting and joining the text does nothing.  A text without a slash that
    is an address panics. *)
Theorem peer_addr_is_whole text :
  parse_peer_addr text =
    match multiaddr_from_str text, last_part text with
    | None, _ => Err BadAddress
    | Some _, None => Panic
    | Some addr, Some last =>
        match peer_id_from_str last with Some id => Ok (addr, id) | None => Err BadPeerId end
    end.
Proof.
  unfold parse_peer_addr. change (lit "/") with [SLASH]. rewrite rejoin_rsplitn.
  destruct (multiaddr_from_str text) as [addr|]; [|done]. cbn.
  unfold last_part, rsplitn2, rotate_left. destruct (split_once _ _) as [[last front]|]; [|done]. cbn.
  by destruct (peer_id_from_str _).
Qed.

(** An argument in the old notation is read with its parts replaced; one that has none to replace
    is read as it is. *)
Lemma legacy_unchanged text :
  lit "ipfs" ∉ split SLASH text ->
  parse_legacy_multiaddr text = match multiaddr_from_str text with Some a => Ok (strip_peer_id a) | None => Err BadAddress end.
Proof.
  intros H. unfold parse_legacy_multiaddr.
  assert (map legacy_part (split SLASH text) = split SLASH text) as ->.
  { revert H. generalize (split SLASH text). intros l. induction l as [|p l IH]; [done|].
    rewrite not_elem_of_cons. intros [Hp Hl]. cbn. rewrite IH by done. unfold legacy_part.
    by rewrite bool_decide_eq_false_2 by congruence. }
  change (lit "/") with [SLASH]. rewrite join_split. by destruct (multiaddr_from_str text).
Qed.

(** At most one protocol is removed from an address: the last, if it names a peer. *)
Lemma strip_peer_id_spec a :
  (forall a p a', pop a = (Some p, a') -> push p a' = a) -> (forall a a', pop a = (None, a') -> a' = a) ->
  strip_peer_id a = match pop a with (Some last, a') => if is_p2p last then a' else a | _ => a end.
Proof.
  intros H1 H2. unfold strip_peer_id. destruct (pop a) as [[p|] a'] eqn:E; [|by eapply H2].
  destruct (is_p2p p); [done|by apply H1].
Qed.
End P2p.
