(* ===== verification/CsvMerge.v ===== *)
(** * The CSV merger

    src/file/csvmerge/src/main.rs collects the rows of all CSV files of a directory, with the image
    each file is about, in one file.  The CSV library is a parameter: the records of a file, and
    whether a record is written. *)

From Stdlib Require Import String.
From S2P Require Import Prelude RustStd RustStr.

(** ** Records *)

Record Record_ := MkRecord
  { cves : list byte; description : list byte; feed_rating : list byte; fixed_version : list byte;
    in_base_image : list byte; last_modified_timestamp : list byte; link : list byte;
    name : list byte; package_name : list byte; package_version : list byte;
    published_timestamp : list byte; score : list byte; score_v3 : list byte; severity : list byte;
    vectors : list byte; vectors_v3 : list byte; tags : list byte }.

Record Cve := MkCve
  { c_name : list byte; c_severity : list byte; c_package : list byte; c_version : list byte;
    c_fixed_version : list byte; c_published_timestamp : list byte; c_image : list byte;
    c_fixed : bool; c_wontfix_reasion : list byte; c_description : list byte }.
#[export] Instance cve_eq_dec : EqDecision Cve.
Proof. solve_decision. Defined.

(** [Cve::from], and the assignment of the image. *)
Definition cve_from (r : Record_) : Cve :=
  MkCve (name r) (severity r) (package_name r) (package_version r) (fixed_version r)
    (published_timestamp r) [] false [] (description r).
Definition with_image (image : list byte) (c : Cve) : Cve :=
  MkCve (c_name c) (c_severity c) (c_package c) (c_version c) (c_fixed_version c)
    (c_published_timestamp c) image (c_fixed c) (c_wontfix_reasion c) (c_description c).

(** [Vec::dedup]: the first of every group of equal neighbours. *)
Fixpoint dedup_cves (l : list Cve) : list Cve :=
  match l with
  | a :: ((b :: _) as l') => if decide (a = b) then
                               match dedup_cves l' with _ :: l'' => a :: l'' | [] => [a] end
                             else a :: dedup_cves l'
  | _ => l
  end.

(** ** Merging *)

Inductive csv_error := OpenFailed | NoRecord | BadRecord.

(** The records of a file: [None] when it cannot be opened, and for a record that cannot be read. *)
Definition csv_file : Type := option (list (option Record_)).

(** The loop over the records: what has been pushed stays when a record is bad. *)
Fixpoint push_records (image : list byte) (rs : list (option Record_)) (acc : list Cve)
    : (() + csv_error) * list Cve :=
  match rs with
  | [] => (inl (), acc)
  | None :: _ => (inr BadRecord, acc)
  | Some record :: rs => push_records image rs (acc ++ [with_image image (cve_from record)])
  end.

(** The first record names the image, the second is a header. *)
Definition merge_csv (csv : csv_file) (acc : list Cve) : run ((() + csv_error) * list Cve) :=
  match csv with
  | None => mret (inr OpenFailed, acc)
  | Some [] => mret (inr NoRecord, acc)
  | Some (None :: _) => mret (inr BadRecord, acc)
  | Some (Some first :: rest) =>
      let images := split (char 124) (cves first) in
      let rest := drop 1 rest in
      match rest with
      | [] => mret (inl (), acc)
      | _ => image ← (match rest with None :: _ => mret [] | _ => unwrap (images !! 0%nat) end);
             mret (push_records image rest acc)
      end
  end.

(** ** The directory *)

Definition CVES : list byte := lit "cves.csv".

(** [Path::extension] of a file name: what follows its last dot, unless that is its first byte or
    it has none. *)
Definition extension (file_name : list byte) : option (list byte) :=
  match split_once (char 46) (reverse file_name) with
  | Some (ext, front) => if bool_decide (front = []) then None else Some (reverse ext)
  | None => None
  end.

(** An entry: the name of a file and its contents; [None] where reading the directory fails. *)
Record dir_entry := DirEntry { file_name : list byte; csv : csv_file }.

(** What [main] returns; it panics for a name that is no text. *)
Inductive main_error := ReadDirFailed | WriteFailed.

Fixpoint merge_dir (entries : list (option dir_entry)) (acc : list Cve) : outcome main_error (list Cve) :=
  match entries with
  | [] => Ok acc
  | None :: _ => Err ReadDirFailed
  | Some e :: entries =>
      if bool_decide (file_name e = CVES) then merge_dir entries acc
      else if bool_decide (extension (file_name e) = Some (lit "csv")) then
        if utf8 (file_name e) then
          match merge_csv (csv e) acc with
          | Ok (_, acc) => merge_dir entries acc
          | _ => Panic
          end
        else Panic
      else merge_dir entries acc
  end.

(** [main]: the rows of the file it writes, when every write succeeds. *)
Definition main (dir : option (list (option dir_entry))) (written : bool) : outcome main_error (list Cve) :=
  match dir with
  | None => Err ReadDirFailed
  | Some entries =>
      acc ← merge_dir entries [];
      if written then Ok (dedup_cves acc) else Err WriteFailed
  end.
