(* ===== verification/CsvMergeTheorems.v ===== *)
(** * The CSV merger: theorems

    What [main] of src/file/csvmerge/src/main.rs writes, against a description of the rows a file
    contributes. *)

From Stdlib Require Import String.
From S2P Require Import Prelude RustStd RustStr CsvMerge.

(** ** The rows of a file *)

Fixpoint readable (rs : list (option Record_)) : list Record_ :=
  match rs with Some r :: rs => r :: readable rs | _ => [] end.

(** The image: the first of the names in the first record, which are separated by bars. *)
Definition image_of (names : list byte) : list byte :=
  match split_once (char 124) names with Some (a, _) => a | None => names end.

Definition file_rows (f : csv_file) : list Cve :=
  match f with
  | Some (Some first :: _ :: rows) =>
      map (fun r => with_image (image_of (cves first)) (cve_from r)) (readable rows)
  | _ => []
  end.

Definition selected (e : dir_entry) : bool :=
  negb (bool_decide (file_name e = CVES)) && bool_decide (extension (file_name e) = Some (lit "csv")).
Definition entry_rows (e : dir_entry) : list Cve := if selected e then file_rows (csv e) else [].

(** The rows that differ from the one before. *)
Fixpoint changes (before : option Cve) (l : list Cve) : list Cve :=
  match l with
  | [] => []
  | a :: l => (if decide (before = Some a) then [] else [a]) ++ changes (Some a) l
  end.

(** ** Lemmas *)

Lemma split_first sep s : split sep s !! 0%nat =
  Some (match split_once sep s with Some (a, _) => a | None => s end).
Proof.
  induction s as [|b s IH]; [done|]. cbn [split split_once].
  destruct (bool_decide (b = sep)); [done|].
  destruct (split sep s), (split_once sep s) as [[]|]; simplify_eq/=; congruence.
Qed.

Lemma push_records_rows image rs acc :
  snd (push_records image rs acc) = acc ++ map (fun r => with_image image (cve_from r)) (readable rs).
Proof.
  revert acc. induction rs as [|[r|] rs IH]; intros acc; cbn; rewrite ?app_nil_r; [done| |done].
  by rewrite IH, <- (assoc_L (++)).
Qed.

Lemma merge_csv_rows f acc : exists res, merge_csv f acc = Ok (res, acc ++ file_rows f).
Proof.
  destruct f as [[|[first|] rest]|]; cbn [merge_csv file_rows]; rewrite ?app_nil_r; try by eexists.
  destruct rest as [|second rows]; cbn [drop]; rewrite ?app_nil_r; [by eexists|].
  destruct rows as [|[r|] rows]; [cbn; rewrite app_nil_r; by eexists| |cbn; rewrite app_nil_r; by eexists].
  rewrite split_first. unfold unwrap, mbind, outcome_bind, mret, outcome_ret.
  fold (image_of (cves first)). rewrite drop_0.
  rewrite (surjective_pairing (push_records _ (Some r :: rows) acc)), push_records_rows.
  by eexists.
Qed.

Lemma merge_dir_rows es acc :
  Forall (fun e => selected e = true -> utf8 (file_name e) = true) es ->
  merge_dir (map Some es) acc = Ok (acc ++ concat (map entry_rows es)).
Proof.
  intros Hes. revert acc.
  induction Hes as [|e es He _ IH]; intros acc; cbn [map merge_dir concat]; [by rewrite app_nil_r|].
  assert (entry_rows e = if selected e then file_rows (csv e) else []) as -> by done.
  unfold selected in *.
  destruct (bool_decide (file_name e = CVES)); cbn [negb andb app] in *; [by apply IH|].
  destruct (bool_decide (extension (file_name e) = _)); cbn [app]; [|by apply IH].
  rewrite He by done. destruct (merge_csv_rows (csv e) acc) as [res ->].
  by rewrite IH, <- (assoc_L (++)).
Qed.

Lemma dedup_changes l : dedup_cves l = changes None l.
Proof.
  destruct l as [|a l]; [done|]. change (changes None (a :: l)) with (a :: changes (Some a) l).
  revert a. induction l as [|b l IH]; intros a; [done|].
  change (dedup_cves (a :: b :: l)) with
    (if decide (a = b) then match dedup_cves (b :: l) with _ :: l'' => a :: l'' | [] => [a] end
     else a :: dedup_cves (b :: l)).
  rewrite (IH b). cbn [changes].
  destruct (decide (a = b)) as [->|Hab]; destruct (decide (Some _ = Some _)); by simplify_eq.
Qed.

(** The output file itself is not read. *)
Lemma entry_rows_output f : entry_rows (DirEntry CVES f) = [].
Proof. unfold entry_rows, selected. by rewrite bool_decide_eq_true_2. Qed.

(** ** Theorems *)

(** C19: When the directory can be read, the names of its CSV files are text, and the output can be
    written, the merger writes, for the CSV files in the order in which the directory lists them,
    the records from the third to the first that cannot be read, each with the image that the first
    record of its file names; of equal rows in a row it writes one. Files that are no CSV files,
    that cannot be opened or that have fewer than three records contribute nothing, and neither does
    the output of an earlier run: merging again gives the same rows. *)
Theorem merged_rows (es : list dir_entry) (earlier : csv_file) (i : nat) :
  Forall (fun e => selected e = true -> utf8 (file_name e) = true) es ->
  main (Some (map Some es)) true = Ok (changes None (concat (map entry_rows es)))
  /\ main (Some (map Some (take i es ++ DirEntry CVES earlier :: drop i es))) true =
     main (Some (map Some es)) true.
Proof.
  intros Hes.
  assert (Hes' : Forall (fun e => selected e = true -> utf8 (file_name e) = true)
                   (take i es ++ DirEntry CVES earlier :: drop i es)).
  { apply Forall_app. split; [by apply Forall_take|]. constructor; [done|by apply Forall_drop]. }
  unfold main. rewrite !merge_dir_rows by done. cbn [mbind outcome_bind].
  rewrite !dedup_changes. split; [done|].
  rewrite map_app, map_cons, concat_app. cbn [concat]. rewrite entry_rows_output. cbn [app].
  by rewrite <- concat_app, <- map_app, take_drop.
Qed.

(** Two files with one row each that agree but for the image, a third that repeats the first, and a
    file that is not merged. *)
Definition sample_record (c n : list byte) : Record_ :=
  MkRecord c [] [] [] [] [] [] n [] [] [] [] [] [] [] [] [].
Definition sample_file (images n : string) : csv_file :=
  Some [Some (sample_record (lit images) []); Some (sample_record (lit "Cves") (lit "Name"));
        Some (sample_record [] (lit n)); Some (sample_record [] (lit n)); None; Some (sample_record [] (lit n))].
Definition sample_dir : list dir_entry :=
  [DirEntry (lit "a.csv") (sample_file "web|db" "CVE-1"); DirEntry (lit ".csv") (sample_file "x" "CVE-2");
   DirEntry (lit "b.csv") (sample_file "db" "CVE-1"); DirEntry (lit "c.csv") (sample_file "web" "CVE-1");
   DirEntry (lit "d.csv") None].

Lemma merged_rows_witness :
  main (Some (map Some sample_dir)) true =
    Ok (map (fun image => with_image (lit image) (cve_from (sample_record [] (lit "CVE-1")))) ["web"; "db"; "web"]%string)
  /\ main (Some (map Some (DirEntry CVES (sample_file "out" "CVE-9") :: sample_dir))) true =
     main (Some (map Some sample_dir)) true.
Proof.
  destruct (merged_rows sample_dir (sample_file "out" "CVE-9") 0) as [H1 H2].
  - repeat constructor.
  - split; [rewrite H1; vm_compute; reflexivity|exact H2].
Defined.
