(* ===== verification/Todo.v ===== *)
(** * The web application: its list of things to do

    src/wasm/nas/frontend/src/main.rs: the state behind the page, the handlers of its events, and
    what the page shows.  A component keeps its own state as long as it is on the page. *)

From Stdlib Require Import String.
From stdpp Require Import gmap.
From S2P Require Import Prelude RustStd RustStr.

(** ** Data *)

Inductive FilterState := All | Active | Completed.
#[export] Instance filter_state_eq_dec : EqDecision FilterState.
Proof. solve_decision. Defined.

Record TodoItem := MkTodo { id : Z; checked : bool; contents : list byte }.
#[export] Instance todo_item_eq_dec : EqDecision TodoItem.
Proof. solve_decision. Defined.

(** The signals of [app] and of [TodoHeader], and the entries that are being edited. *)
Record app := App
  { todos : gmap Z TodoItem; filter : FilterState; draft : list byte; todo_id : Z; editing : gset Z }.

Definition init : app := App ∅ All [] 0 ∅.

Definition with_todos (m : gmap Z TodoItem) (s : app) : app :=
  App m (filter s) (draft s) (todo_id s) (editing s).
Definition with_editing (f : gset Z -> gset Z) (s : app) : app :=
  App (todos s) (filter s) (draft s) (todo_id s) (f (editing s)).

(** ** Memos *)

Definition values (m : gmap Z TodoItem) : list TodoItem := (map_to_list m).*2.

Definition active_todo_count (s : app) : nat :=
  length (base.filter (fun item => negb (checked item)) (values (todos s))).

Definition shown (f : FilterState) (item : TodoItem) : bool :=
  match f with All => true | Active => negb (checked item) | Completed => checked item end.

(** The iteration order of the hash map does not matter: the keys are sorted. *)
Definition filtered_todos (s : app) : list Z :=
  sort (map_to_list (base.filter (fun kv : Z * TodoItem => shown (filter s) kv.2) (todos s))).*1.

Definition show_clear_completed (s : app) : bool := existsb checked (values (todos s)).

(** ** Events *)

Inductive key := Enter | Escape | Tab | OtherKey.

Inductive event :=
| DraftInput (text : list byte)
| DraftKey (k : key)
| ToggleAll
| Toggle (i : Z) (b : bool)
| StartEdit (i : Z)
| Destroy (i : Z)
| EditInput (i : Z) (text : list byte)
| EditFocusOut (i : Z)
| EditKey (i : Z) (k : key)
| SetFilter (f : FilterState)
| ClearCompleted.

(** The element an event belongs to is on the page. *)
Definition on_page (e : event) (s : app) : bool :=
  match e with
  | DraftInput _ | DraftKey _ => true
  | ToggleAll | SetFilter _ => negb (bool_decide (todos s = ∅))
  | ClearCompleted => negb (bool_decide (todos s = ∅)) && show_clear_completed s
  | Toggle i _ | StartEdit i | Destroy i => bool_decide (i ∈ filtered_todos s)
  | EditInput i _ | EditFocusOut i | EditKey i _ =>
      bool_decide (i ∈ filtered_todos s) && bool_decide (i ∈ editing s)
  end.

(** [get_mut(&id).unwrap()], to change the item. *)
Definition update (f : TodoItem -> TodoItem) (i : Z) (s : app) : run app :=
  item ← unwrap (todos s !! i); mret (with_todos (<[i := f item]> (todos s)) s).

Definition check (b : bool) (item : TodoItem) : TodoItem := MkTodo (id item) b (contents item).
Definition set_contents (text : list byte) (item : TodoItem) : TodoItem :=
  MkTodo (id item) (checked item) text.

Section Handlers.
(** Whether the build checks integer overflow. *)
Context (checks : bool).

(** [todo_id += 1], in [u32]. *)
Definition next_id (i : Z) : run Z :=
  if i + 1 <? 2 ^ 32 then mret (i + 1) else if checks then Panic else mret 0.

(** [onkeydown] of the header. *)
Definition header_onkeydown (k : key) (s : app) : run app :=
  match k with
  | Enter =>
      if bool_decide (draft s = []) then mret s else
      let todo := MkTodo (todo_id s) false (draft s) in
      let m := <[todo_id s := todo]> (todos s) in
      n ← next_id (todo_id s);
      mret (App m (filter s) [] n (editing s))
  | _ => mret s
  end.

Definition toggle_all (s : app) : app :=
  let c := negb (active_todo_count s =? 0)%nat in
  with_todos (check c <$> todos s) s.

Definition handle (e : event) (s : app) : run app :=
  match e with
  | DraftInput text => mret (App (todos s) (filter s) text (todo_id s) (editing s))
  | DraftKey k => header_onkeydown k s
  | ToggleAll => mret (toggle_all s)
  | Toggle i b => update (check b) i s
  | StartEdit i => mret (with_editing (fun d => {[i]} ∪ d) s)
  | Destroy i => mret (with_todos (delete i (todos s)) s)
  | EditInput i text => update (set_contents text) i s
  | EditFocusOut i => mret (with_editing (fun d => d ∖ {[i]}) s)
  | EditKey i k =>
      match k with
      | Enter | Escape | Tab => mret (with_editing (fun d => d ∖ {[i]}) s)
      | OtherKey => mret s
      end
  | SetFilter f => mret (App (todos s) f (draft s) (todo_id s) (editing s))
  | ClearCompleted =>
      mret (with_todos (base.filter (fun kv : Z * TodoItem => negb (checked kv.2)) (todos s)) s)
  end.

(** An event on the page: its handler, and then the page is rendered, which drops the state of the
    entries it no longer has. *)
Definition render (s : app) : app := with_editing (fun d => d ∩ list_to_set (filtered_todos s)) s.

Definition step (e : event) (s : app) : option app :=
  if on_page e s then match handle e s with Ok s => Some (render s) | _ => None end else None.
End Handlers.

(** ** The page *)

(** An entry: checked, being edited, its text. *)
Record entry := Entry { e_checked : bool; e_editing : bool; e_contents : list byte }.

(** The entries; the box to toggle all, unless it is hidden; the footer, unless it is hidden: the
    number of entries left with its noun, the selected filter, and the button to clear. *)
Record page := Page
  { p_entries : list entry; p_toggle_all : option bool;
    p_footer : option (nat * list byte * FilterState * bool); p_draft : list byte }.

Definition TodoEntry (s : app) (i : Z) : run entry :=
  item ← unwrap (todos s !! i);
  mret (Entry (checked item) (bool_decide (i ∈ editing s)) (contents item)).

Definition ListFooter (s : app) : nat * list byte * FilterState * bool :=
  let n := active_todo_count s in
  (n, match n with 1%nat => lit "item" | _ => lit "items" end ++ lit " left", filter s, show_clear_completed s).

Definition view (s : app) : run page :=
  entries ← collect (TodoEntry s) (filtered_todos s);
  let empty := bool_decide (todos s = ∅) in
  mret (Page entries (if empty then None else Some (active_todo_count s =? 0)%nat)
          (if empty then None else Some (ListFooter s)) (draft s)).
