(* ===== verification/TodoTheorems.v ===== *)
(** * The web application: the page shows the list

    A reference without maps and keys: a list of items in the order in which they were added.
    Every run of the handlers is a run of the reference, and the page shows its state. *)

From Stdlib Require Import String.
From stdpp Require Import gmap.
From S2P Require Import Prelude RustStd RustStr Trace Todo.

(** ** The reference *)

Module Reference.
Record state := State
  { items : list TodoItem; filter : FilterState; draft : list byte; next : Z; editing : gset Z }.

Definition init : state := State [] All [] 0 ∅.

Definition visible (s : state) : list TodoItem := base.filter (fun x => shown (filter s) x) (items s).
Definition left (s : state) : nat := length (base.filter (fun x => negb (checked x)) (items s)).

(** Changes the item with a key. *)
Definition change (i : Z) (f : TodoItem -> TodoItem) (l : list TodoItem) : list TodoItem :=
  (fun x => if id x =? i then f x else x) <$> l.

Definition with_items (l : list TodoItem) (s : state) : state :=
  State l (filter s) (draft s) (next s) (editing s).
Definition with_editing (f : gset Z -> gset Z) (s : state) : state :=
  State (items s) (filter s) (draft s) (next s) (f (editing s)).

Definition handle (e : event) (s : state) : state :=
  match e with
  | DraftInput text => State (items s) (filter s) text (next s) (editing s)
  | DraftKey Enter =>
      if bool_decide (draft s = []) then s else
      State (items s ++ [MkTodo (next s) false (draft s)]) (filter s) [] (next s + 1) (editing s)
  | DraftKey _ => s
  | ToggleAll => with_items (check (existsb (fun x => negb (checked x)) (items s)) <$> items s) s
  | Toggle i b => with_items (change i (check b) (items s)) s
  | StartEdit i => with_editing (fun d => {[i]} ∪ d) s
  | Destroy i => with_items (base.filter (fun x => id x <> i) (items s)) s
  | EditInput i text => with_items (change i (set_contents text) (items s)) s
  | EditFocusOut i => with_editing (fun d => d ∖ {[i]}) s
  | EditKey i OtherKey => s
  | EditKey i _ => with_editing (fun d => d ∖ {[i]}) s
  | SetFilter f => State (items s) f (draft s) (next s) (editing s)
  | ClearCompleted => with_items (base.filter (fun x => negb (checked x)) (items s)) s
  end.

(** An entry that is not visible is not edited. *)
Definition step (e : event) (s : state) : state :=
  let s := handle e s in with_editing (fun d => d ∩ list_to_set (id <$> visible s)) s.

Definition page (s : state) : page :=
  let footer := (left s, match left s with 1%nat => lit "item" | _ => lit "items" end ++ lit " left",
                 filter s, existsb checked (items s)) in
  Page ((fun x => Entry (checked x) (bool_decide (id x ∈ editing s)) (contents x)) <$> visible s)
    (if items s is [] then None else Some (left s =? 0)%nat)
    (if items s is [] then None else Some footer) (draft s).
End Reference.

(** ** Lists of items in the order of their keys *)

Definition by_id (x y : TodoItem) : Prop := id x < id y.
Definition le_id (x y : TodoItem) : Prop := id x <= id y.
#[export] Instance le_id_dec : RelDecision le_id.
Proof. intros x y. unfold le_id. apply _. Defined.
#[export] Instance le_id_total : Total le_id.
Proof. intros x y. unfold le_id. lia. Qed.
#[export] Instance le_id_trans : Transitive le_id.
Proof. intros x y z. unfold le_id. lia. Qed.

Lemma by_id_NoDup l : StronglySorted by_id l -> NoDup l.
Proof.
  induction 1 as [|x l Hl IH Hx]; constructor; [|done]. intros Hin.
  rewrite Forall_forall in Hx. specialize (Hx x Hin). unfold by_id in Hx. lia.
Qed.

Lemma by_id_ext l k :
  StronglySorted by_id l -> StronglySorted by_id k -> (forall x, x ∈ l <-> x ∈ k) -> l = k.
Proof.
  intros Hl Hk H. apply (StronglySorted_unique_strong by_id); [unfold by_id; intros; lia|done..|].
  apply NoDup_Permutation; [by apply by_id_NoDup..|done].
Qed.

Lemma by_id_fmap l (f : TodoItem -> TodoItem) :
  (forall x, id (f x) = id x) -> StronglySorted by_id l -> StronglySorted by_id (f <$> l).
Proof.
  intros Hf. induction 1 as [|x l Hl IH Hx]; cbn; constructor; [done|].
  apply Forall_fmap. apply (Forall_impl _ _ _ Hx). intros y. cbn. unfold by_id. by rewrite !Hf.
Qed.

Lemma by_id_filter l (P : TodoItem -> Prop) `{!forall x, Decision (P x)} :
  StronglySorted by_id l -> StronglySorted by_id (base.filter P l).
Proof.
  induction 1 as [|x l Hl IH Hx]; [constructor|]. rewrite filter_cons. case_decide; [|done].
  constructor; [done|]. apply Forall_forall. intros y [_ Hy]%list_elem_of_filter.
  rewrite Forall_forall in Hx. by apply Hx.
Qed.

Lemma by_id_snoc l x : StronglySorted by_id l -> Forall (fun y => by_id y x) l -> StronglySorted by_id (l ++ [x]).
Proof.
  induction 1 as [|y l Hl IH Hy]; intros H; cbn; [repeat constructor|].
  apply Forall_cons in H as [Hyx H]. constructor; [by apply IH|]. apply Forall_app. split; [done|by constructor].
Qed.

Lemma by_id_ids l : StronglySorted by_id l -> StronglySorted Z.lt (id <$> l).
Proof.
  induction 1 as [|x l Hl IH Hx]; cbn; constructor; [done|]. by apply Forall_fmap.
Qed.

(** ** The list of a state *)

Record inv (s : app) : Prop := Inv
  { inv_id i x : todos s !! i = Some x -> id x = i /\ 0 <= i < todo_id s;
    inv_next : 0 <= todo_id s < 2 ^ 32 }.

Definition items (s : app) : list TodoItem := merge_sort le_id (values (todos s)).
Definition abs (s : app) : Reference.state :=
  Reference.State (items s) (filter s) (draft s) (todo_id s) (editing s).

Section List.
Context (s : app) (INV : inv s).

Lemma elem_of_values x : x ∈ values (todos s) <-> todos s !! id x = Some x.
Proof.
  unfold values. rewrite list_elem_of_fmap. split.
  - intros ([i y] & -> & Hy%elem_of_map_to_list). cbn. by destruct (inv_id s INV i y Hy) as [-> _].
  - intros Hx. exists (id x, x). split; [done|]. by apply elem_of_map_to_list.
Qed.

Lemma items_values : items s ≡ₚ values (todos s).
Proof. apply merge_sort_Permutation. Qed.

Lemma elem_of_items x : x ∈ items s <-> todos s !! id x = Some x.
Proof. by rewrite items_values, elem_of_values. Qed.

Lemma NoDup_values : NoDup (id <$> values (todos s)).
Proof.
  unfold values. rewrite <- list_fmap_compose.
  rewrite (list_fmap_ext (compose id snd) fst); [apply NoDup_fst_map_to_list|].
  intros k [i x] Hx%list_elem_of_lookup_2%elem_of_map_to_list. by destruct (inv_id s INV i x Hx).
Qed.

Lemma items_sorted : StronglySorted by_id (items s).
Proof.
  assert (Hs : StronglySorted le_id (items s)) by (apply StronglySorted_merge_sort; apply _).
  assert (Hd : NoDup (id <$> items s)) by (rewrite items_values; apply NoDup_values).
  revert Hd. induction Hs as [|x l Hl IH Hx]; cbn; [constructor|]. intros [Hn Hd]%NoDup_cons.
  constructor; [by apply IH|]. apply Forall_forall. intros y Hy. rewrite Forall_forall in Hx.
  specialize (Hx y Hy). unfold le_id, by_id in *. assert (id x <> id y); [|lia].
  intros E. apply Hn. rewrite E. by apply list_elem_of_fmap_2.
Qed.

(** It is the only list in order with the items of the map. *)
Lemma items_unique l :
  StronglySorted by_id l -> (forall x, x ∈ l <-> todos s !! id x = Some x) -> items s = l.
Proof.
  intros Hl H. apply by_id_ext; [apply items_sorted|done|]. intros x. by rewrite elem_of_items, H.
Qed.

Lemma filtered_todos_visible : filtered_todos s = id <$> Reference.visible (abs s).
Proof.
  apply increasing_ext.
  - apply sort_increasing, NoDup_fst_map_to_list.
  - apply by_id_ids, by_id_filter, items_sorted.
  - intros i. unfold filtered_todos. rewrite elem_of_sort, !list_elem_of_fmap. split.
    + intros ([j x] & -> & Hx%elem_of_map_to_list). apply map_lookup_filter_Some in Hx as [Hx Hs].
      exists x. destruct (inv_id s INV j x Hx) as [<- _]. split; [done|].
      apply list_elem_of_filter. split; [done|]. by apply elem_of_items.
    + intros (x & -> & [Hs Hx%elem_of_items]%list_elem_of_filter). exists (id x, x). split; [done|].
      apply elem_of_map_to_list, map_lookup_filter_Some. done.
Qed.

Lemma active_left : active_todo_count s = Reference.left (abs s).
Proof. unfold active_todo_count, Reference.left. cbn. by rewrite items_values. Qed.

Lemma existsb_values f : existsb f (values (todos s)) = existsb f (items s).
Proof.
  apply eq_true_iff_eq. rewrite !existsb_exists.
  apply exist_proper. intros x. by rewrite <- !list_elem_of_In, items_values.
Qed.

Lemma items_nil : todos s = ∅ <-> items s = [].
Proof.
  unfold items, values. split; [by intros ->|]. intros H.
  assert (Hp : (map_to_list (todos s)).*2 ≡ₚ []) by (rewrite <- H; symmetry; apply merge_sort_Permutation).
  apply Permutation_nil_r, fmap_nil_inv in Hp. by apply map_to_list_empty_iff.
Qed.
End List.

(** ** The handlers follow the reference *)

(** Handlers that only change the map. *)
Lemma with_todos_sim s m l :
  inv s -> (forall i x, m !! i = Some x -> id x = i /\ 0 <= i < todo_id s) ->
  StronglySorted by_id l -> (forall x, x ∈ l <-> m !! id x = Some x) ->
  inv (with_todos m s) /\ abs (with_todos m s) = Reference.with_items l (abs s).
Proof.
  intros Hs Hm Hl Hx. assert (Hi : inv (with_todos m s)) by (split; [done|apply Hs]).
  split; [done|]. unfold abs, Reference.with_items. cbn. f_equal. by apply (items_unique _ Hi).
Qed.

Lemma update_sim f i s s' :
  (forall x, id (f x) = id x) -> inv s -> update f i s = Ok s' ->
  inv s' /\ abs s' = Reference.with_items (Reference.change i f (items s)) (abs s).
Proof.
  intros Hf Hs H. unfold update in H. destruct (todos s !! i) as [item|] eqn:Ei; [|done]. injection H as <-.
  assert (Hid : id item = i) by (by destruct (inv_id s Hs i item Ei)).
  apply with_todos_sim; [done| | |].
  - intros j x. rewrite lookup_insert_Some. intros [[<- <-]|[_ Hj]]; [|by apply Hs].
    rewrite Hf. by apply (inv_id s Hs).
  - apply by_id_fmap; [|by apply items_sorted]. intros x. by destruct (id x =? i).
  - intros x. unfold Reference.change. rewrite list_elem_of_fmap, lookup_insert_Some. split.
    + intros (y & -> & Hy%(elem_of_items s Hs)). destruct (Z.eqb_spec (id y) i) as [E|E].
      * left. rewrite Hf, E in *. split; [done|]. congruence.
      * by right.
    + intros [[Hx <-]|[Hx Hy]].
      * exists item. rewrite (elem_of_items s Hs), Hid, Z.eqb_refl. done.
      * exists x. rewrite (elem_of_items s Hs). destruct (Z.eqb_spec (id x) i); [congruence|done].
Qed.

Lemma filter_sim (P : TodoItem -> Prop) `{!forall x, Decision (P x)} s :
  inv s ->
  inv (with_todos (base.filter (fun kv : Z * TodoItem => P kv.2) (todos s)) s) /\
  abs (with_todos (base.filter (fun kv : Z * TodoItem => P kv.2) (todos s)) s)
  = Reference.with_items (base.filter P (items s)) (abs s).
Proof.
  intros Hs. apply with_todos_sim; [done| |by apply by_id_filter, items_sorted|].
  - intros i x [Hx _]%map_lookup_filter_Some. by apply Hs.
  - intros x. rewrite list_elem_of_filter, (elem_of_items s Hs), map_lookup_filter_Some. cbn. tauto.
Qed.

Lemma toggle_all_sim s :
  inv s -> inv (toggle_all s) /\ abs (toggle_all s) = Reference.handle ToggleAll (abs s).
Proof.
  intros Hs. unfold toggle_all, Reference.handle.
  assert (Hc : existsb (fun x => negb (checked x)) (Reference.items (abs s)) = negb (active_todo_count s =? 0)%nat).
  { rewrite active_left. unfold Reference.left. induction (Reference.items (abs s)) as [|x l IH]; [done|].
    cbn [existsb]. rewrite IH, filter_cons. by destruct (checked x). }
  rewrite Hc. apply with_todos_sim; [done| | |].
  - intros i x. rewrite lookup_fmap_Some. intros (y & <- & Hy). exact (inv_id s Hs i y Hy).
  - by apply by_id_fmap, items_sorted.
  - intros x. rewrite list_elem_of_fmap, lookup_fmap_Some. cbn [Reference.items abs].
    split; intros (y & Hx & Hy); exists y.
    + rewrite Hx. by apply (elem_of_items s Hs) in Hy.
    + rewrite (elem_of_items s Hs). subst x. done.
Qed.

Lemma add_sim s m :
  inv s -> todo_id s + 1 < 2 ^ 32 -> m = MkTodo (todo_id s) false (draft s) ->
  let s' := App (<[todo_id s := m]> (todos s)) (filter s) [] (todo_id s + 1) (editing s) in
  inv s' /\ abs s' = Reference.State (items s ++ [m]) (filter s) [] (todo_id s + 1) (editing s).
Proof.
  intros Hs Hn Hm. pose proof (inv_next s Hs) as Hnext.
  assert (Hi : inv (App (<[todo_id s := m]> (todos s)) (filter s) [] (todo_id s + 1) (editing s))).
  { split; cbn; [|lia]. intros i x. rewrite lookup_insert_Some. intros [[<- <-]|[_ Hx]]; [rewrite Hm; cbn; lia|].
    apply (inv_id s Hs) in Hx. lia. }
  split; [done|]. unfold abs. cbn. f_equal. apply (items_unique _ Hi).
  - apply by_id_snoc; [by apply items_sorted|]. apply Forall_forall. intros x Hx%(elem_of_items s Hs).
    apply (inv_id s Hs) in Hx. subst m. unfold by_id. cbn. lia.
  - intros x. cbn. rewrite elem_of_app, list_elem_of_singleton, (elem_of_items s Hs), lookup_insert_Some.
    split; [intros [Hx| ->]|intros [[Hx <-]|[_ Hx]]].
    + right. split; [|done]. apply (inv_id s Hs) in Hx. lia.
    + left. by subst m.
    + by right.
    + by left.
Qed.

Lemma handle_sim e s s' :
  inv s -> handle true e s = Ok s' -> inv s' /\ abs s' = Reference.handle e (abs s).
Proof.
  intros Hs H. destruct e as [text|k| |i b|i|i|i text|i|i k|f|]; cbn [handle] in H;
    try (injection H as <-; (split; [by split; apply Hs|done])).
  - unfold header_onkeydown in H. destruct k; try (by injection H as <-).
    cbn [Reference.handle]. cbn [Reference.draft abs]. case_bool_decide; [by injection H as <-|].
    unfold next_id in H. destruct (Z.ltb_spec (todo_id s + 1) (2 ^ 32)); [|done]. injection H as <-.
    by apply add_sim.
  - injection H as <-. by apply toggle_all_sim.
  - by apply update_sim.
  - injection H as <-. pose proof (filter_sim (fun x => id x <> i) s Hs) as [Hi Ha].
    assert (Hm : delete i (todos s) = base.filter (fun kv : Z * TodoItem => id kv.2 <> i) (todos s)).
    { apply map_eq. intros j. destruct (todos s !! j) as [x|] eqn:Ex.
      - destruct (inv_id s Hs j x Ex) as [Hid _]. destruct (decide (i = j)) as [->|Hne].
        + rewrite lookup_delete_eq. symmetry. apply map_lookup_filter_None. right. intros y Hy. cbn. congruence.
        + rewrite lookup_delete_ne, Ex by done. symmetry. apply map_lookup_filter_Some. cbn. split; [done|congruence].
      - destruct (decide (i = j)) as [->|Hne]; [rewrite lookup_delete_eq|rewrite lookup_delete_ne, Ex by done];
          symmetry; apply map_lookup_filter_None; by left. }
    by rewrite Hm.
  - by apply update_sim.
  - destruct k; injection H as <-; (split; [by split; apply Hs|done]).
  - injection H as <-. exact (@filter_sim (fun x => negb (checked x)) _ s Hs).
Qed.

Lemma render_sim s : inv s -> inv (render s) /\
  abs (render s) = Reference.with_editing (fun d => d ∩ list_to_set (id <$> Reference.visible (abs s))) (abs s).
Proof.
  intros Hs. split; [by split; apply Hs|]. unfold abs, render, Reference.with_editing. cbn.
  by rewrite (filtered_todos_visible s Hs).
Qed.

Lemma step_sim e s s' : inv s -> step true e s = Some s' -> inv s' /\ abs s' = Reference.step e (abs s).
Proof.
  intros Hs. unfold step. destruct (on_page e s); [|done].
  destruct (handle true e s) as [s1| |] eqn:E; try done. intros [= <-].
  destruct (handle_sim e s s1 Hs E) as [Hi Ha]. destruct (render_sim s1 Hi) as [Hr Hra].
  split; [done|]. rewrite Hra, Ha. done.
Qed.

Lemma view_sim s : inv s -> view s = Ok (Reference.page (abs s)).
Proof.
  intros Hs. unfold view, Reference.page. rewrite (filtered_todos_visible s Hs).
  assert (Hc : collect (TodoEntry s) (id <$> Reference.visible (abs s)) =
    Ok ((fun x => Entry (checked x) (bool_decide (id x ∈ editing s)) (contents x)) <$> Reference.visible (abs s))).
  { assert (Hv : Forall (fun x => todos s !! id x = Some x) (Reference.visible (abs s))).
    { apply Forall_forall. intros x [_ Hx]%list_elem_of_filter. by apply (elem_of_items s Hs). }
    induction Hv as [|x l Hx _ IH]; [done|]. cbn [fmap list_fmap collect].
    assert (He : TodoEntry s (id x) = Ok (Entry (checked x) (bool_decide (id x ∈ editing s)) (contents x)))
      by (unfold TodoEntry; by rewrite Hx).
    rewrite He. cbn [mbind outcome_bind]. by rewrite IH. }
  rewrite Hc. cbn [mbind outcome_bind]. unfold ListFooter, show_clear_completed. rewrite active_left, existsb_values.
  change (Reference.items (abs s)) with (items s).
  destruct (items s) as [|x l] eqn:El.
  - by rewrite bool_decide_eq_true_2 by (by apply items_nil).
  - rewrite bool_decide_eq_false_2; [done|]. intros E%items_nil. congruence.
Qed.

(** ** Runs *)

Lemma init_inv : inv init.
Proof. split; cbn; [|lia]. intros i x H. by rewrite lookup_empty in H. Qed.

(** C14: the page shows the list: in a build with overflow checks, where a counter that overflowed
    would end the run, after any run of events the page, which the application computes from a hash
    map with keys, is the page of the reference, which only has a list in the order of addition: its
    entries under the filter, the number left, the boxes and buttons. *)
Theorem page_of_run es s :
  exec (step true) es init = Some s ->
  view s = Ok (Reference.page (foldl (fun r e => Reference.step e r) Reference.init es)).
Proof.
  intros H.
  assert (Hs : inv s /\ abs s = foldl (fun r e => Reference.step e r) Reference.init es).
  { revert s H. apply (exec_ind (step true) (fun es s => inv s /\ abs s = foldl (fun r e => Reference.step e r) Reference.init es)).
    - by split; [apply init_inv|].
    - intros es' e s1 s2 _ [Hi Ha] Hst. destruct (step_sim e s1 s2 Hi Hst) as [Hi2 Ha2].
      split; [done|]. by rewrite foldl_snoc, <- Ha. }
  destruct Hs as [Hi <-]. by apply view_sim.
Qed.

Lemma reachable_inv es s : exec (step true) es init = Some s -> inv s.
Proof.
  apply exec_inv; [intros e s1 s2 Hi Hst; by apply (step_sim e s1)|].
  apply init_inv.
Qed.

(** No event on the page can make the application panic, in any state it can reach, as long as
    fewer than 2^32 items have been added: the handlers of an entry always find its item, and so
    does the page that is rendered next. *)
Theorem events_handled es s e :
  exec (step true) es init = Some s -> on_page e s = true -> todo_id s + 1 < 2 ^ 32 ->
  exists s', step true e s = Some s' /\ exists p, view s' = Ok p.
Proof.
  intros H Hp Hn. pose proof (reachable_inv es s H) as Hi.
  assert (Hf : forall i, i ∈ filtered_todos s -> is_Some (todos s !! i)).
  { intros i Hin. rewrite (filtered_todos_visible s Hi), list_elem_of_fmap in Hin.
    destruct Hin as (x & -> & [_ Hx%(elem_of_items s Hi)]%list_elem_of_filter). by eexists. }
  assert (Hh : exists s1, handle true e s = Ok s1).
  { destruct e as [text|k| |i b|i|i|i text|i|i k|f|]; cbn [handle]; try (by eexists).
    - unfold header_onkeydown, next_id. destruct k; try (by eexists). case_bool_decide; [by eexists|].
      destruct (Z.ltb_spec (todo_id s + 1) (2 ^ 32)); [by eexists|lia].
    - cbn in Hp. apply bool_decide_eq_true in Hp. destruct (Hf i Hp) as [x Hx]. unfold update. rewrite Hx. by eexists.
    - cbn in Hp. apply andb_true_iff in Hp as [Hp%bool_decide_eq_true _].
      destruct (Hf i Hp) as [x Hx]. unfold update. rewrite Hx. by eexists.
    - destruct k; by eexists. }
  destruct Hh as [s1 Hh]. exists (render s1). unfold step. rewrite Hp, Hh. split; [done|].
  destruct (handle_sim e s s1 Hi Hh) as [Hi1 _]. destruct (render_sim s1 Hi1) as [Hr _].
  eexists. by apply view_sim.
Qed.

(** ** Instances *)

(** Two items, the first of which is checked; those left are shown. *)
Definition sample_events : list event :=
  [DraftInput (lit "a"); DraftKey Enter; DraftInput (lit "b"); DraftKey Enter; Toggle 0 true; SetFilter Active].

Lemma page_of_run_witness :
  view <$> exec (step true) sample_events init =
  Some (Ok (Page [Entry false false (lit "b")] (Some false) (Some (1%nat, lit "item left", Active, true)) [])).
Proof.
  destruct (exec (step true) sample_events init) as [s|] eqn:E; [|by vm_compute in E].
  cbn [fmap option_fmap option_map]. rewrite (page_of_run sample_events s E). f_equal.
Defined.

Lemma events_handled_witness :
  exists s s', exec (step true) (sample_events ++ [StartEdit 1]) init = Some s /\
    step true (EditInput 1 (lit "c")) s = Some s' /\ exists p, view s' = Ok p.
Proof.
  destruct (exec (step true) (sample_events ++ [StartEdit 1]) init) as [s|] eqn:E; [|by vm_compute in E].
  exists s. destruct (events_handled _ s (EditInput 1 (lit "c")) E) as (s' & H & Hp).
  - vm_compute in E. injection E as <-. by vm_compute.
  - vm_compute in E. injection E as <-. by vm_compute.
  - by exists s'.
Defined.
