(* ===== verification/Lldp.v ===== *)
(** * The LLDP decoder

    [network/lldp/src]: the decoder of LLDP frames, a module per file of [tlv/], and the lines the
    daemon of [main.rs] prints for a frame.  Every index and slice that can panic does so here. *)

From S2P Require Import Prelude RustStd.

(** [std::net::IpAddr], by its octets. *)
Inductive IpAddr := V4 (octets : list byte) | V6 (octets : list byte).

Inductive ParserError := NotLLDP | WrongLength.

Abbreviation result := (outcome ParserError).

Module TlvType.
Inductive t :=
| EndOfLLDPDU | ChassisId | PortId | Ttl | PortDescription | SystemName | SystemDescription
| SystemCapabilities | ManagementAddress | OrganizationSpecific | Reserved (n : Z).

Definition from (v : Z) : t :=
  if v =? 0 then EndOfLLDPDU
  else if v =? 1 then ChassisId
  else if v =? 2 then PortId
  else if v =? 3 then Ttl
  else if v =? 4 then PortDescription
  else if v =? 5 then SystemName
  else if v =? 6 then SystemDescription
  else if v =? 7 then SystemCapabilities
  else if v =? 8 then ManagementAddress
  else if v =? 127 then OrganizationSpecific
  else Reserved v.
End TlvType.

Module ChassisId.
Inductive SubType :=
| Chassis | InterfaceAlias | Port | MacAddr | NetworkAddress | InterfaceName | Local | Unknown (n : Z).

Definition from (v : Z) : SubType :=
  if v =? 1 then Chassis
  else if v =? 2 then InterfaceAlias
  else if v =? 3 then Port
  else if v =? 4 then MacAddr
  else if v =? 5 then NetworkAddress
  else if v =? 6 then InterfaceName
  else if v =? 7 then Local
  else Unknown v.

Inductive Value := Mac (octets : list byte) | Ip (addr : IpAddr) | Str (s : list byte).

Record t := Mk { tlv_type : TlvType.t; len : Z; subtype : SubType; value : Value }.

Definition parser (length : Z) (bs : list byte) : result t :=
  v ← index 0 bs;
  let subtype := from v in
  value ←
    match subtype with
    | MacAddr => a ← slice 0 6 bs; mret (Mac a)
    | NetworkAddress =>
        family ← index 1 bs;
        if family =? 1 then a ← slice 2 6 bs; mret (Ip (V4 a))
        else if family =? 2 then a ← slice 2 18 bs; mret (Ip (V6 a))
        else s ← slice 2 length bs; mret (Str (from_utf8_lossy s))
    | _ => s ← slice 1 length bs; mret (Str (from_utf8_lossy s))
    end;
  mret (Mk TlvType.ChassisId length subtype value).
End ChassisId.

Module PortId.
Inductive SubType :=
| InterfaceAlias | Port | MacAddr | NetworkAddress | InterfaceName | CircuitId | Local
| Unknown (n : Z).

Definition from (v : Z) : SubType :=
  if v =? 1 then InterfaceAlias
  else if v =? 2 then Port
  else if v =? 3 then MacAddr
  else if v =? 4 then NetworkAddress
  else if v =? 5 then InterfaceName
  else if v =? 6 then CircuitId
  else if v =? 7 then Local
  else Unknown v.

Inductive Value := Mac (octets : list byte) | Ip (addr : IpAddr) | Str (s : list byte).

Record t := Mk { tlv_type : TlvType.t; len : Z; subtype : SubType; value : Value }.

Definition parser (length : Z) (bs : list byte) : result t :=
  v ← index 0 bs;
  let subtype := from v in
  value ←
    match subtype with
    | MacAddr => a ← slice 1 7 bs; mret (Mac a)
    | NetworkAddress =>
        family ← index 1 bs;
        if family =? 1 then a ← slice 2 6 bs; mret (Ip (V4 a))
        else if family =? 2 then a ← slice 2 18 bs; mret (Ip (V6 a))
        else s ← slice 2 length bs; mret (Str (from_utf8_lossy s))
    | _ => s ← slice 1 length bs; mret (Str (from_utf8_lossy s))
    end;
  mret (Mk TlvType.PortId length subtype value).
End PortId.

Module Ttl.
Record t := Mk { tlv_type : TlvType.t; len : Z; value : Z }.
Definition parser (_len : Z) (bs : list byte) : result t :=
  v ← slice 0 2 bs; mret (Mk TlvType.Ttl 2 (be_value v)).
End Ttl.

Module PortDescription.
Record t := Mk { tlv_type : TlvType.t; len : Z; value : list byte }.
Definition parser (length : Z) (bs : list byte) : result t :=
  v ← slice 0 length bs; mret (Mk TlvType.PortDescription length (from_utf8_lossy v)).
End PortDescription.

Module SystemName.
Record t := Mk { tlv_type : TlvType.t; len : Z; value : list byte }.
Definition parser (length : Z) (bs : list byte) : result t :=
  v ← slice 0 length bs; mret (Mk TlvType.SystemName length (from_utf8_lossy v)).
End SystemName.

Module SystemDescription.
Record t := Mk { tlv_type : TlvType.t; len : Z; value : list byte }.
Definition parser (length : Z) (bs : list byte) : result t :=
  v ← slice 0 length bs; mret (Mk TlvType.SystemDescription length (from_utf8_lossy v)).
End SystemDescription.

Module SystemCapabilities.
Record Value := MkValue { caps : Z; enabled_caps : Z }.
Record t := Mk { tlv_type : TlvType.t; len : Z; value : Value }.
Definition parser (_len : Z) (bs : list byte) : result t :=
  c ← slice 0 2 bs; e ← slice 2 4 bs;
  mret (Mk TlvType.SystemCapabilities 4 (MkValue (be_value c) (be_value e))).
End SystemCapabilities.

Module ManagementAddress.
Record t := Mk { tlv_type : TlvType.t; len : Z; value : IpAddr }.
Definition parser (length : Z) (bs : list byte) : result t :=
  _addr_len ← index 0 bs;
  addr_type ← index 1 bs;
  value ←
    (if addr_type =? 1 then a ← slice 2 6 bs; mret (V4 a)
     else if addr_type =? 2 then a ← slice 2 18 bs; mret (V6 a)
     else mret (V4 (zeros 4)));
  mret (Mk TlvType.ManagementAddress length value).
End ManagementAddress.

Module OrganizationSpecific.
Record t := Mk { tlv_type : TlvType.t; len : Z }.
Definition parser (length : Z) (_value : list byte) : result t :=
  mret (Mk TlvType.OrganizationSpecific length).
End OrganizationSpecific.

Module Reserved.
Record t := Mk { tlv_type : TlvType.t; len : Z; value : list byte }.
Definition parser (tlv_type : Z) (length : Z) (bs : list byte) : result t :=
  v ← slice 0 length bs; mret (Mk (TlvType.Reserved tlv_type) length v).
End Reserved.

Module EndOfPdu.
Inductive t := Mk.
Definition new : t := Mk.
End EndOfPdu.

Module Tlv.
Inductive t :=
| ChassisId (v : ChassisId.t) | PortId (v : PortId.t) | Ttl (v : Ttl.t)
| PortDescription (v : PortDescription.t) | SystemName (v : SystemName.t)
| SystemDescription (v : SystemDescription.t) | Capabilities (v : SystemCapabilities.t)
| ManagementAddress (v : ManagementAddress.t) | OrganizationSpecific (v : OrganizationSpecific.t)
| Reserved (v : Reserved.t) | EndOfPdu (v : EndOfPdu.t).
End Tlv.

(** The [match] of [from_bytes]: the decoder of a type, on everything after the TLV's header. *)
Definition parse_tlv (lldp_type length : Z) (value : list byte) : result Tlv.t :=
  match TlvType.from lldp_type with
  | TlvType.ChassisId => Tlv.ChassisId <$> ChassisId.parser length value
  | TlvType.PortId => Tlv.PortId <$> PortId.parser length value
  | TlvType.Ttl => Tlv.Ttl <$> Ttl.parser length value
  | TlvType.PortDescription => Tlv.PortDescription <$> PortDescription.parser length value
  | TlvType.SystemName => Tlv.SystemName <$> SystemName.parser length value
  | TlvType.SystemDescription => Tlv.SystemDescription <$> SystemDescription.parser length value
  | TlvType.SystemCapabilities => Tlv.Capabilities <$> SystemCapabilities.parser length value
  | TlvType.ManagementAddress => Tlv.ManagementAddress <$> ManagementAddress.parser length value
  | TlvType.OrganizationSpecific => Tlv.OrganizationSpecific <$> OrganizationSpecific.parser length value
  | TlvType.EndOfLLDPDU => mret (Tlv.EndOfPdu EndOfPdu.new)
  | TlvType.Reserved t => Tlv.Reserved <$> Reserved.parser t length value
  end.

(** The loop of [from_bytes]; [None] when the fuel does not suffice.  The length is nine bits, of
    which the code shifts the highest by nine. *)
Fixpoint from_bytes_loop (fuel : nat) (payload : list byte) (pos : Z) (tlvs : list Tlv.t)
    : option (result (list Tlv.t)) :=
  match fuel with
  | O => None
  | S fuel =>
      if pos + 1 <? len payload then
        match index (E := ParserError) pos payload, index (E := ParserError) (pos + 1) payload with
        | Ok b0, Ok b1 =>
            let lldp_type := Z.shiftr (Z.land b0 254) 1 in
            let length := Z.shiftl (Z.land b0 1) 9 + b1 in
            if len payload <? pos + 2 + length then Some (Err WrongLength) else
            match parse_tlv lldp_type length (drop (Z.to_nat (pos + 2)) payload) with
            | Ok tlv => from_bytes_loop fuel payload (pos + 2 + length) (tlvs ++ [tlv])
            | Err e => Some (Err e)
            | Panic => Some Panic
            end
        | _, _ => Some Panic
        end
      else Some (Ok tlvs)
  end.

(** Every iteration advances by two bytes at least: one test per byte is more than enough. *)
Definition from_bytes (payload : list byte) : option (result (list Tlv.t)) :=
  from_bytes_loop (S (length payload)) payload 0 [].

Definition ETH_LEN : Z := 14.
Definition ETH_TYPE_LEN : Z := 2.
Definition LLDP : Z := 0x88cc.

(** [PartialEq<EtherType> for &[u8]]. *)
Definition ether_type_eq (bs : list byte) (t : Z) : bool :=
  if len bs =? ETH_TYPE_LEN then be_value (sub_bytes 0 2 bs) =? t else false.

Definition is_lldp (frame : list byte) : bool :=
  if ETH_LEN <=? len frame then ether_type_eq (sub_bytes 12 2 frame) LLDP else false.

Definition parser (frame : list byte) : option (result (list Tlv.t)) :=
  if is_lldp frame then from_bytes (drop 14 frame) else Some (Err NotLLDP).

(** What the daemon prints for a frame: the neighbour, with the TLVs it shows. *)
Inductive line :=
| Neighbor
| NameLine (t : TlvType.t) (value : list byte)
| PortLine (t : TlvType.t) (value : PortId.Value)
| DescriptionLine (t : TlvType.t) (value : list byte).

Definition tlv_lines (tlv : Tlv.t) : list line :=
  match tlv with
  | Tlv.SystemName v => [NameLine (SystemName.tlv_type v) (SystemName.value v)]
  | Tlv.PortId v => [PortLine (PortId.tlv_type v) (PortId.value v)]
  | Tlv.PortDescription v =>
      [DescriptionLine (PortDescription.tlv_type v) (PortDescription.value v)]
  | _ => []
  end.

(** The lines for one frame, [None] when the task of the interface panics. *)
Definition show_frame (frame : list byte) : option (list line) :=
  r ← parser frame;
  match r with
  | Ok tlvs => Some (Neighbor :: (tlvs ≫= tlv_lines))
  | Err _ => Some []
  | Panic => None
  end.
