(* ===== verification/LldpTheorems.v ===== *)
(** * The LLDP decoder: properties

    Decoding a frame terminates; it is decoding each TLV on its own, for TLVs of up to 255 bytes;
    longer ones, which the protocol allows, are rejected; and a frame can make the decoder panic. *)

From S2P Require Import Prelude RustStd Lldp.

(** ** The encoding of the protocol (IEEE 802.1AB): seven bits of type, nine of length *)

Definition encode_tlv (ty : Z) (v : list byte) : list byte :=
  byte.of_Z (2 * ty + len v / 256) :: byte.of_Z (len v mod 256) :: v.
Definition encode (l : list (Z * list byte)) : list byte :=
  concat ((fun tv => encode_tlv tv.1 tv.2) <$> l).

(** An Ethernet frame of type LLDP. *)
Definition lldp_frame (macs payload : list byte) : list byte := macs ++ [Byte.x88; Byte.xcc] ++ payload.

(** A TLV whose value decodes on its own, to [t]. *)
Definition decodes (tv : Z * list byte) (t : Tlv.t) : Prop :=
  0 <= tv.1 < 128 /\ len tv.2 < 256 /\ parse_tlv tv.1 (len tv.2) tv.2 = Ok t.

(** ** Decoders read their value only *)

(** A decoder that succeeds on some bytes does the same whatever follows them. *)
Definition local {A} (f : list byte -> result A) : Prop :=
  forall bs rest a, f bs = Ok a -> f (bs ++ rest) = Ok a.

Lemma local_ret {A} (a : A) : local (fun _ => mret a).
Proof. by intros bs rest b. Qed.

Lemma local_slice a b : 0 <= a -> local (slice a b).
Proof.
  intros Ha bs rest v. unfold slice. destruct (Z.leb_spec a b); [|done]. cbn [andb].
  destruct (Z.leb_spec b (len bs)); [|done]. intros [= <-].
  destruct (Z.leb_spec b (len (bs ++ rest))) as [|Hl]; [|rewrite length_app in Hl; lia].
  f_equal. unfold sub_bytes. by rewrite drop_app_le, take_app_le by (rewrite ?length_drop; lia).
Qed.

Lemma local_index i : local (index i).
Proof.
  intros bs rest v. unfold index. destruct (bs !! Z.to_nat i) as [b|] eqn:Hb; [|done].
  by rewrite (lookup_app_l_Some _ _ _ _ Hb).
Qed.

Lemma local_bind {A B} (f : list byte -> result A) (g : A -> list byte -> result B) :
  local f -> (forall a, local (g a)) -> local (fun bs => a ← f bs; g a bs).
Proof.
  intros Hf Hg bs rest b. destruct (f bs) as [a| |] eqn:Ha; try done.
  rewrite (Hf _ _ _ Ha). cbn. apply Hg.
Qed.

Lemma local_fmap {A B} (f : list byte -> result A) (g : A -> B) :
  local f -> local (fun bs => g <$> f bs).
Proof.
  intros Hf bs rest b. destruct (f bs) as [a| |] eqn:Ha; try done. by rewrite (Hf _ _ _ Ha).
Qed.

Lemma local_if {A} (c : bool) (f g : list byte -> result A) :
  local f -> local g -> local (fun bs => if c then f bs else g bs).
Proof. by destruct c. Qed.

Lemma chassis_local n : local (ChassisId.parser n).
Proof.
  unfold ChassisId.parser. apply (local_bind _ (fun v bs => _)); [apply local_index|intros v].
  apply (local_bind _ (fun a bs => mret _)); [|intros; apply local_ret].
  destruct (ChassisId.from v); try (apply (local_bind _ (fun a bs => mret _));
    [by apply local_slice|intros; apply local_ret]).
  apply (local_bind _ (fun v bs => _)); [apply local_index|intros f].
  repeat apply local_if; (apply (local_bind _ (fun a bs => mret _));
    [by apply local_slice|intros; apply local_ret]).
Qed.

Lemma port_local n : local (PortId.parser n).
Proof.
  unfold PortId.parser. apply (local_bind _ (fun v bs => _)); [apply local_index|intros v].
  apply (local_bind _ (fun a bs => mret _)); [|intros; apply local_ret].
  destruct (PortId.from v); try (apply (local_bind _ (fun a bs => mret _));
    [by apply local_slice|intros; apply local_ret]).
  apply (local_bind _ (fun v bs => _)); [apply local_index|intros f].
  repeat apply local_if; (apply (local_bind _ (fun a bs => mret _));
    [by apply local_slice|intros; apply local_ret]).
Qed.

Lemma management_local n : local (ManagementAddress.parser n).
Proof.
  unfold ManagementAddress.parser. apply (local_bind _ (fun v bs => _)); [apply local_index|intros v].
  apply (local_bind _ (fun v bs => _)); [apply local_index|intros f].
  apply (local_bind _ (fun a bs => mret _)); [|intros; apply local_ret].
  repeat apply local_if; try apply local_ret; (apply (local_bind _ (fun a bs => mret _));
    [by apply local_slice|intros; apply local_ret]).
Qed.

Lemma capabilities_local n : local (SystemCapabilities.parser n).
Proof.
  unfold SystemCapabilities.parser. apply (local_bind _ (fun c bs => _)); [by apply local_slice|intros c].
  apply (local_bind _ (fun e bs => mret _)); [by apply local_slice|intros; apply local_ret].
Qed.

(** A decoder that is one slice. *)
Lemma local_text {A} a b (g : list byte -> A) : 0 <= a -> local (fun bs => v ← slice a b bs; mret (g v)).
Proof.
  intros. apply (local_bind _ (fun v bs => mret _)); [by apply local_slice|intros; apply local_ret].
Qed.

Lemma parse_tlv_local ty n : local (parse_tlv ty n).
Proof.
  unfold parse_tlv. destruct (TlvType.from ty); try apply local_ret; apply local_fmap;
    first [ apply chassis_local | apply port_local | apply management_local
          | apply capabilities_local | by apply local_text | apply local_ret ].
Qed.

(** ** The loop *)

Lemma byte_of_Z z : 0 <= z < 256 -> byte.unsigned (byte.of_Z z) = z.
Proof. intros. rewrite byte.unsigned_of_Z. unfold byte.wrap. by apply Z.mod_small. Qed.

(** The header of a TLV, as the code reads it. *)
Lemma header_type ty n :
  0 <= ty < 128 -> 0 <= n < 512 -> Z.shiftr (Z.land (2 * ty + n / 256) 254) 1 = ty.
Proof.
  intros Ht Hn. assert (Hd : n / 256 = 0 \/ n / 256 = 1).
  { pose proof (Z.div_pos n 256). pose proof (Z.div_lt_upper_bound n 256 2). lia. }
  apply (small_cases ty 128) in Ht. cbn in Ht.
  destruct Hd as [-> | ->];
    repeat (apply elem_of_cons in Ht as [->|Ht]; [reflexivity|]); by apply not_elem_of_nil in Ht.
Qed.

Lemma header_length ty n :
  0 <= ty < 128 -> 0 <= n < 512 ->
  Z.shiftl (Z.land (2 * ty + n / 256) 1) 9 + n mod 256 = if n <? 256 then n else n + 256.
Proof.
  intros Ht Hn. change 1 with (Z.ones 1) at 1. rewrite Z.land_ones, Z.shiftl_mul_pow2 by lia.
  change (2 ^ 1) with 2. change (2 ^ 9) with 512.
  replace (2 * ty + n / 256) with (n / 256 + ty * 2) by lia. rewrite Z_mod_plus_full.
  pose proof (Z.div_mod n 256 ltac:(lia)). pose proof (Z.mod_pos_bound n 256).
  destruct (Z.ltb_spec n 256).
  - rewrite Z.div_small, Z.mod_small by lia. cbn. lia.
  - assert (E : n / 256 = 1) by lia. rewrite E in *. change (1 mod 2) with 1. lia.
Qed.

Lemma length_encode_tlv ty v : len (encode_tlv ty v) = 2 + len v.
Proof. unfold encode_tlv. cbn [length]. lia. Qed.

Lemma index_header pre ty v rest :
  0 <= ty < 128 -> len v < 512 ->
  index (E := ParserError) (len pre) (pre ++ encode_tlv ty v ++ rest) = Ok (2 * ty + len v / 256) /\
  index (E := ParserError) (len pre + 1) (pre ++ encode_tlv ty v ++ rest) = Ok (len v mod 256).
Proof.
  intros Ht Hv. assert (0 <= len v / 256 < 2).
  { split; [apply Z.div_pos; lia|]. apply Z.div_lt_upper_bound; lia. }
  pose proof (Z.mod_pos_bound (len v) 256).
  unfold index. split; rewrite lookup_app_r by lia.
  - replace (Z.to_nat (len pre) - length pre)%nat with 0%nat by lia. cbn.
    by rewrite byte_of_Z by lia.
  - replace (Z.to_nat (len pre + 1) - length pre)%nat with 1%nat by lia. cbn.
    by rewrite byte_of_Z by lia.
Qed.

(** One iteration, on a TLV at the position of the loop. *)
Lemma loop_step fuel pre ty v rest acc :
  0 <= ty < 128 -> len v < 512 ->
  from_bytes_loop (S fuel) (pre ++ encode_tlv ty v ++ rest) (len pre) acc =
    let n := if len v <? 256 then len v else len v + 256 in
    if len v + len rest <? n then Some (Err WrongLength) else
    match parse_tlv ty n (v ++ rest) with
    | Ok tlv => from_bytes_loop fuel (pre ++ encode_tlv ty v ++ rest) (len pre + 2 + n) (acc ++ [tlv])
    | Err e => Some (Err e)
    | Panic => Some Panic
    end.
Proof.
  intros Ht Hv. cbn [from_bytes_loop]. rewrite !length_app. pose proof (length_encode_tlv ty v) as Hl.
  destruct (Z.ltb_spec (len pre + 1) (Z.of_nat (length pre + (length (encode_tlv ty v) + length rest))));
    [|lia].
  destruct (index_header pre ty v rest Ht Hv) as [-> ->].
  rewrite header_type, header_length by lia. cbv zeta.
  set (n := if len v <? 256 then len v else len v + 256).
  assert (Hd : drop (Z.to_nat (len pre + 2)) (pre ++ encode_tlv ty v ++ rest) = v ++ rest).
  { rewrite drop_app_ge by lia. replace (Z.to_nat (len pre + 2) - length pre)%nat with 2%nat by lia.
    reflexivity. }
  rewrite Hd.
  destruct (Z.ltb_spec (Z.of_nat (length pre + (length (encode_tlv ty v) + length rest))) (len pre + 2 + n)),
    (Z.ltb_spec (len v + len rest) n); try lia; done.
Qed.

(** The loop over TLVs that decode. *)
Lemma loop_encode l ts fuel pre rest acc :
  Forall2 decodes l ts -> (length l < fuel)%nat ->
  exists fuel', (fuel - length l = fuel')%nat /\
  from_bytes_loop fuel (pre ++ encode l ++ rest) (len pre) acc =
    from_bytes_loop fuel' (pre ++ encode l ++ rest) (len (pre ++ encode l)) (acc ++ ts).
Proof.
  intros H. revert fuel pre acc. induction H as [|[ty v] t l ts Hd _ IH]; intros fuel pre acc Hf.
  - exists fuel. split; [cbn; lia|]. unfold encode. cbn. by rewrite !app_nil_r.
  - destruct Hd as (Ht & Hv & Hp). cbn [fst snd] in *. destruct fuel as [|fuel]; [lia|].
    change (encode ((ty, v) :: l)) with (encode_tlv ty v ++ encode l).
    rewrite <- (assoc_L (++) (encode_tlv ty v)), loop_step by lia. cbv zeta.
    destruct (Z.ltb_spec (len v) 256); [|lia]. rewrite length_app.
    destruct (Z.ltb_spec (len v + Z.of_nat (length (encode l) + length rest)) (len v)); [lia|].
    rewrite (parse_tlv_local ty (len v) v _ _ Hp).
    destruct (IH fuel (pre ++ encode_tlv ty v) (acc ++ [t])) as (f' & Hf' & E); [cbn in Hf; lia|].
    exists f'. split; [cbn [length]; lia|].
    replace (len pre + 2 + len v) with (len (pre ++ encode_tlv ty v))
      by (rewrite length_app; pose proof (length_encode_tlv ty v); lia).
    rewrite <- !(assoc_L (++)) in E. rewrite E. done.
Qed.

Lemma encode_length l : (2 * length l <= length (encode l))%nat.
Proof.
  unfold encode. induction l as [|[ty v] l IH]; cbn [length fmap list_fmap concat fst snd]; [done|].
  rewrite length_app. pose proof (length_encode_tlv ty v). lia.
Qed.

(** Decoding an encoded payload reaches what follows the TLVs. *)
Lemma from_bytes_encode l ts rest :
  Forall2 decodes l ts ->
  exists fuel, (1 + length rest <= fuel)%nat /\
  from_bytes (encode l ++ rest) = from_bytes_loop fuel (encode l ++ rest) (len (encode l)) ts.
Proof.
  intros H. pose proof (encode_length l). unfold from_bytes.
  destruct (loop_encode l ts (S (length (encode l ++ rest))) [] rest [] H) as (fuel & Hf & E).
  { rewrite length_app. lia. }
  exists fuel. rewrite length_app in Hf. split; [lia|]. exact E.
Qed.

(** ** Termination and error values *)

Lemma loop_total fuel payload pos acc :
  (1 <= fuel)%nat -> 0 <= pos -> len payload < pos + Z.of_nat fuel ->
  is_Some (from_bytes_loop fuel payload pos acc).
Proof.
  revert pos acc. induction fuel as [|fuel IH]; intros pos acc Hf Hp Hl; [lia|]. cbn [from_bytes_loop].
  destruct (Z.ltb_spec (pos + 1) (len payload)); [|eauto].
  destruct (index (E := ParserError) pos payload) as [b0| |], (index (E := ParserError) (pos + 1) payload) as [b1| |] eqn:E1; eauto.
  assert (0 <= b1).
  { unfold index in E1. destruct (payload !! _) as [b|]; [|done]. injection E1 as <-.
    apply byte.unsigned_range. }
  assert (0 <= Z.shiftl (Z.land b0 1) 9).
  { change 1 with (Z.ones 1). rewrite Z.land_ones, Z.shiftl_mul_pow2 by lia.
    pose proof (Z.mod_pos_bound b0 (2 ^ 1)). lia. }
  cbv zeta. case_match; [eauto|]. case_match; eauto. apply IH; lia.
Qed.

Lemma slice_no_err a b bs e : slice (E := ParserError) a b bs <> Err e.
Proof. unfold slice. by case_match. Qed.

Lemma index_no_err i bs e : index (E := ParserError) i bs <> Err e.
Proof. unfold index. by case_match. Qed.

(** A decoder of a TLV may panic; it has no error to return. *)
Lemma parse_tlv_no_err ty n bs e : parse_tlv ty n bs <> Err e.
Proof.
  unfold parse_tlv, ChassisId.parser, PortId.parser, Ttl.parser, PortDescription.parser,
    SystemName.parser, SystemDescription.parser, SystemCapabilities.parser, ManagementAddress.parser,
    OrganizationSpecific.parser, Reserved.parser, mbind, outcome_bind, fmap, outcome_fmap, mret, outcome_ret.
  intros H. repeat case_match; simplify_eq;
    first [by eapply slice_no_err | by eapply index_no_err].
Qed.

Lemma loop_error fuel payload pos acc e :
  from_bytes_loop fuel payload pos acc = Some (Err e) -> e = WrongLength.
Proof.
  revert pos acc. induction fuel as [|fuel IH]; intros pos acc; [done|]. cbn [from_bytes_loop].
  repeat case_match; intros H'; simplify_eq; try done; [by eapply IH|].
  exfalso. by eapply parse_tlv_no_err.
Qed.

(** ** A frame that starts well: what the decoder does depends on what follows the TLVs *)

Lemma is_lldp_frame macs payload : len macs = 12 -> is_lldp (lldp_frame macs payload) = true.
Proof.
  intros H. unfold is_lldp, lldp_frame. rewrite !length_app. cbn [length].
  destruct (Z.leb_spec ETH_LEN (Z.of_nat (length macs + (2 + length payload)))); [|unfold ETH_LEN in *; lia].
  unfold sub_bytes. rewrite drop_app_length' by lia. reflexivity.
Qed.

Lemma parser_frame macs payload :
  len macs = 12 -> parser (lldp_frame macs payload) = from_bytes payload.
Proof.
  intros H. unfold parser. rewrite is_lldp_frame by done. unfold lldp_frame.
  rewrite drop_app_ge by lia. by replace (14 - length macs)%nat with 2%nat by lia.
Qed.

Lemma parser_encode macs l ts rest :
  len macs = 12 -> Forall2 decodes l ts ->
  exists fuel, (1 + length rest <= fuel)%nat /\
  parser (lldp_frame macs (encode l ++ rest)) =
    from_bytes_loop fuel (encode l ++ rest) (len (encode l)) ts.
Proof. intros. rewrite parser_frame by done. by apply from_bytes_encode. Qed.

Lemma is_lldp_false frame :
  is_lldp frame = false <-> len frame < 14 \/ sub_bytes 12 2 frame <> [Byte.x88; Byte.xcc].
Proof.
  unfold is_lldp, ether_type_eq, ETH_LEN. destruct (Z.leb_spec 14 (len frame)) as [H|]; [|split; auto].
  assert (E : length (sub_bytes 12 2 frame) = 2%nat).
  { unfold sub_bytes. rewrite length_take, length_drop. lia. }
  destruct (sub_bytes 12 2 frame) as [|a [|b [|]]]; try done.
  change (len [a; b] =? ETH_TYPE_LEN) with true. cbn iota.
  change (sub_bytes 0 2 [a; b]) with [a; b]. unfold be_value.
  change LLDP with (le_combine (reverse [Byte.x88; Byte.xcc])). rewrite Z.eqb_neq. split.
  - intros Hne. right. by intros [= -> ->].
  - intros [?|Hne] Heq; [lia|]. apply le_combine_inj in Heq; [|done].
    by apply (inj reverse) in Heq.
Qed.

(** Text is kept: a slice of valid UTF-8 converts to itself. *)
Lemma slice_text pre s a b :
  a = len pre -> b = len pre + len s -> slice (E := ParserError) a b (pre ++ s) = Ok s.
Proof.
  intros -> ->. unfold slice, sub_bytes. rewrite length_app.
  destruct (Z.leb_spec (len pre) (len pre + len s)); [|lia].
  destruct (Z.leb_spec (len pre + len s) (Z.of_nat (length pre + length s))); [|lia]. cbn [andb].
  rewrite drop_app_ge by lia. replace (Z.to_nat (len pre) - length pre)%nat with 0%nat by lia.
  rewrite drop_0, take_ge by lia. done.
Qed.

(** ** The properties *)

(** C6: A frame whose payload is a sequence of TLVs of at most 255 bytes each, with at most a byte
    after them, decodes to the values its TLVs decode to one by one, in order, whatever the frame's
    addresses; and the daemon prints the neighbour with the names, ports and descriptions among
    them. *)
Theorem lldp_decodes_tlvs macs l ts trail :
  len macs = 12 -> Forall2 decodes l ts -> len trail <= 1 ->
  parser (lldp_frame macs (encode l ++ trail)) = Some (Ok ts) /\
  show_frame (lldp_frame macs (encode l ++ trail)) = Some (Neighbor :: (ts ≫= tlv_lines)).
Proof.
  intros Hm Hl Ht. assert (E : parser (lldp_frame macs (encode l ++ trail)) = Some (Ok ts)).
  { destruct (parser_encode macs l ts trail Hm Hl) as (fuel & Hf & ->).
    destruct fuel as [|fuel]; [lia|]. cbn [from_bytes_loop]. rewrite length_app.
    by destruct (Z.ltb_spec (len (encode l) + 1) (Z.of_nat (length (encode l) + length trail))); [lia|]. }
  unfold show_frame. by rewrite E.
Qed.

(** Only TLVs of up to 255 bytes can be received.  The protocol's lengths have nine bits, of
    which the code shifts the highest by nine places instead of eight: a TLV of 256 to 511 bytes
    is taken to be 256 bytes longer, and when fewer bytes than that follow it, as in any frame
    that ends soon after, the whole frame is rejected, with the TLVs before it. *)
Theorem lldp_long_tlv_rejected macs l ts ty v rest :
  len macs = 12 -> Forall2 decodes l ts ->
  0 <= ty < 128 -> 256 <= len v < 512 -> len rest < 256 ->
  parser (lldp_frame macs (encode l ++ encode_tlv ty v ++ rest)) = Some (Err WrongLength) /\
  show_frame (lldp_frame macs (encode l ++ encode_tlv ty v ++ rest)) = Some [].
Proof.
  intros Hm Hl Ht Hv Hr.
  assert (E : parser (lldp_frame macs (encode l ++ encode_tlv ty v ++ rest)) = Some (Err WrongLength)).
  { destruct (parser_encode macs l ts (encode_tlv ty v ++ rest) Hm Hl) as (fuel & Hf & ->).
    destruct fuel as [|fuel]; [lia|]. rewrite loop_step by lia. cbv zeta.
    destruct (Z.ltb_spec (len v) 256); [lia|].
    by destruct (Z.ltb_spec (len v + len rest) (len v + 256)); [|lia]. }
  unfold show_frame. by rewrite E.
Qed.

(** A frame that ends in an empty identifier makes the decoder panic. *)
Lemma empty_id_parser macs l ts ty :
  len macs = 12 -> Forall2 decodes l ts -> ty = 1 \/ ty = 2 ->
  parser (lldp_frame macs (encode l ++ encode_tlv ty [])) = Some Panic.
Proof.
  intros Hm Hl Ht. rewrite <- (app_nil_r (encode_tlv ty [])).
  destruct (parser_encode macs l ts (encode_tlv ty [] ++ []) Hm Hl) as (fuel & Hf & ->).
  destruct fuel as [|fuel]; [lia|]. rewrite loop_step by (cbn; lia). by destruct Ht as [-> | ->].
Qed.

Lemma empty_id_panics macs l ts ty :
  len macs = 12 -> Forall2 decodes l ts -> ty = 1 \/ ty = 2 ->
  show_frame (lldp_frame macs (encode l ++ encode_tlv ty [])) = None.
Proof. intros Hm Hl Ht. unfold show_frame. by rewrite (empty_id_parser macs l ts). Qed.

(** A neighbour can stop the daemon's task of an interface: a frame that ends in a chassis or
    port identifier of length zero makes the decoder panic, reading the subtype. *)
Theorem lldp_empty_id_panics macs l ts ty :
  len macs = 12 -> Forall2 decodes l ts -> ty = 1 \/ ty = 2 ->
  parser (lldp_frame macs (encode l ++ encode_tlv ty [])) = Some Panic /\
  show_frame (lldp_frame macs (encode l ++ encode_tlv ty [])) = None.
Proof. intros Hm Hl Ht. by rewrite (empty_id_parser macs l ts), (empty_id_panics macs l ts). Qed.

(** C32: Decoding any frame ends, and says that it is not LLDP exactly when the frame is too short
    for an Ethernet header or the header has another type. *)
Theorem lldp_parser_total frame :
  exists r, parser frame = Some r /\
  (r = Err NotLLDP <-> len frame < 14 \/ sub_bytes 12 2 frame <> [Byte.x88; Byte.xcc]).
Proof.
  pose proof (is_lldp_false frame) as Hl. unfold parser.
  destruct (is_lldp frame); [|exists (Err NotLLDP); by rewrite <- Hl].
  destruct (loop_total (S (length (drop 14 frame))) (drop 14 frame) 0 []) as [r Hr]; [lia..|].
  exists r. split; [exact Hr|]. rewrite <- Hl. split; [|done]. intros ->. by apply loop_error in Hr.
Qed.

(** What the TLVs carry is what their decoders return: names and descriptions in UTF-8 are
    their text, the time to live is its big-endian number, and a port identifier is its MAC
    address or its local name. *)
Theorem lldp_values s mac n :
  utf8 s = true -> length mac = 6%nat -> 0 <= n < 65536 ->
  parse_tlv 4 (len s) s =
    Ok (Tlv.PortDescription (PortDescription.Mk TlvType.PortDescription (len s) s)) /\
  parse_tlv 5 (len s) s = Ok (Tlv.SystemName (SystemName.Mk TlvType.SystemName (len s) s)) /\
  parse_tlv 6 (len s) s =
    Ok (Tlv.SystemDescription (SystemDescription.Mk TlvType.SystemDescription (len s) s)) /\
  parse_tlv 3 2 (reverse (le_split 2 n)) = Ok (Tlv.Ttl (Ttl.Mk TlvType.Ttl 2 n)) /\
  parse_tlv 2 7 (Byte.x03 :: mac) =
    Ok (Tlv.PortId (PortId.Mk TlvType.PortId 7 PortId.MacAddr (PortId.Mac mac))) /\
  parse_tlv 2 (1 + len s) (Byte.x07 :: s) =
    Ok (Tlv.PortId (PortId.Mk TlvType.PortId (1 + len s) PortId.Local (PortId.Str s))).
Proof.
  intros Hs%from_utf8_lossy_valid Hm Hn.
  assert (Ht : slice (E := ParserError) 0 (len s) s = Ok s) by (apply (slice_text []); done).
  repeat split; cbn -[slice index Z.add].
  - unfold PortDescription.parser. rewrite Ht. cbn. by rewrite Hs.
  - unfold SystemName.parser. rewrite Ht. cbn. by rewrite Hs.
  - unfold SystemDescription.parser. rewrite Ht. cbn. by rewrite Hs.
  - unfold Ttl.parser. rewrite (slice_text [] (reverse (le_split 2 n))) by done. cbn -[le_split].
    unfold be_value. rewrite reverse_involutive, le_combine_split_small by done. done.
  - unfold PortId.parser. cbn -[slice]. rewrite (slice_text [Byte.x03] mac) by (cbn; lia). done.
  - unfold PortId.parser. cbn -[slice Z.add].
    rewrite (slice_text [Byte.x07] s) by (cbn -[Z.add]; lia). cbn -[Z.add]. by rewrite Hs.
Qed.

(** A chassis identifier that is a MAC address decodes to other octets than a port identifier
    with the same address does: the subtype byte, 4, and the first five octets of the address. *)
Theorem lldp_chassis_mac mac :
  length mac = 6%nat ->
  parse_tlv 1 7 (Byte.x04 :: mac) =
    Ok (Tlv.ChassisId (ChassisId.Mk TlvType.ChassisId 7 ChassisId.MacAddr
          (ChassisId.Mac (Byte.x04 :: take 5 mac)))).
Proof.
  intros Hm. destruct mac as [|a [|b [|c [|d [|e [|f [|]]]]]]]; try done.
Qed.

(** ** Witnesses: a switch's frame *)

Definition sample_macs : list byte := byte.of_Z <$> [0x01; 0x80; 0xc2; 0; 0; 0x0e; 0; 0x1b; 0x21; 0xaa; 0xbb; 0xcc].
Definition sample_port : list byte := byte.of_Z <$> [0x65; 0x74; 0x68; 0x30].
Definition sample_name : list byte := byte.of_Z <$> [0x73; 0x77; 0xc3; 0xa9; 0x31].
Definition sample_tlvs : list (Z * list byte) :=
  [(1, Byte.x04 :: sub_bytes 6 6 sample_macs); (2, Byte.x05 :: sample_port);
   (3, [Byte.x00; Byte.x78]); (5, sample_name); (0, [])].
Definition sample_values : list Tlv.t :=
  [Tlv.ChassisId (ChassisId.Mk TlvType.ChassisId 7 ChassisId.MacAddr
     (ChassisId.Mac (Byte.x04 :: sub_bytes 6 5 sample_macs)));
   Tlv.PortId (PortId.Mk TlvType.PortId 5 PortId.InterfaceName (PortId.Str sample_port));
   Tlv.Ttl (Ttl.Mk TlvType.Ttl 2 120);
   Tlv.SystemName (SystemName.Mk TlvType.SystemName 5 sample_name);
   Tlv.EndOfPdu EndOfPdu.new].

Lemma sample_decodes : Forall2 decodes sample_tlvs sample_values.
Proof. repeat apply Forall2_cons_2; try apply Forall2_nil_2; (split; [done|]; split; done). Qed.

Lemma lldp_decodes_tlvs_witness :
  show_frame (lldp_frame sample_macs (encode sample_tlvs ++ [])) =
    Some [Neighbor; PortLine TlvType.PortId (PortId.Str sample_port); NameLine TlvType.SystemName sample_name].
Proof.
  by apply (lldp_decodes_tlvs sample_macs sample_tlvs sample_values [] eq_refl sample_decodes).
Defined.

Lemma lldp_long_tlv_rejected_witness :
  show_frame (lldp_frame sample_macs (encode sample_tlvs ++ encode_tlv 6 (zeros 300) ++ [Byte.x00; Byte.x00])) =
    Some [].
Proof.
  by apply (lldp_long_tlv_rejected sample_macs sample_tlvs sample_values 6 (zeros 300)
              [Byte.x00; Byte.x00] eq_refl sample_decodes).
Defined.

Lemma lldp_empty_id_panics_witness :
  show_frame (lldp_frame sample_macs (encode sample_tlvs ++ encode_tlv 1 [])) = None.
Proof.
  by apply (lldp_empty_id_panics sample_macs sample_tlvs sample_values 1 eq_refl sample_decodes); left.
Defined.

Lemma lldp_values_witness :
  utf8 sample_name = true /\
  parse_tlv 5 5 sample_name = Ok (Tlv.SystemName (SystemName.Mk TlvType.SystemName 5 sample_name)).
Proof. split; [done|]. by apply (lldp_values sample_name (sub_bytes 6 6 sample_macs) 120). Defined.

Lemma lldp_chassis_mac_witness :
  parse_tlv 1 7 (Byte.x04 :: sub_bytes 6 6 sample_macs) =
    Ok (Tlv.ChassisId (ChassisId.Mk TlvType.ChassisId 7 ChassisId.MacAddr
          (ChassisId.Mac (Byte.x04 :: sub_bytes 6 5 sample_macs)))).
Proof. by apply (lldp_chassis_mac (sub_bytes 6 6 sample_macs)). Defined.
