(* ===== verification/LldpDaemon.v ===== *)
(** * The LLDP daemon: its interfaces and tasks

    src/network/lldp/src/main.rs: the daemon looks up the physical interfaces and spawns a task for
    each, which prints the neighbours it receives frames from.  The tasks run on the worker threads
    of the runtime and print one line at a time. *)

From Stdlib Require Import String.
From S2P Require Import Prelude RustStd RustStr Trace Lldp.

(** ** [get_physical_nics] *)

(** An entry of [/sys/class/net]: its name, and the target of the link it is. *)
Record net_entry := NetEntry { file_name : list byte; link : option (list byte) }.

Definition scan_entry (e : option net_entry) : run (list (list byte)) :=
  entry ← unwrap e;
  match link entry with
  | Some path =>
      if negb (path_starts_with path (lit "../../devices/virtual/")) then
        name ← (if utf8 (file_name entry) then mret (file_name entry) else Panic);
        mret [name]
      else mret []
  | None => mret []
  end.

Definition get_physical_nics (dir : option (list (option net_entry))) : run (list (list byte)) :=
  match dir with
  | Some entries => nics ← collect scan_entry entries; mret (@concat (list byte) nics)
  | None => mret []
  end.

(** ** The tasks *)

Inductive out :=
| Established (name : list byte)
| NeighborOf (name : list byte)
| TlvLine (l : line)
| ReceiveFailed.

Definition out_of (name : list byte) (l : line) : out :=
  match l with Neighbor => NeighborOf name | _ => TlvLine l end.

(** A task waits for a thread, runs with the lines it has still to print, or has panicked. *)
Inductive task_state := Queued | Capturing (pending : list out) | Panicked.
Record task := Task { t_name : list byte; t_state : task_state }.

(** [main]: the interfaces it has still to spawn a task for, the task it awaits, or its end. *)
Inductive main_state := Spawning (nics : list (list byte)) | Awaiting (i : nat) | Ended | MainPanicked.

(** The screen; the task that printed a line is only known to the model. *)
Record daemon := Daemon
  { d_main : main_state; d_tasks : list task; d_screen : list (nat * out) }.

Definition start (nics : list (list byte)) : daemon := Daemon (Spawning nics) [] [].

(** Turns: [main] spawns the next task, given the interfaces of [datalink::interfaces], or awaits;
    a thread takes up a task, whose channel opens or not; a task receives a frame or an error, or
    prints a line. *)
Inductive label :=
| Spawn (interfaces : list (list byte))
| Await
| Start (i : nat) (opened : bool)
| Next (i : nat) (frame : option (list byte))
| Print (i : nat).

Definition set_task (i : nat) (st : task_state) (s : daemon) : daemon :=
  Daemon (d_main s) (alter (fun t => Task (t_name t) st) i (d_tasks s)) (d_screen s).
Definition show (i : nat) (o : out) (s : daemon) : daemon :=
  Daemon (d_main s) (d_tasks s) (d_screen s ++ [(i, o)]).

Definition running (t : task) : bool := match t_state t with Capturing _ => true | _ => false end.

(** What a received frame gives to print; [None] is a panic. *)
Definition receive (name : list byte) (frame : option (list byte)) : option (list out) :=
  match frame with
  | Some frame => fmap (M := list) (out_of name) <$> show_frame frame
  | None => Some [ReceiveFailed]
  end.

(** [workers] threads run the tasks; a task never yields its thread, since [rx.next()] blocks it.
    When [main] has ended the runtime starts no other task, and waits for those that run. *)
Definition step (workers : nat) (l : label) (s : daemon) : option daemon :=
  match l with
  | Spawn interfaces =>
      match d_main s with
      | Spawning (name :: nics) =>
          if bool_decide (name ∈ interfaces)
          then Some (Daemon (Spawning nics) (d_tasks s ++ [Task name Queued]) (d_screen s))
          else Some (Daemon MainPanicked (d_tasks s) (d_screen s))
      | _ => None
      end
  | Await =>
      match d_main s with
      | Spawning [] => Some (Daemon (Awaiting 0) (d_tasks s) (d_screen s))
      | Awaiting i =>
          match t_state <$> d_tasks s !! i with
          | None | Some Panicked => Some (Daemon Ended (d_tasks s) (d_screen s))
          | _ => None
          end
      | _ => None
      end
  | Start i opened =>
      match d_main s, d_tasks s !! i with
      | Spawning _, Some (Task name Queued) | Awaiting _, Some (Task name Queued) =>
          if (length (base.filter running (d_tasks s)) <? workers)%nat then
            if opened : bool then Some (set_task i (Capturing [Established name]) s)
            else Some (set_task i Panicked s)
          else None
      | _, _ => None
      end
  | Next i frame =>
      match d_tasks s !! i with
      | Some (Task name (Capturing [])) =>
          match receive name frame with
          | Some lines => Some (set_task i (Capturing lines) s)
          | None => Some (set_task i Panicked s)
          end
      | _ => None
      end
  | Print i =>
      match d_tasks s !! i with
      | Some (Task name (Capturing (o :: pending))) => Some (show i o (set_task i (Capturing pending) s))
      | _ => None
      end
  end.

(** What can be seen. *)
Definition screen (s : daemon) : list out := snd <$> d_screen s.
