(* ===== verification/LldpDaemonTheorems.v ===== *)
(** * The LLDP daemon: properties of its tasks

    What the tasks print is what the frames they received decode to; but one bad frame ends the
    capture on its interface, tasks beyond the number of threads never start, and the lines of two
    interfaces can mix. *)

From Stdlib Require Import String.
From S2P Require Import Prelude RustStd RustStr Trace Lldp LldpTheorems LldpDaemon.

(** ** What the turns of a run give to the task [i] *)

Definition lines_of (i : nat) (s : daemon) : list out :=
  omap (fun p : nat * out => if bool_decide (p.1 = i) then Some p.2 else None) (d_screen s).
Definition pending (st : task_state) : list out := match st with Capturing p => p | _ => [] end.
Definition pending_of (i : nat) (s : daemon) : list out :=
  default [] ((fun t => pending (t_state t)) <$> d_tasks s !! i).

Definition received (i : nat) (ls : list label) : list (option (list byte)) :=
  omap (fun l => match l with Next j f => if bool_decide (j = i) then Some f else None | _ => None end) ls.
Definition is_open (i : nat) (ls : list label) : bool :=
  existsb (fun l => match l with Start j true => bool_decide (j = i) | _ => false end) ls.

(** What a frame should print: nothing when it is no LLDP, or makes the decoder panic. *)
Definition frame_lines (name : list byte) (f : option (list byte)) : list out := default [] (receive name f).
Definition task_lines (i : nat) (name : list byte) (ls : list label) : list out :=
  if is_open i ls then Established name :: (received i ls ≫= frame_lines name) else [].

(** ** Turns *)

Lemma lines_of_show i j o s :
  lines_of i (show j o s) = lines_of i s ++ (if bool_decide (j = i) then [o] else []).
Proof. unfold lines_of, show. cbn. rewrite omap_app. cbn. by case_bool_decide. Qed.

Lemma received_snoc i ls l :
  received i (ls ++ [l]) = received i ls ++ match l with
    | Next j f => if bool_decide (j = i) then [f] else [] | _ => [] end.
Proof. unfold received. rewrite omap_app. cbn. destruct l; try done. by case_bool_decide. Qed.

Lemma is_open_snoc i ls l :
  is_open i (ls ++ [l]) = is_open i ls || match l with Start j true => bool_decide (j = i) | _ => false end.
Proof. unfold is_open. rewrite existsb_app. cbn. by rewrite orb_false_r. Qed.

Lemma lookup_set_task i st s j t :
  d_tasks s !! i = Some t ->
  d_tasks (set_task i st s) !! j = if bool_decide (i = j) then Some (Task (t_name t) st) else d_tasks s !! j.
Proof.
  intros Hi. unfold set_task. cbn [d_tasks]. case_bool_decide as Hij; [|by apply list_lookup_alter_ne].
  subst j. by rewrite list_lookup_alter_eq, Hi.
Qed.

(** The state of a task and its trace. *)
Definition task_ok (i : nat) (ls : list label) (s : daemon) : Prop :=
  match d_tasks s !! i with
  | None => lines_of i s = [] /\ received i ls = [] /\ is_open i ls = false
  | Some t =>
      lines_of i s ++ pending (t_state t) = task_lines i (t_name t) ls /\
      match t_state t with
      | Queued => received i ls = [] /\ is_open i ls = false
      | Capturing _ => is_open i ls = true
      | Panicked => True
      end
  end.

Lemma step_task_ok workers i ls l s s' :
  task_ok i ls s -> step workers l s = Some s' -> task_ok i (ls ++ [l]) s'.
Proof.
  unfold task_ok, task_lines. rewrite received_snoc, is_open_snoc. intros Hok Hst.
  destruct l as [ifs| |j op|j f|j]; cbn -[Nat.ltb] in Hst; rewrite ?orb_false_r, ?app_nil_r.
  - destruct (d_main s) as [[|n nics]| | |]; try done. case_bool_decide; injection Hst as <-; [|done].
    cbn. destruct (decide (i = length (d_tasks s))) as [->|Hne].
    + rewrite lookup_ge_None_2 in Hok by done. destruct Hok as (Hl & Hr & ->).
      rewrite list_lookup_middle by done. cbn. unfold lines_of in *. cbn. by rewrite Hl.
    + assert (Hs : (d_tasks s ++ [Task n Queued]) !! i = d_tasks s !! i).
      { destruct (decide (i < length (d_tasks s))%nat); [by apply lookup_app_l|].
        rewrite !lookup_ge_None_2; [done|lia|]. rewrite length_app. cbn. lia. }
      by rewrite Hs.
  - assert (Hs : d_tasks s' = d_tasks s /\ d_screen s' = d_screen s).
    { destruct (d_main s) as [[|]|k| |]; try done; [|destruct (t_state <$> d_tasks s !! k) as [[]|]];
        by simplify_eq. }
    destruct Hs as [Ht Hs]. unfold lines_of. by rewrite Ht, Hs.
  - destruct (d_tasks s !! j) as [[n [| |]]|] eqn:Ej; [|by destruct (d_main s)..].
    assert (Hs : s' = set_task j (if op then Capturing [Established n] else Panicked) s).
    { destruct (d_main s); try done; (case_match; [|done]); by destruct op; injection Hst as <-. }
    subst s'. rewrite (lookup_set_task _ _ _ _ _ Ej). cbn [t_name].
    change (lines_of i (set_task j ?st s)) with (lines_of i s).
    destruct (bool_decide_reflect (j = i)) as [->|Hne]; [|by destruct op; rewrite ?orb_false_r].
    rewrite Ej in Hok. cbn in Hok. destruct Hok as (Hl & Hr & Ho). rewrite Ho, Hr, app_nil_r in *.
    destruct op; cbn; by rewrite Hl.
  - destruct (d_tasks s !! j) as [[n [|[|]|]]|] eqn:Ej; try done.
    assert (Hs : exists st, s' = set_task j st s /\ pending st = frame_lines n f /\ st <> Queued).
    { unfold frame_lines. destruct (receive n f); injection Hst as <-; by eexists. }
    destruct Hs as (st & -> & Hp & Hst'). rewrite (lookup_set_task _ _ _ _ _ Ej). cbn [t_name].
    change (lines_of i (set_task j st s)) with (lines_of i s).
    destruct (bool_decide_reflect (j = i)) as [->|Hne]; [|by rewrite app_nil_r].
    rewrite Ej in Hok. cbn in Hok. destruct Hok as (Hl & Ho). rewrite Ho, app_nil_r in *. cbn [t_state].
    split; [|by destruct st]. rewrite Hl, Hp, bind_app. cbn. by rewrite app_nil_r.
  - destruct (d_tasks s !! j) as [[n [|[|o p]|]]|] eqn:Ej; try done. injection Hst as <-.
    rewrite lines_of_show. change (d_tasks (show j o ?s)) with (d_tasks s).
    rewrite (lookup_set_task _ _ _ _ _ Ej). cbn [t_name].
    change (lines_of i (set_task j (Capturing p) s)) with (lines_of i s).
    destruct (bool_decide_reflect (j = i)) as [->|Hne]; [|by rewrite app_nil_r].
    rewrite Ej in Hok. cbn in *. by rewrite <- (assoc_L (++)).
Qed.

Lemma exec_task_ok workers nics ls s i : exec (step workers) ls (start nics) = Some s -> task_ok i ls s.
Proof.
  apply (exec_ind (step workers) (task_ok i)); [done|]. intros ls' l s1 s2 _ Hok Hst.
  by apply (step_task_ok workers _ _ _ s1).
Qed.

(** The tasks are those of the interfaces, in order. *)
Definition spawned (nics : list (list byte)) (s : daemon) : Prop :=
  exists rest, nics = (t_name <$> d_tasks s) ++ rest /\ forall r, d_main s = Spawning r -> r = rest.

Lemma set_task_names i st s : t_name <$> d_tasks (set_task i st s) = t_name <$> d_tasks s.
Proof.
  apply list_eq. intros j. unfold set_task. cbn [d_tasks]. rewrite !list_lookup_fmap, list_lookup_alter.
  case_decide; [subst j|done]. by destruct (d_tasks s !! i).
Qed.

(** Only [main] changes the list of tasks. *)
Lemma step_names workers l s s' :
  step workers l s = Some s' ->
  (exists ifs, l = Spawn ifs) \/
  (t_name <$> d_tasks s' = t_name <$> d_tasks s /\ forall r, d_main s' = Spawning r -> d_main s = Spawning r).
Proof.
  destruct l as [ifs| |j op|j f|j]; cbn -[Nat.ltb]; intros Hst; [left; by eexists|right..].
  - destruct (d_main s) as [[|]|k| |]; try done; [|destruct (t_state <$> d_tasks s !! k) as [[]|]];
      by simplify_eq/=.
  - destruct (d_tasks s !! j) as [[n [| |]]|]; [|by destruct (d_main s)..].
    destruct (d_main s) eqn:Em; try done; (case_match; [|done]); destruct op; injection Hst as <-;
      rewrite set_task_names; cbn; by rewrite Em.
  - destruct (d_tasks s !! j) as [[n [|[|]|]]|]; try done.
    destruct (receive n f); injection Hst as <-; by rewrite set_task_names.
  - destruct (d_tasks s !! j) as [[n [|[|o p]|]]|]; try done. injection Hst as <-.
    split; [exact (set_task_names j (Capturing p) s)|done].
Qed.

Lemma exec_spawned workers nics ls s : exec (step workers) ls (start nics) = Some s -> spawned nics s.
Proof.
  apply exec_inv; [|exists nics; split; [done|]; intros r [= ->]; done].
  intros l s1 s2 (rest & -> & Hr) Hst.
  destruct (step_names _ _ _ _ Hst) as [[ifs ->]|[Hn Hm]].
  - cbn in Hst. destruct (d_main s1) as [[|n r]| | |]; try done. specialize (Hr _ eq_refl). subst rest.
    case_bool_decide; injection Hst as <-; [exists r|by exists (n :: r)].
    cbn. rewrite fmap_app, <- (assoc_L (++)). split; [done|]. congruence.
  - exists rest. rewrite Hn. split; [done|]. intros r H. by apply Hr, Hm.
Qed.

(** ** The neighbours shown *)

(** C11: whatever order the tasks run in, what the task of an interface has printed, with what it is
    about to print, is that its channel is open, and then, frame by frame, what the frames received
    on that interface decode to: no neighbour is lost, repeated or reordered. *)
Theorem neighbours_shown workers nics ls s i name :
  exec (step workers) ls (start nics) = Some s -> nics !! i = Some name ->
  lines_of i s ++ pending_of i s =
    if is_open i ls then Established name :: (received i ls ≫= frame_lines name) else [].
Proof.
  intros H Hn. pose proof (exec_task_ok _ _ _ _ i H) as Hok. destruct (exec_spawned _ _ _ _ H) as (rest & -> & _).
  unfold task_ok, pending_of in *. destruct (d_tasks s !! i) as [t|] eqn:Et.
  - destruct Hok as [Hl _]. cbn. rewrite Hl. unfold task_lines.
    rewrite lookup_app_l, list_lookup_fmap, Et in Hn by (rewrite length_fmap; by eapply lookup_lt_Some).
    by injection Hn as <-.
  - destruct Hok as (-> & _ & ->). done.
Qed.

(** ** A frame that ends the capture *)

Lemma panicked_stays workers i n ls s s' :
  d_tasks s !! i = Some (Task n Panicked) -> exec (step workers) ls s = Some s' ->
  d_tasks s' !! i = Some (Task n Panicked) /\ lines_of i s' = lines_of i s /\ received i ls = [].
Proof.
  intros Hs. apply (exec_ind (step workers) (fun ls s' =>
    d_tasks s' !! i = Some (Task n Panicked) /\ lines_of i s' = lines_of i s /\ received i ls = [])); [done|].
  intros ls' l s1 s2 _ (Ht & Hl & Hr) Hst. rewrite received_snoc, Hr, <- Hl.
  destruct l as [ifs| |j op|j f|j]; cbn -[Nat.ltb] in Hst.
  - destruct (d_main s1) as [[|]| | |]; try done. case_bool_decide; injection Hst as <-; [|done]. cbn.
    by rewrite lookup_app_l by (by eapply lookup_lt_Some).
  - destruct (d_main s1) as [[|]|k| |]; try done; [|destruct (t_state <$> d_tasks s1 !! k) as [[]|]];
      by simplify_eq/=.
  - destruct (decide (j = i)) as [->|Hne]; [rewrite Ht in Hst; by destruct (d_main s1)|].
    destruct (d_tasks s1 !! j) as [[m [| |]]|] eqn:Ej; [|by destruct (d_main s1)..].
    destruct (d_main s1); try done; (case_match; [|done]); destruct op; injection Hst as <-;
      rewrite (lookup_set_task _ _ _ _ _ Ej), bool_decide_eq_false_2 by done; done.
  - destruct (decide (j = i)) as [->|Hne]; [by rewrite Ht in Hst|].
    destruct (d_tasks s1 !! j) as [[m [|[|]|]]|] eqn:Ej; try done. rewrite bool_decide_eq_false_2 by done.
    destruct (receive m f); injection Hst as <-;
      rewrite (lookup_set_task _ _ _ _ _ Ej), bool_decide_eq_false_2 by done; done.
  - destruct (decide (j = i)) as [->|Hne]; [by rewrite Ht in Hst|].
    destruct (d_tasks s1 !! j) as [[m [|[|o p]|]]|] eqn:Ej; try done. injection Hst as <-.
    rewrite lines_of_show, bool_decide_eq_false_2, app_nil_r by done.
    change (d_tasks (show j o ?x)) with (d_tasks x).
    by rewrite (lookup_set_task _ _ _ _ _ Ej), bool_decide_eq_false_2 by done.
Qed.

(** C15: any neighbour can end the capture on the interface it is connected to: after a frame that
    ends in a chassis or port identifier of length zero, that frame and whatever is sent later is
    never shown, in any continuation of the run. *)
Theorem bad_frame_ends_capture workers i s s1 s2 ls macs l ts ty :
  len macs = 12 -> Forall2 decodes l ts -> ty = 1 \/ ty = 2 ->
  step workers (Next i (Some (lldp_frame macs (encode l ++ encode_tlv ty [])))) s = Some s1 ->
  exec (step workers) ls s1 = Some s2 ->
  lines_of i s2 = lines_of i s /\ received i ls = [] /\
  t_state <$> d_tasks s2 !! i = Some Panicked.
Proof.
  intros Hm Hl Ht Hst Hex. cbn [step] in Hst.
  destruct (d_tasks s !! i) as [[n [|[|]|]]|] eqn:Ei; try done. cbn [receive] in Hst.
  rewrite (empty_id_panics macs l ts ty Hm Hl Ht) in Hst. cbn in Hst. injection Hst as <-.
  destruct (panicked_stays workers i n ls (set_task i Panicked s) s2) as (Ht2 & Hl2 & Hr2); [|done|].
  - by rewrite (lookup_set_task _ _ _ _ _ Ei), bool_decide_eq_true_2.
  - by rewrite Ht2.
Qed.

(** ** Threads *)

Definition occupied (s : daemon) : nat := length (base.filter running (d_tasks s)).

Lemma occupied_set i st s t :
  d_tasks s !! i = Some t ->
  (occupied (set_task i st s) + (if running t then 1 else 0) =
   occupied s + (if running (Task (t_name t) st) then 1 else 0))%nat.
Proof.
  intros Hi. unfold occupied, set_task. cbn [d_tasks].
  replace (alter _ i (d_tasks s)) with (<[i := Task (t_name t) st]> (d_tasks s)).
  - rewrite <- (take_drop_middle (d_tasks s) i t Hi) at 2.
    rewrite insert_take_drop by (by eapply lookup_lt_Some).
    rewrite !filter_app, !filter_cons, !length_app.
    destruct (running t) eqn:E1, (running (Task (t_name t) st)) eqn:E2; repeat case_decide; cbn; try done; lia.
  - apply list_eq. intros j. rewrite list_lookup_alter. case_decide as Hj; [subst j|by apply list_lookup_insert_ne].
    rewrite list_lookup_insert_eq by (by eapply lookup_lt_Some). by rewrite Hi.
Qed.

Lemma step_occupied workers l s s' :
  (occupied s <= workers)%nat -> step workers l s = Some s' -> (occupied s' <= workers)%nat.
Proof.
  intros Ho Hst. destruct l as [ifs| |j op|j f|j]; cbn -[Nat.ltb] in Hst.
  - destruct (d_main s) as [[|]| | |]; try done. case_bool_decide; injection Hst as <-; [|done].
    unfold occupied in *. cbn. by rewrite filter_app, length_app, Nat.add_0_r.
  - destruct (d_main s) as [[|]|k| |]; try done; [|destruct (t_state <$> d_tasks s !! k) as [[]|]];
      by simplify_eq/=.
  - destruct (d_tasks s !! j) as [[n [| |]]|] eqn:Ej; [|by destruct (d_main s)..].
    pose proof (occupied_set j (if op then Capturing [Established n] else Panicked) s _ Ej) as Hs.
    change (length (base.filter (fun t => running t) (d_tasks s))) with (occupied s) in Hst.
    destruct (d_main s); try done; (destruct (Nat.ltb_spec (occupied s) workers); [|done]);
      destruct op; injection Hst as <-; cbn [running t_state t_name] in Hs; lia.
  - destruct (d_tasks s !! j) as [[n [|[|]|]]|] eqn:Ej; try done.
    destruct (receive n f) as [lines|]; injection Hst as <-.
    + pose proof (occupied_set j (Capturing lines) s _ Ej) as Hs. cbn [running t_state t_name] in Hs. lia.
    + pose proof (occupied_set j Panicked s _ Ej) as Hs. cbn [running t_state t_name] in Hs. lia.
  - destruct (d_tasks s !! j) as [[n [|[|o p]|]]|] eqn:Ej; try done. injection Hst as <-.
    pose proof (occupied_set j (Capturing p) s _ Ej) as Hs. cbn [running t_state t_name] in Hs.
    change (occupied (show j o ?x)) with (occupied x). lia.
Qed.

(** The positions of the elements with a property are as many as these elements. *)
Lemma positions_filter {A} (P : A -> bool) (l : list A) (js : list nat) :
  NoDup js -> Forall (fun j => exists a, l !! j = Some a /\ P a = true) js ->
  (length js <= length (base.filter P l))%nat.
Proof.
  revert js. induction l as [|a l IH]; intros js Hd Hj.
  - destruct js as [|j js]; [done|]. by apply Forall_inv in Hj as (? & ? & _).
  - set (js' := Nat.pred <$> base.filter (fun j => j <> 0%nat) js).
    assert (Hl : (length js <= length js' + (if P a then 1 else 0))%nat).
    { unfold js'. rewrite length_fmap. clear IH js'. induction Hd as [|j js Hj' Hd IH]; [cbn; lia|].
      apply Forall_cons in Hj as [Hj Hjs]. specialize (IH Hjs). rewrite filter_cons.
      case_decide as H0; [cbn; lia|]. assert (j = 0%nat) as -> by lia. destruct Hj as (b & [= <-] & Hb). rewrite Hb in *.
      assert (Hf : base.filter (fun j => j <> 0%nat) js = js).
      { clear -Hj'. induction js as [|j js IH]; [done|]. apply not_elem_of_cons in Hj' as [Hj Hjs].
        rewrite filter_cons, decide_True by done. f_equal. by apply IH. }
      rewrite Hf. cbn. lia. }
    assert (Hr : (length js' <= length (base.filter P l))%nat).
    { apply IH.
      - apply NoDup_fmap_2_strong; [|by apply NoDup_filter].
        intros x y [Hx _]%list_elem_of_filter [Hy _]%list_elem_of_filter. lia.
      - apply Forall_fmap, Forall_forall. intros j [Hj0 Hin]%list_elem_of_filter.
        rewrite Forall_forall in Hj. destruct (Hj j Hin) as (b & Hb & HP). exists b. by destruct j. }
    rewrite filter_cons. destruct (P a); case_decide as HP; cbn; try done; try lia.
Qed.

(** C16: the runtime has a number of threads, and a task that captures never gives its thread back:
    while no task panics, no more interfaces than there are threads are ever heard of, in any run,
    however many interfaces have neighbours. *)
Theorem lldp_interfaces_starve workers nics ls s :
  exec (step workers) ls (start nics) = Some s ->
  Forall (fun t => t_state t <> Panicked) (d_tasks s) ->
  (length (remove_dups (fst <$> d_screen s)) <= workers)%nat.
Proof.
  intros H Hp. transitivity (occupied s).
  - apply positions_filter; [apply NoDup_remove_dups|]. apply Forall_forall. intros i Hi. rewrite elem_of_remove_dups in Hi.
    pose proof (exec_task_ok _ _ _ _ i H) as Hok. unfold task_ok in Hok.
    assert (Hl : lines_of i s <> []).
    { apply list_elem_of_fmap in Hi as ([j o] & -> & Hin). cbn in *. intros Hnil.
      assert (Ho : o ∈ lines_of j s).
      { apply list_elem_of_omap. exists (j, o). cbn. by rewrite bool_decide_eq_true_2. }
      rewrite Hnil in Ho. by apply not_elem_of_nil in Ho. }
    destruct (d_tasks s !! i) as [[n st]|] eqn:Et; [|by destruct Hok]. exists (Task n st). split; [done|].
    apply Forall_lookup_1 with (1 := Hp) in Et. destruct st; [|done..]. exfalso. apply Hl. cbn in Hok.
    destruct Hok as (Hl' & Hr & Ho). unfold task_lines in Hl'. by rewrite Ho, app_nil_r in Hl'.
  - revert H. apply (exec_inv (step workers) (fun s => (occupied s <= workers)%nat)); [|cbn; lia]. intros l s1 s2. apply step_occupied.
Qed.

(** ** Lines of two interfaces *)

Section Mixed.
Context (workers : nat) (WORKERS : (2 <= workers)%nat) (n1 n2 : list byte).

(** Two tasks with what they have still to print. *)
Definition two (p1 p2 : list out) (scr : list (nat * out)) : daemon :=
  Daemon (Spawning []) [Task n1 (Capturing p1); Task n2 (Capturing p2)] scr.

Lemma print_first p p2 : forall scr,
  exec (step workers) (repeat (Print 0) (length p)) (two p p2 scr) = Some (two [] p2 (scr ++ ((0%nat,.) <$> p))).
Proof.
  induction p as [|o p IH]; intros scr; [by rewrite app_nil_r|]. cbn [length repeat exec step].
  cbn [mbind option_bind d_tasks two lookup list_lookup].
  change (show 0 o (set_task 0 (Capturing p) (two (o :: p) p2 scr))) with (two p p2 (scr ++ [(0%nat, o)])).
  rewrite IH.
  by rewrite <- (assoc_L (++)).
Qed.

Lemma print_second p p1 : forall scr,
  exec (step workers) (repeat (Print 1) (length p)) (two p1 p scr) = Some (two p1 [] (scr ++ ((1%nat,.) <$> p))).
Proof.
  induction p as [|o p IH]; intros scr; [by rewrite app_nil_r|]. cbn [length repeat exec step].
  cbn [mbind option_bind d_tasks two lookup list_lookup].
  change (show 1 o (set_task 1 (Capturing p) (two p1 (o :: p) scr))) with (two p1 p (scr ++ [(1%nat, o)])).
  rewrite IH.
  by rewrite <- (assoc_L (++)).
Qed.

(** Both interfaces are opened. *)
Definition opening : list label :=
  [Spawn [n1; n2]; Spawn [n1; n2]; Start 0 true; Start 1 true; Print 0; Print 1].
Definition opened : list (nat * out) := [(0%nat, Established n1); (1%nat, Established n2)].

Lemma exec_opening : exec (step workers) opening (start [n1; n2]) = Some (two [] [] opened).
Proof.
  destruct workers as [|[|w]]; [lia..|]. unfold opening, start. cbn.
  rewrite bool_decide_eq_true_2 by set_solver. cbn. rewrite bool_decide_eq_true_2 by set_solver. done.
Qed.

(** Each interface receives one frame, and each task prints its first line before the rest. *)
Lemma exec_pair f g a p b q scr :
  receive n1 (Some f) = Some (a :: p) -> receive n2 (Some g) = Some (b :: q) ->
  exec (step workers) [Next 0 (Some f); Next 1 (Some g); Print 0; Print 1] (two [] [] scr)
  = Some (two p q (scr ++ [(0%nat, a); (1%nat, b)])).
Proof.
  intros Hf Hg. cbn [exec step d_tasks two lookup list_lookup]. rewrite Hf. cbn [mbind option_bind].
  change (set_task 0 (Capturing (a :: p)) (two [] [] scr)) with (two (a :: p) [] scr).
  cbn [exec step d_tasks two lookup list_lookup]. rewrite Hg. cbn. unfold show, set_task. cbn. unfold two. by rewrite <- (assoc_L (++)).
Qed.

(** The lines of a neighbour do not name the interface, and the tasks print them one by one: two
    runs in which two interfaces have swapped neighbours can have the same screen. *)
Theorem neighbours_mixed f g t u :
  show_frame f = Some (Neighbor :: t) -> show_frame g = Some (Neighbor :: u) ->
  Forall (fun l => l <> Neighbor) t -> Forall (fun l => l <> Neighbor) u ->
  exists ls ls' s s',
    exec (step workers) ls (start [n1; n2]) = Some s /\
    received 0 ls = [Some f] /\ received 1 ls = [Some g] /\
    exec (step workers) ls' (start [n1; n2]) = Some s' /\
    received 0 ls' = [Some g] /\ received 1 ls' = [Some f] /\
    screen s = screen s'.
Proof.
  intros Hf Hg Ht Hu.
  assert (Hout : forall name l, Forall (fun l => l <> Neighbor) l -> out_of name <$> l = TlvLine <$> l).
  { intros name l. induction 1 as [|x l Hx _ IH]; [done|]. cbn. rewrite IH. by destruct x. }
  assert (Hr : forall name h v, show_frame h = Some (Neighbor :: v) -> Forall (fun l => l <> Neighbor) v ->
    receive name (Some h) = Some (NeighborOf name :: (TlvLine <$> v))).
  { intros name h v Hh Hv. cbn. rewrite Hh. cbn. by rewrite Hout. }
  assert (Hn : forall i j n, received i (repeat (Print j) n) = []) by (intros i j n; by induction n).
  assert (Hrec : forall i h k rest, received i rest = [] ->
    received i (opening ++ [Next 0 (Some h); Next 1 (Some k); Print 0; Print 1] ++ rest)
    = match i with 0%nat => [Some h] | 1%nat => [Some k] | _ => [] end).
  { intros i h k rest Hi. unfold received in *. rewrite !omap_app, Hi. by destruct i as [|[|i]]. }
  exists (opening ++ [Next 0 (Some f); Next 1 (Some g); Print 0; Print 1] ++
     repeat (Print 0) (length (TlvLine <$> t)) ++ repeat (Print 1) (length (TlvLine <$> u))),
    (opening ++ [Next 0 (Some g); Next 1 (Some f); Print 0; Print 1] ++
     repeat (Print 1) (length (TlvLine <$> t)) ++ repeat (Print 0) (length (TlvLine <$> u))).
  eexists _, _. split_and!.
  - eapply exec_app_Some; [apply exec_opening|]. eapply exec_app_Some; [by apply exec_pair; apply Hr|].
    eapply exec_app_Some; [apply print_first|apply print_second].
  - apply Hrec. unfold received in *. by rewrite omap_app, !Hn.
  - apply Hrec. unfold received in *. by rewrite omap_app, !Hn.
  - eapply exec_app_Some; [apply exec_opening|]. eapply exec_app_Some; [by apply exec_pair; apply Hr|].
    eapply exec_app_Some; [apply print_second|apply print_first].
  - apply Hrec. unfold received in *. by rewrite omap_app, !Hn.
  - apply Hrec. unfold received in *. by rewrite omap_app, !Hn.
  - unfold screen. cbn [d_screen two]. rewrite !fmap_app, <- !list_fmap_compose. done.
Qed.
End Mixed.

(** ** Instances *)

Definition eth (n : Z) : list byte := lit "eth" ++ decimal n.
Definition sample_frame : list byte := lldp_frame sample_macs (encode sample_tlvs).
Definition short_frame : list byte := lldp_frame sample_macs (encode [(5, sample_name)]).
Definition bad_frame : list byte := lldp_frame sample_macs (encode sample_tlvs ++ encode_tlv 2 []).

(** Two interfaces; the first receives a frame of which one line is printed, the second an error. *)
Definition sample_run : list label :=
  opening (eth 0) (eth 1) ++ [Next 0 (Some sample_frame); Next 1 None; Print 0; Print 1].

Lemma neighbours_shown_witness :
  lines_of 0 <$> exec (step 2) sample_run (start [eth 0; eth 1]) = Some [Established (eth 0); NeighborOf (eth 0)] /\
  pending_of 0 <$> exec (step 2) sample_run (start [eth 0; eth 1])
    = Some [TlvLine (PortLine TlvType.PortId (PortId.Str sample_port));
            TlvLine (NameLine TlvType.SystemName sample_name)].
Proof.
  destruct (exec (step 2) sample_run (start [eth 0; eth 1])) as [s|] eqn:Es; [|by vm_compute in Es].
  pose proof (neighbours_shown 2 [eth 0; eth 1] sample_run s 0 (eth 0) Es eq_refl) as H.
  vm_compute in Es. injection Es as <-. vm_compute in H. by vm_compute.
Defined.

Lemma bad_frame_ends_capture_witness :
  (s ← exec (step 2) (opening (eth 0) (eth 1)) (start [eth 0; eth 1]);
   s ← step 2 (Next 0 (Some bad_frame)) s;
   s ← exec (step 2) [Next 1 (Some sample_frame); Print 1] s;
   Some (lines_of 0 s)) = Some [Established (eth 0)].
Proof.
  destruct (exec (step 2) (opening (eth 0) (eth 1)) _) as [s|] eqn:Es; [|by vm_compute in Es].
  cbn [mbind option_bind].
  destruct (step 2 (Next 0 (Some bad_frame)) s) as [s1|] eqn:E1; cbn [mbind option_bind].
  - destruct (exec (step 2) [Next 1 (Some sample_frame); Print 1] s1) as [s2|] eqn:E2; cbn [mbind option_bind].
    + f_equal.
      destruct (bad_frame_ends_capture 2 0 s s1 s2 _ sample_macs sample_tlvs sample_values 2 eq_refl sample_decodes
                  (or_intror eq_refl) E1 E2) as [-> _].
      vm_compute in Es. by injection Es as <-.
    + exfalso. vm_compute in Es. injection Es as <-. vm_compute in E1. injection E1 as <-. by vm_compute in E2.
  - exfalso. vm_compute in Es. injection Es as <-. by vm_compute in E1.
Defined.

(** One thread and two interfaces. *)
Lemma lldp_interfaces_starve_witness :
  exists s, exec (step 1) [Spawn [eth 0; eth 1]; Spawn [eth 0; eth 1]; Start 0 true; Print 0] (start [eth 0; eth 1]) = Some s /\
    (length (remove_dups (fst <$> d_screen s)) <= 1)%nat.
Proof.
  eexists. split; [vm_compute; reflexivity|].
  apply (lldp_interfaces_starve 1 [eth 0; eth 1] [Spawn [eth 0; eth 1]; Spawn [eth 0; eth 1]; Start 0 true; Print 0]);
    [vm_compute; reflexivity|by repeat constructor].
Defined.

Lemma neighbours_mixed_witness :
  exists s s', screen s = screen s' /\
    exists ls ls', exec (step 2) ls (start [eth 0; eth 1]) = Some s /\ received 0 ls = [Some sample_frame] /\
                   exec (step 2) ls' (start [eth 0; eth 1]) = Some s' /\ received 0 ls' = [Some short_frame].
Proof.
  destruct (neighbours_mixed 2 ltac:(lia) (eth 0) (eth 1) sample_frame short_frame
    [PortLine TlvType.PortId (PortId.Str sample_port); NameLine TlvType.SystemName sample_name]
    [NameLine TlvType.SystemName sample_name]) as (ls & ls' & s & s' & H1 & H2 & _ & H4 & H5 & _ & H7);
    [by vm_compute|by vm_compute|by repeat constructor|by repeat constructor|].
  exists s, s'. split; [done|]. by exists ls, ls'.
Defined.
