(* ===== verification/Sockets.v ===== *)
(** * Packet sockets and their readiness

    The sockets of src/network/topology/src/lib.rs and src/async/async-socket/src/main.rs: raw
    packet sockets in non-blocking mode, read and written through [AsyncFd].  What the calls do to a
    socket is what packet(7), recv(2) and the documentation of [AsyncFd] say; which of them fail is
    up to the environment. *)

From Stdlib Require Import String.
From S2P Require Import Prelude.

(** ** The kernel's side *)

(** A frame: the interface it came from, its protocol, its bytes. *)
Record rx_frame := RxFrame { f_if : Z; f_proto : Z; f_bytes : list byte }.

Definition ETH_P_ALL : Z := 3.
Definition ETH_P_ARP : Z := 0x0806.
Definition ETH_P_AARP : Z := 0x80f3.

(** A socket: its protocol, in network order; the interface it is bound to; the interfaces it has
    made promiscuous; its mode; the frames and the error it holds; and whether [AsyncFd] takes it
    to be readable. *)
Record socket := MkSocket
  { k_proto : Z; k_bound : option Z; k_promisc : list Z; k_nonblock : bool;
    k_queue : list rx_frame; k_error : option Z; k_ready : bool }.

Definition with_queue (q : list rx_frame) (s : socket) : socket :=
  MkSocket (k_proto s) (k_bound s) (k_promisc s) (k_nonblock s) q (k_error s) (k_ready s).
Definition with_ready (r : bool) (s : socket) : socket :=
  MkSocket (k_proto s) (k_bound s) (k_promisc s) (k_nonblock s) (k_queue s) (k_error s) r.
Definition with_error (e : option Z) (s : socket) : socket :=
  MkSocket (k_proto s) (k_bound s) (k_promisc s) (k_nonblock s) (k_queue s) e (k_ready s).

(** Whether a frame is for a socket: a socket that is not bound takes those of every interface. *)
Definition accepts (s : socket) (f : rx_frame) : bool :=
  (bool_decide (bswap 2 (k_proto s) = ETH_P_ALL) || bool_decide (bswap 2 (k_proto s) = f_proto f)) &&
  match k_bound s with None => true | Some i => bool_decide (f_if f = i) end.

(** A frame arrives: the kernel has put it into the queue of the socket.  (One that it drops, for
    want of room in the receive buffer, does not arrive.)  The network goes down, or another error is
    pending.  Both are events that make the socket readable. *)
Definition arrive (f : rx_frame) (s : socket) : socket :=
  if accepts s f then with_ready true (with_queue (k_queue s ++ [f]) s) else s.
Definition raise (e : Z) (s : socket) : socket := with_ready true (with_error (Some e) s).

Inductive result (A : Type) := Done (a : A) | Failed (e : Z) | WouldBlock.
Arguments Done {_}.
Arguments Failed {_}.
Arguments WouldBlock {_}.

(** [recvfrom] into [buf]: the length, the interface and the buffer.  A pending error is reported
    first, and once; a frame that does not fit loses its end.  [None]: the call blocks. *)
Definition recvfrom (buf : list byte) (s : socket) : option (result (Z * Z * list byte) * socket) :=
  match k_error s, k_queue s with
  | Some e, _ => Some (Failed e, with_error None s)
  | None, f :: q =>
      let bs := take (length buf) (f_bytes f) in
      Some (Done (len bs, f_if f, bs ++ drop (length bs) buf), with_queue q s)
  | None, [] => if k_nonblock s then Some (WouldBlock, s) else None
  end.

(** ** Making a socket *)

(** [socket(AF_PACKET, SOCK_RAW, proto.to_be())]. *)
Definition open_sock (proto : Z) : socket := MkSocket (bswap 2 proto) None [] false [] None false.

(** [fcntl(F_SETFL, flag | O_NONBLOCK)]; whether it succeeds is not looked at. *)
Definition set_nonblock (ok : bool) (s : socket) : socket :=
  MkSocket (k_proto s) (k_bound s) (k_promisc s) (ok || k_nonblock s) (k_queue s) (k_error s) (k_ready s).

(** [AsyncFd::new]: a socket that has something to read is readable from the start. *)
Definition register (s : socket) : socket :=
  with_ready (negb (bool_decide (k_queue s = [] /\ k_error s = None))) s.

(** [set_promiscuous] and [bind], when they succeed. *)
Definition set_promiscuous (promisc : bool) (ifindex : Z) (s : socket) : socket :=
  MkSocket (k_proto s) (k_bound s)
    (if promisc then k_promisc s ++ [ifindex] else base.filter (fun i => i <> ifindex) (k_promisc s))
    (k_nonblock s) (k_queue s) (k_error s) (k_ready s).

(** The address of the socket: protocol in network order, and interface. *)
Record sockaddr_ll := Sockaddr { sll_protocol : Z; sll_ifindex : Z }.
Definition ll_address (proto ifindex : Z) : sockaddr_ll := Sockaddr (bswap 2 proto) ifindex.
Definition bind (sa : sockaddr_ll) (s : socket) : socket :=
  MkSocket (sll_protocol sa) (Some (sll_ifindex sa)) (k_promisc s) (k_nonblock s) (k_queue s) (k_error s) (k_ready s).

(** ** [AsyncFd] *)

(** One round of the loop of [Socket::recv] and [AsyncSock::read]: [readable] waits for the
    readiness, [try_io] makes the call and clears the readiness when it would block; then the loop
    goes on ([None]), otherwise the result is returned. *)
Definition read_turn (buf : list byte) (s : socket)
    : option (option ((Z * Z * list byte) + Z) * socket) :=
  if k_ready s then
    '(r, s) ← recvfrom buf s;
    Some (match r with
          | WouldBlock => (None, with_ready false s)
          | Done a => (Some (inl a), s)
          | Failed e => (Some (inr e), s)
          end)
  else None.

(** The same for [Socket::send] and [AsyncSock::write]: what the calls of [sendto] return, and what
    is returned, when one is not that it would block. *)
Fixpoint write_loop (calls : list (result Z)) : option (Z + Z) :=
  match calls with
  | [] => None
  | WouldBlock :: calls => write_loop calls
  | Done n :: _ => Some (inl n)
  | Failed e :: _ => Some (inr e)
  end.

(** The frame handed to the kernel by a call. *)
Definition send (buf : list byte) (sa : sockaddr_ll) (r : result Z) : list (sockaddr_ll * list byte) :=
  match r with Done _ => [(sa, buf)] | _ => [] end.

(** ** Lemmas *)

Lemma bswap_bswap_16 x : 0 <= x < 2 ^ 16 -> bswap 2 (bswap 2 x) = x.
Proof.
  intros Hx. unfold bswap at 1. rewrite bswap_split, reverse_involutive, le_combine_split.
  apply Z.mod_small. lia.
Qed.

(** What a readable socket gives, in the order it was received. *)
Definition readable_inv (s : socket) : Prop := k_queue s <> [] \/ k_error s <> None -> k_ready s = true.

Lemma arrive_inv f s : readable_inv s -> readable_inv (arrive f s).
Proof. unfold arrive. by case_match. Qed.

Lemma raise_inv e s : readable_inv (raise e s).
Proof. done. Qed.

Lemma register_inv s : readable_inv (register s).
Proof.
  unfold readable_inv, register. cbn. intros H. apply negb_true_iff, bool_decide_eq_false. naive_solver.
Qed.

Lemma read_turn_inv buf s r s' : readable_inv s -> read_turn buf s = Some (r, s') -> readable_inv s'.
Proof.
  intros Hs H. unfold read_turn in H. destruct (k_ready s) eqn:Hr; [|done].
  apply bind_Some in H as ([r0 s0] & H0 & H). unfold recvfrom in H0.
  destruct (k_error s) eqn:He; [simplify_eq; by intros _|].
  destruct (k_queue s) eqn:Hq; [|simplify_eq; by intros _].
  destruct (k_nonblock s); simplify_eq. intros []; cbn in *; congruence.
Qed.

(** A readable socket with a frame and no error gives that frame. *)
Lemma read_turn_frame buf s f q :
  k_ready s = true -> k_error s = None -> k_queue s = f :: q ->
  let bs := take (length buf) (f_bytes f) in
  read_turn buf s = Some (Some (inl (len bs, f_if f, bs ++ drop (length bs) buf)), with_queue q s).
Proof. intros Hr He Hq. unfold read_turn, recvfrom. by rewrite Hr, He, Hq. Qed.

(** The cases of a round, for a socket without a pending error. *)
Lemma read_turn_cases buf s r s' :
  k_error s = None -> read_turn buf s = Some (r, s') ->
  (exists f q, k_queue s = f :: q /\ s' = with_queue q s /\
     let bs := take (length buf) (f_bytes f) in
     r = Some (inl (len bs, f_if f, bs ++ drop (length bs) buf)))
  \/ (k_queue s = [] /\ r = None /\ s' = with_ready false s).
Proof.
  intros He H. unfold read_turn, recvfrom in H. rewrite He in H. destruct (k_ready s); [|done].
  destruct (k_queue s) as [|f q] eqn:Hq.
  - destruct (k_nonblock s); [|done]. right. by simplify_eq/=.
  - left. exists f, q. by simplify_eq/=.
Qed.
