(* ===== verification/AsyncSocket.v ===== *)
(** * The asynchronous sockets

    src/async/async-socket/src/main.rs: three tasks that each read a packet socket through [AsyncFd]
    and print the lengths of the frames, and a future that reads a socket without it. *)

From Stdlib Require Import String.
From S2P Require Import Prelude Trace Sockets.

(** ** [SocketRead] *)

(** What [poll] returns. *)
Inductive poll := Ready (len : Z) | Pending.

(** [SocketRead::poll]: what it returns, and whether it has woken its task; an error other than that
    it would block counts as an empty frame.  [None]: the call blocks. *)
Definition SocketRead_poll (buf : list byte) (s : socket) : option (poll * bool * list byte * socket) :=
  '(r, s) ← recvfrom buf s;
  Some (match r with
        | Done (n, _, buf) => (Ready n, false, buf, s)
        | WouldBlock => (Pending, true, buf, s)
        | Failed _ => (Ready 0, false, buf, s)
        end).

(** A task that awaits [async_recv]: the future is polled first when the task starts, and, as the
    contract of [Future] has it, again when its task has been woken; what it returned in the end. *)
Record reader := Reader { r_buf : list byte; r_sock : socket; r_woken : bool; r_result : option Z }.

Definition async_recv (buf : list byte) (s : socket) : reader := Reader buf s true None.

(** The task runs; a frame arrives, of which the future is not told: its socket is registered
    nowhere. *)
Inductive turn := Run | Frame (f : rx_frame).

Definition reader_step (t : turn) (r : reader) : option reader :=
  match t, r with
  | Run, Reader buf s true None =>
      '(p, woken, buf, s) ← SocketRead_poll buf s;
      Some (Reader buf s woken (match p with Ready n => Some n | Pending => None end))
  | Run, _ => None
  | Frame f, Reader buf s woken result => Some (Reader buf (arrive f s) woken result)
  end.

(** ** The tasks *)

Definition PROTOS : list Z := [ETH_P_ALL; ETH_P_AARP; ETH_P_ARP].

Definition BUF : Z := 1024.

(** Where a task is: about to open its socket; after [socket], after the [fcntl] of [open_sock], after
    that of [AsyncSock::new]; in its loop; or it has panicked. *)
Inductive task := Start (proto : Z) | Made (s : socket) | Configured (s : socket) | Wrapped (s : socket)
  | Looping (s : socket) | Panicked.

(** The tasks, and the lines printed, each with its task and what [read] returned. *)
Record program := Program { p_tasks : list task; p_screen : list (nat * (Z + Z)) }.

Definition main : program := Program (Start <$> PROTOS) [].

Inductive event :=
| Call (i : nat) (ok : bool)
| Arrive (i : nat) (f : rx_frame)
| Raise (i : nat) (e : Z)
| Poll (i : nat).

Definition set_task (i : nat) (t : task) (p : program) : program :=
  Program (<[i := t]> (p_tasks p)) (p_screen p).

(** The next call of a task: the results of [fcntl] are not looked at, the others are unwrapped. *)
Definition call (ok : bool) (t : task) : option task :=
  match t with
  | Start proto => Some (if ok then Made (open_sock proto) else Panicked)
  | Made s => Some (Configured (set_nonblock ok s))
  | Configured s => Some (Wrapped (set_nonblock ok s))
  | Wrapped s => Some (if ok then Looping (register s) else Panicked)
  | Looping _ | Panicked => None
  end.

(** An event at the socket of a task. *)
Definition at_socket (f : socket -> socket) (t : task) : option task :=
  match t with
  | Made s => Some (Made (f s))
  | Configured s => Some (Configured (f s))
  | Wrapped s => Some (Wrapped (f s))
  | Looping s => Some (Looping (f s))
  | Start _ | Panicked => None
  end.

(** A round of [AsyncSock::read], with a new buffer, and the line that is printed when it returns. *)
Definition step (e : event) (p : program) : option program :=
  match e with
  | Call i ok => t ← p_tasks p !! i; t ← call ok t; Some (set_task i t p)
  | Arrive i f => t ← p_tasks p !! i; t ← at_socket (arrive f) t; Some (set_task i t p)
  | Raise i e => t ← p_tasks p !! i; t ← at_socket (raise e) t; Some (set_task i t p)
  | Poll i =>
      match p_tasks p !! i with
      | Some (Looping s) =>
          '(r, s) ← read_turn (zeros BUF) s;
          let p := set_task i (Looping s) p in
          Some (match r with
                | None => p
                | Some (inl (n, _, _)) => Program (p_tasks p) (p_screen p ++ [(i, inl n)])
                | Some (inr e) => Program (p_tasks p) (p_screen p ++ [(i, inr e)])
                end)
      | _ => None
      end
  end.

(** [main] drops the results of the tasks, and returns when all have ended. *)
Definition returns (p : program) : bool :=
  forallb (fun t => match t with Panicked => true | _ => false end) (p_tasks p).
