(* ===== verification/AsyncSocketTheorems.v ===== *)
(** * The asynchronous sockets: properties

    Each task prints a line for every frame of its protocol; a task that reads through [AsyncFd]
    sleeps when there is nothing to read, and the future that reads without it never does. *)

From Stdlib Require Import String.
From S2P Require Import Prelude Trace Sockets AsyncSocket.

(** ** Descriptions of a run *)

(** The length a frame is printed with. *)
Definition frame_length (f : rx_frame) : Z := len (take (Z.to_nat BUF) (f_bytes f)).

(** Whether a frame is of the protocol of task [i]. *)
Definition matches (i : nat) (f : rx_frame) : bool :=
  match PROTOS !! i with
  | Some proto => bool_decide (proto = ETH_P_ALL) || bool_decide (proto = f_proto f)
  | None => false
  end.

Definition arrived (i : nat) (es : list event) : list rx_frame :=
  omap (fun e => match e with
                 | Arrive j f => if bool_decide (j = i) && matches i f then Some f else None
                 | _ => None
                 end) es.

(** The lengths and errors task [i] has printed. *)
Definition lengths (i : nat) (p : program) : list Z :=
  omap (fun l => match l with (j, inl n) => if bool_decide (j = i) then Some n else None | _ => None end) (p_screen p).

(** Events that make the socket of task [i] readable, and its rounds. *)
Definition wakes (i : nat) (e : event) : bool :=
  match e with Arrive j _ | Raise j _ => bool_decide (j = i) | _ => false end.
Definition polls (i : nat) (e : event) : bool :=
  match e with Poll j => bool_decide (j = i) | _ => false end.
Definition count (f : event -> bool) (es : list event) : nat := length (base.filter (fun e => f e = true) es).

Definition queued (t : task) : list rx_frame :=
  match t with Made s | Configured s | Wrapped s | Looping s => k_queue s | Start _ | Panicked => [] end.

Lemma async_arrived_snoc i es e : arrived i (es ++ [e]) = arrived i es ++ arrived i [e].
Proof. unfold arrived. by rewrite omap_app. Qed.

Lemma lengths_print i p ts j r :
  lengths i (Program ts (p_screen p ++ [(j, r)])) =
    lengths i p ++ match r with inl n => if bool_decide (j = i) then [n] else [] | inr _ => [] end.
Proof. unfold lengths. cbn. rewrite omap_app. cbn. by destruct r; [case_bool_decide|]. Qed.

Lemma count_snoc f es e : count f (es ++ [e]) = (count f es + if f e then 1 else 0)%nat.
Proof.
  unfold count. rewrite filter_app, length_app, filter_cons. cbn.
  by destruct (f e); [rewrite decide_True by done|rewrite decide_False by done].
Qed.

(** The lines of a task. *)
Definition printed (i : nat) (p : program) : nat := length (base.filter (fun l => l.1 = i) (p_screen p)).

Lemma printed_print i p ts j r :
  printed i (Program ts (p_screen p ++ [(j, r)])) = (printed i p + if bool_decide (j = i) then 1 else 0)%nat.
Proof.
  unfold printed. cbn. rewrite filter_app, length_app, filter_cons. cbn. case_bool_decide; case_decide; done || cbn; lia.
Qed.

(** ** The invariant of a task *)

Definition pending (s : socket) : nat := length (k_queue s) + match k_error s with Some _ => 1 | None => 0 end.

Record live (i : nat) (es : list event) (p : program) (s : socket) : Prop := Live
  { l_proto : PROTOS !! i = Some (bswap 2 (k_proto s));
    l_bound : k_bound s = None;
    l_lengths : lengths i p ++ (frame_length <$> k_queue s) = frame_length <$> arrived i es;
    l_pending : (printed i p + pending s <= count (wakes i) es)%nat }.

Definition task_inv (i : nat) (es : list event) (p : program) (t : task) : Prop :=
  match t with
  | Start proto => PROTOS !! i = Some proto /\ arrived i es = [] /\ lengths i p = [] /\ printed i p = 0%nat
                   /\ count (polls i) es = 0%nat
  | Made s | Configured s | Wrapped s => live i es p s /\ printed i p = 0%nat /\ count (polls i) es = 0%nat
  | Looping s =>
      live i es p s /\
      (count (polls i) es + (if k_ready s then 1 else 0) <= printed i p + count (wakes i) es + 1)%nat
  | Panicked => printed i p = 0%nat /\ count (polls i) es = 0%nat
  end.

Definition inv (es : list event) (p : program) : Prop :=
  forall i t, p_tasks p !! i = Some t -> task_inv i es p t.

(** What an event that is none of task [i] leaves alone. *)
Definition elsewhere (i : nat) (e : event) : Prop :=
  match e with Call j _ | Arrive j _ | Raise j _ | Poll j => j <> i end.

Lemma task_inv_elsewhere i es e p p' t :
  elsewhere i e -> lengths i p' = lengths i p -> printed i p' = printed i p ->
  task_inv i es p t -> task_inv i (es ++ [e]) p' t.
Proof.
  intros He Hl Hp. assert (Ha : arrived i [e] = [] /\ wakes i e = false /\ polls i e = false).
  { unfold arrived. destruct e; cbn in *; rewrite ?bool_decide_eq_false_2 by done; done. }
  destruct Ha as (Ha & Hw & Hq).
  assert (Hlive : forall s, live i es p s -> live i (es ++ [e]) p' s).
  { intros s [H1 H2 H3 H4]. constructor; [done..| |]; rewrite ?Hl, ?async_arrived_snoc, ?Ha, ?app_nil_r, ?Hp, ?count_snoc, ?Hw; [done|lia]. }
  unfold task_inv. rewrite Hl, Hp, async_arrived_snoc, Ha, app_nil_r, !count_snoc, Hw, Hq, !Nat.add_0_r.
  destruct t; naive_solver.
Qed.

(** Replacing a task, with the screen as it is or with a line of that task. *)
Lemma inv_set es e j t p p' :
  inv es p -> is_Some (p_tasks p !! j) -> (forall i, i <> j -> elsewhere i e) ->
  p_tasks p' = <[j := t]> (p_tasks p) ->
  (forall i, i <> j -> lengths i p' = lengths i p /\ printed i p' = printed i p) ->
  task_inv j (es ++ [e]) p' t -> inv (es ++ [e]) p'.
Proof.
  intros Hinv Hj He Ht Hs Hi i t'. rewrite Ht. destruct (decide (i = j)) as [->|Hne].
  - rewrite list_lookup_insert_eq by (by apply lookup_lt_is_Some). by intros [= <-].
  - rewrite list_lookup_insert_ne by done. intros Hi'. destruct (Hs i Hne).
    by apply (task_inv_elsewhere i es e p p' t'); [apply He| | |apply Hinv].
Qed.

Lemma call_inv i ok es p t t' :
  task_inv i es p t -> call ok t = Some t' ->
  (forall i', lengths i' (set_task i t' p) = lengths i' p) -> task_inv i (es ++ [Call i ok]) (set_task i t' p) t'.
Proof.
  intros Hi Hc Hl. assert (Hp : printed i (set_task i t' p) = printed i p) by done.
  assert (Hlive : forall s s', live i es p s -> k_proto s' = k_proto s -> k_bound s' = k_bound s ->
    k_queue s' = k_queue s -> k_error s' = k_error s -> live i (es ++ [Call i ok]) (set_task i t' p) s').
  { intros s s' [H1 H2 H3 H4] E1 E2 E3 E4. unfold pending in *.
    constructor; unfold pending; rewrite ?E1, ?E2, ?E3, ?E4, ?Hl, ?Hp, ?async_arrived_snoc, ?count_snoc; cbn; rewrite ?app_nil_r; [done..|lia]. }
  assert (Hcount : count (polls i) (es ++ [Call i ok]) = count (polls i) es /\ count (wakes i) (es ++ [Call i ok]) = count (wakes i) es)
    by (rewrite !count_snoc; cbn; lia).
  destruct Hcount as [Hcp Hcw].
  destruct t as [proto|s|s|s|s|]; cbn in Hc; try done.
  - destruct Hi as (H1 & H2 & H3 & H4 & H5). destruct ok; injection Hc as <-; unfold task_inv; rewrite Hp, Hcp; [|lia].
    split; [|lia]. constructor.
    + cbn. rewrite bswap_bswap_16; [done|]. apply list_elem_of_lookup_2 in H1. revert H1. clear. unfold PROTOS.
      rewrite !elem_of_cons. unfold ETH_P_ALL, ETH_P_AARP, ETH_P_ARP. intros [->|[->|[->|[]%not_elem_of_nil]]]; lia.
    + done.
    + by rewrite Hl, H3, async_arrived_snoc, H2.
    + rewrite Hp. unfold pending. cbn. lia.
  - injection Hc as <-. destruct Hi as (H1 & H2 & H3). unfold task_inv. rewrite Hp, Hcp. split; [by eapply Hlive|lia].
  - injection Hc as <-. destruct Hi as (H1 & H2 & H3). unfold task_inv. rewrite Hp, Hcp. split; [by eapply Hlive|lia].
  - destruct Hi as (H1 & H2 & H3). destruct ok; injection Hc as <-; unfold task_inv; rewrite Hp, Hcp; [|lia].
    split; [by eapply Hlive|]. case_match; lia.
Qed.

Lemma at_socket_inv i e f es p t t' :
  task_inv i es p t -> at_socket f t = Some t' ->
  polls i e = false -> wakes i e = true ->
  (forall s, live i es p s -> live i (es ++ [e]) (set_task i t' p) (f s)) ->
  task_inv i (es ++ [e]) (set_task i t' p) t'.
Proof.
  intros Hi Hf Hq Hw Hlive. assert (Hp : printed i (set_task i t' p) = printed i p) by done.
  destruct t as [|s|s|s|s|]; cbn in Hf; try done; injection Hf as <-; unfold task_inv in *;
    rewrite Hp, !count_snoc, Hq, ?Hw in *; destruct Hi as [Hl Hi]; (split; [by apply Hlive|]); try lia.
  destruct (k_ready (f s)), (k_ready s); lia.
Qed.

Lemma arrive_live i fr es p s p' :
  lengths i p' = lengths i p -> printed i p' = printed i p ->
  live i es p s -> live i (es ++ [Arrive i fr]) p' (arrive fr s).
Proof.
  intros Hl Hp [H1 H2 H3 H4].
  assert (Ha : arrived i [Arrive i fr] = if accepts s fr then [fr] else []).
  { unfold arrived. cbn. rewrite bool_decide_eq_true_2 by done. unfold matches, accepts.
    rewrite H1, H2, andb_true_r. cbn. by destruct (_ || _). }
  unfold arrive. constructor.
  - by case_match.
  - by case_match.
  - rewrite Hl, async_arrived_snoc, Ha, fmap_app, <- H3.
    destruct (accepts s fr); cbn; [|by rewrite app_nil_r]. by rewrite fmap_app, (assoc_L (++)).
  - rewrite Hp, count_snoc. cbn. rewrite bool_decide_eq_true_2 by done. unfold pending in *.
    destruct (accepts s fr); cbn; rewrite ?length_app; cbn; lia.
Qed.

Lemma raise_live i c es p s p' :
  lengths i p' = lengths i p -> printed i p' = printed i p ->
  live i es p s -> live i (es ++ [Raise i c]) p' (raise c s).
Proof.
  intros Hl Hp [H1 H2 H3 H4]. constructor; [done..| |].
  - rewrite Hl, async_arrived_snoc. cbn. by rewrite app_nil_r.
  - rewrite Hp, count_snoc. cbn. rewrite bool_decide_eq_true_2 by done. unfold pending in *. cbn. case_match; lia.
Qed.

(** A round: a frame or an error is printed, or the task goes to sleep. *)
Lemma poll_inv i es p s r s' p' :
  task_inv i es p (Looping s) -> read_turn (zeros BUF) s = Some (r, s') ->
  p' = (match r with
        | None => set_task i (Looping s') p
        | Some (inl (n, _, _)) => Program (p_tasks (set_task i (Looping s') p)) (p_screen p ++ [(i, inl n)])
        | Some (inr e) => Program (p_tasks (set_task i (Looping s') p)) (p_screen p ++ [(i, inr e)])
        end) -> task_inv i (es ++ [Poll i]) p' (Looping s').
Proof.
  intros [[H1 H2 H3 H4] H5] Hr ->.
  assert (Hcount : count (polls i) (es ++ [Poll i]) = S (count (polls i) es) /\ count (wakes i) (es ++ [Poll i]) = count (wakes i) es).
  { rewrite !count_snoc. cbn. rewrite bool_decide_eq_true_2 by done. lia. }
  destruct Hcount as [Hcp Hcw]. assert (Ha : arrived i (es ++ [Poll i]) = arrived i es) by (rewrite async_arrived_snoc; apply app_nil_r).
  assert (Hp : forall t, printed i (set_task i t p) = printed i p) by done.
  unfold read_turn in Hr. destruct (k_ready s) eqn:Hk; [|done].
  apply bind_Some in Hr as ([r0 s0] & H0 & Hr). unfold recvfrom in H0.
  destruct (k_error s) as [e|] eqn:He; [|destruct (k_queue s) as [|f q] eqn:Hq; [destruct (k_nonblock s); [|done]|]];
    simplify_eq/=; unfold task_inv; rewrite Hcp, Hcw.
  - rewrite printed_print, bool_decide_eq_true_2 by done. split; [|cbn; rewrite Hk; lia].
    constructor; [done|done| |].
    + rewrite lengths_print, Ha, app_nil_r. done.
    + rewrite printed_print, bool_decide_eq_true_2, Hcw by done. unfold pending in *. rewrite He in H4. cbn. lia.
  - rewrite Hp. split; [|cbn; lia].
    constructor; [done|done| |].
    + rewrite Ha. cbn [with_ready k_queue]. rewrite Hq. exact H3.
    + rewrite Hcw. exact H4.
  - rewrite printed_print, bool_decide_eq_true_2 by done. split; [|cbn; rewrite Hk; lia].
    constructor; [done|done| |].
    + rewrite lengths_print, bool_decide_eq_true_2, Ha, <- H3 by done. cbn. by rewrite <- (assoc_L (++)).
    + rewrite printed_print, bool_decide_eq_true_2, Hcw by done. unfold pending in *. rewrite Hq, He in H4. cbn in *. rewrite He. lia.
Qed.

Lemma async_step_inv es e p p' : inv es p -> step e p = Some p' -> inv (es ++ [e]) p'.
Proof.
  intros Hinv H. destruct e as [i ok|i f|i c|i]; cbn [step] in H.
  - apply bind_Some in H as (t & Ht & H). apply bind_Some in H as (t' & Ht' & H). injection H as <-.
    apply (inv_set es _ i t' p); [done|by eexists|by intros j Hj|done|done|].
    by eapply call_inv; [apply Hinv| |].
  - apply bind_Some in H as (t & Ht & H). apply bind_Some in H as (t' & Ht' & H). injection H as <-.
    apply (inv_set es _ i t' p); [done|by eexists|by intros j Hj|done|done|].
    eapply at_socket_inv; [by apply Hinv|done|done|by apply bool_decide_eq_true_2|].
    intros s. by apply arrive_live.
  - apply bind_Some in H as (t & Ht & H). apply bind_Some in H as (t' & Ht' & H). injection H as <-.
    apply (inv_set es _ i t' p); [done|by eexists|by intros j Hj|done|done|].
    eapply at_socket_inv; [by apply Hinv|done|done|by apply bool_decide_eq_true_2|].
    intros s. by apply raise_live.
  - destruct (p_tasks p !! i) as [[]|] eqn:Ht; try done.
    apply bind_Some in H as ([r s'] & Hr & H). injection H as <-.
    apply (inv_set es _ i (Looping s') p); [done|by eexists|by intros j Hj|by destruct r as [[[[]]|]|]| |].
    + intros j Hj. destruct r as [[[[n ?] ?]|c]|]; [..|done];
        rewrite lengths_print, printed_print, ?bool_decide_eq_false_2, ?app_nil_r, Nat.add_0_r by done; done.
    + eapply poll_inv; [by apply Hinv|exact Hr|]. by destruct r as [[[[]]|]|].
Qed.

Lemma async_run_inv es p : exec step es main = Some p -> inv es p.
Proof.
  revert p. apply (exec_ind step inv).
  - intros i t Ht. change (p_tasks main) with (Start <$> PROTOS) in Ht. rewrite list_lookup_fmap in Ht.
    apply fmap_Some in Ht as (proto & Hp & ->). done.
  - intros es' e p1 p2 _ IH. by apply async_step_inv.
Qed.

Lemma task_sleeps i es p t :
  task_inv i es p t -> (printed i p <= count (wakes i) es)%nat /\
  (count (polls i) es <= printed i p + count (wakes i) es + 1)%nat.
Proof.
  destruct t as [|s|s|s|s|]; unfold task_inv; [lia|intros [[_ _ _ H] ?]; lia..| |lia].
  intros [[_ _ _ H] H']. destruct (k_ready s); lia.
Qed.

(** ** Theorems *)

(** C17: each task prints, in order and once, the length of every frame of its protocol that has
    arrived since its socket was made, that is, that the kernel has put into the queue of the
    socket, cut to 1024; the others are still queued. This holds for every task that has not
    panicked, in every run, whatever other calls fail. *)
Theorem frames_printed es p i t :
  exec step es main = Some p -> p_tasks p !! i = Some t -> t <> Panicked ->
  lengths i p ++ (frame_length <$> queued t) = frame_length <$> arrived i es.
Proof.
  intros H%async_run_inv Ht Hp. specialize (H i t Ht). destruct t as [|s|s|s|s|]; cbn in H; try done.
  - by destruct H as (_ & -> & -> & _).
  - by destruct H as [[_ _ H _] _].
  - by destruct H as [[_ _ H _] _].
  - by destruct H as [[_ _ H _] _].
  - by destruct H as [[_ _ H _] _].
Qed.

(** C18: a task that reads through [AsyncFd] sleeps when there is nothing to read: in every run,
    whatever calls fail, it makes at most two rounds for each event at its socket, and one more. A
    task that awaited [SocketRead] on that same socket while it is non-blocking and has neither a
    frame nor an error would not sleep: the future wakes its own task, so that the task runs as
    often as one likes and is as it was before; and it is this that lets it see a frame that arrives
    later, of which nothing else would tell it. *)
Theorem reads_sleep es p i t :
  exec step es main = Some p -> p_tasks p !! i = Some t ->
  (count (polls i) es <= 2 * count (wakes i) es + 1)%nat /\
  forall s buf n, t = Looping s -> k_nonblock s = true -> k_queue s = [] -> k_error s = None ->
    exec reader_step (repeat Run n) (async_recv buf s) = Some (async_recv buf s) /\
    forall f, accepts s f = true ->
      r_result <$> exec reader_step (repeat Run n ++ [Frame f; Run]) (async_recv buf s) =
        Some (Some (len (take (length buf) (f_bytes f)))).
Proof.
  intros H%async_run_inv Ht. split.
  - destruct (task_sleeps i es p t (H i t Ht)). lia.
  - intros s buf n _ Hn Hq He.
    assert (Hruns : exec reader_step (repeat Run n) (async_recv buf s) = Some (async_recv buf s)).
    { apply (exec_repeat reader_step (fun _ => async_recv buf s)). intros _ _. cbn. unfold SocketRead_poll, recvfrom. rewrite Hq, He, Hn. done. }
    split; [done|]. intros f Hf. rewrite exec_app, Hruns. cbn. unfold SocketRead_poll, recvfrom, arrive.
    rewrite Hf. cbn. by rewrite Hq, He.
Qed.

(** ** Instances: the task that reads every protocol, and the one that reads ARP *)

Definition all_frames : list event :=
  [Call 0 true; Call 2 true; Arrive 0 (RxFrame 2 ETH_P_ARP (zeros 60)); Arrive 2 (RxFrame 2 ETH_P_ARP (zeros 60));
   Call 0 true; Call 0 true; Call 0 true; Call 2 true; Call 2 true; Call 2 true; Call 1 false;
   Poll 0; Poll 0; Arrive 0 (RxFrame 3 0x86dd (zeros 1500)); Arrive 2 (RxFrame 3 0x86dd (zeros 1500)); Raise 0 100; Poll 0; Poll 0].
Definition all_program : program := default main (exec step all_frames main).

Lemma all_program_run : exec step all_frames main = Some all_program.
Proof.
  unfold all_program. assert (H : bool_decide (is_Some (exec step all_frames main)) = true) by by vm_compute.
  apply bool_decide_eq_true in H as [p ->]. done.
Qed.

Definition task_of (i : nat) : task := default Panicked (p_tasks all_program !! i).

Lemma task_of_eq i : (i < 3)%nat -> p_tasks all_program !! i = Some (task_of i).
Proof. intros Hi. do 3 (destruct i as [|i]; [by vm_compute|]). lia. Qed.

Lemma frames_printed_witness :
  lengths 0 all_program = [60; 1024] /\ lengths 2 all_program ++ (frame_length <$> queued (task_of 2)) = [60].
Proof.
  split.
  - assert (Hq : queued (task_of 0) = []) by by vm_compute.
    rewrite <- (app_nil_r (lengths 0 all_program)). change [] with (frame_length <$> @nil rx_frame). rewrite <- Hq.
    rewrite (frames_printed all_frames all_program 0 (task_of 0) all_program_run (task_of_eq 0 ltac:(lia)) ltac:(by vm_compute)).
    by vm_compute.
  - rewrite (frames_printed all_frames all_program 2 (task_of 2) all_program_run (task_of_eq 2 ltac:(lia)) ltac:(by vm_compute)).
    by vm_compute.
Defined.

Definition idle_socket : socket := match task_of 0 with Looping s => s | _ => open_sock 0 end.

Lemma reads_sleep_witness :
  (count (polls 0) all_frames <= 7)%nat /\
  r_result <$> exec reader_step (repeat Run 1000 ++ [Frame (RxFrame 2 ETH_P_ARP (zeros 60)); Run]) (async_recv (zeros 100) idle_socket)
    = Some (Some 60).
Proof.
  destruct (reads_sleep all_frames all_program 0 (task_of 0) all_program_run (task_of_eq 0 ltac:(lia))) as [H1 H2].
  split; [exact H1|].
  apply (H2 idle_socket (zeros 100) 1000%nat); by vm_compute.
Defined.
