(* ===== verification/Topo.v ===== *)
(** * The topology prober: data

    [network/topology/src/lib.rs] and [vlan_range] of [main.rs]: interfaces and what is read of
    them from sysfs, the map of connections, the notation of VLAN ranges.  Text is the list of its
    bytes; [checks] says whether the build checks integer overflow. *)

From Stdlib Require Import String.
From stdpp Require Import vector.
From S2P Require Import Prelude RustStd RustStr.

(** ** [OperState] and [MacAddress] *)

Inductive OperState := Up | Down.
Inductive ParseError := MkParseError.

#[export] Instance OperState_eq_dec : EqDecision OperState.
Proof. solve_decision. Defined.
#[export] Instance OperState_countable : Countable OperState.
Proof.
  refine (inj_countable' (fun s => if decide (s = Up) then true else false)
            (fun b : bool => if b then Up else Down) _). by intros [].
Defined.

Module OperState.
Definition from_str (s : list byte) : outcome ParseError OperState :=
  let w := to_lowercase (trim s) in
  if bool_decide (w = lit "up") then Ok Up
  else if bool_decide (w = lit "down") then Ok Down
  else Err MkParseError.
Definition default : OperState := Up.
End OperState.

(** An array of six octets; also the [MacAddr] of pnet. *)
Abbreviation octets := (vec byte 6).

Record MacAddress := MkMac { m0 : byte; m1 : byte; m2 : byte; m3 : byte; m4 : byte; m5 : byte }.

Module MacAddress.
Definition from_str (s : list byte) : outcome ParseError MacAddress :=
  let v := split (char 58) (trim s) in
  if (length v =? 6)%nat then
    v ← collect (fun i => unwrap (from_str_radix 16 255 i)) v;
    match v with
    | [a; b; c; d; e; f] => Ok (MkMac (char a) (char b) (char c) (char d) (char e) (char f))
    | _ => Panic
    end
  else Err MkParseError.

Definition from (v : octets) : MacAddress :=
  MkMac (v !!! 0%fin) (v !!! 1%fin) (v !!! 2%fin) (v !!! 3%fin) (v !!! 4%fin) (v !!! 5%fin).
Definition into (mac : MacAddress) : octets :=
  [# m0 mac; m1 mac; m2 mac; m3 mac; m4 mac; m5 mac].

Definition fmt (mac : MacAddress) : list byte := join (lit ":") (hex2 <$> vec_to_list (into mac)).

Definition default : MacAddress := from (vreplicate 6 Byte.x00).

Lemma from_into mac : from (into mac) = mac.
Proof. by destruct mac. Qed.
Lemma into_from (v : octets) : into (from v) = v.
Proof. inv_all_vec_fin. reflexivity. Qed.
End MacAddress.

#[export] Instance MacAddress_eq_dec : EqDecision MacAddress.
Proof. solve_decision. Defined.
#[export] Instance MacAddress_countable : Countable MacAddress.
Proof.
  refine (inj_countable' (fun m => (m0 m, m1 m, m2 m, (m3 m, m4 m, m5 m)))
            (fun '(a, b, c, (d, e, f)) => MkMac a b c d e f) _). by intros [].
Defined.

(** ** [Interface], [Node], [Topo] *)

Record Interface := MkInterface
  { index : Z; name : list byte; mac : MacAddress; state : OperState }.
Record Node := MkNode { host : list byte; nic : Interface }.

#[export] Instance Interface_eq_dec : EqDecision Interface.
Proof. solve_decision. Defined.
#[export] Instance Interface_countable : Countable Interface.
Proof.
  refine (inj_countable' (fun i => (index i, name i, mac i, state i))
            (fun '(i, n, m, s) => MkInterface i n m s) _). by intros [].
Defined.
#[export] Instance Node_eq_dec : EqDecision Node.
Proof. solve_decision. Defined.
#[export] Instance Node_countable : Countable Node.
Proof.
  refine (inj_countable' (fun n => (host n, nic n)) (fun '(h, i) => MkNode h i) _). by intros [].
Defined.

#[export] Instance link_countable : Countable (Node * Node) := prod_countable.

(** The map [connection] of [Topo]. *)
Abbreviation topo := (gmap (Node * Node) (list Z)).

(** ** [show_vlan]: the ranges of a list of VLANs *)

Record vlan_state := VlanState { start : option Z; vlan_str : list byte; range : bool }.

(** [end.unwrap() + 1] in [u16]. *)
Definition succ_u16 (checks : bool) (v : Z) : run Z :=
  if checks && (2 ^ 16 <=? v + 1) then Panic else Ok (wrap 16 (v + 1)).

(** The body of the loop, at index [i]. *)
Definition vlan_step (checks : bool) (vlans : list Z) (i : nat) (st : vlan_state) : run vlan_state :=
  let end_ := vlans !! i in
  let next := vlans !! S i in
  range ←
    match next with
    | Some v => e ← unwrap end_; e ← succ_u16 checks e; mret (if v =? e then range st else true)
    | None => mret true
    end;
  if (range : bool) then
    let str := if bool_decide (vlan_str st = []) then [] else vlan_str st ++ lit "," in
    str ←
      (if bool_decide (start st = end_) then s ← unwrap (start st); mret (str ++ decimal s)
       else s ← unwrap (start st); e ← unwrap end_; mret (str ++ decimal s ++ lit "-" ++ decimal e));
    mret (VlanState next str false)
  else mret (VlanState (start st) (vlan_str st) range).

(** The iterations at the indices [idx]. *)
Fixpoint vlan_loop (checks : bool) (vlans : list Z) (idx : list nat) (st : vlan_state) : run vlan_state :=
  match idx with
  | [] => mret st
  | i :: idx => st ← vlan_step checks vlans i st; vlan_loop checks vlans idx st
  end.

Definition show_vlan (checks : bool) (vlans : list Z) : run (list byte) :=
  if bool_decide (vlans = []) then mret []
  else
    st ← vlan_loop checks vlans (seq 0 (length vlans)) (VlanState (vlans !! 0%nat) [] false);
    mret (vlan_str st).

(** ** [Display] *)

Definition show_node (n : Node) : list byte :=
  host n ++ lit " " ++ name (nic n) ++ lit " " ++ MacAddress.fmt (mac (nic n)).

(** A connection of the map: no line break follows it. *)
Definition show_link (checks : bool) (l : (Node * Node) * list Z) : run (list byte) :=
  s ← show_vlan checks l.2;
  mret (show_node l.1.1 ++ lit " <-> " ++ show_node l.1.2 ++ lit " VLAN: " ++ s).

(** A topology; [links] are its entries in the order the hash map has them. *)
Definition show_topo_links (checks : bool) (links : list ((Node * Node) * list Z)) : run (list byte) :=
  lines ← collect (show_link checks) links; mret (@concat byte lines).

(** ** [get_physical_nics] *)

(** An entry of [/sys/class/net]: its name, the target of the link it is, and its files; [None]
    where reading fails, or gives bytes that are not UTF-8. *)
Record sys_entry := SysEntry
  { file_name : list byte; link : option (list byte);
    ifindex : option (list byte); address : option (list byte); operstate : option (list byte) }.

(** An entry of a physical interface. *)
Definition read_interface (e : sys_entry) : run Interface :=
  ifindex ← unwrap (ifindex e);
  mac ← unwrap (address e);
  oper ← unwrap (operstate e);
  index ← unwrap (parse_u32 (trim ifindex));
  name ← (if utf8 (file_name e) then mret (file_name e) else Panic);
  state ← unwrap_result (OperState.from_str oper);
  mac ← unwrap_result (MacAddress.from_str mac);
  mret (MkInterface index name mac state).

(** What the loop pushes for an entry. *)
Definition scan_entry (e : option sys_entry) : run (list Interface) :=
  entry ← unwrap e;
  match link entry with
  | Some path =>
      if path_starts_with path (lit "../../devices/virtual/") then mret []
      else nic ← read_interface entry; mret [nic]
  | None => mret []
  end.

Definition get_physical_nics (dir : option (list (option sys_entry))) : run (list Interface) :=
  match dir with
  | Some entries => nics ← collect scan_entry entries; mret (@concat Interface nics)
  | None => mret []
  end.

(** ** [vlan_range] *)

Definition vlan_range (s : list byte) : outcome (list byte) (Z * Z) :=
  match split_once (char 45) s with
  | None => Err (lit "Vlan range format error. Should be like `2-4`")
  | Some (start, end_) =>
      s ← match parse_u16 start with
          | Some n => Ok n
          | None => Err (lit "`" ++ start ++ lit "` is not a number")
          end;
      e ← match parse_u16 end_ with
          | Some n => Ok n
          | None => Err (lit "`" ++ end_ ++ lit "` is not a number")
          end;
      if e <? s then Err (decimal e ++ lit " is smaller than " ++ decimal s) else Ok (s, e)
  end.
