(* ===== verification/TopoTheorems.v ===== *)
(** * The topology prober: properties of its data

    The notation of VLAN ranges is faithful for the lists the prober keeps, which are sorted; the
    arguments, addresses and states are read as they are written; reading the interfaces panics on
    states the kernel documents. *)

From Stdlib Require Import String.
From stdpp Require Import vector.
From S2P Require Import Prelude RustStd RustStr Topo.

(** ** Ranges *)

(** The VLANs as the prober keeps them. *)
Definition vlans_ok (l : list Z) : Prop := StronglySorted Z.lt l /\ Forall (fun v => 0 <= v < 65536) l.

(** The maximal ranges of a list, the first of which starts at [s]. *)
Fixpoint ranges (s : Z) (l : list Z) : list (Z * Z) :=
  match l with
  | [] => []
  | e :: l' =>
      match l' with
      | [] => [(s, e)]
      | v :: _ => if v =? e + 1 then ranges s l' else (s, e) :: ranges v l'
      end
  end.

Definition show_range (r : Z * Z) : list byte :=
  if r.1 =? r.2 then decimal r.1 else decimal r.1 ++ lit "-" ++ decimal r.2.

(** The loop's way of adding a range to the text. *)
Definition add_range (s : list byte) (r : Z * Z) : list byte :=
  (if bool_decide (s = []) then [] else s ++ lit ",") ++ show_range r.

Lemma vlan_loop_ranges checks vlans l i s str :
  vlans_ok vlans -> drop i vlans = l -> l <> [] ->
  vlan_loop checks vlans (seq i (length l)) (VlanState (Some s) str false) =
    Ok (VlanState None (foldl add_range str (ranges s l)) false).
Proof.
  intros [Hs Hb]. revert i s str. induction l as [|e l IH]; intros i s str Hd Hn; [done|].
  assert (Hi : vlans !! i = Some e) by (rewrite <- (Nat.add_0_r i), <- lookup_drop, Hd; done).
  assert (Hd' : drop (S i) vlans = l) by (by rewrite <- Nat.add_1_r, <- drop_drop, Hd).
  assert (Hi' : vlans !! S i = head l).
  { rewrite <- (Nat.add_0_r (S i)), <- lookup_drop, Hd'. by destruct l. }
  cbn [length seq vlan_loop]. unfold vlan_step. rewrite Hi, Hi'. cbn [start vlan_str range].
  destruct l as [|v l].
  - cbn [head unwrap mbind outcome_bind length seq vlan_loop ranges foldl]. unfold add_range, show_range.
    cbn [fst snd]. destruct (Z.eqb_spec s e) as [->|Hne].
    + by rewrite (bool_decide_eq_true_2 (Some e = Some e)).
    + by rewrite (bool_decide_eq_false_2 (Some s = Some e)) by congruence.
  - assert (Hlt : e < v /\ v < 65536).
    { rewrite <- (take_drop i vlans), Hd in Hs, Hb. apply Forall_app in Hb as [_ Hb].
      apply StronglySorted_app in Hs as (_ & _ & Hs). inversion Hs as [|? ? _ Hh]; subst.
      apply Forall_cons in Hh as [? _]. apply Forall_cons in Hb as [? Hb].
      apply Forall_cons in Hb as [? _]. lia. }
    assert (He : 0 <= e).
    { rewrite Forall_forall in Hb. by apply Hb, (list_elem_of_lookup_2 _ i). }
    assert (Hsucc : succ_u16 checks e = Ok (e + 1)).
    { unfold succ_u16, wrap. rewrite Z.mod_small by lia.
      by destruct (Z.leb_spec (2 ^ 16) (e + 1)); [lia|]; rewrite andb_false_r. }
    cbn [head unwrap mbind outcome_bind]. rewrite Hsucc. cbn [mbind outcome_bind mret outcome_ret].
    change (ranges s (e :: v :: l)) with
      (if v =? e + 1 then ranges s (v :: l) else (s, e) :: ranges v (v :: l)).
    destruct (v =? e + 1); cbn [mbind outcome_bind mret outcome_ret]; [by apply IH|].
    cbn [foldl]. unfold add_range at 2, show_range. cbn [fst snd].
    destruct (Z.eqb_spec s e) as [->|Hne].
    + rewrite (bool_decide_eq_true_2 (Some e = Some e)) by done.
      cbn [unwrap mbind outcome_bind mret outcome_ret]. by apply IH.
    + rewrite (bool_decide_eq_false_2 (Some s = Some e)) by congruence.
      cbn [unwrap mbind outcome_bind mret outcome_ret]. by apply IH.
Qed.

(** Reading the notation: what a user understands by it. *)
Definition read_range (s : list byte) : option (Z * Z) :=
  match split_once (char 45) s with
  | None => n ← parse_u16 s; Some (n, n)
  | Some (a, b) => a ← parse_u16 a; b ← parse_u16 b; Some (a, b)
  end.
Definition expand (r : Z * Z) : list Z := seqZ r.1 (r.2 - r.1 + 1).
Definition read_vlans (s : list byte) : option (list Z) :=
  if bool_decide (s = []) then Some []
  else rs ← mapM read_range (split (char 44) s); Some (rs ≫= expand).

Definition range_ok (r : Z * Z) : Prop := 0 <= r.1 <= r.2 /\ r.2 < 65536.

Lemma decimal_nonempty n : 0 <= n -> decimal n <> [].
Proof.
  intros Hn. destruct (radix_digits 10 n ltac:(lia) Hn) as (_ & Hd & _). unfold decimal.
  intros H%fmap_nil_inv. done.
Qed.

Lemma show_range_nonempty r : range_ok r -> show_range r <> [].
Proof.
  intros [Hr _]. unfold show_range. pose proof (decimal_nonempty r.1).
  case_match; [tauto|]. intros [? _]%app_eq_nil. tauto.
Qed.

Lemma show_range_comma r : range_ok r -> char 44 ∉ show_range r.
Proof.
  intros [Hr _]. unfold show_range.
  assert (char 44 ∉ decimal r.1) by (apply not_in_decimal; [done|lia]).
  assert (char 44 ∉ decimal r.2) by (apply not_in_decimal; [done|lia]).
  case_match; [done|]. rewrite !not_elem_of_app. split; [done|]. split; [|done].
  change (lit "-") with [char 45]. by rewrite list_elem_of_singleton.
Qed.

Lemma read_show_range r : range_ok r -> read_range (show_range r) = Some r.
Proof.
  destruct r as [a b]. unfold range_ok, read_range, show_range. cbn [fst snd]. intros Hr.
  assert (Ha : char 45 ∉ decimal a) by (apply not_in_decimal; [done|lia]).
  destruct (Z.eqb_spec a b) as [->|].
  - rewrite split_once_none by done. unfold parse_u16. rewrite parse_decimal by lia. done.
  - change (decimal a ++ lit "-" ++ decimal b) with (decimal a ++ char 45 :: decimal b).
    rewrite split_once_app by done. unfold parse_u16. rewrite !parse_decimal by lia. done.
Qed.

Lemma foldl_add_range str rs :
  str <> [] -> Forall range_ok rs ->
  foldl add_range str rs = join (lit ",") (str :: (show_range <$> rs)).
Proof.
  intros Hs H. revert str Hs. induction H as [|r rs Hr _ IH]; intros str Hs; [done|].
  cbn [foldl]. rewrite IH.
  - unfold add_range. rewrite bool_decide_eq_false_2 by done.
    change (show_range <$> r :: rs) with (show_range r :: (show_range <$> rs)).
    destruct (show_range <$> rs) as [|p ps]; cbn [join]; by rewrite <- ?(assoc_L (++)).
  - unfold add_range. rewrite bool_decide_eq_false_2 by done. by destruct str.
Qed.

Lemma foldl_add_range_nil rs :
  Forall range_ok rs -> foldl add_range [] rs = join (lit ",") (show_range <$> rs).
Proof.
  intros H. destruct H as [|r rs Hr H]; [done|]. cbn [foldl].
  change (add_range [] r) with (show_range r). by rewrite foldl_add_range by (auto using show_range_nonempty).
Qed.

Lemma read_vlans_show rs :
  Forall range_ok rs -> read_vlans (join (lit ",") (show_range <$> rs)) = Some (rs ≫= expand).
Proof.
  intros H. destruct H as [|r rs Hr H]; [done|]. unfold read_vlans.
  assert (Hf : Forall range_ok (r :: rs)) by by constructor.
  rewrite bool_decide_eq_false_2.
  - change (lit ",") with [char 44]. rewrite split_join; [|done|].
    + rewrite (mapM_Some_2 _ _ (r :: rs)); [done|]. apply Forall2_fmap_l, Forall_Forall2_diag.
      by apply (Forall_impl _ _ _ Hf), read_show_range.
    + apply Forall_fmap. by apply (Forall_impl _ _ _ Hf), show_range_comma.
  - cbn. pose proof (show_range_nonempty r Hr). destruct rs; cbn; [done|].
    by intros [? _]%app_eq_nil.
Qed.

(** The ranges of a sorted list: they cover it, and are apart from each other. *)
Definition apart (r r' : Z * Z) : Prop := r.2 + 1 < r'.1.

Lemma seqZ_last s n : 0 <= n -> seqZ s (n + 1) = seqZ s n ++ [s + n].
Proof.
  intros Hn. rewrite <- (Z2Nat.id n) by done. replace (Z.of_nat (Z.to_nat n) + 1) with (Z.of_nat (S (Z.to_nat n))) by lia.
  by rewrite seqZ_S.
Qed.

Lemma ranges_ok s e l :
  vlans_ok (e :: l) -> 0 <= s <= e ->
  Forall range_ok (ranges s (e :: l)) /\ StronglySorted apart (ranges s (e :: l)) /\
  (ranges s (e :: l)) ≫= expand = seqZ s (e - s) ++ e :: l /\
  Forall (fun r => s <= r.1) (ranges s (e :: l)).
Proof.
  revert s e. induction l as [|v l IH]; intros s e [Hs Hb] Hse.
  - apply Forall_cons in Hb as [He _]. cbn [ranges]. unfold range_ok, expand. cbn [mbind list_bind fst snd].
    repeat split; repeat constructor; cbn; try lia.
    rewrite app_nil_r, seqZ_last by lia. by replace (s + (e - s)) with e by lia.
  - inversion Hs as [|? ? Hs' Hh]; subst. apply Forall_cons in Hb as [He Hb].
    apply Forall_cons in Hh as [Hev _].
    assert (Hok : vlans_ok (v :: l)) by done.
    change (ranges s (e :: v :: l)) with
      (if v =? e + 1 then ranges s (v :: l) else (s, e) :: ranges v (v :: l)).
    destruct (Z.eqb_spec v (e + 1)) as [->|Hne].
    + destruct (IH s (e + 1) Hok) as (H1 & H2 & H3 & H4); [lia|]. repeat split; try done.
      rewrite H3. replace (e + 1 - s) with (e - s + 1) by lia. rewrite seqZ_last by lia.
      rewrite <- (assoc_L (++)). cbn. by replace (s + (e - s)) with e by lia.
    + destruct (IH v v Hok) as (H1 & H2 & H3 & H4); [apply Forall_cons in Hb; lia|].
      split; [constructor; [by split; cbn; lia|done]|]. split; [|split].
      * constructor; [done|]. apply (Forall_impl _ _ _ H4). intros r. unfold apart. cbn. lia.
      * cbn [mbind list_bind]. change (list_bind _ _ expand) with (ranges v (v :: l) ≫= expand).
        rewrite H3, Z.sub_diag. cbn [seqZ]. unfold expand. cbn [fst snd].
        rewrite seqZ_last by lia.
        rewrite <- (assoc_L (++)). cbn. by replace (s + (e - s)) with e by lia.
      * constructor; [cbn; lia|]. apply (Forall_impl _ _ _ H4). intros r. cbn. lia.
Qed.

Lemma show_vlan_spec checks l :
  vlans_ok l ->
  exists rs, show_vlan checks l = Ok (join (lit ",") (show_range <$> rs)) /\
    Forall range_ok rs /\ StronglySorted apart rs /\ rs ≫= expand = l.
Proof.
  intros Hl. destruct l as [|e l]; [exists []; repeat constructor|].
  exists (ranges e (e :: l)).
  destruct (ranges_ok e e l Hl) as (H1 & H2 & H3 & _).
  { destruct Hl as [_ Hb]. apply Forall_cons in Hb. lia. }
  rewrite Z.sub_diag in H3. split; [|done]. unfold show_vlan. rewrite bool_decide_eq_false_2 by done.
  change ((e :: l) !! 0%nat) with (Some e). rewrite (vlan_loop_ranges checks (e :: l) (e :: l)) by done.
  cbn [mbind outcome_bind mret outcome_ret vlan_str]. by rewrite foldl_add_range_nil.
Qed.

(** ** Interfaces *)

(** A network device as sysfs shows it, with the word of its [operstate]. *)
Record device := Device
  { d_link : list byte; d_name : list byte; d_index : Z; d_mac : MacAddress; d_oper : list byte }.

Definition line_of (s : list byte) : list byte := s ++ [char 10].
Definition sys_of (d : device) : sys_entry :=
  SysEntry (d_name d) (Some (d_link d)) (Some (line_of (decimal (d_index d))))
    (Some (line_of (MacAddress.fmt (d_mac d)))) (Some (line_of (d_oper d))).

(** The words the kernel documents for [operstate]. *)
Definition operstates : list (list byte) :=
  lit <$> ["unknown"; "notpresent"; "down"; "lowerlayerdown"; "testing"; "dormant"; "up"]%string.

Definition device_ok (d : device) : Prop :=
  utf8 (d_name d) = true /\ 0 <= d_index d < 2 ^ 32 /\ d_oper d ∈ operstates.

Definition oper_state (w : list byte) : option OperState :=
  if bool_decide (w = lit "up") then Some Up else if bool_decide (w = lit "down") then Some Down else None.

Definition physical (d : device) : bool :=
  negb (path_starts_with (d_link d) (lit "../../devices/virtual/")).

(** The interface of a device, when the prober has a state for it. *)
Definition interface_of (d : device) : option Interface :=
  s ← oper_state (d_oper d); Some (MkInterface (d_index d) (d_name d) (d_mac d) s).

Lemma visible_digits ds : Forall (fun d => 0 <= d < 16) ds -> forallb visible (digit_char <$> ds) = true.
Proof.
  intros H. apply forallb_forall. intros c Hc%list_elem_of_In. apply list_elem_of_fmap in Hc as (d & -> & Hd).
  rewrite Forall_forall in H. specialize (H d Hd). pose proof (digit_char_range d H) as Hr.
  unfold visible. apply orb_true_iff in Hr as [Hr|Hr]; apply between_spec in Hr; apply between_spec; lia.
Qed.

Lemma trim_decimal n : 0 <= n -> trim (line_of (decimal n)) = decimal n.
Proof.
  intros Hn. apply trim_line; [by apply decimal_nonempty|].
  destruct (radix_digits 10 n ltac:(lia) Hn) as (Hr & _). apply visible_digits, (Forall_impl _ _ _ Hr). lia.
Qed.

Lemma hex2_digits b : Forall (fun d => 0 <= d < 16) [byte.unsigned b / 16; byte.unsigned b mod 16].
Proof.
  pose proof (byte.unsigned_range b). pose proof (Z.div_mod (byte.unsigned b) 16).
  pose proof (Z.mod_pos_bound (byte.unsigned b) 16). repeat constructor; lia.
Qed.

Lemma visible_hex2 b : forallb visible (hex2 b) = true.
Proof. apply visible_digits, hex2_digits. Qed.

Lemma colon_hex2 b : char 58 ∉ hex2 b.
Proof. apply not_in_digits; [done|apply hex2_digits]. Qed.

Lemma char_unsigned b : char (byte.unsigned b) = b.
Proof. apply byte.of_Z_unsigned. Qed.

(** An address is read back from its notation, alone on a line. *)
Lemma mac_from_line mac : MacAddress.from_str (line_of (MacAddress.fmt mac)) = Ok mac.
Proof.
  unfold MacAddress.from_str, line_of. rewrite trim_line.
  - unfold MacAddress.fmt. change (lit ":") with [char 58].
    rewrite split_join; [|by destruct mac|apply Forall_fmap, Forall_true; intros b; apply colon_hex2].
    destruct mac. cbn -[hex2 from_str_radix char]. rewrite !parse_hex2.
    cbn -[hex2 from_str_radix char]. by rewrite !char_unsigned.
  - by destruct mac.
  - apply forallb_join; [done|]. apply Forall_fmap, Forall_true. intros b. apply visible_hex2.
Qed.

Lemma lower_case w : forallb (between 97 122) w = true -> to_lowercase w = w.
Proof.
  intros H. unfold to_lowercase. rewrite <- (list_fmap_id w) at 2. apply list_fmap_ext. intros i c Hc.
  rewrite forallb_forall in H. specialize (H c (proj1 (list_elem_of_In _ _) (list_elem_of_lookup_2 _ _ _ Hc))).
  apply between_spec in H. destruct (between 65 90 c) eqn:E; [|done]. apply between_spec in E. lia.
Qed.

Lemma operstates_words w : w ∈ operstates -> w <> [] /\ forallb (between 97 122) w = true.
Proof.
  intros Hw. assert (H : Forall (fun w => w <> [] /\ forallb (between 97 122) w = true) operstates)
    by (apply (bool_decide_unpack _); by vm_compute).
  rewrite Forall_forall in H. by apply H.
Qed.

Lemma oper_from_line w :
  w ∈ operstates ->
  OperState.from_str (line_of w) = match oper_state w with Some s => Ok s | None => Err MkParseError end.
Proof.
  intros [Hn Hw]%operstates_words. unfold OperState.from_str, oper_state, line_of. rewrite trim_line; [|done|].
  - rewrite lower_case by done. by repeat case_bool_decide.
  - rewrite forallb_forall in *. intros c Hc. specialize (Hw c Hc). apply between_spec in Hw.
    apply between_spec. lia.
Qed.

Lemma read_device d : device_ok d -> read_interface (sys_of d) = unwrap (interface_of d).
Proof.
  intros (Hu & Hi & Hw). unfold read_interface, interface_of. cbn [sys_of ifindex address operstate file_name].
  cbn [unwrap mbind outcome_bind]. rewrite trim_decimal by lia. unfold parse_u32.
  rewrite parse_decimal by lia. cbn [unwrap mbind outcome_bind]. rewrite Hu. cbn [mret outcome_ret].
  rewrite oper_from_line by done. destruct (oper_state (d_oper d)); [|done]. cbn [unwrap_result mbind option_bind].
  by rewrite mac_from_line.
Qed.

Lemma scan_device d :
  device_ok d ->
  scan_entry (Some (sys_of d)) =
    if physical d then i ← unwrap (interface_of d); mret [i] else mret [].
Proof.
  intros H. unfold scan_entry, physical. cbn [unwrap mbind outcome_bind link sys_of].
  destruct (path_starts_with _ _); [done|]. cbn [negb]. by rewrite <- read_device.
Qed.

Lemma collect_scan devs :
  Forall device_ok devs ->
  collect scan_entry ((fun d => Some (sys_of d)) <$> devs) =
    match mapM interface_of (base.filter (fun d => physical d = true) devs) with
    | Some _ => Ok ((fun d => if physical d then option_list (interface_of d) else []) <$> devs)
    | None => Panic
    end.
Proof.
  induction 1 as [|d devs Hd _ IH]; [done|].
  change ((fun d => Some (sys_of d)) <$> d :: devs) with (Some (sys_of d) :: ((fun d => Some (sys_of d)) <$> devs)).
  cbn [collect]. rewrite scan_device, IH, filter_cons by done.
  destruct (physical d) eqn:Ep.
  - rewrite decide_True by done. cbn [mapM]. destruct (interface_of d) as [i|] eqn:Ei; [|done].
    cbn.
    destruct (mapM interface_of _); [|done]. by rewrite Ep, Ei.
  - rewrite decide_False by done. destruct (mapM interface_of _); [|done]. cbn. by rewrite Ep.
Qed.

Lemma concat_physical devs nics :
  mapM interface_of (base.filter (fun d => physical d = true) devs) = Some nics ->
  @concat Interface ((fun d => if physical d then option_list (interface_of d) else []) <$> devs) = nics.
Proof.
  revert nics. induction devs as [|d devs IH]; intros nics; [by intros [= <-]|].
  rewrite filter_cons. rewrite fmap_cons. cbn [concat]. destruct (physical d).
  - rewrite decide_True by done. intros H%mapM_Some. inversion H as [|? i ? k Hi Hk]; subst.
    rewrite Hi, (IH k); [done|by apply mapM_Some].
  - rewrite decide_False by done. apply IH.
Qed.

Lemma from_str_radix_range radix max s n :
  2 <= radix -> from_str_radix radix max s = Some n -> 0 <= n <= max.
Proof.
  intros Hr. unfold from_str_radix.
  destruct (mapM (to_digit radix) _) as [ds|] eqn:E; [|done]. cbn [mbind option_bind].
  destruct ((_ =? 0)%nat); [done|]. cbn [orb].
  destruct (Z.ltb_spec max (foldl (fun acc d => radix * acc + d) 0 ds)); [done|]. intros [= <-]. split; [|done].
  assert (Hd : Forall (fun d => 0 <= d) ds).
  { apply mapM_Some in E. apply Forall_forall. intros d Hd. apply list_elem_of_lookup in Hd as [i Hi].
    destruct (Forall2_lookup_r _ _ _ _ _ E Hi) as (c & _ & Hc). unfold to_digit in Hc.
    destruct (Z.ltb_spec (digit_value c) radix); [|done]. injection Hc as <-. unfold digit_value.
    repeat case_match; rewrite ?between_spec in *; lia. }
  assert (H0 : 0 <= 0) by lia. revert H0. generalize 0 at 2 4. clear E H.
  induction Hd as [|d ds Hd _ IH]; intros acc Hacc; cbn [foldl]; [done|]. apply IH. nia.
Qed.

Lemma vlan_range_bounds s r : vlan_range s = Ok r -> 0 <= r.1 <= r.2 /\ r.2 < 65536.
Proof.
  unfold vlan_range. destruct (split_once (char 45) s) as [[a b]|]; [|done].
  destruct (parse_u16 a) as [x|] eqn:Ex; [|done]. destruct (parse_u16 b) as [y|] eqn:Ey; [|done].
  apply from_str_radix_range in Ex, Ey; [|lia..]. cbn [mbind outcome_bind].
  destruct (Z.ltb_spec y x); [done|]. intros [= <-]. cbn. lia.
Qed.

(** ** The properties *)

(** C29: The list of VLANs shown for a connection is the list the prober keeps: for sorted VLANs of
    16 bits the text is computed without overflow, in a build that checks for it or not; it
    consists of ranges separated by commas, of which no two could be one; and reading it gives the
    VLANs back. *)
Theorem show_vlan_faithful checks l :
  vlans_ok l ->
  exists rs, show_vlan checks l = Ok (join (lit ",") (show_range <$> rs)) /\
    Forall range_ok rs /\ StronglySorted apart rs /\
    read_vlans (join (lit ",") (show_range <$> rs)) = Some l.
Proof.
  intros Hl. destruct (show_vlan_spec checks l Hl) as (rs & Hs & Ho & Ha & He).
  exists rs. split; [done|]. split; [done|]. split; [done|]. rewrite read_vlans_show by done. by rewrite He.
Qed.

(** The argument with a range of VLANs is read as it is written: two numbers of 16 bits, the
    first not above the second, with an error message otherwise; and nothing else is ever
    accepted than such a range. *)
Theorem vlan_range_reads a b s :
  0 <= a < 65536 -> 0 <= b < 65536 ->
  vlan_range (decimal a ++ lit "-" ++ decimal b) =
    (if b <? a then Err (decimal b ++ lit " is smaller than " ++ decimal a) else Ok (a, b)) /\
  (forall r, vlan_range s = Ok r -> 0 <= r.1 <= r.2 /\ r.2 < 65536).
Proof.
  intros Ha Hb. split; [|apply vlan_range_bounds]. unfold vlan_range.
  change (decimal a ++ lit "-" ++ decimal b) with (decimal a ++ char 45 :: decimal b).
  rewrite split_once_app by (apply not_in_decimal; [done|lia]). unfold parse_u16.
  by rewrite !parse_decimal by lia.
Qed.

(** The interfaces the prober finds are the physical devices of sysfs, in the order of the
    directory, with the name, index and address the kernel shows; but a single physical device
    whose operational state is none of up and down, as the kernel's words unknown, dormant and four
    others, makes it panic. *)
Theorem nics_scan devs :
  Forall device_ok devs ->
  get_physical_nics (Some ((fun d => Some (sys_of d)) <$> devs)) =
    match mapM interface_of (base.filter (fun d => physical d = true) devs) with
    | Some nics => Ok nics
    | None => Panic
    end /\
  ((exists d, d ∈ devs /\ physical d = true /\ oper_state (d_oper d) = None) ->
   get_physical_nics (Some ((fun d => Some (sys_of d)) <$> devs)) = Panic).
Proof.
  intros H. assert (E : get_physical_nics (Some ((fun d => Some (sys_of d)) <$> devs)) =
    match mapM interface_of (base.filter (fun d => physical d = true) devs) with
    | Some nics => Ok nics | None => Panic end).
  { unfold get_physical_nics. rewrite collect_scan by done.
    destruct (mapM interface_of _) as [nics|] eqn:En; [|done]. cbn [mbind outcome_bind mret outcome_ret].
    by rewrite (concat_physical _ _ En). }
  split; [done|]. intros (d & Hin & Hp & Ho). rewrite E.
  destruct (mapM interface_of _) as [nics|] eqn:En; [|done]. exfalso.
  apply mapM_Some in En. assert (Hd : d ∈ base.filter (fun d => physical d = true) devs)
    by by apply list_elem_of_filter.
  apply list_elem_of_lookup in Hd as [i Hi]. destruct (Forall2_lookup_l _ _ _ _ _ En Hi) as (n & _ & Hn).
  unfold interface_of in Hn. by rewrite Ho in Hn.
Qed.

(** ** Witnesses *)

Lemma show_vlan_faithful_witness :
  show_vlan true [1; 2; 3; 7; 65534; 65535] = Ok (lit "1-3,7,65534-65535") /\
  exists rs, show_vlan true [1; 2; 3; 7; 65534; 65535] = Ok (join (lit ",") (show_range <$> rs)).
Proof.
  split; [by vm_compute|].
  destruct (show_vlan_faithful true [1; 2; 3; 7; 65534; 65535]) as (rs & Hrs & _); [|by exists rs].
  split; repeat constructor; lia.
Defined.

Lemma vlan_range_reads_witness :
  vlan_range (lit "2-4") = Ok (2, 4) /\ vlan_range (lit "4-2") = Err (lit "2 is smaller than 4").
Proof.
  split; [apply (vlan_range_reads 2 4 []); lia|apply (vlan_range_reads 4 2 []); lia].
Defined.

Definition eth0 : device :=
  Device (lit "../../devices/pci0000:00/net/eth0") (lit "eth0") 2 (MkMac Byte.x00 Byte.x1b Byte.x21 Byte.xaa Byte.xbb Byte.xcc)
    (lit "up").
Definition wlan0 : device :=
  Device (lit "../../devices/pci0000:01/net/wlan0") (lit "wlan0") 3 (MkMac Byte.x00 Byte.x1b Byte.x21 Byte.xaa Byte.xbb Byte.xcd)
    (lit "dormant").
Definition lo : device :=
  Device (lit "../../devices/virtual/net/lo") (lit "lo") 1 MacAddress.default (lit "unknown").

Lemma nics_scan_witness :
  get_physical_nics (Some ((fun d => Some (sys_of d)) <$> [lo; eth0])) =
    Ok [MkInterface 2 (lit "eth0") (d_mac eth0) Up] /\
  get_physical_nics (Some ((fun d => Some (sys_of d)) <$> [lo; eth0; wlan0])) = Panic.
Proof.
  split.
  - destruct (nics_scan [lo; eth0]) as [-> _]; [|by vm_compute].
    apply (bool_decide_unpack _). by vm_compute.
  - apply (nics_scan [lo; eth0; wlan0]); [apply (bool_decide_unpack _); by vm_compute|].
    exists wlan0. split; [set_solver|]. by vm_compute.
Defined.
