(* ===== verification/TopoPacket.v ===== *)
(** * The topology prober: packets

    [network/topology/src/packet.rs], against an interface of the packet library the code uses:
    accessors of header fields, by what their documentation promises. *)

From Stdlib Require Import String.
From stdpp Require Import vector.
From S2P Require Import Prelude RustStd RustStr Topo.

(** ** The packet library *)

(** The accessors of a field of a header, [get_...] and [set_...], on the bytes the header begins. *)
Record field (A : Type) := Field { get : list byte -> A; set : A -> list byte -> list byte }.
Arguments Field {_}.
Arguments get {_}.
Arguments set {_}.

Class pnet := Pnet {
  eth_size : Z; vlan_size : Z; arp_size : Z;
  destination : field octets; source : field octets; ethertype : field Z;
  vlan_identifier : field Z; vlan_ethertype : field Z;
  hardware_type : field Z; protocol_type : field Z; hw_addr_len : field Z; proto_addr_len : field Z;
  operation : field Z;
  EtherTypes_Vlan : Z; EtherTypes_Aarp : Z; EtherTypes_Ipv4 : Z; ArpHardwareTypes_Ethernet : Z;
  broadcast : octets; is_broadcast : octets -> bool }.

(** A field of a header of [size] bytes: what is set is read, in the header and nowhere else.  [dom]
    are the values of the argument's type, [fits] those that the field can hold. *)
Record field_ok {A} (size : Z) (dom fits : A -> Prop) (f : field A) : Prop := FieldOk {
  set_length : forall v bs, len bs = size -> dom v -> len (set f v bs) = size;
  get_set : forall v bs, len bs = size -> fits v -> get f (set f v bs) = v;
  set_app : forall v bs rest, len bs = size -> dom v -> set f v (bs ++ rest) = set f v bs ++ rest;
  get_app : forall bs rest, len bs = size -> get f (bs ++ rest) = get f bs }.

(** Setting [f] leaves [g] alone. *)
Definition separate {A B} (size : Z) (fits : A -> Prop) (f : field A) (g : field B) : Prop :=
  forall v bs, len bs = size -> fits v -> get g (set f v bs) = get g bs.

Definition any {A} (_ : A) : Prop := True.
Definition u8 (z : Z) : Prop := 0 <= z < 2 ^ 8.
Definition u12 (z : Z) : Prop := 0 <= z < 2 ^ 12.
Definition u16 (z : Z) : Prop := 0 <= z < 2 ^ 16.

Class pnet_laws {P : pnet} : Prop := PnetLaws {
  header_sizes : eth_size = 14 /\ vlan_size = 4 /\ arp_size = 28;
  destination_ok : field_ok eth_size any any destination;
  source_ok : field_ok eth_size any any source;
  ethertype_ok : field_ok eth_size u16 u16 ethertype;
  vlan_identifier_ok : field_ok vlan_size u16 u12 vlan_identifier;
  vlan_ethertype_ok : field_ok vlan_size u16 u16 vlan_ethertype;
  hardware_type_ok : field_ok arp_size u16 u16 hardware_type;
  protocol_type_ok : field_ok arp_size u16 u16 protocol_type;
  hw_addr_len_ok : field_ok arp_size u8 u8 hw_addr_len;
  proto_addr_len_ok : field_ok arp_size u8 u8 proto_addr_len;
  operation_ok : field_ok arp_size u16 u16 operation;
  source_destination : separate eth_size any source destination;
  ethertype_destination : separate eth_size u16 ethertype destination;
  ethertype_source : separate eth_size u16 ethertype source;
  vlan_ethertype_identifier : separate vlan_size u16 vlan_ethertype vlan_identifier;
  constants_u16 : Forall u16 [EtherTypes_Vlan; EtherTypes_Aarp; EtherTypes_Ipv4; ArpHardwareTypes_Ethernet];
  vlan_not_aarp : EtherTypes_Vlan <> EtherTypes_Aarp;
  is_broadcast_iff : forall m, is_broadcast m = true <-> m = broadcast }.

(** ** [builder] and [parse] *)

Record Peer := MkPeer
  { peer_host : list byte; peer_nic : list byte; peer_mac : octets; peer_vlan : Z }.

Section Packet.
Context {P : pnet}.

(** [Packet::new(bs).unwrap()]. *)
Definition new_packet (size : Z) (bs : list byte) : run () := if len bs <? size then Panic else Ok tt.

(** [&buf[from..]]. *)
Definition slice_from (from : Z) (buf : list byte) : run (list byte) :=
  if from <=? len buf then Ok (drop (Z.to_nat from) buf) else Panic.

(** Setters on the part of a buffer from an offset. *)
Definition set_at (from : Z) (f : list byte -> list byte) (buf : list byte) : list byte :=
  take (Z.to_nat from) buf ++ f (drop (Z.to_nat from) buf).

(** [buf[from..to].copy_from_slice(bs)]. *)
Definition copy_from_slice (from to : Z) (bs buf : list byte) : run (list byte) :=
  if (from <=? to) && (to <=? len buf) && (to - from =? len bs)
  then Ok (take (Z.to_nat from) buf ++ bs ++ drop (Z.to_nat to) buf) else Panic.

(** The Ethernet header and, when there is one, the VLAN header; the buffer and their size. *)
Definition build_ethernet (buf : list byte) (src dst : octets) (vlan : Z) : run (list byte * Z) :=
  _ ← new_packet eth_size buf;
  let buf := set destination dst buf in
  let buf := set source src buf in
  if negb (vlan =? 0) then
    let buf := set ethertype EtherTypes_Vlan buf in
    payload ← slice_from eth_size buf;
    _ ← new_packet vlan_size payload;
    mret (set_at eth_size (fun p => set vlan_ethertype EtherTypes_Aarp (set vlan_identifier vlan p)) buf,
          eth_size + vlan_size)
  else mret (set ethertype EtherTypes_Aarp buf, eth_size).

(** The ARP header at an offset. *)
Definition build_arp (buf : list byte) (offset : Z) (dst : octets) : run (list byte) :=
  rarp ← slice_from offset buf;
  _ ← new_packet arp_size rarp;
  mret (set_at offset (fun p =>
    let p := set hardware_type ArpHardwareTypes_Ethernet p in
    let p := set protocol_type EtherTypes_Ipv4 p in
    let p := set hw_addr_len 6 p in
    let p := set proto_addr_len 4 p in
    set operation (if is_broadcast dst then 3 else 4) p) buf).

(** The names and the VLAN that follow the headers. *)
Definition payload (interface hostname : list byte) (vlan : Z) : list byte :=
  char (len interface) :: interface ++ char (len hostname) :: hostname ++ reverse (le_split 2 vlan).

Definition builder (buf : list byte) (interface : Interface) (dst_mac : octets) (vlan : Z)
    (hostname : list byte) : run (list byte * Z) :=
  let src_mac := MacAddress.into (mac interface) in
  '(buf, offset) ← build_ethernet buf src_mac dst_mac vlan;
  buf ← build_arp buf offset dst_mac;
  let start := offset + arp_size in
  let interface := name interface in
  let end_ := start + (1 + len interface) + (1 + len hostname) + 2 in
  buf ← copy_from_slice start end_ (payload interface hostname vlan) buf;
  mret (buf, end_).

Definition parse (buf : list byte) : run (option (Peer * bool)) :=
  _ ← new_packet eth_size buf;
  let mac := get source buf in
  '(ether_type, offset) ←
    (if get ethertype buf =? EtherTypes_Vlan then
       vlan ← slice_from eth_size buf;
       _ ← new_packet vlan_size vlan;
       mret (get vlan_ethertype vlan, eth_size + vlan_size)
     else mret (get ethertype buf, eth_size));
  if ether_type =? EtherTypes_Aarp then
    rarp ← slice_from offset buf;
    _ ← new_packet arp_size rarp;
    let request := get operation rarp =? 3 in
    let offset := offset + arp_size in
    n ← RustStd.index offset buf;
    nic ← slice (offset + 1) (offset + 1 + n) buf;
    let offset := offset + 1 + n in
    n ← RustStd.index offset buf;
    host ← slice (offset + 1) (offset + 1 + n) buf;
    let offset := offset + 1 + n in
    v ← slice offset (offset + 2) buf;
    mret (Some (MkPeer (from_utf8_lossy host) (from_utf8_lossy nic) mac (be_value v), request))
  else mret None.
End Packet.

(** ** Frames *)

Create HintDb pnet.

(** What a frame of the prober says; [f_tag] is the VLAN of its tag, 0 when it has none. *)
Record frame := Frame
  { f_dst : octets; f_src : octets; f_tag : Z; f_operation : Z;
    f_nic : list byte; f_host : list byte; f_vlan : Z }.

Definition untagged (f : frame) : frame :=
  Frame (f_dst f) (f_src f) 0 (f_operation f) (f_nic f) (f_host f) (f_vlan f).

Definition tag_size (vlan : Z) : Z := if vlan =? 0 then 0 else 4.
Definition frame_size (nic host : list byte) (vlan : Z) : Z :=
  14 + tag_size vlan + 28 + (1 + len nic) + (1 + len host) + 2.

Section Frames.
Context {P : pnet} {L : pnet_laws}.

(** The headers: Ethernet [e], VLAN [v], ARP [a]. *)
Record headers (f : frame) (e v a : list byte) : Prop := Headers {
  h_eth : len e = 14;
  h_dst : get destination e = f_dst f;
  h_src : get source e = f_src f;
  h_tag : if f_tag f =? 0 then v = [] /\ get ethertype e = EtherTypes_Aarp
          else len v = 4 /\ get ethertype e = EtherTypes_Vlan /\
               get vlan_ethertype v = EtherTypes_Aarp /\ (u12 (f_tag f) -> get vlan_identifier v = f_tag f);
  h_arp : len a = 28;
  h_operation : get operation a = f_operation f }.

(** A buffer that begins with the frame. *)
Inductive encodes (f : frame) : list byte -> Prop :=
| Encodes e v a rest : headers f e v a ->
    encodes f (e ++ v ++ a ++ payload (f_nic f) (f_host f) (f_vlan f) ++ rest).

Lemma headers_tag_size f e v a : headers f e v a -> len v = tag_size (f_tag f).
Proof. intros H. pose proof (h_tag _ _ _ _ H) as Ht. unfold tag_size. case_match; destruct Ht as [Hv _]; [by subst|done]. Qed.

Lemma length_payload nic host vlan : len (payload nic host vlan) = (1 + len nic) + (1 + len host) + 2.
Proof.
  unfold payload. cbn [length]. rewrite length_app. cbn [length].
  rewrite length_app, length_reverse, length_le_split. lia.
Qed.

Lemma new_packet_ok size bs : size <= len bs -> new_packet size bs = Ok ().
Proof. intros. unfold new_packet. by destruct (Z.ltb_spec (len bs) size); [lia|]. Qed.

Lemma slice_from_app off pre bs : off = len pre -> slice_from off (pre ++ bs) = Ok bs.
Proof.
  intros ->. unfold slice_from. rewrite length_app.
  destruct (Z.leb_spec (len pre) (Z.of_nat (length pre + length bs))); [|lia].
  by rewrite drop_app_length' by lia.
Qed.

Lemma set_at_app off f pre bs : off = len pre -> set_at off f (pre ++ bs) = pre ++ f bs.
Proof. intros ->. unfold set_at. by rewrite drop_app_length', take_app_length' by lia. Qed.

Lemma copy_from_slice_app from to pre old bs rest :
  from = len pre -> to = len pre + len bs -> length old = length bs ->
  copy_from_slice from to bs (pre ++ old ++ rest) = Ok (pre ++ bs ++ rest).
Proof.
  intros -> -> Hl. unfold copy_from_slice. rewrite !length_app.
  destruct (Z.leb_spec (len pre) (len pre + len bs)); [|lia].
  destruct (Z.leb_spec (len pre + len bs) (Z.of_nat (length pre + (length old + length rest)))); [|lia].
  destruct (Z.eqb_spec (len pre + len bs - len pre) (len bs)); [|lia]. cbn [andb].
  rewrite take_app_length' by lia. rewrite (assoc_L (++) pre old rest), drop_app_length'; [done|].
  rewrite length_app. lia.
Qed.

(** A buffer that is long enough is its parts. *)
Lemma split_at (n : Z) (bs : list byte) :
  0 <= n <= len bs -> exists pre rest, bs = pre ++ rest /\ len pre = n.
Proof.
  intros H. exists (take (Z.to_nat n) bs), (drop (Z.to_nat n) bs). split; [by rewrite take_drop|].
  rewrite length_take. lia.
Qed.

Lemma Vlan_u16 : u16 EtherTypes_Vlan.
Proof. pose proof constants_u16 as H. rewrite Forall_forall in H. apply H. set_solver. Qed.
Lemma Aarp_u16 : u16 EtherTypes_Aarp.
Proof. pose proof constants_u16 as H. rewrite Forall_forall in H. apply H. set_solver. Qed.
Lemma Ipv4_u16 : u16 EtherTypes_Ipv4.
Proof. pose proof constants_u16 as H. rewrite Forall_forall in H. apply H. set_solver. Qed.
Lemma Ethernet_u16 : u16 ArpHardwareTypes_Ethernet.
Proof. pose proof constants_u16 as H. rewrite Forall_forall in H. apply H. set_solver. Qed.

(** A frame's operation, by its destination. *)
Definition operation_of (dst : octets) : Z := if is_broadcast dst then 3 else 4.

(** The headers the code builds on the bytes [e], [v] and [a]. *)
Definition built_eth (e : list byte) (src dst : octets) (vlan : Z) : list byte :=
  set ethertype (if vlan =? 0 then EtherTypes_Aarp else EtherTypes_Vlan)
    (set source src (set destination dst e)).
Definition built_vlan (v : list byte) (vlan : Z) : list byte :=
  if vlan =? 0 then v else set vlan_ethertype EtherTypes_Aarp (set vlan_identifier vlan v).
Definition built_arp (a : list byte) (dst : octets) : list byte :=
  set operation (operation_of dst) (set proto_addr_len 4 (set hw_addr_len 6
    (set protocol_type EtherTypes_Ipv4 (set hardware_type ArpHardwareTypes_Ethernet a)))).

Local Hint Resolve Vlan_u16 Aarp_u16 Ipv4_u16 Ethernet_u16 : pnet.

Lemma operation_u16 dst : u16 (operation_of dst).
Proof. unfold operation_of, u16. case_match; lia. Qed.


Lemma built_eth_length e src dst vlan : len e = 14 -> len (built_eth e src dst vlan) = 14.
Proof.
  intros He. destruct header_sizes as (E14 & _). unfold built_eth. rewrite <- E14 in *.
  apply (set_length _ _ _ _ ethertype_ok); [|case_match; auto with pnet].
  by do 2 (first [apply (set_length _ _ _ _ source_ok) | apply (set_length _ _ _ _ destination_ok)]; [|done]).
Qed.

Lemma built_eth_fields e src dst vlan :
  len e = 14 ->
  get destination (built_eth e src dst vlan) = dst /\ get source (built_eth e src dst vlan) = src /\
  get ethertype (built_eth e src dst vlan) = if vlan =? 0 then EtherTypes_Aarp else EtherTypes_Vlan.
Proof.
  intros He. destruct header_sizes as (E14 & _). unfold built_eth. rewrite <- E14 in *.
  assert (Hd : len (set destination dst e) = eth_size) by by apply (set_length _ _ _ _ destination_ok).
  assert (Hs : len (set source src (set destination dst e)) = eth_size)
    by by apply (set_length _ _ _ _ source_ok).
  assert (Hu : u16 (if vlan =? 0 then EtherTypes_Aarp else EtherTypes_Vlan)) by (case_match; auto with pnet).
  rewrite (ethertype_destination _ _ Hs Hu), (ethertype_source _ _ Hs Hu),
    (source_destination _ _ Hd I), (get_set _ _ _ _ destination_ok _ _ He I),
    (get_set _ _ _ _ source_ok _ _ Hd I), (get_set _ _ _ _ ethertype_ok _ _ Hs Hu). done.
Qed.

Lemma built_eth_app e src dst vlan rest :
  len e = 14 -> built_eth (e ++ rest) src dst vlan = built_eth e src dst vlan ++ rest.
Proof.
  intros He. destruct header_sizes as (E14 & _). unfold built_eth. rewrite <- E14 in *.
  assert (Hd : len (set destination dst e) = eth_size) by by apply (set_length _ _ _ _ destination_ok).
  assert (Hs : len (set source src (set destination dst e)) = eth_size)
    by by apply (set_length _ _ _ _ source_ok).
  rewrite (set_app _ _ _ _ destination_ok), (set_app _ _ _ _ source_ok), (set_app _ _ _ _ ethertype_ok);
    try done. case_match; auto with pnet.
Qed.

Lemma built_vlan_spec v vlan :
  len v = 4 -> u16 vlan -> (vlan =? 0) = false ->
  len (built_vlan v vlan) = 4 /\ get vlan_ethertype (built_vlan v vlan) = EtherTypes_Aarp /\
  (u12 vlan -> get vlan_identifier (built_vlan v vlan) = vlan) /\
  forall rest, built_vlan (v ++ rest) vlan = built_vlan v vlan ++ rest.
Proof.
  intros Hv Hu Hz. destruct header_sizes as (_ & E4 & _). unfold built_vlan. rewrite Hz, <- E4 in *.
  assert (Hi : len (set vlan_identifier vlan v) = vlan_size) by by apply (set_length _ _ _ _ vlan_identifier_ok).
  split; [apply (set_length _ _ _ _ vlan_ethertype_ok); auto with pnet|].
  split; [apply (get_set _ _ _ _ vlan_ethertype_ok); auto with pnet|]. split.
  - intros H12. rewrite (vlan_ethertype_identifier _ _ Hi) by auto with pnet.
    by rewrite (get_set _ _ _ _ vlan_identifier_ok).
  - intros rest. rewrite (set_app _ _ _ _ vlan_identifier_ok), (set_app _ _ _ _ vlan_ethertype_ok) by auto with pnet.
    done.
Qed.

Lemma built_arp_spec a dst :
  len a = 28 ->
  len (built_arp a dst) = 28 /\ get operation (built_arp a dst) = operation_of dst /\
  forall rest, built_arp (a ++ rest) dst = built_arp a dst ++ rest.
Proof.
  intros Ha. destruct header_sizes as (_ & _ & E28). unfold built_arp. rewrite <- E28 in *.
  pose proof (operation_u16 dst) as Ho.
  assert (u8 6) by by vm_compute. assert (u8 4) by by vm_compute.
  set (a1 := set hardware_type ArpHardwareTypes_Ethernet a).
  assert (H1 : len a1 = arp_size) by (apply (set_length _ _ _ _ hardware_type_ok); auto with pnet).
  set (a2 := set protocol_type EtherTypes_Ipv4 a1).
  assert (H2 : len a2 = arp_size) by (apply (set_length _ _ _ _ protocol_type_ok); auto with pnet).
  set (a3 := set hw_addr_len 6 a2).
  assert (H3 : len a3 = arp_size) by (by apply (set_length _ _ _ _ hw_addr_len_ok)).
  set (a4 := set proto_addr_len 4 a3).
  assert (H4 : len a4 = arp_size) by (by apply (set_length _ _ _ _ proto_addr_len_ok)).
  split; [by apply (set_length _ _ _ _ operation_ok)|].
  split; [by apply (get_set _ _ _ _ operation_ok)|]. intros rest.
  rewrite (set_app _ _ _ _ hardware_type_ok), (set_app _ _ _ _ protocol_type_ok) by auto with pnet.
  by rewrite (set_app _ _ _ _ hw_addr_len_ok), (set_app _ _ _ _ proto_addr_len_ok), (set_app _ _ _ _ operation_ok).
Qed.

(** The Ethernet and VLAN headers, on a buffer they fit in. *)
Lemma build_ethernet_app e v r src dst vlan :
  len e = 14 -> len v = tag_size vlan -> u16 vlan ->
  build_ethernet (e ++ v ++ r) src dst vlan =
    Ok (built_eth e src dst vlan ++ built_vlan v vlan ++ r, 14 + tag_size vlan).
Proof.
  intros He Hv Hu. destruct header_sizes as (E14 & E4 & _).
  pose proof (built_eth_app e src dst vlan (v ++ r) He) as Hb.
  pose proof (built_eth_length e src dst vlan He) as Hl.
  unfold build_ethernet. rewrite new_packet_ok by (rewrite length_app; lia). cbn [mbind outcome_bind].
  unfold tag_size, built_eth, built_vlan in *. destruct (Z.eqb_spec vlan 0) as [|Hz]; cbn [negb].
  - by rewrite Hb, E14.
  - rewrite Hb, slice_from_app by lia. cbn [mbind outcome_bind].
    rewrite new_packet_ok by (rewrite length_app; lia). cbn [mbind outcome_bind mret outcome_ret].
    rewrite set_at_app by lia. destruct (built_vlan_spec v vlan) as (_ & _ & _ & Ha); [lia|done|by apply Z.eqb_neq|].
    unfold built_vlan in Ha. apply Z.eqb_neq in Hz. rewrite Hz in Ha. by rewrite Ha, E14, E4.
Qed.

Lemma build_arp_app h a r dst off :
  off = len h -> len a = 28 -> build_arp (h ++ a ++ r) off dst = Ok (h ++ built_arp a dst ++ r).
Proof.
  intros -> Ha. destruct header_sizes as (_ & _ & E28). unfold build_arp.
  rewrite slice_from_app by done. cbn [mbind outcome_bind].
  rewrite new_packet_ok by (rewrite length_app; lia). cbn [mbind outcome_bind mret outcome_ret].
  rewrite set_at_app by done. destruct (built_arp_spec a dst Ha) as (_ & _ & E).
  specialize (E r). unfold built_arp, operation_of in *. by rewrite E.
Qed.

Lemma built_headers e v a src dst vlan op nic host v' :
  len e = 14 -> len v = tag_size vlan -> len a = 28 -> u16 vlan -> op = operation_of dst ->
  headers (Frame dst src vlan op nic host v')
    (built_eth e src dst vlan) (built_vlan v vlan) (built_arp a dst).
Proof.
  intros He Hv Ha Hu ->. destruct (built_eth_fields e src dst vlan He) as (H1 & H2 & H3).
  destruct (built_arp_spec a dst Ha) as (H4 & H5 & _).
  constructor; cbn [f_dst f_src f_tag f_operation]; try done; [by apply built_eth_length|].
  unfold tag_size in Hv. destruct (vlan =? 0) eqn:Hz.
  - split; [|done]. unfold built_vlan. rewrite Hz. by apply nil_length_inv; lia.
  - destruct (built_vlan_spec v vlan) as (? & ? & ? & _); [lia|done..|]. done.
Qed.

(** What the prober builds is the frame that says so. *)
Definition frame_of (i : Interface) (dst : octets) (vlan : Z) (hostname : list byte) : frame :=
  Frame dst (MacAddress.into (mac i)) vlan (operation_of dst) (name i) hostname vlan.

Lemma tag_size_range vlan : 0 <= tag_size vlan <= 4.
Proof. unfold tag_size. case_match; lia. Qed.

Lemma builder_encodes buf i dst vlan hostname :
  u16 vlan -> frame_size (name i) hostname vlan <= len buf ->
  exists buf', builder buf i dst vlan hostname = Ok (buf', frame_size (name i) hostname vlan) /\
    length buf' = length buf /\ encodes (frame_of i dst vlan hostname) buf'.
Proof.
  intros Hu Hl. pose proof (tag_size_range vlan) as Ht. unfold frame_size in *.
  destruct (split_at 14 buf) as (e & r & -> & He); [lia|]. rewrite length_app in Hl.
  destruct (split_at (tag_size vlan) r) as (v & r1 & -> & Hv); [lia|]. rewrite length_app in Hl.
  destruct (split_at 28 r1) as (a & r2 & -> & Ha); [lia|]. rewrite length_app in Hl.
  destruct (split_at (1 + len (name i) + (1 + len hostname) + 2) r2) as (p & r3 & -> & Hp); [lia|].
  exists (built_eth e (MacAddress.into (mac i)) dst vlan ++ built_vlan v vlan ++ built_arp a dst ++
          payload (name i) hostname vlan ++ r3).
  pose proof (built_headers e v a (MacAddress.into (mac i)) dst vlan _ (name i) hostname vlan He Hv Ha Hu eq_refl) as Hh.
  pose proof (headers_tag_size _ _ _ _ Hh) as Hbv. cbn [f_tag] in Hbv.
  pose proof (h_eth _ _ _ _ Hh) as Hbe. pose proof (h_arp _ _ _ _ Hh) as Hba.
  pose proof (length_payload (name i) hostname vlan) as Hpl. destruct header_sizes as (_ & _ & E28).
  split; [|split].
  - unfold builder. rewrite build_ethernet_app by done. cbn [mbind outcome_bind].
    rewrite (assoc_L (++) (built_eth _ _ _ _)), build_arp_app by (done || rewrite length_app; lia).
    cbn [mbind outcome_bind]. rewrite (assoc_L (++) (_ ++ _) (built_arp _ _)), E28.
    rewrite copy_from_slice_app; [|rewrite ?length_app; lia..].
    cbn [mbind outcome_bind mret outcome_ret]. rewrite <- !(assoc_L (++)). do 2 f_equal; lia.
  - rewrite !length_app. lia.
  - by constructor.
Qed.

Lemma builder_panics buf i dst vlan hostname :
  u16 vlan -> len buf < frame_size (name i) hostname vlan -> builder buf i dst vlan hostname = Panic.
Proof.
  intros Hu Hl. unfold frame_size in Hl. pose proof (tag_size_range vlan) as Ht.
  destruct header_sizes as (E14 & E4 & E28). unfold builder.
  assert (Hn : forall size bs, len bs < size -> new_packet size bs = Panic).
  { intros size bs H. unfold new_packet. by destruct (Z.ltb_spec (len bs) size); [|lia]. }
  destruct (Z_lt_ge_dec (len buf) 14) as [H14|H14].
  { unfold build_ethernet. by rewrite Hn by lia. }
  destruct (split_at 14 buf) as (e & r & -> & He); [lia|]. rewrite length_app in *.
  destruct (Z_lt_ge_dec (len r) (tag_size vlan)) as [Hr|Hr].
  { pose proof (built_eth_app e (MacAddress.into (mac i)) dst vlan r He) as Hb.
    pose proof (built_eth_length e (MacAddress.into (mac i)) dst vlan He) as Hbl.
    unfold build_ethernet. rewrite new_packet_ok by (rewrite length_app; lia). cbn [mbind outcome_bind].
    unfold tag_size, built_eth in *. destruct (vlan =? 0); cbn [negb]; [lia|].
    rewrite Hb, slice_from_app by lia. cbn [mbind outcome_bind]. by rewrite Hn by lia. }
  destruct (split_at (tag_size vlan) r) as (v & r1 & -> & Hv); [lia|]. rewrite length_app in *.
  rewrite build_ethernet_app by done. cbn [mbind outcome_bind].
  pose proof (built_eth_length e (MacAddress.into (mac i)) dst vlan He) as Hbl.
  assert (Hbv : len (built_vlan v vlan) = tag_size vlan).
  { unfold tag_size in *. destruct (vlan =? 0) eqn:Hz; [by unfold built_vlan; rewrite Hz|].
    destruct (built_vlan_spec v vlan) as (? & _); [lia|done..|lia]. }
  rewrite (assoc_L (++) (built_eth _ _ _ _)).
  destruct (Z_lt_ge_dec (len r1) 28) as [Hr1|Hr1].
  { unfold build_arp. rewrite slice_from_app by (rewrite length_app; lia). cbn [mbind outcome_bind].
    by rewrite Hn by lia. }
  destruct (split_at 28 r1) as (a & r2 & -> & Ha); [lia|]. rewrite length_app in *.
  rewrite build_arp_app by (done || rewrite length_app; lia). cbn [mbind outcome_bind].
  destruct (built_arp_spec a dst Ha) as (Hba & _). unfold copy_from_slice. rewrite !length_app.
  match goal with |- context [(?a <=? ?b) && (?c <=? ?d)] => destruct (Z.leb_spec c d); [lia|] end.
  by rewrite andb_false_r.
Qed.

(** Text and a VLAN that the payload can carry. *)
Definition carries (nic host : list byte) (vlan : Z) : Prop :=
  utf8 nic = true /\ len nic < 256 /\ utf8 host = true /\ len host < 256 /\ 0 <= vlan < 65536.

Definition frame_ok (f : frame) : Prop := carries (f_nic f) (f_host f) (f_vlan f).

Definition peer_of (f : frame) : Peer := MkPeer (f_host f) (f_nic f) (f_src f) (f_vlan f).

(** The payload, read at an offset. *)
Lemma read_payload {A} pre nic host vlan rest off (k : list byte -> list byte -> list byte -> run A) :
  off = len pre -> carries nic host vlan ->
  (n ← RustStd.index off (pre ++ payload nic host vlan ++ rest);
   s ← slice (off + 1) (off + 1 + n) (pre ++ payload nic host vlan ++ rest);
   let off := off + 1 + n in
   n ← RustStd.index off (pre ++ payload nic host vlan ++ rest);
   h ← slice (off + 1) (off + 1 + n) (pre ++ payload nic host vlan ++ rest);
   let off := off + 1 + n in
   v ← slice off (off + 2) (pre ++ payload nic host vlan ++ rest);
   k s h v) = k nic host (reverse (le_split 2 vlan)).
Proof.
  intros -> (_ & Hn & _ & Hh & _). unfold payload.
  set (buf := pre ++ _ ++ rest).
  assert (E1 : buf = pre ++ char (len nic) :: (nic ++ char (len host) :: host ++ reverse (le_split 2 vlan) ++ rest)).
  { unfold buf. cbn [app]. rewrite <- !(assoc_L (++)). cbn [app]. by rewrite <- (assoc_L (++)). }
  assert (E2 : buf = (pre ++ [char (len nic)]) ++ nic ++ (char (len host) :: host ++ reverse (le_split 2 vlan) ++ rest)).
  { rewrite E1. by rewrite <- (assoc_L (++)). }
  assert (E3 : buf = (pre ++ char (len nic) :: nic) ++ char (len host) :: (host ++ reverse (le_split 2 vlan) ++ rest)).
  { rewrite E1. rewrite <- (assoc_L (++)). done. }
  assert (E4 : buf = (pre ++ char (len nic) :: nic ++ [char (len host)]) ++ host ++ (reverse (le_split 2 vlan) ++ rest)).
  { rewrite E1. rewrite <- (assoc_L (++)). cbn [app]. by rewrite <- (assoc_L (++)). }
  assert (E5 : buf = (pre ++ char (len nic) :: nic ++ char (len host) :: host) ++ reverse (le_split 2 vlan) ++ rest).
  { rewrite E1. rewrite <- (assoc_L (++)). cbn [app]. by rewrite <- (assoc_L (++)). }
  rewrite E1 at 1. rewrite index_app by done. cbn [mbind outcome_bind]. rewrite unsigned_char by lia.
  rewrite E2 at 1. rewrite slice_app by (rewrite ?length_app; cbn [length]; lia). cbn [mbind outcome_bind].
  rewrite E3 at 1. rewrite index_app by (rewrite ?length_app; cbn [length]; lia). cbn [mbind outcome_bind].
  rewrite unsigned_char by lia.
  rewrite E4 at 1. rewrite slice_app by (rewrite ?length_app; cbn [length]; rewrite ?length_app; cbn [length]; lia).
  cbn [mbind outcome_bind].
  rewrite E5 at 1. rewrite slice_app; [done|..];
    rewrite ?length_app; cbn [length]; rewrite ?length_app; cbn [length];
    rewrite ?length_reverse, ?length_le_split; lia.
Qed.

Lemma parse_encodes f buf :
  encodes f buf -> frame_ok f -> parse buf = Ok (Some (peer_of f, f_operation f =? 3)).
Proof.
  intros [e v a rest Hh] Hf. destruct header_sizes as (E14 & E4 & E28).
  pose proof (headers_tag_size _ _ _ _ Hh) as Hv. destruct Hh as [He Hd Hs Ht Ha Ho].
  set (tail := payload (f_nic f) (f_host f) (f_vlan f) ++ rest).
  assert (Ee : len e = eth_size) by lia. assert (Ea : len a = arp_size) by lia.
  unfold parse. rewrite new_packet_ok by (rewrite length_app; lia). cbn [mbind outcome_bind].
  rewrite (get_app _ _ _ _ source_ok) by done. rewrite (get_app _ _ _ _ ethertype_ok), Hs by done.
  match goal with |- context [if get ethertype e =? EtherTypes_Vlan then ?x else ?y] =>
    assert (Em : (if get ethertype e =? EtherTypes_Vlan then x else y) = Ok (EtherTypes_Aarp, eth_size + len v))
  end.
  { destruct (f_tag f =? 0) eqn:Hz.
    - destruct Ht as [-> ->]. pose proof vlan_not_aarp.
      destruct (Z.eqb_spec EtherTypes_Aarp EtherTypes_Vlan); [congruence|]. cbn [length mret outcome_ret].
      do 2 f_equal. lia.
    - destruct Ht as (Hv4 & -> & Hve & _). rewrite Z.eqb_refl, slice_from_app by done. cbn [mbind outcome_bind].
      rewrite new_packet_ok by (rewrite length_app; lia). cbn [mbind outcome_bind mret outcome_ret].
      rewrite (get_app _ _ _ _ vlan_ethertype_ok), Hve by lia. do 2 f_equal. lia. }
  rewrite Em. cbn [mbind outcome_bind]. rewrite Z.eqb_refl.
  rewrite (assoc_L (++) e), slice_from_app by (rewrite length_app; lia). cbn [mbind outcome_bind].
  rewrite new_packet_ok by (rewrite length_app; lia). cbn [mbind outcome_bind].
  rewrite (get_app _ _ _ _ operation_ok), Ho by done. unfold tail.
  rewrite (assoc_L (++) (e ++ v)).
  pose proof (read_payload ((e ++ v) ++ a) (f_nic f) (f_host f) (f_vlan f) rest (eth_size + len v + arp_size)
    (fun s h v => mret (Some (MkPeer (from_utf8_lossy h) (from_utf8_lossy s) (f_src f) (be_value v), f_operation f =? 3)))) as E.
  cbv zeta in E. cbv zeta. rewrite E; [|rewrite !length_app; lia|done].
  destruct Hf as (Hn & _ & Hhost & _ & Hvl). unfold peer_of. cbn [mret outcome_ret].
  rewrite !from_utf8_lossy_valid by done. unfold be_value.
  by rewrite reverse_involutive, le_combine_split_small by lia.
Qed.
End Frames.
