(* ===== verification/TopoPacketTheorems.v ===== *)
(** * The topology prober: properties of its packets

    What one prober builds another parses, with its VLAN tag or without it; the buffers of the
    program are large enough for both.  At the end: an implementation of the packet library. *)

From Stdlib Require Import String.
From stdpp Require Import vector.
From S2P Require Import Prelude RustStd RustStr Topo TopoPacket.

(** ** Frames in larger buffers, and without their tag *)

Section Frames.
Context {P : pnet} {L : pnet_laws}.

Lemma encodes_app f buf rest : encodes f buf -> encodes f (buf ++ rest).
Proof.
  intros [e v a r Hh]. rewrite <- !(assoc_L (++)). by constructor.
Qed.

(** The frame behind another Ethernet header, as the kernel leaves it when it removes the tag. *)
Lemma encodes_strip f buf e :
  encodes f buf -> len e = 14 -> get destination e = f_dst f -> get source e = f_src f ->
  get ethertype e = EtherTypes_Aarp ->
  encodes (untagged f) (e ++ drop (Z.to_nat (14 + tag_size (f_tag f))) buf).
Proof.
  intros [e' v a r Hh] He Hd Hs Ht. pose proof (headers_tag_size _ _ _ _ Hh) as Hv.
  pose proof (h_eth _ _ _ _ Hh) as He'. rewrite (assoc_L (++) e'), drop_app_length' by (rewrite length_app; lia).
  apply (Encodes (untagged f) e [] a). constructor; cbn; try done; apply Hh.
Qed.

Lemma slice_ok {E} a b bs : 0 <= a <= b -> b <= len bs -> exists s, slice (E := E) a b bs = Ok s.
Proof.
  intros. unfold slice. destruct (Z.leb_spec a b), (Z.leb_spec b (len bs)); try lia. cbn. by eexists.
Qed.

Lemma index_ok {E} i bs :
  0 <= i < len bs -> exists n, RustStd.index (E := E) i bs = Ok n /\ 0 <= n < 256.
Proof.
  intros H. unfold RustStd.index. destruct (bs !! Z.to_nat i) as [b|] eqn:Hb.
  - exists (byte.unsigned b). split; [done|]. apply byte.unsigned_range.
  - apply lookup_ge_None in Hb. lia.
Qed.

(** No packet makes the parser panic in a buffer of 560 bytes or more. *)
Lemma parse_ok buf : 560 <= len buf -> exists r, parse buf = Ok r.
Proof.
  intros H. destruct header_sizes as (E14 & E4 & E28). unfold parse.
  rewrite new_packet_ok by lia. cbn [mbind outcome_bind].
  match goal with |- context [if get ethertype buf =? EtherTypes_Vlan then ?x else ?y] =>
    assert (Hm : exists t off, (if get ethertype buf =? EtherTypes_Vlan then x else y) = Ok (t, off) /\ 14 <= off <= 18)
  end.
  { destruct (get ethertype buf =? EtherTypes_Vlan).
    - unfold slice_from. destruct (Z.leb_spec eth_size (len buf)); [|lia]. cbn [mbind outcome_bind].
      rewrite new_packet_ok by (rewrite length_drop; lia). cbn [mbind outcome_bind mret outcome_ret].
      do 2 eexists. split; [done|]. lia.
    - do 2 eexists. split; [done|]. lia. }
  destruct Hm as (t & off & -> & Ho). cbn [mbind outcome_bind]. destruct (t =? EtherTypes_Aarp); [|by eexists].
  unfold slice_from. destruct (Z.leb_spec off (len buf)); [|lia]. cbn [mbind outcome_bind].
  rewrite new_packet_ok by (rewrite length_drop; lia). cbn [mbind outcome_bind].
  destruct (index_ok (E := Empty_set) (off + arp_size) buf) as (n & -> & Hn); [lia|]. cbn [mbind outcome_bind].
  edestruct (slice_ok (E := Empty_set)) as (s & ->); [| |]; [lia..|]. cbn [mbind outcome_bind].
  destruct (index_ok (E := Empty_set) (off + arp_size + 1 + n) buf) as (m & -> & Hm); [lia|]. cbn [mbind outcome_bind].
  edestruct (slice_ok (E := Empty_set)) as (s' & ->); [| |]; [lia..|]. cbn [mbind outcome_bind].
  edestruct (slice_ok (E := Empty_set)) as (s'' & ->); [| |]; [lia..|]. cbn [mbind outcome_bind]. by eexists.
Qed.
End Frames.

(** ** The properties *)

Section Properties.
Context {P : pnet} {L : pnet_laws}.

Lemma builder_ok_encodes buf i dst vlan hostname buf' n :
  u16 vlan -> builder buf i dst vlan hostname = Ok (buf', n) ->
  n = frame_size (name i) hostname vlan /\ length buf' = length buf /\
  encodes (frame_of i dst vlan hostname) buf'.
Proof.
  intros Hu Hb. destruct (Z_lt_ge_dec (len buf) (frame_size (name i) hostname vlan)) as [Hl|Hl].
  - by rewrite builder_panics in Hb.
  - destruct (builder_encodes buf i dst vlan hostname Hu) as (b & E & Hlen & Henc); [lia|].
    rewrite E in Hb. by injection Hb as <- <-.
Qed.

Lemma parse_frame i dst vlan hostname f buf :
  carries (name i) hostname vlan -> f = frame_of i dst vlan hostname \/ f = untagged (frame_of i dst vlan hostname) ->
  encodes f buf ->
  parse buf = Ok (Some (MkPeer hostname (name i) (MacAddress.into (mac i)) vlan, is_broadcast dst)).
Proof.
  intros Hc Hf He. rewrite (parse_encodes f buf He).
  - destruct Hf as [-> | ->]; cbn; unfold operation_of; by destruct (is_broadcast dst).
  - by destruct Hf as [-> | ->].
Qed.

(** C27: The parser reads what the builder wrote, for a VLAN of 16 bits and names that are text and whose
    lengths fit their fields: whatever follows the packet in the buffer of the
    receiver, and whether or not the kernel has removed the VLAN tag, the peer it finds has the
    host, interface, address and VLAN of the sender, and the packet is a request when it was
    broadcast. *)
Theorem packet_roundtrip buf i dst vlan hostname buf' n rest :
  u16 vlan -> carries (name i) hostname vlan -> builder buf i dst vlan hostname = Ok (buf', n) ->
  let peer := MkPeer hostname (name i) (MacAddress.into (mac i)) vlan in
  parse (buf' ++ rest) = Ok (Some (peer, is_broadcast dst)) /\
  (forall e, len e = 14 -> get destination e = dst -> get source e = MacAddress.into (mac i) ->
     get ethertype e = EtherTypes_Aarp ->
     parse (e ++ drop (Z.to_nat (14 + tag_size vlan)) buf' ++ rest) = Ok (Some (peer, is_broadcast dst))).
Proof.
  intros Hu Hc Hb peer. destruct (builder_ok_encodes _ _ _ _ _ _ _ Hu Hb) as (_ & _ & He). split.
  - apply (parse_frame i dst vlan hostname (frame_of i dst vlan hostname) _ Hc); [by left|by apply encodes_app].
  - intros e Hl Hd Hs Ht. apply (parse_frame i dst vlan hostname (untagged (frame_of i dst vlan hostname)) _ Hc); [by right|].
    rewrite (assoc_L (++)). apply encodes_app. by apply encodes_strip.
Qed.

(** The builder panics exactly when the packet does not fit its buffer, and fills a prefix of
    it otherwise; with the names Linux allows, an interface of at most 15 bytes and a host of at
    most 64, every packet fits the 256 bytes of the program. *)
Theorem builder_fits buf i dst vlan hostname :
  u16 vlan ->
  (builder buf i dst vlan hostname = Panic <-> len buf < frame_size (name i) hostname vlan) /\
  (forall buf' n, builder buf i dst vlan hostname = Ok (buf', n) ->
     n = frame_size (name i) hostname vlan /\ length buf' = length buf) /\
  (len buf = 256 -> len (name i) <= 15 -> len hostname <= 64 ->
     builder buf i dst vlan hostname <> Panic).
Proof.
  intros Hu. assert (Hiff : builder buf i dst vlan hostname = Panic <-> len buf < frame_size (name i) hostname vlan).
  { split; [|by apply builder_panics]. intros Hp. apply Znot_ge_lt. intros Hge.
    destruct (builder_encodes buf i dst vlan hostname Hu) as (b & E & _); [lia|]. by rewrite E in Hp. }
  split; [done|]. split.
  - intros buf' n Hb. by destruct (builder_ok_encodes _ _ _ _ _ _ _ Hu Hb) as (? & ? & _).
  - intros Hl Hn Hh. rewrite Hiff. unfold frame_size. pose proof (tag_size_range vlan). lia.
Qed.

(** No packet can stop a receiver: in the buffer of 1024 bytes of the program, and in any of
    560 or more, parsing every content ends without a panic. *)
Theorem parse_never_panics buf : 560 <= len buf -> exists r, parse buf = Ok r.
Proof. apply parse_ok. Qed.
End Properties.

(** ** The packet library, implemented: big-endian fields at the offsets of the protocols *)

Module Wire.
Definition write (off : nat) (src bs : list byte) : list byte :=
  take off bs ++ src ++ drop (off + length src) bs.
Definition octet (i : nat) (bs : list byte) : byte := default Byte.x00 (bs !! i).

Definition be_field (off n : nat) : field Z :=
  Field (fun bs => be_value (take n (drop off bs))) (fun v bs => write off (reverse (le_split n v)) bs).
Definition mac_field (off : nat) : field octets :=
  Field (fun bs => [# octet off bs; octet (1 + off) bs; octet (2 + off) bs; octet (3 + off) bs;
                      octet (4 + off) bs; octet (5 + off) bs])
        (fun v bs => write off (vec_to_list v) bs).
(** The low twelve bits of the first two bytes. *)
Definition vid_field : field Z :=
  Field (fun bs => Z.land (get (be_field 0 2) bs) 4095)
        (fun v bs => set (be_field 0 2) (Z.lor (Z.land (get (be_field 0 2) bs) 0xf000) (Z.land v 4095)) bs).

#[export] Instance wire : pnet :=
  Pnet 14 4 28 (mac_field 0) (mac_field 6) (be_field 12 2) vid_field (be_field 2 2)
    (be_field 0 2) (be_field 2 2) (be_field 4 1) (be_field 5 1) (be_field 6 2)
    0x8100 0x80f3 0x0800 1 (vreplicate 6 Byte.xff) (fun m => bool_decide (m = vreplicate 6 Byte.xff)).

Lemma be_value_split n v : 0 <= v < 2 ^ (8 * Z.of_nat n) -> be_value (reverse (le_split n v)) = v.
Proof. intros. unfold be_value. by rewrite reverse_involutive, le_combine_split_small. Qed.

Lemma write_length off src bs : (off + length src <= length bs)%nat -> length (write off src bs) = length bs.
Proof. intros. unfold write. rewrite !length_app, length_take, length_drop. lia. Qed.

Lemma write_app off src bs rest :
  (off + length src <= length bs)%nat -> write off src (bs ++ rest) = write off src bs ++ rest.
Proof.
  intros. unfold write. rewrite take_app_le, drop_app_le by lia. by rewrite <- !(assoc_L (++)).
Qed.

Lemma read_write off src bs n :
  (off + length src <= length bs)%nat -> n = length src -> take n (drop off (write off src bs)) = src.
Proof.
  intros H ->. unfold write. rewrite drop_app_length' by (rewrite length_take; lia). by rewrite take_app_length.
Qed.

Lemma write_lookup off src bs i :
  (off + length src <= length bs)%nat ->
  write off src bs !! i = if decide (off <= i < off + length src)%nat then src !! (i - off)%nat else bs !! i.
Proof.
  intros H. unfold write. case_decide as Hi.
  - rewrite lookup_app_r by (rewrite length_take; lia). rewrite length_take, Nat.min_l by lia.
    by rewrite lookup_app_l by lia.
  - destruct (decide (i < off)%nat).
    + rewrite lookup_app_l by (rewrite length_take; lia). by rewrite lookup_take_lt.
    + rewrite lookup_app_r by (rewrite length_take; lia). rewrite length_take, Nat.min_l by lia.
      rewrite lookup_app_r, lookup_drop by lia. f_equal. lia.
Qed.

Lemma read_write_other off src bs off' n :
  (off + length src <= length bs)%nat -> (off' + n <= off \/ off + length src <= off')%nat ->
  take n (drop off' (write off src bs)) = take n (drop off' bs).
Proof.
  intros H Hd. apply list_eq. intros i. rewrite !lookup_take, !lookup_drop. case_decide; [|done].
  rewrite write_lookup by done. by rewrite decide_False by lia.
Qed.

Lemma be_field_ok size off n :
  Z.of_nat (off + n) <= size -> let fits z := 0 <= z < 2 ^ (8 * Z.of_nat n) in field_ok size fits fits (be_field off n).
Proof.
  intros Hs fits. assert (Hl : forall v, length (reverse (le_split n v)) = n).
  { intros v. by rewrite length_reverse, length_le_split. }
  constructor; cbn [get set be_field].
  - intros v bs Hb Hv. rewrite write_length by (rewrite Hl; lia). done.
  - intros v bs Hb Hv. rewrite read_write by (rewrite ?Hl; lia). by apply be_value_split.
  - intros v bs rest Hb Hv. by rewrite write_app by (rewrite Hl; lia).
  - intros bs rest Hb. rewrite drop_app_le by lia. by rewrite take_app_le by (rewrite length_drop; lia).
Qed.

Lemma octet_app i bs rest : (i < length bs)%nat -> octet i (bs ++ rest) = octet i bs.
Proof. intros. unfold octet. by rewrite lookup_app_l. Qed.

Lemma octet_write off (v : octets) bs i :
  (off + 6 <= length bs)%nat -> (i < 6)%nat -> octet (i + off) (write off (vec_to_list v) bs) = default Byte.x00 (vec_to_list v !! i).
Proof.
  intros H Hi. unfold octet. rewrite write_lookup by (rewrite length_vec_to_list; lia).
  rewrite length_vec_to_list, decide_True by lia. by replace (i + off - off)%nat with i by lia.
Qed.

Lemma mac_field_ok size off : Z.of_nat off + 6 <= size -> field_ok size any any (mac_field off).
Proof.
  intros Hs. constructor; cbn [get set mac_field].
  - intros v bs Hb _. rewrite write_length; [done|rewrite length_vec_to_list; lia].
  - intros v bs Hb _. pose proof (fun i => octet_write off v bs i ltac:(lia)) as H.
    rewrite (H 1%nat), (H 2%nat), (H 3%nat), (H 4%nat), (H 5%nat) by lia.
    specialize (H 0%nat ltac:(lia)). cbn in H. rewrite H. inv_all_vec_fin. reflexivity.
  - intros v bs rest Hb _. apply write_app. rewrite length_vec_to_list. lia.
  - intros bs rest Hb. by rewrite !octet_app by lia.
Qed.

Lemma vid_bits a v :
  0 <= a < 2 ^ 16 -> 0 <= v ->
  0 <= Z.lor (Z.land a 0xf000) (Z.land v 4095) < 2 ^ 16 /\
  (v < 2 ^ 12 -> Z.land (Z.lor (Z.land a 0xf000) (Z.land v 4095)) 4095 = v).
Proof.
  intros Ha Hv. assert (Ev : Z.land v 4095 = v mod 2 ^ 12) by by apply (Z.land_ones v 12).
  pose proof (Z.mod_pos_bound v (2 ^ 12)) as Hm. rewrite Ev. set (w := v mod 2 ^ 12) in *.
  assert (Hp : 0 <= Z.lor (Z.land a 61440) w).
  { apply Z.lor_nonneg. split; [apply Z.land_nonneg; by right|lia]. }
  assert (Hl : forall z, 0 <= z -> z < 2 ^ 16 -> Z.log2 z < 16).
  { intros z Hz Hz'. destruct (Z.eq_dec z 0) as [->|]; [by vm_compute|]. apply Z.log2_lt_pow2; lia. }
  split; [split; [done|]|].
  - destruct (Z.eq_dec (Z.lor (Z.land a 61440) w) 0) as [->|Hne]; [done|].
    apply Z.log2_lt_pow2; [lia|].
    rewrite Z.log2_lor by (try apply Z.land_nonneg; auto; lia).
    apply Z.max_lub_lt; [|apply Hl; lia].
    eapply Z.le_lt_trans; [apply Z.log2_land; lia|]. apply Z.min_lt_iff. left. apply Hl; lia.
  - intros Hlt. rewrite Z.land_lor_distr_l, <- Z.land_assoc. change (Z.land 61440 4095) with 0.
    rewrite Z.land_0_r, Z.lor_0_l. assert (Hw : w = v) by (by apply Z.mod_small). by rewrite Hw, Ev.
Qed.

Lemma vid_field_ok size : 2 <= size -> field_ok size u16 u12 vid_field.
Proof.
  intros Hs. pose proof (be_field_ok size 0 2 ltac:(lia)) as [H1 H2 H3 H4].
  assert (Hr : forall bs, len bs = size -> 0 <= get (be_field 0 2) bs < 2 ^ 16).
  { intros bs Hb. cbn [get be_field]. pose proof (be_value_range (take 2 (drop 0 bs))) as H.
    rewrite length_take, length_drop, Nat.min_l in H by lia. exact H. }
  assert (Hv : forall v bs, len bs = size -> u16 v ->
    0 <= Z.lor (Z.land (get (be_field 0 2) bs) 0xf000) (Z.land v 4095) < 2 ^ (8 * Z.of_nat 2)).
  { intros v bs Hb [Hu _]. by apply (vid_bits _ _ (Hr bs Hb)). }
  constructor; cbn [get set vid_field].
  - intros v bs Hb Hu. apply H1; auto.
  - intros v bs Hb Hu. assert (u16 v) by (unfold u12, u16 in *; lia).
    rewrite H2 by auto. destruct Hu as [Hu0 Hu1]. by apply (vid_bits _ _ (Hr bs Hb)).
  - intros v bs rest Hb Hu. rewrite H4, H3; auto.
  - intros bs rest Hb. by rewrite H4.
Qed.

Lemma separate_writes {A B} size fits off n (f : field A) (g : field B) off' n' src :
  (forall v bs, set f v bs = write off (src v bs) bs) -> (forall v bs, length (src v bs) = n) ->
  (forall bs bs', (forall i, off' <= i < off' + n' -> bs !! i = bs' !! i)%nat -> get g bs = get g bs') ->
  Z.of_nat (off + n) <= size -> (off' + n' <= off \/ off + n <= off')%nat -> separate size fits f g.
Proof.
  intros Hf Hn Hg Hs Hd v bs Hb _. rewrite Hf. apply Hg. intros i Hi.
  rewrite write_lookup by (rewrite Hn; lia). rewrite Hn. by rewrite decide_False by lia.
Qed.

Lemma be_field_reads off n bs bs' :
  (forall i, off <= i < off + n -> bs !! i = bs' !! i)%nat -> get (be_field off n) bs = get (be_field off n) bs'.
Proof.
  intros H. cbn [get be_field]. f_equal. apply list_eq. intros i. rewrite !lookup_take, !lookup_drop.
  case_decide; [|done]. apply H. lia.
Qed.

Lemma mac_field_reads off bs bs' :
  (forall i, off <= i < off + 6 -> bs !! i = bs' !! i)%nat -> get (mac_field off) bs = get (mac_field off) bs'.
Proof. intros H. cbn [get mac_field]. unfold octet. by rewrite !H by lia. Qed.

#[export] Instance wire_laws : pnet_laws.
Proof.
  constructor; cbn.
  - done.
  - by apply mac_field_ok.
  - by apply mac_field_ok.
  - by apply (be_field_ok 14 12 2).
  - by apply vid_field_ok.
  - by apply (be_field_ok 4 2 2).
  - by apply (be_field_ok 28 0 2).
  - by apply (be_field_ok 28 2 2).
  - by apply (be_field_ok 28 4 1).
  - by apply (be_field_ok 28 5 1).
  - by apply (be_field_ok 28 6 2).
  - apply (separate_writes _ _ 6 6 _ _ 0 6 (fun v _ => vec_to_list v));
      [done|intros; by rewrite length_vec_to_list|apply (mac_field_reads 0)|lia..].
  - apply (separate_writes _ _ 12 2 _ _ 0 6 (fun v _ => reverse (le_split 2 v)));
      [done|intros; by rewrite length_reverse|apply (mac_field_reads 0)|lia..].
  - apply (separate_writes _ _ 12 2 _ _ 6 6 (fun v _ => reverse (le_split 2 v)));
      [done|intros; by rewrite length_reverse|apply (mac_field_reads 6)|lia..].
  - apply (separate_writes _ _ 2 2 _ _ 0 2 (fun v _ => reverse (le_split 2 v)));
      [done|intros; by rewrite length_reverse| |lia..].
    intros bs bs' H. cbn [get vid_field]. by rewrite (be_field_reads 0 2 bs bs').
  - repeat (constructor; [by vm_compute|]). constructor.
  - done.
  - intros m. apply bool_decide_eq_true.
Qed.
End Wire.

(** ** Witnesses, with that implementation *)

Import Wire.

Definition sample_interface : Interface :=
  MkInterface 2 (lit "eth0") (MkMac Byte.x00 Byte.x1b Byte.x21 Byte.xaa Byte.xbb Byte.xcc) Up.

(** A request of [sample_interface] in VLAN 10, from the host [srv1]. *)
Definition sample_packet : list byte :=
  match builder (zeros 256) sample_interface broadcast 10 (lit "srv1") with Ok (b, _) => b | _ => [] end.
Definition sample_peer : Peer :=
  MkPeer (lit "srv1") (lit "eth0") (MacAddress.into (mac sample_interface)) 10.

Lemma packet_roundtrip_witness : parse (sample_packet ++ zeros 768) = Ok (Some (sample_peer, true)).
Proof.
  destruct (packet_roundtrip (zeros 256) sample_interface broadcast 10 (lit "srv1") sample_packet 58 (zeros 768))
    as [E _]; [done|repeat split; done|by vm_compute|]. rewrite E. by vm_compute.
Defined.

Lemma builder_fits_witness : builder (zeros 32) sample_interface broadcast 10 (lit "srv1") = Panic.
Proof. by apply (builder_fits (zeros 32) sample_interface broadcast 10 (lit "srv1")). Defined.

Lemma parse_never_panics_witness : exists r, parse (zeros 1024) = Ok r.
Proof. by apply (parse_never_panics (zeros 1024)). Defined.
