(* ===== verification/TopoSystem.v ===== *)
(** * The topology prober: its tasks, and a network of hosts that run it

    [main.rs]: the main task, one receiver per interface, the sender and the task that shows the
    topology, connected by two unbounded channels.  A label is one turn of a task; [step] is the
    code the task runs in that turn, up to its next [await].  A call of the kernel that fails is
    part of the label.  A task that panics stops, and with it the channel it reads. *)

From Stdlib Require Import String.
From stdpp Require Import vector.
From S2P Require Import Prelude RustStd RustStr Topo TopoPacket.

(** ** What [main] prepares *)

(** [hostname]: the array [nodename], when [uname] succeeds. *)
Fixpoint drop_nul (s : list byte) : list byte :=
  match s with b :: s' => if bool_decide (b = Byte.x00) then drop_nul s' else s | [] => [] end.
Definition hostname (nodename : option (list byte)) : list byte :=
  match nodename with
  | Some name => reverse (drop_nul (reverse (from_utf8_lossy name)))
  | None => []
  end.

Record Opt := MkOpt { vlan : list (Z * Z); interface : option (list (list byte)) }.

(** The ranges to probe; untagged packets are always sent. *)
Definition vlan_ranges (opt : Opt) : list (Z * Z) :=
  (if bool_decide (vlan opt = []) then [(1, 4094)] else vlan opt) ++ [(0, 0)].

(** The interfaces to use. *)
Definition use_nics (opt : Opt) (nics : list Interface) : list Interface :=
  let nics := match interface opt with
              | Some names => base.filter (fun n => name n ∈ names) nics
              | None => nics
              end in
  base.filter (fun n => state n = Up) nics.

(** ** The state of a host *)

(** Where [show_topo] is: at [recv], or in its pause of 300 ms. *)
Inductive phase := Waiting | Sleeping.

#[export] Instance phase_eq_dec : EqDecision phase.
Proof. solve_decision. Defined.

(** A message of the channels: an interface and a peer. *)
Abbreviation message := (Z * Peer)%type.

Record host_state := HostState {
  s_host : list byte;                 (* the host's name *)
  s_nics : list Interface;
  s_todo : list message;              (* the probes [main] has still to send to the sender *)
  s_ptx : list message;               (* the channel to [send_packet] *)
  s_ttx : list message;               (* the channel to [show_topo] *)
  s_topo : topo;
  s_phase : phase;
  s_screen : option topo;             (* the topology last printed *)
  s_sent : list (Z * list byte);      (* the buffers [send] has sent, with their interface *)
  s_main : bool; s_sender : bool; s_shower : bool;  (* the tasks that have not panicked *)
  s_receivers : list Z }.

Definition with_todo l s := HostState (s_host s) (s_nics s) l (s_ptx s) (s_ttx s) (s_topo s) (s_phase s)
  (s_screen s) (s_sent s) (s_main s) (s_sender s) (s_shower s) (s_receivers s).
Definition with_ptx l s := HostState (s_host s) (s_nics s) (s_todo s) l (s_ttx s) (s_topo s) (s_phase s)
  (s_screen s) (s_sent s) (s_main s) (s_sender s) (s_shower s) (s_receivers s).
Definition with_ttx l s := HostState (s_host s) (s_nics s) (s_todo s) (s_ptx s) l (s_topo s) (s_phase s)
  (s_screen s) (s_sent s) (s_main s) (s_sender s) (s_shower s) (s_receivers s).
Definition with_topo t s := HostState (s_host s) (s_nics s) (s_todo s) (s_ptx s) (s_ttx s) t (s_phase s)
  (s_screen s) (s_sent s) (s_main s) (s_sender s) (s_shower s) (s_receivers s).
Definition with_phase p s := HostState (s_host s) (s_nics s) (s_todo s) (s_ptx s) (s_ttx s) (s_topo s) p
  (s_screen s) (s_sent s) (s_main s) (s_sender s) (s_shower s) (s_receivers s).
Definition with_screen t s := HostState (s_host s) (s_nics s) (s_todo s) (s_ptx s) (s_ttx s) (s_topo s)
  (s_phase s) t (s_sent s) (s_main s) (s_sender s) (s_shower s) (s_receivers s).
Definition with_sent l s := HostState (s_host s) (s_nics s) (s_todo s) (s_ptx s) (s_ttx s) (s_topo s)
  (s_phase s) (s_screen s) l (s_main s) (s_sender s) (s_shower s) (s_receivers s).
Definition main_panics s := HostState (s_host s) (s_nics s) (s_todo s) (s_ptx s) (s_ttx s) (s_topo s)
  (s_phase s) (s_screen s) (s_sent s) false (s_sender s) (s_shower s) (s_receivers s).
Definition sender_panics s := HostState (s_host s) (s_nics s) (s_todo s) (s_ptx s) (s_ttx s) (s_topo s)
  (s_phase s) (s_screen s) (s_sent s) (s_main s) false (s_shower s) (s_receivers s).
Definition shower_panics s := HostState (s_host s) (s_nics s) (s_todo s) (s_ptx s) (s_ttx s) (s_topo s)
  (s_phase s) (s_screen s) (s_sent s) (s_main s) (s_sender s) false (s_receivers s).
Definition receiver_panics t s := HostState (s_host s) (s_nics s) (s_todo s) (s_ptx s) (s_ttx s) (s_topo s)
  (s_phase s) (s_screen s) (s_sent s) (s_main s) (s_sender s) (s_shower s)
  (base.filter (fun i => i <> t) (s_receivers s)).

Section System.
Context {P : pnet} (checks : bool).

(** ** [main]: the probes and the initial state *)

Definition probe (nic : Interface) (vlan : Z) : message := (index nic, MkPeer [] [] broadcast vlan).

Definition probes (nics : list Interface) (vlans : list (Z * Z)) : list message :=
  nic ← nics; '(start, end_) ← vlans; probe nic <$> seqZ start (end_ - start + 1).

Definition start (opt : Opt) (nodename : option (list byte)) (nics : list Interface) : host_state :=
  let vlans := vlan_ranges opt in
  let name := hostname nodename in
  let nics := use_nics opt nics in
  if bool_decide (nics = [])
  then HostState name nics [] [] [] ∅ Waiting None [] false false false []
  else HostState name nics (probes nics vlans) [] [] ∅ Waiting None [] true true true (index <$> nics).

(** ** The tasks *)

(** [nics.iter().filter(|n| n.index == ifindex)], its first element. *)
Definition find_nic (nics : list Interface) (ifindex : Z) : option Interface :=
  head (base.filter (fun n => index n = ifindex) nics).

(** [show_topo]: the entry of a message. *)
Definition update_topo (host : list byte) (i : Interface) (peer : Peer) (t : topo) : topo :=
  let me := MkNode host i in
  let p := MkNode (peer_host peer)
             (MkInterface 0 (peer_nic peer) (MacAddress.from (peer_mac peer)) OperState.default) in
  match t !! (me, p) with
  | Some v => <[(me, p) := dedup (sort (v ++ [peer_vlan peer]))]> t
  | None => <[(me, p) := [peer_vlan peer]]> t
  end.

(** The loop of [show_topo] from [recv] on. *)
Definition show_topo (m : message) (s : host_state) : host_state :=
  match find_nic (s_nics s) m.1 with
  | None => s
  | Some i =>
      let s := with_topo (update_topo (s_host s) i m.2 (s_topo s)) s in
      if bool_decide (s_ttx s = []) then with_phase Sleeping s else s
  end.

(** After the pause: the screen is drawn when no message has arrived. *)
Definition show_topo_wakes (s : host_state) : host_state :=
  let s := with_phase Waiting s in
  if bool_decide (s_ttx s = []) then
    match show_topo_links checks (map_to_list (s_topo s)) with
    | Ok _ => with_screen (Some (s_topo s)) s
    | _ => shower_panics s
    end
  else s.

(** The loop of [recv_packet] on interface [t], from what [sock.recv] returns: the interface a
    packet came from and the buffer, or an error. *)
Definition recv_packet (t : Z) (result : option (Z * list byte)) (s : host_state) : host_state :=
  match result with
  | None => receiver_panics t s
  | Some (ifindex, buf) =>
      match parse buf with
      | Ok None => s
      | Ok (Some (peer, request)) =>
          let forward s :=
            if s_shower s then with_ttx (s_ttx s ++ [(ifindex, peer)]) s else receiver_panics t s in
          if (request : bool) then
            if s_sender s then forward (with_ptx (s_ptx s ++ [(ifindex, peer)]) s)
            else receiver_panics t s
          else forward s
      | _ => receiver_panics t s
      end
  end.

(** The loop of [send_packet]; [promisc] and [sent] say whether [set_promiscuous] and [send] succeed.
    What [send] returns is dropped: a packet it does not send is lost. *)
Definition send_packet (promisc sent : bool) (m : message) (s : host_state) : host_state :=
  match find_nic (s_nics s) m.1 with
  | None => s
  | Some i =>
      match builder (zeros 256) i (peer_mac m.2) (peer_vlan m.2) (s_host s) with
      | Ok (buf, _) =>
          if promisc then if sent then with_sent (s_sent s ++ [(m.1, buf)]) s else s
          else sender_panics s
      | _ => sender_panics s
      end
  end.

(** [ptx.send(...).unwrap()] in the loop of [main]. *)
Definition main_sends (m : message) (s : host_state) : host_state :=
  if s_sender s then with_ptx (s_ptx s ++ [m]) s else main_panics s.

(** ** Turns *)

Inductive label :=
| LMain
| LSend (promisc sent : bool)
| LRecv (task : Z) (result : option (Z * list byte))
| LShow
| LWake.

Definition step (l : label) (s : host_state) : option host_state :=
  match l with
  | LMain =>
      match s_main s, s_todo s with
      | true, m :: todo => Some (main_sends m (with_todo todo s))
      | _, _ => None
      end
  | LSend promisc sent =>
      match s_sender s, s_ptx s with
      | true, m :: ptx => Some (send_packet promisc sent m (with_ptx ptx s))
      | _, _ => None
      end
  | LRecv t result =>
      if bool_decide (t ∈ s_receivers s) then Some (recv_packet t result s) else None
  | LShow =>
      match s_shower s, s_phase s, s_ttx s with
      | true, Waiting, m :: ttx => Some (show_topo m (with_ttx ttx s))
      | _, _, _ => None
      end
  | LWake =>
      match s_shower s, s_phase s with
      | true, Sleeping => Some (show_topo_wakes s)
      | _, _ => None
      end
  end.

(** A run: the turns of a list of labels. *)
Inductive steps : list label -> host_state -> host_state -> Prop :=
| steps_nil s : steps [] s s
| steps_cons l ls s s1 s2 : step l s = Some s1 -> steps ls s1 s2 -> steps (l :: ls) s s2.

(** The run of a list of labels, when every one of its turns can be taken. *)
Fixpoint exec (ls : list label) (s : host_state) : option host_state :=
  match ls with
  | [] => Some s
  | l :: ls => s ← step l s; exec ls s
  end.

(** A turn in which the kernel does its part: the calls whose failure is a panic succeed, and a
    socket bound to an interface receives, in the buffer of 1024 bytes, packets of that
    interface.  [send] may fail. *)
Definition io_ok (l : label) : Prop :=
  match l with
  | LSend promisc _ => promisc = true
  | LRecv t (Some (from, buf)) => from = t /\ len buf = 1024
  | LRecv t None => False
  | _ => True
  end.

(** A turn in which a packet that is to be sent is sent. *)
Definition sends_ok (l : label) : Prop := match l with LSend _ sent => sent = true | _ => True end.

(** ** A network *)

(** The VLAN of a packet's tag, 0 without one. *)
Definition tag_of (buf : list byte) : Z :=
  if get ethertype buf =? EtherTypes_Vlan then get vlan_identifier (drop 14 buf) else 0.

(** A buffer in which a packet is received: as it was sent, or without its tag. *)
Inductive arrives (buf : list byte) : list byte -> Prop :=
| arrives_whole rest : arrives buf (buf ++ rest)
| arrives_untagged e rest :
    get ethertype buf = EtherTypes_Vlan -> len e = 14 ->
    get destination e = get destination buf -> get source e = get source buf ->
    get ethertype e = get vlan_ethertype (drop 14 buf) ->
    arrives buf (e ++ drop 18 buf ++ rest).

(** [wire h i v h' j]: what host [h] sends on its interface [i] in VLAN [v] can reach interface [j]
    of host [h']. *)
Context (wire : nat -> Z -> Z -> nat -> Z -> Prop).

(** Hosts take turns; what was sent arrives any number of times, at any time. *)
Inductive net_step : list host_state -> list host_state -> Prop :=
| net_local net h l s s' :
    net !! h = Some s -> io_ok l -> (forall t r, l <> LRecv t r) -> step l s = Some s' ->
    net_step net (<[h := s']> net)
| net_deliver net h s i buf h' j buf' s' s'' :
    net !! h = Some s -> (i, buf) ∈ s_sent s -> wire h i (tag_of buf) h' j ->
    net !! h' = Some s' -> len buf' = 1024 -> arrives buf buf' ->
    step (LRecv j (Some (j, buf'))) s' = Some s'' ->
    net_step net (<[h' := s'']> net).
End System.
