(* ===== verification/TopoSystemTheorems.v ===== *)
(** * The topology prober: properties of a host

    A host: its tasks do not panic, its screen is current, its topology is exactly what it has
    received, its probes are all sent and its messages all recorded. *)

From Stdlib Require Import String.
From stdpp Require Import vector.
From S2P Require Import Prelude RustStd RustStr Topo TopoTheorems TopoPacket TopoPacketTheorems TopoSystem.

(** ** The topology *)

Definition peer_node (peer : Peer) : Node :=
  MkNode (peer_host peer)
    (MkInterface 0 (peer_nic peer) (MacAddress.from (peer_mac peer)) OperState.default).

(** The VLANs of a connection. *)
Definition vlans_of (t : topo) (k : Node * Node) : list Z := default [] (t !! k).

Definition topo_ok (t : topo) : Prop := map_Forall (fun _ l => vlans_ok l /\ l <> []) t.

Lemma sort_dedup_ok l : Forall u16 l -> vlans_ok (dedup (sort l)).
Proof.
  intros H. split; [apply dedup_sorted, sort_sorted|]. apply Forall_forall. intros v Hv.
  rewrite elem_of_dedup, elem_of_sort in Hv. rewrite Forall_forall in H. apply H, Hv.
Qed.

Lemma dedup_sort_nonempty l : l <> [] -> dedup (sort l) <> [].
Proof.
  destruct l as [|a l]; [done|]. intros _ H.
  assert (Ha : a ∈ dedup (sort (a :: l))) by (rewrite elem_of_dedup, elem_of_sort; apply elem_of_cons; by left).
  rewrite H in Ha. by apply not_elem_of_nil in Ha.
Qed.

Lemma update_topo_ok host i peer t : u16 (peer_vlan peer) -> topo_ok t -> topo_ok (update_topo host i peer t).
Proof.
  intros Hu Ht. unfold update_topo. destruct (t !! _) as [l|] eqn:El.
  - apply map_Forall_insert_2; [|done]. destruct (Ht _ _ El) as [[_ Hl] _]. split.
    + apply sort_dedup_ok, Forall_app. by split; [|constructor].
    + apply dedup_sort_nonempty. by destruct l.
  - apply map_Forall_insert_2; [|done]. split; [|done]. split; repeat constructor; apply Hu.
Qed.

(** A message adds its VLAN to its connection, and nothing else. *)
Lemma update_topo_vlans host i peer t k v :
  v ∈ vlans_of (update_topo host i peer t) k <->
  v ∈ vlans_of t k \/ (k = (MkNode host i, peer_node peer) /\ v = peer_vlan peer).
Proof.
  unfold update_topo, vlans_of. fold (peer_node peer). set (k' := (MkNode host i, peer_node peer)).
  destruct (t !! k') as [l|] eqn:El; destruct (decide (k = k')) as [->|Hne].
  - rewrite lookup_insert_eq, El. cbn. rewrite elem_of_dedup, elem_of_sort. set_solver.
  - rewrite lookup_insert_ne by done. naive_solver.
  - rewrite lookup_insert_eq, El. cbn. set_solver.
  - rewrite lookup_insert_ne by done. naive_solver.
Qed.

Lemma collect_ok {E A B} (f : A -> outcome E B) l :
  (forall a, a ∈ l -> exists b, f a = Ok b) -> exists bs, collect f l = Ok bs.
Proof.
  induction l as [|a l IH]; intros H; [by eexists|]. cbn [collect].
  destruct (H a) as [b ->]; [set_solver|]. destruct IH as [bs Hbs]; [set_solver|].
  cbn [mbind outcome_bind]. rewrite Hbs. by eexists.
Qed.

(** Printing a topology does not panic. *)
Lemma show_topo_links_ok checks t :
  topo_ok t -> exists text, show_topo_links checks (map_to_list t) = Ok text.
Proof.
  intros Ht. unfold show_topo_links. destruct (collect_ok (show_link checks) (map_to_list t)) as [ls ->].
  - intros [k l] Hin%elem_of_map_to_list. destruct (Ht k l Hin) as [Hl _].
    destruct (show_vlan_spec checks l Hl) as (rs & Hs & _). unfold show_link. cbn [snd]. rewrite Hs. by eexists.
  - by eexists.
Qed.

(** ** A host: the invariant of its runs *)

(** The cases of a turn: one goal for every way through the code of its task. *)
Ltac turn_cases H :=
  match type of H with step _ ?l _ = _ => try (is_var l; destruct l) end; cbn [step] in H;
  repeat match type of H with context [match ?x with _ => _ end] => destruct x eqn:?; try discriminate H end;
  injection H as <-; unfold main_sends, send_packet, recv_packet, show_topo, show_topo_wakes; cbn;
  repeat (case_match; cbn in * ); simplify_eq; try done.

Section Host.
Context {P : pnet} {L : pnet_laws} (checks : bool).

Lemma parse_vlan buf peer request : parse buf = Ok (Some (peer, request)) -> u16 (peer_vlan peer).
Proof.
  destruct header_sizes as (E14 & E4 & E28). unfold parse.
  intros (? & _ & H)%bind_Ok. apply bind_Ok in H as ([ty off] & Hoff & H).
  assert (Ho : 0 <= off).
  { destruct (get ethertype buf =? EtherTypes_Vlan).
    - apply bind_Ok in Hoff as (? & _ & Hoff). apply bind_Ok in Hoff as (? & _ & [= _ <-]). lia.
    - injection Hoff as _ <-. lia. }
  destruct (ty =? EtherTypes_Aarp); [|done]. cbv zeta in H.
  apply bind_Ok in H as (? & _ & H). apply bind_Ok in H as (? & _ & H).
  apply bind_Ok in H as (n & Hn%index_range & H). apply bind_Ok in H as (? & _ & H).
  apply bind_Ok in H as (m & Hm%index_range & H). apply bind_Ok in H as (? & _ & H).
  apply bind_Ok in H as (v & Hv & [= <- _]). apply slice_length in Hv; [|lia].
  pose proof (be_value_range v) as Hr. replace (len v) with 2 in Hr by lia. exact Hr.
Qed.

(** The limits Linux sets: 15 bytes for an interface, 64 for a host. *)
Definition names_ok (host : list byte) (nics : list Interface) : Prop :=
  len host <= 64 /\ Forall (fun n => len (name n) <= 15) nics.

Lemma find_nic_spec nics ifindex i : find_nic nics ifindex = Some i -> i ∈ nics /\ index i = ifindex.
Proof.
  unfold find_nic. intros H. assert (Hin : i ∈ base.filter (fun n => index n = ifindex) nics).
  { destruct (base.filter _ _); [done|]. injection H as ->. apply elem_of_cons. by left. }
  by apply list_elem_of_filter in Hin as [? ?].
Qed.

Lemma find_nic_some nics ifindex : ifindex ∈ index <$> nics -> is_Some (find_nic nics ifindex).
Proof.
  intros (n & -> & Hn)%list_elem_of_fmap. unfold find_nic.
  assert (Hin : n ∈ base.filter (fun n' => index n' = index n) nics) by by apply list_elem_of_filter.
  destruct (base.filter _ _); [by apply not_elem_of_nil in Hin|]. by eexists.
Qed.

Lemma builder_256 host nics i dst vlan :
  names_ok host nics -> i ∈ nics -> u16 vlan ->
  exists buf n, builder (zeros 256) i dst vlan host = Ok (buf, n) /\ encodes (frame_of i dst vlan host) buf.
Proof.
  intros [Hh Hn] Hi Hu. rewrite Forall_forall in Hn. specialize (Hn i Hi).
  destruct (builder_encodes (zeros 256) i dst vlan host Hu) as (buf & E & _ & He); [|by eauto].
  unfold frame_size. pose proof (tag_size_range vlan). rewrite length_zeros by lia. lia.
Qed.

Definition message_ok (m : message) : Prop := u16 (peer_vlan m.2).
Definition received_here (nics : list Interface) (m : message) : Prop := m.1 ∈ index <$> nics.

Record host_inv (s : host_state) : Prop := HostInv {
  inv_names : names_ok (s_host s) (s_nics s);
  inv_todo : Forall message_ok (s_todo s);
  inv_ptx : Forall message_ok (s_ptx s);
  inv_ttx : Forall message_ok (s_ttx s);
  inv_here : Forall (received_here (s_nics s)) (s_ttx s);
  inv_topo : topo_ok (s_topo s);
  inv_screen : s_phase s = Waiting -> s_ttx s = [] -> s_topo s = ∅ \/ s_screen s = Some (s_topo s);
  inv_main : s_main s = true;
  inv_sender : s_sender s = true;
  inv_shower : s_shower s = true;
  inv_receivers : s_receivers s = index <$> s_nics s }.

Lemma recv_packet_inv t from buf s :
  host_inv s -> from = t -> t ∈ s_receivers s -> len buf = 1024 ->
  host_inv (recv_packet t (Some (from, buf)) s).
Proof.
  intros [H1 H2 H3 H4 H5 H6 H7 H8 H9 H10 H11] -> Ht Hb. unfold recv_packet.
  destruct (parse_ok buf) as [r Hr]; [lia|]. rewrite Hr. destruct r as [[peer request]|]; [|done].
  pose proof (parse_vlan _ _ _ Hr) as Hu. rewrite H11 in Ht.
  assert (Forall message_ok (s_ttx s ++ [(t, peer)]))
    by (apply Forall_app; split; [done|by constructor]).
  assert (Forall message_ok (s_ptx s ++ [(t, peer)]))
    by (apply Forall_app; split; [done|by constructor]).
  assert (Forall (received_here (s_nics s)) (s_ttx s ++ [(t, peer)]))
    by (apply Forall_app; split; [done|by constructor]).
  destruct request; rewrite ?H9; cbn; rewrite ?H10; constructor; cbn; try done;
    intros _ []%app_eq_nil; done.
Qed.

Lemma step_inv l s s' : host_inv s -> io_ok l -> step checks l s = Some s' -> host_inv s'.
Proof.
  intros Hinv Hio Hstep. destruct l as [|promisc sent|t r| |]; cbn [step] in Hstep.
  - destruct Hinv as [H1 H2 H3 H4 H5 H6 H7 H8 H9 H10 H11]. rewrite H8 in Hstep.
    destruct (s_todo s) as [|m todo] eqn:Et; [done|]. injection Hstep as <-.
    apply Forall_cons in H2 as [Hm H2]. unfold main_sends. cbn. rewrite H9.
    constructor; cbn; try done. apply Forall_app. by split; [|constructor].
  - destruct Hinv as [H1 H2 H3 H4 H5 H6 H7 H8 H9 H10 H11]. rewrite H9 in Hstep. cbn in Hio. subst promisc.
    destruct (s_ptx s) as [|m ptx] eqn:Ep; [done|]. injection Hstep as <-.
    apply Forall_cons in H3 as [Hm H3]. unfold send_packet. cbn.
    destruct (find_nic (s_nics s) m.1) as [i|] eqn:Ei; [|by constructor].
    apply find_nic_spec in Ei as [Hi _].
    destruct (builder_256 (s_host s) (s_nics s) i (peer_mac m.2) (peer_vlan m.2)) as (buf & n & -> & _); [done..|].
    by case_match; constructor.
  - case_bool_decide as Ht; [|done]. injection Hstep as <-. destruct r as [[from buf]|]; [|done].
    destruct Hio. by apply recv_packet_inv.
  - destruct Hinv as [H1 H2 H3 H4 H5 H6 H7 H8 H9 H10 H11]. rewrite H10 in Hstep.
    destruct (s_phase s) eqn:Eph; [|done]. destruct (s_ttx s) as [|m ttx] eqn:Et; [done|].
    injection Hstep as <-. apply Forall_cons in H4 as [Hm H4]. apply Forall_cons in H5 as [Hh H5].
    destruct (find_nic_some _ _ Hh) as [i Hi]. unfold show_topo. cbn. rewrite Hi.
    pose proof (update_topo_ok (s_host s) i m.2 (s_topo s) Hm H6).
    case_bool_decide as En; cbn in En; by constructor.
  - destruct Hinv as [H1 H2 H3 H4 H5 H6 H7 H8 H9 H10 H11]. rewrite H10 in Hstep.
    destruct (s_phase s) eqn:Eph; [done|]. injection Hstep as <-. unfold show_topo_wakes. cbn.
    case_bool_decide as En; [|by constructor].
    destruct (show_topo_links_ok checks (s_topo s) H6) as [text ->]. constructor; cbn; try done. by right.
Qed.

Lemma steps_inv ls s s' : host_inv s -> Forall io_ok ls -> steps checks ls s s' -> host_inv s'.
Proof.
  intros Hi Hio H. induction H as [|l ls s s1 s2 Hs _ IH]; [done|].
  apply Forall_cons in Hio as [? ?]. apply IH; [by eapply step_inv|done].
Qed.

(** The arguments, as [vlan_range] reads them. *)
Definition opt_ok (opt : Opt) : Prop := Forall range_ok (vlan opt).

Lemma vlan_ranges_ok opt : opt_ok opt -> Forall range_ok (vlan_ranges opt).
Proof.
  intros H. assert (H1 : range_ok (1, 4094)) by by vm_compute. assert (H0 : range_ok (0, 0)) by by vm_compute.
  unfold vlan_ranges. apply Forall_app. split; [|by constructor]. case_bool_decide; [by constructor|done].
Qed.

Lemma elem_of_probes nics vlans m :
  m ∈ probes nics vlans <->
  exists nic r v, nic ∈ nics /\ r ∈ vlans /\ r.1 <= v <= r.2 /\ m = probe nic v.
Proof.
  unfold probes. rewrite list_elem_of_bind. setoid_rewrite list_elem_of_bind. split.
  - intros (nic & ([a b] & (v & -> & Hv)%list_elem_of_fmap & Hr) & Hn). apply elem_of_seqZ in Hv.
    exists nic, (a, b), v. repeat split; try done; cbn; lia.
  - intros (nic & [a b] & v & Hn & Hr & Hv & ->). cbn in Hv. exists nic. split; [|done].
    exists (a, b). split; [|done]. apply list_elem_of_fmap. exists v. split; [done|]. apply elem_of_seqZ. lia.
Qed.

Lemma start_inv opt nodename nics :
  opt_ok opt -> names_ok (hostname nodename) (use_nics opt nics) -> use_nics opt nics <> [] ->
  host_inv (start opt nodename nics).
Proof.
  intros Ho Hn Hne. unfold start. rewrite bool_decide_eq_false_2 by done.
  constructor; cbn; try done; [|by left].
  apply Forall_forall. intros m (nic & r & v & _ & Hr & Hv & ->)%elem_of_probes.
  pose proof (vlan_ranges_ok opt Ho) as Hok. rewrite Forall_forall in Hok. specialize (Hok r Hr).
  unfold message_ok, u16, range_ok in *. cbn. lia.
Qed.

(** ** What a turn leaves alone *)

Lemma step_static l s s' :
  step checks l s = Some s' ->
  s_nics s' = s_nics s /\ s_host s' = s_host s /\ s_sent s `prefix_of` s_sent s'.
Proof. intros H. turn_cases H. split; [done|]. split; [done|]. by eexists. Qed.

Lemma steps_static ls s s' : steps checks ls s s' -> s_nics s' = s_nics s /\ s_host s' = s_host s.
Proof.
  induction 1 as [|l ls s s1 s2 (E1 & E2 & _)%step_static _ IH]; [done|]. by rewrite <- E1, <- E2.
Qed.

(** The channels grow at their end; only their reader takes from them. *)
Lemma step_ptx l s s' :
  host_inv s -> io_ok l -> step checks l s = Some s' ->
  match l with LSend _ _ => exists m, s_ptx s = m :: s_ptx s' | _ => s_ptx s `prefix_of` s_ptx s' end.
Proof.
  intros Hi Hio H. pose proof (inv_sender s Hi). turn_cases H; by eexists.
Qed.

(** ** The sender *)

(** The sender has handed the packet a message asks for to its socket. *)
Definition sent_for (m : message) (s : host_state) : Prop :=
  exists i buf, find_nic (s_nics s) m.1 = Some i /\ (m.1, buf) ∈ s_sent s /\
    encodes (frame_of i (peer_mac m.2) (peer_vlan m.2) (s_host s)) buf.

Lemma sent_for_step l s s' m : step checks l s = Some s' -> sent_for m s -> sent_for m s'.
Proof.
  intros (Hn & Hh & [new Hs])%step_static (i & buf & Hi & Hin & He). exists i, buf.
  rewrite Hn, Hh, Hs. split; [done|]. split; [|done]. apply elem_of_app. by left.
Qed.

Lemma sent_for_steps ls s s' m : steps checks ls s s' -> sent_for m s -> sent_for m s'.
Proof. induction 1 as [|l ls s s1 s2 Hs _ IH]; [done|]. intros Hm. by eapply IH, sent_for_step. Qed.

Lemma sender_sends m s s' :
  host_inv s -> head (s_ptx s) = Some m -> is_Some (find_nic (s_nics s) m.1) ->
  step checks (LSend true true) s = Some s' -> sent_for m s'.
Proof.
  intros Hi Hm [i Hf] H. cbn [step] in H. destruct (s_sender s); [|done].
  pose proof (inv_ptx s Hi) as Hptx.
  destruct (s_ptx s) as [|m' ptx]; [done|]. injection Hm as ->. injection H as <-.
  apply Forall_cons in Hptx as [Hu _]. pose proof (find_nic_spec _ _ _ Hf) as [Hin _].
  destruct (builder_256 (s_host s) (s_nics s) i (peer_mac m.2) (peer_vlan m.2) (inv_names s Hi) Hin Hu)
    as (buf & n & E & He).
  exists i, buf. unfold send_packet. cbn. rewrite Hf, E. cbn. split; [done|]. split; [set_solver|done].
Qed.

Definition is_send (l : label) : bool := match l with LSend _ _ => true | _ => false end.
Definition is_main (l : label) : bool := match l with LMain => true | _ => false end.
Definition is_show (l : label) : bool := match l with LShow | LWake => true | _ => false end.
Definition turns (f : label -> bool) (ls : list label) : nat := length (base.filter (fun l => f l = true) ls).

Lemma turns_cons f l ls : turns f (l :: ls) = ((if f l then 1 else 0) + turns f ls)%nat.
Proof. unfold turns. rewrite filter_cons. by destruct (f l); [rewrite decide_True|rewrite decide_False]. Qed.

(** A message of the sender's channel has been sent after as many of its turns as there are
    messages up to it, whatever the other tasks do. *)
Lemma ptx_progress ls s s' k m :
  host_inv s -> Forall io_ok ls -> Forall sends_ok ls -> steps checks ls s s' ->
  s_ptx s !! k = Some m -> is_Some (find_nic (s_nics s) m.1) -> (k < turns is_send ls)%nat ->
  sent_for m s'.
Proof.
  intros Hi Hio Hse H. revert k Hi Hio Hse. induction H as [|l ls s s1 s2 Hs Hss IH]; intros k Hi Hio Hse Hk Hf Ht;
    [unfold turns in Ht; cbn in Ht; lia|].
  apply Forall_cons in Hio as [Hl Hio], Hse as [Hsl Hse]. pose proof (step_inv _ _ _ Hi Hl Hs) as Hi1.
  pose proof (step_static _ _ _ Hs) as (Hn & _ & _). pose proof (step_ptx _ _ _ Hi Hl Hs) as Hp.
  rewrite turns_cons in Ht. rewrite <- Hn in Hf.
  destruct l as [|promisc sent|t r| |]; cbn [is_send] in *;
    try (apply (IH k); [done..| |done|lia]; by eapply prefix_lookup_Some).
  destruct Hp as [m0 Hp]. rewrite Hp in Hk. destruct k as [|k].
  - injection Hk as ->. apply (sent_for_steps ls _ _ _ Hss). cbn in Hl, Hsl. subst promisc sent. rewrite Hn in Hf.
    apply (sender_sends m s s1); [done|by rewrite Hp|done..].
  - apply (IH k); [done..|exact Hk|done|lia].
Qed.

(** The main task's messages are in the channel, or sent. *)
Definition queued (m : message) (s : host_state) : Prop := m ∈ s_ptx s \/ sent_for m s.

Lemma queued_step l s s' m :
  host_inv s -> io_ok l -> sends_ok l -> step checks l s = Some s' -> is_Some (find_nic (s_nics s) m.1) ->
  queued m s -> queued m s'.
Proof.
  intros Hi Hl Hsl Hs Hf [Hin|Hm]; [|right; by eapply sent_for_step].
  pose proof (step_ptx _ _ _ Hi Hl Hs) as Hp. unfold queued.
  destruct l as [|promisc sent|t r| |]; try (destruct Hp as [new ->]; left; set_solver).
  destruct Hp as [m0 Hp]. rewrite Hp in Hin. apply elem_of_cons in Hin as [->|Hin]; [|by left].
  right. cbn in Hl, Hsl. subst promisc sent. apply (sender_sends m0 s s'); [done|by rewrite Hp|done..].
Qed.

Lemma step_todo l s s' :
  host_inv s -> step checks l s = Some s' ->
  match l with LMain => exists m, s_todo s = m :: s_todo s' /\ m ∈ s_ptx s' | _ => s_todo s' = s_todo s end.
Proof.
  intros Hi H. pose proof (inv_sender s Hi). turn_cases H. eexists. split; [done|]. set_solver.
Qed.

Lemma queued_steps ls s s' m :
  host_inv s -> Forall io_ok ls -> Forall sends_ok ls -> steps checks ls s s' -> is_Some (find_nic (s_nics s) m.1) ->
  queued m s -> queued m s'.
Proof.
  intros Hi Hio Hse H. revert Hi Hio Hse. induction H as [|l ls s s1 s2 Hs _ IH]; intros Hi Hio Hse Hf Hm; [done|].
  apply Forall_cons in Hio as [Hl Hio], Hse as [Hsl Hse]. pose proof (step_static _ _ _ Hs) as (Hn & _ & _).
  apply IH; [by eapply step_inv|done..|by rewrite Hn|by eapply queued_step].
Qed.

Lemma todo_progress ls s s' k m :
  host_inv s -> Forall io_ok ls -> Forall sends_ok ls -> steps checks ls s s' ->
  s_todo s !! k = Some m -> is_Some (find_nic (s_nics s) m.1) -> (k < turns is_main ls)%nat ->
  queued m s'.
Proof.
  intros Hi Hio Hse H. revert k Hi Hio Hse. induction H as [|l ls s s1 s2 Hs Hss IH]; intros k Hi Hio Hse Hk Hf Ht;
    [unfold turns in Ht; cbn in Ht; lia|].
  apply Forall_cons in Hio as [Hl Hio], Hse as [Hsl Hse]. pose proof (step_inv _ _ _ Hi Hl Hs) as Hi1.
  pose proof (step_static _ _ _ Hs) as (Hn & _ & _). pose proof (step_todo _ _ _ Hi Hs) as Hp.
  rewrite turns_cons in Ht. rewrite <- Hn in Hf.
  destruct l as [|promisc sent|t r| |]; cbn [is_main] in *;
    try (apply (IH k); [done..|by rewrite Hp|done|lia]).
  destruct Hp as (m0 & Hp & Hin). rewrite Hp in Hk. destruct k as [|k].
  - injection Hk as ->. apply (queued_steps ls s1); [done..|by left].
  - apply (IH k); [done..|lia].
Qed.

(** A message that is queued is sent once the sender has emptied what its channel held. *)
Lemma queued_sent ls s s' m :
  host_inv s -> Forall io_ok ls -> Forall sends_ok ls -> steps checks ls s s' -> is_Some (find_nic (s_nics s) m.1) ->
  queued m s -> (length (s_ptx s) <= turns is_send ls)%nat -> sent_for m s'.
Proof.
  intros Hi Hio Hse H Hf [Hin|Hm] Ht; [|by eapply sent_for_steps].
  apply list_elem_of_lookup in Hin as [k Hk]. apply (ptx_progress ls s s' k); [done..|].
  apply lookup_lt_Some in Hk. lia.
Qed.

Lemma find_nic_unique nics n : NoDup (index <$> nics) -> n ∈ nics -> find_nic nics (index n) = Some n.
Proof.
  intros Hd Hn. destruct (find_nic_some nics (index n)) as [i Hi]; [apply list_elem_of_fmap; by exists n|].
  pose proof (find_nic_spec _ _ _ Hi) as [Hin E]. rewrite Hi. f_equal.
  apply list_elem_of_lookup in Hin as [a Ha]. apply list_elem_of_lookup in Hn as [b Hb].
  assert (a = b) as ->; [|congruence].
  apply (NoDup_lookup (index <$> nics) a b (index n)); [done|..]; rewrite list_lookup_fmap.
  - rewrite Ha. cbn. by rewrite E.
  - by rewrite Hb.
Qed.

(** ** The task that shows the topology *)

(** The connection a message stands for. *)
Definition link_of (host : list byte) (nics : list Interface) (m : message) (k : Node * Node) (v : Z) : Prop :=
  exists i, find_nic nics m.1 = Some i /\ k = (MkNode host i, peer_node m.2) /\ v = peer_vlan m.2.

(** The message a turn receives for the topology. *)
Definition received (l : label) : list message :=
  match l with
  | LRecv _ (Some (from, buf)) =>
      match parse buf with Ok (Some (peer, _)) => [(from, peer)] | _ => [] end
  | _ => []
  end.

(** What a turn does to the topology and its channel: [LShow] takes a message and records its
    connection, the other turns add what they receive. *)
Lemma step_topology l s s' :
  host_inv s -> io_ok l -> step checks l s = Some s' ->
  exists shown, s_ttx s ++ received l = shown ++ s_ttx s' /\
    length shown = (match l with LShow => 1 | _ => 0 end)%nat /\
    (forall k v, v ∈ vlans_of (s_topo s') k <->
       v ∈ vlans_of (s_topo s) k \/ exists m, m ∈ shown /\ link_of (s_host s) (s_nics s) m k v).
Proof.
  intros Hi Hio H. pose proof (inv_sender s Hi). pose proof (inv_shower s Hi).
  assert (Hsame : forall t k v, v ∈ vlans_of t k <->
    v ∈ vlans_of t k \/ exists m, m ∈ @nil message /\ link_of (s_host s) (s_nics s) m k v) by set_solver.
  assert (Hcase : l = LShow \/ l <> LShow) by (destruct l; (by left) || by right).
  destruct Hcase as [->|Hl].
  - cbn [step] in H. destruct (s_shower s), (s_phase s), (s_ttx s) as [|m ttx] eqn:Et; try done.
    injection H as <-. exists [m]. pose proof (inv_here s Hi) as Hh. rewrite Et in Hh.
    apply Forall_cons in Hh as [Hm _]. destruct (find_nic_some _ _ Hm) as [i Hf].
    unfold show_topo, link_of. cbn. rewrite Hf.
    assert (E : forall k v, v ∈ vlans_of (update_topo (s_host s) i m.2 (s_topo s)) k <->
      v ∈ vlans_of (s_topo s) k \/
      exists m0, m0 ∈ [m] /\ exists i, find_nic (s_nics s) m0.1 = Some i /\
        k = (MkNode (s_host s) i, peer_node m0.2) /\ v = peer_vlan m0.2).
    { intros k v. rewrite update_topo_vlans. setoid_rewrite list_elem_of_singleton. split.
      - intros [?|[-> ->]]; [by left|right; eauto 6].
      - intros [?|(m0 & -> & i' & Hi' & -> & ->)]; [by left|right]. rewrite Hf in Hi'. by injection Hi' as ->. }
    rewrite app_nil_r. by case_bool_decide.
  - exists []. split; [|split; [by destruct l|]].
    + turn_cases H; rewrite ?app_nil_r; try done; cbn in *; repeat case_match; simplify_eq; by rewrite ?app_nil_r.
    + intros k v. rewrite <- Hsame. turn_cases H.
Qed.

(** A run: its topology is the connections of the messages it has taken from the channel. *)
Lemma steps_topology ls s s' :
  host_inv s -> Forall io_ok ls -> steps checks ls s s' ->
  exists shown, s_ttx s ++ (ls ≫= received) = shown ++ s_ttx s' /\
    (forall k v, v ∈ vlans_of (s_topo s') k <->
       v ∈ vlans_of (s_topo s) k \/ exists m, m ∈ shown /\ link_of (s_host s) (s_nics s) m k v).
Proof.
  intros Hi Hio H. revert Hi Hio. induction H as [s|l ls s s1 s2 Hs Hss IH]; intros Hi Hio.
  - exists []. split; [by rewrite app_nil_r|]. set_solver.
  - apply Forall_cons in Hio as [Hl Hio]. pose proof (step_inv _ _ _ Hi Hl Hs) as Hi1.
    pose proof (step_static _ _ _ Hs) as (Hn & Hh & _).
    destruct (step_topology _ _ _ Hi Hl Hs) as (d1 & E1 & _ & T1).
    destruct (IH Hi1 Hio) as (d2 & E2 & T2). exists (d1 ++ d2). split.
    + change ((l :: ls) ≫= received) with (received l ++ (ls ≫= received)).
      by rewrite (assoc_L (++)), E1, <- (assoc_L (++)), E2, (assoc_L (++)).
    + intros k v. rewrite T2, T1, Hn, Hh. set_solver.
Qed.

(** A message is recorded: its VLAN is one of its connection. *)
Definition recorded (m : message) (s : host_state) : Prop :=
  exists i, find_nic (s_nics s) m.1 = Some i /\
    peer_vlan m.2 ∈ vlans_of (s_topo s) (MkNode (s_host s) i, peer_node m.2).

Lemma recorded_step l s s' m :
  host_inv s -> io_ok l -> step checks l s = Some s' -> recorded m s -> recorded m s'.
Proof.
  intros Hi Hl Hs (i & Hf & Hv). destruct (step_static _ _ _ Hs) as (Hn & Hh & _).
  destruct (step_topology _ _ _ Hi Hl Hs) as (d & _ & _ & T). exists i. rewrite Hn, Hh.
  split; [done|]. apply T. by left.
Qed.

Lemma recorded_steps ls s s' m :
  host_inv s -> Forall io_ok ls -> steps checks ls s s' -> recorded m s -> recorded m s'.
Proof.
  intros Hi Hio H. revert Hi Hio. induction H as [|l ls s s1 s2 Hs _ IH]; intros Hi Hio Hm; [done|].
  apply Forall_cons in Hio as [Hl Hio].
  apply IH; [by eapply step_inv|done|by eapply recorded_step].
Qed.

(** The pause the task may be in before it takes the next message. *)
Definition pause (s : host_state) : nat := match s_phase s with Sleeping => 1 | Waiting => 0 end.

Lemma step_shows l s s' k m :
  host_inv s -> io_ok l -> step checks l s = Some s' -> s_ttx s !! k = Some m ->
  recorded m s' \/
  exists k', s_ttx s' !! k' = Some m /\ (k' + pause s' + (if is_show l then 1 else 0) <= k + pause s)%nat.
Proof.
  intros Hi Hio Hs Hk. destruct (step_topology _ _ _ Hi Hio Hs) as (d & E & Hd & T).
  destruct (step_static _ _ _ Hs) as (Hn & Hh & _). destruct l as [|promisc sent|t r| |]; cbn [is_show] in *.
  1-3,5: right; exists k; apply nil_length_inv in Hd; subst d; cbn [app] in E;
    (split; [rewrite <- E; by apply lookup_app_l_Some|]); unfold pause; turn_cases Hs; lia.
  destruct d as [|m0 [|]]; try done. cbn [received] in E. rewrite app_nil_r in E.
  rewrite E in Hk. destruct k as [|k].
  - left. injection Hk as ->. pose proof (inv_here s Hi) as Hr. rewrite E in Hr.
    apply Forall_cons in Hr as [Hm _]. destruct (find_nic_some _ _ Hm) as [i Hf].
    exists i. rewrite Hn, Hh. split; [done|]. apply T. right. exists m. split; [set_solver|]. by exists i.
  - right. exists k. split; [done|]. assert (Hne : tail (s_ttx s) <> []) by (intros E'; rewrite E in E'; cbn in E'; by rewrite E' in Hk).
    unfold pause. clear T E Hk Hn Hh. turn_cases Hs; try lia; try congruence.
    match goal with H : bool_decide (_ = []) = true |- _ => by apply bool_decide_eq_true in H end.
Qed.

(** A received message is recorded after as many turns of the task as there are messages up to it,
    and one more for the pause it may be in. *)
Lemma ttx_progress ls s s' k m :
  host_inv s -> Forall io_ok ls -> steps checks ls s s' ->
  s_ttx s !! k = Some m -> (k + pause s < turns is_show ls)%nat -> recorded m s'.
Proof.
  intros Hi Hio H. revert k Hi Hio. induction H as [|l ls s s1 s2 Hs Hss IH]; intros k Hi Hio Hk Ht;
    [unfold turns in Ht; cbn in Ht; lia|].
  apply Forall_cons in Hio as [Hl Hio]. pose proof (step_inv _ _ _ Hi Hl Hs) as Hi1.
  rewrite turns_cons in Ht.
  destruct (step_shows _ _ _ _ _ Hi Hl Hs Hk) as [Hm|(k' & Hk' & Hle)]; [by eapply recorded_steps|].
  apply (IH k'); [done..|lia].
Qed.

(** ** The properties of a host *)

(** A run of the prober: its arguments are in range, its names within the limits of Linux, it has
    an interface to probe, and the kernel does its part. *)
Record run_of (opt : Opt) (nodename : option (list byte)) (nics : list Interface)
    (ls : list label) (s : host_state) : Prop := RunOf {
  run_opt : opt_ok opt;
  run_names : names_ok (hostname nodename) (use_nics opt nics);
  run_nics : use_nics opt nics <> [];
  run_io : Forall io_ok ls;
  run_steps : steps checks ls (start opt nodename nics) s }.

Lemma run_inv opt nodename nics ls s : run_of opt nodename nics ls s -> host_inv s.
Proof. intros [Ho Hn Hne Hio H]. apply (steps_inv ls _ _ (start_inv _ _ _ Ho Hn Hne) Hio H). Qed.

Lemma run_static opt nodename nics ls s :
  run_of opt nodename nics ls s -> s_nics s = use_nics opt nics /\ s_host s = hostname nodename.
Proof.
  intros [_ _ Hne _ H]. assert (Hstart : s_nics (start opt nodename nics) = use_nics opt nics /\
    s_host (start opt nodename nics) = hostname nodename).
  { unfold start. by rewrite bool_decide_eq_false_2. }
  destruct (steps_static _ _ _ H) as [-> ->]. done.
Qed.


(** The topology is exactly what has been received: the messages of all packets parsed so far
    are the ones shown, in order, followed by those still in the channel; a VLAN is listed for a
    connection if and only if one of the messages shown has that interface, peer and VLAN; and
    every list is sorted, without repetitions, and not empty. *)
Theorem topology_is_received opt nodename nics ls s :
  run_of opt nodename nics ls s ->
  exists shown, ls ≫= received = shown ++ s_ttx s /\
  (forall k v, v ∈ vlans_of (s_topo s) k <->
     exists m, m ∈ shown /\ link_of (hostname nodename) (use_nics opt nics) m k v) /\
  (forall k l, s_topo s !! k = Some l -> vlans_ok l /\ l <> []).
Proof.
  intros H. pose proof (run_inv _ _ _ _ _ H) as Hi. destruct H as [Ho Hn Hne Hio H].
  destruct (steps_topology _ _ _ (start_inv _ _ _ Ho Hn Hne) Hio H) as (shown & E & T).
  exists shown. unfold start in E, T. rewrite bool_decide_eq_false_2 in E, T by done. cbn in E, T.
  split; [done|]. split; [|apply (inv_topo s Hi)].
  intros k v. rewrite T. unfold vlans_of at 1. rewrite lookup_empty. set_solver.
Qed.

(** C28: In a run in which the receivers get only frames of their own interfaces, and no [recv] and
    no [set_promiscuous] fails (with arguments in range, an interface to use and names of the
    lengths Linux allows), the screen is not stale: whenever the task that shows the topology waits
    and its channel is empty, what was last drawn is the topology it has, or that is still empty. (A
    frame of another interface, taken before the socket is bound, breaks this:
    [unbound_socket_stale_screen].) *)
Theorem screen_current opt nodename nics ls s :
  run_of opt nodename nics ls s -> s_phase s = Waiting -> s_ttx s = [] ->
  s_topo s = ∅ \/ s_screen s = Some (s_topo s).
Proof. intros H. apply (inv_screen s (run_inv _ _ _ _ _ H)). Qed.

(** C37: Every probe is sent, when no [send] fails (nor [recv] nor [set_promiscuous]; the arguments
    are in range, the names of the lengths Linux allows, the numbers of the interfaces distinct, and
    each socket receives packets of its interface only). Once the main task has taken as many turns
    as there are probes, and the sender after that as many as there were messages in its channel, a
    broadcast packet has been sent on every interface for every VLAN of the ranges, tagged with it,
    and untagged. *)
Theorem probes_all_sent opt nodename nics ls1 s1 ls2 s2 nic r v :
  run_of opt nodename nics ls1 s1 -> Forall sends_ok ls1 ->
  Forall io_ok ls2 -> Forall sends_ok ls2 -> steps checks ls2 s1 s2 ->
  NoDup (index <$> use_nics opt nics) ->
  (length (probes (use_nics opt nics) (vlan_ranges opt)) <= turns is_main ls1)%nat ->
  (length (s_ptx s1) <= turns is_send ls2)%nat ->
  nic ∈ use_nics opt nics -> r ∈ vlan_ranges opt -> r.1 <= v <= r.2 ->
  exists buf, (index nic, buf) ∈ s_sent s2 /\
    encodes (frame_of nic broadcast v (hostname nodename)) buf.
Proof.
  intros H Hse1 Hio2 Hse2 Hs2 Hd Hm Hp Hnic Hr Hv. pose proof (run_inv _ _ _ _ _ H) as Hi1.
  destruct (run_static _ _ _ _ _ H) as [Hn1 Hh1]. destruct H as [Ho Hn Hne Hio H].
  pose proof (start_inv _ _ _ Ho Hn Hne) as Hi0.
  assert (Hprobe : probe nic v ∈ probes (use_nics opt nics) (vlan_ranges opt))
    by (apply elem_of_probes; by exists nic, r, v).
  apply list_elem_of_lookup in Hprobe as [k Hk].
  pose proof (find_nic_unique _ _ Hd Hnic) as Hf.
  assert (Hq : queued (probe nic v) s1).
  { apply (todo_progress ls1 _ _ k _ Hi0 Hio Hse1 H); unfold start; rewrite ?bool_decide_eq_false_2 by done; cbn.
    - exact Hk.
    - by rewrite Hf.
    - apply lookup_lt_Some in Hk. lia. }
  destruct (queued_sent ls2 s1 s2 (probe nic v)) as (i & buf & Hi & Hin & He); [done..| | |done|].
  - rewrite Hn1. cbn. by rewrite Hf.
  - done.
  - exists buf. split; [exact Hin|].
    destruct (steps_static ls2 s1 s2 Hs2) as [En Eh]. rewrite En, Hn1 in Hi. cbn in Hi. rewrite Hf in Hi. injection Hi as <-.
    cbn in He. by rewrite Eh, Hh1 in He.
Qed.

(** C38: Every message received is recorded, in a run in which no [recv] and no [set_promiscuous]
    fails and each socket receives packets of its interface only (with arguments in range and names
    of the lengths Linux allows): after as many turns of the task that shows the topology as there
    were messages in its channel up to it, and one for the pause it may have been in, its connection
    is in the topology with its VLAN, and stays there; so the screen shows it at the latest when the
    channel is next empty. *)
Theorem received_recorded opt nodename nics ls1 s1 ls2 s2 k m :
  run_of opt nodename nics ls1 s1 -> Forall io_ok ls2 -> steps checks ls2 s1 s2 ->
  s_ttx s1 !! k = Some m -> (k + 2 <= turns is_show ls2)%nat ->
  exists i, find_nic (use_nics opt nics) m.1 = Some i /\
    peer_vlan m.2 ∈ vlans_of (s_topo s2) (MkNode (hostname nodename) i, peer_node m.2) /\
    (s_phase s2 = Waiting -> s_ttx s2 = [] -> s_screen s2 = Some (s_topo s2)).
Proof.
  intros H Hio2 Hs2 Hk Ht. pose proof (run_inv _ _ _ _ _ H) as Hi1.
  destruct (run_static _ _ _ _ _ H) as [Hn1 Hh1].
  destruct (ttx_progress ls2 s1 s2 k m Hi1 Hio2 Hs2 Hk) as (i & Hf & Hv).
  { unfold pause. case_match; lia. }
  destruct (steps_static ls2 s1 s2 Hs2) as [En Eh]. rewrite En, Hn1 in Hf. rewrite Eh, Hh1 in Hv.
  exists i. split; [done|]. split; [done|]. intros Hw He.
  destruct (inv_screen s2 (steps_inv _ _ _ Hi1 Hio2 Hs2) Hw He) as [E|]; [|done].
  rewrite E in Hv. unfold vlans_of in Hv. rewrite lookup_empty in Hv. by apply not_elem_of_nil in Hv.
Qed.
End Host.

(** ** Witnesses: a host with one interface *)

Lemma exec_steps {P : pnet} checks ls s s' : exec checks ls s = Some s' -> steps checks ls s s'.
Proof.
  revert s. induction ls as [|l ls IH]; intros s; cbn [exec]; [intros [= ->]; constructor|].
  destruct (step checks l s) as [s1|] eqn:Hs; [|done]. intros H. econstructor; [done|by apply IH].
Qed.

Lemma exec_default {P : pnet} checks ls s :
  bool_decide (is_Some (exec checks ls s)) = true -> steps checks ls s (default s (exec checks ls s)).
Proof. intros [s' Hs]%bool_decide_eq_true. apply exec_steps. by rewrite Hs. Qed.

Import Wire.

Definition sample_opt : Opt := MkOpt [(10, 10)] None.
Definition sample_nodename : option (list byte) := Some (lit "srv2" ++ zeros 61).
Definition sample_nic : Interface :=
  MkInterface 3 (lit "eth1") (MkMac Byte.x00 Byte.x1b Byte.x21 Byte.xaa Byte.xbb Byte.xdd) Up.
Definition sample_start : host_state := start sample_opt sample_nodename [sample_nic].

(** Its two probes are queued; a request of another host arrives; the probes and the answer are sent,
    and the connection is shown. *)
Definition sample_queued : list label := [LMain; LMain].
Definition sample_receives : label := LRecv 3 (Some (3, sample_packet ++ zeros 768)).
Definition sample_sends : list label := [LSend true true; LSend true true].
Definition sample_shows : list label := [LShow; LWake].

Definition sample_state (ls : list label) : host_state := default sample_start (exec true ls sample_start).

Lemma sample_run ls :
  bool_decide (is_Some (exec true ls sample_start)) = true -> Forall io_ok ls ->
  run_of true sample_opt sample_nodename [sample_nic] ls (sample_state ls).
Proof.
  intros H Hio. constructor; [by constructor|by split; [|constructor]|done|done|by apply exec_default].
Qed.

Lemma io_ok_receives : io_ok sample_receives.
Proof. split; [done|by vm_compute]. Qed.

#[local] Hint Resolve io_ok_receives : core.


Lemma topology_is_received_witness :
  exists shown, (sample_queued ++ sample_receives :: sample_shows) ≫= received =
    shown ++ s_ttx (sample_state (sample_queued ++ sample_receives :: sample_shows)).
Proof.
  destruct (topology_is_received true sample_opt sample_nodename [sample_nic]
              (sample_queued ++ sample_receives :: sample_shows) (sample_state (sample_queued ++ sample_receives :: sample_shows)))
    as (shown & E & _); [apply sample_run; [by vm_compute|by repeat constructor]|]. by exists shown.
Defined.

Lemma screen_current_witness :
  s_topo (sample_state (sample_queued ++ sample_receives :: sample_shows)) = ∅ \/
  s_screen (sample_state (sample_queued ++ sample_receives :: sample_shows)) =
    Some (s_topo (sample_state (sample_queued ++ sample_receives :: sample_shows))).
Proof.
  apply (screen_current true sample_opt sample_nodename [sample_nic] (sample_queued ++ sample_receives :: sample_shows));
    [apply sample_run; [by vm_compute|by repeat constructor]|by vm_compute..].
Defined.

Lemma probes_all_sent_witness :
  exists buf, (3, buf) ∈ s_sent (default (sample_state sample_queued) (exec true sample_sends (sample_state sample_queued))) /\
    encodes (frame_of sample_nic broadcast 10 (lit "srv2")) buf.
Proof.
  apply (probes_all_sent true sample_opt sample_nodename [sample_nic] sample_queued (sample_state sample_queued)
           sample_sends _ sample_nic (10, 10) 10).
  - apply sample_run; [by vm_compute|by repeat constructor].
  - by repeat constructor.
  - by repeat constructor.
  - by repeat constructor.
  - apply exec_default. by vm_compute.
  - apply (bool_decide_unpack _). by vm_compute.
  - apply (bool_decide_unpack _). by vm_compute.
  - apply (bool_decide_unpack _). by vm_compute.
  - apply (bool_decide_unpack _). by vm_compute.
  - apply (bool_decide_unpack _). by vm_compute.
  - done.
Defined.

Lemma received_recorded_witness :
  exists i, find_nic [sample_nic] 3 = Some i /\
    10 ∈ vlans_of (s_topo (default (sample_state (sample_queued ++ [sample_receives]))
                             (exec true sample_shows (sample_state (sample_queued ++ [sample_receives])))))
           (MkNode (lit "srv2") i, peer_node sample_peer).
Proof.
  destruct (received_recorded true sample_opt sample_nodename [sample_nic] (sample_queued ++ [sample_receives])
              (sample_state (sample_queued ++ [sample_receives])) sample_shows
              (default (sample_state (sample_queued ++ [sample_receives]))
                 (exec true sample_shows (sample_state (sample_queued ++ [sample_receives])))) 0 (3, sample_peer))
    as (i & Hf & Hv & _).
  - apply sample_run; [by vm_compute|by repeat constructor].
  - by repeat constructor.
  - apply exec_default. by vm_compute.
  - by vm_compute.
  - apply (bool_decide_unpack _). by vm_compute.
  - exists i. split; [exact Hf|exact Hv].
Defined.
