(* ===== verification/TopoNetwork.v ===== *)
(** * A network of topology probers

    Every host runs the prober.  In every state the network can reach, what a host shows is true:
    each connection leads to an interface of a host, and that interface reaches the host's in the
    VLANs listed.  And two connected hosts find each other by one exchange of packets. *)

From Stdlib Require Import String.
From stdpp Require Import vector.
From S2P Require Import Prelude RustStd RustStr Topo TopoTheorems TopoPacket TopoPacketTheorems TopoSystem TopoSystemTheorems.

(** ** The packets on the wire *)

Section Packets.
Context {P : pnet} {L : pnet_laws}.

Lemma encodes_fields f buf :
  encodes f buf ->
  get destination buf = f_dst f /\ get source buf = f_src f /\
  get ethertype buf = (if f_tag f =? 0 then EtherTypes_Aarp else EtherTypes_Vlan) /\
  (f_tag f <> 0 -> get vlan_ethertype (drop 14 buf) = EtherTypes_Aarp /\
     (u12 (f_tag f) -> get vlan_identifier (drop 14 buf) = f_tag f)).
Proof.
  intros [e v a rest [He Hd Hs Ht _ _]]. destruct header_sizes as (E14 & E4 & _).
  assert (Ee : len e = eth_size) by lia.
  rewrite (get_app _ _ _ _ destination_ok), (get_app _ _ _ _ source_ok), (get_app _ _ _ _ ethertype_ok) by done.
  rewrite drop_app_length' by lia. split; [done|]. split; [done|]. destruct (Z.eqb_spec (f_tag f) 0) as [E|E].
  - by destruct Ht as [_ ->].
  - destruct Ht as (Hv & Het & Hve & Hvi). split; [done|]. intros _.
    assert (Ev : len v = vlan_size) by lia.
    by rewrite (get_app _ _ _ _ vlan_ethertype_ok), (get_app _ _ _ _ vlan_identifier_ok) by done.
Qed.

Lemma tag_of_encodes f buf : encodes f buf -> u12 (f_tag f) -> tag_of buf = f_tag f.
Proof.
  intros (_ & _ & Ht & Hv)%encodes_fields Hu. unfold tag_of. rewrite Ht. pose proof vlan_not_aarp.
  destruct (Z.eqb_spec (f_tag f) 0) as [E|E].
  - destruct (Z.eqb_spec EtherTypes_Aarp EtherTypes_Vlan); [congruence|done].
  - rewrite Z.eqb_refl. by apply Hv.
Qed.

(** What arrives is the frame that was sent, perhaps without its tag. *)
Lemma arrives_encodes f buf buf' :
  encodes f buf -> arrives buf buf' -> encodes f buf' \/ encodes (untagged f) buf'.
Proof.
  intros He [rest|e rest Ht Hl Hd Hs Hve]; [left; by apply encodes_app|right].
  pose proof (encodes_fields _ _ He) as (Ed & Es & Et & Ev). rewrite Ed in Hd. rewrite Es in Hs.
  assert (Hz : f_tag f <> 0).
  { intros E. rewrite Ht, E in Et. cbn in Et. by apply vlan_not_aarp in Et. }
  destruct (Ev Hz) as [Eve _]. rewrite Eve in Hve.
  assert (Hsz : Z.to_nat (14 + tag_size (f_tag f)) = 18%nat).
  { unfold tag_size. by destruct (Z.eqb_spec (f_tag f) 0). }
  rewrite (assoc_L (++)). apply encodes_app. rewrite <- Hsz. by apply encodes_strip.
Qed.

Lemma parse_arrives f buf buf' :
  encodes f buf -> frame_ok f -> arrives buf buf' ->
  parse buf' = Ok (Some (peer_of f, f_operation f =? 3)).
Proof. intros He Hf [H|H]%(arrives_encodes f); [by apply parse_encodes|by rewrite (parse_encodes (untagged f))|done]. Qed.
End Packets.

(** ** Hosts *)

Record config := Config { c_opt : Opt; c_nodename : option (list byte); c_nics : list Interface }.
Definition c_host (c : config) : list byte := hostname (c_nodename c).
Definition c_used (c : config) : list Interface := use_nics (c_opt c) (c_nics c).

(** The VLANs are those that exist, the names are text within the limits of Linux. *)
Record config_ok (c : config) : Prop := ConfigOk {
  ok_vlans : Forall (fun r => 0 <= r.1 <= r.2 /\ r.2 < 4096) (vlan (c_opt c));
  ok_names : names_ok (c_host c) (c_used c);
  ok_text : utf8 (c_host c) = true /\ Forall (fun n => utf8 (name n) = true) (c_used c);
  ok_used : c_used c <> [] }.

Section Network.
Context {P : pnet} {L : pnet_laws} (checks : bool).
Context (wire : nat -> Z -> Z -> nat -> Z -> Prop) (cs : list config).
Context (Hcs : Forall config_ok cs).

Definition initial : list host_state := (fun c => start (c_opt c) (c_nodename c) (c_nics c)) <$> cs.
Definition reachable (net : list host_state) : Prop := rtc (net_step checks wire) initial net.

(** A message that says the truth: its peer is an interface of a host, and reaches the one the
    message was received on. *)
Definition genuine (h : nat) (m : message) : Prop :=
  u12 (peer_vlan m.2) /\
  exists h' c' nic', cs !! h' = Some c' /\ nic' ∈ c_used c' /\
    m.2 = MkPeer (c_host c') (name nic') (MacAddress.into (mac nic')) (peer_vlan m.2) /\
    wire h' (index nic') (peer_vlan m.2) h m.1.

Definition own_frame (c : config) (p : Z * list byte) : Prop :=
  exists nic dst v, nic ∈ c_used c /\ index nic = p.1 /\ u12 v /\ encodes (frame_of nic dst v (c_host c)) p.2.

(** The invariant of a host in the network. *)
Record net_inv (h : nat) (c : config) (s : host_state) : Prop := NetInv {
  n_host_inv : host_inv s;
  n_nics : s_nics s = c_used c;
  n_host : s_host s = c_host c;
  n_todo : Forall (fun m => u12 (peer_vlan m.2)) (s_todo s);
  n_ptx : Forall (fun m => u12 (peer_vlan m.2)) (s_ptx s);
  n_sent : Forall (own_frame c) (s_sent s);
  n_ttx : Forall (genuine h) (s_ttx s);
  n_topo : forall k v, v ∈ vlans_of (s_topo s) k ->
    exists m, genuine h m /\ link_of (c_host c) (c_used c) m k v }.

Lemma step_messages l s s' m :
  host_inv s -> io_ok l -> step checks l s = Some s' ->
  (m ∈ s_todo s' -> m ∈ s_todo s) /\
  (m ∈ s_ptx s' -> m ∈ s_ptx s \/ m ∈ s_todo s \/ m ∈ received l).
Proof.
  intros Hi Hio H. pose proof (inv_sender s Hi). pose proof (inv_shower s Hi).
  turn_cases H; cbn in *; repeat case_match; simplify_eq; set_solver.
Qed.

Lemma step_sent l s s' p :
  host_inv s -> step checks l s = Some s' -> p ∈ s_sent s' ->
  p ∈ s_sent s \/ exists m nic, m ∈ s_ptx s /\ find_nic (s_nics s) m.1 = Some nic /\ p.1 = m.1 /\
    encodes (frame_of nic (peer_mac m.2) (peer_vlan m.2) (s_host s)) p.2.
Proof.
  intros Hi H Hp. destruct l as [|promisc sent|t r| |].
  2: { cbn [step] in H. pose proof (inv_ptx s Hi) as Hm. destruct (s_sender s), (s_ptx s) as [|m ptx]; try done.
    injection H as <-. apply Forall_cons in Hm as [Hm _]. unfold send_packet in Hp. cbn in Hp.
    destruct (find_nic (s_nics s) m.1) as [nic|] eqn:Hf; [|by left].
    destruct (builder_256 (s_host s) (s_nics s) nic (peer_mac m.2) (peer_vlan m.2) (inv_names s Hi))
      as (buf & n & E & He); [by apply find_nic_spec in Hf as [? _]|done|].
    rewrite E in Hp. destruct promisc, sent; cbn in Hp; [|by left..].
    apply elem_of_app in Hp as [Hp|Hp%list_elem_of_singleton]; [by left|subst p]. right.
    exists m, nic. cbn. split; [set_solver|done]. }
  all: left; revert Hp; turn_cases H.
Qed.

Lemma turn_keeps h c l s s' :
  net_inv h c s -> io_ok l -> step checks l s = Some s' -> Forall (genuine h) (received l) ->
  net_inv h c s'.
Proof.
  intros [Hi Hn Hh Htodo Hptx Hsent Httx Htopo] Hio Hs Hr.
  destruct (step_static _ _ _ _ Hs) as (En & Eh & _).
  destruct (step_topology _ _ _ _ Hi Hio Hs) as (shown & E & _ & T).
  assert (Hall : forall m, m ∈ shown ++ s_ttx s' -> genuine h m).
  { intros m Hm. rewrite <- E in Hm. rewrite Forall_forall in Httx, Hr.
    apply elem_of_app in Hm as [Hm|Hm]; [by apply Httx|by apply Hr]. }
  constructor.
  - by eapply step_inv.
  - by rewrite En.
  - by rewrite Eh.
  - apply Forall_forall. intros m Hm. rewrite Forall_forall in Htodo.
    by apply Htodo, (step_messages _ _ _ m Hi Hio Hs).
  - apply Forall_forall. intros m Hm. rewrite Forall_forall in Htodo, Hptx, Hr.
    apply (step_messages _ _ _ m Hi Hio Hs) in Hm as [Hm|[Hm|Hm]]; [by apply Hptx|by apply Htodo|].
    by apply Hr in Hm as [? _].
  - apply Forall_forall. intros p Hp. rewrite Forall_forall in Hsent.
    apply (step_sent _ _ _ p Hi Hs) in Hp as [Hp|(m & nic & Hm & Hf & E' & He)]; [by apply Hsent|].
    rewrite Hn in Hf. rewrite Hh in He. apply find_nic_spec in Hf as [Hin Hix].
    rewrite Forall_forall in Hptx. exists nic, (peer_mac m.2), (peer_vlan m.2).
    split; [done|]. split; [congruence|]. split; [by apply Hptx|done].
  - apply Forall_forall. intros m Hm. apply Hall, elem_of_app. by right.
  - intros k v [Hv|(m & Hm & Hl)]%T; [by apply Htopo|]. exists m. split; [apply Hall, elem_of_app; by left|].
    by rewrite Hn, Hh in Hl.
Qed.

Lemma own_frame_genuine h c s i buf h' j buf' :
  cs !! h = Some c -> net_inv h c s -> (i, buf) ∈ s_sent s -> wire h i (tag_of buf) h' j ->
  arrives buf buf' -> Forall (genuine h') (received (LRecv j (Some (j, buf')))).
Proof.
  intros Hc Hi Hin Hw Ha. pose proof (n_sent _ _ _ Hi) as Hs. rewrite Forall_forall in Hs.
  destruct (Hs _ Hin) as (nic & dst & v & Hnic & Hix & Hu & He). cbn in Hix, He.
  rewrite Forall_forall in Hcs.
  destruct (Hcs c) as [_ [Hhl Hnl] [Hht Hnt] _]; [by eapply list_elem_of_lookup_2|].
  rewrite Forall_forall in Hnl, Hnt. specialize (Hnl nic Hnic). specialize (Hnt nic Hnic).
  assert (Hf : frame_ok (frame_of nic dst v (c_host c))).
  { unfold frame_ok, carries, frame_of, u12 in *. cbn [f_nic f_host f_vlan]. split_and!; try done; lia. }
  cbn [received]. rewrite (parse_arrives _ _ _ He Hf Ha).
  constructor; [|done]. split; [done|]. exists h, c, nic. cbn. split; [done|]. split; [done|].
  split; [done|]. rewrite (tag_of_encodes _ _ He) in Hw by done. by rewrite Hix.
Qed.

Definition net_ok (net : list host_state) : Prop :=
  forall h s, net !! h = Some s -> exists c, cs !! h = Some c /\ net_inv h c s.

Lemma initial_ok : net_ok initial.
Proof.
  intros h s. unfold initial. rewrite list_lookup_fmap. intros (c & Hc & ->)%fmap_Some.
  exists c. split; [done|]. rewrite Forall_forall in Hcs.
  destruct (Hcs c) as [Hv Hn Ht Hu]; [by eapply list_elem_of_lookup_2|].
  assert (Ho : opt_ok (c_opt c)).
  { apply (Forall_impl _ _ _ Hv). unfold range_ok. intros r. lia. }
  pose proof (start_inv (c_opt c) (c_nodename c) (c_nics c) Ho Hn Hu) as Hi.
  unfold start in *. rewrite bool_decide_eq_false_2 in * by done.
  constructor; cbn; try done.
  - apply Forall_forall. intros m (nic & r & v & _ & Hr & Hrv & ->)%elem_of_probes. cbn.
    assert (Hall : Forall (fun r => 0 <= r.1 <= r.2 /\ r.2 < 4096) (vlan_ranges (c_opt c))).
    { unfold vlan_ranges. apply Forall_app. split; [|by constructor].
      case_bool_decide; [by constructor|done]. }
    rewrite Forall_forall in Hall. specialize (Hall r Hr). unfold u12. lia.
  - intros k v. unfold vlans_of. rewrite lookup_empty. cbn. intros Hin. by apply not_elem_of_nil in Hin.
Qed.

Lemma insert_ok net h s c : net_ok net -> cs !! h = Some c -> net_inv h c s -> net_ok (<[h := s]> net).
Proof.
  intros Hok Hc Hi h' s' H. apply list_lookup_insert_Some in H as [(<- & <- & _)|[_ H]]; [by exists c|by apply Hok].
Qed.

Lemma net_step_ok net net' : net_ok net -> net_step checks wire net net' -> net_ok net'.
Proof.
  intros Hok H. revert Hok.
  destruct H as [net0 h l s s' Hs Hio Hl Hst|net0 h s i buf h' j buf' s' s'' Hs Hin Hw Hs' Hlen Ha Hst]; intros Hok.
  - destruct (Hok h s Hs) as (c & Hc & Hi). apply (insert_ok _ _ _ c Hok Hc).
    apply (turn_keeps h c l s s' Hi Hio Hst). destruct l; try constructor. by edestruct Hl.
  - destruct (Hok h s Hs) as (c & Hc & Hi). destruct (Hok h' s' Hs') as (c' & Hc' & Hi').
    apply (insert_ok _ _ _ c' Hok Hc'). apply (turn_keeps h' c' (LRecv j (Some (j, buf'))) s' s'' Hi'); [done|exact Hst|].
    by apply (own_frame_genuine h c s i buf h' j buf').
Qed.

Lemma reachable_ok net : reachable net -> net_ok net.
Proof.
  unfold reachable. intros H. assert (Hok : net_ok initial) by apply initial_ok.
  induction H as [|net net1 net2 Hs _ IH]; [done|]. by apply IH, (net_step_ok net).
Qed.

(** ** The properties *)

(** A host's node, as its own entries have it, and as the others' have it. *)
Definition own_node (c : config) (n : Interface) : Node := MkNode (c_host c) n.
Definition seen_node (c : config) (n : Interface) : Node :=
  MkNode (c_host c) (MkInterface 0 (name n) (mac n) OperState.default).

(** C5: What is shown is true. The hosts of a network probe VLANs below 4096, have names that are
    text of the lengths Linux allows and an interface to use; their sockets receive what is sent on
    the wires of their own interfaces, and no [recv] and no [set_promiscuous] fails. Then, however
    the hosts take turns, and whatever is lost, repeated, delayed, or stripped of its tag, a
    connection in the topology of a host joins one of its interfaces to an interface of a host of
    the network, with its true name and address; and for every VLAN listed, packets of that
    interface in that VLAN reach this one. *)
Theorem topology_is_true net h c s me peer v :
  reachable net -> net !! h = Some s -> cs !! h = Some c -> v ∈ vlans_of (s_topo s) (me, peer) ->
  exists nic h' c' nic', nic ∈ c_used c /\ me = own_node c nic /\
    cs !! h' = Some c' /\ nic' ∈ c_used c' /\ peer = seen_node c' nic' /\
    wire h' (index nic') v h (index nic).
Proof.
  intros Hr Hs Hc Hv. destruct (reachable_ok net Hr h s Hs) as (c0 & Hc0 & Hi).
  rewrite Hc in Hc0. injection Hc0 as <-.
  destruct (n_topo _ _ _ Hi _ _ Hv) as (m & (_ & h' & c' & nic' & Hc' & Hn' & Em & Hw) & i & Hf & E & ->).
  apply find_nic_spec in Hf as [Hin Hix]. injection E as -> ->.
  exists i, h', c', nic'. repeat split; try done.
  - rewrite Em. unfold peer_node, seen_node. cbn. by rewrite MacAddress.from_into.
  - by rewrite Hix.
Qed.
End Network.

Section Exchange.
Context {P : pnet} {L : pnet_laws} (checks : bool).

(** C26: A request is answered, and the answer ends the exchange, as long as the kernel does its
    part: the sockets receive packets of their own interfaces, and no [recv], no [set_promiscuous]
    and, from the request on, no [send] fails.  Take such a host, with arguments in range,
    interfaces of distinct numbers, and names that are text of the lengths Linux allows, and let it
    receive the broadcast packet of an interface whose address is not the broadcast address, in a
    VLAN below 4096.  Then, whatever the other tasks do meanwhile, after as many turns of its sender
    as its channel then holds messages, it has sent a packet to that interface's address, in the
    VLAN of the request; and wherever that arrives, tagged or not, it is parsed as the name,
    interface, address and VLAN of the answering host, and is no request. *)
Theorem request_answered opt nodename nics ls s nic hostA nicA v buf buf' s1 ls2 s2 :
  run_of checks opt nodename nics ls s -> NoDup (index <$> use_nics opt nics) -> nic ∈ use_nics opt nics ->
  utf8 (hostname nodename) = true -> utf8 (name nic) = true ->
  carries (name nicA) hostA v -> u12 v -> MacAddress.into (mac nicA) <> broadcast ->
  encodes (frame_of nicA broadcast v hostA) buf -> arrives buf buf' -> len buf' = 1024 ->
  step checks (LRecv (index nic) (Some (index nic, buf'))) s = Some s1 ->
  Forall io_ok ls2 -> Forall sends_ok ls2 -> steps checks ls2 s1 s2 -> (length (s_ptx s1) <= turns is_send ls2)%nat ->
  exists reply, (index nic, reply) ∈ s_sent s2 /\
    encodes (frame_of nic (MacAddress.into (mac nicA)) v (hostname nodename)) reply /\
    tag_of reply = v /\
    (forall reply', arrives reply reply' ->
       parse reply' =
         Ok (Some (MkPeer (hostname nodename) (name nic) (MacAddress.into (mac nic)) v, false))).
Proof.
  intros H Hd Hnic Hut Hun Hc Hu Hmac He Ha Hlen Hst Hio2 Hsend Hs2 Ht.
  pose proof (run_inv _ _ _ _ _ _ H) as Hi. destruct (run_static _ _ _ _ _ _ H) as [Hn Hh].
  assert (Hl : io_ok (LRecv (index nic) (Some (index nic, buf')))) by done.
  pose proof (step_inv _ _ _ _ Hi Hl Hst) as Hi1. destruct (step_static _ _ _ _ Hst) as (En & Eh & _).
  destruct (steps_static _ _ _ _ Hs2) as [En2 Eh2].
  assert (Hreq : is_broadcast broadcast = true) by by apply is_broadcast_iff.
  pose (peer := MkPeer hostA (name nicA) (MacAddress.into (mac nicA)) v).
  assert (Hp : s_ptx s1 = s_ptx s ++ [(index nic, peer)]).
  { assert (Hparse : parse buf' = Ok (Some (peer, true))).
    { rewrite (parse_arrives _ _ _ He Hc Ha). cbn. unfold operation_of. by rewrite Hreq. }
    cbn [step] in Hst. case_bool_decide; [|done]. injection Hst as <-. unfold recv_packet.
    rewrite Hparse, (inv_sender s Hi). cbn. by rewrite (inv_shower s Hi). }
  pose proof (find_nic_unique _ _ Hd Hnic) as Hf.
  destruct (queued_sent checks ls2 s1 s2 (index nic, peer)) as (i & reply & Hi' & Hin & Her); [done..| | |done|].
  - rewrite En, Hn. cbn. by rewrite Hf.
  - left. rewrite Hp. set_solver.
  - cbn in Hi', Hin, Her. rewrite En2, En, Hn, Hf in Hi'. injection Hi' as <-. rewrite Eh2, Eh, Hh in Her.
    exists reply. split; [done|]. split; [done|]. split; [by apply (tag_of_encodes _ _ Her)|].
    intros reply' Har. assert (Hok : frame_ok (frame_of nic (MacAddress.into (mac nicA)) v (hostname nodename))).
    { destruct (run_names _ _ _ _ _ _ H) as [Hhl Hnl]. rewrite Forall_forall in Hnl. specialize (Hnl nic Hnic).
      unfold frame_ok, carries, frame_of, u12 in *. cbn [f_nic f_host f_vlan]. split_and!; try done; lia. }
    rewrite (parse_arrives _ _ _ Her Hok Har). cbn. unfold peer_of, operation_of. cbn.
    destruct (is_broadcast (MacAddress.into (mac nicA))) eqn:Eb; [by apply is_broadcast_iff in Eb|done].
Qed.
End Exchange.

(** ** Witnesses: two hosts, connected *)

Import Wire.

(** Turns of one host, without packets. *)
Lemma net_turns {P : pnet} checks wire net h ls s s' :
  net !! h = Some s -> Forall (fun l => io_ok l /\ forall t r, l <> LRecv t r) ls ->
  steps checks ls s s' -> rtc (net_step checks wire) net (<[h := s']> net).
Proof.
  intros Hs Hls H. revert net Hs Hls. induction H as [s|l ls s s1 s2 Hst _ IH]; intros net Hs Hls.
  - by rewrite list_insert_id.
  - apply Forall_cons in Hls as [[Hio Hl] Hls]. apply (rtc_l _ _ (<[h := s1]> net)).
    + by apply (net_local checks wire net h l s s1).
    + replace (<[h := s2]> net) with (<[h := s2]> (<[h := s1]> net)) by apply list_insert_insert_eq.
      apply IH; [|done].
      apply list_lookup_insert_eq. by eapply lookup_lt_Some.
Qed.

Definition config_a : config := Config (MkOpt [(10, 10)] None) (Some (lit "srv1" ++ zeros 61)) [sample_interface].
Definition config_b : config := Config sample_opt sample_nodename [sample_nic].
Definition sample_cs : list config := [config_a; config_b].
Definition sample_wire (h : nat) (i v : Z) (h' : nat) (j : Z) : Prop := h <> h'.

Definition start_of (c : config) : host_state := start (c_opt c) (c_nodename c) (c_nics c).
Definition turns_a : list label := [LMain; LMain; LSend true true].
Definition a_sent : host_state := default (start_of config_a) (exec true turns_a (start_of config_a)).
Definition b_received : host_state := recv_packet 3 (Some (3, sample_packet ++ zeros 768)) (start_of config_b).
Definition b_shown : host_state := default b_received (exec true [LShow] b_received).

Lemma sample_configs : Forall config_ok sample_cs.
Proof.
  repeat constructor; try done; try (apply (bool_decide_unpack _); by vm_compute).
Qed.

Lemma sample_reachable : reachable true sample_wire sample_cs [a_sent; b_shown].
Proof.
  unfold reachable. transitivity [a_sent; start_of config_b].
  - apply (net_turns true sample_wire (initial sample_cs) 0 turns_a (start_of config_a) a_sent); [done| |].
    + by repeat constructor.
    + apply exec_default. by vm_compute.
  - transitivity [a_sent; b_received].
    + apply rtc_once.
      apply (net_deliver true sample_wire [a_sent; start_of config_b] 0 a_sent 2 sample_packet 1 3
               (sample_packet ++ zeros 768) (start_of config_b) b_received);
        [done|apply (bool_decide_unpack _); by vm_compute|done|done|by vm_compute|constructor|].
      cbn [step]. rewrite bool_decide_eq_true_2; [done|by left].
    + apply (net_turns true sample_wire [a_sent; b_received] 1 [LShow] b_received b_shown); [done| |].
      * by repeat constructor.
      * apply exec_default. by vm_compute.
Qed.

Lemma topology_is_true_witness :
  exists nic h' c' nic', nic ∈ c_used config_b /\ own_node config_b sample_nic = own_node config_b nic /\
    sample_cs !! h' = Some c' /\ nic' ∈ c_used c' /\
    seen_node config_a sample_interface = seen_node c' nic' /\ sample_wire h' (index nic') 10 1 (index nic).
Proof.
  apply (topology_is_true true sample_wire sample_cs sample_configs [a_sent; b_shown] 1 config_b b_shown);
    [apply sample_reachable|done|done|]. apply (bool_decide_unpack _). by vm_compute.
Defined.

Lemma request_answered_witness :
  exists reply, (3, reply) ∈ s_sent (default b_received (exec true [LSend true true] b_received)) /\
    encodes (frame_of sample_nic (MacAddress.into (mac sample_interface)) 10 (lit "srv2")) reply.
Proof.
  destruct (request_answered true sample_opt sample_nodename [sample_nic] [] sample_start sample_nic
              (lit "srv1") sample_interface 10 sample_packet (sample_packet ++ zeros 768) b_received [LSend true true]
              (default b_received (exec true [LSend true true] b_received))) as (reply & Hin & He & _).
  - by apply (sample_run []).
  - apply (bool_decide_unpack _). by vm_compute.
  - by left.
  - by vm_compute.
  - by vm_compute.
  - repeat split; done.
  - done.
  - done.
  - destruct (builder_encodes (zeros 256) sample_interface broadcast 10 (lit "srv1")) as (b & E & _ & He); [done|by vm_compute|].
    unfold sample_packet. by rewrite E.
  - constructor.
  - by vm_compute.
  - cbn [step]. rewrite bool_decide_eq_true_2; [done|by left].
  - by repeat constructor.
  - by repeat constructor.
  - apply exec_default. by vm_compute.
  - apply (bool_decide_unpack _). by vm_compute.
  - exists reply. split; [exact Hin|exact He].
Defined.
