(* ===== verification/TopoSockets.v ===== *)
(** * The topology prober: its receivers and their sockets

    [recv_packet] and [send_packet] of main.rs from their start: each makes a socket, call by call,
    and frames arrive between the calls.  The turns of [TopoSystem] happen inside: a round of a
    receiver's loop that returns a frame is its [LRecv].  A task that ends is, for the others, one
    that has panicked. *)

From Stdlib Require Import String.
From S2P Require Import Prelude RustStd RustStr Trace Sockets Topo TopoPacket TopoSystem.

(** Where a receiver is: about to make its socket; after [socket], [fcntl], [AsyncFd::new],
    [set_promiscuous] and [bind]; or it has panicked. *)
Inductive progress := Made | Configured | Registered | Promiscuous | Bound.
Inductive receiver := Opening | Opened (p : progress) (s : socket) | Dead.

Definition BUF : Z := 1024.

(** A host with its sockets; the turns its tasks have taken are only known to the model. *)
Record node := Node
  { n_host : host_state; n_receivers : gmap Z receiver; n_sender : bool; n_turns : list label }.

Definition set_receiver (t : Z) (r : receiver) (n : node) : node :=
  Node (n_host n) (<[t := r]> (n_receivers n)) (n_sender n) (n_turns n).

(** Turns: of a task; the next call of a receiver's start, and of the sender's, which succeeds or
    not; a frame or an error arrives at the socket of a receiver; a round of its loop; the sender, or
    the task that shows the topology, finds its channel closed. *)
Inductive event :=
| Task (l : label)
| Setup (t : Z) (ok : bool)
| OpenSender (ok : bool)
| Arrive (t : Z) (f : rx_frame)
| Raise (t : Z) (e : Z)
| Poll (t : Z)
| SenderEnds
| ShowerEnds.

Section Sockets.
Context {P : pnet} (checks : bool).

Definition start_node (opt : Opt) (nodename : option (list byte)) (nics : list Interface) : node :=
  let s := start opt nodename nics in
  Node s (list_to_map ((fun i => (i, Opening)) <$> s_receivers s)) false [].

(** A turn of a task of the host. *)
Definition host_turn (l : label) (n : node) : option node :=
  s ← step checks l (n_host n); Some (Node s (n_receivers n) (n_sender n) (n_turns n ++ [l])).

(** What [sock.recv] returns ends in [unwrap]. *)
Definition receive (t : Z) (r : option (Z * list byte)) (n : node) : option node :=
  n ← host_turn (LRecv t r) n;
  Some (if bool_decide (t ∈ s_receivers (n_host n)) then n else set_receiver t Dead n).

(** The calls of [Socket::new], [set_promiscuous] and [bind]: all of them end in [unwrap], except
    that the results of [fcntl] are not looked at. *)
Definition setup (t : Z) (ok : bool) (n : node) : option node :=
  match n_receivers n !! t with
  | Some Opening =>
      if ok then Some (set_receiver t (Opened Made (open_sock ETH_P_AARP)) n) else receive t None n
  | Some (Opened Made s) => Some (set_receiver t (Opened Configured (set_nonblock ok s)) n)
  | Some (Opened Configured s) =>
      if ok then Some (set_receiver t (Opened Registered (register s)) n) else receive t None n
  | Some (Opened Registered s) =>
      if ok then Some (set_receiver t (Opened Promiscuous (set_promiscuous true t s)) n) else receive t None n
  | Some (Opened Promiscuous s) =>
      if ok then Some (set_receiver t (Opened Bound (bind (ll_address ETH_P_AARP t) s)) n) else receive t None n
  | _ => None
  end.

(** A round of the loop of [Socket::recv], with a new buffer. *)
Definition poll (t : Z) (n : node) : option node :=
  match n_receivers n !! t with
  | Some (Opened Bound s) =>
      '(r, s) ← read_turn (zeros BUF) s;
      let n := set_receiver t (Opened Bound s) n in
      match r with
      | None => Some n
      | Some (inl (_, ifindex, buf)) => receive t (Some (ifindex, buf)) n
      | Some (inr _) => receive t None n
      end
  | _ => None
  end.

(** The senders of both channels are held by the receivers and by the main task, until it has sent
    its probes or panicked. *)
Definition senders_dropped (s : host_state) : bool :=
  bool_decide (s_receivers s = []) && (negb (s_main s) || bool_decide (s_todo s = [])).

(** [main] returns when it has awaited all tasks. *)
Definition main_returns (s : host_state) : bool := senders_dropped s && negb (s_sender s) && negb (s_shower s).

Definition node_step (e : event) (n : node) : option node :=
  match e with
  | Task (LRecv _ _) => None
  | Task (LSend promisc sent) => if n_sender n then host_turn (LSend promisc sent) n else None
  | Task l => host_turn l n
  | Setup t ok => setup t ok n
  | OpenSender ok =>
      if s_sender (n_host n) && negb (n_sender n) then
        Some (if ok : bool then Node (n_host n) (n_receivers n) true (n_turns n)
              else Node (sender_panics (n_host n)) (n_receivers n) false (n_turns n))
      else None
  | Arrive t f =>
      match n_receivers n !! t with
      | Some (Opened p s) => Some (set_receiver t (Opened p (arrive f s)) n)
      | _ => None
      end
  | Raise t e =>
      match n_receivers n !! t with
      | Some (Opened p s) => Some (set_receiver t (Opened p (raise e s)) n)
      | _ => None
      end
  | Poll t => poll t n
  | SenderEnds =>
      let s := n_host n in
      if n_sender n && s_sender s && senders_dropped s && bool_decide (s_ptx s = []) then
        Some (Node (sender_panics s) (n_receivers n) (n_sender n) (n_turns n))
      else None
  | ShowerEnds =>
      let s := n_host n in
      if s_shower s && senders_dropped s && bool_decide (s_ttx s = []) && bool_decide (s_phase s = Waiting) then
        Some (Node (shower_panics s) (n_receivers n) (n_sender n) (n_turns n))
      else None
  end.
End Sockets.
