(* ===== verification/TopoSocketsTheorems.v ===== *)
(** * The topology prober and its sockets: properties

    The frames that arrive on its interfaces are what the prober receives, in order, and what its
    topology shows.  A frame of another interface that a socket takes before it is bound leaves the
    screen stale. *)

From Stdlib Require Import String.
From stdpp Require Import vector.
From S2P Require Import Prelude RustStd RustStr Trace Sockets Topo TopoTheorems TopoPacket TopoPacketTheorems TopoSystem TopoSystemTheorems TopoSockets.

(** ** Frames and turns *)

(** What a receiver makes of a frame: its interface, and the buffer it is in. *)
Definition fill (f : rx_frame) : Z * list byte :=
  let bs := take (Z.to_nat BUF) (f_bytes f) in (f_if f, bs ++ drop (length bs) (zeros BUF)).

Lemma fill_length f : len (fill f).2 = 1024.
Proof.
  unfold fill. cbn [snd]. pose proof (length_zeros BUF ltac:(done)) as Hz. unfold BUF in *.
  rewrite length_app, length_drop, length_take. lia.
Qed.

(** The frames of the prober's protocol that have arrived at receiver [t]. *)
Definition arrived (t : Z) (es : list event) : list rx_frame :=
  omap (fun e => match e with
                 | Arrive t' f => if bool_decide (t' = t /\ f_proto f = ETH_P_AARP) then Some f else None
                 | _ => None
                 end) es.

(** What receiver [t] has been given. *)
Definition results (t : Z) (ls : list label) : list (option (Z * list byte)) :=
  omap (fun l => match l with LRecv t' r => if bool_decide (t' = t) then Some r else None | _ => None end) ls.

(** The kernel does its part: its calls succeed, and no frame of another interface gets to the
    socket of a receiver, which is certain once it is bound. *)
Definition event_ok (e : event) : Prop :=
  match e with
  | Task l => io_ok l
  | Setup _ ok | OpenSender ok => ok = true
  | Arrive t f => f_if f = t
  | Raise _ _ => False
  | Poll _ | SenderEnds | ShowerEnds => True
  end.

Lemma arrived_snoc t es e : arrived t (es ++ [e]) = arrived t es ++ arrived t [e].
Proof. unfold arrived. by rewrite omap_app. Qed.

Lemma results_snoc t ls l : results t (ls ++ [l]) = results t ls ++ results t [l].
Proof. unfold results. by rewrite omap_app. Qed.

Lemma results_recv t t' r : results t [LRecv t' r] = if bool_decide (t' = t) then [r] else [].
Proof. unfold results. cbn. by case_bool_decide. Qed.

Lemma arrived_arrive t t' f :
  arrived t [Arrive t' f] = if bool_decide (t' = t /\ f_proto f = ETH_P_AARP) then [f] else [].
Proof. unfold arrived. cbn. by case_bool_decide. Qed.

(** ** The invariant *)

Section Host.
Context {P : pnet} {L : pnet_laws} (checks : bool).
Context (opt : Opt) (nodename : option (list byte)) (nics : list Interface).

Lemma steps_snoc ls l s s1 s2 :
  steps checks ls s s1 -> step checks l s1 = Some s2 -> steps checks (ls ++ [l]) s s2.
Proof.
  induction 1 as [|l0 ls s s0 s1 H0 _ IH]; cbn; intros Hl; [by repeat econstructor|].
  econstructor; [done|by apply IH].
Qed.

Lemma run_of_snoc ls l s s' :
  run_of checks opt nodename nics ls s -> io_ok l -> step checks l s = Some s' ->
  run_of checks opt nodename nics (ls ++ [l]) s'.
Proof.
  intros [Ho Hn Hne Hio H] Hl Hs. constructor; [done..| |by eapply steps_snoc].
  apply Forall_app. by repeat constructor.
Qed.

(** The socket of a receiver: what it takes, and that it misses no frame. *)
Record sock_inv (t : Z) (p : progress) (s : socket) : Prop := SockInv
  { si_error : k_error s = None;
    si_frames : Forall (fun f => f_if f = t) (k_queue s);
    si_proto : bswap 2 (k_proto s) = ETH_P_AARP;
    si_bound : k_bound s = None \/ k_bound s = Some t;
    si_mode : p <> Made -> k_nonblock s = true;
    si_ready : p <> Made -> p <> Configured -> readable_inv s }.

Definition receiver_inv (t : Z) (ls : list label) (es : list event) (r : receiver) : Prop :=
  match r with
  | Opening => results t ls = [] /\ arrived t es = []
  | Opened p s =>
      sock_inv t p s /\
      results t ls ++ ((fun f => Some (fill f)) <$> k_queue s) = (fun f => Some (fill f)) <$> arrived t es
  | Dead => False
  end.

Record node_inv (es : list event) (n : node) : Prop := NodeInv
  { ni_run : run_of checks opt nodename nics (n_turns n) (n_host n);
    ni_dom : forall t, is_Some (n_receivers n !! t) <-> t ∈ index <$> use_nics opt nics;
    ni_recv : forall t r, n_receivers n !! t = Some r -> receiver_inv t (n_turns n) es r }.

(** An event at receiver [t0], and one at none. *)
Lemma node_inv_set es e n t0 r :
  node_inv es n -> is_Some (n_receivers n !! t0) -> (forall t, t <> t0 -> arrived t [e] = []) ->
  receiver_inv t0 (n_turns n) (es ++ [e]) r -> node_inv (es ++ [e]) (set_receiver t0 r n).
Proof.
  intros [Hr Hd Hi] Ht0 He Hr0. constructor; cbn.
  - done.
  - intros t. rewrite lookup_insert_is_Some, <- Hd. destruct (decide (t0 = t)) as [->|]; naive_solver.
  - intros t r'. rewrite lookup_insert_Some. intros [[<- <-]|[Hne Ht]]; [done|].
    specialize (Hi t r' Ht). unfold receiver_inv in *. rewrite arrived_snoc, He, app_nil_r by done. done.
Qed.

Lemma node_inv_turn es e n l s :
  node_inv es n -> io_ok l -> (forall t, results t [l] = []) -> (forall t, arrived t [e] = []) ->
  step checks l (n_host n) = Some s ->
  node_inv (es ++ [e]) (Node s (n_receivers n) (n_sender n) (n_turns n ++ [l])).
Proof.
  intros [Hr Hd Hi] Hl Hrl He Hs. constructor; cbn; [by eapply run_of_snoc|done|].
  intros t r Ht. specialize (Hi t r Ht). unfold receiver_inv in *.
  by rewrite results_snoc, arrived_snoc, Hrl, He, !app_nil_r.
Qed.

(** A frame is received: the receiver goes on. *)
Lemma node_inv_receive es t s f q n' n :
  node_inv es n -> n_receivers n !! t = Some (Opened Bound s) -> k_queue s = f :: q -> f_if f = t ->
  receive checks t (Some (fill f)) (set_receiver t (Opened Bound (with_queue q s)) n) = Some n' ->
  node_inv (es ++ [Poll t]) n'.
Proof.
  intros [Hr Hd Hi] Ht Hq Hf H. apply bind_Some in H as (n1 & H1 & H).
  apply bind_Some in H1 as (h & Hh & H1). injection H1 as <-. cbn in Hh, H.
  assert (Hio : io_ok (LRecv t (Some (fill f)))) by (split; [done|apply fill_length]).
  pose proof (run_of_snoc _ _ _ _ Hr Hio Hh) as Hr'.
  assert (Hin : t ∈ s_receivers h).
  { rewrite (inv_receivers h (run_inv _ _ _ _ _ _ Hr')).
    destruct (run_static _ _ _ _ _ _ Hr') as [-> _]. apply Hd. by eexists. }
  rewrite bool_decide_eq_true_2 in H by done. injection H as <-. constructor; cbn; [done| |].
  - intros t'. rewrite lookup_insert_is_Some, <- Hd. destruct (decide (t = t')) as [->|]; naive_solver.
  - intros t' r. rewrite lookup_insert_Some. intros [[<- <-]|[Hne Ht']].
    + destruct (Hi t _ Ht) as [[H1 H0 H2 H3 H4 H5] He]. rewrite Hq in H0. apply Forall_cons in H0 as [_ H0].
      split; [constructor; cbn; try done|].
      { intros _ _ []; cbn in *; [|congruence]. apply H5; [done..|]. left. by rewrite Hq. }
      rewrite results_snoc, results_recv, bool_decide_eq_true_2, arrived_snoc by done. cbn. rewrite app_nil_r, <- He, Hq.
      by rewrite <- (assoc_L (++)).
    + specialize (Hi t' r Ht'). unfold receiver_inv in *.
      rewrite results_snoc, results_recv, bool_decide_eq_false_2, arrived_snoc by done. cbn. by rewrite !app_nil_r.
Qed.

Lemma node_inv_poll es t n n' : node_inv es n -> poll checks t n = Some n' -> node_inv (es ++ [Poll t]) n'.
Proof.
  intros Hinv H. unfold poll in H. destruct (n_receivers n !! t) as [[|[] s|]|] eqn:Ht; try done.
  apply bind_Some in H as ([r s'] & Hrt & H).
  destruct (ni_recv _ _ Hinv _ _ Ht) as [[H1 H0 H2 H3 H4 H5] He].
  destruct (read_turn_cases _ _ _ _ H1 Hrt) as [(f & q & Hq & -> & ->)|(Hq & -> & ->)].
  - rewrite Hq in H0. apply Forall_cons in H0 as [Hf _]. by eapply (node_inv_receive es t s f q n' n).
  - injection H as <-. apply node_inv_set; [done|by eexists|done|].
    split; [constructor; cbn; try done|].
    + intros _ _ []; cbn in *; congruence.
    + rewrite arrived_snoc. cbn. by rewrite app_nil_r.
Qed.

Lemma node_inv_setup es t n n' : node_inv es n -> setup checks t true n = Some n' -> node_inv (es ++ [Setup t true]) n'.
Proof.
  intros Hinv H. unfold setup in H. destruct (n_receivers n !! t) as [r|] eqn:Ht; [|done].
  pose proof (ni_recv _ _ Hinv _ _ Ht) as Hi.
  destruct r as [|p s|]; [|destruct p; [..|done]|done]; injection H as <-;
    (apply node_inv_set; [done|by eexists|done|]); cbn in Hi |- *.
  - destruct Hi as [Hr Ha]. rewrite Hr, arrived_snoc, Ha. split; [|done].
    constructor; cbn; try done. by left.
  - destruct Hi as [[H1 H0 H2 H3 H4 H5] He]. rewrite arrived_snoc. cbn. rewrite app_nil_r.
    split; [|done]. by constructor.
  - destruct Hi as [[H1 H0 H2 H3 H4 H5] He]. rewrite arrived_snoc. cbn. rewrite app_nil_r.
    split; [|done]. constructor; try done; [by auto|]. intros _ _. apply register_inv.
  - destruct Hi as [[H1 H0 H2 H3 H4 H5] He]. rewrite arrived_snoc. cbn. rewrite app_nil_r.
    split; [|done]. constructor; cbn; try done; intros; [by apply H4|by apply H5].
  - destruct Hi as [[H1 H0 H2 H3 H4 H5] He]. rewrite arrived_snoc. cbn. rewrite app_nil_r.
    split; [|done]. constructor; cbn; try done; intros; [by right|by apply H4|by apply H5].
Qed.

Lemma node_inv_arrive es t f n n' :
  node_inv es n -> f_if f = t -> node_step checks (Arrive t f) n = Some n' -> node_inv (es ++ [Arrive t f]) n'.
Proof.
  intros Hinv Hf H. cbn in H. destruct (n_receivers n !! t) as [[|p s|]|] eqn:Ht; try done. injection H as <-.
  apply node_inv_set; [done|by eexists| |].
  { intros t' Hne. rewrite arrived_arrive, bool_decide_eq_false_2 by naive_solver. done. }
  destruct (ni_recv _ _ Hinv _ _ Ht) as [[H1 H0 H2 H3 H4 H5] He]. unfold receiver_inv.
  rewrite arrived_snoc, arrived_arrive.
  assert (Ha : accepts s f = bool_decide (t = t /\ f_proto f = ETH_P_AARP)).
  { unfold accepts. rewrite H2. assert (match k_bound s with None => true | Some i => bool_decide (f_if f = i) end = true) as ->.
    { destruct H3 as [->| ->]; [done|by apply bool_decide_eq_true_2]. }
    rewrite andb_true_r, bool_decide_eq_false_2 by done. cbn. apply bool_decide_ext. naive_solver. }
  unfold arrive. rewrite Ha. case_bool_decide as Hp; [|by rewrite app_nil_r].
  cbn. rewrite !fmap_app, (assoc_L (++)), He. split; [|done]. constructor; cbn; try done.
  apply Forall_app. by repeat constructor.
Qed.

(** The channels stay open as long as the receivers run. *)
Lemma node_inv_held es n : node_inv es n -> senders_dropped (n_host n) = false.
Proof.
  intros Hinv. pose proof (ni_run _ _ Hinv) as Hrun. unfold senders_dropped.
  rewrite (inv_receivers _ (run_inv _ _ _ _ _ _ Hrun)). destruct (run_static _ _ _ _ _ _ Hrun) as [-> _].
  rewrite bool_decide_eq_false_2; [done|]. intros E%fmap_nil_inv. by apply (run_nics _ _ _ _ _ _ Hrun).
Qed.

Lemma node_step_inv es e n n' :
  node_inv es n -> event_ok e -> node_step checks e n = Some n' -> node_inv (es ++ [e]) n'.
Proof.
  intros Hinv Hok H. destruct e as [l|t ok|ok|t f|t e|t| |]; cbn in Hok.
  - assert (Ht : host_turn checks l n = Some n' /\ (forall t, results t [l] = [])).
    { unfold node_step in H. destruct l; [done| |done..]. destruct (n_sender n); [|done]. by split. }
    destruct Ht as [Ht Hl]. apply bind_Some in Ht as (s & Hs & Ht). injection Ht as <-.
    by apply (node_inv_turn es (Task l) n l s).
  - subst ok. by apply (node_inv_setup es t n).
  - subst ok. cbn in H. case_match; [|done]. injection H as <-.
    destruct Hinv as [Hr Hd Hi]. constructor; cbn; [done..|].
    intros t r Ht. specialize (Hi t r Ht). unfold receiver_inv in *. rewrite arrived_snoc. cbn. by rewrite app_nil_r.
  - by apply (node_inv_arrive es t f n).
  - done.
  - by apply (node_inv_poll es t n).
  - cbn in H. by rewrite (node_inv_held es n Hinv), andb_false_r in H.
  - cbn in H. by rewrite (node_inv_held es n Hinv), andb_false_r in H.
Qed.

Hypothesis Hopt : opt_ok opt.
Hypothesis Hnames : names_ok (hostname nodename) (use_nics opt nics).
Hypothesis Hnics : use_nics opt nics <> [].

Lemma start_receivers t :
  t ∈ index <$> use_nics opt nics -> n_receivers (start_node opt nodename nics) !! t = Some Opening.
Proof.
  intros Hin. assert (Hr : s_receivers (start opt nodename nics) = index <$> use_nics opt nics).
  { unfold start. by rewrite bool_decide_eq_false_2. }
  unfold start_node. cbn. rewrite Hr.
  destruct (list_to_map ((fun i => (i, Opening)) <$> (index <$> use_nics opt nics)) !! t) as [r|] eqn:E.
  - apply elem_of_list_to_map_2, list_elem_of_fmap in E as (i & Hi & _). by simplify_eq.
  - apply not_elem_of_list_to_map in E. exfalso. apply E.
    rewrite <- list_fmap_compose. by apply list_elem_of_fmap; exists t.
Qed.

Lemma start_node_inv : node_inv [] (start_node opt nodename nics).
Proof.
  assert (Hr : s_receivers (start opt nodename nics) = index <$> use_nics opt nics).
  { unfold start. by rewrite bool_decide_eq_false_2. }
  assert (Hrec : forall t r, n_receivers (start_node opt nodename nics) !! t = Some r -> r = Opening /\ t ∈ index <$> use_nics opt nics).
  { intros t r Ht. unfold start_node in Ht. cbn in Ht. apply elem_of_list_to_map_2 in Ht.
    apply list_elem_of_fmap in Ht as (i & Hi & Hin). rewrite Hr in Hin. by simplify_eq. }
  constructor.
  - constructor; [done..|constructor|constructor].
  - intros t. split; [by intros [r [_ Ht]%Hrec]|]. intros Ht. eexists. by apply start_receivers.
  - intros t r [-> _]%Hrec. done.
Qed.

Lemma node_run_inv es n :
  Trace.exec (node_step checks) es (start_node opt nodename nics) = Some n -> Forall event_ok es -> node_inv es n.
Proof.
  intros H. revert H. apply (exec_ind (node_step checks) (fun es n => Forall event_ok es -> node_inv es n)).
  - intros _. apply start_node_inv.
  - intros es' e n1 n2 _ IH Hst [Hes He]%Forall_app. apply Forall_inv in He.
    by eapply node_step_inv; [apply IH| |].
Qed.

(** ** Frames, turns and the topology *)

(** The frames a receiver has still to read, and the message of a frame. *)
Definition queued_frames (t : Z) (n : node) : list rx_frame :=
  match n_receivers n !! t with Some (Opened _ s) => k_queue s | _ => [] end.
Definition frame_message (f : rx_frame) : list message :=
  match parse (fill f).2 with Ok (Some (peer, _)) => [(f_if f, peer)] | _ => [] end.

Lemma elem_of_results t r ls : r ∈ results t ls <-> LRecv t r ∈ ls.
Proof.
  unfold results. rewrite list_elem_of_omap. split.
  - intros ([] & Hin & Hr); try done. case_bool_decide; by simplify_eq.
  - intros Hin. exists (LRecv t r). by rewrite bool_decide_eq_true_2.
Qed.

Lemma node_results es n t :
  node_inv es n -> t ∈ index <$> use_nics opt nics ->
  results t (n_turns n) ++ ((fun f => Some (fill f)) <$> queued_frames t n) = (fun f => Some (fill f)) <$> arrived t es.
Proof.
  intros Hinv [r Hr]%(ni_dom _ _ Hinv). pose proof (ni_recv _ _ Hinv _ _ Hr) as Hi. unfold queued_frames. rewrite Hr.
  destruct r as [|p s|]; [|apply Hi|done]. by destruct Hi as [-> ->].
Qed.

(** The turns of a run are turns of the interfaces in use. *)
Lemma recv_turn_used ls s t r :
  run_of checks opt nodename nics ls s -> LRecv t r ∈ ls -> t ∈ index <$> use_nics opt nics.
Proof.
  intros [Ho Hn Hne Hio H] Hin. pose proof (start_inv _ _ _ Ho Hn Hne) as Hi.
  assert (Hs : s_nics (start opt nodename nics) = use_nics opt nics).
  { unfold start. by rewrite bool_decide_eq_false_2. }
  rewrite <- Hs. clear Hs. induction H as [|l ls s s1 s2 Hst _ IH]; [by apply not_elem_of_nil in Hin|].
  apply Forall_cons in Hio as [Hl Hio]. destruct (step_static _ _ _ _ Hst) as (E & _ & _).
  apply elem_of_cons in Hin as [<-|Hin].
  - rewrite <- (inv_receivers s Hi). cbn in Hst. by case_bool_decide.
  - rewrite <- E. by apply IH; [| |eapply step_inv].
Qed.

(** The prober receives the frames of its protocol that arrive on its interfaces: each receiver gets, in
    order and once, those that have arrived at its socket since it was made, each in a buffer of
    1024 bytes, and the rest is waiting; what the tasks do with them is a run of the host in which the
    kernel does its part; and the prober does not end. *)
Theorem frames_are_received es n :
  Trace.exec (node_step checks) es (start_node opt nodename nics) = Some n -> Forall event_ok es ->
  run_of checks opt nodename nics (n_turns n) (n_host n) /\
  main_returns (n_host n) = false /\
  forall t, t ∈ index <$> use_nics opt nics ->
    results t (n_turns n) ++ ((fun f => Some (fill f)) <$> queued_frames t n) =
      (fun f => Some (fill f)) <$> arrived t es.
Proof.
  intros H Hok. pose proof (node_run_inv _ _ H Hok) as Hinv. split; [apply Hinv|].
  split; [unfold main_returns; by rewrite (node_inv_held es n Hinv)|]. intros t. by apply node_results.
Qed.

(** The messages of a run are those of the frames read. *)
Lemma messages_of_frames es n m :
  node_inv es n -> m ∈ (n_turns n ≫= received) ->
  exists t f, f ∈ arrived t es /\ m ∈ frame_message f.
Proof.
  intros Hinv (l & Hm & Hl)%list_elem_of_bind. destruct l as [| |t r| |]; try by apply not_elem_of_nil in Hm.
  pose proof (recv_turn_used _ _ _ _ (ni_run _ _ Hinv) Hl) as Ht.
  apply elem_of_results in Hl.
  assert (Hr : r ∈ (fun f => Some (fill f)) <$> arrived t es).
  { rewrite <- (node_results es n t Hinv Ht). apply elem_of_app. by left. }
  apply list_elem_of_fmap in Hr as (f & -> & Hf). exists t, f. split; [done|].
  unfold frame_message. cbn in Hm. unfold fill in *. cbn in *. done.
Qed.

Lemma frames_have_messages es n m t f :
  node_inv es n -> t ∈ index <$> use_nics opt nics -> queued_frames t n = [] ->
  f ∈ arrived t es -> m ∈ frame_message f -> m ∈ (n_turns n ≫= received).
Proof.
  intros Hinv Ht Hq Hf Hm. pose proof (node_results es n t Hinv Ht) as He. rewrite Hq in He. cbn in He. rewrite app_nil_r in He.
  apply list_elem_of_bind. exists (LRecv t (Some (fill f))). split; [done|].
  apply elem_of_results. rewrite He. apply list_elem_of_fmap. by exists f.
Qed.

(** C7: from the wire to the screen, when nothing goes wrong: the arguments are in range, there is
    an interface to use, the names are of the lengths Linux allows, the calls that make and set up
    the sockets succeed, no socket has an error, and no frame of another interface gets to the
    socket of a receiver before it is bound. Then a connection in the topology, with a VLAN, is what
    a frame says that has arrived on one of the interfaces. Once all frames are read and their
    messages taken, every frame's connection is in the topology, and once the task that shows it
    waits, what it has last drawn is this topology, or that is empty. A receiver that has frames to
    read is never asleep: it can take a turn, of its start or of its loop. *)
Theorem topology_of_frames es n :
  Trace.exec (node_step checks) es (start_node opt nodename nics) = Some n -> Forall event_ok es ->
  (forall k v, v ∈ vlans_of (s_topo (n_host n)) k -> exists t f m, f ∈ arrived t es /\
     m ∈ frame_message f /\ link_of (hostname nodename) (use_nics opt nics) m k v) /\
  ((forall t, t ∈ index <$> use_nics opt nics -> queued_frames t n = []) -> s_ttx (n_host n) = [] ->
   forall k v t f m, t ∈ index <$> use_nics opt nics -> f ∈ arrived t es -> m ∈ frame_message f ->
     link_of (hostname nodename) (use_nics opt nics) m k v -> v ∈ vlans_of (s_topo (n_host n)) k) /\
  (s_ttx (n_host n) = [] -> s_phase (n_host n) = Waiting ->
   s_topo (n_host n) = ∅ \/ s_screen (n_host n) = Some (s_topo (n_host n))) /\
  (forall t, queued_frames t n <> [] ->
     is_Some (node_step checks (Setup t true) n) \/ is_Some (node_step checks (Poll t) n)).
Proof.
  intros H Hok. pose proof (node_run_inv _ _ H Hok) as Hinv.
  pose proof (ni_run _ _ Hinv) as Hrun. pose proof (run_inv _ _ _ _ _ _ Hrun) as Hi.
  destruct (steps_topology checks _ _ _ (start_inv _ _ _ Hopt Hnames Hnics) (run_io _ _ _ _ _ _ Hrun) (run_steps _ _ _ _ _ _ Hrun))
    as (shown & E & T).
  assert (Hst : s_ttx (start opt nodename nics) = [] /\ s_topo (start opt nodename nics) = ∅ /\
    s_host (start opt nodename nics) = hostname nodename /\ s_nics (start opt nodename nics) = use_nics opt nics).
  { unfold start. by rewrite bool_decide_eq_false_2. }
  destruct Hst as (Hs1 & Hs2 & Hs3 & Hs4). rewrite Hs1 in E. rewrite Hs2, Hs3, Hs4 in T. cbn [app] in E.
  split; [|split; [|split; [by intros Ht Hw; apply (inv_screen _ Hi Hw Ht)|]]].
  - intros k v [Hv|(m & Hm & Hk)]%T; [unfold vlans_of in Hv; rewrite lookup_empty in Hv; by apply not_elem_of_nil in Hv|].
    destruct (messages_of_frames es n m Hinv) as (t & f & Hf & Hfm); [rewrite E; set_solver|]. by exists t, f, m.
  - intros Hq Ht k v t f m Htn Hf Hm Hk. rewrite Ht, app_nil_r in E. apply T. right. exists m. split; [|done].
    rewrite <- E. by eapply frames_have_messages; [| |apply Hq| |].
  - intros t Hq. unfold queued_frames in Hq. cbn. unfold setup, poll.
    destruct (n_receivers n !! t) as [[|p s|]|] eqn:Ht; try done. destruct p; try (left; by eexists).
    right. destruct (ni_recv _ _ Hinv _ _ Ht) as [[H1 H0 H2 H3 H4 H5] He].
    destruct (k_queue s) as [|f q] eqn:Hqs; [done|].
    assert (Hready : k_ready s = true) by (apply H5; [done|done|left; by rewrite Hqs]).
    rewrite (read_turn_frame _ s f q Hready H1 Hqs). cbn.
    unfold receive, host_turn. cbn. rewrite bool_decide_eq_true_2; [by eexists|].
    rewrite (inv_receivers _ Hi). destruct (run_static _ _ _ _ _ _ Hrun) as [-> _]. apply (ni_dom _ _ Hinv). by eexists.
Qed.

(** ** Before a socket is bound *)

(** All calls succeed; frames of any interface may arrive. *)
Definition calls_ok (e : event) : Prop :=
  match e with
  | Task (LSend ok _) | Setup _ ok | OpenSender ok => ok = true
  | Raise _ _ => False
  | _ => True
  end.

(** Two frames at a socket that is not yet bound, the rest of the receiver's start, and the turns
    that read and show them. *)
Definition early_frames (t : Z) (f1 f2 : rx_frame) : list event :=
  [Setup t true; Arrive t f1; Arrive t f2; Setup t true; Setup t true; Setup t true; Setup t true;
   Poll t; Poll t; Task LShow; Task LShow].

Lemma accepts_new f : f_proto f = ETH_P_AARP -> forall q r, accepts (MkSocket (bswap 2 ETH_P_AARP) None [] false q None r) f = true.
Proof. intros Hf q r. unfold accepts. cbn [k_proto k_bound]. rewrite Hf. by vm_compute. Qed.

Lemma early_receive t f peer request h recs b ls :
  t ∈ s_receivers h -> s_shower h = true -> s_sender h = true -> parse (fill f).2 = Ok (Some (peer, request)) ->
  let h' := with_ttx (s_ttx h ++ [(f_if f, peer)]) (if request then with_ptx (s_ptx h ++ [(f_if f, peer)]) h else h) in
  receive checks t (Some (fill f)) (Node h recs b ls) = Some (Node h' recs b (ls ++ [LRecv t (Some (fill f))])).
Proof.
  intros Ht Hw Hs Hp. unfold receive, host_turn. cbn [n_host n_receivers n_sender n_turns step].
  rewrite bool_decide_eq_true_2 by done. unfold recv_packet. destruct (fill f) as [i buf] eqn:Ef. cbn [snd] in Hp.
  assert (i = f_if f) as -> by (unfold fill in Ef; by injection Ef).
  rewrite Hp. destruct request; cbn; rewrite ?Hs; cbn; rewrite Hw; cbn; by rewrite bool_decide_eq_true_2.
Qed.

Lemma early_setup t f1 f2 n :
  n_receivers n !! t = Some Opening -> f_proto f1 = ETH_P_AARP -> f_proto f2 = ETH_P_AARP ->
  exists recs k, Trace.exec (node_step checks) (take 7 (early_frames t f1 f2)) n =
      Some (Node (n_host n) recs (n_sender n) (n_turns n)) /\
    recs !! t = Some (Opened Bound k) /\ k_queue k = [f1; f2] /\ k_error k = None /\ k_ready k = true.
Proof.
  intros Ht H1 H2. unfold early_frames. cbn [take]. eexists _, _.
  split; [eapply exec_cons_Some; [cbn [node_step]; unfold setup; by rewrite Ht|]|].
  - eapply exec_cons_Some.
    { cbn. rewrite lookup_insert_eq. unfold arrive, open_sock. by rewrite (accepts_new f1 H1). }
    eapply exec_cons_Some.
    { cbn. rewrite lookup_insert_eq. unfold arrive, with_ready, with_queue. cbn. by rewrite (accepts_new f2 H2). }
    do 4 (eapply exec_cons_Some; [cbn [node_step]; unfold setup; cbn [set_receiver n_receivers]; by rewrite lookup_insert_eq|]).
    reflexivity.
  - rewrite lookup_insert_eq. by vm_compute.
Qed.

Lemma early_poll t f q k peer request h recs b ls :
  recs !! t = Some (Opened Bound k) -> k_queue k = f :: q -> k_error k = None -> k_ready k = true ->
  t ∈ s_receivers h -> s_shower h = true -> s_sender h = true -> parse (fill f).2 = Ok (Some (peer, request)) ->
  let h' := with_ttx (s_ttx h ++ [(f_if f, peer)]) (if request then with_ptx (s_ptx h ++ [(f_if f, peer)]) h else h) in
  poll checks t (Node h recs b ls) =
    Some (Node h' (<[t := Opened Bound (with_queue q k)]> recs) b (ls ++ [LRecv t (Some (fill f))])).
Proof.
  intros Ht Hq He Hr Hin Hw Hs Hp. unfold poll. cbn [n_receivers]. rewrite Ht, (read_turn_frame _ k f q Hr He Hq).
  by apply early_receive.
Qed.

(** The task that shows the topology skips a message of an interface that is not in use. *)
Lemma early_show m1 m2 i h recs b ls :
  s_shower h = true -> s_phase h = Waiting -> s_ttx h = [m1; m2] ->
  find_nic (s_nics h) m1.1 = Some i -> find_nic (s_nics h) m2.1 = None ->
  Trace.exec (node_step checks) [Task LShow; Task LShow] (Node h recs b ls) =
    Some (Node (with_ttx [] (with_topo (update_topo (s_host h) i m1.2 (s_topo h)) h)) recs b ((ls ++ [LShow]) ++ [LShow])).
Proof.
  intros Hw Hp Ht H1 H2. destruct h. cbn in *. subst. cbn. unfold show_topo. cbn. rewrite H1. cbn.
  unfold show_topo. cbn. by rewrite H2.
Qed.

(** C8: a socket takes frames of every interface from when it is made until it is bound, and the
    task that shows the topology skips a message of an interface that is not in use, also when that is
    the last: after a frame of an interface in use and one of another, in that order and before
    the socket is bound, the prober waits for messages with a connection in its topology that it has
    not drawn, though no call has failed. *)
Theorem unbound_socket_stale_screen t f1 f2 p1 r1 p2 r2 :
  t ∈ index <$> use_nics opt nics -> f_if f1 = t -> f_proto f1 = ETH_P_AARP -> f_proto f2 = ETH_P_AARP ->
  f_if f2 ∉ index <$> use_nics opt nics ->
  parse (fill f1).2 = Ok (Some (p1, r1)) -> parse (fill f2).2 = Ok (Some (p2, r2)) ->
  exists n, Trace.exec (node_step checks) (early_frames t f1 f2) (start_node opt nodename nics) = Some n /\
    Forall calls_ok (early_frames t f1 f2) /\
    s_phase (n_host n) = Waiting /\ s_ttx (n_host n) = [] /\ s_topo (n_host n) <> ∅ /\ s_screen (n_host n) = None.
Proof.
  intros Ht H1 Ha1 Ha2 H2 Hp1 Hp2.
  destruct (early_setup t f1 f2 (start_node opt nodename nics)) as (recs & k & E & Hk & Hq & He & Hr); [by apply start_receivers|done..|].
  assert (Hf1 : exists i, find_nic (use_nics opt nics) t = Some i) by (destruct (find_nic_some _ _ Ht); by eexists).
  destruct Hf1 as [i Hf1].
  assert (Hf2 : find_nic (use_nics opt nics) (f_if f2) = None).
  { destruct (find_nic _ (f_if f2)) as [j|] eqn:Ej; [|done]. exfalso. apply H2.
    apply find_nic_spec in Ej as [Hj <-]. apply list_elem_of_fmap. by exists j. }
  assert (Hs : start opt nodename nics = HostState (hostname nodename) (use_nics opt nics)
    (probes (use_nics opt nics) (vlan_ranges opt)) [] [] ∅ Waiting None [] true true true (index <$> use_nics opt nics)).
  { unfold start. by rewrite bool_decide_eq_false_2. }
  eexists. split.
  { change (early_frames t f1 f2) with (take 7 (early_frames t f1 f2) ++ [Poll t; Poll t; Task LShow; Task LShow]).
    eapply exec_app_Some; [exact E|]. cbn [start_node n_host n_sender n_turns]. rewrite Hs.
    eapply exec_cons_Some; [by apply (early_poll t f1 [f2] k p1 r1)|].
    eapply exec_cons_Some.
    { apply (early_poll t f2 [] (with_queue [f2] k) p2 r2);
        [by rewrite lookup_insert_eq|done|done|done|by destruct r1..|done]. }
    apply (early_show (f_if f1, p1) (f_if f2, p2) i); [by destruct r1, r2..| |]; rewrite ?H1; by destruct r1, r2. }
  split; [by repeat constructor|]. cbn [n_host].
  split; [by destruct r1, r2|]. split; [done|]. split; [|by destruct r1, r2].
  assert (Hv : forall h, s_topo (with_ttx [] (with_topo (update_topo (s_host h) i p1 (s_topo h)) h)) <> ∅).
  { intros h. cbn. unfold update_topo. case_match; apply insert_non_empty. }
  apply Hv.
Qed.
End Host.

(** ** Instances: the host of the witnesses of [TopoSystemTheorems] *)

Import Wire.

Definition sample_frame (i : Z) : rx_frame := RxFrame i ETH_P_AARP sample_packet.
Definition sample_events : list event :=
  [OpenSender true; Setup 3 true; Setup 3 true; Arrive 3 (sample_frame 3); Setup 3 true; Setup 3 true; Setup 3 true;
   Task LMain; Poll 3; Arrive 3 (RxFrame 3 ETH_P_ARP sample_packet); Poll 3; Task LShow; Task LWake].

Lemma sample_names : names_ok (hostname sample_nodename) (use_nics sample_opt [sample_nic]).
Proof. by split; [|constructor]. Qed.
Lemma sample_opt_ok : opt_ok sample_opt.
Proof. by repeat constructor. Qed.

Definition sample_begin : node := start_node sample_opt sample_nodename [sample_nic].
Definition sample_node : node := default sample_begin (Trace.exec (node_step true) sample_events sample_begin).

Lemma sample_node_run : Trace.exec (node_step true) sample_events sample_begin = Some sample_node.
Proof.
  unfold sample_node. assert (H : bool_decide (is_Some (Trace.exec (node_step true) sample_events sample_begin)) = true)
    by by vm_compute.
  apply bool_decide_eq_true in H as [n ->]. done.
Qed.
Lemma sample_events_ok : Forall event_ok sample_events.
Proof. by repeat constructor. Qed.

Lemma frames_are_received_witness :
  results 3 (n_turns sample_node) = [Some (fill (sample_frame 3))] /\ queued_frames 3 sample_node = [].
Proof.
  destruct (frames_are_received true sample_opt sample_nodename [sample_nic] sample_opt_ok sample_names ltac:(done)
              sample_events sample_node sample_node_run sample_events_ok) as (_ & _ & H).
  assert (Hq : queued_frames 3 sample_node = []) by by vm_compute.
  split; [|exact Hq]. specialize (H 3 ltac:(apply (bool_decide_unpack _); by vm_compute)).
  rewrite Hq in H. cbn [fmap list_fmap] in H. rewrite app_nil_r in H. rewrite H. reflexivity.
Defined.

Lemma topology_of_frames_witness :
  10 ∈ vlans_of (s_topo (n_host sample_node)) (MkNode (lit "srv2") sample_nic, peer_node sample_peer) /\
  (s_topo (n_host sample_node) = ∅ \/ s_screen (n_host sample_node) = Some (s_topo (n_host sample_node))).
Proof.
  destruct (topology_of_frames true sample_opt sample_nodename [sample_nic] sample_opt_ok sample_names ltac:(done)
              sample_events sample_node sample_node_run sample_events_ok) as (_ & H & Hs & _).
  split; [|by apply Hs; vm_compute].
  apply (H ltac:(intros t Ht; apply list_elem_of_singleton in Ht as ->; by vm_compute) ltac:(by vm_compute)
           _ _ 3 (sample_frame 3) (3, sample_peer)).
  - apply (bool_decide_unpack _). by vm_compute.
  - apply list_elem_of_singleton. reflexivity.
  - apply list_elem_of_singleton. by vm_compute.
  - exists sample_nic. by vm_compute.
Defined.

Lemma unbound_socket_stale_screen_witness :
  exists n, Trace.exec (node_step true) (early_frames 3 (sample_frame 3) (sample_frame 9))
      (start_node sample_opt sample_nodename [sample_nic]) = Some n /\
    s_phase (n_host n) = Waiting /\ s_topo (n_host n) <> ∅ /\ s_screen (n_host n) = None.
Proof.
  destruct (unbound_socket_stale_screen true sample_opt sample_nodename [sample_nic] ltac:(done)
              3 (sample_frame 3) (sample_frame 9) sample_peer true sample_peer true) as (n & H1 & _ & H2 & _ & H3 & H4).
  - apply (bool_decide_unpack _). by vm_compute.
  - done.
  - done.
  - done.
  - apply (bool_decide_unpack _). by vm_compute.
  - by vm_compute.
  - by vm_compute.
  - exists n. split; [exact H1|]. split; [exact H2|]. split; [exact H3|exact H4].
Defined.
