(* ===== verification/ForwarderRun.v ===== *)
(** * The command forwarder: running a command

    [run_cmd] of src/network/forwarder/src/main.rs: bash is started with pipes, the input of the
    request is written to it, and only then its output is collected.  The forwarder, the pipes and
    the command run concurrently: [step] is one turn of one of them. *)

From Stdlib Require Import String.
From S2P Require Import Prelude RustStd RustStr.

(** ** The command as the forwarder builds it *)

Inductive stdio := Inherit | Piped.
Record Command := MkCommand
  { program : list byte; args : list (list byte);
    stdin : stdio; stdout : stdio; stderr : stdio }.

(** [Command::output] collects both outputs of the command. *)
Definition output_pipes (c : Command) : Command :=
  MkCommand (program c) (args c) (stdin c) Piped Piped.

(** [std::process::Output]; there is no code when a signal ended the command. *)
Record Output := MkOutput { code : option Z; out : list byte; err : list byte }.

(** [BrokenPipe] is the error of a write when nobody can read any more. *)
Inductive run_error := SpawnFailed (errno : Z) | BrokenPipe | NoStdin.

(** ** The command as a process *)

(** What the command, bash with all it starts, does next: it reads its input as a stream of bytes
    ([None] at its end), and closes its outputs when it ends. *)
Inductive fd := StdOut | StdErr.
Inductive action (T : Type) :=
| ReadByte (k : option byte -> T)
| WriteByte (f : fd) (b : byte) (k : T)
| Exit (code : option Z).
Arguments ReadByte {_}.
Arguments WriteByte {_}.
Arguments Exit {_}.

(** What [run_cmd] waits for: [write_all] of what is left of the input, or [wait_with_output],
    with what it has collected. *)
Inductive phase :=
| Writing (rest : list byte)
| Collecting (out err : list byte)
| Returned (r : Output + run_error).

(** The three pipes, and what the command wrote to the standard error it shares with the
    forwarder. *)
Record world (T : Type) := World
  { w_phase : phase; w_child : T + option Z;
    w_in : list byte; w_out : list byte; w_err : list byte; w_inherited : list byte }.
Arguments World {_}.
Arguments w_phase {_}.
Arguments w_child {_}.
Arguments w_in {_}.
Arguments w_out {_}.
Arguments w_err {_}.
Arguments w_inherited {_}.

Section Run.
Context {T : Type}.
(** What a process does, what a command line starts, and how much a pipe holds. *)
Context (next : T -> action T) (spawn : Command -> T + Z) (capacity : nat).

Definition run_cmd (cmd : list byte) (input : option (list byte)) : Command * world T :=
  let command := MkCommand (lit "bash") [lit "-c"; cmd] Piped Piped Inherit in
  let start c p :=
    (c, match spawn c with
        | inl s => World p (inl s) [] [] [] []
        | inr e => World (Returned (inr (SpawnFailed e))) (inr None) [] [] [] []
        end) in
  match input with
  | None => start (output_pipes command) (Collecting [] [])
  | Some input =>
      match stdin command with
      | Piped => start command (Writing input)
      | Inherit => start command (Returned (inr NoStdin))
      end
  end.

(** ** Turns *)

(** A write of a few bytes, its failure, the end of [write_all]; a read of a few bytes of either
    output, the return; one action of the command. *)
Inductive turn :=
| WriteSome (n : nat) | WriteFails | WriteEnds
| Collect (f : fd) (n : nat) | Return
| Child.

(** A byte written by the command: blocked while the pipe is full. *)
Definition child_write (c : Command) (f : fd) (b : byte) (k : T) (w : world T) : option (world T) :=
  let 'World p _ i o e h := w in
  match f with
  | StdOut =>
      if (length o <? capacity)%nat then Some (World p (inl k) i (o ++ [b]) e h) else None
  | StdErr =>
      match stderr c with
      | Inherit => Some (World p (inl k) i o e (h ++ [b]))
      | Piped =>
          if (length e <? capacity)%nat then Some (World p (inl k) i o (e ++ [b]) h) else None
      end
  end.

(** A byte read by the command: blocked while the pipe is empty and the forwarder still holds its
    other end. *)
Definition child_read (k : option byte -> T) (w : world T) : option (world T) :=
  let 'World p _ i o e h := w in
  match i, p with
  | b :: i, _ => Some (World p (inl (k (Some b))) i o e h)
  | [], Writing _ => None
  | [], _ => Some (World p (inl (k None)) [] o e h)
  end.

Definition child_turn (c : Command) (w : world T) : option (world T) :=
  match w_phase w, w_child w with
  | Returned _, _ | _, inr _ => None
  | _, inl s =>
      match next s with
      | ReadByte k => child_read k w
      | WriteByte f b k => child_write c f b k w
      | Exit x => Some (World (w_phase w) (inr x) (w_in w) (w_out w) (w_err w) (w_inherited w))
      end
  end.

Definition step (c : Command) (t : turn) (w : world T) : option (world T) :=
  let 'World p ch i o e h := w in
  match t, p with
  | WriteSome n, Writing rest =>
      match ch with
      | inl _ =>
          if (0 <? n)%nat && (n <=? length rest)%nat && (length i + n <=? capacity)%nat
          then Some (World (Writing (drop n rest)) ch (i ++ take n rest) o e h) else None
      | inr _ => None
      end
  | WriteFails, Writing (_ :: _) =>
      match ch with
      | inl _ => None
      | inr _ => Some (World (Returned (inr BrokenPipe)) ch i o e h)
      end
  | WriteEnds, Writing [] => Some (World (Collecting [] []) ch i o e h)
  | Collect StdOut n, Collecting co ce =>
      if (0 <? n)%nat && (n <=? length o)%nat
      then Some (World (Collecting (co ++ take n o) ce) ch i (drop n o) e h) else None
  | Collect StdErr n, Collecting co ce =>
      if (0 <? n)%nat && (n <=? length e)%nat
      then Some (World (Collecting co (ce ++ take n e)) ch i o (drop n e) h) else None
  | Return, Collecting co ce =>
      match ch, o, e with
      | inr x, [], [] => Some (World (Returned (inl (MkOutput x co ce))) ch i o e h)
      | _, _, _ => None
      end
  | Child, _ => child_turn c w
  | _, _ => None
  end.

Definition turns (c : Command) (w w' : world T) : Prop := exists t, step c t w = Some w'.

(** The process library is asynchronous, and the scheduler decides who runs: of the turns its
    documentation allows, a run takes any, as long as it stops only when there is none. *)
Class process_library := ProcessLibrary
  { run_turn : Command -> world T -> world T -> Prop;
    run_documented c w w' : run_turn c w w' -> turns c w w';
    run_progress c w w' : turns c w w' -> exists w'', run_turn c w w'' }.

#[export] Instance any_turn : process_library :=
  {| run_turn := turns; run_documented _ _ _ H := H; run_progress _ _ w' H := ex_intro _ w' H |}.

(** ** Reference: the command on its own

    What it writes to its two outputs when its input is [i], with the code it ends with and the
    part of its input it has not read. *)
Record result := MkResult { r_out : list byte; r_err : list byte; r_code : option Z; r_unread : list byte }.

Fixpoint exec (fuel : nat) (s : T) (i : list byte) : option result :=
  match fuel with
  | O => None
  | S fuel =>
      match next s with
      | ReadByte k => match i with b :: i => exec fuel (k (Some b)) i | [] => exec fuel (k None) [] end
      | WriteByte f b k =>
          r ← exec fuel k i;
          Some (match f with
                | StdOut => MkResult (b :: r_out r) (r_err r) (r_code r) (r_unread r)
                | StdErr => MkResult (r_out r) (b :: r_err r) (r_code r) (r_unread r)
                end)
      | Exit x => Some (MkResult [] [] x i)
      end
  end.

End Run.
