(* ===== verification/ForwarderRunTheorems.v ===== *)
(** * The command forwarder: commands return, or hang

    For an input that fits the pipe, every schedule of the forwarder and the command ends, and
    with the same output.  A longer input hangs a command that answers as it reads, and a command
    that does not read its input is sometimes reported as failed. *)

From Stdlib Require Import String.
From S2P Require Import Prelude RustStd RustStr ForwarderRun.

(** ** What is invariant of a run of a command that ends *)

Section Invariant.
Context {T : Type} (next : T -> action T) (capacity : nat) (c : Command).
(** What the command does on its own. *)
Context (total : result).

Definition unwritten (p : phase) : list byte := match p with Writing rest => rest | _ => [] end.
Definition collected (p : phase) : list byte * list byte :=
  match p with Collecting o e => (o, e) | _ => ([], []) end.

(** What is left of the command: [fuel] actions, with the result [r]. *)
Definition remains (ch : T + option Z) (i : list byte) (fuel : nat) (r : result) : Prop :=
  match ch with
  | inl s => exec next fuel s i = Some r
  | inr x => fuel = 0%nat /\ r = MkResult [] [] x i
  end.

(** What the forwarder gets of the total. *)
Definition captured : Output :=
  MkOutput (r_code total) (r_out total) (match stderr c with Piped => r_err total | Inherit => [] end).

Record running (fuel : nat) (p : phase) (ch : T + option Z) (i o e h : list byte) (r : result) : Prop := Running
  { run_remains : remains ch (i ++ unwritten p) fuel r;
    run_out : r_out total = (collected p).1 ++ o ++ r_out r;
    run_err : r_err total = (collected p).2 ++ e ++ h ++ r_err r;
    run_code : r_code total = r_code r;
    run_unread : r_unread total = r_unread r;
    run_piped : match stderr c with Piped => h = [] | Inherit => (collected p).2 = [] /\ e = [] end;
    run_fits : (length (unwritten p) + length i <= capacity)%nat }.

Definition inv (fuel : nat) (w : world T) : Prop :=
  let 'World p ch i o e h := w in
  match p with
  | Returned (inl r) => r = captured
  | Returned (inr x) => x = BrokenPipe /\ r_unread total <> []
  | _ => exists r, running fuel p ch i o e h r
  end.

(** The turns left, at most. *)
Definition measure (fuel : nat) (w : world T) : nat :=
  match w_phase w with
  | Writing rest => 2 * fuel + length rest + length (w_out w) + length (w_err w) + 2
  | Collecting _ _ => 2 * fuel + length (w_out w) + length (w_err w) + 1
  | Returned _ => 0
  end.

(** The actions of the command. *)
Lemma remains_step s i fuel r :
  remains (inl s) i fuel r ->
  exists fuel', fuel = S fuel' /\
  match next s with
  | ReadByte k => match i with
                  | b :: i => remains (inl (k (Some b))) i fuel' r
                  | [] => remains (inl (k None)) [] fuel' r
                  end
  | WriteByte f b k =>
      exists r', remains (inl k) i fuel' r' /\ r_code r = r_code r' /\ r_unread r = r_unread r' /\
      match f with
      | StdOut => r_out r = b :: r_out r' /\ r_err r = r_err r'
      | StdErr => r_err r = b :: r_err r' /\ r_out r = r_out r'
      end
  | Exit x => r = MkResult [] [] x i
  end.
Proof.
  cbn. destruct fuel as [|fuel]; [done|]. cbn. intros H. exists fuel. split; [done|].
  destruct (next s) as [k|f b k|x]; [by destruct i| |congruence].
  apply bind_Some in H as (r' & Hr & [= <-]). exists r'. by destruct f.
Qed.

Lemma child_inv fuel w w' :
  inv fuel w -> child_turn next capacity c w = Some w' ->
  exists fuel', inv fuel' w' /\ (measure fuel' w' < measure fuel w)%nat.
Proof.
  destruct w as [p ch i o e h]. intros Hinv Hst.
  assert (Hr : exists r, running fuel p ch i o e h r /\ forall x, p <> Returned x).
  { destruct p as [rest|co ce|?]; [..|done]; destruct Hinv as [r Hr]; by exists r. }
  destruct Hr as (r & [Hrem Ho He Hc Hu Hp Hf] & Hnr). unfold child_turn in Hst. cbn in Hst.
  destruct ch as [s|x]; [|by destruct p].
  destruct (remains_step _ _ _ _ Hrem) as (fuel' & -> & Hs).
  assert (Hlift : forall ch' i' o' e' h' f' r',
    running f' p ch' i' o' e' h' r' -> (2 * f' + length o' + length e' < 2 * S fuel' + length o + length e)%nat ->
    exists fuel0, inv fuel0 (World p ch' i' o' e' h') /\
      (measure fuel0 (World p ch' i' o' e' h') < measure (S fuel') (World p (inl s) i o e h))%nat).
  { intros ch' i' o' e' h' f' r' Hr Hlt. exists f'. destruct p as [rest|co ce|x]; [..|by destruct (Hnr x)];
      (split; [by exists r'|]); cbn; lia. }
  assert (Hst' : match next s with
    | ReadByte k => child_read k (World p (inl s) i o e h)
    | WriteByte f b k => child_write capacity c f b k (World p (inl s) i o e h)
    | Exit x => Some (World p (inr x) i o e h) end = Some w') by (by destruct p).
  clear Hst. destruct (next s) as [k|f b k|x].
  - cbn in Hst'. destruct i as [|b i].
    + destruct p as [rest|co ce|x]; [done|..|by destruct (Hnr x)]. injection Hst' as <-.
      apply (Hlift _ _ _ _ _ fuel' r); [by split|lia].
    + assert (w' = World p (inl (k (Some b))) i o e h) as -> by (destruct p; congruence).
      apply (Hlift _ _ _ _ _ fuel' r); [|lia]. split; try done. cbn in Hf. lia.
  - destruct Hs as (r' & Hs & Hc' & Hu' & Hoe). cbn in Hst'. destruct f.
    + destruct Hoe as [Hoe1 Hoe2]. case_match; [|done]. injection Hst' as <-.
      apply (Hlift _ _ _ _ _ fuel' r'); [|rewrite length_app; cbn; lia].
      split; try done; try congruence. rewrite Ho, Hoe1. by rewrite <- (assoc_L (++)).
    + destruct Hoe as [Hoe1 Hoe2]. destruct (stderr c) eqn:Es.
      * injection Hst' as <-. apply (Hlift _ _ _ _ _ fuel' r'); [|lia].
        split; rewrite ?Es; try done; try congruence. rewrite He, Hoe1. by rewrite <- ?(assoc_L (++)).
      * case_match; [|done]. injection Hst' as <-. subst h.
        apply (Hlift _ _ _ _ _ fuel' r'); [|rewrite length_app; cbn; lia].
        split; rewrite ?Es; try done; try congruence. rewrite He, Hoe1. by rewrite <- ?(assoc_L (++)).
  - injection Hst' as <-. subst r. apply (Hlift _ _ _ _ _ 0%nat (MkResult [] [] x (i ++ unwritten p))); [|lia].
    by split.
Qed.

Lemma turn_inv fuel w w' :
  inv fuel w -> turns next capacity c w w' ->
  exists fuel', inv fuel' w' /\ (measure fuel' w' < measure fuel w)%nat.
Proof.
  intros Hinv [t Hst]. destruct w as [p ch i o e h].
  destruct t; [..|by apply (child_inv fuel (World p ch i o e h))]; cbn -[Nat.ltb Nat.leb] in Hst; destruct p as [rest|co ce|?]; try done; try (by destruct f).
  - destruct ch; [|done]. case_match eqn:En; [|done]. injection Hst as <-.
    apply andb_true_iff in En as [[Hn0%Nat.ltb_lt Hn1%Nat.leb_le]%andb_true_iff Hn2%Nat.leb_le].
    destruct Hinv as [r [Hrem Ho He Hc Hu Hp Hf]]. exists fuel. cbn in *. split; [|rewrite length_drop; lia]. exists r. split; try done; cbn.
    + by rewrite <- (assoc_L (++)), take_drop.
    + rewrite length_drop, length_app, length_take. lia.
  - destruct rest as [|b rest]; [done|]. destruct ch as [|x]; [done|]. injection Hst as <-.
    destruct Hinv as [r [[-> ->] Ho He Hc Hu Hp Hf]]. exists 0%nat. cbn in *. split; [|lia]. split; [done|].
    rewrite Hu. by destruct i.
  - destruct rest; [|done]. injection Hst as <-. destruct Hinv as [r [Hrem Ho He Hc Hu Hp Hf]].
    exists fuel. split; [|cbn; lia]. by exists r.
  - destruct Hinv as [r [Hrem Ho He Hc Hu Hp Hf]]. exists fuel.
    destruct f; case_match eqn:En; try done; injection Hst as <-;
      apply andb_true_iff in En as [Hn0%Nat.ltb_lt Hn1%Nat.leb_le]; cbn in *;
      (split; [|rewrite length_drop; lia]); exists r; split; try done; cbn.
    + rewrite Ho. rewrite <- (take_drop n o) at 1. by rewrite <- !(assoc_L (++)).
    + rewrite He. rewrite <- (take_drop n e) at 1. by rewrite <- !(assoc_L (++)).
    + destruct (stderr c); [|done]. destruct Hp as [-> ->]. by rewrite take_nil, drop_nil.
  - destruct ch as [|x]; [done|]. destruct o; [|done]. destruct e; [|done]. injection Hst as <-.
    destruct Hinv as [r [[-> ->] Ho He Hc Hu Hp Hf]]. exists 0%nat. split; [|cbn; lia].
    cbn in *. unfold captured. rewrite Ho, He, Hc, !(right_id_L [] (++)). cbn.
    destruct (stderr c); [by destruct Hp as [-> _]|by rewrite Hp, (right_id_L [] (++))].
Qed.

(** A run only ends when the forwarder has its result: nobody waits for the other. *)
Lemma stuck_returned fuel w :
  (0 < capacity)%nat -> inv fuel w -> (forall w', ~ turns next capacity c w w') -> exists r, w_phase w = Returned r.
Proof.
  intros Hcap Hinv Hstuck. destruct w as [p ch i o e h].
  assert (Hno : forall t w', step next capacity c t (World p ch i o e h) <> Some w')
    by (intros t w' Hs; apply (Hstuck w'); by exists t). clear Hstuck.
  destruct p as [rest|co ce|r]; [exfalso..|by exists r]; destruct Hinv as [r [Hrem _ _ _ _ _ Hf]]; cbn in Hf.
  - destruct rest as [|b rest]; [by eapply (Hno WriteEnds)|].
    destruct ch as [s|x]; [|by eapply (Hno WriteFails)]. cbn in Hf.
    eapply (Hno (WriteSome 1)). cbn. destruct (Nat.leb_spec (length i + 1) capacity); [done|lia].
  - destruct o as [|b o]; [|by eapply (Hno (Collect StdOut 1))].
    destruct e as [|b e]; [|by eapply (Hno (Collect StdErr 1))].
    destruct ch as [s|x]; [|by eapply (Hno Return)].
    destruct (next s) as [k|f b k|x] eqn:En.
    + destruct i; (eapply (Hno Child); cbn; unfold child_turn; cbn; by rewrite En).
    + destruct capacity as [|cap]; [lia|].
      destruct f; [|destruct (stderr c) eqn:Es]; eapply (Hno Child); cbn; unfold child_turn; cbn; rewrite En;
        cbn; rewrite ?Es; reflexivity.
    + eapply (Hno Child). cbn. unfold child_turn. cbn. by rewrite En.
Qed.

End Invariant.

(** ** Commands that end *)

Section Returns.
Context {T : Type} (next : T -> action T) (spawn : Command -> T + Z) (capacity : nat).
Context {LIB : process_library next capacity}.

Lemma nsteps_inv c total n : forall fuel w w',
  inv next capacity c total fuel w -> nsteps (run_turn next capacity c) n w w' ->
  exists fuel', inv next capacity c total fuel' w' /\ (n + measure fuel' w' <= measure fuel w)%nat.
Proof.
  induction n as [|n IH]; intros fuel w w' Hinv Hn; inversion Hn as [|? ? w1 ? Hst Hns]; subst.
  - exists fuel. split; [done|]. lia.
  - apply run_documented in Hst. destruct (turn_inv next capacity c total fuel w w1 Hinv Hst) as (f1 & Hi1 & Hm1).
    destruct (IH f1 w1 w' Hi1 Hns) as (f2 & Hi2 & Hm2). exists f2. split; [done|]. lia.
Qed.

(** The start of a run. *)
Lemma run_cmd_inv cmd input s fuel total :
  spawn (run_cmd spawn cmd input).1 = inl s ->
  exec next fuel s (default [] input) = Some total ->
  (length (default [] input) <= capacity)%nat ->
  inv next capacity (run_cmd spawn cmd input).1 total fuel (run_cmd spawn cmd input).2 /\
  (measure fuel (run_cmd spawn cmd input).2 <= 2 * fuel + length (default [] input) + 2)%nat.
Proof.
  intros Hs He Hl. destruct input as [input|]; cbn in *; rewrite Hs; (split; [|cbn; lia]); exists total;
    split; cbn; rewrite ?Nat.add_0_r; done || lia.
Qed.

(** C10: a command that ends, on an input that fits the pipe, always returns to the forwarder: no
    schedule of the two runs for ever, and none stops before the forwarder has its result, which
    does not depend on the schedule.  It is what the command does on its own, without its standard
    error when there is an input; only a command that leaves some of its input unread may be
    reported as a broken pipe instead. *)
Theorem run_cmd_returns cmd input s fuel total :
  (0 < capacity)%nat ->
  spawn (run_cmd spawn cmd input).1 = inl s ->
  exec next fuel s (default [] input) = Some total ->
  (length (default [] input) <= capacity)%nat ->
  forall n w, nsteps (run_turn next capacity (run_cmd spawn cmd input).1) n (run_cmd spawn cmd input).2 w ->
    (n <= 2 * fuel + length (default [] input) + 2)%nat /\
    ((forall w', ~ run_turn next capacity (run_cmd spawn cmd input).1 w w') ->
     w_phase w = Returned (inl (MkOutput (r_code total) (r_out total)
                                  (if input is Some _ then [] else r_err total))) \/
     w_phase w = Returned (inr BrokenPipe) /\ r_unread total <> []).
Proof.
  intros Hcap Hs He Hl n w Hn.
  destruct (run_cmd_inv cmd input s fuel total Hs He Hl) as [Hi Hm].
  destruct (nsteps_inv _ total n fuel _ w Hi Hn) as (f' & Hi' & Hm'). split; [lia|].
  intros Hstuck. destruct (stuck_returned next capacity _ total f' w Hcap Hi') as [r Hr].
  { intros w' Hw'. apply (run_progress next capacity) in Hw' as [w'' Hw'']. by apply (Hstuck w''). }
  destruct w as [p ch i o e h]. cbn in Hr. subst p. destruct r as [r|x]; cbn in Hi'.
  - left. rewrite Hi'. unfold captured. by destruct input.
  - right. destruct Hi' as [-> Hu]. by split.
Qed.

End Returns.

(** ** Commands that do not *)

Section Hangs.
Context {T : Type} (next : T -> action T) (spawn : Command -> T + Z) (capacity : nat).
Context {LIB : process_library next capacity}.

(** What a process does while its input has not ended: the bytes it has read and has written to
    its output, and where it is then. *)
Inductive acts (s0 : T) : nat -> nat -> T -> Prop :=
| acts_start : acts s0 0 0 s0
| acts_read r w s k b : acts s0 r w s -> next s = ReadByte k -> acts s0 (S r) w (k (Some b))
| acts_out r w s b k : acts s0 r w s -> next s = WriteByte StdOut b k -> acts s0 r (S w) k
| acts_err r w s b k : acts s0 r w s -> next s = WriteByte StdErr b k -> acts s0 r w k.

(** A command that answers as it reads: while its input has not ended it does not end either, and it
    has never read more than [lag] bytes more than it has written. *)
Definition answers_within (lag : nat) (s0 : T) : Prop :=
  forall r w s, acts s0 r w s -> (r <= w + lag)%nat /\ forall x, next s <> Exit x.

(** The forwarder still writes; what the command has read, written and not read is accounted for, and
    so are the turns taken. *)
Inductive answering (s0 : T) (total n : nat) (x : world T) : Prop := Answering
  (rest : list byte) (s : T) (r w : nat)
  (_ : w_phase x = Writing rest) (_ : w_child x = inl s) (_ : acts s0 r w s)
  (_ : (length (w_in x) <= capacity)%nat) (_ : (length (w_out x) <= capacity)%nat)
  (_ : w = length (w_out x)) (_ : (length rest + length (w_in x) + r = total)%nat)
  (_ : (n <= length (w_in x) + r + r + w + length (w_inherited x))%nat).

Lemma answering_turn c lag s0 total n x x' :
  stderr c = Inherit -> answers_within lag s0 -> (2 * capacity + lag < total)%nat ->
  answering s0 total n x -> turns next capacity c x x' -> answering s0 total (S n) x'.
Proof.
  intros Herr Hlag Ht [rest s r w Hp Hc Ha Hi Ho Hw Htot Hn] [t Hst].
  destruct x as [p ch i o e h]. cbn -[Nat.ltb Nat.leb] in *. subst p ch.
  destruct (Hlag r w s Ha) as [Hrw Hend].
  destruct t as [m| | |f m| |]; cbn -[Nat.ltb Nat.leb] in Hst; try done.
  - case_match eqn:En; [|done]. injection Hst as <-.
    apply andb_true_iff in En as [[Hn0%Nat.ltb_lt Hn1%Nat.leb_le]%andb_true_iff Hn2%Nat.leb_le].
    apply (Answering _ _ _ _ (drop m rest) s r w); cbn; rewrite ?length_app, ?length_take, ?length_drop; done || lia.
  - by destruct rest.
  - destruct rest; [|done]. cbn in *. lia.
  - by destruct f.
  - unfold child_turn in Hst. cbn in Hst. destruct (next s) as [k|f b k|y] eqn:En; [..|by destruct (Hend y)].
    + destruct i as [|b i]; [done|]. injection Hst as <-.
      apply (Answering _ _ _ _ rest (k (Some b)) (S r) w); cbn in *; try done; try lia. by eapply acts_read.
    + destruct f; cbn -[Nat.ltb] in Hst.
      * case_match eqn:Ec; [|done]. apply Nat.ltb_lt in Ec. injection Hst as <-.
        apply (Answering _ _ _ _ rest k r (S w)); cbn in *; rewrite ?length_app; cbn; try done; try lia. by eapply acts_out.
      * rewrite Herr in Hst. injection Hst as <-.
        apply (Answering _ _ _ _ rest k r w); cbn in *; rewrite ?length_app; cbn; try done; try lia. by eapply acts_err.
Qed.

Lemma answering_run c lag s0 total n : forall m x x',
  stderr c = Inherit -> answers_within lag s0 -> (2 * capacity + lag < total)%nat ->
  answering s0 total m x -> nsteps (run_turn next capacity c) n x x' -> answering s0 total (m + n) x'.
Proof.
  induction n as [|n IH]; intros m x x' Herr Hlag Ht Hx Hn; inversion Hn as [|? ? x1 ? Hst Hns]; subst.
  - by rewrite Nat.add_0_r.
  - apply run_documented in Hst. rewrite <- Nat.add_succ_comm. apply (IH _ x1); [done..| |done].
    by eapply answering_turn.
Qed.

(** C20: a command that answers as it reads hangs the forwarder, which only collects its output
    after it has written all of the input: if the command can be started, never holds more than
    [lag] bytes that it has read beyond those it has written and does not end before its input does,
    then an input longer than the two pipes and [lag] is never written as a whole. In every run the
    forwarder stays in [write_all] with some of the input left, and the number of turns is bounded,
    but for those in which the command writes to its standard error: both wait for each other for
    ever. *)
Theorem large_echo_hangs cmd input s lag :
  spawn (run_cmd spawn cmd (Some input)).1 = inl s ->
  answers_within lag s -> (2 * capacity + lag < length input)%nat ->
  forall n x, nsteps (run_turn next capacity (run_cmd spawn cmd (Some input)).1) n
                (run_cmd spawn cmd (Some input)).2 x ->
    (exists b rest, w_phase x = Writing (b :: rest))
    /\ (n <= 4 * capacity + 2 * lag + length (w_inherited x))%nat.
Proof.
  intros Hs Hlag Hl n x Hn.
  assert (Hend : answering s (length input) n x).
  { apply (answering_run _ lag s (length input) n 0) in Hn; [done..|].
    cbn in *. rewrite Hs. apply (Answering _ _ _ _ input s 0 0); cbn; done || constructor || lia. }
  destruct Hend as [rest s' r w Hp Hc Ha Hi Ho Hw Htot Hle]. destruct (Hlag r w s' Ha) as [Hrw _].
  split; [|lia]. destruct rest as [|b rest]; [cbn in *; lia|]. by exists b, rest.
Qed.

End Hangs.

(** ** Commands that do not read

    A process that neither reads nor writes. *)

Definition idle (s : ()) : action () := Exit (Some 0).

(** The answer for a command that does not read its input depends on the schedule: the same
    request is answered with the output of the command, or with a broken pipe. *)
Theorem unread_input_races spawn capacity cmd b input :
  spawn (run_cmd spawn cmd (Some (b :: input))).1 = inl () ->
  (length (b :: input) <= capacity)%nat ->
  exists w1 w2,
    rtc (turns idle capacity (run_cmd spawn cmd (Some (b :: input))).1)
      (run_cmd spawn cmd (Some (b :: input))).2 w1 /\
    w_phase w1 = Returned (inl (MkOutput (Some 0) [] [])) /\
    rtc (turns idle capacity (run_cmd spawn cmd (Some (b :: input))).1)
      (run_cmd spawn cmd (Some (b :: input))).2 w2 /\
    w_phase w2 = Returned (inr BrokenPipe).
Proof.
  intros Hs Hl. cbn [run_cmd stdin fst snd] in *. rewrite Hs.
  set (all := b :: input) in *. eexists _, _. split_and!.
  - eapply rtc_l. { exists (WriteSome (length all)). cbn -[Nat.ltb Nat.leb length].
      rewrite (proj2 (Nat.ltb_lt 0 _)), !(proj2 (Nat.leb_le _ _)) by (cbn in *; lia). reflexivity. }
    eapply rtc_l; [exists WriteEnds; cbn [step]; rewrite drop_all; reflexivity|].
    eapply rtc_l; [by exists Child|]. eapply rtc_l; [by exists Return|]. apply rtc_refl.
  - done.
  - eapply rtc_l; [by exists Child|]. eapply rtc_l; [by exists WriteFails|]. apply rtc_refl.
  - done.
Qed.

(** ** Instances *)

Definition starts {T} (s : T) (c : Command) : T + Z := inl s.

(** Executes turns, one after the other. *)
Fixpoint play {T} (next : T -> action T) (capacity : nat) (c : Command) (ts : list turn) (w : world T)
    : option (world T) :=
  match ts with
  | [] => Some w
  | t :: ts => w ← step next capacity c t w; play next capacity c ts w
  end.

Lemma play_nsteps {T} (next : T -> action T) capacity c ts : forall w w',
  play next capacity c ts w = Some w' -> nsteps (turns next capacity c) (length ts) w w'.
Proof.
  induction ts as [|t ts IH]; intros w w' H; cbn in H.
  - injection H as <-. constructor.
  - apply bind_Some in H as (w1 & Ht & Hr). econstructor; [by exists t|by apply IH].
Qed.

(** Processes that copy their input to their output, a block at a time: what they hold, and whether they
    are filling the block, writing it, or writing the last one. *)
Inductive copy_state := Fill (held : list byte) | Flush (held : list byte) | Last (held : list byte).

Definition copy (block : nat) (s : copy_state) : action copy_state :=
  match s with
  | Fill held | Flush ([] as held) =>
      ReadByte (fun o => match o with
                         | Some b => let held := held ++ [b] in
                                     if (block <=? length held)%nat then Flush held else Fill held
                         | None => Last held
                         end)
  | Flush (b :: held) => WriteByte StdOut b (Flush held)
  | Last (b :: held) => WriteByte StdOut b (Last held)
  | Last [] => Exit (Some 0)
  end.

Lemma copy_answers block : (0 < block)%nat -> answers_within (copy block) block (Fill []).
Proof.
  intros Hb. assert (H : forall r w s, acts (copy block) (Fill []) r w s ->
    match s with
    | Fill held => (r = w + length held)%nat /\ (length held < block)%nat
    | Flush held => (r = w + length held)%nat /\ (length held <= block)%nat
    | Last _ => False
    end).
  { induction 1 as [|r w s k b _ IH Hs|r w s b k _ IH Hs|r w s b k _ IH Hs]; [cbn; lia|..];
      destruct s as [held|[|b' held]|[|b' held]]; cbn -[Nat.leb] in Hs, IH; simplify_eq; cbn in IH |- *; try lia; try done.
    - destruct (Nat.leb_spec block (length (held ++ [b]))); rewrite length_app in *; cbn in *; lia.
    - destruct (Nat.leb_spec block 1); cbn; lia. }
  intros r w s Hs%H. destruct s as [held|[|b held]|held]; cbn -[Nat.leb] in *; [..|done]; (split; [lia|done]).
Qed.

(** The test [test_run_cmd_stdin]: [cat] gives back its input. *)
Definition ok_run : Command * world copy_state := run_cmd (starts (Fill [])) (lit "cat") (Some (lit "ok")).
Definition ok_end : option (world copy_state) :=
  play (copy 1) 16 ok_run.1 ([WriteSome 2; WriteEnds] ++ repeat Child 6 ++ [Collect StdOut 2; Return]) ok_run.2.

Lemma run_cmd_returns_witness :
  w_phase <$> ok_end = Some (Returned (inl (MkOutput (Some 0) (lit "ok") []))).
Proof.
  destruct ok_end as [w|] eqn:Ew; [|done]. cbn. f_equal.
  destruct (run_cmd_returns (copy 1) (starts (Fill [])) 16 (LIB := any_turn (copy 1) 16) (lit "cat")
    (Some (lit "ok")) (Fill []) 7 (MkResult (lit "ok") [] (Some 0) [])) with 10%nat w as [_ Hr];
    [lia|done|done|cbn; lia|by apply play_nsteps in Ew|].
  destruct Hr as [Hr|[_ []]]; [|done|done].
  vm_compute in Ew. injection Ew as <-. intros w' [t Ht]. by destruct t as [| | |[] | |].
Defined.

(** A deadlock: pipes of one byte, a block of two, five bytes of input. *)
Definition hang_run : Command * world copy_state := run_cmd (starts (Fill [])) (lit "cat") (Some (lit "abcde")).
Definition hang_end : option (world copy_state) :=
  play (copy 2) 1 hang_run.1 [WriteSome 1; Child; WriteSome 1; Child; Child; WriteSome 1] hang_run.2.

Lemma large_echo_hangs_witness :
  exists w b rest, hang_end = Some w /\ w_phase w = Writing (b :: rest).
Proof.
  destruct hang_end as [w|] eqn:Ew; [|by vm_compute in Ew]. exists w.
  destruct (large_echo_hangs (copy 2) (starts (Fill [])) 1 (LIB := any_turn (copy 2) 1) (lit "cat") (lit "abcde") (Fill []) 2)
    with 6%nat w as [(b & rest & H) _];
    [done|by apply copy_answers; lia|cbn; lia|by apply play_nsteps in Ew|]. by exists b, rest.
Defined.

Lemma unread_input_races_witness :
  exists w1 w2 : world (), w_phase w1 = Returned (inl (MkOutput (Some 0) [] [])) /\
                           w_phase w2 = Returned (inr BrokenPipe).
Proof.
  destruct (unread_input_races (starts ()) 16 (lit "true") Byte.x41 []) as (w1 & w2 & _ & H1 & _ & H2);
    [done|cbn; lia|]. by exists w1, w2.
Defined.
