(* ===== verification/Forwarder.v ===== *)
(** * The command forwarder: requests, responses, and listening

    src/network/forwarder/src/main.rs: a connection carries one request in JSON, the forwarder runs
    its command and answers with what the command wrote.  The JSON library and the growth of the
    buffer are parameters; how the command runs is in ForwarderRun.v. *)

From Stdlib Require Import String.
From S2P Require Import Prelude RustStd RustStr Io ForwarderRun.

Record Request := MkRequest
  { bash : list byte; input : option (list byte); owner : list byte }.
Record Response := MkResponse
  { output : list byte; error : list byte; r_status : option Z }.

(** [serde_json]: the request of some bytes, the bytes of a response; [format!] of an error. *)
Class formats := Formats
  { from_slice : list byte -> option Request;
    to_vec : Response -> option (list byte);
    error_text : run_error -> list byte }.

(** The capacities [BytesMut] gives: at least what is asked for. *)
Class bytes_mut := BytesMut
  { with_capacity : Z -> Z;
    reserve : Z -> Z -> Z -> Z;
    with_capacity_ge n : n <= with_capacity n;
    reserve_ge length capacity n : length + n <= reserve length capacity n }.

(** ** Reading a request *)

Definition BUF_LEN : Z := 4096.

Record buffer := Buffer { b_data : list byte; b_capacity : Z }.

(** The result of [timeout(..., stream.read_buf(&mut data))]: no bytes mean the end of the
    stream. *)
Inductive read := ReadOk (bs : list byte) | ReadErr | Timeout.

(** How a connection ends; [Pending]: it waits for the stream or for the command. *)
Inductive failure := BadRequest | BadResponse | ShutdownFailed.
Inductive status := Done | Failed (f : failure) | Pending.
Inductive effect := Ran (cmd : list byte) (input : option (list byte)) | Sent (bs : list byte) | Shutdown.

Section Stream.
Context {FORMATS : formats} {BYTES : bytes_mut}.

Definition new_buffer : buffer := Buffer [] (with_capacity BUF_LEN).

(** [read_buf] fills the rest of the capacity at most. *)
Definition room (b : buffer) : Z := b_capacity b - len (b_data b).
Definition read_buf (bs : list byte) (b : buffer) : buffer := Buffer (b_data b ++ bs) (b_capacity b).
Definition extend (b : buffer) : buffer :=
  Buffer (b_data b) (reserve (len (b_data b)) (b_capacity b) BUF_LEN).

(** The loop, for the results [rs] of its reads; [None] while it waits for another. *)
Fixpoint read_loop (rs : list read) (b : buffer) : option (list byte) :=
  match rs with
  | [] => None
  | ReadOk bs :: rs =>
      let n := len bs in
      let b := read_buf bs b in
      if n =? 0 then Some (b_data b)
      else if negb (n mod BUF_LEN =? 0) then Some (b_data b)
      else read_loop rs (extend b)
  | ReadErr :: _ | Timeout :: _ => Some (b_data b)
  end.

Definition default_response : Response := MkResponse [] [] None.

Definition respond (ran : Output + run_error) : Response :=
  match ran with
  | inl o => MkResponse (from_utf8_lossy (out o)) (from_utf8_lossy (err o)) (code o)
  | inr e => MkResponse (output default_response) (error_text e) (r_status default_response)
  end.

(** One connection: the results of its reads, what [run_cmd] gives ([None]: it does not return),
    and whether the write and the shutdown succeed.  A failed write is only logged. *)
Definition handle_stream (rs : list read) (ran : list byte -> option (list byte) -> option (Output + run_error))
    (written closed : bool) : list effect * status :=
  match read_loop rs new_buffer with
  | None => ([], Pending)
  | Some data =>
      match from_slice data with
      | None => ([], Failed BadRequest)
      | Some request =>
          let run := Ran (bash request) (input request) in
          match ran (bash request) (input request) with
          | None => ([run], Pending)
          | Some r =>
              match to_vec (respond r) with
              | None => ([run], Failed BadResponse)
              | Some response =>
                  (run :: (if written then [Sent response] else []) ++ (if closed then [Shutdown] else []),
                   if closed then Done else Failed ShutdownFailed)
              end
          end
      end
  end.

End Stream.

(** ** Listening *)

Record Cli := MkCli { tcp : bool; host : list byte; port : Z }.

Definition SOCK : list byte := lit "/var/run/forwarder/forwarder.sock".

(** 0o666: everyone may read and write. *)
Definition mode_666 : Z := 6 * 64 + 6 * 8 + 6.

Inductive call :=
| InitLog | RemoveSock | TryExistsDir | CreateDirs | BindUnix | ReadPermissions | SetPermissions (mode : Z)
| BindTcp (address : list byte).

(** The socket file with its mode, its directory, and the listeners that have a task. *)
Record state := State
  { sock_file : option Z; sock_dir : bool; unix_task : bool; tcp_task : option (list byte) }.

Section Main.
(** Whether a call succeeds, and the mode a new socket gets. *)
Context (outcome : list call -> call -> option Z) (new_mode : Z).

Local Open Scope io_scope.

Definition get {A} (f : state -> A) : io call state A := fun p => (p, inl (f (p_state p))).
Definition spawn (f : state -> state) : io call state () := fun p => (Process (p_log p) (f (p_state p)), inl ()).

(** [main] up to waiting for its tasks. *)
Definition main (opt : Cli) : io call state () :=
  do_call outcome InitLog id ;;;
  exists_ <- get (fun s => bool_decide (is_Some (sock_file s))) ;;
  (if exists_ : bool
   then do_call outcome RemoveSock (fun s => State None (sock_dir s) (unix_task s) (tcp_task s))
   else do_call outcome TryExistsDir id ;;;
        dir <- get sock_dir ;;
        when_io (negb dir) (do_call outcome CreateDirs (fun s => State (sock_file s) true (unix_task s) (tcp_task s)))) ;;;
  do_call outcome BindUnix (fun s => State (Some new_mode) (sock_dir s) (unix_task s) (tcp_task s)) ;;;
  do_call outcome ReadPermissions id ;;;
  do_call outcome (SetPermissions mode_666) (fun s => State (Some mode_666) (sock_dir s) (unix_task s) (tcp_task s)) ;;;
  spawn (fun s => State (sock_file s) (sock_dir s) true (tcp_task s)) ;;;
  when_io (tcp opt)
    (let address := host opt ++ [char 58] ++ decimal (port opt) in
     do_call outcome (BindTcp address) id ;;;
     spawn (fun s => State (sock_file s) (sock_dir s) (unix_task s) (Some address))).

End Main.

(** A listener: connections are handled in tasks of their own, whose failures are logged; the
    listener ends with the first failure of [accept]. *)
Fixpoint accept_loop {C} (accepts : list (C + Z)) : list C * option Z :=
  match accepts with
  | [] => ([], None)
  | inl c :: rest => let '(cs, e) := accept_loop rest in (c :: cs, e)
  | inr e :: _ => ([], Some e)
  end.

(** [handle.await?] for the tasks in order: [None] is a task that does not end; the result of one
    that ends is dropped, unless it panicked. *)
Inductive joined := Finished (r : () + Z) | Panicked.
Fixpoint await_all (hs : list (option joined)) : option (() + joined) :=
  match hs with
  | [] => Some (inl ())
  | None :: _ => None
  | Some Panicked :: _ => Some (inr Panicked)
  | Some (Finished _) :: hs => await_all hs
  end.
