(* ===== verification/ForwarderTheorems.v ===== *)
(** * The command forwarder: properties

    A request whose reads but the last are whole units of the buffer is answered with what its
    command writes; a request in several segments is cut where the first short read ends; the
    listeners serve with the mode and at the address asked for. *)

From Stdlib Require Import String.
From S2P Require Import Prelude RustStd RustStr Io ForwarderRun ForwarderRunTheorems Forwarder.

Section Reading.
Context {FORMATS : formats} {BYTES : bytes_mut}.

(** The reads of a connection that give the message [m]: all but the last are of whole units of the
    buffer, and the last is not, or else the peer closes its end or is silent after them. *)
Inductive arrives : list byte -> list read -> Prop :=
| arrives_end r rs : r = ReadOk [] \/ r = Timeout -> arrives [] (r :: rs)
| arrives_last p rs : ~ (BUF_LEN | len p) -> arrives p (ReadOk p :: rs)
| arrives_more p m rs : p <> [] -> (BUF_LEN | len p) -> arrives m rs -> arrives (p ++ m) (ReadOk p :: rs).

Lemma read_loop_arrives m rs : arrives m rs -> forall b, read_loop rs b = Some (b_data b ++ m).
Proof.
  induction 1 as [r rs [-> | ->]|p rs Hp|p m rs Hne Hp _ IH]; intros b; cbn [read_loop]; cbv zeta.
  1, 2: cbn; by rewrite ?(right_id_L [] (++)).
  - destruct (Z.eqb_spec (len p) 0) as [Hz|]; [destruct Hp; rewrite Hz; by exists 0|].
    destruct (Z.eqb_spec (len p mod BUF_LEN) 0) as [Hz|]; [|done].
    destruct Hp. by apply Z.mod_divide.
  - destruct (Z.eqb_spec (len p) 0); [by destruct p|].
    rewrite (proj2 (Z.mod_divide _ BUF_LEN ltac:(done)) Hp). cbn [negb Z.eqb].
    rewrite IH. cbn. by rewrite <- (assoc_L (++)).
Qed.

(** A message shorter than a unit that is there when it is read: the read takes what the buffer has
    room for, and that is all of it. *)
Lemma arrives_short m rs :
  m <> [] -> len m < BUF_LEN ->
  arrives m (ReadOk (take (Z.to_nat (room new_buffer)) m) :: rs).
Proof.
  intros Hne Hm. rewrite take_ge.
  - apply arrives_last. intros Hd. apply Z.divide_pos_le in Hd; [lia|]. destruct m; [done|cbn; lia].
  - unfold room, new_buffer. cbn -[BUF_LEN]. pose proof (with_capacity_ge BUF_LEN). lia.
Qed.
End Reading.

(** ** Answers *)

Section Answers.
Context {FORMATS : formats} {BYTES : bytes_mut}.
Context {T : Type} (next : T -> action T) (spawn : Command -> T + Z) (capacity : nat).
Context {LIB : process_library next capacity}.

(** The end of a run of a command, in which nobody can go on; what [run_cmd] gives there. *)
Definition ends (cmd : list byte) (input : option (list byte)) (w : world T) : Prop :=
  exists n, nsteps (run_turn next capacity (run_cmd spawn cmd input).1) n (run_cmd spawn cmd input).2 w /\
            forall w', ~ run_turn next capacity (run_cmd spawn cmd input).1 w w'.
Definition gives (w : world T) : option (Output + run_error) :=
  match w_phase w with Returned r => Some r | _ => None end.

Lemma ends_gives cmd input w s fuel total :
  (0 < capacity)%nat -> ends cmd input w ->
  spawn (run_cmd spawn cmd input).1 = inl s ->
  exec next fuel s (default [] input) = Some total -> r_unread total = [] ->
  (length (default [] input) <= capacity)%nat ->
  gives w = Some (inl (captured (run_cmd spawn cmd input).1 total)).
Proof.
  intros Hcap (n & Hn & Hstuck) Hs He Hu Hl.
  destruct (run_cmd_inv next spawn capacity cmd input s fuel total Hs He Hl) as [Hi _].
  destruct (nsteps_inv next capacity _ total n fuel _ w Hi Hn) as (f' & Hi' & _).
  destruct (stuck_returned next capacity _ total f' w Hcap Hi') as [r Hr].
  { intros w' Hw'. apply (run_progress next capacity) in Hw' as [w'' Hw'']. by apply (Hstuck w''). }
  unfold gives. rewrite Hr. destruct w as [p ch i o e h]. cbn in Hr. subst p.
  destruct r as [r|x]; cbn in Hi'; [by rewrite Hi'|by destruct Hi' as [_ []]].
Qed.

(** The response to a request whose command does [total]. *)
Definition answer (request : Request) (total : result) : Response :=
  MkResponse (from_utf8_lossy (r_out total))
    (if input request is Some _ then [] else from_utf8_lossy (r_err total)) (r_code total).

(** C9: the answer to a request.  Let its bytes arrive in reads of which all but the last are
    multiples of 4096 (in particular in one, when it is shorter and there as a whole), let the
    JSON library read it and write the response, let its input fit the pipe, let its command start,
    end, and leave none of its input unread, and let the write and the shutdown of the connection
    succeed.  Then, however the forwarder and the command take their turns, the response is what the
    command does on its own: its output and its code, and its standard error only when the
    request has no input.  The connection is closed after it. *)
Theorem forwarder_answers m rs ran request w s fuel total response :
  arrives m rs -> from_slice m = Some request ->
  ends (bash request) (input request) w -> ran (bash request) (input request) = gives w ->
  (0 < capacity)%nat -> spawn (run_cmd spawn (bash request) (input request)).1 = inl s ->
  exec next fuel s (default [] (input request)) = Some total -> r_unread total = [] ->
  (length (default [] (input request)) <= capacity)%nat ->
  to_vec (answer request total) = Some response ->
  handle_stream rs ran true true =
    ([Ran (bash request) (input request); Sent response; Shutdown], Done).
Proof.
  intros Hs Hp He Hran Hcap Hsp Hex Hu Hl Hv. unfold handle_stream.
  rewrite (read_loop_arrives m rs Hs new_buffer). cbn [b_data new_buffer app].
  rewrite Hp, Hran, (ends_gives _ _ _ s fuel total) by done.
  assert (Hr : respond (inl (captured (run_cmd spawn (bash request) (input request)).1 total)) = answer request total).
  { unfold respond, answer, captured. cbn. by destruct (input request). }
  by rewrite Hr, Hv.
Qed.
End Answers.

(** ** Segments *)

Section Segments.
Context {FORMATS : formats} {BYTES : bytes_mut}.

Lemma arrives_segments ps p rs :
  Forall (fun q => q <> [] /\ (BUF_LEN | len q)) ps -> ~ (BUF_LEN | len p) ->
  arrives (concat ps ++ p) ((ReadOk <$> ps) ++ ReadOk p :: rs).
Proof.
  intros Hps Hp. induction Hps as [|q ps [Hq Hd] _ IH]; cbn; [by apply arrives_last|].
  rewrite <- (assoc_L (++)). by apply arrives_more.
Qed.

(** A request that arrives in segments is taken to end with the first read that is no multiple
    of the unit of the buffer: whatever follows is never read, and when the part read is no
    request, the connection is dropped: no command is run and no response is sent. *)
Theorem forwarder_cuts_segments ps p rs ran written closed :
  Forall (fun q => q <> [] /\ (BUF_LEN | len q)) ps -> ~ (BUF_LEN | len p) ->
  (forall rs', handle_stream ((ReadOk <$> ps) ++ ReadOk p :: rs) ran written closed =
               handle_stream ((ReadOk <$> ps) ++ ReadOk p :: rs') ran written closed) /\
  (from_slice (concat ps ++ p) = None ->
   handle_stream ((ReadOk <$> ps) ++ ReadOk p :: rs) ran written closed = ([], Failed BadRequest)).
Proof.
  intros Hps Hp. unfold handle_stream.
  assert (Hr : forall rs' b, read_loop ((ReadOk <$> ps) ++ ReadOk p :: rs') b = Some (b_data b ++ concat ps ++ p))
    by (intros rs' b; by apply read_loop_arrives, arrives_segments).
  split; intros H; rewrite !Hr; [done|]. cbn. by rewrite H.
Qed.
End Segments.

(** ** Listeners *)

Section Listening.
Context (outcome : list call -> call -> option Z) (new_mode : Z).

Definition wanted (opt : Cli) : state :=
  State (Some mode_666) true true
    (if tcp opt then Some (host opt ++ [char 58] ++ decimal (port opt)) else None).

(** Whatever the calls at its start give, the forwarder either serves its socket, open to
    everyone and in place of one that was there, and TCP at the address of its options when they
    ask for it; or it ends with the error of the last call it made. *)
Theorem forwarder_listens opt p :
  unix_task (p_state p) = false -> tcp_task (p_state p) = None ->
  (sock_file (p_state p) <> None -> sock_dir (p_state p) = true) ->
  let '(p', r) := main outcome new_mode opt p in
  match r with
  | inl _ => p_state p' = wanted opt
  | inr e => exists log c, p_log p' = log ++ [c] /\ outcome log c = Some e
  end.
Proof.
  destruct p as [log [sock dir ut tt]]. cbn. intros -> -> Hdir.
  unfold main, get, spawn, when_io, do_call, io_bind, io_ret, wanted.
  destruct sock, dir, (tcp opt); repeat (case_match; simplify_eq/=);
    first [reflexivity | eexists _, _; split; [reflexivity|done] | by discriminate Hdir].
Qed.
End Listening.

(** ** Instances *)

(** The growth of a vector: to the double, or to what is needed. *)
#[export] Program Instance doubling : bytes_mut :=
  {| with_capacity n := n; reserve l c n := if l + n <=? c then c else Z.max (2 * c) (l + n) |}.
Next Obligation. done. Qed.
Next Obligation. intros l c n. cbn. destruct (Z.leb_spec (l + n) c); lia. Qed.

(** One request, and responses written as their output. *)
Definition ok_request : list byte := lit "{cat ok}".
#[export] Instance plain_formats : formats :=
  {| from_slice bs := if bool_decide (bs = ok_request)
                      then Some (MkRequest (lit "cat") (Some (lit "ok")) (lit "me")) else None;
     to_vec r := Some (output r);
     error_text _ := lit "error" |}.

Definition ok_world : world copy_state :=
  World (Returned (inl (MkOutput (Some 0) (lit "ok") []))) (inr (Some 0)) [] [] [] [].

Lemma ok_ends : ends (LIB := any_turn (copy 1) 16) (copy 1) (starts (Fill [])) 16 (lit "cat") (Some (lit "ok")) ok_world.
Proof.
  exists 10%nat. split; [|intros w' [t Ht]; by destruct t as [| | |[] | |]].
  apply (play_nsteps (copy 1) 16 ok_run.1
    ([WriteSome 2; WriteEnds] ++ repeat Child 6 ++ [Collect StdOut 2; Return]) ok_run.2). reflexivity.
Qed.

Lemma forwarder_answers_witness :
  handle_stream [ReadOk ok_request; Timeout] (fun _ _ => gives ok_world) true true
  = ([Ran (lit "cat") (Some (lit "ok")); Sent (lit "ok"); Shutdown], Done).
Proof.
  eapply (forwarder_answers (LIB := any_turn (copy 1) 16) (copy 1) (starts (Fill [])) 16 ok_request _ _
    (MkRequest (lit "cat") (Some (lit "ok")) (lit "me")) ok_world (Fill []) 7 (MkResult (lit "ok") [] (Some 0) []));
    try reflexivity; [|apply ok_ends|lia|cbn; lia].
  pose proof (arrives_short ok_request [Timeout] ltac:(done) ltac:(by vm_compute)) as H. by vm_compute (take _ _) in H.
Defined.

Lemma forwarder_cuts_segments_witness :
  handle_stream [ReadOk (lit "{cat"); ReadOk (lit " ok}"); ReadOk []] (fun _ _ => gives ok_world) true true
  = ([], Failed BadRequest).
Proof.
  apply (forwarder_cuts_segments [] (lit "{cat") [ReadOk (lit " ok}"); ReadOk []]); [done| |done].
  intros [k Hk]. unfold BUF_LEN in Hk. cbn in Hk. lia.
Defined.

Definition tcp_options : Cli := MkCli true (lit "127.0.0.1") 7788.

Lemma forwarder_listens_witness :
  p_state (main (fun _ _ => None) 0 tcp_options (Process [] (State (Some 0) true false None))).1
  = State (Some 438) true true (Some (lit "127.0.0.1:7788")).
Proof.
  pose proof (forwarder_listens (fun _ _ => None) 0 tcp_options (Process [] (State (Some 0) true false None))
    eq_refl eq_refl ltac:(done)) as H.
  destruct (main _ _ _ _) as [p' [u|e]] eqn:E; [exact H|]. by vm_compute in E.
Defined.
