(* ===== verification/ForwarderLog.v ===== *)
(** * The command forwarder: its log

    src/network/forwarder/src/log.rs: the directory of the log, the size at which the file is rolled,
    and the names of the file and of its archives.  The logging library is given the configuration;
    whether it accepts it is up to the environment. *)

From Stdlib Require Import String.
From S2P Require Import Prelude RustStd RustStr.

Inductive log_error := TryExistsFailed | CreateDirFailed | InitFailed.

(** [format!]: the pattern of the archives, and the path of the file. *)
Definition archive_pattern (dir : list byte) : list byte := dir ++ lit "forwarder.{}.gz".
Definition log_file (dir : list byte) : list byte := dir ++ lit "/forwarder.log".

(** [ensure_log_dir]: whether the directory exists, if that can be found out, and whether it can be
    made; and whether it has been. *)
Definition ensure_log_dir (dir : list byte) (exists_ : option bool) (can_create : bool)
    : outcome log_error (list byte * bool) :=
  match exists_ with
  | None => Err TryExistsFailed
  | Some true => mret (archive_pattern dir, false)
  | Some false => if can_create then mret (archive_pattern dir, true) else Err CreateDirFailed
  end.

(** [size * 1024 * 1024], in [u64]. *)
Definition mul_u64 (checks : bool) (a b : Z) : run Z :=
  if a * b <? 2 ^ 64 then Ok (a * b) else if checks then Panic else Ok (wrap 64 (a * b)).
Definition size_limit (checks : bool) (size : Z) : run Z :=
  kb ← mul_u64 checks size 1024; mul_u64 checks kb 1024.

Record config := Config { c_file : list byte; c_archives : list byte; c_limit : Z; c_max : Z }.

(** [init]: [builds] says whether the library makes the roller, the appender and the configuration, whose
    results are unwrapped; [installs], whether it installs it. *)
Definition init (checks : bool) (dir : list byte) (size max : Z) (exists_ : option bool)
    (can_create builds installs : bool) : outcome log_error config :=
  '(pattern, _) ← ensure_log_dir dir exists_ can_create;
  match size_limit checks size with
  | Ok limit =>
      if builds then
        if installs then Ok (Config (log_file dir) pattern limit max) else Err InitFailed
      else Panic
  | _ => Panic
  end.

(** ** Paths *)

Definition normal (c : list byte) : bool := bool_decide (c <> [] /\ c <> lit ".").

Lemma components_slash d n :
  char 47 ∉ n -> components (d ++ [char 47] ++ n) = components (d ++ [char 47]) ++ (if normal n then [n] else []).
Proof.
  intros Hn. unfold components. cbn [app]. rewrite !split_concat, (split_none _ n Hn). change (split (char 47) []) with [@nil byte].
  destruct (split (char 47) d) as [|first rest] eqn:E.
  { by apply split_nonempty in E. }
  cbn [app]. rewrite !(bool_decide_eq_false_2 (d ++ _ = [])) by (by intros []%app_eq_nil).
  rewrite !filter_app, <- !(assoc_L (++)). do 2 f_equal. rewrite !filter_cons, !filter_nil. fold (normal n).
  by destruct (normal n); [rewrite decide_True by done|rewrite decide_False by (by intros [])].
Qed.

Lemma components_trailing d : d <> [] -> components (d ++ [char 47]) = components d.
Proof.
  intros Hd. unfold components. rewrite split_concat. change (split (char 47) []) with [@nil byte].
  destruct (split (char 47) d) as [|first rest] eqn:E.
  { by apply split_nonempty in E. }
  cbn [app]. rewrite (bool_decide_eq_false_2 (d ++ _ = [])) by (by intros []%app_eq_nil).
  rewrite (bool_decide_eq_false_2 (d = [])) by done. rewrite filter_app.
  change (base.filter _ [[]]) with (@nil (list byte)). by rewrite app_nil_r.
Qed.

(** The directory a path is in, as its components. *)
Definition parent (p : list byte) : list (list byte) := removelast (components p).

(** The archives are kept with the log only when the name of the directory ends in a slash: for a
    directory [n] in [d] they go to [d], with the name of the directory in front of theirs. *)
Theorem archives_beside_log d n :
  char 47 ∉ n ->
  components (archive_pattern (d ++ [char 47] ++ n)) = components (d ++ [char 47]) ++ [n ++ lit "forwarder.{}.gz"] /\
  (parent (archive_pattern (d ++ [char 47] ++ n)) = parent (log_file (d ++ [char 47] ++ n)) <-> n = [] \/ n = lit ".").
Proof.
  intros Hn. unfold archive_pattern, log_file, parent.
  assert (Ha : components ((d ++ [char 47] ++ n) ++ lit "forwarder.{}.gz") = components (d ++ [char 47]) ++ [n ++ lit "forwarder.{}.gz"]).
  { rewrite <- !(assoc_L (++)), components_slash.
    - unfold normal. rewrite bool_decide_eq_true_2; [done|].
      split; intros H%(f_equal length); rewrite length_app in H; cbn in H; lia.
    - rewrite not_elem_of_app. split; [done|]. apply (bool_decide_unpack _). by vm_compute. }
  split; [done|]. rewrite Ha. change (lit "/forwarder.log") with ([char 47] ++ lit "forwarder.log").
  rewrite (components_slash (d ++ [char 47] ++ n)) by (apply (bool_decide_unpack _); by vm_compute).
  change (normal (lit "forwarder.log")) with true. cbn iota.
  rewrite !removelast_last.
  assert (Hne : d ++ [char 47] ++ n <> []) by (by intros [_ ?]%app_eq_nil).
  rewrite (components_trailing _ Hne), (components_slash d n Hn). split.
  - intros H. destruct (normal n) eqn:E; [|].
    + apply (f_equal length) in H. rewrite length_app in H. cbn in H. lia.
    + unfold normal in E. apply bool_decide_eq_false in E. destruct (decide (n = [])), (decide (n = lit ".")); tauto.
  - intros [-> | ->]; by rewrite app_nil_r.
Qed.

(** The size of the file is a [u64] of bytes: from 2^44 megabytes on it overflows, and without
    overflow checks the file is rolled at another size. *)
Theorem size_limit_exact checks size :
  0 <= size < 2 ^ 64 ->
  size_limit checks size = if size <? 2 ^ 44 then Ok (size * 2 ^ 20)
                           else if checks then Panic else Ok (wrap 64 (size * 2 ^ 20)).
Proof.
  intros Hs. unfold size_limit, mul_u64.
  destruct (Z.ltb_spec size (2 ^ 44)), (Z.ltb_spec (size * 1024) (2 ^ 64)); try lia; cbn.
  - destruct (Z.ltb_spec (size * 1024 * 1024) (2 ^ 64)); [f_equal; lia|lia].
  - destruct (Z.ltb_spec (size * 1024 * 1024) (2 ^ 64)); [lia|]. destruct checks; [done|]. do 2 f_equal. lia.
  - destruct checks; [done|]. cbn. unfold wrap.
    assert (Hm : size * 1024 = 2 ^ 64 * (size * 1024 / 2 ^ 64) + size * 1024 mod 2 ^ 64) by (apply Z.div_mod; lia).
    set (q := size * 1024 / 2 ^ 64) in *. set (r := (size * 1024) mod 2 ^ 64) in *.
    assert (E : size * 2 ^ 20 = r * 1024 + (q * 1024) * 2 ^ 64) by lia.
    rewrite E, Z_mod_plus_full. destruct (Z.ltb_spec (r * 1024) (2 ^ 64)); [|done].
    f_equal. symmetry. apply Z.mod_small. pose proof (Z.mod_pos_bound (size * 1024) (2 ^ 64)). lia.
Qed.
