(* ===== verification/Echo.v ===== *)
(** * The echo server and its client

    src/network/echoserver/src/main.rs.  The workers of the UDP server share a socket; each sends
    what it receives back, and reports it over a bounded channel to a task that prints.  A label is
    one turn of a task, up to its next [await]. *)

From Stdlib Require Import String.
From S2P Require Import Prelude RustStd RustStr Trace.

Section Echo.
Context {SocketAddr : Type}.

(** ** The UDP server *)

Definition BUF : Z := 1500.
Definition CHANNEL : nat := 1000.

(** Where a worker is: at [recv_from], [send_to] or [send]; or it has panicked. *)
Inductive phase :=
| Receiving | Echoing (len : Z) (remote : SocketAddr) | Reporting (len : Z) (remote : SocketAddr) | Dead.
Record worker := Worker { w_buf : list byte; w_phase : phase }.

(** The datagrams the socket has received and sent, the channel, what has been printed; the server
    ends when [main] finds that the worker it awaits has panicked. *)
Record server := Server
  { s_queue : list (SocketAddr * list byte); s_workers : list worker;
    s_sent : list (SocketAddr * list byte); s_channel : list (Z * SocketAddr);
    s_printed : list (Z * SocketAddr); s_ended : bool }.

Definition udp_server (workers : nat) : server :=
  Server [] (repeat (Worker (zeros BUF) Receiving) workers) [] [] [] false.

(** [recv_from] fills the front of the buffer and drops what does not fit. *)
Definition recv_from (bs buf : list byte) : Z * list byte :=
  let bs := take (length buf) bs in (len bs, bs ++ drop (length bs) buf).

Inductive label :=
| Arrive (remote : SocketAddr) (bs : list byte)
| Recv (i : nat) (ok : bool)
| Send (i : nat) (sent : option Z)
| Report (i : nat)
| Show
| Join.

Definition set_worker (i : nat) (w : worker) (s : server) : server :=
  Server (s_queue s) (<[i := w]> (s_workers s)) (s_sent s) (s_channel s) (s_printed s) (s_ended s).

Definition step (l : label) (s : server) : option server :=
  if s_ended s then None else
  let 'Server queue workers sent channel printed ended := s in
  match l with
  | Arrive remote bs => Some (Server (queue ++ [(remote, bs)]) workers sent channel printed ended)
  | Recv i ok =>
      match workers !! i with
      | Some (Worker buf Receiving) =>
          if ok : bool then
            match queue with
            | (remote, bs) :: queue =>
                let '(n, buf) := recv_from bs buf in
                Some (set_worker i (Worker buf (Echoing n remote))
                        (Server queue workers sent channel printed ended))
            | [] => None
            end
          else Some (set_worker i (Worker buf Dead) s)
      | _ => None
      end
  | Send i result =>
      match workers !! i with
      | Some (Worker buf (Echoing n remote)) =>
          match slice (E := Empty_set) 0 n buf, result with
          | Ok bs, Some m =>
              Some (set_worker i (Worker buf (Reporting m remote))
                      (Server queue workers (sent ++ [(remote, bs)]) channel printed ended))
          | _, _ => Some (set_worker i (Worker buf Dead) s)
          end
      | _ => None
      end
  | Report i =>
      match workers !! i with
      | Some (Worker buf (Reporting m remote)) =>
          if (length channel <? CHANNEL)%nat
          then Some (set_worker i (Worker buf Receiving)
                       (Server queue workers sent (channel ++ [(m, remote)]) printed ended))
          else None
      | _ => None
      end
  | Show =>
      match channel with
      | p :: channel => Some (Server queue workers sent channel (printed ++ [p]) ended)
      | [] => None
      end
  | Join =>
      match workers !! 0%nat with
      | Some (Worker _ Dead) | None => Some (Server queue workers sent channel printed true)
      | _ => None
      end
  end.

(** ** The TCP server *)

(** The listener spawns a task for each connection, and ends with the first failure of [accept]. *)
Fixpoint tcp_server (accepts : list (SocketAddr + Z)) : list SocketAddr * option Z :=
  match accepts with
  | [] => ([], None)
  | inl remote :: rest => let '(tasks, e) := tcp_server rest in (remote :: tasks, e)
  | inr e :: _ => ([], Some e)
  end.

(** What the task of a connection reports, given the result of [io::copy]. *)
Definition tcp_task (remote : SocketAddr) (copied : Z + Z) : option (Z * SocketAddr) :=
  match copied with inl n => Some (n, remote) | inr _ => None end.

End Echo.
Arguments label : clear implicits.
Arguments server : clear implicits.
Arguments worker : clear implicits.
Arguments phase : clear implicits.

(** ** The client *)

Inductive out := EchoBack (text : list byte) | ReceiveError.

Definition REPLY : Z := 512.

(** One turn of the UDP client, whose input has been sent: the reply is read into a zeroed buffer,
    all of which is shown. *)
Definition udp_client_turn (reply : option (list byte)) : run out :=
  match reply with
  | Some bs =>
      let '(_, buf) := recv_from bs (zeros REPLY) in
      if utf8 buf then mret (EchoBack buf) else Panic
  | None => mret ReceiveError
  end.

(** The position after the first line feed. *)
Fixpoint line_end (s : list byte) : option nat :=
  match s with
  | [] => None
  | b :: s => if bool_decide (b = char 10) then Some 1%nat else S <$> line_end s
  end.

(** [read_line] of a new [BufReader], on a stream whose reads give the [chunks] (an empty one at its
    end): the line, and the chunks not read.  What a chunk holds after the line is lost with the
    reader.  [None] while it waits. *)
Fixpoint read_line (chunks : list (list byte)) : option (list byte * list (list byte)) :=
  match chunks with
  | [] => None
  | [] :: chunks => Some ([], chunks)
  | chunk :: chunks =>
      match line_end chunk with
      | Some n => Some (take n chunk, chunks)
      | None => '(line, rest) ← read_line chunks; Some (chunk ++ line, rest)
      end
  end.

(** One turn of the TCP client after its input has been written: a line that is no text is an error
    that ends the client. *)
Definition tcp_client_turn (chunks : list (list byte)) : option (outcome () (out * list (list byte))) :=
  '(line, rest) ← read_line chunks;
  Some (if utf8 line then Ok (EchoBack line, rest) else Err ()).

(** [main] of a client: the address is needed. *)
Record Opt := MkOpt { client : bool; port : option Z; ip : option (list byte); udp : bool; worker_count : option nat }.
Inductive mode := NoAddress | UdpClient (host : list byte) | TcpClient (host : list byte)
  | UdpServer (host : list byte) (workers : nat) | TcpServer (host : list byte).

Definition main (cpus : nat) (opt : Opt) : mode :=
  if client opt && bool_decide (ip opt = None) then NoAddress else
  let port := default 7788 (port opt) in
  let host := default (lit "0.0.0.0") (ip opt) ++ lit ":" ++ decimal port in
  if client opt then (if udp opt then UdpClient host else TcpClient host)
  else if udp opt then UdpServer host (default cpus (worker_count opt)) else TcpServer host.
