(* ===== verification/EchoTheorems.v ===== *)
(** * The echo server and its client: properties

    Every datagram is sent back once, to its sender and with its bytes, unless a send fails; a line makes the round trip,
    unless a character ends beyond the buffer of the client. *)

From Stdlib Require Import String.
From S2P Require Import Prelude RustStd RustStr Trace Echo.

(** ** The UDP server *)

Section Server.
Context {A : Type}.

(** What is sent back for a datagram. *)
Definition echo (d : A * list byte) : A * list byte := (d.1, take (Z.to_nat BUF) d.2).

Definition arrivals (ls : list (label A)) : list (A * list byte) :=
  omap (fun l => match l with Arrive r bs => Some (r, bs) | _ => None end) ls.

(** A turn in which the kernel does its part. *)
Definition io_ok (l : label A) : Prop :=
  match l with Recv _ ok => ok = true | Send _ r => is_Some r | _ => True end.
Definition is_arrival (l : label A) : Prop := match l with Arrive _ _ => True | _ => False end.

(** What a worker has received and not sent. *)
Definition holds (w : worker A) : list (A * list byte) :=
  match w_phase w with Echoing n r => [(r, take (Z.to_nat n) (w_buf w))] | _ => [] end.
Definition held (s : server A) : list (A * list byte) := s_workers s ≫= holds.

Definition worker_ok (w : worker A) : Prop :=
  len (w_buf w) = BUF /\
  match w_phase w with Echoing n _ => 0 <= n <= BUF | _ => True end.

(** The sends that have failed in a run. *)
Definition failed_sends (ls : list (label A)) : nat :=
  sum_list_with (fun l => match l with Send _ None => 1 | _ => 0 end)%nat ls.

Record inv (ls : list (label A)) (s : server A) : Prop := Inv
  { inv_workers : Forall worker_ok (s_workers s);
    inv_alive : Forall io_ok ls -> Forall (fun w => w_phase w <> Dead) (s_workers s);
    inv_sent : exists lost, length lost = failed_sends ls /\
      s_sent s ++ held s ++ (echo <$> s_queue s) ++ lost ≡ₚ echo <$> arrivals ls;
    inv_channel : (length (s_channel s) <= CHANNEL)%nat }.

Lemma recv_from_spec (bs buf : list byte) :
  let '(n, buf') := recv_from bs buf in
  length buf' = length buf /\ 0 <= n <= len buf /\ take (Z.to_nat n) buf' = take (length buf) bs.
Proof.
  unfold recv_from. set (d := take (length buf) bs).
  assert (Hd : (length d <= length buf)%nat) by (unfold d; rewrite length_take; lia).
  rewrite length_app, length_drop. split; [lia|]. split; [lia|]. by rewrite Nat2Z.id, take_app_length.
Qed.

(** Replacing a worker. *)
Lemma held_insert i w w' (ws : list (worker A)) :
  ws !! i = Some w -> exists rest, (ws ≫= holds) ≡ₚ holds w ++ rest /\ (<[i := w']> ws ≫= holds) ≡ₚ holds w' ++ rest.
Proof.
  intros Hi. exists ((take i ws ≫= holds) ++ (drop (S i) ws ≫= holds)).
  rewrite <- (take_drop_middle ws i w Hi) at 1. rewrite insert_take_drop by (by eapply lookup_lt_Some).
  rewrite !bind_app. cbn [mbind list_bind].
  generalize (mbind (M := list) holds (take i ws)), (mbind (M := list) holds (drop (S i) ws)). intros x y.
  split; solve_Permutation.
Qed.

Lemma arrivals_snoc ls (l : label A) : arrivals (ls ++ [l]) = arrivals ls ++ arrivals [l].
Proof. unfold arrivals. by rewrite omap_app. Qed.

Lemma failed_snoc ls (l : label A) : failed_sends (ls ++ [l]) = (failed_sends ls + failed_sends [l])%nat.
Proof. unfold failed_sends. rewrite sum_list_with_app. done. Qed.

Lemma failed_none ls : Forall io_ok ls -> failed_sends ls = 0%nat.
Proof.
  unfold failed_sends. induction 1 as [|l ls Hl _ IH]; [done|].
  destruct l as [| |i [m|]| | |]; cbn in Hl |- *; try exact IH. by destruct Hl.
Qed.

(** A turn of a worker, which may lose what it holds. *)
Lemma inv_turn ls l i w w' lost (s s' : server A) :
  inv ls s -> s_workers s !! i = Some w -> worker_ok w' -> (io_ok l -> w_phase w' <> Dead) ->
  arrivals [l] = [] -> length lost = failed_sends [l] ->
  s_workers s' = <[i := w']> (s_workers s) ->
  s_sent s' ++ holds w' ++ (echo <$> s_queue s') ++ lost ≡ₚ s_sent s ++ holds w ++ (echo <$> s_queue s) ->
  (length (s_channel s') <= CHANNEL)%nat -> inv (ls ++ [l]) s'.
Proof.
  intros [Hw Hal (lost0 & Hl0 & Hs) Hc] Hi Hw' Hd Ha Hl Ew Hp Hc'. split; rewrite ?Ew; [| | |done].
  - by apply Forall_insert.
  - intros [Hls Hok]%Forall_app. apply Forall_insert; [auto|]. apply Hd. by apply Forall_inv in Hok.
  - exists (lost0 ++ lost). rewrite length_app, failed_snoc. split; [lia|].
    rewrite arrivals_snoc, Ha, app_nil_r, <- Hs. unfold held in *. rewrite Ew.
    destruct (held_insert i w w' _ Hi) as (rest & H1 & H2). rewrite H1, H2.
    transitivity ((s_sent s' ++ holds w' ++ (echo <$> s_queue s') ++ lost) ++ rest ++ lost0); [solve_Permutation|].
    rewrite Hp. solve_Permutation.
Qed.

Lemma inv_quiet ls l (s s' : server A) :
  inv ls s -> s_workers s' = s_workers s -> s_sent s' = s_sent s -> failed_sends [l] = 0%nat ->
  (echo <$> s_queue s') = (echo <$> s_queue s) ++ (echo <$> arrivals [l]) ->
  (length (s_channel s') <= CHANNEL)%nat -> inv (ls ++ [l]) s'.
Proof.
  intros [Hw Hal (lost & Hl & Hs) _] Ew Es Hf Eq Hc. split; rewrite ?Ew; [done| | |done].
  - intros [Hls _]%Forall_app. auto.
  - exists lost. rewrite failed_snoc, Hf. split; [lia|]. unfold held in *. rewrite Ew, Es, Eq, arrivals_snoc, fmap_app, <- Hs.
    solve_Permutation.
Qed.

Lemma echo_step_inv ls l s s' : inv ls s -> step l s = Some s' -> inv (ls ++ [l]) s'.
Proof.
  intros Hinv Hst. unfold step in Hst. destruct (s_ended s); [done|].
  destruct s as [queue workers sent channel printed ended].
  assert (Hok : forall i w, workers !! i = Some w -> worker_ok w)
    by (intros i w Hi; exact (Forall_lookup_1 _ _ _ _ (inv_workers _ _ Hinv) Hi)).
  pose proof (inv_channel _ _ Hinv) as Hc. cbn in Hc.
  destruct l as [r bs|i ok|i result|i| |].
  - injection Hst as <-. eapply inv_quiet; [exact Hinv|done..| |exact Hc]. by rewrite <- fmap_app.
  - destruct (workers !! i) as [[buf []]|] eqn:Ei; try done. pose proof (Hok _ _ Ei) as [Hb _]. cbn in Hb.
    destruct ok; [|injection Hst as <-; eapply (inv_turn _ _ i _ (Worker buf Dead) []); [exact Hinv|exact Ei|done|by intros [=]|done..| |exact Hc]; unfold holds; cbn; solve_Permutation].
    destruct queue as [|[r bs] queue]; [done|].
    pose proof (recv_from_spec bs buf) as Hr. destruct (recv_from bs buf) as [n buf'].
    destruct Hr as (Hl & Hn & Ht). injection Hst as <-.
    eapply (inv_turn _ _ i _ (Worker buf' (Echoing n r)) []); [exact Hinv|exact Ei|split; cbn; lia|done..| |exact Hc].
    unfold holds. cbn. rewrite Ht. unfold echo at 2. cbn. replace (Z.to_nat BUF) with (length buf) by lia.
    solve_Permutation.
  - destruct (workers !! i) as [[buf [|n r| |]]|] eqn:Ei; try done. pose proof (Hok _ _ Ei) as [Hb Hn]. cbn in Hb, Hn.
    unfold slice in Hst. destruct (Z.leb_spec 0 n), (Z.leb_spec n (len buf)); try lia. cbn [andb] in Hst.
    destruct result as [m|]; injection Hst as <-.
    + eapply (inv_turn _ _ i _ (Worker buf (Reporting m r)) []); [exact Hinv|exact Ei|done..| |exact Hc].
      unfold holds, sub_bytes. cbn. rewrite Z.sub_0_r, drop_0. solve_Permutation.
    + eapply (inv_turn _ _ i _ (Worker buf Dead) [(r, take (Z.to_nat n) buf)]); [exact Hinv|exact Ei|done|by intros []|done|done|done| |exact Hc].
      unfold holds. cbn. solve_Permutation.
  - destruct (workers !! i) as [[buf [| |m r|]]|] eqn:Ei; try done. pose proof (Hok _ _ Ei) as [Hb _]. cbn in Hb.
    destruct (Nat.ltb_spec (length channel) CHANNEL) as [Hlt|]; [|done]. injection Hst as <-.
    eapply (inv_turn _ _ i _ (Worker buf Receiving) []); [exact Hinv|exact Ei|done..| |cbn; rewrite length_app; cbn; lia].
    unfold holds. cbn. solve_Permutation.
  - destruct channel as [|p channel]; [done|]. injection Hst as <-.
    eapply inv_quiet; [exact Hinv|done..|by rewrite app_nil_r|cbn in *; lia].
  - assert (Hs' : s' = Server queue workers sent channel printed true).
    { destruct (workers !! 0%nat) as [[buf []]|]; try done; by injection Hst. }
    subst s'. eapply inv_quiet; [exact Hinv|done..|by rewrite app_nil_r|exact Hc].
Qed.

Lemma exec_echo_inv workers ls s : exec step ls (udp_server workers) = Some s -> inv ls s.
Proof.
  apply (exec_ind step inv); [|intros ls' l s1 s2 _ IH Hst; by eapply echo_step_inv].
  split; cbn; [| |exists []; split; [done|by induction workers]|lia];
    [|intros _]; apply Forall_forall; intros w ->%list_elem_of_In%repeat_spec; [|done].
  split; [|done]. cbn. by rewrite length_zeros.
Qed.

(** C12: the server makes nothing up, and loses only what it fails to send: in every state it can
    reach, whatever calls fail, what it has sent, what its workers hold and what the socket still
    has are together, up to order, one reply for each datagram that has arrived, but for one reply
    for each call of [send_to] that has failed. A reply goes to the sender of the datagram, with its
    first 1500 bytes and none that an earlier datagram left in the buffer. *)
Theorem echo_conserves workers ls s :
  exec step ls (udp_server workers) = Some s ->
  exists lost, length lost = failed_sends ls /\
    s_sent s ++ held s ++ (echo <$> s_queue s) ++ lost ≡ₚ echo <$> arrivals ls.
Proof. intros H. apply (inv_sent _ _ (exec_echo_inv _ _ _ H)). Qed.

(** ** Every datagram is answered *)

Definition weight (w : worker A) : nat :=
  match w_phase w with Echoing _ _ => 3 | Reporting _ _ => 2 | _ => 0 end.
Definition weights (ws : list (worker A)) : nat := sum_list_with weight ws.

(** The turns left, at most, when nothing more arrives. *)
Definition work (s : server A) : nat :=
  4 * length (s_queue s) + weights (s_workers s) + length (s_channel s) + (if s_ended s then 0 else 1).

Lemma weights_insert i w w' ws :
  ws !! i = Some w -> (weights (<[i := w']> ws) + weight w = weights ws + weight w')%nat.
Proof.
  intros Hi. rewrite <- (take_drop_middle ws i w Hi) at 2. rewrite insert_take_drop by (by eapply lookup_lt_Some).
  unfold weights. rewrite !sum_list_with_app. cbn. lia.
Qed.

Lemma step_work ls l s s' :
  io_ok l -> ~ is_arrival l -> inv ls s -> step l s = Some s' -> (work s' < work s)%nat.
Proof.
  intros Hio Ha [Hw _ _ _] Hst. unfold step in Hst. destruct (s_ended s) eqn:Ee; [done|].
  destruct s as [queue workers sent channel printed ended]. cbn in Ee, Hw. subst ended. unfold work.
  destruct l as [r bs|i ok|i result|i| |]; [by destruct Ha|..].
  - cbn in Hio. subst ok. destruct (workers !! i) as [[buf []]|] eqn:Ei; try done.
    destruct queue as [|[r bs] queue]; [done|]. destruct (recv_from bs buf) as [n buf']. injection Hst as <-.
    pose proof (weights_insert i _ (Worker buf' (Echoing n r)) workers Ei) as Hp. cbn -[weights] in *. lia.
  - destruct (workers !! i) as [[buf [|n r| |]]|] eqn:Ei; try done.
    assert (exists m bs, s' = set_worker i (Worker buf (Reporting m r)) (Server queue workers bs channel printed false))
      as (m & bs & ->).
    { pose proof (Forall_lookup_1 _ _ _ _ Hw Ei) as [Hb Hn]. cbn in Hb, Hn. destruct Hio as [m ->].
      unfold slice in Hst. destruct (Z.leb_spec 0 n), (Z.leb_spec n (len buf)); try lia. injection Hst as <-.
      by eexists _, _. }
    pose proof (weights_insert i _ (Worker buf (Reporting m r)) workers Ei) as Hp. cbn -[weights] in *. lia.
  - destruct (workers !! i) as [[buf [| |m r|]]|] eqn:Ei; try done.
    case_match; [|done]. injection Hst as <-.
    pose proof (weights_insert i _ (Worker buf Receiving) workers Ei) as Hp. cbn -[weights] in *. rewrite length_app. cbn -[weights]. lia.
  - destruct channel as [|p channel]; [done|]. injection Hst as <-. cbn -[weights]. lia.
  - destruct (workers !! 0%nat) as [[buf []]|]; try done; injection Hst as <-; cbn -[weights]; lia.
Qed.

(** A server that can do nothing more has nothing left to do. *)
Lemma stuck_idle ls s :
  inv ls s -> Forall io_ok ls -> s_ended s = false -> s_workers s <> [] ->
  (forall l s', io_ok l -> ~ is_arrival l -> step l s <> Some s') ->
  s_queue s = [] /\ held s = [] /\ s_channel s = [].
Proof.
  intros [Hw Hal _ Hc] Hio He Hne Hstuck. specialize (Hal Hio). destruct s as [queue workers sent channel printed ended]. cbn in *. subst ended.
  destruct channel as [|p channel]; [|exfalso; by eapply (Hstuck Show); [|intros []|]].
  assert (Hr : Forall (fun w => w_phase w = Receiving) workers).
  { apply Forall_lookup. intros i [buf [|n r|m r|]] Hi; [done|exfalso..];
      pose proof (Forall_lookup_1 _ _ _ _ Hw Hi) as [Hb Hn]; pose proof (Forall_lookup_1 _ _ _ _ Hal Hi); cbn in Hb, Hn.
    - eapply (Hstuck (Send i (Some 0))); [by eexists|by intros []|]. unfold step. cbn [s_ended]. rewrite Hi.
      unfold slice. destruct (Z.leb_spec 0 n), (Z.leb_spec n (len buf)); try lia. reflexivity.
    - eapply (Hstuck (Report i)); [done|by intros []|]. unfold step. cbn [s_ended]. by rewrite Hi.
    - done. }
  assert (Hh : workers ≫= holds = []).
  { clear -Hr. induction Hr as [|w ws Hx _ IH]; [done|]. cbn. unfold holds at 1. by rewrite Hx. }
  unfold held. cbn. split; [|by rewrite Hh]. destruct queue as [|[r bs] queue]; [done|]. exfalso.
  destruct workers as [|[buf ph] ws]; [done|]. apply Forall_inv in Hr. cbn in Hr. subst ph.
  destruct (recv_from bs buf) as [n buf'] eqn:Er.
  eapply (Hstuck (Recv 0 true)); [done|by intros []|]. unfold step. cbn [s_ended lookup list_lookup]. by rewrite Er.
Qed.

Lemma not_ended ls s :
  Forall io_ok ls -> forall workers, exec step ls (udp_server (S workers)) = Some s ->
  s_ended s = false /\ s_workers s <> [].
Proof.
  intros Hio workers H. revert s H Hio.
  apply (exec_ind step (fun ls s => Forall io_ok ls -> s_ended s = false /\ s_workers s <> [])); [done|].
  intros ls' l s1 s2 Hx IH Hst [Hls Hl]%Forall_app. apply Forall_inv in Hl. destruct (IH Hls) as (He & Hn).
  pose proof (inv_alive _ _ (exec_echo_inv _ _ _ Hx) Hls) as Hal. unfold step in Hst. rewrite He in Hst.
  destruct s1 as [queue ws sent channel printed ended]. cbn in *. subst ended.
  destruct l as [r bs|i ok|i result|i| |]; repeat (case_match; try done); simplify_eq/=;
    (split; [try done|]); try done; try (by intros ?%(f_equal length); rewrite ?length_insert in *; destruct ws).
  all: destruct ws as [|w ws]; [done|]; apply Forall_inv in Hal; simplify_eq/=; done.
Qed.

Lemma exec_work ls0 s ls : forall s',
  inv ls0 s -> exec step ls s = Some s' -> Forall io_ok ls -> Forall (fun l => ~ is_arrival l) ls ->
  (length ls + work s' <= work s)%nat.
Proof.
  revert ls0 s. induction ls as [|l ls IH]; intros ls0 s s' Hi H Hio Ha; [injection H as <-; apply le_n|].
  apply bind_Some in H as (s1 & H1 & H2). apply Forall_cons in Hio as [Hl Hio], Ha as [Hal Ha].
  pose proof (step_work _ _ _ _ Hl Hal Hi H1). pose proof (IH _ s1 s' (echo_step_inv _ _ _ _ Hi H1) H2 Hio Ha). cbn [length]. lia.
Qed.

(** C13: while no [recv_from] and no [send_to] fails, every datagram is answered: from any state a server
    with at least one worker reaches that way, when nothing more arrives its tasks take a bounded
    number of turns, in whatever order, and when none can go on, the replies sent are those of all
    the datagrams received, and all reports have been printed. *)
Theorem echo_answers_all workers ls s ls' s' :
  (0 < workers)%nat -> exec step ls (udp_server workers) = Some s -> Forall io_ok ls ->
  exec step ls' s = Some s' -> Forall io_ok ls' -> Forall (fun l => ~ is_arrival l) ls' ->
  (length ls' <= work s)%nat /\
  ((forall l s'', io_ok l -> ~ is_arrival l -> step l s' <> Some s'') ->
   s_sent s' ≡ₚ echo <$> arrivals ls /\ s_channel s' = []).
Proof.
  intros Hw H Hio H' Hio' Ha'. pose proof (exec_echo_inv _ _ _ H) as Hi.
  pose proof (exec_work ls s ls' s' Hi H' Hio' Ha') as Hlen. split; [lia|]. intros Hstuck.
  pose proof (exec_app_Some step ls ls' _ _ _ H H') as Hall.
  assert (Hioall : Forall io_ok (ls ++ ls')) by by apply Forall_app.
  pose proof (exec_echo_inv _ _ _ Hall) as Hi'.
  destruct workers as [|workers]; [lia|].
  destruct (not_ended _ _ Hioall _ Hall) as [He Hn].
  destruct (stuck_idle _ _ Hi' Hioall He Hn Hstuck) as (Hq & Hh & Hc). split; [|done].
  destruct (inv_sent _ _ Hi') as (lost & Hlost & Hs). rewrite failed_none in Hlost by done. apply nil_length_inv in Hlost as ->.
  rewrite Hq, Hh, !app_nil_r in Hs. rewrite Hs.
  assert (Harr : arrivals (ls ++ ls') = arrivals ls); [|by rewrite Harr].
  unfold arrivals. rewrite omap_app. rewrite <- (app_nil_r (omap _ ls)) at 2. f_equal.
  clear -Ha'. induction Ha' as [|l ls' Hl _ IH]; [done|]. cbn. rewrite IH. by destruct l as [r bs| | | | |]; [destruct Hl|..].
Qed.
End Server.

(** ** Text *)

Lemma drop_zeros k n : 0 <= n -> drop k (zeros n) = zeros (n - Z.of_nat k).
Proof.
  unfold zeros. intros Hn. replace (Z.to_nat (n - Z.of_nat k)) with (Z.to_nat n - k)%nat by lia.
  generalize (Z.to_nat n). clear. induction k as [|k IH]; intros [|m]; try done. apply IH.
Qed.

Lemma ascii_zeros n : forallb (between 0 0x7f) (zeros n) = true.
Proof. unfold zeros. by induction (Z.to_nat n). Qed.

(** A line with what the buffer of the client holds after it. *)
Definition padded (line : list byte) : list byte := line ++ zeros (REPLY - len line).

(** A line makes the round trip: the client shows the line it has sent to the server, followed
    by the zeros of its buffer, when the line is text of at most 512 bytes. *)
Theorem udp_round_trip line :
  utf8 line = true -> len line <= REPLY ->
  udp_client_turn (Some (echo ((), line)).2) = Ok (EchoBack (padded line)).
Proof.
  intros Hu Hl. unfold udp_client_turn, recv_from, echo, padded. cbn [snd].
  assert (Hz : length (zeros REPLY) = 512%nat) by reflexivity. rewrite Hz.
  unfold REPLY, BUF in *. rewrite !take_ge by (rewrite ?length_take; lia).
  rewrite drop_zeros, utf8_app by done. by rewrite utf8_ascii by apply ascii_zeros.
Qed.

(** A longer line ends the client when a character extends over the end of its buffer: here
    one of two bytes, after 511 bytes of ASCII. *)
Theorem udp_long_line_panics line c1 c2 rest :
  len line = 511 -> forallb (between 0 0x7f) line = true -> between 0xc2 0xdf c1 = true ->
  udp_client_turn (Some (echo ((), line ++ c1 :: c2 :: rest)).2) = Panic.
Proof.
  intros Hl Ha Hc. unfold udp_client_turn, recv_from, echo. cbn [snd].
  assert (Hz : length (zeros REPLY) = 512%nat) by reflexivity. rewrite Hz.
  assert (Ht : take 512 (take (Z.to_nat BUF) (line ++ c1 :: c2 :: rest)) = line ++ [c1]).
  { rewrite take_take. replace (512 `min` Z.to_nat BUF)%nat with (length line + 1)%nat by (unfold BUF; lia).
    by rewrite take_app_add. }
  rewrite Ht. replace (drop _ (zeros REPLY)) with (@nil byte).
  - rewrite app_nil_r, utf8_app by by apply utf8_ascii. rewrite utf8_unfold. unfold utf8_step.
    assert (Hb : between 0 0x7f c1 = false).
    { unfold between in *. apply andb_true_iff in Hc as [?%Z.leb_le _]. apply andb_false_iff. right. lia. }
    by rewrite Hb, Hc.
  - rewrite length_app, drop_zeros by done. cbn [length]. by replace (REPLY - Z.of_nat (length line + 1)) with 0 by (unfold REPLY; lia).
Qed.

(** ** Lines *)

Lemma line_end_none s : char 10 ∉ s -> line_end s = None.
Proof.
  induction s as [|b s IH]; [done|]. rewrite not_elem_of_cons. intros [Hb Hs]. cbn.
  by rewrite bool_decide_eq_false_2, IH by done.
Qed.

Lemma line_end_last s : char 10 ∉ s -> line_end (s ++ [char 10]) = Some (length (s ++ [char 10])).
Proof.
  induction s as [|b s IH]; [done|]. rewrite not_elem_of_cons. intros [Hb Hs]. cbn.
  by rewrite bool_decide_eq_false_2, IH by done.
Qed.

(** Over TCP the client shows the line it has sent, however the stream is cut into reads. *)
Theorem tcp_round_trip line chunks rest :
  char 10 ∉ line -> utf8 line = true -> Forall (fun c => c <> []) chunks -> concat chunks = line ++ [char 10] ->
  tcp_client_turn (chunks ++ rest) = Some (Ok (EchoBack (line ++ [char 10]), rest)).
Proof.
  intros Hn Hu Hc Heq.
  assert (Hr : read_line (chunks ++ rest) = Some (line ++ [char 10], rest)).
  { clear Hu. revert line Hn Heq. induction Hc as [|c chunks Hne Hc IH]; intros line Hn Heq; [by destruct line|].
    cbn [app read_line]. destruct c as [|b c]; [done|]. set (chunk := b :: c) in *. cbn [concat] in Heq.
    destruct (decide (concat chunks = [])) as [Hnil|Hcons].
    - rewrite Hnil, app_nil_r in Heq. rewrite Heq, line_end_last, take_ge by done.
      destruct chunks as [|c' chunks]; [done|]. apply Forall_inv in Hc. by destruct c'.
    - destruct (exists_last Hcons) as (front & z & Hlast).
      rewrite Hlast, (assoc_L (++)) in Heq. apply app_inj_tail in Heq as [Hline ->].
      subst line. apply not_elem_of_app in Hn as [Hn1 Hn2]. rewrite (line_end_none chunk Hn1).
      rewrite (IH front Hn2 Hlast). cbn. by rewrite (assoc_L (++)). }
  unfold tcp_client_turn. rewrite Hr. cbn. rewrite utf8_app by done. done.
Qed.

(** ** Instances *)

Definition two_datagrams : list (label nat) :=
  [Arrive 7%nat (lit "hello"); Arrive 8%nat (lit "x"); Recv 0 true; Recv 1 true; Send 1 (Some 1)].

Lemma echo_conserves_witness :
  exists s lost, exec step (two_datagrams ++ [Send 0 None]) (udp_server 2) = Some s /\ length lost = 1%nat /\
    s_sent s ++ held s ++ (echo <$> s_queue s) ++ lost ≡ₚ [(7%nat, lit "hello"); (8%nat, lit "x")].
Proof.
  destruct (exec step (two_datagrams ++ [Send 0 None]) (udp_server 2)) as [s|] eqn:E; [|by vm_compute in E].
  destruct (echo_conserves 2 _ s E) as (lost & H1 & H2). exists s, lost. done.
Defined.

Lemma echo_answers_all_witness :
  exists s s', exec step two_datagrams (udp_server 2) = Some s /\
    exec step [Send 0 (Some 5); Report 0; Show; Report 1; Show] s = Some s' /\
    s_sent s' ≡ₚ [(7%nat, lit "hello"); (8%nat, lit "x")] /\ s_channel s' = [].
Proof.
  destruct (exec step two_datagrams (udp_server 2)) as [s|] eqn:E; [|by vm_compute in E].
  destruct (exec step [Send 0 (Some 5); Report 0; Show; Report 1; Show] s) as [s'|] eqn:E'.
  - exists s, s'. split; [done|]. split; [done|].
    apply (echo_answers_all 2 two_datagrams s _ s' ltac:(lia) E ltac:(repeat constructor; by eexists) E').
    + repeat constructor; by eexists.
    + repeat (constructor; [by intros []|]). constructor.
    + vm_compute in E. injection E as <-. vm_compute in E'. injection E' as <-.
      intros l s'' Hio Ha Hst. unfold step in Hst. cbn [s_ended] in Hst.
      destruct l as [r bs|[|[|i]] ok|[|[|i]] result|[|[|i]]| |];
        try done; try (cbn in Hio; by subst ok); by destruct Ha.
  - exfalso. vm_compute in E. injection E as <-. by vm_compute in E'.
Defined.

Lemma udp_round_trip_witness :
  udp_client_turn (Some (lit "hello")) = Ok (EchoBack (padded (lit "hello"))).
Proof. by apply (udp_round_trip (lit "hello")). Defined.

Definition long_line : list byte := repeat (char 97) 511.
Lemma udp_long_line_panics_witness :
  udp_client_turn (Some (echo ((), long_line ++ [char 0xc3; char 0xa9; char 10])).2) = Panic.
Proof. by apply udp_long_line_panics. Defined.

Lemma tcp_round_trip_witness :
  tcp_client_turn [lit "he"; lit "llo" ++ [char 10]] = Some (Ok (EchoBack (lit "hello" ++ [char 10]), [])).
Proof.
  apply (tcp_round_trip (lit "hello") [lit "he"; lit "llo" ++ [char 10]] []); [|done| |done].
  - cbn. rewrite !not_elem_of_cons. repeat (split; [done|]). by apply not_elem_of_nil.
  - by repeat constructor.
Defined.
